(* ===== verification/_CoqProject ===== *)
-Q . S2P
Prelude.v
GoStrings.v
Url.v
Json.v
Validate.v
Config.v
FleetTypes.v
Fleet.v
Generate.v
Pack.v
Render.v
Envelope.v
XmlText.v
State.v
Control.v
Messages.v
XmlDoc.v
Outbound.v
Scheduler.v
Session.v
Exchange.v
Peers.v
Supervisor.v
FleetEdit.v
Settings.v
Certificate.v
Mux.v
Patterns.v
Panel.v
SupervisorRuns.v
SupervisorMain.v
Logger.v
Storage.v
Evidence.v
Threads.v
Process.v
ProcessRuns.v
ProcessSpec.v
ProcessProps.v
FleetStart.v
