(* ===== verification/Prelude.v ===== *)
(** * VEGM: a verification development

    VEGM is a virtual electronic gaming machine: a process that answers G2S
    messages of a host over HTTP, driven by a message pack, and talks to the host
    by itself; a supervisor runs a fleet of such processes from a manifest. The
    development models the Go code under [src/] and proves what makes it correct.

    ** The parts and how they interact

    A fleet manifest is checked, resolved into instances and written out as one
    configuration file per instance ([fleet/]). A process loads its configuration
    and its message pack, applies the overlays ([runtime/config.go], [pack/]),
    keeps a runtime state, and serves two muxes: the wire, on which a host sends
    G2S messages that are parsed, admitted, answered from a template and change
    the state; and the control plane, which reads and changes the same state.
    Two goroutines may send messages to the host: the outbound scheduler and the
    session engine. Everything is logged as events and payload files.

    ** Files

    - [Prelude]: results, machine integers, selection of the first usable value,
      sorting; tactics and hints.  [GoStrings], [Url], [Json], [Validate]: what
      the program uses of Go's [strings], [strconv], [path/filepath], [net/url]
      and [encoding/json], and the joining of validation errors.
    - [Config]: [runtime/config.go], [runtime/xml_mode_registry.go].
    - [FleetTypes], [Fleet], [Generate]: [fleet/].
    - [Pack]: [pack/].  [Render]: [runtime/render.go].
    - [Envelope]: [runtime/soap_parser.go], [xmlutil.go], [ack_resolver.go],
      [binding.go], and the ack helpers of [outbound.go], [evidence_latest.go].
    - [State]: the server record, slices with their backing arrays, the state
      monad, the log and the state updates ([server.go], [logger.go],
      [control_restore.go]).
    - [Control]: the wire handler and the control handlers ([wire_restore.go],
      [control_restore.go], [control_ui.go]) and [NewServer].
    - [Messages]: the renderers of the process's own messages
      ([g2s_xsd_renderer.go] and the [render*] functions of the session files).
    - [Outbound]: [outbound.go], [session_timestamps.go],
      [session_parse_evidence.go].
    - [Scheduler]: [scheduler.go].  [Session]: [session_engine.go],
      [session_startup_exchange.go], [session_keepalive.go].
    - [XmlText]: the decoder of Go's [encoding/xml], which all parsers read
      through.  [XmlDoc]: the documents that the renderers print, and that the
      decoder reads back.  [Exchange]: what one process renders is what another
      parses.  [Peers]: the engine of one process and the wire handler of another.
    - [Logger]: the queries and exports of [logger.go] and their handlers.
      [Storage]: [storage/] and the logger's use of the index.
      [Evidence]: [evidence_latest.go].  [Certificate]: [cert_status.go].
    - [Supervisor]: the child processes ([server.go], [restart_policy.go],
      [scale_launcher.go] of [cmd/vegm-supervisor]).  [SupervisorRuns]: what holds
      in all interleavings of its requests and monitors.  [SupervisorMain]:
      [main.go] and [launch.go].  [FleetEdit]: [fleet_edit.go].  [Settings]:
      [settings.go].  [Panel]: the HTTP interface ([server.go],
      [instance_actions.go], [export.go]).  [Mux]: how [net/http] routes paths.
      [Patterns]: which patterns [net/http] accepts, and which of them conflict.
    - [Threads]: the handlers and goroutines of a process cut into the sections
      between which others can run.  [Process]: [Start], the routes of the control
      plane, [cmd/vegm/main.go], and runs as a step relation and as a function.
      [ProcessRuns], [ProcessSpec], [ProcessProps]: the lemmas and theorems on
      these runs.
    - [FleetStart]: from the manifest through the supervisor's files to a process
      that listens and answers.

    A Go function keeps its name; a block of a function that is a definition of
    its own has a name that says what the block decides. A struct is a record
    whose fields carry a short prefix; JSON tags are in the codecs ([enc_*],
    [dec_*]). The state is passed through the monad [State.M]; a block under the
    mutex is one definition. [Threads.task] is a handler as a sequence of such
    blocks, and [Process.section_step] runs one block of one task; reads of the
    state or of fields that never change, and writes to the log and the payload
    directory that follow a block with no lock in between, are in one block.

    ** What the theorems show

    - Packs and overlays: [ValidatePack], [ValidateOverlay] decide stated
      predicates whatever the iteration order of maps; [ApplyOverlay] implements
      a checked record update through its generic JSON detour and returns valid
      packs only; packs survive writing and reading.
    - Configurations: validation completes and checks, is idempotent, keeps the
      registry of XML modes; accepted configurations survive writing and reading.
    - Fleets: validation decides a stated predicate; resolution is total on valid
      manifests and follows its precedence; generated files are loadable and
      claim distinct sockets.
    - Templates and envelopes: replacement implements substitution; the parser
      reads back both message forms, never forgets, rejects foreign envelopes.
    - The text of messages: the decoder ends on every input with the fuel it is
      given, its start and end tags match, and it reads printed documents back;
      a message of a session arrives at another process with the operation and
      the identifiers it was rendered with.
    - Handlers: who is admitted, what an accepted message does and how each other
      is refused; injected commands agree with the wire; host edits on shared
      arrays.
    - Talking to the host: rendered messages determine their identifiers; a
      message is sent exactly when it can be and success is judged by status and
      acknowledgement; the scheduler's ticks on every branch, that failing
      heartbeats are noticed, and the bounds of its timer; the session engine
      follows its protocol, is back in a healthy session four turns after the
      host answers again, and stops when it is told to; with another process as
      the host, whose pack answers as the repository's packs do, and a line that
      loses messages and answers, the host knows the session the engine is in,
      and both are in one four turns after the line is good again.
    - Logs, index and evidence: a query returns the oldest matching events; no
      value becomes part of a statement, and each is bound to its own column; an export writes what it says; the
      evidence view says of its files what is true of them; what a refused or an
      overlong message can do to them.
    - The supervisor: no child is lost, none runs or is started after shutdown, the
      restart policy decides in every state, launches are bounded by it, edits of the fleet implement edits of the manifest, in every
      interleaving; what its command writes, prints and serves.
    - A process: which listeners [Start] opens and how the wire is protected, and
      for which paths it panics; in every interleaving the parts of the server
      agree, answers have the types of the interface, and only a POST changes
      anything; a message on the wire takes effect in one of its sections, as if
      it were alone, whatever is done between them.

    ** Parameters, bounds and fuel

    The clock is a sequence of readings [nat -> Z] in nanoseconds; the order in
    which a [range] loop visits a map is an argument; the peer, the file system,
    key files and refused addresses are an [Outbound.environment] whose answers
    may depend on all requests made so far. Integers are [Z]; where they can
    overflow (counters, durations, JSON numbers) the wrap at 64 bits is written
    out. Recursion is structural; loops that run forever in the program
    ([ticks], [engine_run]) take the number of turns or the list of what the
    context shows at each turn, and the theorems hold for every such list. The
    loop of the decoder has the length of its input as fuel, which is enough
    because every token takes a byte ([XmlText.Decode_correct]).

    ** Not modelled

    The text layer of JSON: codecs work on JSON trees. The handlers take the tokens
    of a body beside its bytes; [Peers.post] supplies those of [XmlText.Decode],
    to which the tables of letters beyond ASCII in names, and whether a late XML
    declaration is refused, are arguments. Listeners, TLS handshakes and the
    HTTP server; a handler is a function from a request to a response. Texts of
    library errors are inputs. Letter case beyond ASCII and the runes that fold
    into it; [%q] of non-printable runes beyond ASCII.
    Percent-encoded paths of requests. Which requests the wire's patterns match: a
    request of the wire is one that has reached its handler; which letters beyond
    ASCII the name of a pattern's wildcard may have is an argument.
    The redirects that an [http.Client] follows are part of the peer's answer.
    The mutex is not a resource of the model: a section runs when it runs, so that
    waiting for the lock, and forgetting to release it, cannot be expressed; every
    call of the peer returns. Accesses without the lock are atomic sections; what the memory model of Go allows for
    the races that remain is not modelled, nor are deadlines, contexts that
    cancel a call in flight (the peer's answer is then an error, which it can
    always be), and the time between steps. A tick may begin in any state of the
    process, which allows more runs than the ticker does.
    Left out: the static pages that are embedded in the binaries and their file
    server, the registration of the SQL driver, scripts, tests, vendored code. *)

From stdpp Require Export base gmap strings list fin_maps sorting pretty.
From Stdlib Require Export ZArith Lia.

#[export] Set Warnings "-clear-no-such-hyp,-register-all".

Declare Scope vegm_scope.
Delimit Scope vegm_scope with vegm.

(** ** Fallible code: Go's [(T, error)] pairs *)

(** The source returns either a value with a nil error or an error whose text
    callers print; the value that accompanies an error is never read. *)
Inductive result (A : Type) : Type :=
  | Ok (a : A)
  | Err (msg : string).
Arguments Ok {A} _.
Arguments Err {A} _.

#[export] Instance result_ret : MRet result := λ A a, Ok a.
#[export] Instance result_bind : MBind result := λ A B f r,
  match r with
  | Ok a => f a
  | Err e => Err e
  end.
#[export] Instance result_fmap : FMap result := λ A B f r,
  match r with
  | Ok a => Ok (f a)
  | Err e => Err e
  end.

Definition is_ok {A} (r : result A) : bool :=
  match r with Ok _ => true | Err _ => false end.

(** [for _, x := range l { y, err := f(x); if err != nil { return nil, err };
    out = append(out, y) }] with the index the loop variable holds. *)
Fixpoint traverse_from {A B} (f : nat → A → result B) (i : nat) (l : list A)
    : result (list B) :=
  match l with
  | [] => Ok []
  | x :: l' =>
      y ← f i x;
      ys ← traverse_from f (S i) l';
      Ok (y :: ys)
  end.

(** [fmt.Errorf("ctx: %w", err)] *)
Definition wrap_err {A} (ctx : string) (r : result A) : result A :=
  match r with
  | Ok a => Ok a
  | Err e => Err (ctx +:+ ": " +:+ e)
  end.

(** ** Machine integers *)

(** Go's [int] on the 64-bit targets: two's complement wrap-around. *)
Definition int64_min : Z := -(2 ^ 63).
Definition int64_max : Z := 2 ^ 63 - 1.
Definition int64_wrap (z : Z) : Z := (z - int64_min) `mod` 2 ^ 64 + int64_min.
Definition in_int64 (z : Z) : bool := (int64_min <=? z)%Z && (z <=? int64_max)%Z.

(** ** Selection of the first usable value *)

(** [firstNonEmpty] of fleet/resolve.go and runtime/outbound.go. *)
Fixpoint firstNonEmpty (values : list string) : string :=
  match values with
  | [] => ""
  | v :: values' => if bool_decide (v = "") then firstNonEmpty values' else v
  end.

(** [firstNonZero] of fleet/resolve.go. *)
Fixpoint firstNonZero (values : list Z) : Z :=
  match values with
  | [] => 0
  | v :: values' => if bool_decide (v = 0%Z) then firstNonZero values' else v
  end.

(** [firstNonEmptySlice] of fleet/resolve.go. *)
Fixpoint firstNonEmptySlice (values : list (list string)) : list string :=
  match values with
  | [] => []
  | v :: values' => if bool_decide (v = []) then firstNonEmptySlice values' else v
  end.

(** [maxInt] of runtime/outbound.go. *)
Definition maxInt (v fallback : Z) : Z := if (0 <? v)%Z then v else fallback.

(** ** Maps *)

(** A missing key of a [map[string]string] reads as the empty string. *)
Definition get_str (m : gmap string string) (k : string) : string :=
  default "" (m !! k).

(** [sort.Strings]: byte-wise order. *)
Definition sort_strings (l : list string) : list string := merge_sort String.le l.

(** ** Automation *)

Create HintDb vegm.
Create Rewrite HintDb vegm.

(** Case analysis on every [match] and [if] of the goal and the hypotheses,
    keeping the equations. *)
Ltac split_matches :=
  repeat match goal with
  | H : context [match ?x with _ => _ end] |- _ => destruct x eqn:?; simplify_eq/=
  | |- context [match ?x with _ => _ end] => destruct x eqn:?; simplify_eq/=
  end.

(** Turn the boolean tests of the code into propositions. *)
Ltac bool_props :=
  repeat match goal with
  | H : bool_decide _ = true |- _ => apply bool_decide_eq_true in H
  | H : bool_decide _ = false |- _ => apply bool_decide_eq_false in H
  | H : (_ && _) = true |- _ => apply andb_true_iff in H; destruct H
  | H : (_ || _) = false |- _ => apply orb_false_iff in H; destruct H
  | H : negb _ = true |- _ => apply negb_true_iff in H
  | H : negb _ = false |- _ => apply negb_false_iff in H
  | H : (_ <? _)%Z = true |- _ => apply Z.ltb_lt in H
  | H : (_ <? _)%Z = false |- _ => apply Z.ltb_ge in H
  | H : (_ <=? _)%Z = true |- _ => apply Z.leb_le in H
  | H : (_ <=? _)%Z = false |- _ => apply Z.leb_gt in H
  | H : (_ =? _)%Z = true |- _ => apply Z.eqb_eq in H
  | H : (_ =? _)%Z = false |- _ => apply Z.eqb_neq in H
  end.

(** ** Shared lemmas *)

Lemma result_bind_ok {A B} (f : A → result B) (r : result A) b :
  (r ≫= f) = Ok b → ∃ a, r = Ok a ∧ f a = Ok b.
Proof. destruct r as [a|e]; simpl; intros H; [by exists a|discriminate]. Qed.

(** Open a bind of [result] in the hypotheses. *)
Ltac result_binds :=
  repeat match goal with
  | H : mbind _ _ = Ok _ |- _ =>
      let v := fresh "v" in let E := fresh "E" in let K := fresh "K" in
      destruct (result_bind_ok _ _ _ H) as (v & E & K); clear H
  end.

Lemma is_ok_spec {A} (r : result A) : is_ok r = true ↔ ∃ a, r = Ok a.
Proof. destruct r; naive_solver. Qed.

Lemma traverse_from_ok {A B} (f : nat → A → result B) l i ys :
  traverse_from f i l = Ok ys →
  length ys = length l ∧
  ∀ k x, l !! k = Some x → ∃ y, ys !! k = Some y ∧ f (i + k) x = Ok y.
Proof.
  revert i ys. induction l as [|x l IH]; intros i ys H; simpl in H.
  { simplify_eq. split; [done|]. intros k x Hk. by rewrite lookup_nil in Hk. }
  apply result_bind_ok in H as (y & Hy & H).
  apply result_bind_ok in H as (ys' & Hys & H). simplify_eq.
  destruct (IH _ _ Hys) as [Hlen Hget]. split; [simpl; by f_equal|].
  intros [|k] x' Hk; simplify_eq/=.
  - exists y. split; [done|]. by rewrite Nat.add_0_r.
  - destruct (Hget k x' Hk) as (y' & ? & Hf). exists y'. split; [done|].
    by rewrite Nat.add_succ_r, <-Nat.add_succ_l.
Qed.

Lemma traverse_from_total {A B} (f : nat → A → result B) l i :
  (∀ k x, l !! k = Some x → is_ok (f (i + k) x) = true) →
  is_ok (traverse_from f i l) = true.
Proof.
  revert i. induction l as [|x l IH]; intros i H; [done|]. simpl.
  pose proof (H 0 x eq_refl) as H0. rewrite Nat.add_0_r in H0.
  destruct (f i x); [simpl|done].
  specialize (IH (S i)). destruct (traverse_from f (S i) l); [done|].
  apply IH. intros k x' Hk. rewrite Nat.add_succ_l, <-(Nat.add_succ_r i k). by apply (H (S k)).
Qed.

Lemma int64_wrap_id z : in_int64 z = true → int64_wrap z = z.
Proof.
  unfold in_int64, int64_wrap, int64_min, int64_max. intros H. bool_props.
  rewrite Z.mod_small; lia.
Qed.

Lemma int64_wrap_range z : in_int64 (int64_wrap z) = true.
Proof.
  unfold in_int64, int64_wrap, int64_min, int64_max.
  pose proof (Z.mod_pos_bound (z - - 2 ^ 63) (2 ^ 64) ltac:(lia)).
  apply andb_true_intro. split; apply Z.leb_le; lia.
Qed.

Lemma firstNonEmpty_elem vs : firstNonEmpty vs ≠ "" → firstNonEmpty vs ∈ vs.
Proof.
  induction vs as [|v vs IH]; simpl; [done|]. case_bool_decide; set_solver.
Qed.

Lemma firstNonEmpty_empty vs : firstNonEmpty vs = "" ↔ Forall (λ v, v = "") vs.
Proof.
  induction vs as [|v vs IH]; simpl; [split; auto|].
  case_bool_decide; rewrite Forall_cons; naive_solver.
Qed.

(** The value returned is the earliest non-empty one. *)
Lemma firstNonEmpty_app pre v post :
  Forall (λ w, w = "") pre → v ≠ "" → firstNonEmpty (pre ++ v :: post) = v.
Proof.
  induction pre as [|w pre IH]; simpl; intros Hpre Hv.
  - by rewrite bool_decide_eq_false_2.
  - apply Forall_cons in Hpre as [-> Hpre]. rewrite bool_decide_eq_true_2; auto.
Qed.

Lemma firstNonEmpty_last vs d : d ≠ "" → firstNonEmpty (vs ++ [d]) ≠ "".
Proof.
  intros Hd. rewrite firstNonEmpty_empty, Forall_app, Forall_singleton. tauto.
Qed.

Lemma firstNonZero_zero vs : firstNonZero vs = 0%Z ↔ Forall (λ v, v = 0%Z) vs.
Proof.
  induction vs as [|v vs IH]; simpl; [split; auto|].
  case_bool_decide; rewrite Forall_cons; naive_solver.
Qed.

Lemma sort_strings_perm l : sort_strings l ≡ₚ l.
Proof. apply merge_sort_Permutation. Qed.

(** Sorting forgets the order in which the strings were produced. *)
Lemma sort_strings_canonical l k : l ≡ₚ k → sort_strings l = sort_strings k.
Proof.
  intros Hlk. unfold sort_strings.
  apply (StronglySorted_unique String.le).
  - apply (StronglySorted_merge_sort _).
  - apply (StronglySorted_merge_sort _).
  - by rewrite !merge_sort_Permutation.
Qed.

Lemma sort_strings_nil l : sort_strings l = [] ↔ l = [].
Proof.
  split; [|by intros ->]. intros H. pose proof (sort_strings_perm l) as Hp.
  rewrite H in Hp. by apply Permutation_nil_l in Hp.
Qed.

Lemma map_nil_iff {A B} (f : A → B) l : map f l = [] ↔ l = [].
Proof. by destruct l. Qed.

Lemma concat_nil {A} (ls : list (list A)) : concat ls = [] ↔ Forall (λ l, l = []) ls.
Proof.
  induction ls as [|l ls IH]; simpl; [split; auto|].
  rewrite app_nil, IH, Forall_cons. done.
Qed.

Lemma concat_imap_nil {A B} (f : nat → A → list B) (P : A → Prop) l :
  (∀ i x, f i x = [] ↔ P x) → concat (imap f l) = [] ↔ Forall P l.
Proof.
  intros H. rewrite concat_nil. revert f H.
  induction l as [|x l IH]; intros f H; simpl; [split; auto|].
  rewrite !Forall_cons, H. rewrite (IH (f ∘ S)); [done|]. intros i y. apply H.
Qed.

Lemma concat_map_nil {A B} (f : A → list B) (P : A → Prop) l :
  (∀ x, f x = [] ↔ P x) → concat (map f l) = [] ↔ Forall P l.
Proof.
  intros H. rewrite concat_nil. induction l as [|x l IH]; simpl; [split; auto|].
  by rewrite !Forall_cons, H, IH.
Qed.

(** Visiting a map in another order only permutes what is collected. *)
Lemma concat_map_perm {A B} (f : A → list B) l k :
  l ≡ₚ k → concat (map f l) ≡ₚ concat (map f k).
Proof.
  induction 1; simpl; [done|by f_equiv| |by etrans].
  rewrite !app_assoc. f_equiv. apply Permutation_app_comm.
Qed.

Lemma filter_nil_intro {A} (f : A → bool) l :
  (∀ x, x ∈ l → f x = false) → List.filter f l = [].
Proof.
  induction l as [|x l IH]; intros H; [done|]. simpl.
  rewrite H by left. apply IH. intros y Hy. apply H. by right.
Qed.

Lemma NoDup_map_filter {A B} (f : A → B) (g : A → bool) l :
  NoDup (map f l) → NoDup (map f (List.filter g l)).
Proof.
  induction l as [|x l IH]; simpl; [done|]. intros [Hx Hl]%NoDup_cons.
  destruct (g x); simpl; [|auto]. apply NoDup_cons. split; [|auto].
  intros Hin. apply Hx. apply list_elem_of_In, in_map_iff in Hin as (y & Hf & Hy).
  apply filter_In in Hy as [Hy _]. rewrite <-Hf.
  by apply list_elem_of_In, in_map.
Qed.

Lemma NoDup_map_elem_inj {A B} (f : A → B) l :
  NoDup (map f l) → ∀ x y, x ∈ l → y ∈ l → f x = f y → x = y.
Proof.
  induction l as [|z l IH]; simpl; intros Hnd x y Hx Hy Hf; [by apply elem_of_nil in Hx|].
  apply NoDup_cons in Hnd as [Hz Hnd].
  apply elem_of_cons in Hx as [->|Hx]; apply elem_of_cons in Hy as [->|Hy]; auto; exfalso.
  - apply Hz. rewrite Hf. by apply list_elem_of_In, in_map, list_elem_of_In.
  - apply Hz. rewrite <-Hf. by apply list_elem_of_In, in_map, list_elem_of_In.
Qed.

Lemma string_app_nil_r (s : string) : s +:+ "" = s.
Proof.
  induction s as [|a s IH]; [done|].
  change (String a (s +:+ "") = String a s). by rewrite IH.
Qed.

#[export] Hint Resolve int64_wrap_range sort_strings_perm : vegm.
#[export] Hint Rewrite @sort_strings_nil string_app_nil_r : vegm.
