(* ===== verification/GoStrings.v ===== *)
(** * Go strings

    The parts of Go's [strings], [strconv], [fmt] and [path/filepath] packages
    that the program calls, on strings seen as byte sequences. *)

From S2P Require Import Prelude.
From Stdlib Require Export Ascii.

(** ** Prefixes, suffixes, searching *)

(** [strings.HasPrefix(s, p)] *)
Fixpoint has_prefix (p s : string) : bool :=
  match p, s with
  | EmptyString, _ => true
  | String a p', String b s' => bool_decide (a = b) && has_prefix p' s'
  | String _ _, EmptyString => false
  end.

(** [s[n:]] for [n <= len(s)] *)
Fixpoint drop_bytes (n : nat) (s : string) : string :=
  match n, s with
  | 0, _ => s
  | S n', String _ s' => drop_bytes n' s'
  | S _, EmptyString => ""
  end.

(** [s[:n]] for [n <= len(s)] *)
Fixpoint take_bytes (n : nat) (s : string) : string :=
  match n, s with
  | 0, _ => ""
  | S n', String c s' => String c (take_bytes n' s')
  | S _, EmptyString => ""
  end.

(** [strings.HasSuffix(s, p)] *)
Fixpoint has_suffix (p s : string) : bool :=
  bool_decide (s = p) ||
  match s with
  | EmptyString => false
  | String _ s' => has_suffix p s'
  end.

(** [strings.TrimPrefix(s, p)] *)
Definition trim_prefix (p s : string) : string :=
  if has_prefix p s then drop_bytes (String.length p) s else s.

(** [strings.TrimSuffix(s, p)] *)
Definition trim_suffix (p s : string) : string :=
  if has_suffix p s then take_bytes (String.length s - String.length p) s else s.

(** [strings.Index(s, p)], with [None] for -1 *)
Fixpoint index (p s : string) : option nat :=
  if has_prefix p s then Some 0
  else match s with
       | EmptyString => None
       | String _ s' => S <$> index p s'
       end.

(** [strings.Contains(s, p)] *)
Definition contains (p s : string) : bool := bool_decide (is_Some (index p s)).

(** [strings.ReplaceAll(s, old, new)] for a non-empty [old]: scan from the left,
    [skip] counts the bytes of the last match still to be dropped. *)
Fixpoint replace_go (old new : string) (skip : nat) (s : string) : string :=
  match s with
  | EmptyString => ""
  | String c s' =>
      match skip with
      | S k => replace_go old new k s'
      | 0 => if has_prefix old s
             then new +:+ replace_go old new (String.length old - 1) s'
             else String c (replace_go old new 0 s')
      end
  end.
Definition replace_all (s old new : string) : string := replace_go old new 0 s.

(** [strings.Split(s, sep)] for a one-byte separator *)
Fixpoint split_char (sep : ascii) (s : string) : list string :=
  match s with
  | EmptyString => [""]
  | String c s' =>
      if bool_decide (c = sep) then "" :: split_char sep s'
      else match split_char sep s' with
           | [] => [String c ""]
           | w :: ws => String c w :: ws
           end
  end.

(** [strings.Join(l, sep)] *)
Definition join (sep : string) (l : list string) : string := String.concat sep l.

(** [strings.Trim(s, "c")] for a one-byte cut set *)
Fixpoint trim_left_char (c : ascii) (s : string) : string :=
  match s with
  | String a s' => if bool_decide (a = c) then trim_left_char c s' else s
  | EmptyString => ""
  end.
Fixpoint trim_right_char (c : ascii) (s : string) : string :=
  match s with
  | EmptyString => ""
  | String a s' =>
      match trim_right_char c s' with
      | EmptyString => if bool_decide (a = c) then "" else String a ""
      | t => String a t
      end
  end.
Definition trim_char (c : ascii) (s : string) : string :=
  trim_right_char c (trim_left_char c s).

(** ** White space *)

(** Length in bytes of the UTF-8 encoding of a white-space rune
    ([unicode.IsSpace]) at the head of the string, 0 when there is none. *)
Definition space_len (s : string) : nat :=
  match s with
  | String a s1 =>
      if bool_decide (a ∈ ["009"%char; "010"%char; "011"%char; "012"%char; "013"%char; " "%char]) then 1
      else match s1 with
      | String b s2 =>
          if bool_decide (a = "194"%char) && bool_decide (b ∈ ["133"%char; "160"%char]) then 2
          else match s2 with
          | String c _ =>
              if (bool_decide (a = "225"%char) && bool_decide (b = "154"%char) && bool_decide (c = "128"%char))
              || (bool_decide (a = "226"%char) && bool_decide (b = "128"%char) &&
                   (let n := Ascii.nat_of_ascii c in
                    ((128 <=? n) && (n <=? 138)) || (n =? 168) || (n =? 169) || (n =? 175)))
              || (bool_decide (a = "226"%char) && bool_decide (b = "129"%char) && bool_decide (c = "159"%char))
              || (bool_decide (a = "227"%char) && bool_decide (b = "128"%char) && bool_decide (c = "128"%char))
              then 3 else 0
          | EmptyString => 0
          end
      | EmptyString => 0
      end
  | EmptyString => 0
  end.

(** [strings.TrimLeftFunc(s, unicode.IsSpace)]; [skip] counts the bytes of the
    white-space rune being dropped. *)
Fixpoint trim_space_left_go (skip : nat) (s : string) : string :=
  match s with
  | EmptyString => ""
  | String _ s' =>
      match skip with
      | S k => trim_space_left_go k s'
      | 0 => match space_len s with
             | 0 => s
             | S k => trim_space_left_go k s'
             end
      end
  end.

(** [true] when the string is a sequence of white-space runes. *)
Fixpoint all_space_go (skip : nat) (s : string) : bool :=
  match s with
  | EmptyString => match skip with 0 => true | S _ => false end
  | String _ s' =>
      match skip with
      | S k => all_space_go k s'
      | 0 => match space_len s with
             | 0 => false
             | S k => all_space_go k s'
             end
      end
  end.

(** [strings.TrimRightFunc(s, unicode.IsSpace)]: cut at the first byte from
    which only white space follows. *)
Fixpoint trim_space_right (s : string) : string :=
  match s with
  | EmptyString => ""
  | String c s' => if all_space_go 0 s then "" else String c (trim_space_right s')
  end.

(** [strings.TrimSpace(s)] *)
Definition TrimSpace (s : string) : string :=
  trim_space_right (trim_space_left_go 0 s).

(** [strings.TrimSpace(s) == ""] *)
Definition blank (s : string) : bool := bool_decide (TrimSpace s = "").

(** ** Letter case *)

Definition lower_ascii (c : ascii) : ascii :=
  let n := Ascii.nat_of_ascii c in
  if (65 <=? n) && (n <=? 90) then Ascii.ascii_of_nat (n + 32) else c.

(** [strings.ToLower(s)], exact when [s] is ASCII and on the two runes whose
    lower case is an ASCII letter: the Kelvin sign and the dotted capital I.
    Other non-ASCII letters are left as they are. *)
Fixpoint ToLower (s : string) : string :=
  match s with
  | EmptyString => ""
  | String "226"%char (String "132"%char (String "170"%char s')) => String "k"%char (ToLower s')
  | String "196"%char (String "176"%char s') => String "i"%char (ToLower s')
  | String c s' => String (lower_ascii c) (ToLower s')
  end.

(** Simple case folding as [strings.EqualFold] applies it, exact as soon as one
    side is ASCII: besides the letters, the Kelvin sign folds to [k] and the
    long s to [s]. *)
Fixpoint fold_case (s : string) : string :=
  match s with
  | EmptyString => ""
  | String "226"%char (String "132"%char (String "170"%char s')) => String "k"%char (fold_case s')
  | String "197"%char (String "191"%char s') => String "s"%char (fold_case s')
  | String c s' => String (lower_ascii c) (fold_case s')
  end.

(** [strings.EqualFold(a, b)] *)
Definition EqualFold (a b : string) : bool := String.eqb (fold_case a) (fold_case b).

(** ** Runes *)

Definition byte_in (lo hi : nat) (c : ascii) : bool :=
  let n := Ascii.nat_of_ascii c in (lo <=? n) && (n <=? hi).
Definition continuation (c : ascii) : bool := byte_in 128 191 c.

(** Length in bytes of the rune at the head of the string, as
    [utf8.DecodeRuneInString] returns it: 1 for a byte that starts no valid
    encoding. *)
Definition rune_len (s : string) : nat :=
  match s with
  | String a (String b s2) =>
      if byte_in 194 223 a && continuation b then 2
      else match s2 with
      | String c s3 =>
          if ((byte_in 224 224 a && byte_in 160 191 b)
              || ((byte_in 225 236 a || byte_in 238 239 a) && continuation b)
              || (byte_in 237 237 a && byte_in 128 159 b)) && continuation c then 3
          else match s3 with
          | String d _ =>
              if ((byte_in 240 240 a && byte_in 144 191 b)
                  || (byte_in 241 243 a && continuation b)
                  || (byte_in 244 244 a && byte_in 128 143 b)) && continuation c && continuation d
              then 4 else 1
          | EmptyString => 1
          end
      | EmptyString => 1
      end
  | _ => 1
  end.

(** ** Formatting *)

Definition newline : string := String "010"%char "".

(** [%d] *)
Definition itoa (z : Z) : string := pretty z.
Definition itoa_nat (n : nat) : string := pretty (Z.of_nat n).

(** [%t] *)
Definition btoa (b : bool) : string := if b then "true" else "false".

Definition hex_digit (n : nat) : ascii :=
  match String.get n "0123456789abcdef" with Some c => c | None => "0"%char end.

(** One byte of [strconv.Quote]. Bytes from 0x80 on are copied, which is what
    Go does for valid UTF-8 sequences of printable runes. *)
Definition quote_byte (c : ascii) : string :=
  let n := Ascii.nat_of_ascii c in
  match c with
  | "034"%char => String "\"%char (String "034"%char "")
  | "\"%char => String "\"%char (String "\"%char "")
  | "007"%char => "\a"
  | "008"%char => "\b"
  | "012"%char => "\f"
  | "010"%char => "\n"
  | "013"%char => "\r"
  | "009"%char => "\t"
  | "011"%char => "\v"
  | _ => if (n <? 32) || (n =? 127)
         then "\x" +:+ String (hex_digit (n / 16)) (String (hex_digit (n mod 16)) "")
         else String c ""
  end.

(** [%q] *)
Fixpoint quote_body (s : string) : string :=
  match s with
  | EmptyString => ""
  | String c s' => quote_byte c +:+ quote_body s'
  end.
Definition quote (s : string) : string :=
  String "034"%char (quote_body s +:+ String "034"%char "").

(** ** Paths *)

(** The element stack of [filepath.Clean] on Unix, last element first. *)
Definition clean_push (rooted : bool) (stack : list string) (elem : string)
    : list string :=
  if bool_decide (elem = "") || bool_decide (elem = ".") then stack
  else if bool_decide (elem = "..") then
    match stack with
    | top :: rest => if bool_decide (top = "..") then ".." :: stack else rest
    | [] => if rooted then [] else [".."]
    end
  else elem :: stack.

(** [filepath.Clean(p)] *)
Definition Clean (p : string) : string :=
  let rooted := has_prefix "/" p in
  let body := join "/" (reverse (foldl (clean_push rooted) [] (split_char "/"%char p))) in
  if rooted then "/" +:+ body
  else if bool_decide (body = "") then "." else body.

(** [filepath.Join(elems...)] *)
Definition JoinPath (elems : list string) : string :=
  match filter (λ e, e ≠ "") elems with
  | [] => ""
  | es => Clean (join "/" es)
  end.

(** [strings.LastIndex(s, c)] for one byte: what precedes and what follows *)
Fixpoint cut_last (c : ascii) (s : string) : option (string * string) :=
  match s with
  | "" => None
  | String b s' =>
      match cut_last c s' with
      | Some (before, after) => Some (String b before, after)
      | None => if bool_decide (b = c) then Some ("", s') else None
      end
  end.

(** [filepath.Dir] *)
Definition Dir (p : string) : string :=
  match cut_last "/" p with
  | Some (before, _) => Clean (before +:+ "/")
  | None => Clean ""
  end.

(** [net.JoinHostPort(host, port)] *)
Definition JoinHostPort (host port : string) : string :=
  if contains ":" host || contains "%" host
  then "[" +:+ host +:+ "]:" +:+ port
  else host +:+ ":" +:+ port.

(** ** Lemmas *)

(** The byte [c] does not occur. *)
Fixpoint free_of (c : ascii) (s : string) : bool :=
  match s with
  | EmptyString => true
  | String a s' => negb (bool_decide (a = c)) && free_of c s'
  end.

(** [net.SplitHostPort], the text of its error left out. *)
Definition SplitHostPort (hostport : string) : option (string * string) :=
  match cut_last ":" hostport with
  | None => None
  | Some (before, port) =>
      if has_prefix "[" before then
        match cut_last "]" before with
        | Some (host, "") =>
            let host := drop_bytes 1 host in
            if free_of "[" host && free_of "]" host && free_of "[" port && free_of "]" port
            then Some (host, port) else None
        | _ => None
        end
      else if free_of ":" before && free_of "[" hostport && free_of "]" hostport
      then Some (before, port)
      else None
  end.

Lemma string_app_cons a s t : String a s +:+ t = String a (s +:+ t).
Proof. done. Qed.

Lemma string_app_assoc s t u : s +:+ (t +:+ u) = (s +:+ t) +:+ u.
Proof. induction s as [|a s IH]; [done|]. rewrite !string_app_cons. by rewrite IH. Qed.

Lemma string_app_inj_l p s t : p +:+ s = p +:+ t → s = t.
Proof. induction p as [|a p IH]; [done|]. rewrite !string_app_cons. intros [= H]. auto. Qed.

Lemma string_length_app s t : String.length (s +:+ t) = String.length s + String.length t.
Proof. induction s as [|a s IH]; [done|]. rewrite string_app_cons. simpl. by rewrite IH. Qed.

Lemma free_of_app c s t : free_of c (s +:+ t) = free_of c s && free_of c t.
Proof.
  induction s as [|a s IH]; [done|]. rewrite string_app_cons. simpl. by rewrite IH, andb_assoc.
Qed.

(** What a separator splits off is determined when it holds no separator. *)
Lemma sep_unique c x y a b :
  free_of c a = true → free_of c b = true →
  x +:+ String c a = y +:+ String c b → x = y ∧ a = b.
Proof.
  intros Ha Hb. revert y. induction x as [|d x IH]; intros [|e y].
  - change ("" +:+ String c a) with (String c a). change ("" +:+ String c b) with (String c b).
    by intros [= ->].
  - change ("" +:+ String c a) with (String c a). rewrite string_app_cons. intros [= -> ->].
    rewrite free_of_app in Ha. simpl in Ha. rewrite bool_decide_eq_true_2 in Ha by done.
    by rewrite andb_false_r in Ha.
  - change ("" +:+ String c b) with (String c b). rewrite string_app_cons. intros [= <- <-].
    rewrite free_of_app in Hb. simpl in Hb. rewrite bool_decide_eq_true_2 in Hb by done.
    by rewrite andb_false_r in Hb.
  - rewrite !string_app_cons. intros [= -> H]. by destruct (IH y H) as [-> ->].
Qed.

Lemma cut_last_free c s : free_of c s = true → cut_last c s = None.
Proof.
  induction s as [|b s IH]; simpl; [done|]. intros [Hb Hs]%andb_prop. rewrite IH by done.
  apply negb_true_iff in Hb. by rewrite Hb.
Qed.

Lemma cut_last_app c x y : free_of c y = true → cut_last c (x +:+ String c y) = Some (x, y).
Proof.
  intros Hy. induction x as [|b x IH]; simpl.
  - rewrite cut_last_free by done. by rewrite bool_decide_eq_true_2.
  - by rewrite IH.
Qed.

Definition numeral_byte (c : ascii) : bool := negb (free_of c "0123456789-").

Lemma pretty_N_go_free c x s :
  numeral_byte c = false → free_of c s = true → free_of c (pretty_N_go x s) = true.
Proof.
  intros Hc. revert s. induction (N.lt_wf_0 x) as [x _ IH]; intros s Hs.
  assert (x = 0 ∨ 0 < x)%N as [->|?] by lia; [by rewrite pretty_N_go_0|].
  rewrite pretty_N_go_step by done. apply IH; [by apply N.div_lt|].
  simpl. rewrite Hs, andb_true_r. unfold numeral_byte in Hc. apply negb_false_iff in Hc.
  simpl in Hc. bool_props. apply negb_true_iff, bool_decide_eq_false. unfold pretty_N_char.
  repeat case_match; congruence.
Qed.

(** A numeral is made of digits and a sign. *)
Lemma itoa_free c z : numeral_byte c = false → free_of c (itoa z) = true.
Proof.
  intros Hc. pose proof Hc as Hd. unfold numeral_byte in Hd. apply negb_false_iff in Hd.
  simpl in Hd. bool_props.
  assert (Hp : ∀ p, free_of c (pretty (Npos p)) = true) by (intros p; by apply pretty_N_go_free).
  unfold itoa, pretty, pretty_Z. destruct z as [|p|p].
  - simpl. by rewrite bool_decide_eq_false_2.
  - apply Hp.
  - rewrite free_of_app. unfold pretty, pretty_positive. rewrite Hp, andb_true_r. simpl.
    by rewrite bool_decide_eq_false_2.
Qed.

(** ** Lemmas: paths *)

Lemma pretty_N_go_ne x s : s ≠ "" → pretty_N_go x s ≠ "".
Proof.
  revert s. induction (N.lt_wf_0 x) as [x _ IH]; intros s Hs.
  assert (x = 0 ∨ 0 < x)%N as [->|?] by lia; [by rewrite pretty_N_go_0|].
  rewrite pretty_N_go_step by done. apply IH; [by apply N.div_lt|done].
Qed.

Lemma itoa_ne z : itoa z ≠ "".
Proof.
  unfold itoa, pretty, pretty_Z. destruct z as [|p|p]; [done| |done].
  unfold pretty, pretty_positive, pretty, pretty_N. case_decide; [done|].
  rewrite pretty_N_go_step by lia. by apply pretty_N_go_ne.
Qed.

Lemma split_char_free c e : free_of c e = true → split_char c e = [e].
Proof.
  induction e as [|a e IH]; simpl; [done|]. intros H. bool_props.
  rewrite bool_decide_eq_false_2 by done. by rewrite IH.
Qed.

Lemma split_char_ne c s : split_char c s ≠ [].
Proof. destruct s as [|a s]; simpl; [done|]. case_bool_decide; [done|]. by case_match. Qed.

Lemma split_char_app c x e :
  free_of c e = true → split_char c (x +:+ String c e) = split_char c x ++ [e].
Proof.
  intros He. induction x as [|a x IH].
  - change ("" +:+ String c e) with (String c e). simpl.
    rewrite bool_decide_eq_true_2 by done. by rewrite split_char_free.
  - rewrite string_app_cons. simpl. rewrite IH. case_bool_decide; [done|].
    pose proof (split_char_ne c x). by destruct (split_char c x).
Qed.

Lemma join_snoc sep l :
  ∃ pre, ∀ e, join sep (l ++ [e]) = pre +:+ e.
Proof.
  unfold join. induction l as [|x [|y l] [pre IH]]; [by exists ""|..].
  - exists (x +:+ sep). intros e. simpl. by rewrite string_app_assoc.
  - exists (x +:+ sep +:+ pre). intros e. simpl in *. rewrite (IH e).
    by rewrite !string_app_assoc.
Qed.

(** An ordinary file name: not empty, no slash, neither of the two dot names. *)
Definition plain_name (e : string) : bool :=
  free_of "/" e && negb (bool_decide (e = "")) && negb (bool_decide (e = "."))
  && negb (bool_decide (e = "..")).

(** Joining a directory with an ordinary name appends the name. *)
Lemma JoinPath_plain dir :
  dir ≠ "" → ∃ pre, ∀ e, plain_name e = true → JoinPath [dir; e] = pre +:+ e.
Proof.
  intros Hd. unfold JoinPath, Clean.
  set (stack := foldl (clean_push (has_prefix "/" dir)) [] (split_char "/" dir)).
  destruct (join_snoc "/" (reverse stack)) as [pre Hpre].
  exists (if has_prefix "/" dir then "/" +:+ pre else pre). intros e He.
  unfold plain_name in He. bool_props.
  rewrite !filter_cons_True, filter_nil by done.
  change (join "/" [dir; e]) with (dir +:+ String "/" e).
  assert (Hp : has_prefix "/" (dir +:+ String "/" e) = has_prefix "/" dir) by (by destruct dir).
  rewrite Hp, split_char_app, foldl_app by done. fold stack. simpl foldl.
  assert (Hpush : ∀ rooted st, clean_push rooted st e = e :: st).
  { intros rooted st. unfold clean_push.
    by rewrite (bool_decide_eq_false_2 (e = "")), (bool_decide_eq_false_2 (e = ".")),
      (bool_decide_eq_false_2 (e = "..")). }
  rewrite Hpush, reverse_cons, Hpre.
  destruct (has_prefix "/" dir); [by rewrite string_app_assoc|].
  rewrite bool_decide_eq_false_2; [done|]. by destruct pre.
Qed.

Lemma JoinPath_inj dir e1 e2 :
  dir ≠ "" → plain_name e1 = true → plain_name e2 = true →
  JoinPath [dir; e1] = JoinPath [dir; e2] → e1 = e2.
Proof.
  intros Hd H1 H2. destruct (JoinPath_plain dir Hd) as [pre Hpre].
  rewrite !Hpre by done. apply string_app_inj_l.
Qed.
