(* ===== verification/Url.v ===== *)
(** * net/url.Parse

    The program validates endpoints with [url.Parse] and reads the scheme, the
    host and the path of the result. This file models that function of Go's
    standard library: scheme, fragment and query splitting, the authority with
    user information and port, percent-decoding and the errors. *)

From S2P Require Import Prelude GoStrings.

Record URL := mkURL { URLScheme : string; URLHost : string; URLPath : string }.

(** ** Characters *)

Definition char_in (c : ascii) (s : string) : bool := contains (String c "") s.
Definition between (lo hi : ascii) (c : ascii) : bool :=
  (nat_of_ascii lo <=? nat_of_ascii c) && (nat_of_ascii c <=? nat_of_ascii hi).
Definition is_letter (c : ascii) : bool := between "a" "z" c || between "A" "Z" c.
Definition is_digit (c : ascii) : bool := between "0" "9" c.
Definition is_ctl (c : ascii) : bool :=
  (nat_of_ascii c <? 32) || (nat_of_ascii c =? 127).
Definition is_hex (c : ascii) : bool :=
  is_digit c || between "a" "f" c || between "A" "F" c.
Definition unhex (c : ascii) : nat :=
  let n := nat_of_ascii c in
  if is_digit c then n - 48 else if between "a" "f" c then n - 87 else n - 55.

Fixpoint forall_bytes (f : ascii → bool) (s : string) : bool :=
  match s with
  | EmptyString => true
  | String c s' => f c && forall_bytes f s'
  end.

(** [strings.Cut(s, sep)] for a one-byte separator: before, after, found *)
Fixpoint cut (sep : ascii) (s : string) : string * string * bool :=
  match s with
  | EmptyString => ("", "", false)
  | String c s' =>
      if bool_decide (c = sep) then ("", s', true)
      else let '(before, after, found) := cut sep s' in (String c before, after, found)
  end.

Fixpoint count_byte (b : ascii) (s : string) : nat :=
  match s with
  | EmptyString => 0
  | String c s' => (if bool_decide (c = b) then 1 else 0) + count_byte b s'
  end.

(** ** Percent-decoding *)

Inductive escape_mode := EncodePath | EncodeHost | EncodeZone.

(** Bytes below 0x80 that may stand unescaped in a host. *)
Definition host_byte_ok (c : ascii) : bool :=
  is_letter c || is_digit c || char_in c "-_.~!$&'()*+,;=:[]<>" ||
  bool_decide (c = "034"%char).

Definition escape_error (s : string) : string :=
  "invalid URL escape " +:+ quote (take_bytes 3 s).

(** A percent triple the mode refuses although it is well formed. *)
Definition triple_refused (mode : escape_mode) (h l : ascii) : bool :=
  match mode with
  | EncodePath => false
  | EncodeHost => (unhex h <? 8) && negb (bool_decide (h = "2"%char) && bool_decide (l = "5"%char))
  | EncodeZone =>
      let v := ascii_of_nat (unhex h * 16 + unhex l) in
      negb (bool_decide (h = "2"%char) && bool_decide (l = "5"%char)) &&
      negb (bool_decide (v = " "%char)) && negb (host_byte_ok v)
  end.

Definition host_mode (mode : escape_mode) : bool :=
  match mode with EncodePath => false | _ => true end.

Fixpoint unescape (mode : escape_mode) (s : string) : result string :=
  match s with
  | EmptyString => Ok ""
  | String "%" s' =>
      match s' with
      | String h (String l s'') =>
          if negb (is_hex h && is_hex l) then Err (escape_error s)
          else if triple_refused mode h l then Err (escape_error s)
          else rest ← unescape mode s'';
               Ok (String (ascii_of_nat (unhex h * 16 + unhex l)) rest)
      | _ => Err (escape_error s)
      end
  | String c s' =>
      if host_mode mode && (nat_of_ascii c <? 128) && negb (host_byte_ok c)
      then Err ("invalid character " +:+ quote (String c "") +:+ " in host name")
      else rest ← unescape mode s'; Ok (String c rest)
  end.

(** ** The components *)

(** [getScheme] *)
Fixpoint getScheme_go (first : bool) (raw s : string) : result (string * string) :=
  match s with
  | EmptyString => Ok ("", raw)
  | String c s' =>
      if is_letter c then
        r ← getScheme_go false raw s';
        Ok (if bool_decide (r.1 = "") then r else (String c r.1, r.2))
      else if is_digit c || char_in c "+-." then
        if first then Ok ("", raw)
        else r ← getScheme_go false raw s';
             Ok (if bool_decide (r.1 = "") then r else (String c r.1, r.2))
      else if bool_decide (c = ":"%char) then
        if first then Err "missing protocol scheme" else Ok (":", s')
      else Ok ("", raw)
  end.

(** The recursion returns the scheme with its colon, so that an empty first
    component means that there is none. *)
Definition getScheme (raw : string) : result (string * string) :=
  r ← getScheme_go true raw raw;
  Ok (trim_suffix ":" r.1, r.2).

Definition validOptionalPort (port : string) : bool :=
  match port with
  | EmptyString => true
  | String c p => bool_decide (c = ":"%char) && forall_bytes is_digit p
  end.

Definition parseHost (host : string) : result string :=
  if has_prefix "[" host then
    match cut_last "]" host with
    | None => Err "missing ']' in host"
    | Some (inside, colonPort) =>
        if negb (validOptionalPort colonPort)
        then Err ("invalid port " +:+ quote colonPort +:+ " after host")
        else match index "%25" inside with
             | Some zone =>
                 host1 ← unescape EncodeHost (take_bytes zone inside);
                 host2 ← unescape EncodeZone (drop_bytes zone inside);
                 host3 ← unescape EncodeHost ("]" +:+ colonPort);
                 Ok (host1 +:+ host2 +:+ host3)
             | None => unescape EncodeHost host
             end
    end
  else
    match cut_last ":" host with
    | Some (_, port) =>
        if validOptionalPort (":" +:+ port) then unescape EncodeHost host
        else Err ("invalid port " +:+ quote (":" +:+ port) +:+ " after host")
    | None => unescape EncodeHost host
    end.

Definition userinfo_byte_ok (c : ascii) : bool :=
  is_letter c || is_digit c || char_in c "-._:~!$&'()*+,;=%@".

(** [parseAuthority], which keeps the host *)
Definition parseAuthority (authority : string) : result string :=
  match cut_last "@" authority with
  | None => parseHost authority
  | Some (userinfo, hostpart) =>
      host ← parseHost hostpart;
      if negb (forall_bytes userinfo_byte_ok userinfo) then Err "net/url: invalid userinfo"
      else (* both halves of user:password decode exactly when the whole does *)
           _ ← unescape EncodePath userinfo;
           Ok host
  end.

Definition split_query (rest : string) : string :=
  if has_suffix "?" rest && (count_byte "?" rest =? 1)
  then take_bytes (String.length rest - 1) rest
  else (cut "?" rest).1.1.

Definition with_path (scheme host rest : string) : result URL :=
  path ← unescape EncodePath rest;
  Ok (mkURL scheme host path).

Definition parse_nofrag (raw : string) : result URL :=
  if negb (forall_bytes (λ c, negb (is_ctl c)) raw)
  then Err "net/url: invalid control character in URL"
  else if bool_decide (raw = "*") then Ok (mkURL "" "" "*")
  else
    sr ← getScheme raw;
    let scheme := ToLower sr.1 in
    let rest := split_query sr.2 in
    if negb (has_prefix "/" rest) && negb (bool_decide (scheme = ""))
    then Ok (mkURL scheme "" "")
    else if negb (has_prefix "/" rest) && contains ":" (cut "/" rest).1.1
    then Err "first path segment in URL cannot contain colon"
    else if (negb (bool_decide (scheme = "")) || negb (has_prefix "///" rest))
            && has_prefix "//" rest
    then let auth_rest := drop_bytes 2 rest in
         let '(authority, after, found) := cut "/" auth_rest in
         host ← parseAuthority authority;
         with_path scheme host (if found then "/" +:+ after else "")
    else with_path scheme "" rest.

(** [url.Parse(raw)], errors as [*url.Error] prints them *)
Definition url_Parse (raw : string) : result URL :=
  let '(u, frag, _) := cut "#" raw in
  match parse_nofrag u with
  | Err e => Err ("parse " +:+ quote u +:+ ": " +:+ e)
  | Ok url =>
      match unescape EncodePath frag with
      | Err e => Err ("parse " +:+ quote raw +:+ ": " +:+ e)
      | Ok _ => Ok url
      end
  end.

(** ** Lemmas *)

(** Decoding in path mode keeps a leading slash. *)
Lemma unescape_path_slash s p :
  unescape EncodePath s = Ok p → has_prefix "/" s = true → has_prefix "/" p = true.
Proof.
  destruct s as [|c s]; [done|]. simpl. intros H Hc. bool_props. subst.
  simpl in H. destruct (unescape EncodePath s); simplify_eq/=. done.
Qed.
