(* ===== verification/Json.v ===== *)
(** * encoding/json

    The program stores manifests, packs, overlays and configurations as JSON and
    merges overlays on a decoded generic value. This file models the tree layer
    of Go's [encoding/json]: values, generic decoding into [any] (numbers become
    float64, objects become maps whose keys are later written sorted), struct
    decoding (keys compared exactly or up to case, [null] leaves scalars alone,
    unknown keys skipped) and [omitempty] encoding. The text layer, which prints
    and scans such trees, is not modelled. *)

From S2P Require Import Prelude GoStrings.

(** ** Values *)

(** A JSON number: an integer literal, or the float64 [m * 2^e] when it is not
    an integer. *)
Inductive num := NInt (z : Z) | NFlt (m e : Z).

Inductive json :=
  | JNull
  | JBool (b : bool)
  | JNum (n : num)
  | JStr (s : string)
  | JArr (l : list json)
  | JObj (kvs : list (string * json)).

#[export] Instance num_eq_dec : EqDecision num.
Proof. solve_decision. Defined.

(** A file that exists holds a JSON tree, or bytes that are not JSON. *)
Inductive file := JsonFile (j : json) | OtherFile.

(** ** Numbers as float64 *)

(** The float64 nearest to an integer, ties to even. *)
Definition f64_round (z : Z) : Z :=
  let a := Z.abs z in
  if (a <=? 2 ^ 53)%Z then z else
  let sh := (Z.log2 a - 52)%Z in
  let q := (a / 2 ^ sh)%Z in
  let r := (a mod 2 ^ sh)%Z in
  let half := (2 ^ (sh - 1))%Z in
  let q' := if (half <? r)%Z || ((r =? half)%Z && Z.odd q) then (q + 1)%Z else q in
  (Z.sgn z * q' * 2 ^ sh)%Z.

Definition num_f64 (n : num) : num :=
  match n with NInt z => NInt (f64_round z) | NFlt m e => NFlt m e end.

(** ** Objects and maps *)

(** Decoding an object into a map: a repeated key keeps its last value. *)
Definition obj_to_map {A} (kvs : list (string * A)) : gmap string A :=
  foldl (λ m kv, <[kv.1 := kv.2]> m) ∅ kvs.

Definition key_le {A} (x y : string * A) : Prop := String.le x.1 y.1.
#[export] Instance key_le_dec {A} : RelDecision (@key_le A).
Proof. intros x y. unfold key_le. apply _. Defined.

(** Encoding a map: keys in byte order. *)
Definition map_to_obj {A} (m : gmap string A) : list (string * A) :=
  merge_sort key_le (map_to_list m).

(** What [Unmarshal] into [any] followed by [Marshal] does to a value. *)
Fixpoint norm (j : json) : json :=
  match j with
  | JNum n => JNum (num_f64 n)
  | JArr l => JArr (map norm l)
  | JObj kvs => JObj (map_to_obj (obj_to_map (map (λ kv, (kv.1, norm kv.2)) kvs)))
  | _ => j
  end.

(** ** Decoders *)

(** [Unmarshal] of a value into a variable that holds the second argument;
    [None] is an [*UnmarshalTypeError]. *)
Definition decoder (A : Type) := json → A → option A.

Definition dec_string : decoder string := λ j old,
  match j with JStr s => Some s | JNull => Some old | _ => None end.
Definition dec_bool : decoder bool := λ j old,
  match j with JBool b => Some b | JNull => Some old | _ => None end.
Definition dec_int : decoder Z := λ j old,
  match j with
  | JNum (NInt z) => if in_int64 z then Some z else None
  | JNull => Some old
  | _ => None
  end.
Definition dec_float : decoder num := λ j old,
  match j with JNum n => Some (num_f64 n) | JNull => Some old | _ => None end.
Definition dec_any : decoder json := λ j _, Some (norm j).

(** Element [i] of an array is decoded into element [i] of the old slice, and
    into the zero value past its end. *)
Fixpoint dec_elems {A} (d : decoder A) (zero : A) (l : list json) (old : list A)
    : option (list A) :=
  match l with
  | [] => Some []
  | j :: l' =>
      a ← d j (default zero (head old));
      rest ← dec_elems d zero l' (tail old);
      Some (a :: rest)
  end.
Definition dec_list {A} (d : decoder A) (zero : A) : decoder (list A) := λ j old,
  match j with JArr l => dec_elems d zero l old | JNull => Some [] | _ => None end.

Definition dec_map {A} (d : decoder A) (zero : A) : decoder (gmap string A) := λ j old,
  match j with
  | JObj kvs =>
      foldl (λ acc kv, m ← acc; a ← d kv.2 zero; Some (<[kv.1 := a]> m)) (Some old) kvs
  | JNull => Some ∅
  | _ => None
  end.

(** The entries of an object that go to the struct field tagged [n]. *)
Definition matching {A} (n : string) (kvs : list (string * A)) : list (string * A) :=
  List.filter (λ kv, EqualFold kv.1 n) kvs.

Definition dec_key {A} (n : string) (d : decoder A) (kvs : list (string * json)) (old : A)
    : option A :=
  foldl (λ acc kv, acc ≫= d kv.2) (Some old) (matching n kvs).

Definition dec_struct {A} (f : list (string * json) → A → option A) : decoder A := λ j old,
  match j with JObj kvs => f kvs old | JNull => Some old | _ => None end.

(** ** Encoders *)

(** A struct field: its tag, whether [omitempty] drops it, its value. *)
Definition field : Type := string * bool * json.

Definition entries (fs : list field) : list (string * json) :=
  concat (map (λ f : field, if f.1.2 then [] else [(f.1.1, f.2)]) fs).

Definition enc_int (z : Z) : json := JNum (NInt z).
Definition enc_list {A} (e : A → json) (l : list A) : json := JArr (map e l).
Definition enc_map {A} (e : A → json) (m : gmap string A) : json :=
  JObj (map (λ kv, (kv.1, e kv.2)) (map_to_obj m)).

(** ** The interface of a codec *)

(** A transport is what may happen to an encoded value before it is decoded:
    nothing (a file written and read back), or a detour through [any]. *)
Class Transport (T : json → json) (r : Z → Z) : Prop := {
  transport_null : T JNull = JNull;
  transport_bool b : T (JBool b) = JBool b;
  transport_str s : T (JStr s) = JStr s;
  transport_int z : T (JNum (NInt z)) = JNum (NInt (r z));
  transport_flt m e : T (JNum (NFlt m e)) = JNum (NFlt m e);
  transport_arr l : T (JArr l) = JArr (map T l);
  transport_obj kvs : NoDup kvs.*1 →
    ∃ kvs', T (JObj kvs) = JObj kvs' ∧ kvs' ≡ₚ map (λ kv, (kv.1, T kv.2)) kvs;
  transport_any v : norm v = v → norm (T v) = v;
}.

(** An integer that fits [int] and that the transport keeps. *)
Definition int_ok (r : Z → Z) (z : Z) : Prop := in_int64 z = true ∧ r z = z.

(** A type with an encoder and a decoder that invert each other on the values
    whose numbers survive the transport. [is_empty] is what [omitempty] tests;
    it never holds of a struct. *)
Class Codec (A : Type) := {
  enc : A → json;
  dec : decoder A;
  zero : A;
  is_empty : A → bool;
  safe : (Z → Z) → A → Prop;
  is_empty_zero x : is_empty x = true → x = zero;
  dec_enc T r x : Transport T r → safe r x → dec (T (enc x)) zero = Some x;
}.

(** A field without and with [omitempty]. *)
Definition req `{Codec A} (n : string) (x : A) : field := (n, false, enc x).
Definition opt `{Codec A} (n : string) (x : A) : field := (n, is_empty x, enc x).

(** ** Maps and sorted objects *)

#[export] Instance key_le_total {A} : Total (@key_le A).
Proof. intros x y. apply (total String.le). Qed.

Lemma obj_to_map_app {A} (kvs : list (string * A)) k v :
  obj_to_map (kvs ++ [(k, v)]) = <[k := v]> (obj_to_map kvs).
Proof. unfold obj_to_map. by rewrite foldl_app. Qed.

Lemma obj_to_map_list {A} (kvs : list (string * A)) :
  NoDup kvs.*1 → obj_to_map kvs = list_to_map kvs.
Proof.
  induction kvs as [|[k v] kvs IH] using rev_ind; [done|].
  rewrite fmap_app, obj_to_map_app. intros [H1 [H2 _]]%NoDup_app.
  rewrite IH by done.
  rewrite (list_to_map_proper (kvs ++ [(k, v)]) ((k, v) :: kvs)).
  - done.
  - rewrite fmap_app. apply NoDup_app. split; [done|]. split; [|apply NoDup_singleton].
    intros x Hx Hk. apply (H2 x Hx Hk).
  - by rewrite (Permutation_app_comm kvs [(k, v)]).
Qed.

Lemma map_to_obj_perm {A} (m : gmap string A) : map_to_obj m ≡ₚ map_to_list m.
Proof. apply merge_sort_Permutation. Qed.

Lemma map_to_obj_keys {A} (m : gmap string A) : NoDup (map_to_obj m).*1.
Proof. rewrite map_to_obj_perm. apply NoDup_fst_map_to_list. Qed.

(** Writing a map and reading the object back gives the map. *)
Lemma obj_to_map_to_obj {A} (m : gmap string A) : obj_to_map (map_to_obj m) = m.
Proof.
  rewrite obj_to_map_list by apply map_to_obj_keys.
  rewrite <-(list_to_map_to_list m) at 2.
  apply list_to_map_proper; [apply map_to_obj_keys|apply map_to_obj_perm].
Qed.

(** An object with distinct keys only has its keys reordered. *)
Lemma norm_obj_perm kvs :
  NoDup kvs.*1 →
  map_to_obj (obj_to_map (map (λ kv, (kv.1, norm kv.2)) kvs))
    ≡ₚ map (λ kv, (kv.1, norm kv.2)) kvs.
Proof.
  intros H. rewrite map_to_obj_perm, obj_to_map_list.
  - apply map_to_list_to_map. by rewrite <-list_fmap_compose.
  - by rewrite <-list_fmap_compose.
Qed.

(** The two transports. *)
#[export] Instance transport_id : Transport (λ j, j) (λ z, z).
Proof.
  split; try done.
  - intros l. by rewrite map_id.
  - intros kvs _. exists kvs. split; [done|]. rewrite (map_ext _ id); [by rewrite map_id|].
    by intros [].
Qed.

#[export] Instance transport_norm : Transport norm f64_round.
Proof.
  split; try done.
  - intros kvs H. eexists. split; [done|]. by apply norm_obj_perm.
  - intros v Hv. by rewrite Hv.
Qed.

(** A float64 holds every integer of magnitude up to 2^53. *)
Lemma f64_round_exact z : (Z.abs z ≤ 2 ^ 53)%Z → f64_round z = z.
Proof. intros H%Z.leb_le. unfold f64_round. by rewrite H. Qed.

(** ** Struct fields *)

Lemma matching_app {A} n (xs ys : list (string * A)) :
  matching n (xs ++ ys) = matching n xs ++ matching n ys.
Proof. apply List.filter_app. Qed.

Lemma matching_perm {A} n (xs ys : list (string * A)) :
  xs ≡ₚ ys → matching n xs ≡ₚ matching n ys.
Proof.
  unfold matching. induction 1; simpl; repeat case_match; eauto using Permutation.
Qed.

Lemma matching_map {A B} n (f : A → B) (xs : list (string * A)) :
  matching n (map (λ kv, (kv.1, f kv.2)) xs) = map (λ kv, (kv.1, f kv.2)) (matching n xs).
Proof.
  unfold matching. induction xs as [|[k v] xs IH]; [done|]. simpl.
  rewrite IH. by destruct (EqualFold k n).
Qed.

Lemma matching_entries n fs :
  matching n (entries fs) = entries (List.filter (λ f : field, EqualFold f.1.1 n) fs).
Proof.
  induction fs as [|[[m b] v] fs IH]; [done|].
  unfold entries in *. simpl. rewrite matching_app, IH.
  destruct b, (EqualFold m n) eqn:E; try done; simpl; unfold matching; simpl; by rewrite E.
Qed.

Lemma entries_keys fs : NoDup (map (λ f : field, f.1.1) fs) → NoDup (entries fs).*1.
Proof.
  intros H. eapply sublist_NoDup; [exact H|]. clear H.
  induction fs as [|[[m b] v] fs IH]; [constructor|]. unfold entries in *. simpl.
  destruct b; simpl; by constructor.
Qed.

(** The decoder of a struct field finds the entry written for that field, in
    whatever order the transport leaves the entries. *)
Lemma dec_key_field {A} `{HT : Transport T r} (d : decoder A) n b v fs kvs' old x :
  matching n kvs' ≡ₚ matching n (map (λ kv, (kv.1, T kv.2)) (entries fs)) →
  List.filter (λ f : field, EqualFold f.1.1 n) fs = [(n, b, v)] →
  (b = true → old = x) →
  (b = false → d (T v) old = Some x) →
  dec_key n d kvs' old = Some x.
Proof.
  intros Hperm Hf Hopt Hreq. unfold dec_key.
  assert (Hm : matching n kvs' ≡ₚ if b then [] else [(n, T v)]).
  { rewrite Hperm, matching_map, matching_entries, Hf.
    by destruct b. }
  destruct b.
  - apply Permutation_nil_r in Hm. rewrite Hm. simpl. by rewrite Hopt.
  - apply Permutation_singleton_r in Hm. rewrite Hm. simpl. by apply Hreq.
Qed.

(** The tags of a struct differ even up to case. *)
Definition tags (fs : list field) : list string := map (λ f : field, fold_case f.1.1) fs.

Lemma filter_tag (fs : list field) (f : field) :
  NoDup (tags fs) → In f fs → List.filter (λ g : field, EqualFold g.1.1 f.1.1) fs = [f].
Proof.
  unfold EqualFold, tags. intros Hnd Hin.
  induction fs as [|g fs IH]; [done|]. simpl in *. apply NoDup_cons in Hnd as [Hg Hnd].
  destruct Hin as [->|Hin].
  - rewrite String.eqb_refl. f_equal. clear IH Hnd.
    induction fs as [|h fs IH]; [done|]. simpl in *.
    apply not_elem_of_cons in Hg as [Hh Hg].
    rewrite (proj2 (String.eqb_neq _ _)) by done. by apply IH.
  - rewrite (proj2 (String.eqb_neq _ _)); [by apply IH|].
    intros He. apply Hg. rewrite He.
    apply list_elem_of_In, (in_map (λ f : field, fold_case f.1.1)), Hin.
Qed.

Lemma dec_key_req `{Codec A} `{HT : Transport T r} n (x : A) fs kvs' :
  matching n kvs' ≡ₚ matching n (map (λ kv, (kv.1, T kv.2)) (entries fs)) →
  NoDup (tags fs) → In (req n x) fs →
  safe r x → dec_key n dec kvs' zero = Some x.
Proof.
  intros Hp Hnd Hf Hx. eapply dec_key_field;
    [exact Hp|exact (filter_tag _ (req n x) Hnd Hf)|done|].
  intros _. by eapply dec_enc.
Qed.

Lemma dec_key_opt `{Codec A} `{HT : Transport T r} n (x : A) fs kvs' :
  matching n kvs' ≡ₚ matching n (map (λ kv, (kv.1, T kv.2)) (entries fs)) →
  NoDup (tags fs) → In (opt n x) fs →
  safe r x → dec_key n dec kvs' zero = Some x.
Proof.
  intros Hp Hnd Hf Hx. eapply dec_key_field;
    [exact Hp|exact (filter_tag _ (opt n x) Hnd Hf)| |].
  - intros He. by rewrite (is_empty_zero x He).
  - intros _. by eapply dec_enc.
Qed.

Lemma tags_keys (fs : list field) : NoDup (tags fs) → NoDup (map (λ f : field, f.1.1) fs).
Proof.
  unfold tags. rewrite <-(map_map (λ f : field, f.1.1) fold_case). apply NoDup_fmap_1.
Qed.

Lemma dec_struct_T {A} `{HT : Transport T r} (f : list (string * json) → A → option A) fs old x :
  NoDup (tags fs) →
  (∀ kvs',
    (∀ n, matching n kvs' ≡ₚ matching n (map (λ kv, (kv.1, T kv.2)) (entries fs))) →
    f kvs' old = Some x) →
  dec_struct f (T (JObj (entries fs))) old = Some x.
Proof.
  intros Hnd Hf. destruct (transport_obj _ (entries_keys _ (tags_keys _ Hnd))) as (kvs' & -> & Hp).
  apply Hf. intros n. by apply matching_perm.
Qed.

(** ** Codecs of the basic types *)

#[export] Program Instance codec_string : Codec string := {|
  enc := JStr; dec := dec_string; zero := ""; is_empty s := bool_decide (s = "");
  safe _ _ := True |}.
Next Obligation. intros x. simpl. intros H. by bool_props. Qed.
Next Obligation. intros T r x HT _. by rewrite transport_str. Qed.

#[export] Program Instance codec_bool : Codec bool := {|
  enc := JBool; dec := dec_bool; zero := false; is_empty := negb; safe _ _ := True |}.
Next Obligation. by intros []. Qed.
Next Obligation. intros T r x HT _. by rewrite transport_bool. Qed.

#[export] Program Instance codec_int : Codec Z := {|
  enc := enc_int; dec := dec_int; zero := 0%Z; is_empty z := (z =? 0)%Z;
  safe := int_ok |}.
Next Obligation. intros x. simpl. intros H. by bool_props. Qed.
Next Obligation.
  intros T r x HT [Hx Hr]. unfold enc_int. rewrite transport_int, Hr. simpl. by rewrite Hx.
Qed.

Definition float_ok (r : Z → Z) (x : num) : Prop :=
  match x with NInt z => f64_round z = z ∧ r z = z | NFlt _ _ => True end.

#[export] Program Instance codec_float : Codec num := {|
  enc := JNum; dec := dec_float; zero := NInt 0;
  is_empty x := bool_decide (x = NInt 0); safe := float_ok |}.
Next Obligation. intros x. simpl. intros H. by bool_props. Qed.
Next Obligation.
  intros T r [z|m e] HT Hx; simpl in *.
  - destruct Hx as [Hz Hr]. rewrite transport_int, Hr. simpl. by rewrite Hz.
  - by rewrite transport_flt.
Qed.

Definition any_empty (j : json) : bool := match j with JNull => true | _ => false end.

(** A value of type [any]: it came from a decoder, so it is normal. *)
#[export] Program Instance codec_any : Codec json := {|
  enc j := j; dec := dec_any; zero := JNull;
  is_empty := any_empty;
  safe _ j := norm j = j |}.
Next Obligation. by intros []. Qed.
Next Obligation. intros T r x HT Hx. unfold dec_any. by rewrite (transport_any x Hx). Qed.

Definition list_empty {A} (l : list A) : bool := match l with [] => true | _ => false end.

Lemma dec_elems_T `{HC : Codec A} `{HT : Transport T r} (l : list A) :
  Forall (safe r) l → dec_elems dec zero (map T (map enc l)) [] = Some l.
Proof.
  induction 1 as [|x l Hx Hl IH]; [done|]. simpl.
  rewrite (dec_enc T r) by done. simpl. by rewrite IH.
Qed.

#[export] Program Instance codec_list {A} `{HC : Codec A} : Codec (list A) := {|
  enc := enc_list enc; dec := dec_list dec zero; zero := [];
  is_empty := list_empty;
  safe r l := Forall (safe r) l |}.
Next Obligation. by intros ?? []. Qed.
Next Obligation.
  intros A HC T r x HT Hx. unfold enc_list. rewrite transport_arr. by apply dec_elems_T.
Qed.

Lemma dec_map_fold `{HC : Codec A} `{HT : Transport T r} kvs (m0 : gmap string A) :
  Forall (λ kv : string * A, safe r kv.2) kvs →
  foldl (λ acc kv, m ← acc; a ← dec kv.2 zero; Some (<[kv.1 := a]> m)) (Some m0)
    (map (λ kv, (kv.1, T kv.2)) (map (λ kv, (kv.1, enc kv.2)) kvs))
  = Some (foldl (λ m kv, <[kv.1 := kv.2]> m) m0 kvs).
Proof.
  intros H. revert m0. induction H as [|[k x] kvs Hx Hl IH]; intros m0; [done|].
  simpl. rewrite (dec_enc T r) by done. simpl. apply IH.
Qed.

#[export] Program Instance codec_map {A} `{HC : Codec A} : Codec (gmap string A) := {|
  enc := enc_map enc; dec := dec_map dec zero; zero := ∅;
  is_empty m := bool_decide (map_to_list m = []);
  safe r m := map_Forall (λ _ x, safe r x) m |}.
Next Obligation.
  intros A HC m. simpl. intros H. bool_props. by apply map_to_list_empty_iff.
Qed.
Next Obligation.
  intros A HC T r m HT Hm. simpl in *. unfold enc_map.
  destruct (transport_obj (map (λ kv, (kv.1, enc kv.2)) (map_to_obj m)))
    as (kvs' & -> & Hp).
  { rewrite <-list_fmap_compose. apply map_to_obj_keys. }
  apply Permutation_map_inv in Hp as (kvs1 & -> & Hp).
  apply Permutation_sym, Permutation_map_inv in Hp as (kvs2 & -> & Hp). simpl.
  assert (Hp' : map_to_list m ≡ₚ kvs2) by (by rewrite <-map_to_obj_perm).
  rewrite dec_map_fold.
  - f_equal. fold (obj_to_map kvs2).
    assert (Hnd : NoDup kvs2.*1) by (rewrite <-Hp'; apply NoDup_fst_map_to_list).
    rewrite obj_to_map_list by done. rewrite <-(list_to_map_to_list m).
    by apply list_to_map_proper.
  - rewrite <-Hp'. apply Forall_forall. intros [k x] Hk. apply (Hm k x).
    by apply elem_of_map_to_list.
Qed.

(** ** Generic values *)

(** Unmarshalling an object into [map[string]any]. *)
Lemma dec_generic kvs :
  dec (A := gmap string json) (JObj kvs) zero
  = Some (obj_to_map (map (λ kv, (kv.1, norm kv.2)) kvs)).
Proof.
  simpl. unfold obj_to_map. generalize (∅ : gmap string json).
  induction kvs as [|[k v] kvs IH]; intros m; [done|]. simpl. apply IH.
Qed.

Lemma enc_generic (m : gmap string json) : enc m = JObj (map_to_obj m).
Proof.
  simpl. unfold enc_map. f_equal. rewrite (map_ext _ id); [apply map_id|by intros []].
Qed.

(** Setting another key leaves the entries of a field alone. *)
Lemma matching_insert_ne {A} n k (w : A) m :
  EqualFold k n = false →
  matching n (map_to_obj (<[k := w]> m)) ≡ₚ matching n (map_to_obj m).
Proof.
  intros Hk. rewrite !(matching_perm _ _ _ (map_to_obj_perm _)).
  rewrite <-insert_delete_eq.
  rewrite (matching_perm n _ _ (map_to_list_insert (delete k m) k w (lookup_delete_eq _ _))).
  unfold matching at 1. simpl. rewrite Hk. fold (matching n (map_to_list (delete k m))).
  destruct (m !! k) as [v|] eqn:Hm.
  - rewrite <-(insert_id m k v Hm) at 2. rewrite <-insert_delete_eq.
    rewrite (matching_perm n _ _ (map_to_list_insert (delete k m) k v (lookup_delete_eq _ _))).
    unfold matching at 2. simpl. by rewrite Hk.
  - by rewrite delete_id.
Qed.

(** A field whose key was set holds the value that was set. *)
Lemma dec_key_insert {A} n (d : decoder A) w m old :
  (∀ k, is_Some (m !! k) → EqualFold k n = true → k = n) →
  dec_key n d (map_to_obj (<[n := w]> m)) old = d w old.
Proof.
  intros Hm. unfold dec_key.
  assert (H : matching n (map_to_obj (<[n := w]> m)) ≡ₚ [(n, w)]).
  { rewrite (matching_perm _ _ _ (map_to_obj_perm _)), <-insert_delete_eq.
    rewrite (matching_perm n _ _ (map_to_list_insert (delete n m) n w (lookup_delete_eq _ _))).
    unfold matching. simpl. unfold EqualFold at 1. rewrite String.eqb_refl.
    rewrite filter_nil_intro; [done|]. intros [k v] Hk.
    apply elem_of_map_to_list in Hk. destruct (EqualFold k n) eqn:E; [|done].
    apply lookup_delete_Some in Hk as [Hne Hk]. destruct Hne. symmetry.
    apply Hm; [by eexists|done]. }
  apply Permutation_singleton_r in H. by rewrite H.
Qed.

(** In the object written for a struct, equal up to case means equal. *)
Lemma entries_key_unique (g : json → json) fs n k :
  NoDup (tags fs) → n ∈ map (λ f : field, f.1.1) fs →
  is_Some (obj_to_map (map (λ kv, (kv.1, g kv.2)) (entries fs)) !! k) →
  EqualFold k n = true → k = n.
Proof.
  intros Hnd Hn Hk Hf.
  assert (Hk' : k ∈ map (λ f : field, f.1.1) fs).
  { rewrite obj_to_map_list in Hk.
    - destruct Hk as [v Hv]. apply elem_of_list_to_map_2 in Hv.
      apply list_elem_of_In, in_map_iff in Hv as ([k' v'] & Heq & Hv). simplify_eq/=.
      unfold entries in Hv. apply in_concat in Hv as (l & Hl & Hv).
      apply in_map_iff in Hl as ([[k2 b] v2] & <- & Hl). destruct b; simpl in Hv; [done|].
      destruct Hv as [Hv|[]]. simplify_eq. apply list_elem_of_In.
      by apply (in_map (λ f : field, f.1.1) _ _ Hl).
    - rewrite <-list_fmap_compose. by apply entries_keys, tags_keys. }
  unfold EqualFold in Hf. apply String.eqb_eq in Hf.
  unfold tags in Hnd. rewrite <-(map_map (λ f : field, f.1.1) fold_case) in Hnd.
  by apply (NoDup_map_elem_inj _ _ Hnd k n).
Qed.

(** ** Automation for struct codecs *)

Lemma bind_some {A B} (o : option A) x (k : A → option B) (y : option B) :
  o = Some x → k x = y → (o ≫= k) = y.
Proof. by intros ->. Qed.

(** Strings and lists of strings hold no number. *)
Ltac solve_safe := simpl; try exact I; apply Forall_true; intros; exact I.

Ltac in_fields := repeat first [left; reflexivity | right].

Ltac dec_field Hp Hnd :=
  eapply bind_some;
  [ first [ eapply dec_key_req; [apply Hp|exact Hnd|solve [in_fields]|]
          | eapply dec_key_opt; [apply Hp|exact Hnd|solve [in_fields]|] ];
    first [eassumption | solve_safe]
  | cbv beta ].

(** Round trip of a struct: the tags are distinct, and every field is found and
    decoded to the value it was encoded from. *)
Ltac solve_struct_codec :=
  let Hnd := fresh "Hnd" in let kvs := fresh "kvs" in let Hp := fresh "Hp" in
  lazymatch goal with |- _ (_ (?e _)) _ = _ => unfold e end;
  lazymatch goal with
  | |- context [entries ?fs] =>
      assert (Hnd : NoDup (tags fs)) by (apply (bool_decide_unpack _); vm_compute; exact I)
  end;
  apply dec_struct_T; [exact Hnd|]; intros kvs Hp;
  repeat dec_field Hp Hnd; try reflexivity.
