(* ===== verification/Validate.v ===== *)
(** * Collected validation errors

    [pack.ValidatePack], [pack.ValidateOverlay] and [fleet.ValidateManifest]
    collect messages in a slice, sort it and join it into one error. *)

From S2P Require Import Prelude GoStrings.

(** [if cond { errs = append(errs, msg) }] *)
Definition err_if (cond : bool) (msg : string) : list string :=
  if cond then [msg] else [].

(** [if len(errs) > 0 { sort.Strings(errs); return fmt.Errorf(...) }] *)
Definition finish (title : string) (errs : list string) : result unit :=
  match errs with
  | [] => Ok ()
  | _ => Err (title +:+ newline +:+ "- " +:+ join (newline +:+ "- ") (sort_strings errs))
  end.

(** ** Lemmas *)

Lemma finish_ok title errs : finish title errs = Ok () ↔ errs = [].
Proof. by destruct errs. Qed.

(** The order in which the messages were collected does not show. *)
Lemma finish_perm title errs errs' : errs ≡ₚ errs' → finish title errs = finish title errs'.
Proof.
  intros H. pose proof (sort_strings_canonical _ _ H) as Hs.
  destruct errs as [|e errs], errs' as [|e' errs']; [done|..].
  - by apply Permutation_nil_cons in H.
  - by apply Permutation_sym, Permutation_nil_cons in H.
  - unfold finish. by rewrite Hs.
Qed.

Lemma err_if_nil b msg : err_if b msg = [] ↔ b = false.
Proof. by destruct b. Qed.

Lemma blank_false s : blank s = false ↔ TrimSpace s ≠ "".
Proof. unfold blank. by rewrite bool_decide_eq_false. Qed.

#[export] Hint Rewrite err_if_nil blank_false finish_ok : vegm.
