(* ===== verification/Config.v ===== *)
(** * Runtime configuration (src/runtime/config.go, xml_mode_registry.go)

    The configuration of one VEGM process, the defaults that [ValidateConfig]
    fills in and the checks it makes, with the process-wide registry of XML
    modes that it updates on the way. *)

From S2P Require Import Prelude GoStrings Url Json.

(** ** Data *)

Record EGMEndpointConfig := mkEGMEndpoint {
  ee_Scheme : string;
  ee_BindIP : string;
  ee_Host : string;
  ee_Port : Z;
  ee_Path : string;
}.

Record HostEndpointConfig := mkHostEndpoint { he_URL : string }.

Record G2SXMLConfig := mkG2SXML {
  gx_Mode : string;
  gx_Namespace : string;
  gx_EGMLocation : string;
}.

Record SessionEngineConfig := mkSessionEngine {
  se_Enabled : bool;
  se_AutoStart : bool;
  se_CommsOnlineTimeoutMS : Z;
  se_KeepAliveIntervalMS : Z;
  se_ReconnectIntervalMS : Z;
  se_AcceptWrappedG2SResponseAck : bool;
}.

Record ListenConfig := mkListen { li_Host : string; li_Port : Z }.

Record SecurityConfig := mkSecurity {
  sec_TrustMode : string;
  sec_CertFile : string;
  sec_KeyFile : string;
  sec_CAFile : string;
}.

Record LoggingConfig := mkLogging {
  lo_Dir : string;
  lo_CaptureRawXML : bool;
  lo_CaptureRenderedXML : bool;
}.

Record StorageConfig := mkStorage { st_Backend : string; st_SQLitePath : string }.

Record ControlConfig := mkControl { ct_Bind : string }.

Record OutboundSchedulerConfig := mkSchedulerConfig {
  sch_Enabled : bool;
  sch_AutoStart : bool;
  sch_OpenSessionOnStart : bool;
  sch_HeartbeatIntervalMS : Z;
  sch_OpenRetryIntervalMS : Z;
  sch_FailureThreshold : Z;
  sch_RunHeartbeatWhenIdle : bool;
}.

Record OutboundConfig := mkOutbound {
  out_DefaultTargetURL : string;
  out_ServerName : string;
  out_Path : string;
  out_TimeoutMS : Z;
  out_UseRuntimeCerts : bool;
  out_Scheduler : OutboundSchedulerConfig;
}.

Record Config := mkConfig {
  cfg_InstanceID : string;
  cfg_HostID : string;
  cfg_EGMID : string;
  cfg_EGMEndpoint : EGMEndpointConfig;
  cfg_HostEndpoint : HostEndpointConfig;
  cfg_G2SXML : G2SXMLConfig;
  cfg_SessionEngine : SessionEngineConfig;
  cfg_Listen : ListenConfig;
  cfg_Security : SecurityConfig;
  cfg_Logging : LoggingConfig;
  cfg_Storage : StorageConfig;
  cfg_Control : ControlConfig;
  cfg_Outbound : OutboundConfig;
  cfg_PackFile : string;
  cfg_Overlay : list string;
  cfg_Notes : gmap string string;
}.

(** ** JSON codecs, one per struct: tags and [omitempty] as declared; [zero] is
    the zero value of the struct *)

Definition enc_EGMEndpoint (x : EGMEndpointConfig) : json := JObj (entries [
  opt "scheme" x.(ee_Scheme);
  opt "bind_ip" x.(ee_BindIP);
  opt "host" x.(ee_Host);
  opt "port" x.(ee_Port);
  opt "path" x.(ee_Path)]).
Definition dec_EGMEndpoint : decoder EGMEndpointConfig := dec_struct (λ kvs old,
  v0 ← dec_key "scheme" dec kvs old.(ee_Scheme);
  v1 ← dec_key "bind_ip" dec kvs old.(ee_BindIP);
  v2 ← dec_key "host" dec kvs old.(ee_Host);
  v3 ← dec_key "port" dec kvs old.(ee_Port);
  v4 ← dec_key "path" dec kvs old.(ee_Path);
  Some (mkEGMEndpoint v0 v1 v2 v3 v4)).
#[export] Program Instance codec_EGMEndpoint : Codec EGMEndpointConfig := {|
  enc := enc_EGMEndpoint; dec := dec_EGMEndpoint;
  zero := mkEGMEndpoint zero zero zero zero zero; is_empty _ := false;
  safe r x := safe r x.(ee_Port) |}.
Next Obligation. done. Qed.
Next Obligation. intros T r [] HT H; cbv beta in H. destruct_and?. solve_struct_codec. Qed.

Definition enc_HostEndpoint (x : HostEndpointConfig) : json := JObj (entries [
  opt "url" x.(he_URL)]).
Definition dec_HostEndpoint : decoder HostEndpointConfig := dec_struct (λ kvs old,
  v0 ← dec_key "url" dec kvs old.(he_URL);
  Some (mkHostEndpoint v0)).
#[export] Program Instance codec_HostEndpoint : Codec HostEndpointConfig := {|
  enc := enc_HostEndpoint; dec := dec_HostEndpoint;
  zero := mkHostEndpoint zero; is_empty _ := false;
  safe r x := True |}.
Next Obligation. done. Qed.
Next Obligation. intros T r [] HT H; cbv beta in H. destruct_and?. solve_struct_codec. Qed.

Definition enc_G2SXML (x : G2SXMLConfig) : json := JObj (entries [
  opt "mode" x.(gx_Mode);
  opt "namespace" x.(gx_Namespace);
  opt "egm_location" x.(gx_EGMLocation)]).
Definition dec_G2SXML : decoder G2SXMLConfig := dec_struct (λ kvs old,
  v0 ← dec_key "mode" dec kvs old.(gx_Mode);
  v1 ← dec_key "namespace" dec kvs old.(gx_Namespace);
  v2 ← dec_key "egm_location" dec kvs old.(gx_EGMLocation);
  Some (mkG2SXML v0 v1 v2)).
#[export] Program Instance codec_G2SXML : Codec G2SXMLConfig := {|
  enc := enc_G2SXML; dec := dec_G2SXML;
  zero := mkG2SXML zero zero zero; is_empty _ := false;
  safe r x := True |}.
Next Obligation. done. Qed.
Next Obligation. intros T r [] HT H; cbv beta in H. destruct_and?. solve_struct_codec. Qed.

Definition enc_SessionEngine (x : SessionEngineConfig) : json := JObj (entries [
  opt "enabled" x.(se_Enabled);
  opt "auto_start" x.(se_AutoStart);
  opt "comms_online_timeout_ms" x.(se_CommsOnlineTimeoutMS);
  opt "keep_alive_interval_ms" x.(se_KeepAliveIntervalMS);
  opt "reconnect_interval_ms" x.(se_ReconnectIntervalMS);
  opt "accept_wrapped_g2s_response_ack" x.(se_AcceptWrappedG2SResponseAck)]).
Definition dec_SessionEngine : decoder SessionEngineConfig := dec_struct (λ kvs old,
  v0 ← dec_key "enabled" dec kvs old.(se_Enabled);
  v1 ← dec_key "auto_start" dec kvs old.(se_AutoStart);
  v2 ← dec_key "comms_online_timeout_ms" dec kvs old.(se_CommsOnlineTimeoutMS);
  v3 ← dec_key "keep_alive_interval_ms" dec kvs old.(se_KeepAliveIntervalMS);
  v4 ← dec_key "reconnect_interval_ms" dec kvs old.(se_ReconnectIntervalMS);
  v5 ← dec_key "accept_wrapped_g2s_response_ack" dec kvs old.(se_AcceptWrappedG2SResponseAck);
  Some (mkSessionEngine v0 v1 v2 v3 v4 v5)).
#[export] Program Instance codec_SessionEngine : Codec SessionEngineConfig := {|
  enc := enc_SessionEngine; dec := dec_SessionEngine;
  zero := mkSessionEngine zero zero zero zero zero zero; is_empty _ := false;
  safe r x := safe r x.(se_CommsOnlineTimeoutMS) ∧ safe r x.(se_KeepAliveIntervalMS) ∧ safe r x.(se_ReconnectIntervalMS) |}.
Next Obligation. done. Qed.
Next Obligation. intros T r [] HT H; cbv beta in H. destruct_and?. solve_struct_codec. Qed.

Definition enc_Listen (x : ListenConfig) : json := JObj (entries [
  req "host" x.(li_Host);
  req "port" x.(li_Port)]).
Definition dec_Listen : decoder ListenConfig := dec_struct (λ kvs old,
  v0 ← dec_key "host" dec kvs old.(li_Host);
  v1 ← dec_key "port" dec kvs old.(li_Port);
  Some (mkListen v0 v1)).
#[export] Program Instance codec_Listen : Codec ListenConfig := {|
  enc := enc_Listen; dec := dec_Listen;
  zero := mkListen zero zero; is_empty _ := false;
  safe r x := safe r x.(li_Port) |}.
Next Obligation. done. Qed.
Next Obligation. intros T r [] HT H; cbv beta in H. destruct_and?. solve_struct_codec. Qed.

Definition enc_Security (x : SecurityConfig) : json := JObj (entries [
  req "trust_mode" x.(sec_TrustMode);
  opt "cert_file" x.(sec_CertFile);
  opt "key_file" x.(sec_KeyFile);
  opt "ca_file" x.(sec_CAFile)]).
Definition dec_Security : decoder SecurityConfig := dec_struct (λ kvs old,
  v0 ← dec_key "trust_mode" dec kvs old.(sec_TrustMode);
  v1 ← dec_key "cert_file" dec kvs old.(sec_CertFile);
  v2 ← dec_key "key_file" dec kvs old.(sec_KeyFile);
  v3 ← dec_key "ca_file" dec kvs old.(sec_CAFile);
  Some (mkSecurity v0 v1 v2 v3)).
#[export] Program Instance codec_Security : Codec SecurityConfig := {|
  enc := enc_Security; dec := dec_Security;
  zero := mkSecurity zero zero zero zero; is_empty _ := false;
  safe r x := True |}.
Next Obligation. done. Qed.
Next Obligation. intros T r [] HT H; cbv beta in H. destruct_and?. solve_struct_codec. Qed.

Definition enc_Logging (x : LoggingConfig) : json := JObj (entries [
  req "dir" x.(lo_Dir);
  req "capture_raw_xml" x.(lo_CaptureRawXML);
  req "capture_rendered_xml" x.(lo_CaptureRenderedXML)]).
Definition dec_Logging : decoder LoggingConfig := dec_struct (λ kvs old,
  v0 ← dec_key "dir" dec kvs old.(lo_Dir);
  v1 ← dec_key "capture_raw_xml" dec kvs old.(lo_CaptureRawXML);
  v2 ← dec_key "capture_rendered_xml" dec kvs old.(lo_CaptureRenderedXML);
  Some (mkLogging v0 v1 v2)).
#[export] Program Instance codec_Logging : Codec LoggingConfig := {|
  enc := enc_Logging; dec := dec_Logging;
  zero := mkLogging zero zero zero; is_empty _ := false;
  safe r x := True |}.
Next Obligation. done. Qed.
Next Obligation. intros T r [] HT H; cbv beta in H. destruct_and?. solve_struct_codec. Qed.

Definition enc_Storage (x : StorageConfig) : json := JObj (entries [
  opt "backend" x.(st_Backend);
  opt "sqlite_path" x.(st_SQLitePath)]).
Definition dec_Storage : decoder StorageConfig := dec_struct (λ kvs old,
  v0 ← dec_key "backend" dec kvs old.(st_Backend);
  v1 ← dec_key "sqlite_path" dec kvs old.(st_SQLitePath);
  Some (mkStorage v0 v1)).
#[export] Program Instance codec_Storage : Codec StorageConfig := {|
  enc := enc_Storage; dec := dec_Storage;
  zero := mkStorage zero zero; is_empty _ := false;
  safe r x := True |}.
Next Obligation. done. Qed.
Next Obligation. intros T r [] HT H; cbv beta in H. destruct_and?. solve_struct_codec. Qed.

Definition enc_Control (x : ControlConfig) : json := JObj (entries [
  req "bind" x.(ct_Bind)]).
Definition dec_Control : decoder ControlConfig := dec_struct (λ kvs old,
  v0 ← dec_key "bind" dec kvs old.(ct_Bind);
  Some (mkControl v0)).
#[export] Program Instance codec_Control : Codec ControlConfig := {|
  enc := enc_Control; dec := dec_Control;
  zero := mkControl zero; is_empty _ := false;
  safe r x := True |}.
Next Obligation. done. Qed.
Next Obligation. intros T r [] HT H; cbv beta in H. destruct_and?. solve_struct_codec. Qed.

Definition enc_OutboundScheduler (x : OutboundSchedulerConfig) : json := JObj (entries [
  opt "enabled" x.(sch_Enabled);
  opt "auto_start" x.(sch_AutoStart);
  opt "open_session_on_start" x.(sch_OpenSessionOnStart);
  opt "heartbeat_interval_ms" x.(sch_HeartbeatIntervalMS);
  opt "open_retry_interval_ms" x.(sch_OpenRetryIntervalMS);
  opt "failure_threshold" x.(sch_FailureThreshold);
  opt "run_heartbeat_when_idle" x.(sch_RunHeartbeatWhenIdle)]).
Definition dec_OutboundScheduler : decoder OutboundSchedulerConfig := dec_struct (λ kvs old,
  v0 ← dec_key "enabled" dec kvs old.(sch_Enabled);
  v1 ← dec_key "auto_start" dec kvs old.(sch_AutoStart);
  v2 ← dec_key "open_session_on_start" dec kvs old.(sch_OpenSessionOnStart);
  v3 ← dec_key "heartbeat_interval_ms" dec kvs old.(sch_HeartbeatIntervalMS);
  v4 ← dec_key "open_retry_interval_ms" dec kvs old.(sch_OpenRetryIntervalMS);
  v5 ← dec_key "failure_threshold" dec kvs old.(sch_FailureThreshold);
  v6 ← dec_key "run_heartbeat_when_idle" dec kvs old.(sch_RunHeartbeatWhenIdle);
  Some (mkSchedulerConfig v0 v1 v2 v3 v4 v5 v6)).
#[export] Program Instance codec_OutboundScheduler : Codec OutboundSchedulerConfig := {|
  enc := enc_OutboundScheduler; dec := dec_OutboundScheduler;
  zero := mkSchedulerConfig zero zero zero zero zero zero zero; is_empty _ := false;
  safe r x := safe r x.(sch_HeartbeatIntervalMS) ∧ safe r x.(sch_OpenRetryIntervalMS) ∧ safe r x.(sch_FailureThreshold) |}.
Next Obligation. done. Qed.
Next Obligation. intros T r [] HT H; cbv beta in H. destruct_and?. solve_struct_codec. Qed.

Definition enc_Outbound (x : OutboundConfig) : json := JObj (entries [
  opt "default_target_url" x.(out_DefaultTargetURL);
  opt "server_name" x.(out_ServerName);
  opt "path" x.(out_Path);
  opt "timeout_ms" x.(out_TimeoutMS);
  opt "use_runtime_certs" x.(out_UseRuntimeCerts);
  opt "scheduler" x.(out_Scheduler)]).
Definition dec_Outbound : decoder OutboundConfig := dec_struct (λ kvs old,
  v0 ← dec_key "default_target_url" dec kvs old.(out_DefaultTargetURL);
  v1 ← dec_key "server_name" dec kvs old.(out_ServerName);
  v2 ← dec_key "path" dec kvs old.(out_Path);
  v3 ← dec_key "timeout_ms" dec kvs old.(out_TimeoutMS);
  v4 ← dec_key "use_runtime_certs" dec kvs old.(out_UseRuntimeCerts);
  v5 ← dec_key "scheduler" dec kvs old.(out_Scheduler);
  Some (mkOutbound v0 v1 v2 v3 v4 v5)).
#[export] Program Instance codec_Outbound : Codec OutboundConfig := {|
  enc := enc_Outbound; dec := dec_Outbound;
  zero := mkOutbound zero zero zero zero zero zero; is_empty _ := false;
  safe r x := safe r x.(out_TimeoutMS) ∧ safe r x.(out_Scheduler) |}.
Next Obligation. done. Qed.
Next Obligation. intros T r [] HT H; cbv beta in H. destruct_and?. solve_struct_codec. Qed.

Definition enc_Config (x : Config) : json := JObj (entries [
  req "instance_id" x.(cfg_InstanceID);
  opt "host_id" x.(cfg_HostID);
  req "egm_id" x.(cfg_EGMID);
  opt "egm_endpoint" x.(cfg_EGMEndpoint);
  opt "host_endpoint" x.(cfg_HostEndpoint);
  opt "g2s_xml" x.(cfg_G2SXML);
  opt "session_engine" x.(cfg_SessionEngine);
  req "listen" x.(cfg_Listen);
  req "security" x.(cfg_Security);
  req "logging" x.(cfg_Logging);
  opt "storage" x.(cfg_Storage);
  req "control" x.(cfg_Control);
  opt "outbound" x.(cfg_Outbound);
  req "pack_file" x.(cfg_PackFile);
  opt "overlay_files" x.(cfg_Overlay);
  opt "notes" x.(cfg_Notes)]).
Definition dec_Config : decoder Config := dec_struct (λ kvs old,
  v0 ← dec_key "instance_id" dec kvs old.(cfg_InstanceID);
  v1 ← dec_key "host_id" dec kvs old.(cfg_HostID);
  v2 ← dec_key "egm_id" dec kvs old.(cfg_EGMID);
  v3 ← dec_key "egm_endpoint" dec kvs old.(cfg_EGMEndpoint);
  v4 ← dec_key "host_endpoint" dec kvs old.(cfg_HostEndpoint);
  v5 ← dec_key "g2s_xml" dec kvs old.(cfg_G2SXML);
  v6 ← dec_key "session_engine" dec kvs old.(cfg_SessionEngine);
  v7 ← dec_key "listen" dec kvs old.(cfg_Listen);
  v8 ← dec_key "security" dec kvs old.(cfg_Security);
  v9 ← dec_key "logging" dec kvs old.(cfg_Logging);
  v10 ← dec_key "storage" dec kvs old.(cfg_Storage);
  v11 ← dec_key "control" dec kvs old.(cfg_Control);
  v12 ← dec_key "outbound" dec kvs old.(cfg_Outbound);
  v13 ← dec_key "pack_file" dec kvs old.(cfg_PackFile);
  v14 ← dec_key "overlay_files" dec kvs old.(cfg_Overlay);
  v15 ← dec_key "notes" dec kvs old.(cfg_Notes);
  Some (mkConfig v0 v1 v2 v3 v4 v5 v6 v7 v8 v9 v10 v11 v12 v13 v14 v15)).
#[export] Program Instance codec_Config : Codec Config := {|
  enc := enc_Config; dec := dec_Config;
  zero := mkConfig zero zero zero zero zero zero zero zero zero zero zero zero zero zero zero zero; is_empty _ := false;
  safe r x := safe r x.(cfg_EGMEndpoint) ∧ safe r x.(cfg_HostEndpoint) ∧ safe r x.(cfg_G2SXML) ∧ safe r x.(cfg_SessionEngine) ∧ safe r x.(cfg_Listen) ∧ safe r x.(cfg_Security) ∧ safe r x.(cfg_Logging) ∧ safe r x.(cfg_Storage) ∧ safe r x.(cfg_Control) ∧ safe r x.(cfg_Outbound) ∧ safe r x.(cfg_Notes) |}.
Next Obligation. done. Qed.
Next Obligation. intros T r [] HT H; cbv beta in H. destruct_and?. solve_struct_codec. Qed.

(** ** Assignments to fields of a configuration *)

Definition set_cfg_HostID (v : string) (c : Config) : Config :=
  mkConfig c.(cfg_InstanceID) v c.(cfg_EGMID) c.(cfg_EGMEndpoint) c.(cfg_HostEndpoint)
    c.(cfg_G2SXML) c.(cfg_SessionEngine) c.(cfg_Listen) c.(cfg_Security) c.(cfg_Logging)
    c.(cfg_Storage) c.(cfg_Control) c.(cfg_Outbound) c.(cfg_PackFile) c.(cfg_Overlay) c.(cfg_Notes).
Definition set_cfg_EGMEndpoint (v : EGMEndpointConfig) (c : Config) : Config :=
  mkConfig c.(cfg_InstanceID) c.(cfg_HostID) c.(cfg_EGMID) v c.(cfg_HostEndpoint)
    c.(cfg_G2SXML) c.(cfg_SessionEngine) c.(cfg_Listen) c.(cfg_Security) c.(cfg_Logging)
    c.(cfg_Storage) c.(cfg_Control) c.(cfg_Outbound) c.(cfg_PackFile) c.(cfg_Overlay) c.(cfg_Notes).
Definition set_cfg_G2SXML (v : G2SXMLConfig) (c : Config) : Config :=
  mkConfig c.(cfg_InstanceID) c.(cfg_HostID) c.(cfg_EGMID) c.(cfg_EGMEndpoint) c.(cfg_HostEndpoint)
    v c.(cfg_SessionEngine) c.(cfg_Listen) c.(cfg_Security) c.(cfg_Logging)
    c.(cfg_Storage) c.(cfg_Control) c.(cfg_Outbound) c.(cfg_PackFile) c.(cfg_Overlay) c.(cfg_Notes).
Definition set_cfg_SessionEngine (v : SessionEngineConfig) (c : Config) : Config :=
  mkConfig c.(cfg_InstanceID) c.(cfg_HostID) c.(cfg_EGMID) c.(cfg_EGMEndpoint) c.(cfg_HostEndpoint)
    c.(cfg_G2SXML) v c.(cfg_Listen) c.(cfg_Security) c.(cfg_Logging)
    c.(cfg_Storage) c.(cfg_Control) c.(cfg_Outbound) c.(cfg_PackFile) c.(cfg_Overlay) c.(cfg_Notes).
Definition set_cfg_Listen (v : ListenConfig) (c : Config) : Config :=
  mkConfig c.(cfg_InstanceID) c.(cfg_HostID) c.(cfg_EGMID) c.(cfg_EGMEndpoint) c.(cfg_HostEndpoint)
    c.(cfg_G2SXML) c.(cfg_SessionEngine) v c.(cfg_Security) c.(cfg_Logging)
    c.(cfg_Storage) c.(cfg_Control) c.(cfg_Outbound) c.(cfg_PackFile) c.(cfg_Overlay) c.(cfg_Notes).
Definition set_cfg_Security (v : SecurityConfig) (c : Config) : Config :=
  mkConfig c.(cfg_InstanceID) c.(cfg_HostID) c.(cfg_EGMID) c.(cfg_EGMEndpoint) c.(cfg_HostEndpoint)
    c.(cfg_G2SXML) c.(cfg_SessionEngine) c.(cfg_Listen) v c.(cfg_Logging)
    c.(cfg_Storage) c.(cfg_Control) c.(cfg_Outbound) c.(cfg_PackFile) c.(cfg_Overlay) c.(cfg_Notes).
Definition set_cfg_Control (v : ControlConfig) (c : Config) : Config :=
  mkConfig c.(cfg_InstanceID) c.(cfg_HostID) c.(cfg_EGMID) c.(cfg_EGMEndpoint) c.(cfg_HostEndpoint)
    c.(cfg_G2SXML) c.(cfg_SessionEngine) c.(cfg_Listen) c.(cfg_Security) c.(cfg_Logging)
    c.(cfg_Storage) v c.(cfg_Outbound) c.(cfg_PackFile) c.(cfg_Overlay) c.(cfg_Notes).
Definition set_cfg_Outbound (v : OutboundConfig) (c : Config) : Config :=
  mkConfig c.(cfg_InstanceID) c.(cfg_HostID) c.(cfg_EGMID) c.(cfg_EGMEndpoint) c.(cfg_HostEndpoint)
    c.(cfg_G2SXML) c.(cfg_SessionEngine) c.(cfg_Listen) c.(cfg_Security) c.(cfg_Logging)
    c.(cfg_Storage) c.(cfg_Control) v c.(cfg_PackFile) c.(cfg_Overlay) c.(cfg_Notes).
Definition set_cfg_HostEndpoint (v : HostEndpointConfig) (c : Config) : Config :=
  mkConfig c.(cfg_InstanceID) c.(cfg_HostID) c.(cfg_EGMID) c.(cfg_EGMEndpoint) v
    c.(cfg_G2SXML) c.(cfg_SessionEngine) c.(cfg_Listen) c.(cfg_Security) c.(cfg_Logging)
    c.(cfg_Storage) c.(cfg_Control) c.(cfg_Outbound) c.(cfg_PackFile) c.(cfg_Overlay) c.(cfg_Notes).
Definition set_cfg_Notes (v : gmap string string) (c : Config) : Config :=
  mkConfig c.(cfg_InstanceID) c.(cfg_HostID) c.(cfg_EGMID) c.(cfg_EGMEndpoint) c.(cfg_HostEndpoint)
    c.(cfg_G2SXML) c.(cfg_SessionEngine) c.(cfg_Listen) c.(cfg_Security) c.(cfg_Logging)
    c.(cfg_Storage) c.(cfg_Control) c.(cfg_Outbound) c.(cfg_PackFile) c.(cfg_Overlay) v.

Definition set_TrustMode (v : string) (s : SecurityConfig) : SecurityConfig :=
  mkSecurity v s.(sec_CertFile) s.(sec_KeyFile) s.(sec_CAFile).

Definition set_DefaultTargetURL (v : string) (o : OutboundConfig) : OutboundConfig :=
  mkOutbound v o.(out_ServerName) o.(out_Path) o.(out_TimeoutMS) o.(out_UseRuntimeCerts)
    o.(out_Scheduler).

(** ** The registry of XML modes: runtime/xml_mode_registry.go *)

(** [xmlModeRegistry], a process-wide [sync.Map] from instance identifiers. *)
Definition rememberXMLModeInfo (instanceID : string) (info : G2SXMLConfig)
    (registry : gmap string G2SXMLConfig) : gmap string G2SXMLConfig :=
  if bool_decide (instanceID = "") then registry else <[instanceID := info]> registry.

Definition xmlModeInfoForInstance (instanceID : string) (registry : gmap string G2SXMLConfig)
    : G2SXMLConfig :=
  default (mkG2SXML "" "" "") (registry !! instanceID).

(** ** Defaults *)

Definition DefaultNamespace : string := "http://www.gamingstandards.com/g2s/schemas/v1.0.3".

(** [if v == "" { v = d }] *)
Definition or_default (v d : string) : string := if bool_decide (v = "") then d else v.
Definition or_default_int (v d : Z) : Z := if bool_decide (v = 0%Z) then d else v.

(** The endpoint that [applyEndpointDefaults] fills in, field after field. *)
Definition default_endpoint (c : Config) : EGMEndpointConfig :=
  let ep := c.(cfg_EGMEndpoint) in
  let tm := c.(cfg_Security).(sec_TrustMode) in
  let scheme := or_default ep.(ee_Scheme)
    (if bool_decide (tm = "plaintext_lab") || bool_decide (tm = "") then "http" else "https") in
  let bindIP := or_default ep.(ee_BindIP) (firstNonEmpty [c.(cfg_Listen).(li_Host); "127.0.0.1"]) in
  let host := or_default ep.(ee_Host) bindIP in
  let port := or_default_int ep.(ee_Port) c.(cfg_Listen).(li_Port) in
  let path := or_default ep.(ee_Path) "/g2s" in
  mkEGMEndpoint scheme bindIP host port path.

Definition applyEndpointDefaults (c : Config) : Config :=
  let c := set_cfg_EGMEndpoint (default_endpoint c) c in
  if bool_decide (c.(cfg_Outbound).(out_DefaultTargetURL) = "")
     && negb (bool_decide (c.(cfg_HostEndpoint).(he_URL) = ""))
  then set_cfg_Outbound (set_DefaultTargetURL c.(cfg_HostEndpoint).(he_URL) c.(cfg_Outbound)) c
  else c.

Definition host_port (host : string) (port : Z) : string := host +:+ ":" +:+ itoa port.

Definition applyG2SXMLDefaults (c : Config) : Config :=
  let x := c.(cfg_G2SXML) in
  set_cfg_G2SXML (mkG2SXML
    (or_default x.(gx_Mode) "lab_legacy_xml")
    (or_default x.(gx_Namespace) DefaultNamespace)
    (or_default x.(gx_EGMLocation)
       (host_port c.(cfg_EGMEndpoint).(ee_Host) c.(cfg_EGMEndpoint).(ee_Port)))) c.

Definition applySessionEngineDefaults (c : Config) : Config :=
  let se := c.(cfg_SessionEngine) in
  set_cfg_SessionEngine (mkSessionEngine se.(se_Enabled) se.(se_AutoStart)
    (or_default_int se.(se_CommsOnlineTimeoutMS) 3000)
    (or_default_int se.(se_KeepAliveIntervalMS) 5000)
    (or_default_int se.(se_ReconnectIntervalMS) 5000)
    se.(se_AcceptWrappedG2SResponseAck)) c.

(** ** Checks *)

Definition validateG2SXML (x : G2SXMLConfig) : result unit :=
  if negb (bool_decide (x.(gx_Mode) ∈ ["lab_legacy_xml"; "xsd_g2s_message"]))
  then Err ("unsupported g2s_xml.mode " +:+ quote x.(gx_Mode))
  else if bool_decide (x.(gx_Namespace) = "") then Err "g2s_xml.namespace is required"
  else if bool_decide (x.(gx_EGMLocation) = "") then Err "g2s_xml.egm_location is required"
  else Ok ().

Definition validateEGMEndpoint (ep : EGMEndpointConfig) : result unit :=
  if negb (bool_decide (ep.(ee_Scheme) = "http")) && negb (bool_decide (ep.(ee_Scheme) = "https"))
  then Err "egm_endpoint.scheme must be http or https"
  else if bool_decide (ep.(ee_BindIP) = "") then Err "egm_endpoint.bind_ip is required"
  else if bool_decide (ep.(ee_Host) = "") then Err "egm_endpoint.host is required"
  else if (ep.(ee_Port) <=? 0)%Z || (65535 <? ep.(ee_Port))%Z
  then Err "egm_endpoint.port must be between 1 and 65535"
  else if negb (has_prefix "/" ep.(ee_Path)) then Err "egm_endpoint.path must start with /"
  else Ok ().

Definition validateHostEndpoint (ep : HostEndpointConfig) : result unit :=
  if bool_decide (ep.(he_URL) = "") then Ok ()
  else match url_Parse ep.(he_URL) with
       | Err e => Err ("host_endpoint.url is invalid: " +:+ e)
       | Ok u =>
           if negb (bool_decide (u.(URLScheme) = "http")) && negb (bool_decide (u.(URLScheme) = "https"))
           then Err "host_endpoint.url scheme must be http or https"
           else if bool_decide (u.(URLHost) = "") then Err "host_endpoint.url must include host"
           else if negb (has_prefix "/" u.(URLPath)) then Err "host_endpoint.url must include path"
           else Ok ()
       end.

Definition validateStorage (s : StorageConfig) : result unit :=
  if bool_decide (s.(st_Backend) = "") || bool_decide (s.(st_Backend) = "noop") then Ok ()
  else if bool_decide (s.(st_Backend) = "sqlite") then
    if bool_decide (s.(st_SQLitePath) = "")
    then Err ("storage.sqlite_path is required when storage.backend is " +:+ quote s.(st_Backend))
    else Ok ()
  else Err ("unsupported storage.backend " +:+ quote s.(st_Backend)).

(** The trust modes that need the client's certificate to be verified. *)
Definition mutual_tls (mode : string) : bool :=
  bool_decide (mode = "strict_mtls") || bool_decide (mode = "mtls_no_revocation").

Definition validateSecurity (s : SecurityConfig) : result unit :=
  let mode := s.(sec_TrustMode) in
  if bool_decide (mode = "plaintext_lab") then Ok ()
  else if bool_decide (mode ∈ ["tls_server_only"; "strict_mtls"; "mtls_no_revocation"; "accept_all_lab"])
  then
    if bool_decide (s.(sec_CertFile) = "") || bool_decide (s.(sec_KeyFile) = "")
    then Err ("cert_file and key_file are required for trust mode " +:+ quote mode)
    else if mutual_tls mode && bool_decide (s.(sec_CAFile) = "")
    then Err ("ca_file is required for trust mode " +:+ quote mode)
    else Ok ()
  else Err ("unsupported trust_mode " +:+ quote mode).

Definition check (cond : bool) (msg : string) : result unit := if cond then Ok () else Err msg.

(** The checks that follow the defaults of the listener, in order. *)
Definition validateTail (c : Config) : result unit :=
  _ ← check (negb (bool_decide (c.(cfg_Logging).(lo_Dir) = ""))) "logging.dir is required";
  _ ← check (negb (bool_decide (c.(cfg_PackFile) = ""))) "pack_file is required";
  _ ← check (0 <=? c.(cfg_Outbound).(out_TimeoutMS))%Z "outbound.timeout_ms must be >= 0";
  let s := c.(cfg_Outbound).(out_Scheduler) in
  _ ← check (0 <=? s.(sch_HeartbeatIntervalMS))%Z
        "outbound.scheduler.heartbeat_interval_ms must be >= 0";
  _ ← check (0 <=? s.(sch_OpenRetryIntervalMS))%Z
        "outbound.scheduler.open_retry_interval_ms must be >= 0";
  _ ← check (0 <=? s.(sch_FailureThreshold))%Z
        "outbound.scheduler.failure_threshold must be >= 0";
  _ ← validateStorage c.(cfg_Storage);
  validateSecurity c.(cfg_Security).

(** What [ValidateConfig] does to the configuration it points to once the two
    identifiers are there. *)
Definition default_HostID (c : Config) : Config :=
  if bool_decide (c.(cfg_HostID) = "")
  then set_cfg_HostID (firstNonEmpty [get_str c.(cfg_Notes) "host_id"; "HOST-001"]) c
  else c.

Definition fill_defaults (c : Config) : Config :=
  applySessionEngineDefaults (applyG2SXMLDefaults (applyEndpointDefaults (default_HostID c))).

Definition default_Listen (c : Config) : Config :=
  set_cfg_Listen (mkListen
    (or_default c.(cfg_Listen).(li_Host) c.(cfg_EGMEndpoint).(ee_BindIP))
    (or_default_int c.(cfg_Listen).(li_Port) c.(cfg_EGMEndpoint).(ee_Port))) c.

Definition default_Control (c : Config) : Config :=
  set_cfg_Control (mkControl (or_default c.(cfg_Control).(ct_Bind) "127.0.0.1:0")) c.

Definition validateEndpoints (c : Config) : result unit :=
  _ ← validateEGMEndpoint c.(cfg_EGMEndpoint);
  _ ← validateHostEndpoint c.(cfg_HostEndpoint);
  validateG2SXML c.(cfg_G2SXML).

(** [ValidateConfig]: the configuration is changed in place, also on the paths
    that return an error, and the registry from the XML checks on. *)
Definition ValidateConfig (registry : gmap string G2SXMLConfig) (c : Config)
    : gmap string G2SXMLConfig * Config * result unit :=
  if bool_decide (c.(cfg_InstanceID) = "") then (registry, c, Err "instance_id is required")
  else
  let c := default_HostID c in
  if bool_decide (c.(cfg_EGMID) = "") then (registry, c, Err "egm_id is required")
  else
  let c := fill_defaults c in
  match validateEndpoints c with
  | Err e => (registry, c, Err e)
  | Ok _ =>
      let registry := rememberXMLModeInfo c.(cfg_InstanceID) c.(cfg_G2SXML) registry in
      if c.(cfg_SessionEngine).(se_Enabled) && bool_decide (c.(cfg_HostEndpoint).(he_URL) = "")
      then (registry, c, Err "host_endpoint.url is required when session_engine.enabled is true")
      else
      let c := default_Listen c in
      if bool_decide (c.(cfg_Logging).(lo_Dir) = "")
      then (registry, c, Err "logging.dir is required")
      else let c := default_Control c in (registry, c, validateTail c)
  end.

(** [LoadConfig], with the files as a map from paths to their contents. *)
Definition LoadConfig (fs : gmap string file) (registry : gmap string G2SXMLConfig) (path : string)
    : gmap string G2SXMLConfig * result Config :=
  match fs !! path with
  | None => (registry, Err ("read config " +:+ quote path))
  | Some OtherFile => (registry, Err "decode config json")
  | Some (JsonFile j) =>
      match dec j zero with
      | None => (registry, Err "decode config json")
      | Some c =>
          let '(registry', c', r) := ValidateConfig registry c in
          (registry', _ ← r; Ok c')
      end
  end.

(** ** What an accepted configuration satisfies *)

(** The configuration with every default filled in. *)
Definition normalised (c : Config) : Config := default_Control (default_Listen (fill_defaults c)).

Definition url_ok (s : string) : Prop :=
  ∃ u, url_Parse s = Ok u ∧ u.(URLScheme) ∈ ["http"; "https"] ∧ u.(URLHost) ≠ "" ∧
       has_prefix "/" u.(URLPath) = true.

Record endpoint_ok (ep : EGMEndpointConfig) : Prop := {
  endpoint_scheme : ep.(ee_Scheme) ∈ ["http"; "https"];
  endpoint_bind : ep.(ee_BindIP) ≠ "";
  endpoint_host : ep.(ee_Host) ≠ "";
  endpoint_port : (1 ≤ ep.(ee_Port) ≤ 65535)%Z;
  endpoint_path : has_prefix "/" ep.(ee_Path) = true;
}.

Record xml_ok (x : G2SXMLConfig) : Prop := {
  xml_mode : x.(gx_Mode) ∈ ["lab_legacy_xml"; "xsd_g2s_message"];
  xml_namespace : x.(gx_Namespace) ≠ "";
  xml_location : x.(gx_EGMLocation) ≠ "";
}.

Record outbound_ok (o : OutboundConfig) : Prop := {
  outbound_timeout : (0 ≤ o.(out_TimeoutMS))%Z;
  outbound_heartbeat : (0 ≤ o.(out_Scheduler).(sch_HeartbeatIntervalMS))%Z;
  outbound_retry : (0 ≤ o.(out_Scheduler).(sch_OpenRetryIntervalMS))%Z;
  outbound_threshold : (0 ≤ o.(out_Scheduler).(sch_FailureThreshold))%Z;
}.

Definition storage_ok (s : StorageConfig) : Prop :=
  s.(st_Backend) ∈ [""; "noop"] ∨ (s.(st_Backend) = "sqlite" ∧ s.(st_SQLitePath) ≠ "").

Definition security_ok (s : SecurityConfig) : Prop :=
  s.(sec_TrustMode) = "plaintext_lab" ∨
  (s.(sec_TrustMode) ∈ ["tls_server_only"; "accept_all_lab"; "strict_mtls"; "mtls_no_revocation"] ∧
   s.(sec_CertFile) ≠ "" ∧ s.(sec_KeyFile) ≠ "" ∧
   (mutual_tls s.(sec_TrustMode) = true → s.(sec_CAFile) ≠ "")).

Record config_ok (c : Config) : Prop := {
  ok_instance : c.(cfg_InstanceID) ≠ "";
  ok_host_id : c.(cfg_HostID) ≠ "";
  ok_egm_id : c.(cfg_EGMID) ≠ "";
  ok_endpoint : endpoint_ok c.(cfg_EGMEndpoint);
  ok_host : c.(cfg_HostEndpoint).(he_URL) = "" ∨ url_ok c.(cfg_HostEndpoint).(he_URL);
  ok_xml : xml_ok c.(cfg_G2SXML);
  ok_session : c.(cfg_SessionEngine).(se_Enabled) = true → c.(cfg_HostEndpoint).(he_URL) ≠ "";
  ok_session_timers : c.(cfg_SessionEngine).(se_CommsOnlineTimeoutMS) ≠ 0%Z ∧
                      c.(cfg_SessionEngine).(se_KeepAliveIntervalMS) ≠ 0%Z ∧
                      c.(cfg_SessionEngine).(se_ReconnectIntervalMS) ≠ 0%Z;
  ok_target : c.(cfg_Outbound).(out_DefaultTargetURL) = "" → c.(cfg_HostEndpoint).(he_URL) = "";
  ok_listen : c.(cfg_Listen).(li_Host) ≠ "" ∧ c.(cfg_Listen).(li_Port) ≠ 0%Z;
  ok_logging : c.(cfg_Logging).(lo_Dir) ≠ "";
  ok_control : c.(cfg_Control).(ct_Bind) ≠ "";
  ok_pack : c.(cfg_PackFile) ≠ "";
  ok_outbound : outbound_ok c.(cfg_Outbound);
  ok_storage : storage_ok c.(cfg_Storage);
  ok_security : security_ok c.(cfg_Security);
}.

(** Every mode recorded in the process-wide registry is one the renderer knows. *)
Definition registry_ok (registry : gmap string G2SXMLConfig) : Prop :=
  map_Forall (λ id x, id ≠ "" ∧ xml_ok x) registry.

Definition example_config : Config := {|
  cfg_InstanceID := "egm-001"; cfg_HostID := ""; cfg_EGMID := "EGM-001";
  cfg_EGMEndpoint := mkEGMEndpoint "" "" "" 0 "";
  cfg_HostEndpoint := mkHostEndpoint "http://127.0.0.1:9000/host";
  cfg_G2SXML := mkG2SXML "xsd_g2s_message" "" "";
  cfg_SessionEngine := mkSessionEngine true true 0 250 0 false;
  cfg_Listen := mkListen "0.0.0.0" 8080;
  cfg_Security := mkSecurity "strict_mtls" "egm.crt" "egm.key" "ca.crt";
  cfg_Logging := mkLogging "./logs" true true;
  cfg_Storage := mkStorage "sqlite" "./index.db";
  cfg_Control := mkControl "";
  cfg_Outbound := mkOutbound "" "" "" 0 false (mkSchedulerConfig false false false 0 0 0 false);
  cfg_PackFile := "packs/starter.json"; cfg_Overlay := [];
  cfg_Notes := {[ "host_id" := "HOST-007" ]} |}.

(** ** Lemmas *)

Lemma or_default_id v d : v ≠ "" → or_default v d = v.
Proof. intros H. unfold or_default. by rewrite bool_decide_eq_false_2. Qed.

Lemma or_default_ne v d : d ≠ "" → or_default v d ≠ "".
Proof. intros H. unfold or_default. by case_bool_decide. Qed.

Lemma or_default_int_id v d : v ≠ 0%Z → or_default_int v d = v.
Proof. intros H. unfold or_default_int. by rewrite bool_decide_eq_false_2. Qed.

Lemma or_default_int_ne v d : d ≠ 0%Z → or_default_int v d ≠ 0%Z.
Proof. intros H. unfold or_default_int. by case_bool_decide. Qed.

Lemma has_prefix_ne p s : p ≠ "" → has_prefix p s = true → s ≠ "".
Proof. by destruct p, s. Qed.

Lemma check_ok b msg : check b msg = Ok () ↔ b = true.
Proof. by destruct b. Qed.

Lemma bind_unit_ok (r : result unit) (k : unit → result unit) :
  (r ≫= k) = Ok () ↔ r = Ok () ∧ k () = Ok ().
Proof. destruct r as [[]|]; simpl; naive_solver. Qed.

Lemma host_port_ne host port : host_port host port ≠ "".
Proof.
  unfold host_port. destruct host; [done|discriminate].
Qed.

(** An address determines the host and the port it was made of. *)
Lemma host_port_inj h1 p1 h2 p2 : host_port h1 p1 = host_port h2 p2 → h1 = h2 ∧ p1 = p2.
Proof.
  unfold host_port. change (":" +:+ itoa p1) with (String ":" (itoa p1)).
  change (":" +:+ itoa p2) with (String ":" (itoa p2)). intros H.
  apply sep_unique in H as [-> Hp]; [|by apply itoa_free..].
  split; [done|]. by apply (inj (pretty (A := Z))).
Qed.

(** One branch of a checking function: the guard fails and the rest succeeds. *)
Lemma if_err_ok (b : bool) msg (r : result unit) :
  (if b then Err msg else r) = Ok () ↔ b = false ∧ r = Ok ().
Proof. destruct b; naive_solver. Qed.

Lemma one_of_two (s a b : string) :
  negb (bool_decide (s = a)) && negb (bool_decide (s = b)) = false ↔ s ∈ [a; b].
Proof.
  rewrite !elem_of_cons, elem_of_nil. repeat case_bool_decide; naive_solver.
Qed.

Lemma one_of_ne (x a b : string) : x ∈ [a; b] → a ≠ "" → b ≠ "" → x ≠ "".
Proof. rewrite !elem_of_cons, elem_of_nil. by intros [->|[->|[]]]. Qed.

Lemma validateEGMEndpoint_ok ep : validateEGMEndpoint ep = Ok () ↔ endpoint_ok ep.
Proof.
  unfold validateEGMEndpoint. rewrite !if_err_ok, one_of_two, !bool_decide_eq_false.
  rewrite orb_false_iff, Z.leb_gt, Z.ltb_ge, negb_false_iff.
  split; [intros (?&?&?&?&?&_); split; auto; lia|intros []; repeat split; auto; lia].
Qed.

Lemma validateHostEndpoint_ok ep :
  validateHostEndpoint ep = Ok () ↔ ep.(he_URL) = "" ∨ url_ok ep.(he_URL).
Proof.
  unfold validateHostEndpoint, url_ok. case_bool_decide as Hu; [naive_solver|].
  destruct (url_Parse (he_URL ep)) as [u|e]; [|naive_solver].
  rewrite !if_err_ok, one_of_two, bool_decide_eq_false, negb_false_iff. naive_solver.
Qed.

Lemma validateG2SXML_ok x : validateG2SXML x = Ok () ↔ xml_ok x.
Proof.
  unfold validateG2SXML.
  rewrite !if_err_ok, !bool_decide_eq_false, negb_false_iff, bool_decide_eq_true.
  split; [intros (?&?&?&_); by split|intros []; auto].
Qed.

Lemma validateStorage_ok s : validateStorage s = Ok () ↔ storage_ok s.
Proof.
  unfold validateStorage, storage_ok. rewrite !elem_of_cons, elem_of_nil.
  repeat case_bool_decide; simpl; naive_solver.
Qed.

Lemma validateSecurity_ok s : validateSecurity s = Ok () ↔ security_ok s.
Proof.
  unfold validateSecurity, security_ok. case_bool_decide as Hp; [naive_solver|].
  case_bool_decide as Hm.
  - rewrite !if_err_ok, orb_false_iff, andb_false_iff, !bool_decide_eq_false.
    assert (sec_TrustMode s ∈ ["tls_server_only"; "accept_all_lab"; "strict_mtls"; "mtls_no_revocation"])
      by set_solver.
    destruct (mutual_tls (sec_TrustMode s)); naive_solver.
  - assert (sec_TrustMode s ∉ ["tls_server_only"; "accept_all_lab"; "strict_mtls"; "mtls_no_revocation"])
      by set_solver.
    naive_solver.
Qed.

Lemma validateTail_ok c :
  validateTail c = Ok () ↔
  c.(cfg_Logging).(lo_Dir) ≠ "" ∧ c.(cfg_PackFile) ≠ "" ∧ outbound_ok c.(cfg_Outbound) ∧
  storage_ok c.(cfg_Storage) ∧ security_ok c.(cfg_Security).
Proof.
  unfold validateTail. rewrite !bind_unit_ok, !check_ok, !negb_true_iff, !bool_decide_eq_false.
  rewrite !Z.leb_le, validateStorage_ok, validateSecurity_ok.
  split; [intros (?&?&?&?&?&?&?&?); repeat split; auto|intros (?&?&[]&?&?); auto 10].
Qed.

Lemma validateEndpoints_ok c :
  validateEndpoints c = Ok () ↔
  endpoint_ok c.(cfg_EGMEndpoint) ∧
  (c.(cfg_HostEndpoint).(he_URL) = "" ∨ url_ok c.(cfg_HostEndpoint).(he_URL)) ∧
  xml_ok c.(cfg_G2SXML).
Proof.
  unfold validateEndpoints.
  by rewrite !bind_unit_ok, validateEGMEndpoint_ok, validateHostEndpoint_ok, validateG2SXML_ok.
Qed.

(** The conditional assignments of the defaults, as unconditional ones. *)
Lemma default_HostID_eq c :
  default_HostID c
  = set_cfg_HostID (or_default c.(cfg_HostID)
      (firstNonEmpty [get_str c.(cfg_Notes) "host_id"; "HOST-001"])) c.
Proof.
  unfold default_HostID, or_default. case_bool_decide; [done|]. by destruct c.
Qed.

Lemma applyEndpointDefaults_eq c :
  applyEndpointDefaults c
  = set_cfg_Outbound (set_DefaultTargetURL
      (or_default c.(cfg_Outbound).(out_DefaultTargetURL) c.(cfg_HostEndpoint).(he_URL))
      c.(cfg_Outbound)) (set_cfg_EGMEndpoint (default_endpoint c) c).
Proof.
  unfold applyEndpointDefaults. generalize (default_endpoint c). intros ep.
  destruct c as [? ? ? ? [url] ? ? ? ? ? ? ? [target ? ? ? ? ?] ? ? ?].
  unfold or_default. simpl. repeat case_bool_decide; subst; reflexivity.
Qed.

(** The defaults do not touch what the first two checks and the last ones read,
    and leave the identifiers, timers and target they set usable. *)
Lemma fill_defaults_keeps c :
  let d := fill_defaults c in
  d.(cfg_InstanceID) = c.(cfg_InstanceID) ∧ d.(cfg_EGMID) = c.(cfg_EGMID) ∧
  d.(cfg_HostEndpoint) = c.(cfg_HostEndpoint) ∧
  d.(cfg_SessionEngine).(se_Enabled) = c.(cfg_SessionEngine).(se_Enabled) ∧ d.(cfg_HostID) ≠ "" ∧
  (d.(cfg_Outbound).(out_DefaultTargetURL) = "" → d.(cfg_HostEndpoint).(he_URL) = "").
Proof.
  unfold fill_defaults. rewrite default_HostID_eq.
  rewrite applyEndpointDefaults_eq.
  cbn -[firstNonEmpty]. repeat split.
  - by apply or_default_ne, (firstNonEmpty_last [_]).
  - unfold or_default. by case_bool_decide.
Qed.

Lemma fill_defaults_timers c :
  let se := (fill_defaults c).(cfg_SessionEngine) in
  se.(se_CommsOnlineTimeoutMS) ≠ 0%Z ∧ se.(se_KeepAliveIntervalMS) ≠ 0%Z ∧
  se.(se_ReconnectIntervalMS) ≠ 0%Z.
Proof. simpl. repeat split; by apply or_default_int_ne. Qed.

(** Once the endpoint is valid, the listener and the control port are set. *)
Lemma normalised_listen c :
  endpoint_ok (fill_defaults c).(cfg_EGMEndpoint) →
  (normalised c).(cfg_Listen).(li_Host) ≠ "" ∧ (normalised c).(cfg_Listen).(li_Port) ≠ 0%Z.
Proof.
  intros []. split; [by apply or_default_ne|]. apply or_default_int_ne. lia.
Qed.

Lemma normalised_ok c :
  config_ok (normalised c) ↔
  c.(cfg_InstanceID) ≠ "" ∧ c.(cfg_EGMID) ≠ "" ∧
  validateEndpoints (fill_defaults c) = Ok () ∧
  (c.(cfg_SessionEngine).(se_Enabled) = true → c.(cfg_HostEndpoint).(he_URL) ≠ "") ∧
  validateTail (normalised c) = Ok ().
Proof.
  destruct (fill_defaults_keeps c) as (Hi & He & Hh & Hse & Hid & Ht).
  rewrite validateEndpoints_ok, validateTail_ok, <-Hse, <-Hh, <-Hi, <-He.
  pose proof (fill_defaults_timers c) as Hti. pose proof (normalised_listen c) as Hli.
  unfold normalised in *. cbv zeta in *. clear Hi He Hh Hse. revert Hid Ht Hti Hli.
  generalize (fill_defaults c). intros d Hid Ht Hti Hli. split.
  - intros []. split_and!; assumption.
  - intros (?&?&(?&?&?)&?&?&?&?&?&?). split; auto.
    simpl. by apply or_default_ne.
Qed.

(** On a configuration that meets the checks, filling in changes nothing. *)
Lemma default_HostID_id c : c.(cfg_HostID) ≠ "" → default_HostID c = c.
Proof. intros H. unfold default_HostID. by rewrite bool_decide_eq_false_2. Qed.

Lemma applyEndpointDefaults_id c :
  endpoint_ok c.(cfg_EGMEndpoint) →
  (c.(cfg_Outbound).(out_DefaultTargetURL) = "" → c.(cfg_HostEndpoint).(he_URL) = "") →
  applyEndpointDefaults c = c.
Proof.
  intros [Hs Hb Hh Hp Hpath] Ht. unfold applyEndpointDefaults, default_endpoint.
  apply has_prefix_ne in Hpath; [|done].
  assert (c.(cfg_EGMEndpoint).(ee_Scheme) ≠ "") by by eapply one_of_ne.
  assert (c.(cfg_EGMEndpoint).(ee_Port) ≠ 0%Z) by lia.
  rewrite !or_default_id, or_default_int_id by done.
  destruct c as [? ? ? [] ? ? ? ? ? ? ? ? [] ? ? ?]; cbn in *.
  repeat case_bool_decide; naive_solver.
Qed.

Lemma applyG2SXMLDefaults_id c : xml_ok c.(cfg_G2SXML) → applyG2SXMLDefaults c = c.
Proof.
  intros [Hm Hn Hl]. unfold applyG2SXMLDefaults. apply one_of_ne in Hm; [|done..].
  rewrite !or_default_id by done.
  by destruct c as [? ? ? ? ? []].
Qed.

Lemma applySessionEngineDefaults_id c :
  c.(cfg_SessionEngine).(se_CommsOnlineTimeoutMS) ≠ 0%Z →
  c.(cfg_SessionEngine).(se_KeepAliveIntervalMS) ≠ 0%Z →
  c.(cfg_SessionEngine).(se_ReconnectIntervalMS) ≠ 0%Z →
  applySessionEngineDefaults c = c.
Proof.
  intros H1 H2 H3. unfold applySessionEngineDefaults. rewrite !or_default_int_id by done.
  by destruct c as [? ? ? ? ? ? []].
Qed.

Lemma fill_defaults_id c : config_ok c → fill_defaults c = c.
Proof.
  intros []. unfold fill_defaults. rewrite default_HostID_id by done.
  rewrite applyEndpointDefaults_id by done. rewrite applyG2SXMLDefaults_id by done.
  destruct_and!. by apply applySessionEngineDefaults_id.
Qed.

Lemma normalised_id c : config_ok c → normalised c = c.
Proof.
  intros Hc. unfold normalised. rewrite fill_defaults_id by done. destruct Hc.
  unfold default_Control, default_Listen. destruct_and!.
  destruct c as [? ? ? ? ? ? ? [] ? ? ? []]; cbn in *.
  rewrite !or_default_id, or_default_int_id by done. done.
Qed.

Lemma normalised_InstanceID c : (normalised c).(cfg_InstanceID) = c.(cfg_InstanceID).
Proof.
  destruct (fill_defaults_keeps c) as [<- _]. unfold normalised.
  by generalize (fill_defaults c).
Qed.

(** The last checks read what the file said. *)
Lemma validateTail_normalised c : validateTail (normalised c) = Ok () ↔ validateTail c = Ok ().
Proof.
  rewrite !validateTail_ok. unfold normalised, fill_defaults.
  rewrite default_HostID_eq, applyEndpointDefaults_eq.
  generalize (default_endpoint (set_cfg_HostID (or_default (cfg_HostID c)
    (firstNonEmpty [get_str (cfg_Notes c) "host_id"; "HOST-001"])) c)). intros ep.
  destruct c as [? ? ? ? ? ? ? ? ? ? ? ? out ? ? ?]. cbn -[firstNonEmpty].
  assert (Ho : ∀ t, outbound_ok (set_DefaultTargetURL t out) ↔ outbound_ok out).
  { intros t. split; intros []; by split. }
  by rewrite Ho.
Qed.

#[local] Opaque normalised.

(** [ValidateConfig] as one expression, when no error comes before the defaults. *)
Lemma ValidateConfig_ok reg c reg' c' :
  ValidateConfig reg c = (reg', c', Ok ()) ↔
  config_ok (normalised c) ∧ c' = normalised c ∧
  reg' = rememberXMLModeInfo c.(cfg_InstanceID) (normalised c).(cfg_G2SXML) reg.
Proof.
  rewrite normalised_ok. unfold ValidateConfig.
  case_bool_decide as Hi; [naive_solver|].
  cbv zeta. assert (Heg : (default_HostID c).(cfg_EGMID) = c.(cfg_EGMID)) by (by rewrite default_HostID_eq).
  rewrite Heg.
  case_bool_decide as He; [naive_solver|].
  destruct (fill_defaults_keeps c) as (Hid & _ & Hh & Hse & _).
  assert (Hfd : fill_defaults (default_HostID c) = fill_defaults c).
  { unfold fill_defaults. f_equal. f_equal. f_equal.
    rewrite default_HostID_id; [done|]. rewrite default_HostID_eq.
    by apply or_default_ne, (firstNonEmpty_last [_]). }
  rewrite Hfd, Hid, Hh, Hse. change (normalised c) with (default_Control (default_Listen (fill_defaults c))). clear Heg Hfd Hid Hh Hse.
  generalize (fill_defaults c). intros d.
  destruct (validateEndpoints d) as [[]|]; [|naive_solver].
  destruct (_ && _) eqn:Hs.
  { apply andb_true_iff in Hs as [Hen Hu]. bool_props.
    split; [done|]. intros ((_ & _ & _ & Hc & _) & _). by destruct (Hc Hen). }
  assert (Hs' : se_Enabled (cfg_SessionEngine c) = true → he_URL (cfg_HostEndpoint c) ≠ "").
  { intros Hen. rewrite Hen in Hs. simpl in Hs. by bool_props. }
  clear Hs. case_bool_decide as Hl.
  { split; [intros [=]|]. rewrite validateTail_ok.
    intros ((_ & _ & _ & _ & Hl' & _) & _). by destruct Hl'. }
  destruct (validateTail _) as [[]|]; [|naive_solver].
  split; [intros [= <- <-]; by split_and!|by intros (_ & -> & ->)].
Qed.

(** The registry after [ValidateConfig], whatever the outcome. *)
Lemma ValidateConfig_registry reg c :
  (ValidateConfig reg c).1.1 = reg ∨
  ∃ id x, id ≠ "" ∧ xml_ok x ∧ (ValidateConfig reg c).1.1 = <[id := x]> reg.
Proof.
  unfold ValidateConfig. cbv zeta. case_bool_decide as Hi; [by left|].
  case_bool_decide as He; [by left|].
  set (d := fill_defaults (default_HostID c)).
  assert (Hid : d.(cfg_InstanceID) ≠ "").
  { destruct (fill_defaults_keeps (default_HostID c)) as [Hd _]. unfold d. rewrite Hd, default_HostID_eq.
    exact Hi. }
  clearbody d. destruct (validateEndpoints d) as [[]|] eqn:Hv; [|by left].
  apply validateEndpoints_ok in Hv as (_ & _ & Hx). unfold rememberXMLModeInfo.
  rewrite (bool_decide_eq_false_2 _ Hid). right. exists (cfg_InstanceID d), (cfg_G2SXML d).
  split; [done|]. split; [done|]. repeat case_match; done.
Qed.

(** ** Theorems *)

(** C29. [ValidateConfig] accepts a configuration exactly when the configuration
    with every default filled in meets the checks of runtime/config.go, and then
    leaves that configuration behind and records its XML mode under the instance
    identifier. *)
Theorem ValidateConfig_correct reg c reg' c' :
  ValidateConfig reg c = (reg', c', Ok ()) ↔
  c' = normalised c ∧ config_ok c' ∧ reg' = <[c.(cfg_InstanceID) := c'.(cfg_G2SXML)]> reg.
Proof.
  rewrite ValidateConfig_ok. unfold rememberXMLModeInfo. case_bool_decide as Hi; [|naive_solver].
  rewrite <-normalised_InstanceID in Hi.
  split; [intros ([] & _)|intros (-> & [] & _)]; by exfalso.
Qed.

(** Validation is idempotent: a configuration that was accepted is accepted
    again and not changed any more, so the defaults written into it are stable. *)
Theorem ValidateConfig_idempotent reg c reg' c' :
  ValidateConfig reg c = (reg', c', Ok ()) → ValidateConfig reg' c' = (reg', c', Ok ()).
Proof.
  rewrite !ValidateConfig_ok. intros (Hc & -> & ->). rewrite normalised_id by done.
  split; [done|]. split; [done|]. unfold rememberXMLModeInfo.
  rewrite normalised_InstanceID. case_bool_decide; [done|]. by rewrite insert_insert_eq.
Qed.

(** The process-wide registry of XML modes holds known modes with a namespace
    and a location under non-empty identifiers, and validating any configuration,
    accepted or rejected, keeps it so: the record is written only after the XML
    settings were checked. *)
Theorem ValidateConfig_keeps_registry reg c :
  registry_ok reg → registry_ok (ValidateConfig reg c).1.1.
Proof.
  intros Hreg. destruct (ValidateConfig_registry reg c) as [->|(id & x & Hid & Hx & ->)]; [done|].
  by apply map_Forall_insert_2.
Qed.

(** [LoadConfig] reads back the file that holds an accepted configuration
    and returns the configuration itself, whatever the registry. *)
Theorem LoadConfig_roundtrip fs reg path c :
  config_ok c → safe id c → fs !! path = Some (JsonFile (enc c)) →
  (LoadConfig fs reg path).2 = Ok c.
Proof.
  intros Hc Hs Hf. unfold LoadConfig. rewrite Hf. cbv beta iota.
  pose proof (dec_enc id id c _ Hs) as Hd. unfold id in Hd at 1. rewrite Hd.
  assert (He : ValidateConfig reg c =
    (rememberXMLModeInfo c.(cfg_InstanceID) c.(cfg_G2SXML) reg, c, Ok ())).
  { apply ValidateConfig_ok. by rewrite normalised_id. }
  by rewrite He.
Qed.

(** ** Witnesses *)

(** The example needs every default: the identifier of the host comes from the
    notes, the address from the listener, the scheme from the trust mode. *)
Lemma ValidateConfig_idempotent_witness :
  (normalised example_config).(cfg_EGMEndpoint)
  = mkEGMEndpoint "https" "0.0.0.0" "0.0.0.0" 8080 "/g2s" ∧
  ValidateConfig {["egm-001" := (normalised example_config).(cfg_G2SXML)]} (normalised example_config)
  = ({["egm-001" := (normalised example_config).(cfg_G2SXML)]}, normalised example_config, Ok ()).
Proof.
  split; [vm_compute; reflexivity|].
  apply (ValidateConfig_idempotent ∅ example_config). vm_compute. reflexivity.
Defined.

Lemma ValidateConfig_keeps_registry_witness :
  let reg := {["egm-000" := mkG2SXML "xsd_g2s_message" "ns" "here:1"]} in
  registry_ok reg ∧ registry_ok (ValidateConfig reg example_config).1.1.
Proof.
  intros reg. assert (registry_ok reg).
  { apply map_Forall_singleton. split; [done|]. split; [set_solver|done|done]. }
  split; [done|]. by apply ValidateConfig_keeps_registry.
Defined.

Lemma LoadConfig_roundtrip_witness :
  (LoadConfig {["egm.json" := JsonFile (enc (normalised example_config))]} ∅ "egm.json").2
  = Ok (normalised example_config).
Proof.
  apply LoadConfig_roundtrip.
  - apply normalised_ok. split_and!; done || (vm_compute; reflexivity).
  - repeat first [ exact I | by apply map_Forall_singleton | reflexivity | split | progress simpl ].
  - reflexivity.
Defined.
