(* ===== verification/FleetTypes.v ===== *)
(** * Fleet manifests: the data (src/fleet/types.go, load.go)

    A manifest describes a fleet of machines by defaults, profiles, groups and
    instances; resolving it gives one [EffectiveInstance] per instance. Maps
    are finite maps, so a nil map and an empty one are the same: the program
    only asks for their length and their entries. The struct that the source
    calls [Instance] is [FleetInstance] here. *)

From S2P Require Import Prelude GoStrings Json.

(** ** Data *)

Record Endpoint := mkEndpoint {
  ep_Scheme : string;
  ep_BindIP : string;
  ep_Host : string;
  ep_Port : Z;
  ep_Path : string;
}.

Record HostEndpoint := mkFleetHostEndpoint {
  hep_URL : string;
}.

Record G2SXML := mkFleetG2SXML {
  fx_Mode : string;
  fx_Namespace : string;
  fx_EGMLocation : string;
}.

Record Defaults := mkDefaults {
  df_HostID : string;
  df_ListenHost : string;
  df_WirePortBase : Z;
  df_ControlPortBase : Z;
  df_EGMEndpoint : Endpoint;
  df_HostEndpoint : HostEndpoint;
  df_G2SXML : G2SXML;
  df_TrustMode : string;
  df_PackFile : string;
  df_OverlayFiles : list string;
  df_LogRoot : string;
  df_StorageBackend : string;
  df_SQLiteRoot : string;
  df_AdvertisedHost : string;
  df_AdvertisedIP : string;
  df_DNSServers : list string;
  df_SubnetMask : string;
  df_Gateway : string;
  df_ServerName : string;
  df_CertFile : string;
  df_KeyFile : string;
  df_CAFile : string;
  df_Heartbeat : gmap string json;
  df_NormalizedState : gmap string json;
  df_Faults : gmap string json;
}.

Record Profile := mkProfile {
  pf_Label : string;
  pf_Manufacturer : string;
  pf_PackFile : string;
  pf_OverlayFiles : list string;
  pf_LogicalCommands : gmap string string;
  pf_HostID : string;
  pf_EGMEndpoint : Endpoint;
  pf_HostEndpoint : HostEndpoint;
  pf_G2SXML : G2SXML;
  pf_AdvertisedHost : string;
  pf_AdvertisedIP : string;
  pf_DNSServers : list string;
  pf_SubnetMask : string;
  pf_Gateway : string;
  pf_ServerName : string;
  pf_CertFile : string;
  pf_KeyFile : string;
  pf_CAFile : string;
  pf_Heartbeat : gmap string json;
  pf_NormalizedState : gmap string json;
  pf_Faults : gmap string json;
}.

Record Group := mkGroup {
  gr_Label : string;
  gr_Profile : string;
  gr_Zone : string;
  gr_Overrides : gmap string json;
}.

Record FleetInstance := mkInstance {
  in_InstanceID : string;
  in_EGMID : string;
  in_HostID : string;
  in_Group : string;
  in_WirePort : Z;
  in_ControlPort : Z;
  in_BindHost : string;
  in_EGMEndpoint : Endpoint;
  in_HostEndpoint : HostEndpoint;
  in_G2SXML : G2SXML;
  in_AdvertisedHost : string;
  in_AdvertisedIP : string;
  in_DNSServers : list string;
  in_SubnetMask : string;
  in_Gateway : string;
  in_ServerName : string;
  in_LogDir : string;
  in_SQLitePath : string;
  in_CertFile : string;
  in_KeyFile : string;
  in_CAFile : string;
  in_Overrides : gmap string json;
}.

Record Manifest := mkManifest {
  mf_SchemaVersion : string;
  mf_FleetName : string;
  mf_Description : string;
  mf_Defaults : Defaults;
  mf_Profiles : gmap string Profile;
  mf_Groups : gmap string Group;
  mf_Instances : list FleetInstance;
}.

Record EffectiveInstance := mkEffective {
  ef_InstanceID : string;
  ef_EGMID : string;
  ef_HostID : string;
  ef_Group : string;
  ef_Profile : string;
  ef_Manufacturer : string;
  ef_ListenHost : string;
  ef_WirePort : Z;
  ef_ControlPort : Z;
  ef_EGMEndpoint : Endpoint;
  ef_HostEndpoint : HostEndpoint;
  ef_G2SXML : G2SXML;
  ef_AdvertisedHost : string;
  ef_AdvertisedIP : string;
  ef_DNSServers : list string;
  ef_SubnetMask : string;
  ef_Gateway : string;
  ef_ServerName : string;
  ef_TrustMode : string;
  ef_PackFile : string;
  ef_OverlayFiles : list string;
  ef_LogDir : string;
  ef_StorageBackend : string;
  ef_SQLitePath : string;
  ef_LogicalCommands : gmap string string;
  ef_Heartbeat : gmap string json;
  ef_NormalizedState : gmap string json;
  ef_Faults : gmap string json;
  ef_CertFile : string;
  ef_KeyFile : string;
  ef_CAFile : string;
}.

(** ** JSON codecs, one per struct: tags and [omitempty] as declared *)

Definition enc_FleetEndpoint (x : Endpoint) : json := JObj (entries [
  opt "scheme" x.(ep_Scheme);
  opt "bind_ip" x.(ep_BindIP);
  opt "host" x.(ep_Host);
  opt "port" x.(ep_Port);
  opt "path" x.(ep_Path)]).
Definition dec_FleetEndpoint : decoder Endpoint := dec_struct (λ kvs old,
  v0 ← dec_key "scheme" dec kvs old.(ep_Scheme);
  v1 ← dec_key "bind_ip" dec kvs old.(ep_BindIP);
  v2 ← dec_key "host" dec kvs old.(ep_Host);
  v3 ← dec_key "port" dec kvs old.(ep_Port);
  v4 ← dec_key "path" dec kvs old.(ep_Path);
  Some (mkEndpoint v0 v1 v2 v3 v4)).
#[export] Program Instance codec_FleetEndpoint : Codec Endpoint := {|
  enc := enc_FleetEndpoint; dec := dec_FleetEndpoint;
  zero := mkEndpoint zero zero zero zero zero; is_empty _ := false;
  safe r x := safe r x.(ep_Port) |}.
Next Obligation. done. Qed.
Next Obligation. intros T r [] HT H; cbv beta in H. destruct_and?. solve_struct_codec. Qed.

Definition enc_FleetHostEndpoint (x : HostEndpoint) : json := JObj (entries [
  opt "url" x.(hep_URL)]).
Definition dec_FleetHostEndpoint : decoder HostEndpoint := dec_struct (λ kvs old,
  v0 ← dec_key "url" dec kvs old.(hep_URL);
  Some (mkFleetHostEndpoint v0)).
#[export] Program Instance codec_FleetHostEndpoint : Codec HostEndpoint := {|
  enc := enc_FleetHostEndpoint; dec := dec_FleetHostEndpoint;
  zero := mkFleetHostEndpoint zero; is_empty _ := false;
  safe r x := True |}.
Next Obligation. done. Qed.
Next Obligation. intros T r [] HT H; cbv beta in H. destruct_and?. solve_struct_codec. Qed.

Definition enc_FleetG2SXML (x : G2SXML) : json := JObj (entries [
  opt "mode" x.(fx_Mode);
  opt "namespace" x.(fx_Namespace);
  opt "egm_location" x.(fx_EGMLocation)]).
Definition dec_FleetG2SXML : decoder G2SXML := dec_struct (λ kvs old,
  v0 ← dec_key "mode" dec kvs old.(fx_Mode);
  v1 ← dec_key "namespace" dec kvs old.(fx_Namespace);
  v2 ← dec_key "egm_location" dec kvs old.(fx_EGMLocation);
  Some (mkFleetG2SXML v0 v1 v2)).
#[export] Program Instance codec_FleetG2SXML : Codec G2SXML := {|
  enc := enc_FleetG2SXML; dec := dec_FleetG2SXML;
  zero := mkFleetG2SXML zero zero zero; is_empty _ := false;
  safe r x := True |}.
Next Obligation. done. Qed.
Next Obligation. intros T r [] HT H; cbv beta in H. destruct_and?. solve_struct_codec. Qed.

Definition enc_Defaults (x : Defaults) : json := JObj (entries [
  opt "host_id" x.(df_HostID);
  opt "listen_host" x.(df_ListenHost);
  opt "wire_port_base" x.(df_WirePortBase);
  opt "control_port_base" x.(df_ControlPortBase);
  opt "egm_endpoint" x.(df_EGMEndpoint);
  opt "host_endpoint" x.(df_HostEndpoint);
  opt "g2s_xml" x.(df_G2SXML);
  opt "trust_mode" x.(df_TrustMode);
  opt "pack_file" x.(df_PackFile);
  opt "overlay_files" x.(df_OverlayFiles);
  opt "log_root" x.(df_LogRoot);
  opt "storage_backend" x.(df_StorageBackend);
  opt "sqlite_root" x.(df_SQLiteRoot);
  opt "advertised_host" x.(df_AdvertisedHost);
  opt "advertised_ip" x.(df_AdvertisedIP);
  opt "dns_servers" x.(df_DNSServers);
  opt "subnet_mask" x.(df_SubnetMask);
  opt "gateway" x.(df_Gateway);
  opt "server_name" x.(df_ServerName);
  opt "cert_file" x.(df_CertFile);
  opt "key_file" x.(df_KeyFile);
  opt "ca_file" x.(df_CAFile);
  opt "heartbeat" x.(df_Heartbeat);
  opt "normalized_state" x.(df_NormalizedState);
  opt "faults" x.(df_Faults)]).
Definition dec_Defaults : decoder Defaults := dec_struct (λ kvs old,
  v0 ← dec_key "host_id" dec kvs old.(df_HostID);
  v1 ← dec_key "listen_host" dec kvs old.(df_ListenHost);
  v2 ← dec_key "wire_port_base" dec kvs old.(df_WirePortBase);
  v3 ← dec_key "control_port_base" dec kvs old.(df_ControlPortBase);
  v4 ← dec_key "egm_endpoint" dec kvs old.(df_EGMEndpoint);
  v5 ← dec_key "host_endpoint" dec kvs old.(df_HostEndpoint);
  v6 ← dec_key "g2s_xml" dec kvs old.(df_G2SXML);
  v7 ← dec_key "trust_mode" dec kvs old.(df_TrustMode);
  v8 ← dec_key "pack_file" dec kvs old.(df_PackFile);
  v9 ← dec_key "overlay_files" dec kvs old.(df_OverlayFiles);
  v10 ← dec_key "log_root" dec kvs old.(df_LogRoot);
  v11 ← dec_key "storage_backend" dec kvs old.(df_StorageBackend);
  v12 ← dec_key "sqlite_root" dec kvs old.(df_SQLiteRoot);
  v13 ← dec_key "advertised_host" dec kvs old.(df_AdvertisedHost);
  v14 ← dec_key "advertised_ip" dec kvs old.(df_AdvertisedIP);
  v15 ← dec_key "dns_servers" dec kvs old.(df_DNSServers);
  v16 ← dec_key "subnet_mask" dec kvs old.(df_SubnetMask);
  v17 ← dec_key "gateway" dec kvs old.(df_Gateway);
  v18 ← dec_key "server_name" dec kvs old.(df_ServerName);
  v19 ← dec_key "cert_file" dec kvs old.(df_CertFile);
  v20 ← dec_key "key_file" dec kvs old.(df_KeyFile);
  v21 ← dec_key "ca_file" dec kvs old.(df_CAFile);
  v22 ← dec_key "heartbeat" dec kvs old.(df_Heartbeat);
  v23 ← dec_key "normalized_state" dec kvs old.(df_NormalizedState);
  v24 ← dec_key "faults" dec kvs old.(df_Faults);
  Some (mkDefaults v0 v1 v2 v3 v4 v5 v6 v7 v8 v9 v10 v11 v12 v13 v14 v15 v16 v17 v18 v19 v20 v21 v22 v23 v24)).
#[export] Program Instance codec_Defaults : Codec Defaults := {|
  enc := enc_Defaults; dec := dec_Defaults;
  zero := mkDefaults zero zero zero zero zero zero zero zero zero zero zero zero zero zero zero zero zero zero zero zero zero zero zero zero zero; is_empty _ := false;
  safe r x := safe r x.(df_WirePortBase) ∧ safe r x.(df_ControlPortBase) ∧ safe r x.(df_EGMEndpoint) ∧ safe r x.(df_HostEndpoint) ∧ safe r x.(df_G2SXML) ∧ safe r x.(df_Heartbeat) ∧ safe r x.(df_NormalizedState) ∧ safe r x.(df_Faults) |}.
Next Obligation. done. Qed.
Next Obligation. intros T r [] HT H; cbv beta in H. destruct_and?. solve_struct_codec. Qed.

Definition enc_Profile (x : Profile) : json := JObj (entries [
  opt "label" x.(pf_Label);
  opt "manufacturer" x.(pf_Manufacturer);
  req "pack_file" x.(pf_PackFile);
  opt "overlay_files" x.(pf_OverlayFiles);
  req "logical_commands" x.(pf_LogicalCommands);
  opt "host_id" x.(pf_HostID);
  opt "egm_endpoint" x.(pf_EGMEndpoint);
  opt "host_endpoint" x.(pf_HostEndpoint);
  opt "g2s_xml" x.(pf_G2SXML);
  opt "advertised_host" x.(pf_AdvertisedHost);
  opt "advertised_ip" x.(pf_AdvertisedIP);
  opt "dns_servers" x.(pf_DNSServers);
  opt "subnet_mask" x.(pf_SubnetMask);
  opt "gateway" x.(pf_Gateway);
  opt "server_name" x.(pf_ServerName);
  opt "cert_file" x.(pf_CertFile);
  opt "key_file" x.(pf_KeyFile);
  opt "ca_file" x.(pf_CAFile);
  opt "heartbeat" x.(pf_Heartbeat);
  opt "normalized_state" x.(pf_NormalizedState);
  opt "faults" x.(pf_Faults)]).
Definition dec_Profile : decoder Profile := dec_struct (λ kvs old,
  v0 ← dec_key "label" dec kvs old.(pf_Label);
  v1 ← dec_key "manufacturer" dec kvs old.(pf_Manufacturer);
  v2 ← dec_key "pack_file" dec kvs old.(pf_PackFile);
  v3 ← dec_key "overlay_files" dec kvs old.(pf_OverlayFiles);
  v4 ← dec_key "logical_commands" dec kvs old.(pf_LogicalCommands);
  v5 ← dec_key "host_id" dec kvs old.(pf_HostID);
  v6 ← dec_key "egm_endpoint" dec kvs old.(pf_EGMEndpoint);
  v7 ← dec_key "host_endpoint" dec kvs old.(pf_HostEndpoint);
  v8 ← dec_key "g2s_xml" dec kvs old.(pf_G2SXML);
  v9 ← dec_key "advertised_host" dec kvs old.(pf_AdvertisedHost);
  v10 ← dec_key "advertised_ip" dec kvs old.(pf_AdvertisedIP);
  v11 ← dec_key "dns_servers" dec kvs old.(pf_DNSServers);
  v12 ← dec_key "subnet_mask" dec kvs old.(pf_SubnetMask);
  v13 ← dec_key "gateway" dec kvs old.(pf_Gateway);
  v14 ← dec_key "server_name" dec kvs old.(pf_ServerName);
  v15 ← dec_key "cert_file" dec kvs old.(pf_CertFile);
  v16 ← dec_key "key_file" dec kvs old.(pf_KeyFile);
  v17 ← dec_key "ca_file" dec kvs old.(pf_CAFile);
  v18 ← dec_key "heartbeat" dec kvs old.(pf_Heartbeat);
  v19 ← dec_key "normalized_state" dec kvs old.(pf_NormalizedState);
  v20 ← dec_key "faults" dec kvs old.(pf_Faults);
  Some (mkProfile v0 v1 v2 v3 v4 v5 v6 v7 v8 v9 v10 v11 v12 v13 v14 v15 v16 v17 v18 v19 v20)).
#[export] Program Instance codec_Profile : Codec Profile := {|
  enc := enc_Profile; dec := dec_Profile;
  zero := mkProfile zero zero zero zero zero zero zero zero zero zero zero zero zero zero zero zero zero zero zero zero zero; is_empty _ := false;
  safe r x := safe r x.(pf_LogicalCommands) ∧ safe r x.(pf_EGMEndpoint) ∧ safe r x.(pf_HostEndpoint) ∧ safe r x.(pf_G2SXML) ∧ safe r x.(pf_Heartbeat) ∧ safe r x.(pf_NormalizedState) ∧ safe r x.(pf_Faults) |}.
Next Obligation. done. Qed.
Next Obligation. intros T r [] HT H; cbv beta in H. destruct_and?. solve_struct_codec. Qed.

Definition enc_Group (x : Group) : json := JObj (entries [
  opt "label" x.(gr_Label);
  req "profile" x.(gr_Profile);
  opt "zone" x.(gr_Zone);
  opt "overrides" x.(gr_Overrides)]).
Definition dec_Group : decoder Group := dec_struct (λ kvs old,
  v0 ← dec_key "label" dec kvs old.(gr_Label);
  v1 ← dec_key "profile" dec kvs old.(gr_Profile);
  v2 ← dec_key "zone" dec kvs old.(gr_Zone);
  v3 ← dec_key "overrides" dec kvs old.(gr_Overrides);
  Some (mkGroup v0 v1 v2 v3)).
#[export] Program Instance codec_Group : Codec Group := {|
  enc := enc_Group; dec := dec_Group;
  zero := mkGroup zero zero zero zero; is_empty _ := false;
  safe r x := safe r x.(gr_Overrides) |}.
Next Obligation. done. Qed.
Next Obligation. intros T r [] HT H; cbv beta in H. destruct_and?. solve_struct_codec. Qed.

Definition enc_FleetInstance (x : FleetInstance) : json := JObj (entries [
  req "instance_id" x.(in_InstanceID);
  req "egm_id" x.(in_EGMID);
  opt "host_id" x.(in_HostID);
  req "group" x.(in_Group);
  opt "wire_port" x.(in_WirePort);
  opt "control_port" x.(in_ControlPort);
  opt "bind_host" x.(in_BindHost);
  opt "egm_endpoint" x.(in_EGMEndpoint);
  opt "host_endpoint" x.(in_HostEndpoint);
  opt "g2s_xml" x.(in_G2SXML);
  opt "advertised_host" x.(in_AdvertisedHost);
  opt "advertised_ip" x.(in_AdvertisedIP);
  opt "dns_servers" x.(in_DNSServers);
  opt "subnet_mask" x.(in_SubnetMask);
  opt "gateway" x.(in_Gateway);
  opt "server_name" x.(in_ServerName);
  opt "log_dir" x.(in_LogDir);
  opt "sqlite_path" x.(in_SQLitePath);
  opt "cert_file" x.(in_CertFile);
  opt "key_file" x.(in_KeyFile);
  opt "ca_file" x.(in_CAFile);
  opt "overrides" x.(in_Overrides)]).
Definition dec_FleetInstance : decoder FleetInstance := dec_struct (λ kvs old,
  v0 ← dec_key "instance_id" dec kvs old.(in_InstanceID);
  v1 ← dec_key "egm_id" dec kvs old.(in_EGMID);
  v2 ← dec_key "host_id" dec kvs old.(in_HostID);
  v3 ← dec_key "group" dec kvs old.(in_Group);
  v4 ← dec_key "wire_port" dec kvs old.(in_WirePort);
  v5 ← dec_key "control_port" dec kvs old.(in_ControlPort);
  v6 ← dec_key "bind_host" dec kvs old.(in_BindHost);
  v7 ← dec_key "egm_endpoint" dec kvs old.(in_EGMEndpoint);
  v8 ← dec_key "host_endpoint" dec kvs old.(in_HostEndpoint);
  v9 ← dec_key "g2s_xml" dec kvs old.(in_G2SXML);
  v10 ← dec_key "advertised_host" dec kvs old.(in_AdvertisedHost);
  v11 ← dec_key "advertised_ip" dec kvs old.(in_AdvertisedIP);
  v12 ← dec_key "dns_servers" dec kvs old.(in_DNSServers);
  v13 ← dec_key "subnet_mask" dec kvs old.(in_SubnetMask);
  v14 ← dec_key "gateway" dec kvs old.(in_Gateway);
  v15 ← dec_key "server_name" dec kvs old.(in_ServerName);
  v16 ← dec_key "log_dir" dec kvs old.(in_LogDir);
  v17 ← dec_key "sqlite_path" dec kvs old.(in_SQLitePath);
  v18 ← dec_key "cert_file" dec kvs old.(in_CertFile);
  v19 ← dec_key "key_file" dec kvs old.(in_KeyFile);
  v20 ← dec_key "ca_file" dec kvs old.(in_CAFile);
  v21 ← dec_key "overrides" dec kvs old.(in_Overrides);
  Some (mkInstance v0 v1 v2 v3 v4 v5 v6 v7 v8 v9 v10 v11 v12 v13 v14 v15 v16 v17 v18 v19 v20 v21)).
#[export] Program Instance codec_FleetInstance : Codec FleetInstance := {|
  enc := enc_FleetInstance; dec := dec_FleetInstance;
  zero := mkInstance zero zero zero zero zero zero zero zero zero zero zero zero zero zero zero zero zero zero zero zero zero zero; is_empty _ := false;
  safe r x := safe r x.(in_WirePort) ∧ safe r x.(in_ControlPort) ∧ safe r x.(in_EGMEndpoint) ∧ safe r x.(in_HostEndpoint) ∧ safe r x.(in_G2SXML) ∧ safe r x.(in_Overrides) |}.
Next Obligation. done. Qed.
Next Obligation. intros T r [] HT H; cbv beta in H. destruct_and?. solve_struct_codec. Qed.

Definition enc_Manifest (x : Manifest) : json := JObj (entries [
  req "schema_version" x.(mf_SchemaVersion);
  req "fleet_name" x.(mf_FleetName);
  opt "description" x.(mf_Description);
  req "defaults" x.(mf_Defaults);
  req "profiles" x.(mf_Profiles);
  req "groups" x.(mf_Groups);
  req "instances" x.(mf_Instances)]).
Definition dec_Manifest : decoder Manifest := dec_struct (λ kvs old,
  v0 ← dec_key "schema_version" dec kvs old.(mf_SchemaVersion);
  v1 ← dec_key "fleet_name" dec kvs old.(mf_FleetName);
  v2 ← dec_key "description" dec kvs old.(mf_Description);
  v3 ← dec_key "defaults" dec kvs old.(mf_Defaults);
  v4 ← dec_key "profiles" dec kvs old.(mf_Profiles);
  v5 ← dec_key "groups" dec kvs old.(mf_Groups);
  v6 ← dec_key "instances" dec kvs old.(mf_Instances);
  Some (mkManifest v0 v1 v2 v3 v4 v5 v6)).
#[export] Program Instance codec_Manifest : Codec Manifest := {|
  enc := enc_Manifest; dec := dec_Manifest;
  zero := mkManifest zero zero zero zero zero zero zero; is_empty _ := false;
  safe r x := safe r x.(mf_Defaults) ∧ safe r x.(mf_Profiles) ∧ safe r x.(mf_Groups) ∧ safe r x.(mf_Instances) |}.
Next Obligation. done. Qed.
Next Obligation. intros T r [] HT H; cbv beta in H. destruct_and?. solve_struct_codec. Qed.

Definition enc_EffectiveInstance (x : EffectiveInstance) : json := JObj (entries [
  req "instance_id" x.(ef_InstanceID);
  req "egm_id" x.(ef_EGMID);
  req "host_id" x.(ef_HostID);
  req "group" x.(ef_Group);
  req "profile" x.(ef_Profile);
  opt "manufacturer" x.(ef_Manufacturer);
  req "listen_host" x.(ef_ListenHost);
  req "wire_port" x.(ef_WirePort);
  req "control_port" x.(ef_ControlPort);
  req "egm_endpoint" x.(ef_EGMEndpoint);
  opt "host_endpoint" x.(ef_HostEndpoint);
  opt "g2s_xml" x.(ef_G2SXML);
  opt "advertised_host" x.(ef_AdvertisedHost);
  opt "advertised_ip" x.(ef_AdvertisedIP);
  opt "dns_servers" x.(ef_DNSServers);
  opt "subnet_mask" x.(ef_SubnetMask);
  opt "gateway" x.(ef_Gateway);
  opt "server_name" x.(ef_ServerName);
  req "trust_mode" x.(ef_TrustMode);
  req "pack_file" x.(ef_PackFile);
  opt "overlay_files" x.(ef_OverlayFiles);
  req "log_dir" x.(ef_LogDir);
  req "storage_backend" x.(ef_StorageBackend);
  opt "sqlite_path" x.(ef_SQLitePath);
  opt "logical_commands" x.(ef_LogicalCommands);
  opt "heartbeat" x.(ef_Heartbeat);
  opt "normalized_state" x.(ef_NormalizedState);
  opt "faults" x.(ef_Faults);
  opt "cert_file" x.(ef_CertFile);
  opt "key_file" x.(ef_KeyFile);
  opt "ca_file" x.(ef_CAFile)]).
Definition dec_EffectiveInstance : decoder EffectiveInstance := dec_struct (λ kvs old,
  v0 ← dec_key "instance_id" dec kvs old.(ef_InstanceID);
  v1 ← dec_key "egm_id" dec kvs old.(ef_EGMID);
  v2 ← dec_key "host_id" dec kvs old.(ef_HostID);
  v3 ← dec_key "group" dec kvs old.(ef_Group);
  v4 ← dec_key "profile" dec kvs old.(ef_Profile);
  v5 ← dec_key "manufacturer" dec kvs old.(ef_Manufacturer);
  v6 ← dec_key "listen_host" dec kvs old.(ef_ListenHost);
  v7 ← dec_key "wire_port" dec kvs old.(ef_WirePort);
  v8 ← dec_key "control_port" dec kvs old.(ef_ControlPort);
  v9 ← dec_key "egm_endpoint" dec kvs old.(ef_EGMEndpoint);
  v10 ← dec_key "host_endpoint" dec kvs old.(ef_HostEndpoint);
  v11 ← dec_key "g2s_xml" dec kvs old.(ef_G2SXML);
  v12 ← dec_key "advertised_host" dec kvs old.(ef_AdvertisedHost);
  v13 ← dec_key "advertised_ip" dec kvs old.(ef_AdvertisedIP);
  v14 ← dec_key "dns_servers" dec kvs old.(ef_DNSServers);
  v15 ← dec_key "subnet_mask" dec kvs old.(ef_SubnetMask);
  v16 ← dec_key "gateway" dec kvs old.(ef_Gateway);
  v17 ← dec_key "server_name" dec kvs old.(ef_ServerName);
  v18 ← dec_key "trust_mode" dec kvs old.(ef_TrustMode);
  v19 ← dec_key "pack_file" dec kvs old.(ef_PackFile);
  v20 ← dec_key "overlay_files" dec kvs old.(ef_OverlayFiles);
  v21 ← dec_key "log_dir" dec kvs old.(ef_LogDir);
  v22 ← dec_key "storage_backend" dec kvs old.(ef_StorageBackend);
  v23 ← dec_key "sqlite_path" dec kvs old.(ef_SQLitePath);
  v24 ← dec_key "logical_commands" dec kvs old.(ef_LogicalCommands);
  v25 ← dec_key "heartbeat" dec kvs old.(ef_Heartbeat);
  v26 ← dec_key "normalized_state" dec kvs old.(ef_NormalizedState);
  v27 ← dec_key "faults" dec kvs old.(ef_Faults);
  v28 ← dec_key "cert_file" dec kvs old.(ef_CertFile);
  v29 ← dec_key "key_file" dec kvs old.(ef_KeyFile);
  v30 ← dec_key "ca_file" dec kvs old.(ef_CAFile);
  Some (mkEffective v0 v1 v2 v3 v4 v5 v6 v7 v8 v9 v10 v11 v12 v13 v14 v15 v16 v17 v18 v19 v20 v21 v22 v23 v24 v25 v26 v27 v28 v29 v30)).
#[export] Program Instance codec_EffectiveInstance : Codec EffectiveInstance := {|
  enc := enc_EffectiveInstance; dec := dec_EffectiveInstance;
  zero := mkEffective zero zero zero zero zero zero zero zero zero zero zero zero zero zero zero zero zero zero zero zero zero zero zero zero zero zero zero zero zero zero zero; is_empty _ := false;
  safe r x := safe r x.(ef_WirePort) ∧ safe r x.(ef_ControlPort) ∧ safe r x.(ef_EGMEndpoint) ∧ safe r x.(ef_HostEndpoint) ∧ safe r x.(ef_G2SXML) ∧ safe r x.(ef_LogicalCommands) ∧ safe r x.(ef_Heartbeat) ∧ safe r x.(ef_NormalizedState) ∧ safe r x.(ef_Faults) |}.
Next Obligation. done. Qed.
Next Obligation. intros T r [] HT H; cbv beta in H. destruct_and?. solve_struct_codec. Qed.

