(* ===== verification/Fleet.v ===== *)
(** * Fleet manifests: validation and resolution (src/fleet/validate.go,
    resolve.go, load.go)

    [ValidateManifest] collects the errors of a manifest, ranging over its two
    maps in an unspecified order; [ResolveInstances] merges defaults, profile,
    group and instance into one [EffectiveInstance] per instance and rejects
    endpoints used twice. *)

From S2P Require Import Prelude GoStrings Url Json Validate Config FleetTypes.

Definition ManifestSchemaVersion : string := "vegm.fleet-manifest/v1".

(** ** Checks of one part of a manifest *)

Definition zero_Endpoint : Endpoint := mkEndpoint "" "" "" 0 "".

Definition endpoint_errors (label : string) (ep : Endpoint) : list string :=
  if bool_decide (ep.(ep_Scheme) = "" ∧ ep.(ep_BindIP) = "" ∧ ep.(ep_Host) = "" ∧
                  ep.(ep_Port) = 0%Z ∧ ep.(ep_Path) = "") then []
  else
    err_if (negb (bool_decide (ep.(ep_Scheme) = "")) && negb (bool_decide (ep.(ep_Scheme) = "http"))
            && negb (bool_decide (ep.(ep_Scheme) = "https")))
      (label +:+ ".scheme must be http or https")
    ++ err_if ((ep.(ep_Port) <? 0)%Z || (65535 <? ep.(ep_Port))%Z)
      (label +:+ ".port must be between 0 and 65535")
    ++ err_if (negb (bool_decide (ep.(ep_Path) = "")) && negb (has_prefix "/" ep.(ep_Path)))
      (label +:+ ".path must start with /").

Definition host_endpoint_errors (label : string) (ep : HostEndpoint) : list string :=
  if bool_decide (ep.(hep_URL) = "") then []
  else match url_Parse ep.(hep_URL) with
       | Err e => [label +:+ ".url is invalid: " +:+ e]
       | Ok u =>
           err_if (negb (bool_decide (u.(URLScheme) = "http")) && negb (bool_decide (u.(URLScheme) = "https")))
             (label +:+ ".url scheme must be http or https")
           ++ err_if (bool_decide (u.(URLHost) = "")) (label +:+ ".url must include host")
           ++ err_if (bool_decide (u.(URLPath) = "") || negb (has_prefix "/" u.(URLPath)))
             (label +:+ ".url must include path")
       end.

Definition profile_errors (kv : string * Profile) : list string :=
  let '(name, p) := kv in
  if blank name then ["profiles contains empty key"]
  else
    err_if (blank p.(pf_PackFile)) ("profiles." +:+ name +:+ ".pack_file is required")
    ++ err_if (bool_decide (p.(pf_LogicalCommands) = ∅))
         ("profiles." +:+ name +:+ ".logical_commands must not be empty")
    ++ endpoint_errors ("profiles." +:+ name +:+ ".egm_endpoint") p.(pf_EGMEndpoint)
    ++ host_endpoint_errors ("profiles." +:+ name +:+ ".host_endpoint") p.(pf_HostEndpoint).

Definition group_errors (m : Manifest) (kv : string * Group) : list string :=
  let '(name, g) := kv in
  if blank name then ["groups contains empty key"]
  else if blank g.(gr_Profile) then ["groups." +:+ name +:+ ".profile is required"]
  else match m.(mf_Profiles) !! g.(gr_Profile) with
       | Some _ => []
       | None => ["groups." +:+ name +:+ ".profile " +:+ quote g.(gr_Profile)
                  +:+ " not found in profiles"]
       end.

Definition resolvedHostID (m : Manifest) (inst : FleetInstance) : string :=
  if negb (bool_decide (inst.(in_HostID) = "")) then inst.(in_HostID)
  else match m.(mf_Groups) !! inst.(in_Group) with
       | Some g =>
           match m.(mf_Profiles) !! g.(gr_Profile) with
           | Some p => if negb (bool_decide (p.(pf_HostID) = "")) then p.(pf_HostID)
                       else m.(mf_Defaults).(df_HostID)
           | None => m.(mf_Defaults).(df_HostID)
           end
       | None => m.(mf_Defaults).(df_HostID)
       end.

(** ** The loop over the instances, with the identifiers and ports seen so far *)

Record seen_state := mkSeen {
  seenInstanceIDs : gset string;
  seenEGMIDs : gset string;
  seenWirePorts : gmap Z string;
  seenControlPorts : gmap Z string;
}.

Definition instance_label (i : nat) (field : string) : string :=
  "instances[" +:+ itoa_nat i +:+ "]." +:+ field.

Definition check_id (label id : string) (seen : gset string) : gset string * list string :=
  if blank id then (seen, [label +:+ " is required"])
  else if bool_decide (id ∈ seen) then (seen, [label +:+ " " +:+ quote id +:+ " is duplicated"])
  else ({[ id ]} ∪ seen, []).

Definition check_port (label : string) (port : Z) (owner : string) (seen : gmap Z string)
    : gmap Z string * list string :=
  if (0 <? port)%Z then
    match seen !! port with
    | Some prior => (seen, [label +:+ " " +:+ itoa port +:+ " duplicates instance " +:+ quote prior])
    | None => (<[port := owner]> seen, [])
    end
  else (seen, []).

(** The errors of one instance that do not depend on the other instances. *)
Definition instance_errors (m : Manifest) (i : nat) (inst : FleetInstance) : list string :=
  err_if (bool_decide (resolvedHostID m inst = ""))
    (instance_label i "host_id is required through instance/profile/default")
  ++ (if blank inst.(in_Group) then [instance_label i "group is required"]
      else match m.(mf_Groups) !! inst.(in_Group) with
           | Some _ => []
           | None => [instance_label i "group " +:+ quote inst.(in_Group) +:+ " not found in groups"]
           end)
  ++ err_if (inst.(in_WirePort) <? 0)%Z (instance_label i "wire_port must be >= 0")
  ++ err_if (inst.(in_ControlPort) <? 0)%Z (instance_label i "control_port must be >= 0")
  ++ endpoint_errors (instance_label i "egm_endpoint") inst.(in_EGMEndpoint)
  ++ host_endpoint_errors (instance_label i "host_endpoint") inst.(in_HostEndpoint).

Definition validate_instance (m : Manifest) (i : nat) (inst : FleetInstance) (s : seen_state)
    : seen_state * list string :=
  let '(ids, e1) := check_id (instance_label i "instance_id") inst.(in_InstanceID) s.(seenInstanceIDs) in
  let '(egms, e2) := check_id (instance_label i "egm_id") inst.(in_EGMID) s.(seenEGMIDs) in
  let e3 := instance_errors m i inst in
  let '(wires, e4) := check_port (instance_label i "wire_port") inst.(in_WirePort)
                        inst.(in_InstanceID) s.(seenWirePorts) in
  let '(controls, e5) := check_port (instance_label i "control_port") inst.(in_ControlPort)
                           inst.(in_InstanceID) s.(seenControlPorts) in
  (mkSeen ids egms wires controls, e1 ++ e2 ++ e3 ++ e4 ++ e5).

Fixpoint validate_instances (m : Manifest) (i : nat) (l : list FleetInstance) (s : seen_state)
    : list string :=
  match l with
  | [] => []
  | inst :: l' =>
      let '(s', errs) := validate_instance m i inst s in
      errs ++ validate_instances m (S i) l' s'
  end.

(** [ValidateManifest] when the two [range] loops visit the maps as listed. *)
Definition ValidateManifest_in (profiles : list (string * Profile)) (groups : list (string * Group))
    (m : Manifest) : result unit :=
  finish "fleet manifest validation failed:"
    (err_if (negb (bool_decide (m.(mf_SchemaVersion) = ManifestSchemaVersion)))
       ("schema_version must be " +:+ quote ManifestSchemaVersion)
     ++ err_if (blank m.(mf_FleetName)) "fleet_name is required"
     ++ err_if (bool_decide (m.(mf_Profiles) = ∅)) "profiles must not be empty"
     ++ err_if (bool_decide (m.(mf_Groups) = ∅)) "groups must not be empty"
     ++ err_if (bool_decide (m.(mf_Instances) = [])) "instances must not be empty"
     ++ endpoint_errors "defaults.egm_endpoint" m.(mf_Defaults).(df_EGMEndpoint)
     ++ host_endpoint_errors "defaults.host_endpoint" m.(mf_Defaults).(df_HostEndpoint)
     ++ concat (map profile_errors profiles)
     ++ concat (map (group_errors m) groups)
     ++ validate_instances m 0 m.(mf_Instances) (mkSeen ∅ ∅ ∅ ∅)).

Definition ValidateManifest (m : option Manifest) : result unit :=
  match m with
  | None => Err "manifest is nil"
  | Some m => ValidateManifest_in (map_to_list m.(mf_Profiles)) (map_to_list m.(mf_Groups)) m
  end.

(** [LoadManifest]: fleet/load.go *)
Definition LoadManifest (fs : gmap string file) (path : string) : result Manifest :=
  match fs !! path with
  | None => Err ("read manifest " +:+ quote path)
  | Some OtherFile => Err "decode manifest json"
  | Some (JsonFile j) =>
      match dec j zero with
      | None => Err "decode manifest json"
      | Some m => _ ← ValidateManifest (Some m); Ok m
      end
  end.

(** ** Merging: fleet/resolve.go *)

(** [out := base; if overlay.F != "" { out.F = overlay.F }] *)
Definition over (base overlay : string) : string :=
  if bool_decide (overlay = "") then base else overlay.

Definition mergeEndpoint (base overlay : Endpoint) : Endpoint :=
  mkEndpoint
    (over base.(ep_Scheme) overlay.(ep_Scheme))
    (over base.(ep_BindIP) overlay.(ep_BindIP))
    (over base.(ep_Host) overlay.(ep_Host))
    (if bool_decide (overlay.(ep_Port) = 0%Z) then base.(ep_Port) else overlay.(ep_Port))
    (over base.(ep_Path) overlay.(ep_Path)).

Definition mergeHostEndpoint (base overlay : HostEndpoint) : HostEndpoint :=
  mkFleetHostEndpoint (over base.(hep_URL) overlay.(hep_URL)).

Definition mergeG2SXML (base overlay : G2SXML) : G2SXML :=
  mkFleetG2SXML
    (over base.(fx_Mode) overlay.(fx_Mode))
    (over base.(fx_Namespace) overlay.(fx_Namespace))
    (over base.(fx_EGMLocation) overlay.(fx_EGMLocation)).

Definition defaultG2SXML (x : G2SXML) (ep : Endpoint) : G2SXML :=
  mkFleetG2SXML
    (or_default x.(fx_Mode) "lab_legacy_xml")
    (or_default x.(fx_Namespace) DefaultNamespace)
    (if bool_decide (x.(fx_EGMLocation) = "") && negb (bool_decide (ep.(ep_Host) = ""))
        && (0 <? ep.(ep_Port))%Z
     then host_port ep.(ep_Host) ep.(ep_Port) else x.(fx_EGMLocation)).

(** The two loops of [mergeMaps], each over an unspecified order of its map. *)
Definition mergeMaps {A} (base overlay : gmap string A) : gmap string A :=
  map_fold insert (map_fold insert ∅ base) overlay.

Definition copyStringMap (m : gmap string string) : gmap string string := map_fold insert ∅ m.

(** [v.(map[string]any)] of the entry [key], as a map *)
Definition override_map (overrides : gmap string json) (key : string) : option (gmap string json) :=
  match overrides !! key with
  | Some (JObj kvs) => Some (obj_to_map kvs)
  | _ => None
  end.

Definition apply_overrides (overrides : gmap string json) (key : string) (base : gmap string json)
    : gmap string json :=
  match override_map overrides key with
  | Some v => mergeMaps base v
  | None => base
  end.

(** The endpoint of an instance once the merged one has its gaps filled. *)
Definition complete_endpoint (trustMode listenHost : string) (wirePort : Z) (inst : FleetInstance)
    (ep : Endpoint) : Endpoint :=
  let scheme := or_default ep.(ep_Scheme)
    (if bool_decide (trustMode = "plaintext_lab") || bool_decide (trustMode = "") then "http" else "https") in
  let bindIP := or_default ep.(ep_BindIP) listenHost in
  let host := or_default ep.(ep_Host)
    (firstNonEmpty [inst.(in_AdvertisedHost); inst.(in_AdvertisedIP); bindIP]) in
  mkEndpoint scheme bindIP host (or_default_int ep.(ep_Port) wirePort) (or_default ep.(ep_Path) "/g2s").

(** The zero values that a missing key of [m.Groups] or [m.Profiles] reads as. *)
Definition group_of (m : Manifest) (inst : FleetInstance) : Group :=
  default zero (m.(mf_Groups) !! inst.(in_Group)).
Definition profile_of (m : Manifest) (inst : FleetInstance) : Profile :=
  default zero (m.(mf_Profiles) !! (group_of m inst).(gr_Profile)).

Definition resolveInstance (m : Manifest) (idx : nat) (inst : FleetInstance)
    : result EffectiveInstance :=
  let d := m.(mf_Defaults) in
  let group := group_of m inst in
  let profile := profile_of m inst in
  let listenHost := firstNonEmpty [inst.(in_BindHost); inst.(in_EGMEndpoint).(ep_BindIP);
    profile.(pf_EGMEndpoint).(ep_BindIP); d.(df_EGMEndpoint).(ep_BindIP); d.(df_ListenHost);
    "127.0.0.1"] in
  let wirePort := or_default_int inst.(in_WirePort)
    (firstNonZero [inst.(in_EGMEndpoint).(ep_Port); profile.(pf_EGMEndpoint).(ep_Port);
                   d.(df_EGMEndpoint).(ep_Port)]) in
  let wirePort := or_default_int wirePort (int64_wrap (d.(df_WirePortBase) + Z.of_nat idx)) in
  let controlPort := or_default_int inst.(in_ControlPort)
    (int64_wrap (d.(df_ControlPortBase) + Z.of_nat idx)) in
  let hostID := firstNonEmpty [inst.(in_HostID); profile.(pf_HostID); d.(df_HostID); "HOST-001"] in
  let trustMode := or_default d.(df_TrustMode) "plaintext_lab" in
  let packFile := firstNonEmpty [profile.(pf_PackFile); d.(df_PackFile)] in
  if bool_decide (packFile = "")
  then Err ("no pack file resolved for instance " +:+ quote inst.(in_InstanceID))
  else
  let egmEndpoint := complete_endpoint trustMode listenHost wirePort inst
    (mergeEndpoint (mergeEndpoint d.(df_EGMEndpoint) profile.(pf_EGMEndpoint)) inst.(in_EGMEndpoint)) in
  let hostEndpoint := mergeHostEndpoint
    (mergeHostEndpoint d.(df_HostEndpoint) profile.(pf_HostEndpoint)) inst.(in_HostEndpoint) in
  let g2sXML := defaultG2SXML
    (mergeG2SXML (mergeG2SXML d.(df_G2SXML) profile.(pf_G2SXML)) inst.(in_G2SXML)) egmEndpoint in
  let logDir := or_default inst.(in_LogDir)
    (JoinPath [firstNonEmpty [d.(df_LogRoot); "./logs"]; inst.(in_InstanceID)]) in
  let storageBackend := firstNonEmpty [d.(df_StorageBackend); "noop"] in
  let sqlitePath :=
    if bool_decide (inst.(in_SQLitePath) = "") && bool_decide (storageBackend = "sqlite")
    then JoinPath [firstNonEmpty [d.(df_SQLiteRoot); logDir]; inst.(in_InstanceID) +:+ "-index.db"]
    else inst.(in_SQLitePath) in
  let merged key base := apply_overrides inst.(in_Overrides) key
    (apply_overrides group.(gr_Overrides) key base) in
  Ok {|
    ef_InstanceID := inst.(in_InstanceID);
    ef_EGMID := inst.(in_EGMID);
    ef_HostID := hostID;
    ef_Group := inst.(in_Group);
    ef_Profile := group.(gr_Profile);
    ef_Manufacturer := profile.(pf_Manufacturer);
    ef_ListenHost := listenHost;
    ef_WirePort := wirePort;
    ef_ControlPort := controlPort;
    ef_EGMEndpoint := egmEndpoint;
    ef_HostEndpoint := hostEndpoint;
    ef_G2SXML := g2sXML;
    ef_AdvertisedHost := firstNonEmpty [inst.(in_AdvertisedHost); profile.(pf_AdvertisedHost);
      d.(df_AdvertisedHost); egmEndpoint.(ep_Host)];
    ef_AdvertisedIP := firstNonEmpty [inst.(in_AdvertisedIP); profile.(pf_AdvertisedIP); d.(df_AdvertisedIP)];
    ef_DNSServers := firstNonEmptySlice [inst.(in_DNSServers); profile.(pf_DNSServers); d.(df_DNSServers)];
    ef_SubnetMask := firstNonEmpty [inst.(in_SubnetMask); profile.(pf_SubnetMask); d.(df_SubnetMask)];
    ef_Gateway := firstNonEmpty [inst.(in_Gateway); profile.(pf_Gateway); d.(df_Gateway)];
    ef_ServerName := firstNonEmpty [inst.(in_ServerName); profile.(pf_ServerName); d.(df_ServerName)];
    ef_TrustMode := trustMode;
    ef_PackFile := packFile;
    ef_OverlayFiles := d.(df_OverlayFiles) ++ profile.(pf_OverlayFiles);
    ef_LogDir := logDir;
    ef_StorageBackend := storageBackend;
    ef_SQLitePath := sqlitePath;
    ef_LogicalCommands := copyStringMap profile.(pf_LogicalCommands);
    ef_Heartbeat := merged "heartbeat" (mergeMaps d.(df_Heartbeat) profile.(pf_Heartbeat));
    ef_NormalizedState := merged "normalized_state"
      (mergeMaps d.(df_NormalizedState) profile.(pf_NormalizedState));
    ef_Faults := merged "faults" (mergeMaps d.(df_Faults) profile.(pf_Faults));
    ef_CertFile := firstNonEmpty [inst.(in_CertFile); profile.(pf_CertFile); d.(df_CertFile)];
    ef_KeyFile := firstNonEmpty [inst.(in_KeyFile); profile.(pf_KeyFile); d.(df_KeyFile)];
    ef_CAFile := firstNonEmpty [inst.(in_CAFile); profile.(pf_CAFile); d.(df_CAFile)];
  |}.

(** ** Endpoints used twice *)

Definition wireKey (e : EffectiveInstance) : string := host_port e.(ef_ListenHost) e.(ef_WirePort).
Definition controlKey (e : EffectiveInstance) : string := host_port e.(ef_ListenHost) e.(ef_ControlPort).
Definition egmKey (e : EffectiveInstance) : string :=
  e.(ef_EGMEndpoint).(ep_Scheme) +:+ "://" +:+
  host_port e.(ef_EGMEndpoint).(ep_Host) e.(ef_EGMEndpoint).(ep_Port) +:+ e.(ef_EGMEndpoint).(ep_Path).

(** One of the three maps of [validateResolvedInstances]. *)
Definition claim_key (what key id : string) (owners : gmap string string)
    : result (gmap string string) :=
  match owners !! key with
  | Some prior => Err ("resolved " +:+ what +:+ " endpoint " +:+ key +:+ " for " +:+ quote id
                       +:+ " duplicates " +:+ quote prior)
  | None => Ok (<[key := id]> owners)
  end.

Fixpoint validateResolved_from (wires controls egms : gmap string string)
    (instances : list EffectiveInstance) : result unit :=
  match instances with
  | [] => Ok ()
  | e :: rest =>
      wires' ← claim_key "wire" (wireKey e) e.(ef_InstanceID) wires;
      controls' ← claim_key "control" (controlKey e) e.(ef_InstanceID) controls;
      egms' ← claim_key "egm" (egmKey e) e.(ef_InstanceID) egms;
      validateResolved_from wires' controls' egms' rest
  end.

Definition validateResolvedInstances (instances : list EffectiveInstance) : result unit :=
  validateResolved_from ∅ ∅ ∅ instances.

Definition ResolveInstances (m : option Manifest) : result (list EffectiveInstance) :=
  _ ← ValidateManifest m;
  match m with
  | None => Err "manifest is nil"
  | Some m =>
      out ← traverse_from (resolveInstance m) 0 m.(mf_Instances);
      _ ← validateResolvedInstances out;
      Ok out
  end.

(** ** What a valid manifest satisfies *)

Definition fleet_endpoint_ok (ep : Endpoint) : Prop :=
  ep.(ep_Scheme) ∈ [""; "http"; "https"] ∧ (0 ≤ ep.(ep_Port) ≤ 65535)%Z ∧
  (ep.(ep_Path) = "" ∨ has_prefix "/" ep.(ep_Path) = true).

Definition fleet_url_ok (ep : HostEndpoint) : Prop := ep.(hep_URL) = "" ∨ url_ok ep.(hep_URL).

Record profile_ok (name : string) (p : Profile) : Prop := {
  profile_name : TrimSpace name ≠ "";
  profile_pack : TrimSpace p.(pf_PackFile) ≠ "";
  profile_commands : p.(pf_LogicalCommands) ≠ ∅;
  profile_endpoint : fleet_endpoint_ok p.(pf_EGMEndpoint);
  profile_host : fleet_url_ok p.(pf_HostEndpoint);
}.

Record group_ok (m : Manifest) (name : string) (g : Group) : Prop := {
  group_name : TrimSpace name ≠ "";
  group_profile_name : TrimSpace g.(gr_Profile) ≠ "";
  group_profile : is_Some (m.(mf_Profiles) !! g.(gr_Profile));
}.

Record instance_ok (m : Manifest) (inst : FleetInstance) : Prop := {
  instance_id : TrimSpace inst.(in_InstanceID) ≠ "";
  instance_egm : TrimSpace inst.(in_EGMID) ≠ "";
  instance_host_id : resolvedHostID m inst ≠ "";
  instance_group_name : TrimSpace inst.(in_Group) ≠ "";
  instance_group : is_Some (m.(mf_Groups) !! inst.(in_Group));
  instance_wire : (0 ≤ inst.(in_WirePort))%Z;
  instance_control : (0 ≤ inst.(in_ControlPort))%Z;
  instance_endpoint : fleet_endpoint_ok inst.(in_EGMEndpoint);
  instance_host : fleet_url_ok inst.(in_HostEndpoint);
}.

(** The ports that instances ask for. *)
Definition explicit_ports (f : FleetInstance → Z) (l : list FleetInstance) : list Z :=
  List.filter (λ p, 0 <? p)%Z (map f l).

Record manifest_ok (m : Manifest) : Prop := {
  manifest_version : m.(mf_SchemaVersion) = ManifestSchemaVersion;
  manifest_name : TrimSpace m.(mf_FleetName) ≠ "";
  manifest_profiles : m.(mf_Profiles) ≠ ∅;
  manifest_groups : m.(mf_Groups) ≠ ∅;
  manifest_instances : m.(mf_Instances) ≠ [];
  manifest_endpoint : fleet_endpoint_ok m.(mf_Defaults).(df_EGMEndpoint);
  manifest_host : fleet_url_ok m.(mf_Defaults).(df_HostEndpoint);
  manifest_each_profile : map_Forall profile_ok m.(mf_Profiles);
  manifest_each_group : map_Forall (group_ok m) m.(mf_Groups);
  manifest_each_instance : Forall (instance_ok m) m.(mf_Instances);
  manifest_ids : NoDup (map in_InstanceID m.(mf_Instances));
  manifest_egms : NoDup (map in_EGMID m.(mf_Instances));
  manifest_wires : NoDup (explicit_ports in_WirePort m.(mf_Instances));
  manifest_controls : NoDup (explicit_ports in_ControlPort m.(mf_Instances));
}.

(** ** Lemmas: validation *)

Lemma endpoint_errors_nil label ep : endpoint_errors label ep = [] ↔ fleet_endpoint_ok ep.
Proof.
  unfold endpoint_errors, fleet_endpoint_ok. case_bool_decide as Hz.
  - destruct Hz as (-> & _ & _ & -> & ->). split; [|done].
    intros _. split; [|split; [lia|by left]]. by left.
  - rewrite !app_nil, !err_if_nil, !elem_of_cons, elem_of_nil.
    rewrite !andb_false_iff, orb_false_iff, !negb_false_iff, !bool_decide_eq_true, !Z.ltb_ge.
    split; [intros (?&?&?)|intros (?&?&?)]; split_and!; try lia; naive_solver.
Qed.

Lemma host_endpoint_errors_nil label ep : host_endpoint_errors label ep = [] ↔ fleet_url_ok ep.
Proof.
  unfold host_endpoint_errors, fleet_url_ok, url_ok. case_bool_decide as Hu; [naive_solver|].
  destruct (url_Parse (hep_URL ep)) as [u|e]; [|naive_solver].
  rewrite !app_nil, !err_if_nil, one_of_two, orb_false_iff, !bool_decide_eq_false, negb_false_iff.
  split.
  - intros (?&?&?&?). right. by exists u.
  - intros [?|(u' & [= <-] & ? & ? & Hp)]; [done|]. split_and!; try done.
    by apply (has_prefix_ne "/").
Qed.

Lemma profile_errors_nil kv : profile_errors kv = [] ↔ profile_ok kv.1 kv.2.
Proof.
  destruct kv as [name p]. unfold profile_errors. simpl. unfold blank at 1. case_bool_decide as Hn.
  { split; [done|]. by intros []. }
  rewrite !app_nil, !err_if_nil, blank_false, bool_decide_eq_false, endpoint_errors_nil,
    host_endpoint_errors_nil.
  split; [intros (?&?&?&?); by split|intros []; by split_and!].
Qed.

Lemma group_errors_nil m kv : group_errors m kv = [] ↔ group_ok m kv.1 kv.2.
Proof.
  destruct kv as [name g]. unfold group_errors, blank. simpl.
  case_bool_decide as Hn; [split; [done|by intros []]|].
  case_bool_decide as Hp; [split; [done|by intros []]|].
  destruct (mf_Profiles m !! gr_Profile g) as [p|] eqn:Hg.
  - split; [|done]. intros _. split; [done..|by rewrite Hg].
  - split; [done|]. intros [_ _ [? Hs]]. by rewrite Hg in Hs.
Qed.

(** Elements not seen before, each once. *)
Definition fresh {A} `{Countable A} (seen : gset A) (l : list A) : Prop :=
  NoDup l ∧ ∀ x, x ∈ l → x ∉ seen.

Lemma fresh_nil {A} `{Countable A} (seen : gset A) : fresh seen [] ↔ True.
Proof. split; [done|]. split; [constructor|]. intros x Hx. by apply elem_of_nil in Hx. Qed.

Lemma fresh_cons {A} `{Countable A} (seen : gset A) x l :
  fresh seen (x :: l) ↔ (x ∉ seen) ∧ fresh ({[ x ]} ∪ seen) l.
Proof.
  unfold fresh. rewrite NoDup_cons. split.
  - intros ((Hx & Hl) & Hs). split; [apply Hs; by left|]. split; [done|].
    intros y Hy. rewrite elem_of_union, elem_of_singleton. intros [->|Hin]; [done|].
    by apply (Hs y); [right|].
  - intros (Hx & Hl & Hs). split; [split; [|done]|].
    + intros Hin. apply (Hs x Hin). set_solver.
    + intros y [->|Hy]%elem_of_cons; [done|]. specialize (Hs y Hy). set_solver.
Qed.

Lemma fresh_empty {A} `{Countable A} (l : list A) : fresh ∅ l ↔ NoDup l.
Proof. unfold fresh. split; [by intros []|]. intros Hl. split; [done|]. set_solver. Qed.

Lemma check_id_nil label id seen :
  (check_id label id seen).2 = [] ↔ TrimSpace id ≠ "" ∧ id ∉ seen.
Proof.
  unfold check_id, blank. repeat case_bool_decide; simpl; naive_solver.
Qed.

Lemma check_id_seen label id seen :
  (check_id label id seen).2 = [] → (check_id label id seen).1 = {[ id ]} ∪ seen.
Proof. unfold check_id. by repeat case_match. Qed.

Lemma check_port_nil label port owner seen :
  (check_port label port owner seen).2 = [] ↔ ((0 < port)%Z → port ∉ dom seen).
Proof.
  unfold check_port. destruct (0 <? port)%Z eqn:Hp; bool_props; [|simpl; split; [lia|done]].
  rewrite not_elem_of_dom. destruct (seen !! port); simpl; naive_solver.
Qed.

Lemma check_port_seen label port owner seen :
  (check_port label port owner seen).2 = [] →
  dom (check_port label port owner seen).1
  = (if (0 <? port)%Z then {[ port ]} else ∅) ∪ dom seen.
Proof.
  unfold check_port. destruct (0 <? port)%Z; [|set_solver].
  destruct (seen !! port); [done|]. simpl. by rewrite dom_insert_L.
Qed.

Lemma instance_errors_nil m i inst :
  TrimSpace inst.(in_InstanceID) ≠ "" → TrimSpace inst.(in_EGMID) ≠ "" →
  instance_errors m i inst = [] ↔ instance_ok m inst.
Proof.
  intros Hid Hegm. unfold instance_errors.
  rewrite !app_nil, !err_if_nil, bool_decide_eq_false, !Z.ltb_ge, endpoint_errors_nil,
    host_endpoint_errors_nil.
  unfold blank. case_bool_decide as Hg.
  { split; [by intros (?&?&?)|by intros []]. }
  destruct (mf_Groups m !! in_Group inst) as [g|] eqn:Hgm.
  - split; [intros (?&?&?&?&?&?); split; try done; by rewrite Hgm|intros []; by split_and!].
  - split; [by intros (?&?&?)|]. intros []. rewrite Hgm in instance_group0. by destruct instance_group0.
Qed.

Lemma fresh_port (p : Z) (ps : list Z) (seen : gset Z) :
  fresh seen (List.filter (λ p, 0 <? p)%Z (p :: ps)) ↔
  ((0 < p)%Z → p ∉ seen) ∧
  fresh ((if (0 <? p)%Z then {[ p ]} else ∅) ∪ seen) (List.filter (λ p, 0 <? p)%Z ps).
Proof.
  simpl. destruct (0 <? p)%Z eqn:Hp; bool_props.
  - rewrite fresh_cons. naive_solver.
  - rewrite (left_id_L ∅ (∪)). split; [intros ?; split; [lia|done]|by intros []].
Qed.

Definition all_fresh (s : seen_state) (l : list FleetInstance) : Prop :=
  fresh s.(seenInstanceIDs) (map in_InstanceID l) ∧
  fresh s.(seenEGMIDs) (map in_EGMID l) ∧
  fresh (dom s.(seenWirePorts)) (explicit_ports in_WirePort l) ∧
  fresh (dom s.(seenControlPorts)) (explicit_ports in_ControlPort l).

(** One turn of the loop finds no error exactly when the instance is fine by
    itself and new; it then adds the instance to what was seen. *)
Lemma validate_instance_nil m i inst s rest :
  (validate_instance m i inst s).2 = [] ∧ all_fresh (validate_instance m i inst s).1 rest ↔
  instance_ok m inst ∧ all_fresh s (inst :: rest).
Proof.
  unfold validate_instance, all_fresh, explicit_ports. cbn [map].
  rewrite !fresh_cons, !fresh_port.
  destruct (check_id _ (in_InstanceID inst) _) as [ids e1] eqn:H1.
  destruct (check_id _ (in_EGMID inst) _) as [egms e2] eqn:H2.
  destruct (check_port _ (in_WirePort inst) _ _) as [wires e3] eqn:H3.
  destruct (check_port _ (in_ControlPort inst) _ _) as [controls e4] eqn:H4. simpl.
  pose proof (check_id_nil (instance_label i "instance_id") (in_InstanceID inst) (seenInstanceIDs s)) as N1.
  pose proof (check_id_nil (instance_label i "egm_id") (in_EGMID inst) (seenEGMIDs s)) as N2.
  pose proof (check_port_nil (instance_label i "wire_port") (in_WirePort inst) (in_InstanceID inst)
    (seenWirePorts s)) as N3.
  pose proof (check_port_nil (instance_label i "control_port") (in_ControlPort inst)
    (in_InstanceID inst) (seenControlPorts s)) as N4.
  pose proof (check_id_seen (instance_label i "instance_id") (in_InstanceID inst) (seenInstanceIDs s)) as S1.
  pose proof (check_id_seen (instance_label i "egm_id") (in_EGMID inst) (seenEGMIDs s)) as S2.
  pose proof (check_port_seen (instance_label i "wire_port") (in_WirePort inst) (in_InstanceID inst)
    (seenWirePorts s)) as S3.
  pose proof (check_port_seen (instance_label i "control_port") (in_ControlPort inst)
    (in_InstanceID inst) (seenControlPorts s)) as S4.
  rewrite H1 in N1, S1. rewrite H2 in N2, S2. rewrite H3 in N3, S3. rewrite H4 in N4, S4. simpl in *.
  pose proof (instance_errors_nil m i inst) as Hi.
  rewrite !app_nil. split.
  - intros ((E1 & E2 & E3 & E4 & E5) & F1 & F2 & F3 & F4).
    rewrite S1 in F1 by done. rewrite S2 in F2 by done.
    rewrite S3 in F3 by done. rewrite S4 in F4 by done.
    apply N1 in E1 as [? ?]. apply N2 in E2 as [? ?]. rewrite N3 in E4. rewrite N4 in E5.
    split; [by apply Hi|]. by split_and!.
  - intros (Hok & (U1 & F1) & (U2 & F2) & (U3 & F3) & (U4 & F4)).
    assert (E1 : e1 = []) by (apply N1; split; [apply Hok|done]).
    assert (E2 : e2 = []) by (apply N2; split; [apply Hok|done]).
    assert (E3 : e3 = []) by (by apply N3). assert (E4 : e4 = []) by (by apply N4).
    rewrite S1, S2, S3, S4 by done. split_and!; try done. apply Hi; [apply Hok..|done].
Qed.

Lemma validate_instances_nil m i l s :
  validate_instances m i l s = [] ↔ Forall (instance_ok m) l ∧ all_fresh s l.
Proof.
  revert i s. induction l as [|inst l IH]; intros i s; simpl.
  { split; [|done]. intros _. split; [done|]. unfold all_fresh, explicit_ports. simpl.
    by rewrite !fresh_nil. }
  destruct (validate_instance m i inst s) as [s' errs] eqn:Hv.
  rewrite app_nil, IH, Forall_cons.
  pose proof (validate_instance_nil m i inst s l) as Hone. rewrite Hv in Hone. simpl in Hone.
  tauto.
Qed.

Lemma map_Forall_list {A} (P : string → A → Prop) (m : gmap string A) l :
  l ≡ₚ map_to_list m → Forall (λ kv, P kv.1 kv.2) l ↔ map_Forall P m.
Proof.
  intros ->. rewrite map_Forall_to_list, !Forall_forall.
  split; [intros H [k x] Hk; by apply (H (k, x))|intros H [k x] Hk; by apply (H (k, x))].
Qed.

Lemma ValidateManifest_in_ok profiles groups m :
  profiles ≡ₚ map_to_list m.(mf_Profiles) → groups ≡ₚ map_to_list m.(mf_Groups) →
  ValidateManifest_in profiles groups m = Ok () ↔ manifest_ok m.
Proof.
  intros Hp Hg. unfold ValidateManifest_in.
  rewrite finish_ok, !app_nil, !err_if_nil, negb_false_iff, bool_decide_eq_true, blank_false,
    !bool_decide_eq_false, endpoint_errors_nil, host_endpoint_errors_nil.
  rewrite (concat_map_nil _ (λ kv, profile_ok kv.1 kv.2) _ profile_errors_nil).
  rewrite (concat_map_nil _ (λ kv, group_ok m kv.1 kv.2) _ (group_errors_nil m)).
  rewrite (map_Forall_list _ _ _ Hp), (map_Forall_list _ _ _ Hg), validate_instances_nil.
  unfold all_fresh. simpl. rewrite !dom_empty_L, !fresh_empty.
  split; [intros (?&?&?&?&?&?&?&?&?&?&?&?&?&?); by split|intros []; by split_and!].
Qed.

(** ** Lemmas: merging *)

Lemma over_first base overlay : over base overlay = firstNonEmpty [overlay; base].
Proof. unfold over. simpl. repeat case_bool_decide; congruence. Qed.

Lemma or_default_first v d : or_default v d = firstNonEmpty [v; d].
Proof. unfold or_default. simpl. repeat case_bool_decide; congruence. Qed.

Lemma firstNonEmpty_nest vs ws : firstNonEmpty (vs ++ [firstNonEmpty ws]) = firstNonEmpty (vs ++ ws).
Proof.
  induction vs as [|v vs IH]; simpl; [by case_bool_decide|]. by rewrite IH.
Qed.

(** Merging endpoints is a monoid: the order of the three levels matters, their
    grouping does not. *)
#[export] Instance mergeEndpoint_left_id : LeftId (=) zero_Endpoint mergeEndpoint.
Proof. intros []. unfold mergeEndpoint, over. simpl. by repeat case_bool_decide; subst. Qed.
#[export] Instance mergeEndpoint_right_id : RightId (=) zero_Endpoint mergeEndpoint.
Proof. intros []. reflexivity. Qed.
#[export] Instance mergeEndpoint_assoc : Assoc (=) mergeEndpoint.
Proof.
  intros [] [] []. unfold mergeEndpoint, over. simpl.
  f_equal; repeat case_bool_decide; congruence.
Qed.

Lemma mergeMaps_union {A} (base overlay : gmap string A) : mergeMaps base overlay = overlay ∪ base.
Proof.
  assert (H : ∀ m b : gmap string A, map_fold insert b m = m ∪ b).
  { intros m b. revert m. refine (map_fold_weak_ind (λ r m, r = m ∪ b) _ _ _ _).
    - by rewrite (left_id_L ∅ (∪)).
    - intros i x m r Hi ->. by rewrite insert_union_l. }
  unfold mergeMaps. by rewrite !H, (right_id_L ∅ (∪)).
Qed.

Lemma apply_overrides_lookup overrides key base k :
  apply_overrides overrides key base !! k
  = match override_map overrides key ≫= lookup k with Some v => Some v | None => base !! k end.
Proof.
  unfold apply_overrides. destruct (override_map overrides key) as [m|]; [|done].
  rewrite mergeMaps_union, lookup_union. simpl. by destruct (m !! k), (base !! k).
Qed.

(** ** Lemmas: resolution *)

Lemma TrimSpace_ne s : TrimSpace s ≠ "" → s ≠ "".
Proof. by intros H ->. Qed.

Lemma group_profile_exist m inst :
  manifest_ok m → inst ∈ m.(mf_Instances) →
  m.(mf_Groups) !! inst.(in_Group) = Some (group_of m inst) ∧
  m.(mf_Profiles) !! (group_of m inst).(gr_Profile) = Some (profile_of m inst) ∧
  (profile_of m inst).(pf_PackFile) ≠ "".
Proof.
  intros Hm Hin. pose proof (proj1 (Forall_forall _ _) (manifest_each_instance m Hm) _ Hin) as Hi.
  destruct (instance_group _ _ Hi) as [g Hg].
  assert (Hgo : group_of m inst = g) by (unfold group_of; by rewrite Hg).
  destruct (group_profile _ _ _ (manifest_each_group m Hm _ _ Hg)) as [p Hp].
  assert (Hpo : profile_of m inst = p) by (unfold profile_of; by rewrite Hgo, Hp).
  rewrite Hpo, Hgo. split_and!; [done..|].
  apply TrimSpace_ne, (profile_pack _ _ (manifest_each_profile m Hm _ _ Hp)).
Qed.

Lemma resolveInstance_total m idx inst :
  manifest_ok m → inst ∈ m.(mf_Instances) → is_ok (resolveInstance m idx inst) = true.
Proof.
  intros Hm Hin. destruct (group_profile_exist m inst Hm Hin) as (_ & _ & Hp).
  unfold resolveInstance. rewrite bool_decide_eq_false_2; [done|].
  simpl. by rewrite (bool_decide_eq_false_2 _ Hp).
Qed.

Lemma claim_key_ok what key id owners owners' :
  claim_key what key id owners = Ok owners' ↔ (key ∉ dom owners) ∧ owners' = <[key := id]> owners.
Proof.
  unfold claim_key. rewrite not_elem_of_dom. destruct (owners !! key); naive_solver.
Qed.

(** The three maps of the code do what three tests for duplicates would do. *)
Lemma validateResolved_ok wires controls egms l :
  validateResolved_from wires controls egms l = Ok () ↔
  fresh (dom wires) (map wireKey l) ∧ fresh (dom controls) (map controlKey l) ∧
  fresh (dom egms) (map egmKey l).
Proof.
  revert wires controls egms. induction l as [|e l IH]; intros wires controls egms; simpl.
  { by rewrite !fresh_nil. }
  rewrite !fresh_cons. split.
  - intros H. result_binds. rewrite claim_key_ok in *. destruct_and!. subst.
    match goal with H : validateResolved_from _ _ _ l = _ |- _ => apply IH in H end.
    rewrite !dom_insert_L in *. tauto.
  - intros ((H1 & F1) & (H2 & F2) & (H3 & F3)).
    rewrite (proj2 (claim_key_ok "wire" _ _ _ _) (conj H1 eq_refl)). simpl.
    rewrite (proj2 (claim_key_ok "control" _ _ _ _) (conj H2 eq_refl)). simpl.
    rewrite (proj2 (claim_key_ok "egm" _ _ _ _) (conj H3 eq_refl)). simpl.
    apply IH. by rewrite !dom_insert_L.
Qed.

Lemma NoDup_map_inj {A B C} (f : A → B) (g : A → C) l :
  (∀ x y, f x = f y ↔ g x = g y) → NoDup (map f l) ↔ NoDup (map g l).
Proof.
  intros H. induction l as [|x l IH]; simpl; [split; constructor|].
  rewrite !NoDup_cons, IH.
  assert (f x ∈ map f l ↔ g x ∈ map g l); [|tauto].
  rewrite !list_elem_of_In, !in_map_iff.
  split; intros (y & Hy & Hin); exists y; (split; [by apply H|done]).
Qed.

(** The sockets of an instance. *)
Definition wire_socket (e : EffectiveInstance) : string * Z := (e.(ef_ListenHost), e.(ef_WirePort)).
Definition control_socket (e : EffectiveInstance) : string * Z :=
  (e.(ef_ListenHost), e.(ef_ControlPort)).

Record sockets_distinct (l : list EffectiveInstance) : Prop := {
  distinct_wires : NoDup (map wire_socket l);
  distinct_controls : NoDup (map control_socket l);
  distinct_egms : NoDup (map egmKey l);
}.

Lemma validateResolvedInstances_ok l : validateResolvedInstances l = Ok () ↔ sockets_distinct l.
Proof.
  unfold validateResolvedInstances. rewrite validateResolved_ok, !dom_empty_L, !fresh_empty.
  rewrite (NoDup_map_inj wireKey wire_socket), (NoDup_map_inj controlKey control_socket).
  - split; [intros (?&?&?); by split|by intros []].
  - intros x y. unfold controlKey, control_socket.
    split; [intros H; apply host_port_inj in H as [H1 H2]|intros [= H1 H2]]; by rewrite H1, H2.
  - intros x y. unfold wireKey, wire_socket.
    split; [intros H; apply host_port_inj in H as [H1 H2]|intros [= H1 H2]]; by rewrite H1, H2.
Qed.

(** Every instance of a valid manifest resolves, whatever its position. *)
Lemma resolve_all m :
  manifest_ok m →
  ∃ effs, traverse_from (resolveInstance m) 0 m.(mf_Instances) = Ok effs.
Proof.
  intros Hm. apply is_ok_spec, traverse_from_total. intros k inst Hk.
  apply resolveInstance_total; [done|]. by eapply list_elem_of_lookup_2.
Qed.

Lemma ValidateManifest_ok m : ValidateManifest (Some m) = Ok () ↔ manifest_ok m.
Proof. by apply ValidateManifest_in_ok. Qed.

(** What comes out of [ResolveInstances], instance by instance. *)
Lemma ResolveInstances_ok m effs :
  ResolveInstances (Some m) = Ok effs ↔
  manifest_ok m ∧ traverse_from (resolveInstance m) 0 m.(mf_Instances) = Ok effs ∧
  sockets_distinct effs.
Proof.
  unfold ResolveInstances. rewrite <-ValidateManifest_ok, <-validateResolvedInstances_ok.
  destruct (ValidateManifest (Some m)) as [[]|e]; simpl; [|naive_solver].
  destruct (traverse_from _ _ _) as [out|e]; simpl; [|naive_solver].
  destruct (validateResolvedInstances out) as [[]|e] eqn:Hv; simpl.
  - split; [by intros [= <-]|by intros (_ & [= <-] & _)].
  - split; [done|]. intros (_ & [= <-] & Hv'). congruence.
Qed.

Lemma ResolveInstances_lookup m effs i inst :
  ResolveInstances (Some m) = Ok effs → m.(mf_Instances) !! i = Some inst →
  ∃ e, effs !! i = Some e ∧ resolveInstance m i inst = Ok e.
Proof.
  intros (Hm & Ht & _)%ResolveInstances_ok Hi.
  destruct (traverse_from_ok _ _ _ _ Ht) as [_ Hget]. destruct (Hget _ _ Hi) as (e & He & Hr).
  by exists e.
Qed.

(** ** The levels of the manifest that decide each setting *)

(** The first of the overriding maps that has the key decides. *)
Definition first_entry (key k : string) (inst : FleetInstance) (g : Group)
    (profile defaults : gmap string json) : option json :=
  match override_map inst.(in_Overrides) key ≫= lookup k with
  | Some v => Some v
  | None =>
      match override_map g.(gr_Overrides) key ≫= lookup k with
      | Some v => Some v
      | None => match profile !! k with Some v => Some v | None => defaults !! k end
      end
  end.

(** What instance [idx] of a valid manifest resolves to, setting by setting. Most
    are decided by the instance, then the profile of its group, then the
    defaults, then a built-in value. The endpoint that is advertised is decided
    by the endpoints of the three levels before any other setting of the
    instance; the trust mode and the storage by the defaults alone; the maps of
    initial values key by key, with the overrides of the group between the
    instance's and the profile. *)
Record resolved_by (m : Manifest) (idx : nat) (inst : FleetInstance) (g : Group) (p : Profile)
    (e : EffectiveInstance) : Prop := {
  by_id : e.(ef_InstanceID) = inst.(in_InstanceID);
  by_egm : e.(ef_EGMID) = inst.(in_EGMID);
  by_host_id : e.(ef_HostID) = firstNonEmpty
    [inst.(in_HostID); p.(pf_HostID); m.(mf_Defaults).(df_HostID)];
  by_host_id_ne : e.(ef_HostID) = resolvedHostID m inst ∧ e.(ef_HostID) ≠ "";
  by_group : e.(ef_Group) = inst.(in_Group) ∧ e.(ef_Profile) = g.(gr_Profile);
  by_manufacturer : e.(ef_Manufacturer) = p.(pf_Manufacturer);
  by_commands : e.(ef_LogicalCommands) = p.(pf_LogicalCommands);
  by_pack : e.(ef_PackFile) = p.(pf_PackFile);
  by_overlays : e.(ef_OverlayFiles) = m.(mf_Defaults).(df_OverlayFiles) ++ p.(pf_OverlayFiles);
  by_trust : e.(ef_TrustMode) = firstNonEmpty [m.(mf_Defaults).(df_TrustMode); "plaintext_lab"];
  by_listen : e.(ef_ListenHost) = firstNonEmpty
    [inst.(in_BindHost); inst.(in_EGMEndpoint).(ep_BindIP); p.(pf_EGMEndpoint).(ep_BindIP);
     m.(mf_Defaults).(df_EGMEndpoint).(ep_BindIP); m.(mf_Defaults).(df_ListenHost); "127.0.0.1"];
  by_wire : e.(ef_WirePort) = firstNonZero
    [inst.(in_WirePort); inst.(in_EGMEndpoint).(ep_Port); p.(pf_EGMEndpoint).(ep_Port);
     m.(mf_Defaults).(df_EGMEndpoint).(ep_Port);
     int64_wrap (m.(mf_Defaults).(df_WirePortBase) + Z.of_nat idx)];
  by_control : e.(ef_ControlPort) = firstNonZero
    [inst.(in_ControlPort); int64_wrap (m.(mf_Defaults).(df_ControlPortBase) + Z.of_nat idx)];
  by_scheme : e.(ef_EGMEndpoint).(ep_Scheme) = firstNonEmpty
    [inst.(in_EGMEndpoint).(ep_Scheme); p.(pf_EGMEndpoint).(ep_Scheme);
     m.(mf_Defaults).(df_EGMEndpoint).(ep_Scheme);
     if bool_decide (e.(ef_TrustMode) = "plaintext_lab") then "http" else "https"];
  by_bind : e.(ef_EGMEndpoint).(ep_BindIP) = firstNonEmpty
    [inst.(in_EGMEndpoint).(ep_BindIP); p.(pf_EGMEndpoint).(ep_BindIP);
     m.(mf_Defaults).(df_EGMEndpoint).(ep_BindIP); inst.(in_BindHost);
     m.(mf_Defaults).(df_ListenHost); "127.0.0.1"];
  by_host : e.(ef_EGMEndpoint).(ep_Host) = firstNonEmpty
    [inst.(in_EGMEndpoint).(ep_Host); p.(pf_EGMEndpoint).(ep_Host);
     m.(mf_Defaults).(df_EGMEndpoint).(ep_Host); inst.(in_AdvertisedHost);
     inst.(in_AdvertisedIP); e.(ef_EGMEndpoint).(ep_BindIP)];
  by_path : e.(ef_EGMEndpoint).(ep_Path) = firstNonEmpty
    [inst.(in_EGMEndpoint).(ep_Path); p.(pf_EGMEndpoint).(ep_Path);
     m.(mf_Defaults).(df_EGMEndpoint).(ep_Path); "/g2s"];
  by_port : e.(ef_EGMEndpoint).(ep_Port) = firstNonZero
    [inst.(in_EGMEndpoint).(ep_Port); p.(pf_EGMEndpoint).(ep_Port);
     m.(mf_Defaults).(df_EGMEndpoint).(ep_Port); inst.(in_WirePort);
     int64_wrap (m.(mf_Defaults).(df_WirePortBase) + Z.of_nat idx)];
  by_url : e.(ef_HostEndpoint).(hep_URL) = firstNonEmpty
    [inst.(in_HostEndpoint).(hep_URL); p.(pf_HostEndpoint).(hep_URL);
     m.(mf_Defaults).(df_HostEndpoint).(hep_URL)];
  by_mode : e.(ef_G2SXML).(fx_Mode) = firstNonEmpty
    [inst.(in_G2SXML).(fx_Mode); p.(pf_G2SXML).(fx_Mode);
     m.(mf_Defaults).(df_G2SXML).(fx_Mode); "lab_legacy_xml"];
  by_namespace : e.(ef_G2SXML).(fx_Namespace) = firstNonEmpty
    [inst.(in_G2SXML).(fx_Namespace); p.(pf_G2SXML).(fx_Namespace);
     m.(mf_Defaults).(df_G2SXML).(fx_Namespace); "http://www.gamingstandards.com/g2s/schemas/v1.0.3"];
  by_location : e.(ef_G2SXML).(fx_EGMLocation) = firstNonEmpty
    [inst.(in_G2SXML).(fx_EGMLocation); p.(pf_G2SXML).(fx_EGMLocation);
     m.(mf_Defaults).(df_G2SXML).(fx_EGMLocation);
     if (0 <? e.(ef_EGMEndpoint).(ep_Port))%Z
     then e.(ef_EGMEndpoint).(ep_Host) +:+ ":" +:+ itoa e.(ef_EGMEndpoint).(ep_Port) else ""];
  by_advertised_host : e.(ef_AdvertisedHost) = firstNonEmpty
    [inst.(in_AdvertisedHost); p.(pf_AdvertisedHost); m.(mf_Defaults).(df_AdvertisedHost);
     e.(ef_EGMEndpoint).(ep_Host)];
  by_advertised_ip : e.(ef_AdvertisedIP) = firstNonEmpty
    [inst.(in_AdvertisedIP); p.(pf_AdvertisedIP); m.(mf_Defaults).(df_AdvertisedIP)];
  by_dns : e.(ef_DNSServers)
    = if decide (inst.(in_DNSServers) ≠ []) then inst.(in_DNSServers)
      else if decide (p.(pf_DNSServers) ≠ []) then p.(pf_DNSServers)
      else m.(mf_Defaults).(df_DNSServers);
  by_subnet : e.(ef_SubnetMask) = firstNonEmpty
    [inst.(in_SubnetMask); p.(pf_SubnetMask); m.(mf_Defaults).(df_SubnetMask)];
  by_gateway : e.(ef_Gateway) = firstNonEmpty
    [inst.(in_Gateway); p.(pf_Gateway); m.(mf_Defaults).(df_Gateway)];
  by_server_name : e.(ef_ServerName) = firstNonEmpty
    [inst.(in_ServerName); p.(pf_ServerName); m.(mf_Defaults).(df_ServerName)];
  by_cert : e.(ef_CertFile) = firstNonEmpty
    [inst.(in_CertFile); p.(pf_CertFile); m.(mf_Defaults).(df_CertFile)];
  by_key : e.(ef_KeyFile) = firstNonEmpty
    [inst.(in_KeyFile); p.(pf_KeyFile); m.(mf_Defaults).(df_KeyFile)];
  by_ca : e.(ef_CAFile) = firstNonEmpty
    [inst.(in_CAFile); p.(pf_CAFile); m.(mf_Defaults).(df_CAFile)];
  by_log : e.(ef_LogDir) = firstNonEmpty
    [inst.(in_LogDir); JoinPath [firstNonEmpty [m.(mf_Defaults).(df_LogRoot); "./logs"]; inst.(in_InstanceID)]];
  by_backend : e.(ef_StorageBackend) = firstNonEmpty [m.(mf_Defaults).(df_StorageBackend); "noop"];
  by_sqlite : e.(ef_SQLitePath) = firstNonEmpty
    [inst.(in_SQLitePath);
     if bool_decide (e.(ef_StorageBackend) = "sqlite")
     then JoinPath [firstNonEmpty [m.(mf_Defaults).(df_SQLiteRoot); e.(ef_LogDir)];
                    inst.(in_InstanceID) +:+ "-index.db"]
     else ""];
  by_heartbeat : ∀ k, e.(ef_Heartbeat) !! k = first_entry "heartbeat" k inst g
    p.(pf_Heartbeat) m.(mf_Defaults).(df_Heartbeat);
  by_state : ∀ k, e.(ef_NormalizedState) !! k = first_entry "normalized_state" k inst g
    p.(pf_NormalizedState) m.(mf_Defaults).(df_NormalizedState);
  by_faults : ∀ k, e.(ef_Faults) !! k = first_entry "faults" k inst g
    p.(pf_Faults) m.(mf_Defaults).(df_Faults);
}.

Lemma merged_lookup key k inst g base profile :
  apply_overrides inst.(in_Overrides) key
    (apply_overrides g.(gr_Overrides) key (mergeMaps base profile)) !! k
  = first_entry key k inst g profile base.
Proof.
  unfold first_entry. rewrite !apply_overrides_lookup, mergeMaps_union, lookup_union.
  destruct (override_map (in_Overrides inst) key ≫= lookup k); [done|].
  destruct (override_map (gr_Overrides g) key ≫= lookup k); [done|].
  by destruct (profile !! k), (base !! k).
Qed.

(** The fallback identifier of [resolveInstance] is not reached, and the two
    functions that choose the identifier agree. *)
Lemma resolve_host_id m inst :
  manifest_ok m → inst ∈ m.(mf_Instances) →
  firstNonEmpty [inst.(in_HostID); (profile_of m inst).(pf_HostID); m.(mf_Defaults).(df_HostID); "HOST-001"]
  = resolvedHostID m inst ∧
  firstNonEmpty [inst.(in_HostID); (profile_of m inst).(pf_HostID); m.(mf_Defaults).(df_HostID)]
  = resolvedHostID m inst ∧ resolvedHostID m inst ≠ "".
Proof.
  intros Hm Hin. destruct (group_profile_exist m inst Hm Hin) as (Hg & Hp & _).
  pose proof (proj1 (Forall_forall _ _) (manifest_each_instance m Hm) _ Hin) as Hi.
  apply instance_host_id in Hi. split_and!; [..|done]; revert Hi;
    unfold resolvedHostID; rewrite Hg, Hp; simpl; by repeat case_bool_decide.
Qed.

(** Decide whether the setting [x] is given. *)
Ltac given x z :=
  let H := fresh "Hgiven" in
  destruct (decide (x = z)) as [->|H];
  [rewrite ?(bool_decide_eq_true_2 (z = z) eq_refl)|rewrite ?(bool_decide_eq_false_2 _ H)].

Lemma merged_first i p d s : or_default (over (over d p) i) s = firstNonEmpty [i; p; d; s].
Proof.
  unfold over, or_default, firstNonEmpty. given i ""; [|done]. given p ""; [|done].
  given d ""; [|done]. by given s "".
Qed.

Lemma merged_first_3 i p d : over (over d p) i = firstNonEmpty [i; p; d].
Proof.
  unfold over, firstNonEmpty. given i ""; [|done]. given p ""; [|done]. by given d "".
Qed.

(** The listening address looks at the same endpoints again, to no effect. *)
Lemma merged_bind i p d b l x :
  or_default (over (over d p) i) (firstNonEmpty [b; i; p; d; l; x])
  = firstNonEmpty [i; p; d; b; l; x].
Proof.
  unfold over, or_default, firstNonEmpty. given i ""; [|done]. given p ""; [|done].
  given d ""; [|done]. done.
Qed.

Lemma merged_wire w i p d b :
  or_default_int (or_default_int w (firstNonZero [i; p; d])) b = firstNonZero [w; i; p; d; b].
Proof.
  unfold or_default_int, firstNonZero. given w 0%Z; [|done]. given i 0%Z; [|done].
  given p 0%Z; [|done]. given d 0%Z; [|done]. by given b 0%Z.
Qed.

Lemma merged_port w i p d b :
  or_default_int (if bool_decide (i = 0%Z) then if bool_decide (p = 0%Z) then d else p else i)
    (firstNonZero [w; i; p; d; b])
  = firstNonZero [i; p; d; w; b].
Proof.
  unfold or_default_int, firstNonZero. given i 0%Z; [|done]. given p 0%Z; [|done].
  by given d 0%Z.
Qed.

Lemma merged_control c b : or_default_int c b = firstNonZero [c; b].
Proof. unfold or_default_int, firstNonZero. given c 0%Z; [|done]. by case_bool_decide. Qed.

Lemma copyStringMap_id m : copyStringMap m = m.
Proof.
  revert m. unfold copyStringMap. refine (map_fold_weak_ind (λ r m, r = m) _ _ _ _); [done|].
  by intros i x m r _ ->.
Qed.

Lemma merged_sqlite i backend path :
  (if bool_decide (i = "") && bool_decide (backend = "sqlite") then path else i)
  = firstNonEmpty [i; if bool_decide (backend = "sqlite") then path else ""].
Proof.
  unfold firstNonEmpty. given i ""; [|done]. destruct (bool_decide (backend = "sqlite")); [by case_bool_decide|done].
Qed.

Lemma merged_slice (i p d : list string) :
  firstNonEmptySlice [i; p; d] = if decide (i ≠ []) then i else if decide (p ≠ []) then p else d.
Proof. by destruct i, p, d. Qed.

(** The endpoint always has an address, and a printed form where it has a port. *)
Lemma merged_location loc host port :
  host ≠ "" →
  (if bool_decide (loc = "") && negb (bool_decide (host = "")) && (0 <? port)%Z then host_port host port else loc)
  = or_default loc (if (0 <? port)%Z then host_port host port else "").
Proof.
  intros Hh. rewrite (bool_decide_eq_false_2 _ Hh), andb_true_r. unfold or_default.
  given loc ""; [by destruct (0 <? port)%Z|done].
Qed.

Lemma complete_endpoint_host t h w inst ep : h ≠ "" → (complete_endpoint t h w inst ep).(ep_Host) ≠ "".
Proof.
  intros Hh. cbn. apply or_default_ne, (firstNonEmpty_last [_; _]). by apply or_default_ne.
Qed.

Lemma merged_endpoint m idx inst p :
  let d := m.(mf_Defaults) in
  let trust := firstNonEmpty [d.(df_TrustMode); "plaintext_lab"] in
  let listen := firstNonEmpty [inst.(in_BindHost); inst.(in_EGMEndpoint).(ep_BindIP); p.(pf_EGMEndpoint).(ep_BindIP);
    d.(df_EGMEndpoint).(ep_BindIP); d.(df_ListenHost); "127.0.0.1"] in
  let wire := firstNonZero [inst.(in_WirePort); inst.(in_EGMEndpoint).(ep_Port); p.(pf_EGMEndpoint).(ep_Port);
    d.(df_EGMEndpoint).(ep_Port); int64_wrap (d.(df_WirePortBase) + Z.of_nat idx)] in
  let ep := complete_endpoint trust listen wire inst
    (mergeEndpoint (mergeEndpoint d.(df_EGMEndpoint) p.(pf_EGMEndpoint)) inst.(in_EGMEndpoint)) in
  ep.(ep_Scheme) = firstNonEmpty [inst.(in_EGMEndpoint).(ep_Scheme); p.(pf_EGMEndpoint).(ep_Scheme);
    d.(df_EGMEndpoint).(ep_Scheme); if bool_decide (trust = "plaintext_lab") then "http" else "https"] ∧
  ep.(ep_BindIP) = firstNonEmpty [inst.(in_EGMEndpoint).(ep_BindIP); p.(pf_EGMEndpoint).(ep_BindIP);
    d.(df_EGMEndpoint).(ep_BindIP); inst.(in_BindHost); d.(df_ListenHost); "127.0.0.1"] ∧
  ep.(ep_Host) = firstNonEmpty [inst.(in_EGMEndpoint).(ep_Host); p.(pf_EGMEndpoint).(ep_Host);
    d.(df_EGMEndpoint).(ep_Host); inst.(in_AdvertisedHost); inst.(in_AdvertisedIP); ep.(ep_BindIP)] ∧
  ep.(ep_Path) = firstNonEmpty [inst.(in_EGMEndpoint).(ep_Path); p.(pf_EGMEndpoint).(ep_Path);
    d.(df_EGMEndpoint).(ep_Path); "/g2s"] ∧
  ep.(ep_Port) = firstNonZero [inst.(in_EGMEndpoint).(ep_Port); p.(pf_EGMEndpoint).(ep_Port);
    d.(df_EGMEndpoint).(ep_Port); inst.(in_WirePort); int64_wrap (d.(df_WirePortBase) + Z.of_nat idx)].
Proof.
  cbv zeta. split_and!.
  - assert (Ht : firstNonEmpty [df_TrustMode (mf_Defaults m); "plaintext_lab"] ≠ "")
      by (by apply (firstNonEmpty_last [_])).
    unfold complete_endpoint. rewrite (bool_decide_eq_false_2 _ Ht), orb_false_r. apply merged_first.
  - apply merged_bind.
  - cbn [complete_endpoint ep_Host ep_BindIP mergeEndpoint]. rewrite merged_first.
    apply (firstNonEmpty_nest [_; _; _]).
  - apply merged_first.
  - apply merged_port.
Qed.

Lemma resolveInstance_resolved m idx inst :
  manifest_ok m → inst ∈ m.(mf_Instances) →
  ∃ e, resolveInstance m idx inst = Ok e ∧ resolved_by m idx inst (group_of m inst) (profile_of m inst) e.
Proof.
  intros Hm Hin. destruct (group_profile_exist m inst Hm Hin) as (_ & _ & Hp).
  destruct (resolve_host_id m inst Hm Hin) as (Hh & Hh3 & Hne).
  pose proof (merged_endpoint m idx inst (profile_of m inst)) as Hep. cbv zeta in Hep.
  unfold resolveInstance. cbv zeta. revert Hp Hh Hh3 Hep.
  generalize (group_of m inst) (profile_of m inst). intros g p Hp Hh Hh3 Hep.
  assert (Hpf : firstNonEmpty [p.(pf_PackFile); df_PackFile (mf_Defaults m)] = p.(pf_PackFile))
    by (cbn; by rewrite (bool_decide_eq_false_2 _ Hp)).
  rewrite Hpf, (bool_decide_eq_false_2 _ Hp). revert Hep.
  rewrite merged_wire, (or_default_first (df_TrustMode _)).
  set (listen := firstNonEmpty (in_BindHost inst :: _)).
  assert (Hl : listen ≠ "") by (by apply (firstNonEmpty_last [_; _; _; _; _])).
  match goal with |- context [complete_endpoint ?t ?h ?w ?i ?x] =>
    pose proof (complete_endpoint_host t h w i x Hl) as Heh; set (ep := complete_endpoint t h w i x) in * end.
  intros (Hs & Hb & Hho & Hpa & Hpo).
  eexists. split; [reflexivity|].
  split; cbn [ef_InstanceID ef_EGMID ef_HostID ef_Group ef_Profile ef_Manufacturer ef_ListenHost ef_WirePort
    ef_ControlPort ef_EGMEndpoint ef_HostEndpoint ef_G2SXML ef_AdvertisedHost ef_AdvertisedIP ef_DNSServers
    ef_SubnetMask ef_Gateway ef_ServerName ef_TrustMode ef_PackFile ef_OverlayFiles ef_LogDir ef_StorageBackend
    ef_SQLitePath ef_LogicalCommands ef_Heartbeat ef_NormalizedState ef_Faults ef_CertFile ef_KeyFile ef_CAFile];
    try done.
  - by rewrite Hh.
  - by rewrite Hh.
  - apply copyStringMap_id.
  - apply merged_control.
  - apply merged_first_3.
  - apply merged_first.
  - apply merged_first.
  - cbn [defaultG2SXML mergeG2SXML fx_EGMLocation]. rewrite merged_location by done. apply merged_first.
  - apply merged_slice.
  - apply or_default_first.
  - apply merged_sqlite.
  - intros k. apply merged_lookup.
  - intros k. apply merged_lookup.
  - intros k. apply merged_lookup.
Qed.

(** ** An example *)

Definition no_G2SXML : G2SXML := mkFleetG2SXML "" "" "".
Definition no_HostEndpoint : HostEndpoint := mkFleetHostEndpoint "".

(** An instance that sets only its identifiers, group and ports. *)
Definition example_instance (id egm bind : string) (wire control : Z) : FleetInstance := {|
  in_InstanceID := id; in_EGMID := egm; in_HostID := ""; in_Group := "floor";
  in_WirePort := wire; in_ControlPort := control; in_BindHost := bind;
  in_EGMEndpoint := zero_Endpoint; in_HostEndpoint := no_HostEndpoint; in_G2SXML := no_G2SXML;
  in_AdvertisedHost := ""; in_AdvertisedIP := ""; in_DNSServers := []; in_SubnetMask := "";
  in_Gateway := ""; in_ServerName := ""; in_LogDir := ""; in_SQLitePath := ""; in_CertFile := "";
  in_KeyFile := ""; in_CAFile := ""; in_Overrides := ∅ |}.

(** A floor whose profile has an endpoint of its own. *)
Definition example_manifest_at (endpoint : Endpoint) (instances : list FleetInstance) : Manifest := {|
  mf_SchemaVersion := ManifestSchemaVersion; mf_FleetName := "lab"; mf_Description := "";
  mf_Defaults := {|
    df_HostID := ""; df_ListenHost := "127.0.0.1"; df_WirePortBase := 19000;
    df_ControlPortBase := 18000; df_EGMEndpoint := zero_Endpoint;
    df_HostEndpoint := no_HostEndpoint; df_G2SXML := no_G2SXML; df_TrustMode := "";
    df_PackFile := "unused.json"; df_OverlayFiles := []; df_LogRoot := "./logs";
    df_StorageBackend := ""; df_SQLiteRoot := ""; df_AdvertisedHost := ""; df_AdvertisedIP := "";
    df_DNSServers := []; df_SubnetMask := ""; df_Gateway := ""; df_ServerName := "";
    df_CertFile := ""; df_KeyFile := ""; df_CAFile := ""; df_Heartbeat := ∅;
    df_NormalizedState := ∅; df_Faults := ∅ |};
  mf_Profiles := {[ "standard" := {|
    pf_Label := ""; pf_Manufacturer := "acme"; pf_PackFile := "packs/g2s.json";
    pf_OverlayFiles := ["overlays/slow.json"];
    pf_LogicalCommands := {[ "open" := "g2s.commsOnLine" ]}; pf_HostID := "HOST-009";
    pf_EGMEndpoint := endpoint;
    pf_HostEndpoint := mkFleetHostEndpoint "http://127.0.0.1:9000/host"; pf_G2SXML := no_G2SXML;
    pf_AdvertisedHost := ""; pf_AdvertisedIP := ""; pf_DNSServers := []; pf_SubnetMask := "";
    pf_Gateway := ""; pf_ServerName := ""; pf_CertFile := ""; pf_KeyFile := ""; pf_CAFile := "";
    pf_Heartbeat := {[ "interval" := JNum (NInt 5) ]}; pf_NormalizedState := ∅; pf_Faults := ∅ |} ]};
  mf_Groups := {[ "floor" := {|
    gr_Label := ""; gr_Profile := "standard"; gr_Zone := "";
    gr_Overrides := {[ "heartbeat" := JObj [("interval", JNum (NInt 9))] ]} |} ]};
  mf_Instances := instances |}.

Definition example_manifest : list FleetInstance → Manifest := example_manifest_at (mkEndpoint "" "" "" 0 "/floor").

Definition two_instances : list FleetInstance :=
  [example_instance "egm-1" "EGM-1" "" 0 0; example_instance "egm-2" "EGM-2" "10.0.0.2" 8090 0].

Lemma example_manifest_ok : manifest_ok (example_manifest two_instances).
Proof. apply ValidateManifest_ok. vm_compute. reflexivity. Qed.

(** ** Theorems *)

(** C28. [ValidateManifest] accepts a manifest exactly when it meets the checks of
    fleet/validate.go, stated on the data: every group names a profile, every
    instance a group and a host identifier, no instance or machine identifier
    occurs twice, and no explicit port is asked for twice. *)
Theorem ValidateManifest_correct m : ValidateManifest (Some m) = Ok () ↔ manifest_ok m.
Proof. apply ValidateManifest_ok. Qed.

(** The error of [ValidateManifest] does not depend on the order in which
    the loops over the two maps visit them. *)
Theorem ValidateManifest_order profiles groups m :
  profiles ≡ₚ map_to_list m.(mf_Profiles) → groups ≡ₚ map_to_list m.(mf_Groups) →
  ValidateManifest_in profiles groups m = ValidateManifest (Some m).
Proof.
  intros Hp Hg. unfold ValidateManifest, ValidateManifest_in. apply finish_perm.
  do 7 apply Permutation_app_head. apply Permutation_app; [by apply concat_map_perm|].
  apply Permutation_app_tail. by apply concat_map_perm.
Qed.

(** C27. Resolving a valid manifest produces one result per instance, in order,
    and the only error left is an endpoint used twice: the listening addresses
    of two instances agree in host and port, or their control addresses do, or
    their machine endpoints print alike. *)
Theorem ResolveInstances_correct m :
  manifest_ok m →
  ∃ effs, length effs = length m.(mf_Instances) ∧
    (∀ i inst, m.(mf_Instances) !! i = Some inst →
       ∃ e, effs !! i = Some e ∧ resolveInstance m i inst = Ok e) ∧
    ((sockets_distinct effs ∧ ResolveInstances (Some m) = Ok effs) ∨
     (¬ sockets_distinct effs ∧ is_ok (ResolveInstances (Some m)) = false)).
Proof.
  intros Hm. destruct (resolve_all m Hm) as [effs He]. exists effs.
  destruct (traverse_from_ok _ _ _ _ He) as [Hlen Hget]. split; [done|]. split.
  { intros i inst Hi. destruct (Hget i inst Hi) as (e & ? & ?). by exists e. }
  unfold ResolveInstances. rewrite (proj2 (ValidateManifest_ok m) Hm). simpl. rewrite He. simpl.
  rewrite <-validateResolvedInstances_ok.
  destruct (validateResolvedInstances effs) as [[]|e]; [by left|by right].
Qed.

(** C17. For every instance of a valid manifest [resolveInstance] succeeds, and each
    of its settings is decided in the order that [resolved_by] gives for it: as a
    rule by the instance, its profile, the defaults and a built-in value. The
    exceptions are in it too: the endpoint that is advertised takes an endpoint of
    the profile or of the defaults before the bind host, the wire port and the
    advertised names of the instance, and only three maps know the overrides of
    a group. The host identifier is the one validation has checked (so the
    built-in "HOST-001" is never used) and the pack is the profile's (so the
    default pack file is never used). *)
Theorem resolveInstance_precedence m idx inst :
  manifest_ok m → inst ∈ m.(mf_Instances) →
  ∃ g p e, m.(mf_Groups) !! inst.(in_Group) = Some g ∧ m.(mf_Profiles) !! g.(gr_Profile) = Some p ∧
    resolveInstance m idx inst = Ok e ∧ resolved_by m idx inst g p e.
Proof.
  intros Hm Hin. destruct (group_profile_exist m inst Hm Hin) as (Hg & Hp & _).
  destruct (resolveInstance_resolved m idx inst Hm Hin) as (e & He & Hby).
  by exists (group_of m inst), (profile_of m inst), e.
Qed.

(** A manifest that validation accepts is read back unchanged from its JSON
    file. *)
Theorem LoadManifest_roundtrip fs path m :
  manifest_ok m → safe id m → fs !! path = Some (JsonFile (enc m)) → LoadManifest fs path = Ok m.
Proof.
  intros Hm Hs Hf. unfold LoadManifest. rewrite Hf. cbv beta iota.
  pose proof (dec_enc id id m _ Hs) as Hd. unfold id in Hd at 1. rewrite Hd.
  by rewrite (proj2 (ValidateManifest_ok m) Hm).
Qed.

(** ** Witnesses *)

Lemma ValidateManifest_order_witness :
  let m := example_manifest [] in
  ValidateManifest_in (reverse (map_to_list m.(mf_Profiles))) (map_to_list m.(mf_Groups)) m
  = ValidateManifest (Some m).
Proof. intros m. apply ValidateManifest_order; [apply reverse_Permutation|done]. Defined.

Lemma ResolveInstances_correct_witness :
  let m := example_manifest two_instances in
  is_ok (ResolveInstances (Some m)) = true ∧
  ∃ effs, length effs = 2 ∧
    (∀ i inst, m.(mf_Instances) !! i = Some inst →
       ∃ e, effs !! i = Some e ∧ resolveInstance m i inst = Ok e) ∧
    ((sockets_distinct effs ∧ ResolveInstances (Some m) = Ok effs) ∨
     (¬ sockets_distinct effs ∧ is_ok (ResolveInstances (Some m)) = false)).
Proof.
  split; [vm_compute; reflexivity|].
  apply (ResolveInstances_correct (example_manifest two_instances)), example_manifest_ok.
Defined.

Lemma resolveInstance_precedence_witness :
  let m := example_manifest two_instances in
  let inst := example_instance "egm-2" "EGM-2" "10.0.0.2" 8090 0 in
  ∃ g p e, m.(mf_Groups) !! inst.(in_Group) = Some g ∧ m.(mf_Profiles) !! g.(gr_Profile) = Some p ∧
    resolveInstance m 1 inst = Ok e ∧ resolved_by m 1 inst g p e.
Proof.
  apply resolveInstance_precedence; [apply example_manifest_ok|]. right. left.
Defined.

(** The endpoint of a profile overrules the instance: the machine listens at its
    own address and port, and advertises the profile's. *)
Example profile_overrules_instance :
  (λ e, (e.(ef_ListenHost), e.(ef_WirePort), e.(ef_EGMEndpoint).(ep_BindIP), e.(ef_EGMEndpoint).(ep_Port)))
    <$> resolveInstance (example_manifest_at (mkEndpoint "" "10.9.9.9" "" 7000 "/floor") two_instances) 1
          (example_instance "egm-2" "EGM-2" "10.0.0.2" 8090 0)
  = Ok ("10.0.0.2", 8090%Z, "10.9.9.9", 7000%Z).
Proof. vm_compute. reflexivity. Qed.

Lemma LoadManifest_roundtrip_witness :
  LoadManifest {["fleet.json" := JsonFile (enc (example_manifest two_instances))]} "fleet.json"
  = Ok (example_manifest two_instances).
Proof.
  apply LoadManifest_roundtrip; [apply example_manifest_ok| |reflexivity].
  repeat first [ exact I | reflexivity | by apply map_Forall_empty
    | apply map_Forall_singleton | split | constructor | progress simpl ].
Defined.
