(* ===== verification/Generate.v ===== *)
(** * Generated configurations (src/fleet/generate.go)

    [GenerateConfigs] turns every resolved instance of a manifest into the
    configuration file of one VEGM process. Files are a map from paths to
    contents; the paths at which the operating system refuses to create a
    directory or a file are a parameter. *)

From S2P Require Import Prelude GoStrings Url Json Validate Config FleetTypes Fleet.

Record GeneratedConfig := mkGenerated {
  gc_Instance : EffectiveInstance;
  gc_Path : string;
  gc_Config : Config;
}.

Definition control_bind (e : EffectiveInstance) : string := host_port "127.0.0.1" e.(ef_ControlPort).

Definition generated_notes (e : EffectiveInstance) : gmap string string := list_to_map [
  ("group", e.(ef_Group));
  ("profile", e.(ef_Profile));
  ("manufacturer", e.(ef_Manufacturer));
  ("host_id", e.(ef_HostID));
  ("egm_endpoint_scheme", e.(ef_EGMEndpoint).(ep_Scheme));
  ("egm_endpoint_bind_ip", e.(ef_EGMEndpoint).(ep_BindIP));
  ("egm_endpoint_host", e.(ef_EGMEndpoint).(ep_Host));
  ("egm_endpoint_path", e.(ef_EGMEndpoint).(ep_Path));
  ("host_endpoint_url", e.(ef_HostEndpoint).(hep_URL));
  ("g2s_xml_mode", e.(ef_G2SXML).(fx_Mode));
  ("g2s_xml_namespace", e.(ef_G2SXML).(fx_Namespace));
  ("g2s_xml_egm_location", e.(ef_G2SXML).(fx_EGMLocation));
  ("advertised_host", e.(ef_AdvertisedHost));
  ("advertised_ip", e.(ef_AdvertisedIP));
  ("subnet_mask", e.(ef_SubnetMask));
  ("gateway", e.(ef_Gateway));
  ("server_name", e.(ef_ServerName));
  ("dns_servers", join "," e.(ef_DNSServers));
  ("cert_file", e.(ef_CertFile));
  ("key_file", e.(ef_KeyFile));
  ("ca_file", e.(ef_CAFile));
  ("storage_backend", e.(ef_StorageBackend));
  ("sqlite_path", e.(ef_SQLitePath));
  ("control_bind", control_bind e)].

Definition generated_session (e : EffectiveInstance) : SessionEngineConfig :=
  if negb (bool_decide (e.(ef_HostEndpoint).(hep_URL) = ""))
  then mkSessionEngine true true 3000 5000 5000 false
  else mkSessionEngine false false 0 0 0 false.

(** The configuration built in one turn of the loop. *)
Definition generated_config (e : EffectiveInstance) : Config := {|
  cfg_InstanceID := e.(ef_InstanceID);
  cfg_HostID := e.(ef_HostID);
  cfg_EGMID := e.(ef_EGMID);
  cfg_EGMEndpoint := mkEGMEndpoint e.(ef_EGMEndpoint).(ep_Scheme) e.(ef_EGMEndpoint).(ep_BindIP)
    e.(ef_EGMEndpoint).(ep_Host) e.(ef_EGMEndpoint).(ep_Port) e.(ef_EGMEndpoint).(ep_Path);
  cfg_HostEndpoint := mkHostEndpoint e.(ef_HostEndpoint).(hep_URL);
  cfg_G2SXML := mkG2SXML e.(ef_G2SXML).(fx_Mode) e.(ef_G2SXML).(fx_Namespace)
    e.(ef_G2SXML).(fx_EGMLocation);
  cfg_SessionEngine := generated_session e;
  cfg_Listen := mkListen e.(ef_ListenHost) e.(ef_WirePort);
  cfg_Security := mkSecurity e.(ef_TrustMode) e.(ef_CertFile) e.(ef_KeyFile) e.(ef_CAFile);
  cfg_Logging := mkLogging e.(ef_LogDir) true true;
  cfg_Storage := mkStorage e.(ef_StorageBackend) e.(ef_SQLitePath);
  cfg_Control := mkControl (control_bind e);
  cfg_Outbound := zero;
  cfg_PackFile := e.(ef_PackFile);
  cfg_Overlay := e.(ef_OverlayFiles);
  cfg_Notes := generated_notes e;
|}.

Definition config_path (outDir : string) (e : EffectiveInstance) : string :=
  JoinPath [outDir; e.(ef_InstanceID) +:+ ".json"].

Section os.
(** [denied path]: the operating system reports an error for this path. *)
Context (denied : string → bool).

(** The loop that marshals and writes the configurations, in order. *)
Fixpoint write_configs (outDir : string) (effs : list EffectiveInstance) (fs : gmap string file)
    : gmap string file * result (list GeneratedConfig) :=
  match effs with
  | [] => (fs, Ok [])
  | e :: rest =>
      let path := config_path outDir e in
      if denied path
      then (fs, Err ("write generated config for " +:+ e.(ef_InstanceID)))
      else
        let cfg := generated_config e in
        let '(fs', r) := write_configs outDir rest (<[path := JsonFile (enc cfg)]> fs) in
        (fs', gens ← r; Ok (mkGenerated e path cfg :: gens))
  end.

Definition GenerateConfigs (m : option Manifest) (outDir : string) (fs : gmap string file)
    : gmap string file * result (list GeneratedConfig) :=
  match ResolveInstances m with
  | Err e => (fs, Err e)
  | Ok effective =>
      let outDir := or_default outDir "./generated" in
      if denied outDir then (fs, Err "mkdir generated dir")
      else write_configs outDir effective fs
  end.
End os.

(** ** Lemmas *)

Lemma plain_config_name id : free_of "/" id = true → plain_name (id +:+ ".json") = true.
Proof.
  intros H. unfold plain_name. rewrite free_of_app, H. simpl.
  assert (Hlen : ∀ s, String.length s < 5 → id +:+ ".json" ≠ s).
  { intros s Hs <-. rewrite string_length_app in Hs. simpl in Hs. lia. }
  rewrite !bool_decide_eq_false_2 by (apply Hlen; simpl; lia). done.
Qed.

(** The path of a configuration determines the identifier, as long as the
    identifiers are ordinary file names. *)
Lemma config_path_inj outDir e1 e2 :
  outDir ≠ "" → free_of "/" e1.(ef_InstanceID) = true → free_of "/" e2.(ef_InstanceID) = true →
  config_path outDir e1 = config_path outDir e2 → e1.(ef_InstanceID) = e2.(ef_InstanceID).
Proof.
  intros Hd H1 H2 H. apply JoinPath_inj in H; [|done|by apply plain_config_name..].
  by apply (sep_unique "." _ _ "json" "json") in H as [H _].
Qed.

Lemma Clean_ne p : Clean p ≠ "".
Proof. unfold Clean. case_match; [discriminate|]. by case_bool_decide. Qed.

Lemma JoinPath_ne d e : d ≠ "" → JoinPath [d; e] ≠ "".
Proof. intros Hd. unfold JoinPath. rewrite filter_cons_True by done. apply Clean_ne. Qed.

(** ** What a resolved instance brings to its configuration *)

Record usable (e : EffectiveInstance) : Prop := {
  usable_id : e.(ef_InstanceID) ≠ "";
  usable_egm : e.(ef_EGMID) ≠ "";
  usable_scheme : e.(ef_EGMEndpoint).(ep_Scheme) ∈ ["http"; "https"];
  usable_bind : e.(ef_EGMEndpoint).(ep_BindIP) ≠ "";
  usable_host : e.(ef_EGMEndpoint).(ep_Host) ≠ "";
  usable_path : has_prefix "/" e.(ef_EGMEndpoint).(ep_Path) = true;
  usable_port : e.(ef_EGMEndpoint).(ep_Port) = 0%Z → e.(ef_WirePort) = 0%Z;
  usable_url : e.(ef_HostEndpoint).(hep_URL) = "" ∨ url_ok e.(ef_HostEndpoint).(hep_URL);
  usable_mode : e.(ef_G2SXML).(fx_Mode) ≠ "";
  usable_trust : e.(ef_TrustMode) ≠ "";
  usable_log : e.(ef_LogDir) ≠ "";
  usable_pack : e.(ef_PackFile) ≠ "";
  usable_backend : e.(ef_StorageBackend) ≠ "";
  usable_sqlite : e.(ef_StorageBackend) = "sqlite" → e.(ef_SQLitePath) ≠ "";
}.

(** The settings that are not merged from several levels. *)
Lemma resolve_locations m idx inst e :
  resolveInstance m idx inst = Ok e →
  e.(ef_TrustMode) ≠ "" ∧ e.(ef_LogDir) ≠ "" ∧ e.(ef_StorageBackend) ≠ "" ∧
  (e.(ef_StorageBackend) = "sqlite" → e.(ef_SQLitePath) ≠ "").
Proof.
  unfold resolveInstance. cbv zeta. case_bool_decide; [done|]. intros He.
  set (log := or_default (in_LogDir inst) _) in He.
  assert (Hlog : log ≠ "").
  { apply or_default_ne, JoinPath_ne, (firstNonEmpty_last [_]). done. }
  set (backend := firstNonEmpty [df_StorageBackend _; "noop"]) in He.
  assert (Hb : backend ≠ "") by (by apply (firstNonEmpty_last [_])).
  clearbody log backend. injection He as <-. cbn.
  split; [by apply or_default_ne|]. split; [done|]. split; [done|].
  intros ->. rewrite (bool_decide_eq_true_2 ("sqlite" = "sqlite") eq_refl), andb_true_r.
  case_bool_decide; [|done]. by apply JoinPath_ne, (firstNonEmpty_last [_]).
Qed.

Lemma url_first us : Forall (λ u, u = "" ∨ url_ok u) us → firstNonEmpty us = "" ∨ url_ok (firstNonEmpty us).
Proof.
  induction 1 as [|u us Hu Hus IH]; simpl; [by left|]. case_bool_decide; [done|]. by right; destruct Hu.
Qed.

Lemma first_in (P : string → Prop) vs d :
  Forall (λ v, v = "" ∨ P v) vs → P d → P (firstNonEmpty (vs ++ [d])) ∨ d = "".
Proof.
  intros H Hd. induction H as [|v vs Hv Hvs IH]; simpl.
  - case_bool_decide; auto.
  - case_bool_decide; [done|]. left. by destruct Hv.
Qed.

(** Each level of the manifest has a checked endpoint. *)
Lemma levels_ok m inst g p :
  manifest_ok m → inst ∈ m.(mf_Instances) →
  m.(mf_Groups) !! inst.(in_Group) = Some g → m.(mf_Profiles) !! g.(gr_Profile) = Some p →
  instance_ok m inst ∧ profile_ok g.(gr_Profile) p.
Proof.
  intros Hm Hin Hg Hp. split.
  - exact (proj1 (Forall_forall _ _) (manifest_each_instance m Hm) _ Hin).
  - exact (manifest_each_profile m Hm _ _ Hp).
Qed.

Lemma first_scheme i p d b :
  i.(ep_Scheme) ∈ [""; "http"; "https"] → p.(ep_Scheme) ∈ [""; "http"; "https"] →
  d.(ep_Scheme) ∈ [""; "http"; "https"] →
  firstNonEmpty [i.(ep_Scheme); p.(ep_Scheme); d.(ep_Scheme); if b : bool then "http" else "https"]
  ∈ ["http"; "https"].
Proof.
  intros Hi Hp Hd.
  assert (Hw : ∀ s, s ∈ [""; "http"; "https"] → s = "" ∨ s ∈ ["http"; "https"]) by set_solver.
  destruct (first_in (λ s, s ∈ ["http"; "https"])
    [i.(ep_Scheme); p.(ep_Scheme); d.(ep_Scheme)] (if b then "http" else "https")) as [H|H].
  - by repeat apply Forall_cons_2; [apply Hw..|].
  - destruct b; set_solver.
  - exact H.
  - by destruct b.
Qed.

Lemma first_path i p d :
  (i = "" ∨ has_prefix "/" i = true) → (p = "" ∨ has_prefix "/" p = true) →
  (d = "" ∨ has_prefix "/" d = true) →
  has_prefix "/" (firstNonEmpty [i; p; d; "/g2s"]) = true.
Proof.
  intros Hi Hp Hd.
  destruct (first_in (λ s, has_prefix "/" s = true) [i; p; d] "/g2s") as [H|H]; [|done|exact H|done].
  by repeat apply Forall_cons_2.
Qed.

Lemma resolved_usable m idx inst e :
  manifest_ok m → inst ∈ m.(mf_Instances) → resolveInstance m idx inst = Ok e → usable e.
Proof.
  intros Hm Hin He.
  destruct (group_profile_exist m inst Hm Hin) as (Hg & Hp & Hpack).
  destruct (levels_ok m inst _ _ Hm Hin Hg Hp) as [Hi Hpr].
  destruct (resolveInstance_resolved m idx inst Hm Hin) as (e' & He' & Hby).
  rewrite He in He'. injection He' as <-.
  destruct (resolve_locations _ _ _ _ He) as (Htm & Hlog & Hb & Hsq).
  destruct (instance_endpoint _ _ Hi) as (Hs1 & Hp1 & Hpa1).
  destruct (profile_endpoint _ _ Hpr) as (Hs2 & Hp2 & Hpa2).
  destruct (manifest_endpoint _ Hm) as (Hs3 & Hp3 & Hpa3).
  destruct Hby. split; try done.
  - rewrite by_id. apply TrimSpace_ne, Hi.
  - rewrite by_egm. apply TrimSpace_ne, Hi.
  - rewrite by_scheme. by apply first_scheme.
  - rewrite by_bind. by apply (firstNonEmpty_last [_; _; _; _; _]).
  - rewrite by_host. apply (firstNonEmpty_last [_; _; _; _; _]). rewrite by_bind.
    by apply (firstNonEmpty_last [_; _; _; _; _]).
  - rewrite by_path. by apply first_path.
  - rewrite by_port, by_wire, !firstNonZero_zero, !Forall_cons. tauto.
  - rewrite by_url. apply url_first. repeat apply Forall_cons_2; [apply Hi|apply Hpr|apply Hm|done].
  - rewrite by_mode. by apply (firstNonEmpty_last [_; _; _]).
  - by rewrite by_pack.
Qed.

(** ** Which generated configurations a process accepts *)

(** What manifest validation leaves open and the process insists on. *)
Record launchable (e : EffectiveInstance) : Prop := {
  launch_port : (1 ≤ e.(ef_EGMEndpoint).(ep_Port) ≤ 65535)%Z;
  launch_mode : e.(ef_G2SXML).(fx_Mode) ∈ ["lab_legacy_xml"; "xsd_g2s_message"];
  launch_backend : e.(ef_StorageBackend) ∈ ["noop"; "sqlite"];
  launch_security : security_ok
    (mkSecurity e.(ef_TrustMode) e.(ef_CertFile) e.(ef_KeyFile) e.(ef_CAFile));
}.

Lemma generated_endpoint e :
  usable e → (fill_defaults (generated_config e)).(cfg_EGMEndpoint)
             = (generated_config e).(cfg_EGMEndpoint).
Proof.
  intros []. unfold fill_defaults. rewrite default_HostID_eq, applyEndpointDefaults_eq.
  cbn -[default_endpoint]. unfold default_endpoint. cbn -[firstNonEmpty].
  apply one_of_ne in usable_scheme0; [|done..]. apply has_prefix_ne in usable_path0; [|done].
  rewrite !or_default_id by done. f_equal. unfold or_default_int. case_bool_decide; [|done].
  rewrite usable_port0 by done. congruence.
Qed.

Lemma generated_xml e :
  usable e → xml_ok (fill_defaults (generated_config e)).(cfg_G2SXML)
             ↔ e.(ef_G2SXML).(fx_Mode) ∈ ["lab_legacy_xml"; "xsd_g2s_message"].
Proof.
  intros []. unfold fill_defaults. cbn [applySessionEngineDefaults cfg_G2SXML set_cfg_SessionEngine].
  unfold applyG2SXMLDefaults. cbn [cfg_G2SXML set_cfg_G2SXML].
  rewrite applyEndpointDefaults_eq, default_HostID_eq. cbn -[host_port].
  rewrite or_default_id by done.
  split; [by intros []|]. intros H. split; [done|..]; cbn -[host_port]; apply or_default_ne; [done|].
  apply host_port_ne.
Qed.

Lemma generated_tail e :
  usable e → validateTail (generated_config e) = Ok () ↔
  e.(ef_StorageBackend) ∈ ["noop"; "sqlite"] ∧
  security_ok (mkSecurity e.(ef_TrustMode) e.(ef_CertFile) e.(ef_KeyFile) e.(ef_CAFile)).
Proof.
  intros []. rewrite validateTail_ok. simpl.
  assert (Hst : storage_ok (mkStorage (ef_StorageBackend e) (ef_SQLitePath e)) ↔
                e.(ef_StorageBackend) ∈ ["noop"; "sqlite"]).
  { unfold storage_ok. simpl. rewrite !elem_of_cons, !elem_of_nil. naive_solver. }
  rewrite Hst. split; [tauto|]. intros [? ?]. by repeat split.
Qed.

Lemma generated_session_url e :
  (generated_config e).(cfg_SessionEngine).(se_Enabled) = true →
  (generated_config e).(cfg_HostEndpoint).(he_URL) ≠ "".
Proof. simpl. unfold generated_session. by case_bool_decide. Qed.

Lemma generated_accepted e : usable e → config_ok (normalised (generated_config e)) ↔ launchable e.
Proof.
  intros He. rewrite normalised_ok, validateTail_normalised, generated_tail, validateEndpoints_ok,
    generated_xml, generated_endpoint by done.
  destruct (fill_defaults_keeps (generated_config e)) as (_ & _ & Hh & _). rewrite Hh.
  pose proof (generated_session_url e) as Hs. destruct He. split.
  - intros (_ & _ & ([] & _ & ?) & _ & ? & ?). by split.
  - intros []. by split_and!.
Qed.

(** ** Lemmas: files *)

Lemma write_configs_ok denied outDir effs fs fs' gens :
  write_configs denied outDir effs fs = (fs', Ok gens) →
  gens = map (λ e, mkGenerated e (config_path outDir e) (generated_config e)) effs.
Proof.
  revert fs fs' gens. induction effs as [|e effs IH]; simpl; intros fs fs' gens H; [by simplify_eq|].
  destruct (denied _); [done|]. destruct (write_configs _ _ _ _) as [fs1 [gens1|]] eqn:Hw; [|done].
  simplify_eq/=. f_equal. by apply (IH _ _ _ Hw).
Qed.

(** Files at other paths are left alone. *)
Lemma write_configs_other denied outDir effs fs path :
  path ∉ map (config_path outDir) effs → (write_configs denied outDir effs fs).1 !! path = fs !! path.
Proof.
  revert fs. induction effs as [|e effs IH]; simpl; intros fs Hp; [done|].
  apply not_elem_of_cons in Hp as [Hp1 Hp2]. destruct (denied _); [done|].
  specialize (IH (<[config_path outDir e := JsonFile (enc (generated_config e))]> fs) Hp2).
  destruct (write_configs _ _ _ _) as [fs1 r]. simpl in *. by rewrite IH, lookup_insert_ne.
Qed.

(** With distinct paths every file is there at the end. *)
Lemma write_configs_files denied outDir effs fs fs' gens e :
  write_configs denied outDir effs fs = (fs', Ok gens) → NoDup (map (config_path outDir) effs) →
  e ∈ effs → fs' !! config_path outDir e = Some (JsonFile (enc (generated_config e))).
Proof.
  revert fs fs' gens. induction effs as [|x effs IH]; simpl; intros fs fs' gens H Hnd Hin;
    [by apply elem_of_nil in Hin|].
  destruct (denied _); [done|]. apply NoDup_cons in Hnd as [Hx Hnd].
  pose proof (write_configs_other denied outDir effs
    (<[config_path outDir x := JsonFile (enc (generated_config x))]> fs) _ Hx) as Ho.
  destruct (write_configs _ _ _ _) as [fs1 [gens1|]] eqn:Hw; simplify_eq/=.
  apply elem_of_cons in Hin as [->|Hin]; [|by eapply IH].
  by rewrite Ho, lookup_insert_eq.
Qed.

(** Every result of [ResolveInstances] comes from an instance of the manifest. *)
Lemma resolved_from m effs e :
  ResolveInstances (Some m) = Ok effs → e ∈ effs →
  ∃ i inst, m.(mf_Instances) !! i = Some inst ∧ resolveInstance m i inst = Ok e.
Proof.
  intros Hr Hin. pose proof Hr as (_ & Ht & _)%ResolveInstances_ok.
  destruct (traverse_from_ok _ _ _ _ Ht) as [Hlen _].
  apply list_elem_of_lookup_1 in Hin as [i Hi].
  assert (is_Some (m.(mf_Instances) !! i)) as [inst Hinst].
  { apply lookup_lt_is_Some_2. rewrite <-Hlen. by eapply lookup_lt_Some. }
  destruct (ResolveInstances_lookup _ _ _ _ Hr Hinst) as (e' & He' & Hres).
  rewrite Hi in He'. simplify_eq. by exists i, inst.
Qed.

Lemma resolved_id m idx inst e : resolveInstance m idx inst = Ok e → e.(ef_InstanceID) = inst.(in_InstanceID).
Proof.
  unfold resolveInstance. cbv zeta. case_bool_decide; [done|]. intros H1. by injection H1 as <-.
Qed.

Lemma resolved_ids m effs :
  ResolveInstances (Some m) = Ok effs → map ef_InstanceID effs = map in_InstanceID m.(mf_Instances).
Proof.
  intros Hr. pose proof Hr as (_ & Ht & _)%ResolveInstances_ok.
  destruct (traverse_from_ok _ _ _ _ Ht) as [Hlen Hget].
  apply list_eq. intros i. rewrite !list_lookup_fmap.
  destruct (m.(mf_Instances) !! i) as [inst|] eqn:Hi.
  - destruct (ResolveInstances_lookup _ _ _ _ Hr Hi) as (e & -> & He). simpl. f_equal.
    by eapply resolved_id.
  - assert (effs !! i = None) as ->; [|done]. apply lookup_ge_None_2. rewrite Hlen.
    by apply lookup_ge_None.
Qed.

Lemma config_paths_NoDup outDir effs :
  outDir ≠ "" → Forall (λ e, free_of "/" e.(ef_InstanceID) = true) effs →
  NoDup (map ef_InstanceID effs) → NoDup (map (config_path outDir) effs).
Proof.
  intros Hd Hf. induction Hf as [|e effs He Hf IH]; simpl; [constructor|].
  rewrite !NoDup_cons. intros [Hn Hnd]. split; [|by apply IH].
  intros Hin. apply Hn. apply list_elem_of_In, in_map_iff in Hin as (e' & Hp & Hin).
  apply list_elem_of_In in Hin.
  apply list_elem_of_In, in_map_iff. exists e'. split; [|by apply list_elem_of_In].
  apply (config_path_inj outDir); [done| |done|done].
  by apply (proj1 (Forall_forall _ _) Hf).
Qed.

Lemma firstNonZero_int64 vs : Forall (λ v, in_int64 v = true) vs → in_int64 (firstNonZero vs) = true.
Proof. induction 1 as [|v vs Hv Hvs IH]; [done|]. simpl. by case_bool_decide. Qed.

Lemma port_int64 p : (0 ≤ p ≤ 65535)%Z → in_int64 p = true.
Proof.
  intros H. unfold in_int64, int64_min, int64_max. apply andb_true_intro. split; apply Z.leb_le; lia.
Qed.

Lemma resolved_ports m idx inst e :
  manifest_ok m → inst ∈ m.(mf_Instances) → in_int64 inst.(in_WirePort) = true →
  resolveInstance m idx inst = Ok e →
  in_int64 e.(ef_EGMEndpoint).(ep_Port) = true ∧ in_int64 e.(ef_WirePort) = true.
Proof.
  intros Hm Hin Hw He.
  destruct (group_profile_exist m inst Hm Hin) as (Hg & Hp & _).
  destruct (levels_ok m inst _ _ Hm Hin Hg Hp) as [Hi Hpr].
  destruct (resolveInstance_resolved m idx inst Hm Hin) as (e' & He' & Hby).
  rewrite He in He'. injection He' as <-.
  pose proof (port_int64 _ (proj1 (proj2 (instance_endpoint _ _ Hi)))).
  pose proof (port_int64 _ (proj1 (proj2 (profile_endpoint _ _ Hpr)))).
  pose proof (port_int64 _ (proj1 (proj2 (manifest_endpoint _ Hm)))).
  pose proof (int64_wrap_range (m.(mf_Defaults).(df_WirePortBase) + Z.of_nat idx)).
  rewrite (by_port _ _ _ _ _ _ Hby), (by_wire _ _ _ _ _ _ Hby).
  split; apply firstNonZero_int64; by repeat apply Forall_cons_2.
Qed.

Lemma generated_safe e :
  in_int64 e.(ef_EGMEndpoint).(ep_Port) = true → in_int64 e.(ef_WirePort) = true →
  safe id (generated_config e).
Proof.
  intros Hp Hw. simpl. unfold int_ok. cbn.
  repeat split; try done; unfold generated_session; try case_match; done.
Qed.

(** Reading a configuration that [json.Marshal] wrote. *)
Lemma LoadConfig_enc fs reg path c c' :
  safe id c → fs !! path = Some (JsonFile (enc c)) →
  (LoadConfig fs reg path).2 = Ok c' ↔ config_ok (normalised c) ∧ c' = normalised c.
Proof.
  intros Hs Hf. unfold LoadConfig. rewrite Hf. cbv beta iota.
  pose proof (dec_enc id id c _ Hs) as Hd. unfold id in Hd at 1. rewrite Hd.
  destruct (ValidateConfig reg c) as [[reg' d] r] eqn:Hv.
  pose proof (ValidateConfig_ok reg c reg' d) as Ho. rewrite Hv in Ho.
  destruct r as [[]|e]; simpl.
  - destruct (proj1 Ho eq_refl) as (Hc & -> & _). split; [by intros [= <-]|by intros [_ ->]].
  - split; [done|]. intros [Hc _].
    pose proof (proj2 (ValidateConfig_ok reg c _ _) (conj Hc (conj eq_refl eq_refl))) as Hv'.
    rewrite Hv in Hv'. discriminate.
Qed.

Lemma GenerateConfigs_inv denied m outDir fs fs' gens :
  GenerateConfigs denied (Some m) outDir fs = (fs', Ok gens) →
  ∃ effs, ResolveInstances (Some m) = Ok effs ∧
    write_configs denied (or_default outDir "./generated") effs fs = (fs', Ok gens).
Proof.
  unfold GenerateConfigs. destruct (ResolveInstances (Some m)) as [effs|]; [|done].
  destruct (denied _); [done|]. intros H. by exists effs.
Qed.

(** Instance identifiers that are file names, and ports as the decoder leaves them. *)
Definition plain_instance (inst : FleetInstance) : Prop :=
  free_of "/" inst.(in_InstanceID) = true ∧ in_int64 inst.(in_WirePort) = true.

(** The file of an instance is the one its process loads. *)
Lemma generated_loads denied m outDir fs fs' gens gen reg c :
  GenerateConfigs denied (Some m) outDir fs = (fs', Ok gens) →
  Forall plain_instance m.(mf_Instances) → gen ∈ gens →
  (LoadConfig fs' reg gen.(gc_Path)).2 = Ok c ↔
  launchable gen.(gc_Instance) ∧ c = normalised gen.(gc_Config).
Proof.
  intros (effs & Hr & Hw)%GenerateConfigs_inv Hplain Hgen.
  pose proof Hr as (Hm & _)%ResolveInstances_ok.
  rewrite (write_configs_ok _ _ _ _ _ _ Hw) in Hgen.
  apply list_elem_of_In, in_map_iff in Hgen as (e & <- & He%list_elem_of_In). simpl.
  destruct (resolved_from _ _ _ Hr He) as (i & inst & Hi & Hres).
  pose proof (list_elem_of_lookup_2 _ _ _ Hi) as Hin.
  destruct (proj1 (Forall_forall _ _) Hplain _ Hin) as [_ Hwp].
  destruct (resolved_ports _ _ _ _ Hm Hin Hwp Hres) as [Hp1 Hp2].
  assert (Hnd : NoDup (map (config_path (or_default outDir "./generated")) effs)).
  { apply config_paths_NoDup; [by apply or_default_ne| |].
    - apply Forall_forall. intros x Hx. destruct (resolved_from _ _ _ Hr Hx) as (j & inst' & Hj & Hx').
      rewrite (resolved_id _ _ _ _ Hx').
      apply (proj1 (Forall_forall _ _) Hplain). by eapply list_elem_of_lookup_2.
    - rewrite (resolved_ids _ _ Hr). by apply manifest_ids. }
  rewrite LoadConfig_enc; [|by apply generated_safe|by eapply write_configs_files].
  by rewrite generated_accepted by (by eapply resolved_usable).
Qed.

(** ** Theorems *)

(** C15. The configuration files of a fleet and the processes that read them agree:
    after a successful [GenerateConfigs] the process of an instance loads its
    file exactly when the instance is launchable (port in 1..65535, known XML
    mode, known storage, certificates for the trust mode: what manifest
    validation leaves open), and then runs the generated configuration with its
    defaults filled in. *)
Theorem GenerateConfigs_loadable denied m outDir fs fs' gens gen reg c :
  GenerateConfigs denied (Some m) outDir fs = (fs', Ok gens) →
  Forall plain_instance m.(mf_Instances) → gen ∈ gens →
  (LoadConfig fs' reg gen.(gc_Path)).2 = Ok c ↔
  launchable gen.(gc_Instance) ∧ c = normalised gen.(gc_Config).
Proof. apply generated_loads. Qed.

(** The processes of a generated fleet listen on pairwise distinct wire
    addresses, and, when all instances listen on one host, their control planes
    are bound to pairwise distinct addresses too. *)
Theorem GenerateConfigs_sockets denied m outDir fs fs' gens :
  GenerateConfigs denied (Some m) outDir fs = (fs', Ok gens) →
  NoDup (map (λ g, (g.(gc_Config).(cfg_Listen).(li_Host), g.(gc_Config).(cfg_Listen).(li_Port))) gens) ∧
  ((∀ g g', g ∈ gens → g' ∈ gens →
      g.(gc_Config).(cfg_Listen).(li_Host) = g'.(gc_Config).(cfg_Listen).(li_Host)) →
   NoDup (map (λ g, g.(gc_Config).(cfg_Control).(ct_Bind)) gens)).
Proof.
  intros (effs & Hr & Hw)%GenerateConfigs_inv. apply ResolveInstances_ok in Hr as (_ & _ & [Hwire Hctl _]).
  rewrite (write_configs_ok _ _ _ _ _ _ Hw), !map_map. simpl. split; [exact Hwire|].
  intros Hsame. clear Hw Hwire. unfold control_bind.
  assert (Hsame' : ∀ e e', e ∈ effs → e' ∈ effs → e.(ef_ListenHost) = e'.(ef_ListenHost)).
  { intros e e' He He'.
    apply (Hsame (mkGenerated e (config_path (or_default outDir "./generated") e) (generated_config e))
                 (mkGenerated e' (config_path (or_default outDir "./generated") e') (generated_config e')));
      apply list_elem_of_In, in_map_iff; [exists e|exists e']; by rewrite <-list_elem_of_In. }
  clear Hsame gens. induction effs as [|e effs IH]; simpl in *; [constructor|].
  apply NoDup_cons in Hctl as [Hn Hctl]. apply NoDup_cons. split.
  - intros Hin. apply Hn. apply list_elem_of_In, in_map_iff in Hin as (e' & Hp & Hin%list_elem_of_In).
    apply host_port_inj in Hp as [_ Hp]. apply list_elem_of_In, in_map_iff. exists e'.
    unfold control_socket. rewrite Hp. split; [|by apply list_elem_of_In].
    f_equal. apply Hsame'; [by right|by left].
  - apply IH; [done|]. intros x y Hx Hy. apply Hsame'; by right.
Qed.

(** Without a common host the control planes can clash: the uniqueness check
    of [validateResolvedInstances] looks at the listening host, the generated
    configuration binds 127.0.0.1. Here the explicit control port of one instance
    is the default control port of another one. *)
Theorem control_bind_clash :
  map (λ g, (g.(gc_Instance).(ef_InstanceID), g.(gc_Config).(cfg_Control).(ct_Bind))) <$>
    (GenerateConfigs (λ _, false)
      (Some (example_manifest [example_instance "egm-1" "EGM-1" "10.0.0.1" 0 18001;
                               example_instance "egm-2" "EGM-2" "10.0.0.2" 0 0])) "out" ∅).2
  = Ok [("egm-1", "127.0.0.1:18001"); ("egm-2", "127.0.0.1:18001")].
Proof. vm_compute. reflexivity. Qed.

(** Identifiers that are not file names can share one file: "a" and "./a" are
    accepted as different identifiers, and the second configuration overwrites
    the first, so both processes would run the second. *)
Theorem config_file_clash :
  let '(fs, generated) := GenerateConfigs (λ _, false)
     (Some (example_manifest [example_instance "a" "EGM-1" "" 0 0;
                              example_instance "./a" "EGM-2" "" 0 0])) "out" ∅ in
  map (λ g, (g.(gc_Path), g.(gc_Config).(cfg_EGMID), cfg_EGMID <$> (LoadConfig fs ∅ g.(gc_Path)).2))
    <$> generated
  = Ok [("out/a.json", "EGM-1", Ok "EGM-2"); ("out/a.json", "EGM-2", Ok "EGM-2")].
Proof. vm_compute. reflexivity. Qed.

(** ** Witnesses *)

Definition example_generated : gmap string file * result (list GeneratedConfig) :=
  GenerateConfigs (λ _, false) (Some (example_manifest two_instances)) "" ∅.

(** What the witnesses look at. *)
Definition launch_view (g : GeneratedConfig) : Z * string * string * string :=
  let e := g.(gc_Instance) in
  (e.(ef_EGMEndpoint).(ep_Port), e.(ef_G2SXML).(fx_Mode), e.(ef_StorageBackend), e.(ef_TrustMode)).

Lemma example_generated_view :
  map launch_view <$> example_generated.2
  = Ok [(19000%Z, "lab_legacy_xml", "noop", "plaintext_lab");
        (8090%Z, "lab_legacy_xml", "noop", "plaintext_lab")].
Proof. vm_compute. reflexivity. Qed.

Lemma GenerateConfigs_loadable_witness :
  ∃ gens gen, example_generated.2 = Ok gens ∧ gen ∈ gens ∧ launchable gen.(gc_Instance) ∧
    (LoadConfig example_generated.1 ∅ gen.(gc_Path)).2 = Ok (normalised gen.(gc_Config)).
Proof.
  pose proof example_generated_view as Hv. unfold example_generated in *.
  destruct (GenerateConfigs _ _ _ _) as [fs [gens|err]] eqn:Hg; [|discriminate].
  cbn [snd fmap result_fmap] in Hv. destruct gens as [|gen rest]; [discriminate|].
  cbn [map] in Hv. injection Hv as Hp Hm Hb Ht _.
  assert (Hl : launchable gen.(gc_Instance)).
  { split; [rewrite Hp; lia|rewrite Hm; left|rewrite Hb; left|left; exact Ht]. }
  exists (gen :: rest), gen. split; [done|]. split; [left|]. split; [done|].
  assert (Hplain : Forall plain_instance two_instances) by (by repeat constructor).
  exact (proj2 (GenerateConfigs_loadable (λ _, false) (example_manifest two_instances) "" ∅ fs
    (gen :: rest) gen ∅ (normalised gen.(gc_Config)) Hg Hplain (list_elem_of_here gen rest))
    (conj Hl eq_refl)).
Defined.

Lemma GenerateConfigs_sockets_witness :
  ∃ gens, example_generated.2 = Ok gens ∧ length gens = 2 ∧
    NoDup (map (λ g, (g.(gc_Config).(cfg_Listen).(li_Host), g.(gc_Config).(cfg_Listen).(li_Port))) gens).
Proof.
  pose proof example_generated_view as Hv. unfold example_generated in *.
  destruct (GenerateConfigs _ _ _ _) as [fs [gens|err]] eqn:Hg; [|discriminate].
  cbn [snd fmap result_fmap] in Hv. exists gens. split; [done|].
  split; [by rewrite <-(length_map launch_view); injection Hv as ->|].
  apply (GenerateConfigs_sockets _ _ _ _ _ _ Hg).
Defined.
