(* ===== verification/Pack.v ===== *)
(** * Message packs (src/pack)

    The data of pack/types.go with its JSON codecs, the validators of
    pack/validate.go, the overlay merge of pack/overlay.go, the summary of
    pack/summary.go and the parsers of pack/loader.go. *)

From S2P Require Import Prelude GoStrings Json Validate.

(** ** Data: pack/types.go *)

Record TransportConfig := mkTransport {
  tr_HTTPVersions : list string;
  tr_TLSModesSupported : list string;
  tr_ContentTypes : list string;
  tr_SOAPActionRequired : bool;
}.

Record EnvelopeConfig := mkEnvelope {
  env_Kind : string;
  env_SOAPNamespace : string;
  env_BodyXPathHint : string;
  env_HeaderXPathHint : string;
}.

Record PathsConfig := mkPaths {
  paths_DefaultListenerPath : string;
  paths_AlternateListenerPaths : list string;
}.

Record WireConfig := mkWire {
  wire_ProtocolFamily : string;
  wire_Transport : TransportConfig;
  wire_Envelope : EnvelopeConfig;
  wire_Paths : PathsConfig;
  wire_Namespaces : gmap string string;
}.

Record ControlPlaneConfig := mkControlPlane {
  cp_HotReloadableSections : list string;
  cp_MutableFields : list string;
  cp_RequiresAuditLog : bool;
}.

Record TimersConfig := mkTimers {
  RequestTimeoutMS : Z;
  HeartbeatIntervalMS : Z;
  HeartbeatTimeoutMS : Z;
  SessionIdleTimeoutMS : Z;
  ArtificialResponseDelayMS : Z;
}.

Record RegisteredHost := mkHost {
  host_HostID : string;
  host_DisplayName : string;
  host_URL : string;
  host_Role : string;
  host_AllowedClasses : list string;
  host_CertIdentity : string;
  host_Enabled : bool;
  host_Notes : string;
}.

Record StateDefaultsConfig := mkStateDefaults {
  sd_RegistrationMode : string;
  sd_SessionState : string;
  sd_HeartbeatState : string;
  sd_AllowedHostIDs : list string;
  sd_RegisteredHosts : list RegisteredHost;
}.

Record LoggingHintsConfig := mkLoggingHints {
  lh_CaptureRawXML : bool;
  lh_CaptureRenderedXML : bool;
  lh_ParsedFields : list string;
  lh_RedactFields : list string;
}.

Record MatchRule := mkMatchRule {
  mr_Kind : string;
  mr_Value : string;
  mr_Source : string;
}.

Record ExtractRule := mkExtractRule {
  er_Name : string;
  er_Source : string;
  er_Selector : string;
  er_Default : json;
}.

Record ResponseVariant := mkVariant {
  rv_VariantName : string;
  rv_Template : string;
  rv_When : list MatchRule;
  rv_SetState : gmap string json;
  rv_HTTPStatus : Z;
  rv_Headers : gmap string string;
  rv_DelayMS : Z;
}.

Record FaultPolicy := mkFaultPolicy {
  fp_DropRequestProbability : num;
  fp_CorruptResponseProbability : num;
  fp_ForceMalformedOnce : bool;
  fp_CloseConnectionAfterResponse : bool;
  fp_OverrideHTTPStatus : Z;
}.

Record Operation := mkOperation {
  op_Enabled : bool;
  op_Description : string;
  op_Direction : string;
  op_Match : list MatchRule;
  op_Preconditions : list string;
  op_Extract : list ExtractRule;
  op_Responses : list ResponseVariant;
  op_FaultPolicy : FaultPolicy;
  op_LogFields : list string;
}.

Record MessagePack := mkPack {
  mp_SchemaVersion : string;
  mp_PackName : string;
  mp_PackVersion : string;
  mp_Description : string;
  mp_Extends : string;
  mp_Tags : list string;
  mp_Wire : WireConfig;
  mp_ControlPlane : ControlPlaneConfig;
  mp_Timers : TimersConfig;
  mp_StateDefaults : StateDefaultsConfig;
  mp_LoggingHints : LoggingHintsConfig;
  mp_Operations : gmap string Operation;
}.

Record OverlayChange := mkChange {
  oc_Op : string;
  oc_Path : string;
  oc_Value : json;
}.

Record OverlayActivate := mkActivate {
  oa_ApplyImmediately : bool;
  oa_Scope : string;
  oa_TTLMS : Z;
}.

Record MessageOverlay := mkOverlay {
  ov_SchemaVersion : string;
  ov_OverlayName : string;
  ov_OverlayVersion : string;
  ov_TargetPack : string;
  ov_Description : string;
  ov_Changes : list OverlayChange;
  ov_Activate : OverlayActivate;
}.

(** ** JSON codecs, one per struct: tags and [omitempty] as declared *)

Definition enc_Transport (t : TransportConfig) : json := JObj (entries [
  req "http_versions" t.(tr_HTTPVersions);
  req "tls_modes_supported" t.(tr_TLSModesSupported);
  req "content_types" t.(tr_ContentTypes);
  opt "soap_action_required" t.(tr_SOAPActionRequired)]).
Definition dec_Transport : decoder TransportConfig := dec_struct (λ kvs old,
  a ← dec_key "http_versions" dec kvs old.(tr_HTTPVersions);
  b ← dec_key "tls_modes_supported" dec kvs old.(tr_TLSModesSupported);
  c ← dec_key "content_types" dec kvs old.(tr_ContentTypes);
  d ← dec_key "soap_action_required" dec kvs old.(tr_SOAPActionRequired);
  Some (mkTransport a b c d)).
#[export] Program Instance codec_Transport : Codec TransportConfig := {|
  enc := enc_Transport; dec := dec_Transport;
  zero := mkTransport zero zero zero zero; is_empty _ := false;
  safe _ _ := True |}.
Next Obligation. done. Qed.
Next Obligation. intros T r [] HT H; cbv beta in H. solve_struct_codec. Qed.

Definition enc_Envelope (x : EnvelopeConfig) : json := JObj (entries [
  req "kind" x.(env_Kind);
  opt "soap_namespace" x.(env_SOAPNamespace);
  opt "body_xpath_hint" x.(env_BodyXPathHint);
  opt "header_xpath_hint" x.(env_HeaderXPathHint)]).
Definition dec_Envelope : decoder EnvelopeConfig := dec_struct (λ kvs old,
  v0 ← dec_key "kind" dec kvs old.(env_Kind);
  v1 ← dec_key "soap_namespace" dec kvs old.(env_SOAPNamespace);
  v2 ← dec_key "body_xpath_hint" dec kvs old.(env_BodyXPathHint);
  v3 ← dec_key "header_xpath_hint" dec kvs old.(env_HeaderXPathHint);
  Some (mkEnvelope v0 v1 v2 v3)).
#[export] Program Instance codec_Envelope : Codec EnvelopeConfig := {|
  enc := enc_Envelope; dec := dec_Envelope;
  zero := mkEnvelope zero zero zero zero; is_empty _ := false;
  safe r x := True |}.
Next Obligation. done. Qed.
Next Obligation. intros T r [] HT H; cbv beta in H. destruct_and?. solve_struct_codec. Qed.

Definition enc_Paths (x : PathsConfig) : json := JObj (entries [
  req "default_listener_path" x.(paths_DefaultListenerPath);
  opt "alternate_listener_paths" x.(paths_AlternateListenerPaths)]).
Definition dec_Paths : decoder PathsConfig := dec_struct (λ kvs old,
  v0 ← dec_key "default_listener_path" dec kvs old.(paths_DefaultListenerPath);
  v1 ← dec_key "alternate_listener_paths" dec kvs old.(paths_AlternateListenerPaths);
  Some (mkPaths v0 v1)).
#[export] Program Instance codec_Paths : Codec PathsConfig := {|
  enc := enc_Paths; dec := dec_Paths;
  zero := mkPaths zero zero; is_empty _ := false;
  safe r x := True |}.
Next Obligation. done. Qed.
Next Obligation. intros T r [] HT H; cbv beta in H. destruct_and?. solve_struct_codec. Qed.

Definition enc_Wire (x : WireConfig) : json := JObj (entries [
  req "protocol_family" x.(wire_ProtocolFamily);
  req "transport" x.(wire_Transport);
  req "envelope" x.(wire_Envelope);
  req "paths" x.(wire_Paths);
  req "namespaces" x.(wire_Namespaces)]).
Definition dec_Wire : decoder WireConfig := dec_struct (λ kvs old,
  v0 ← dec_key "protocol_family" dec kvs old.(wire_ProtocolFamily);
  v1 ← dec_key "transport" dec kvs old.(wire_Transport);
  v2 ← dec_key "envelope" dec kvs old.(wire_Envelope);
  v3 ← dec_key "paths" dec kvs old.(wire_Paths);
  v4 ← dec_key "namespaces" dec kvs old.(wire_Namespaces);
  Some (mkWire v0 v1 v2 v3 v4)).
#[export] Program Instance codec_Wire : Codec WireConfig := {|
  enc := enc_Wire; dec := dec_Wire;
  zero := mkWire zero zero zero zero zero; is_empty _ := false;
  safe r x := safe r x.(wire_Transport) ∧ safe r x.(wire_Envelope) ∧ safe r x.(wire_Paths) ∧ safe r x.(wire_Namespaces) |}.
Next Obligation. done. Qed.
Next Obligation. intros T r [] HT H; cbv beta in H. destruct_and?. solve_struct_codec. Qed.

Definition enc_ControlPlane (x : ControlPlaneConfig) : json := JObj (entries [
  req "hot_reloadable_sections" x.(cp_HotReloadableSections);
  req "mutable_fields" x.(cp_MutableFields);
  opt "requires_audit_log" x.(cp_RequiresAuditLog)]).
Definition dec_ControlPlane : decoder ControlPlaneConfig := dec_struct (λ kvs old,
  v0 ← dec_key "hot_reloadable_sections" dec kvs old.(cp_HotReloadableSections);
  v1 ← dec_key "mutable_fields" dec kvs old.(cp_MutableFields);
  v2 ← dec_key "requires_audit_log" dec kvs old.(cp_RequiresAuditLog);
  Some (mkControlPlane v0 v1 v2)).
#[export] Program Instance codec_ControlPlane : Codec ControlPlaneConfig := {|
  enc := enc_ControlPlane; dec := dec_ControlPlane;
  zero := mkControlPlane zero zero zero; is_empty _ := false;
  safe r x := True |}.
Next Obligation. done. Qed.
Next Obligation. intros T r [] HT H; cbv beta in H. destruct_and?. solve_struct_codec. Qed.

Definition enc_Timers (x : TimersConfig) : json := JObj (entries [
  req "request_timeout_ms" x.(RequestTimeoutMS);
  req "heartbeat_interval_ms" x.(HeartbeatIntervalMS);
  req "heartbeat_timeout_ms" x.(HeartbeatTimeoutMS);
  opt "session_idle_timeout_ms" x.(SessionIdleTimeoutMS);
  opt "artificial_response_delay_ms" x.(ArtificialResponseDelayMS)]).
Definition dec_Timers : decoder TimersConfig := dec_struct (λ kvs old,
  v0 ← dec_key "request_timeout_ms" dec kvs old.(RequestTimeoutMS);
  v1 ← dec_key "heartbeat_interval_ms" dec kvs old.(HeartbeatIntervalMS);
  v2 ← dec_key "heartbeat_timeout_ms" dec kvs old.(HeartbeatTimeoutMS);
  v3 ← dec_key "session_idle_timeout_ms" dec kvs old.(SessionIdleTimeoutMS);
  v4 ← dec_key "artificial_response_delay_ms" dec kvs old.(ArtificialResponseDelayMS);
  Some (mkTimers v0 v1 v2 v3 v4)).
#[export] Program Instance codec_Timers : Codec TimersConfig := {|
  enc := enc_Timers; dec := dec_Timers;
  zero := mkTimers zero zero zero zero zero; is_empty _ := false;
  safe r x := safe r x.(RequestTimeoutMS) ∧ safe r x.(HeartbeatIntervalMS) ∧ safe r x.(HeartbeatTimeoutMS) ∧ safe r x.(SessionIdleTimeoutMS) ∧ safe r x.(ArtificialResponseDelayMS) |}.
Next Obligation. done. Qed.
Next Obligation. intros T r [] HT H; cbv beta in H. destruct_and?. solve_struct_codec. Qed.

Definition enc_RegisteredHost (x : RegisteredHost) : json := JObj (entries [
  req "host_id" x.(host_HostID);
  opt "display_name" x.(host_DisplayName);
  opt "url" x.(host_URL);
  opt "role" x.(host_Role);
  opt "allowed_classes" x.(host_AllowedClasses);
  opt "cert_identity" x.(host_CertIdentity);
  req "enabled" x.(host_Enabled);
  opt "notes" x.(host_Notes)]).
Definition dec_RegisteredHost : decoder RegisteredHost := dec_struct (λ kvs old,
  v0 ← dec_key "host_id" dec kvs old.(host_HostID);
  v1 ← dec_key "display_name" dec kvs old.(host_DisplayName);
  v2 ← dec_key "url" dec kvs old.(host_URL);
  v3 ← dec_key "role" dec kvs old.(host_Role);
  v4 ← dec_key "allowed_classes" dec kvs old.(host_AllowedClasses);
  v5 ← dec_key "cert_identity" dec kvs old.(host_CertIdentity);
  v6 ← dec_key "enabled" dec kvs old.(host_Enabled);
  v7 ← dec_key "notes" dec kvs old.(host_Notes);
  Some (mkHost v0 v1 v2 v3 v4 v5 v6 v7)).
#[export] Program Instance codec_RegisteredHost : Codec RegisteredHost := {|
  enc := enc_RegisteredHost; dec := dec_RegisteredHost;
  zero := mkHost zero zero zero zero zero zero zero zero; is_empty _ := false;
  safe r x := True |}.
Next Obligation. done. Qed.
Next Obligation. intros T r [] HT H; cbv beta in H. destruct_and?. solve_struct_codec. Qed.

Definition enc_StateDefaults (x : StateDefaultsConfig) : json := JObj (entries [
  req "registration_mode" x.(sd_RegistrationMode);
  req "session_state" x.(sd_SessionState);
  req "heartbeat_state" x.(sd_HeartbeatState);
  opt "allowed_host_ids" x.(sd_AllowedHostIDs);
  opt "registered_hosts" x.(sd_RegisteredHosts)]).
Definition dec_StateDefaults : decoder StateDefaultsConfig := dec_struct (λ kvs old,
  v0 ← dec_key "registration_mode" dec kvs old.(sd_RegistrationMode);
  v1 ← dec_key "session_state" dec kvs old.(sd_SessionState);
  v2 ← dec_key "heartbeat_state" dec kvs old.(sd_HeartbeatState);
  v3 ← dec_key "allowed_host_ids" dec kvs old.(sd_AllowedHostIDs);
  v4 ← dec_key "registered_hosts" dec kvs old.(sd_RegisteredHosts);
  Some (mkStateDefaults v0 v1 v2 v3 v4)).
#[export] Program Instance codec_StateDefaults : Codec StateDefaultsConfig := {|
  enc := enc_StateDefaults; dec := dec_StateDefaults;
  zero := mkStateDefaults zero zero zero zero zero; is_empty _ := false;
  safe r x := safe r x.(sd_RegisteredHosts) |}.
Next Obligation. done. Qed.
Next Obligation. intros T r [] HT H; cbv beta in H. destruct_and?. solve_struct_codec. Qed.

Definition enc_LoggingHints (x : LoggingHintsConfig) : json := JObj (entries [
  opt "capture_raw_xml" x.(lh_CaptureRawXML);
  opt "capture_rendered_xml" x.(lh_CaptureRenderedXML);
  opt "parsed_fields" x.(lh_ParsedFields);
  opt "redact_fields" x.(lh_RedactFields)]).
Definition dec_LoggingHints : decoder LoggingHintsConfig := dec_struct (λ kvs old,
  v0 ← dec_key "capture_raw_xml" dec kvs old.(lh_CaptureRawXML);
  v1 ← dec_key "capture_rendered_xml" dec kvs old.(lh_CaptureRenderedXML);
  v2 ← dec_key "parsed_fields" dec kvs old.(lh_ParsedFields);
  v3 ← dec_key "redact_fields" dec kvs old.(lh_RedactFields);
  Some (mkLoggingHints v0 v1 v2 v3)).
#[export] Program Instance codec_LoggingHints : Codec LoggingHintsConfig := {|
  enc := enc_LoggingHints; dec := dec_LoggingHints;
  zero := mkLoggingHints zero zero zero zero; is_empty _ := false;
  safe r x := True |}.
Next Obligation. done. Qed.
Next Obligation. intros T r [] HT H; cbv beta in H. destruct_and?. solve_struct_codec. Qed.

Definition enc_MatchRule (x : MatchRule) : json := JObj (entries [
  req "kind" x.(mr_Kind);
  req "value" x.(mr_Value);
  opt "source" x.(mr_Source)]).
Definition dec_MatchRule : decoder MatchRule := dec_struct (λ kvs old,
  v0 ← dec_key "kind" dec kvs old.(mr_Kind);
  v1 ← dec_key "value" dec kvs old.(mr_Value);
  v2 ← dec_key "source" dec kvs old.(mr_Source);
  Some (mkMatchRule v0 v1 v2)).
#[export] Program Instance codec_MatchRule : Codec MatchRule := {|
  enc := enc_MatchRule; dec := dec_MatchRule;
  zero := mkMatchRule zero zero zero; is_empty _ := false;
  safe r x := True |}.
Next Obligation. done. Qed.
Next Obligation. intros T r [] HT H; cbv beta in H. destruct_and?. solve_struct_codec. Qed.

Definition enc_ExtractRule (x : ExtractRule) : json := JObj (entries [
  req "name" x.(er_Name);
  req "source" x.(er_Source);
  req "selector" x.(er_Selector);
  opt "default" x.(er_Default)]).
Definition dec_ExtractRule : decoder ExtractRule := dec_struct (λ kvs old,
  v0 ← dec_key "name" dec kvs old.(er_Name);
  v1 ← dec_key "source" dec kvs old.(er_Source);
  v2 ← dec_key "selector" dec kvs old.(er_Selector);
  v3 ← dec_key "default" dec kvs old.(er_Default);
  Some (mkExtractRule v0 v1 v2 v3)).
#[export] Program Instance codec_ExtractRule : Codec ExtractRule := {|
  enc := enc_ExtractRule; dec := dec_ExtractRule;
  zero := mkExtractRule zero zero zero zero; is_empty _ := false;
  safe r x := safe r x.(er_Default) |}.
Next Obligation. done. Qed.
Next Obligation. intros T r [] HT H; cbv beta in H. destruct_and?. solve_struct_codec. Qed.

Definition enc_Variant (x : ResponseVariant) : json := JObj (entries [
  req "variant_name" x.(rv_VariantName);
  req "template" x.(rv_Template);
  opt "when" x.(rv_When);
  opt "set_state" x.(rv_SetState);
  opt "http_status" x.(rv_HTTPStatus);
  opt "headers" x.(rv_Headers);
  opt "delay_ms" x.(rv_DelayMS)]).
Definition dec_Variant : decoder ResponseVariant := dec_struct (λ kvs old,
  v0 ← dec_key "variant_name" dec kvs old.(rv_VariantName);
  v1 ← dec_key "template" dec kvs old.(rv_Template);
  v2 ← dec_key "when" dec kvs old.(rv_When);
  v3 ← dec_key "set_state" dec kvs old.(rv_SetState);
  v4 ← dec_key "http_status" dec kvs old.(rv_HTTPStatus);
  v5 ← dec_key "headers" dec kvs old.(rv_Headers);
  v6 ← dec_key "delay_ms" dec kvs old.(rv_DelayMS);
  Some (mkVariant v0 v1 v2 v3 v4 v5 v6)).
#[export] Program Instance codec_Variant : Codec ResponseVariant := {|
  enc := enc_Variant; dec := dec_Variant;
  zero := mkVariant zero zero zero zero zero zero zero; is_empty _ := false;
  safe r x := safe r x.(rv_When) ∧ safe r x.(rv_SetState) ∧ safe r x.(rv_HTTPStatus) ∧ safe r x.(rv_Headers) ∧ safe r x.(rv_DelayMS) |}.
Next Obligation. done. Qed.
Next Obligation. intros T r [] HT H; cbv beta in H. destruct_and?. solve_struct_codec. Qed.

Definition enc_FaultPolicy (x : FaultPolicy) : json := JObj (entries [
  opt "drop_request_probability" x.(fp_DropRequestProbability);
  opt "corrupt_response_probability" x.(fp_CorruptResponseProbability);
  opt "force_malformed_once" x.(fp_ForceMalformedOnce);
  opt "close_connection_after_response" x.(fp_CloseConnectionAfterResponse);
  opt "override_http_status" x.(fp_OverrideHTTPStatus)]).
Definition dec_FaultPolicy : decoder FaultPolicy := dec_struct (λ kvs old,
  v0 ← dec_key "drop_request_probability" dec kvs old.(fp_DropRequestProbability);
  v1 ← dec_key "corrupt_response_probability" dec kvs old.(fp_CorruptResponseProbability);
  v2 ← dec_key "force_malformed_once" dec kvs old.(fp_ForceMalformedOnce);
  v3 ← dec_key "close_connection_after_response" dec kvs old.(fp_CloseConnectionAfterResponse);
  v4 ← dec_key "override_http_status" dec kvs old.(fp_OverrideHTTPStatus);
  Some (mkFaultPolicy v0 v1 v2 v3 v4)).
#[export] Program Instance codec_FaultPolicy : Codec FaultPolicy := {|
  enc := enc_FaultPolicy; dec := dec_FaultPolicy;
  zero := mkFaultPolicy zero zero zero zero zero; is_empty _ := false;
  safe r x := safe r x.(fp_DropRequestProbability) ∧ safe r x.(fp_CorruptResponseProbability) ∧ safe r x.(fp_OverrideHTTPStatus) |}.
Next Obligation. done. Qed.
Next Obligation. intros T r [] HT H; cbv beta in H. destruct_and?. solve_struct_codec. Qed.

Definition enc_Operation (x : Operation) : json := JObj (entries [
  req "enabled" x.(op_Enabled);
  opt "description" x.(op_Description);
  req "direction" x.(op_Direction);
  req "match" x.(op_Match);
  opt "preconditions" x.(op_Preconditions);
  req "extract" x.(op_Extract);
  req "responses" x.(op_Responses);
  opt "fault_policy" x.(op_FaultPolicy);
  opt "log_fields" x.(op_LogFields)]).
Definition dec_Operation : decoder Operation := dec_struct (λ kvs old,
  v0 ← dec_key "enabled" dec kvs old.(op_Enabled);
  v1 ← dec_key "description" dec kvs old.(op_Description);
  v2 ← dec_key "direction" dec kvs old.(op_Direction);
  v3 ← dec_key "match" dec kvs old.(op_Match);
  v4 ← dec_key "preconditions" dec kvs old.(op_Preconditions);
  v5 ← dec_key "extract" dec kvs old.(op_Extract);
  v6 ← dec_key "responses" dec kvs old.(op_Responses);
  v7 ← dec_key "fault_policy" dec kvs old.(op_FaultPolicy);
  v8 ← dec_key "log_fields" dec kvs old.(op_LogFields);
  Some (mkOperation v0 v1 v2 v3 v4 v5 v6 v7 v8)).
#[export] Program Instance codec_Operation : Codec Operation := {|
  enc := enc_Operation; dec := dec_Operation;
  zero := mkOperation zero zero zero zero zero zero zero zero zero; is_empty _ := false;
  safe r x := safe r x.(op_Match) ∧ safe r x.(op_Extract) ∧ safe r x.(op_Responses) ∧ safe r x.(op_FaultPolicy) |}.
Next Obligation. done. Qed.
Next Obligation. intros T r [] HT H; cbv beta in H. destruct_and?. solve_struct_codec. Qed.

Definition enc_MessagePack (x : MessagePack) : json := JObj (entries [
  req "schema_version" x.(mp_SchemaVersion);
  req "pack_name" x.(mp_PackName);
  req "pack_version" x.(mp_PackVersion);
  opt "description" x.(mp_Description);
  opt "extends" x.(mp_Extends);
  opt "tags" x.(mp_Tags);
  req "wire" x.(mp_Wire);
  req "control_plane" x.(mp_ControlPlane);
  req "timers" x.(mp_Timers);
  req "state_defaults" x.(mp_StateDefaults);
  opt "logging_hints" x.(mp_LoggingHints);
  req "operations" x.(mp_Operations)]).
Definition dec_MessagePack : decoder MessagePack := dec_struct (λ kvs old,
  v0 ← dec_key "schema_version" dec kvs old.(mp_SchemaVersion);
  v1 ← dec_key "pack_name" dec kvs old.(mp_PackName);
  v2 ← dec_key "pack_version" dec kvs old.(mp_PackVersion);
  v3 ← dec_key "description" dec kvs old.(mp_Description);
  v4 ← dec_key "extends" dec kvs old.(mp_Extends);
  v5 ← dec_key "tags" dec kvs old.(mp_Tags);
  v6 ← dec_key "wire" dec kvs old.(mp_Wire);
  v7 ← dec_key "control_plane" dec kvs old.(mp_ControlPlane);
  v8 ← dec_key "timers" dec kvs old.(mp_Timers);
  v9 ← dec_key "state_defaults" dec kvs old.(mp_StateDefaults);
  v10 ← dec_key "logging_hints" dec kvs old.(mp_LoggingHints);
  v11 ← dec_key "operations" dec kvs old.(mp_Operations);
  Some (mkPack v0 v1 v2 v3 v4 v5 v6 v7 v8 v9 v10 v11)).
#[export] Program Instance codec_MessagePack : Codec MessagePack := {|
  enc := enc_MessagePack; dec := dec_MessagePack;
  zero := mkPack zero zero zero zero zero zero zero zero zero zero zero zero; is_empty _ := false;
  safe r x := safe r x.(mp_Wire) ∧ safe r x.(mp_ControlPlane) ∧ safe r x.(mp_Timers) ∧ safe r x.(mp_StateDefaults) ∧ safe r x.(mp_LoggingHints) ∧ safe r x.(mp_Operations) |}.
Next Obligation. done. Qed.
Next Obligation. intros T r [] HT H; cbv beta in H. destruct_and?. solve_struct_codec. Qed.

Definition enc_Change (x : OverlayChange) : json := JObj (entries [
  req "op" x.(oc_Op);
  req "path" x.(oc_Path);
  opt "value" x.(oc_Value)]).
Definition dec_Change : decoder OverlayChange := dec_struct (λ kvs old,
  v0 ← dec_key "op" dec kvs old.(oc_Op);
  v1 ← dec_key "path" dec kvs old.(oc_Path);
  v2 ← dec_key "value" dec kvs old.(oc_Value);
  Some (mkChange v0 v1 v2)).
#[export] Program Instance codec_Change : Codec OverlayChange := {|
  enc := enc_Change; dec := dec_Change;
  zero := mkChange zero zero zero; is_empty _ := false;
  safe r x := safe r x.(oc_Value) |}.
Next Obligation. done. Qed.
Next Obligation. intros T r [] HT H; cbv beta in H. destruct_and?. solve_struct_codec. Qed.

Definition enc_Activate (x : OverlayActivate) : json := JObj (entries [
  opt "apply_immediately" x.(oa_ApplyImmediately);
  opt "scope" x.(oa_Scope);
  opt "ttl_ms" x.(oa_TTLMS)]).
Definition dec_Activate : decoder OverlayActivate := dec_struct (λ kvs old,
  v0 ← dec_key "apply_immediately" dec kvs old.(oa_ApplyImmediately);
  v1 ← dec_key "scope" dec kvs old.(oa_Scope);
  v2 ← dec_key "ttl_ms" dec kvs old.(oa_TTLMS);
  Some (mkActivate v0 v1 v2)).
#[export] Program Instance codec_Activate : Codec OverlayActivate := {|
  enc := enc_Activate; dec := dec_Activate;
  zero := mkActivate zero zero zero; is_empty _ := false;
  safe r x := safe r x.(oa_TTLMS) |}.
Next Obligation. done. Qed.
Next Obligation. intros T r [] HT H; cbv beta in H. destruct_and?. solve_struct_codec. Qed.

Definition enc_Overlay (x : MessageOverlay) : json := JObj (entries [
  req "schema_version" x.(ov_SchemaVersion);
  req "overlay_name" x.(ov_OverlayName);
  opt "overlay_version" x.(ov_OverlayVersion);
  req "target_pack" x.(ov_TargetPack);
  opt "description" x.(ov_Description);
  req "changes" x.(ov_Changes);
  opt "activate" x.(ov_Activate)]).
Definition dec_Overlay : decoder MessageOverlay := dec_struct (λ kvs old,
  v0 ← dec_key "schema_version" dec kvs old.(ov_SchemaVersion);
  v1 ← dec_key "overlay_name" dec kvs old.(ov_OverlayName);
  v2 ← dec_key "overlay_version" dec kvs old.(ov_OverlayVersion);
  v3 ← dec_key "target_pack" dec kvs old.(ov_TargetPack);
  v4 ← dec_key "description" dec kvs old.(ov_Description);
  v5 ← dec_key "changes" dec kvs old.(ov_Changes);
  v6 ← dec_key "activate" dec kvs old.(ov_Activate);
  Some (mkOverlay v0 v1 v2 v3 v4 v5 v6)).
#[export] Program Instance codec_Overlay : Codec MessageOverlay := {|
  enc := enc_Overlay; dec := dec_Overlay;
  zero := mkOverlay zero zero zero zero zero zero zero; is_empty _ := false;
  safe r x := safe r x.(ov_Changes) ∧ safe r x.(ov_Activate) |}.
Next Obligation. done. Qed.
Next Obligation. intros T r [] HT H; cbv beta in H. destruct_and?. solve_struct_codec. Qed.

(** ** Validation: pack/validate.go *)

Definition MessagePackSchemaVersion : string := "vegm.message-pack/v1".
Definition MessageOverlaySchemaVersion : string := "vegm.message-overlay/v1".

(** [setOf]: a [map[string]bool]; a missing key reads as [false]. *)
Definition setOf (values : list string) : gmap string bool :=
  foldl (λ m v, <[v := true]> m) ∅ values.
Definition allowed (m : gmap string bool) (k : string) : bool := default false (m !! k).

Definition allowedProtocolFamilies := setOf ["g2s"].
Definition allowedTransportKinds := setOf ["soap-http"].
Definition allowedDirections := setOf ["inbound"; "outbound"; "bidirectional"].
Definition allowedMatchKinds :=
  setOf ["message_type"; "path"; "namespace"; "field_equals"; "always"].
Definition allowedRegistrationMode :=
  setOf ["open"; "strict_match"; "deny_all"; "simulate_vendor_quirk"].
Definition allowedSessionState := setOf ["idle"; "online"; "closed"; "degraded"].
Definition allowedHeartbeatState := setOf ["idle"; "healthy"; "degraded"; "timeout"].
Definition allowedTLSModes :=
  setOf ["plaintext_lab"; "tls_server_only"; "strict_mtls"; "mtls_no_revocation"; "accept_all_lab"].
Definition allowedOverlayOps := setOf ["set"; "merge"; "remove"; "append"].
Definition allowedOverlayScopes := setOf ["instance"; "fleet"; "session"; ""].

(** [seen[v]++] over the values *)
Definition count_seen (values : list string) : gmap string nat :=
  foldl (λ m v, <[v := S (default 0 (m !! v))]> m) ∅ values.

(** [duplicates], with the order in which the loop over the map visits it *)
Definition duplicates_in (seen : list (string * nat)) : list string :=
  sort_strings (map fst (List.filter (λ vn, 1 <? vn.2) seen)).
Definition duplicates (values : list string) : list string :=
  duplicates_in (map_to_list (count_seen values)).

Definition match_errors (name : string) (ms : list MatchRule) : list string :=
  concat (imap (λ i m, err_if (negb (allowed allowedMatchKinds m.(mr_Kind)))
    ("operations." +:+ name +:+ ".match[" +:+ itoa_nat i +:+ "].kind "
      +:+ quote m.(mr_Kind) +:+ " is invalid")) ms).

Definition operation_errors (name : string) (op : Operation) : list string :=
  if blank name then ["operations contains empty key"]
  else if negb op.(op_Enabled) then []
  else
    err_if (negb (allowed allowedDirections op.(op_Direction)))
      ("operations." +:+ name +:+ ".direction " +:+ quote op.(op_Direction) +:+ " is invalid") ++
    err_if (bool_decide (length op.(op_Match) = 0))
      ("operations." +:+ name +:+ ".match must not be empty") ++
    err_if (bool_decide (length op.(op_Responses) = 0))
      ("operations." +:+ name +:+ ".responses must not be empty") ++
    match_errors name op.(op_Match).

(** The errors [ValidatePack] collects before the loop over the operations. *)
Definition pack_header_errors (p : MessagePack) : list string :=
  let wire := p.(mp_Wire) in
  let sd := p.(mp_StateDefaults) in
  let modes := wire.(wire_Transport).(tr_TLSModesSupported) in
  err_if (negb (bool_decide (p.(mp_SchemaVersion) = MessagePackSchemaVersion)))
    ("schema_version must be " +:+ quote MessagePackSchemaVersion) ++
  err_if (blank p.(mp_PackName)) "pack_name is required" ++
  err_if (blank p.(mp_PackVersion)) "pack_version is required" ++
  err_if (negb (allowed allowedProtocolFamilies wire.(wire_ProtocolFamily)))
    ("wire.protocol_family " +:+ quote wire.(wire_ProtocolFamily) +:+ " is invalid") ++
  err_if (negb (allowed allowedTransportKinds wire.(wire_Envelope).(env_Kind)))
    ("wire.envelope.kind " +:+ quote wire.(wire_Envelope).(env_Kind) +:+ " is invalid") ++
  err_if (blank wire.(wire_Paths).(paths_DefaultListenerPath))
    "wire.paths.default_listener_path is required" ++
  concat (map (λ mode, err_if (negb (allowed allowedTLSModes mode))
    ("wire.transport.tls_modes_supported contains invalid mode " +:+ quote mode)) modes) ++
  map (λ dup, "wire.transport.tls_modes_supported contains duplicate " +:+ quote dup)
    (duplicates modes) ++
  err_if (negb (allowed allowedRegistrationMode sd.(sd_RegistrationMode)))
    ("state_defaults.registration_mode " +:+ quote sd.(sd_RegistrationMode) +:+ " is invalid") ++
  err_if (negb (allowed allowedSessionState sd.(sd_SessionState)))
    ("state_defaults.session_state " +:+ quote sd.(sd_SessionState) +:+ " is invalid") ++
  err_if (negb (allowed allowedHeartbeatState sd.(sd_HeartbeatState)))
    ("state_defaults.heartbeat_state " +:+ quote sd.(sd_HeartbeatState) +:+ " is invalid") ++
  err_if (bool_decide (size p.(mp_Operations) = 0)) "operations must not be empty".

(** [ValidatePack] when the loop over [p.Operations] visits them in the order
    [ops]; Go leaves that order unspecified. *)
Definition ValidatePack_in (ops : list (string * Operation)) (p : MessagePack) : result unit :=
  finish "pack validation failed:"
    (pack_header_errors p ++ concat (map (λ no, operation_errors no.1 no.2) ops)).

Definition ValidatePack (p : option MessagePack) : result unit :=
  match p with
  | None => Err "pack is nil"
  | Some p => ValidatePack_in (map_to_list p.(mp_Operations)) p
  end.

Definition change_errors (i : nat) (c : OverlayChange) : list string :=
  let at_i := "changes[" +:+ itoa_nat i +:+ "]." in
  err_if (negb (allowed allowedOverlayOps c.(oc_Op)))
    (at_i +:+ "op " +:+ quote c.(oc_Op) +:+ " is invalid") ++
  err_if (negb (has_prefix "/" c.(oc_Path))) (at_i +:+ "path must start with /") ++
  err_if (negb (bool_decide (c.(oc_Op) = "remove")) && any_empty c.(oc_Value))
    (at_i +:+ "value is required for op " +:+ quote c.(oc_Op)).

Definition ValidateOverlay (o : option MessageOverlay) : result unit :=
  match o with
  | None => Err "overlay is nil"
  | Some o =>
      finish "overlay validation failed:" (
        err_if (negb (bool_decide (o.(ov_SchemaVersion) = MessageOverlaySchemaVersion)))
          ("schema_version must be " +:+ quote MessageOverlaySchemaVersion) ++
        err_if (blank o.(ov_OverlayName)) "overlay_name is required" ++
        err_if (blank o.(ov_TargetPack)) "target_pack is required" ++
        err_if (bool_decide (length o.(ov_Changes) = 0)) "changes must not be empty" ++
        concat (imap change_errors o.(ov_Changes)) ++
        err_if (negb (allowed allowedOverlayScopes o.(ov_Activate).(oa_Scope)))
          ("activate.scope " +:+ quote o.(ov_Activate).(oa_Scope) +:+ " is invalid") ++
        err_if (o.(ov_Activate).(oa_TTLMS) <? 0)%Z "activate.ttl_ms must be >= 0")
  end.

(** ** Loading: pack/loader.go *)

(** [ParsePack] on the tree of its input; the text of a decoding error is not
    modelled. *)
Definition ParsePack (data : json) : result MessagePack :=
  match dec data zero with
  | None => Err "decode pack json"
  | Some p => _ ← ValidatePack (Some p); Ok p
  end.

Definition ParseOverlay (data : json) : result MessageOverlay :=
  match dec data zero with
  | None => Err "decode overlay json"
  | Some o => _ ← ValidateOverlay (Some o); Ok o
  end.

Definition LoadPack (fs : gmap string file) (path : string) : result MessagePack :=
  match fs !! path with
  | None => Err ("read pack " +:+ quote path)
  | Some OtherFile => Err "decode pack json"
  | Some (JsonFile j) => ParsePack j
  end.

Definition LoadOverlay (fs : gmap string file) (path : string) : result MessageOverlay :=
  match fs !! path with
  | None => Err ("read overlay " +:+ quote path)
  | Some OtherFile => Err "decode overlay json"
  | Some (JsonFile j) => ParseOverlay j
  end.

(** ** Overlays: pack/overlay.go *)

(** [if generic[top] == nil { generic[top] = map[string]any{} };
     if m, ok := generic[top].(map[string]any); ok { m[key] = value }] *)
Definition set_nested (generic : gmap string json) (top key : string) (value : json)
    : gmap string json :=
  let generic := match generic !! top with
                 | None | Some JNull => <[top := JObj []]> generic
                 | Some _ => generic
                 end in
  match generic !! top with
  | Some (JObj kvs) => <[top := JObj (map_to_obj (<[key := value]> (obj_to_map kvs)))]> generic
  | _ => generic
  end.

Definition delay_path : string := "/timers/artificial_response_delay_ms".
Definition mode_path : string := "/state_defaults/registration_mode".

(** The body of the loop over [overlay.Changes] *)
Definition apply_change (generic : gmap string json) (c : OverlayChange) : gmap string json :=
  let generic :=
    if bool_decide (c.(oc_Path) = delay_path) && bool_decide (c.(oc_Op) = "set")
    then set_nested generic "timers" "artificial_response_delay_ms" c.(oc_Value)
    else generic in
  if bool_decide (c.(oc_Path) = mode_path) && bool_decide (c.(oc_Op) = "set")
  then set_nested generic "state_defaults" "registration_mode" c.(oc_Value)
  else generic.

Definition ApplyOverlay (base : option MessagePack) (overlay : option MessageOverlay)
    : result MessagePack :=
  match base, overlay with
  | None, _ => Err "base pack is nil"
  | Some _, None => Err "overlay is nil"
  | Some b, Some o =>
      _ ← wrap_err "base pack invalid" (ValidatePack base);
      _ ← ValidateOverlay overlay;
      if negb (bool_decide (o.(ov_TargetPack) = b.(mp_PackName)))
      then Err ("overlay target_pack " +:+ quote o.(ov_TargetPack)
                +:+ " does not match base pack " +:+ quote b.(mp_PackName))
      else
        match dec (A := gmap string json) (enc b) zero with
        | None => Err "decode base pack"
        | Some generic => ParsePack (enc (foldl apply_change generic o.(ov_Changes)))
        end
  end.

(** ** Summary: pack/summary.go *)

Record Summary := mkSummary {
  sum_PackName : string;
  sum_PackVersion : string;
  sum_ProtocolFamily : string;
  sum_DefaultListenerPath : string;
  sum_Namespaces : list string;
  sum_Operations : list string;
  sum_TLSModes : list string;
  sum_AllowedHostIDs : list string;
  sum_RegisteredHostIDs : list string;
}.

Definition MessagePack_Summary (p : MessagePack) : Summary := {|
  sum_PackName := p.(mp_PackName);
  sum_PackVersion := p.(mp_PackVersion);
  sum_ProtocolFamily := p.(mp_Wire).(wire_ProtocolFamily);
  sum_DefaultListenerPath := p.(mp_Wire).(wire_Paths).(paths_DefaultListenerPath);
  sum_Namespaces := sort_strings (map_to_list p.(mp_Wire).(wire_Namespaces)).*1;
  sum_Operations := sort_strings (map_to_list p.(mp_Operations)).*1;
  sum_TLSModes := sort_strings p.(mp_Wire).(wire_Transport).(tr_TLSModesSupported);
  sum_AllowedHostIDs := sort_strings p.(mp_StateDefaults).(sd_AllowedHostIDs);
  sum_RegisteredHostIDs := sort_strings (map host_HostID p.(mp_StateDefaults).(sd_RegisteredHosts));
|}.

(** ** Specification of overlays *)

(** The value the last matching [set] of a list of changes leaves, if any. *)
Definition last_set (path : string) (changes : list OverlayChange) : option json :=
  foldl (λ acc c, if bool_decide (c.(oc_Path) = path) && bool_decide (c.(oc_Op) = "set")
                  then Some c.(oc_Value) else acc) None changes.

Definition with_delay (d : Z) (t : TimersConfig) : TimersConfig :=
  mkTimers t.(RequestTimeoutMS) t.(HeartbeatIntervalMS) t.(HeartbeatTimeoutMS)
    t.(SessionIdleTimeoutMS) d.

Definition with_mode (m : string) (s : StateDefaultsConfig) : StateDefaultsConfig :=
  mkStateDefaults m s.(sd_SessionState) s.(sd_HeartbeatState) s.(sd_AllowedHostIDs)
    s.(sd_RegisteredHosts).

Definition with_overlay (d : Z) (m : string) (p : MessagePack) : MessagePack :=
  mkPack p.(mp_SchemaVersion) p.(mp_PackName) p.(mp_PackVersion) p.(mp_Description)
    p.(mp_Extends) p.(mp_Tags) p.(mp_Wire) p.(mp_ControlPlane)
    (with_delay d p.(mp_Timers)) (with_mode m p.(mp_StateDefaults))
    p.(mp_LoggingHints) p.(mp_Operations).

(** What an overlay promises: a record update of two fields, checked again. *)
Definition overlay_spec (p : MessagePack) (changes : list OverlayChange) : result MessagePack :=
  let update :=
    d ← match last_set delay_path changes with
        | None => Some p.(mp_Timers).(ArtificialResponseDelayMS)
        | Some v => dec v 0%Z
        end;
    m ← match last_set mode_path changes with
        | None => Some p.(mp_StateDefaults).(sd_RegistrationMode)
        | Some v => dec v ""
        end;
    Some (with_overlay d m p) in
  match update with
  | None => Err "decode pack json"
  | Some p' => _ ← ValidatePack (Some p'); Ok p'
  end.

(** What [ValidatePack] checks, in words of the data. *)
Record operation_ok (name : string) (op : Operation) : Prop := {
  opk_name : TrimSpace name ≠ "";
  opk_direction : op.(op_Enabled) = true →
    op.(op_Direction) ∈ ["inbound"; "outbound"; "bidirectional"];
  opk_match : op.(op_Enabled) = true → op.(op_Match) ≠ [];
  opk_responses : op.(op_Enabled) = true → op.(op_Responses) ≠ [];
  opk_kinds : op.(op_Enabled) = true →
    Forall (λ m, m.(mr_Kind) ∈ ["message_type"; "path"; "namespace"; "field_equals"; "always"])
      op.(op_Match);
}.

Record pack_ok (p : MessagePack) : Prop := {
  pk_schema : p.(mp_SchemaVersion) = MessagePackSchemaVersion;
  pk_name : TrimSpace p.(mp_PackName) ≠ "";
  pk_version : TrimSpace p.(mp_PackVersion) ≠ "";
  pk_family : p.(mp_Wire).(wire_ProtocolFamily) = "g2s";
  pk_kind : p.(mp_Wire).(wire_Envelope).(env_Kind) = "soap-http";
  pk_path : TrimSpace p.(mp_Wire).(wire_Paths).(paths_DefaultListenerPath) ≠ "";
  pk_tls : Forall (λ m, m ∈ ["plaintext_lab"; "tls_server_only"; "strict_mtls";
                             "mtls_no_revocation"; "accept_all_lab"])
             p.(mp_Wire).(wire_Transport).(tr_TLSModesSupported);
  pk_tls_nodup : NoDup p.(mp_Wire).(wire_Transport).(tr_TLSModesSupported);
  pk_mode : p.(mp_StateDefaults).(sd_RegistrationMode)
              ∈ ["open"; "strict_match"; "deny_all"; "simulate_vendor_quirk"];
  pk_session : p.(mp_StateDefaults).(sd_SessionState) ∈ ["idle"; "online"; "closed"; "degraded"];
  pk_heartbeat : p.(mp_StateDefaults).(sd_HeartbeatState)
              ∈ ["idle"; "healthy"; "degraded"; "timeout"];
  pk_ops_nonempty : p.(mp_Operations) ≠ ∅;
  pk_ops : map_Forall operation_ok p.(mp_Operations);
}.

Fixpoint occurrences (v : string) (l : list string) : nat :=
  match l with
  | [] => 0
  | w :: l' => if decide (w = v) then S (occurrences v l') else occurrences v l'
  end.

(** ** The generic value of an overlay *)

Definition timers_fields (t : TimersConfig) : list field := [
  req "request_timeout_ms" t.(RequestTimeoutMS);
  req "heartbeat_interval_ms" t.(HeartbeatIntervalMS);
  req "heartbeat_timeout_ms" t.(HeartbeatTimeoutMS);
  opt "session_idle_timeout_ms" t.(SessionIdleTimeoutMS);
  opt "artificial_response_delay_ms" t.(ArtificialResponseDelayMS)].

Definition state_fields (s : StateDefaultsConfig) : list field := [
  req "registration_mode" s.(sd_RegistrationMode);
  req "session_state" s.(sd_SessionState);
  req "heartbeat_state" s.(sd_HeartbeatState);
  opt "allowed_host_ids" s.(sd_AllowedHostIDs);
  opt "registered_hosts" s.(sd_RegisteredHosts)].

Definition pack_fields (p : MessagePack) : list field := [
  req "schema_version" p.(mp_SchemaVersion);
  req "pack_name" p.(mp_PackName);
  req "pack_version" p.(mp_PackVersion);
  opt "description" p.(mp_Description);
  opt "extends" p.(mp_Extends);
  opt "tags" p.(mp_Tags);
  req "wire" p.(mp_Wire);
  req "control_plane" p.(mp_ControlPlane);
  req "timers" p.(mp_Timers);
  req "state_defaults" p.(mp_StateDefaults);
  opt "logging_hints" p.(mp_LoggingHints);
  req "operations" p.(mp_Operations)].

(** The map [Unmarshal] makes of an encoded struct. *)
Definition generic_of (fs : list field) : gmap string json :=
  obj_to_map (map (λ kv, (kv.1, norm kv.2)) (entries fs)).

Definition set_opt (k : string) (v : option json) (m : gmap string json) : gmap string json :=
  match v with Some v => <[k := v]> m | None => m end.

Definition timers_obj (t : TimersConfig) (d : option json) : json :=
  JObj (map_to_obj (set_opt "artificial_response_delay_ms" d (generic_of (timers_fields t)))).
Definition state_obj (s : StateDefaultsConfig) (m : option json) : json :=
  JObj (map_to_obj (set_opt "registration_mode" m (generic_of (state_fields s)))).

(** The generic value after the changes seen so far. *)
Definition generic_after (p : MessagePack) (d m : option json) : gmap string json :=
  <["timers" := timers_obj p.(mp_Timers) d]>
    (<["state_defaults" := state_obj p.(mp_StateDefaults) m]> (generic_of (pack_fields p))).

Definition last_set_step (path : string) (acc : option json) (c : OverlayChange) : option json :=
  if bool_decide (c.(oc_Path) = path) && bool_decide (c.(oc_Op) = "set")
  then Some c.(oc_Value) else acc.

(** ** A concrete pack and overlay *)

Definition example_operation (name : string) (set_state : gmap string json) : Operation := {|
  op_Enabled := true; op_Description := ""; op_Direction := "inbound";
  op_Match := [mkMatchRule "message_type" name ""];
  op_Preconditions := []; op_Extract := [];
  op_Responses := [mkVariant "ack" "<x/>" [] set_state 200 ∅ 0];
  op_FaultPolicy := mkFaultPolicy (NInt 0) (NInt 0) false false 0;
  op_LogFields := [] |}.

Definition example_pack (timeout : Z) : MessagePack := {|
  mp_SchemaVersion := MessagePackSchemaVersion;
  mp_PackName := "g2s-starter"; mp_PackVersion := "0.1.0";
  mp_Description := ""; mp_Extends := ""; mp_Tags := [];
  mp_Wire := {|
    wire_ProtocolFamily := "g2s";
    wire_Transport := mkTransport ["1.1"] ["plaintext_lab"; "strict_mtls"] ["text/xml"] false;
    wire_Envelope := mkEnvelope "soap-http" "" "" "";
    wire_Paths := mkPaths "/g2s" [];
    wire_Namespaces := {[ "soapenv" := "http://schemas.xmlsoap.org/soap/envelope/" ]} |};
  mp_ControlPlane := mkControlPlane ["timers"] [delay_path] false;
  mp_Timers := mkTimers timeout 5000 12000 0 0;
  mp_StateDefaults := mkStateDefaults "strict_match" "idle" "idle" ["HOST-001"] [];
  mp_LoggingHints := mkLoggingHints false false [] [];
  mp_Operations := {[
    "commsOnLine" := example_operation "commsOnLine" {[ "session_state" := JStr "online" ]};
    "keepAlive" := example_operation "keepAlive" {[ "heartbeat_state" := JStr "healthy" ]} ]} |}.

Definition example_overlay (changes : list OverlayChange) : MessageOverlay := {|
  ov_SchemaVersion := MessageOverlaySchemaVersion;
  ov_OverlayName := "lab"; ov_OverlayVersion := ""; ov_TargetPack := "g2s-starter";
  ov_Description := ""; ov_Changes := changes;
  ov_Activate := mkActivate true "instance" 0 |}.

(** Two changes of the delay and one of the mode: the last value counts. *)
Definition example_changes : list OverlayChange := [
  mkChange "set" delay_path (JStr "soon");
  mkChange "set" mode_path (JStr "open");
  mkChange "merge" "/wire" (JObj []);
  mkChange "set" delay_path (JNum (NInt 250))].

(** ** Lemmas *)

Lemma allowed_setOf vs k : allowed (setOf vs) k = bool_decide (k ∈ vs).
Proof.
  unfold allowed, setOf. induction vs as [|v vs IH] using rev_ind.
  - cbn [foldl]. by rewrite lookup_empty, bool_decide_eq_false_2 by set_solver.
  - rewrite foldl_app. cbn [foldl]. destruct (decide (v = k)) as [->|Hne].
    + rewrite lookup_insert_eq. by rewrite bool_decide_eq_true_2 by set_solver.
    + rewrite lookup_insert_ne, IH by done. apply bool_decide_ext. set_solver.
Qed.

Lemma not_allowed_false vs k : negb (allowed (setOf vs) k) = false ↔ k ∈ vs.
Proof. by rewrite negb_false_iff, allowed_setOf, bool_decide_eq_true. Qed.

(** *** Counting duplicates *)

Lemma occurrences_app v l k : occurrences v (l ++ k) = occurrences v l + occurrences v k.
Proof. induction l as [|w l IH]; simpl; [done|]. case_decide; lia. Qed.

Lemma occurrences_elem v l : v ∈ l ↔ 1 ≤ occurrences v l.
Proof.
  induction l as [|w l IH]; simpl; [split; [by intros ?%elem_of_nil|lia]|].
  rewrite elem_of_cons, IH. case_decide; [split; [lia|auto]|].
  split; [intros [->|?]; done|auto].
Qed.

Lemma count_seen_lookup l v :
  count_seen l !! v = match occurrences v l with 0 => None | S n => Some (S n) end.
Proof.
  unfold count_seen. induction l as [|w l IH] using rev_ind; [apply lookup_empty|].
  rewrite foldl_app, occurrences_app. simpl.
  destruct (decide (w = v)) as [->|Hne].
  - rewrite lookup_insert_eq, IH, Nat.add_1_r. by destruct (occurrences v l).
  - by rewrite lookup_insert_ne, IH, Nat.add_0_r by done.
Qed.

Lemma occurrences_NoDup l : NoDup l ↔ ∀ v, occurrences v l ≤ 1.
Proof.
  induction l as [|w l IH]; simpl.
  { split; [intros _ v; lia|constructor]. }
  rewrite NoDup_cons, IH, occurrences_elem. split.
  - intros [Hw Hl] v. specialize (Hl v). case_decide; [subst; lia|done].
  - intros H. split.
    + specialize (H w). rewrite decide_True in H by done. lia.
    + intros v. specialize (H v). case_decide; lia.
Qed.

Lemma elem_of_duplicates v l : v ∈ duplicates l ↔ 2 ≤ occurrences v l.
Proof.
  unfold duplicates, duplicates_in. rewrite sort_strings_perm.
  rewrite list_elem_of_In, in_map_iff. split.
  - intros ([w n] & Heq & Hin). simpl in Heq. subst w. apply filter_In in Hin as [Hin Hn].
    apply list_elem_of_In, elem_of_map_to_list in Hin.
    rewrite count_seen_lookup in Hin. apply Nat.ltb_lt in Hn. simpl in Hn.
    destruct (occurrences v l); simplify_eq. lia.
  - intros H. exists (v, occurrences v l). split; [done|].
    apply filter_In. split.
    + apply list_elem_of_In, elem_of_map_to_list. rewrite count_seen_lookup.
      destruct (occurrences v l); [lia|done].
    + by apply Nat.ltb_lt.
Qed.

Lemma duplicates_nil l : duplicates l = [] ↔ NoDup l.
Proof.
  rewrite occurrences_NoDup. split.
  - intros H v. destruct (le_lt_dec (occurrences v l) 1) as [?|Hv]; [done|].
    apply elem_of_duplicates in Hv. rewrite H in Hv. by apply elem_of_nil in Hv.
  - intros H. destruct (duplicates l) as [|v vs] eqn:E; [done|].
    assert (Hv : v ∈ duplicates l) by (rewrite E; left).
    apply elem_of_duplicates in Hv. specialize (H v). lia.
Qed.

(** *** Soundness and completeness of the validator *)

Lemma match_errors_nil name ms :
  match_errors name ms = [] ↔
  Forall (λ m, m.(mr_Kind) ∈ ["message_type"; "path"; "namespace"; "field_equals"; "always"]) ms.
Proof.
  apply concat_imap_nil. intros i m. rewrite err_if_nil. apply not_allowed_false.
Qed.

Lemma operation_errors_nil name op : operation_errors name op = [] ↔ operation_ok name op.
Proof.
  unfold operation_errors, allowedDirections. destruct (blank name) eqn:Hb.
  { split; [done|]. intros [H _ _ _ _]. unfold blank in Hb. by bool_props. }
  apply blank_false in Hb. destruct (op_Enabled op) eqn:He; cbn [negb].
  - rewrite !app_nil, !err_if_nil, match_errors_nil, not_allowed_false, !bool_decide_eq_false,
      !length_zero_iff_nil. split.
    + intros (? & ? & ? & ?). by split.
    + intros []. auto.
  - split; [|done]. intros _. split; [done|..]; intros; congruence.
Qed.

Lemma pack_header_errors_nil p :
  pack_header_errors p = [] ↔
  p.(mp_SchemaVersion) = MessagePackSchemaVersion ∧
  TrimSpace p.(mp_PackName) ≠ "" ∧ TrimSpace p.(mp_PackVersion) ≠ "" ∧
  p.(mp_Wire).(wire_ProtocolFamily) ∈ ["g2s"] ∧
  p.(mp_Wire).(wire_Envelope).(env_Kind) ∈ ["soap-http"] ∧
  TrimSpace p.(mp_Wire).(wire_Paths).(paths_DefaultListenerPath) ≠ "" ∧
  Forall (λ m, m ∈ ["plaintext_lab"; "tls_server_only"; "strict_mtls";
                    "mtls_no_revocation"; "accept_all_lab"])
    p.(mp_Wire).(wire_Transport).(tr_TLSModesSupported) ∧
  NoDup p.(mp_Wire).(wire_Transport).(tr_TLSModesSupported) ∧
  p.(mp_StateDefaults).(sd_RegistrationMode)
    ∈ ["open"; "strict_match"; "deny_all"; "simulate_vendor_quirk"] ∧
  p.(mp_StateDefaults).(sd_SessionState) ∈ ["idle"; "online"; "closed"; "degraded"] ∧
  p.(mp_StateDefaults).(sd_HeartbeatState) ∈ ["idle"; "healthy"; "degraded"; "timeout"] ∧
  p.(mp_Operations) ≠ ∅.
Proof.
  unfold pack_header_errors, allowedProtocolFamilies, allowedTransportKinds, allowedTLSModes,
    allowedRegistrationMode, allowedSessionState, allowedHeartbeatState. cbv zeta.
  rewrite !app_nil, !err_if_nil, !not_allowed_false, !blank_false, negb_false_iff,
    bool_decide_eq_true, bool_decide_eq_false, map_size_empty_iff.
  rewrite (concat_map_nil _ (λ m, m ∈ ["plaintext_lab"; "tls_server_only"; "strict_mtls";
    "mtls_no_revocation"; "accept_all_lab"])).
  2: { intros m. rewrite err_if_nil. apply not_allowed_false. }
  rewrite map_nil_iff, duplicates_nil. done.
Qed.

Lemma ValidatePack_in_ok ops p :
  ops ≡ₚ map_to_list p.(mp_Operations) → ValidatePack_in ops p = Ok () ↔ pack_ok p.
Proof.
  intros Hops. unfold ValidatePack_in. rewrite finish_ok, app_nil, pack_header_errors_nil.
  rewrite (concat_map_nil _ (uncurry operation_ok)) by (intros []; apply operation_errors_nil).
  rewrite Hops, <-map_Forall_to_list, !list_elem_of_singleton.
  split; [intros; destruct_and!; by split|intros []; auto 20].
Qed.

Lemma duplicates_nodup l : NoDup (duplicates l).
Proof.
  unfold duplicates, duplicates_in. rewrite sort_strings_perm.
  apply NoDup_map_filter, NoDup_fst_map_to_list.
Qed.

Lemma nodup_pack_fields p : NoDup (tags (pack_fields p)).
Proof. apply (bool_decide_unpack _). vm_compute. exact I. Qed.
Lemma nodup_timers_fields t : NoDup (tags (timers_fields t)).
Proof. apply (bool_decide_unpack _). vm_compute. exact I. Qed.
Lemma nodup_state_fields s : NoDup (tags (state_fields s)).
Proof. apply (bool_decide_unpack _). vm_compute. exact I. Qed.

Lemma matching_generic fs n :
  NoDup (tags fs) →
  matching n (map_to_obj (generic_of fs))
    ≡ₚ matching n (map (λ kv, (kv.1, norm kv.2)) (entries fs)).
Proof. intros H. apply matching_perm, norm_obj_perm. by apply entries_keys, tags_keys. Qed.

Lemma generic_of_req `{Codec A} fs n (x : A) :
  NoDup (tags fs) → In (req n x) fs → generic_of fs !! n = Some (norm (enc x)).
Proof.
  intros Hnd Hin. unfold generic_of.
  assert (Hk : NoDup (entries fs).*1) by by apply entries_keys, tags_keys.
  rewrite obj_to_map_list by by rewrite <-list_fmap_compose.
  apply elem_of_list_to_map_1; [by rewrite <-list_fmap_compose|].
  apply list_elem_of_In, in_map_iff. exists (n, enc x). split; [done|].
  unfold entries. apply in_concat. exists [(n, enc x)]. split; [|by left].
  apply in_map_iff. by exists (req n x).
Qed.

Lemma set_opt_set k v v' m : set_opt k (Some v') (set_opt k v m) = set_opt k (Some v') m.
Proof. destruct v; [apply insert_insert_eq|done]. Qed.

Lemma set_nested_obj m top key v kvs :
  m !! top = Some (JObj kvs) →
  set_nested m top key v = <[top := JObj (map_to_obj (<[key := v]> (obj_to_map kvs)))]> m.
Proof. intros H. unfold set_nested. by rewrite H, H. Qed.

Lemma set_nested_timers p d m v :
  set_nested (generic_after p d m) "timers" "artificial_response_delay_ms" v
  = generic_after p (Some v) m.
Proof.
  unfold generic_after. erewrite set_nested_obj by apply lookup_insert_eq.
  rewrite obj_to_map_to_obj, insert_insert_eq. unfold timers_obj.
  by rewrite <-(set_opt_set _ d).
Qed.

Lemma set_nested_state p d m v :
  set_nested (generic_after p d m) "state_defaults" "registration_mode" v
  = generic_after p d (Some v).
Proof.
  unfold generic_after. rewrite insert_insert_ne by done.
  erewrite set_nested_obj by apply lookup_insert_eq.
  rewrite obj_to_map_to_obj, insert_insert_eq, insert_insert_ne by done. unfold state_obj.
  by rewrite <-(set_opt_set _ m).
Qed.

Lemma apply_change_after p d m c :
  apply_change (generic_after p d m) c
  = generic_after p (last_set_step delay_path d c) (last_set_step mode_path m c).
Proof.
  unfold apply_change, last_set_step.
  destruct (decide (oc_Op c = "set")) as [->|Hop].
  2: { by rewrite !(bool_decide_eq_false_2 _ Hop), !andb_false_r. }
  rewrite (bool_decide_eq_true_2 ("set" = "set")), !andb_true_r by done.
  destruct (decide (oc_Path c = delay_path)) as [->|H1].
  { rewrite (bool_decide_eq_true_2 (delay_path = delay_path)) by done.
    rewrite (bool_decide_eq_false_2 (delay_path = mode_path)) by done.
    apply set_nested_timers. }
  rewrite (bool_decide_eq_false_2 _ H1). case_bool_decide; [apply set_nested_state|done].
Qed.

Lemma apply_changes_after p d m cs :
  foldl apply_change (generic_after p d m) cs
  = generic_after p (foldl (last_set_step delay_path) d cs) (foldl (last_set_step mode_path) m cs).
Proof.
  revert d m. induction cs as [|c cs IH]; intros d m; [done|]. simpl.
  by rewrite apply_change_after, IH.
Qed.

Lemma generic_start p :
  dec (A := gmap string json) (enc p) zero = Some (generic_after p None None).
Proof.
  change (enc p) with (JObj (entries (pack_fields p))). rewrite dec_generic. f_equal.
  unfold generic_after. fold (generic_of (pack_fields p)).
  rewrite (insert_id _ "state_defaults"), (insert_id _ "timers"); [done|..].
  - refine (generic_of_req (pack_fields p) "timers" p.(mp_Timers) (nodup_pack_fields p) _).
    in_fields.
  - refine (generic_of_req (pack_fields p) "state_defaults" p.(mp_StateDefaults)
      (nodup_pack_fields p) _).
    in_fields.
Qed.

(** Setting one field of an object written for a struct. *)
Lemma dec_set_field {A} fs n (d : decoder A) w old :
  NoDup (tags fs) → n ∈ map (λ f : field, f.1.1) fs →
  dec_key n d (map_to_obj (<[n := w]> (generic_of fs))) old = d w old.
Proof. intros Hnd Hn. apply dec_key_insert. intros k. by apply entries_key_unique. Qed.

Ltac in_tags := apply list_elem_of_In; in_fields.

Ltac dec_others Hp Hnd :=
  eapply bind_some;
  [ first [ eapply dec_key_req; [by apply Hp|exact Hnd|solve [in_fields]|]
          | eapply dec_key_opt; [by apply Hp|exact Hnd|solve [in_fields]|] ];
    first [eassumption | solve_safe]
  | cbv beta ].

(** Decoding the modified timers object changes the delay only. *)
Lemma dec_timers_obj t d :
  safe f64_round t →
  dec (timers_obj t d) zero
  = (x ← match d with None => Some t.(ArtificialResponseDelayMS) | Some v => dec v 0%Z end;
     Some (with_delay x t)).
Proof.
  intros Hsafe. pose proof (nodup_timers_fields t) as Hnd. destruct d as [v|].
  2: { destruct t. exact (dec_enc norm f64_round _ _ Hsafe). }
  destruct Hsafe as (H1 & H2 & H3 & H4 & H5).
  pose proof (λ n Hn, transitivity
    (matching_insert_ne n "artificial_response_delay_ms" v (generic_of (timers_fields t)) Hn)
    (matching_generic (timers_fields t) n Hnd)) as Hp.
  change (dec (timers_obj t (Some v)) zero) with (dec_Timers (JObj (map_to_obj
    (<["artificial_response_delay_ms" := v]> (generic_of (timers_fields t))))) zero).
  do 4 dec_others Hp Hnd. by rewrite (dec_set_field _ _ _ _ _ Hnd) by in_tags.
Qed.

Lemma dec_state_obj s m :
  safe f64_round s →
  dec (state_obj s m) zero
  = (x ← match m with None => Some s.(sd_RegistrationMode) | Some v => dec v "" end;
     Some (with_mode x s)).
Proof.
  intros Hsafe. pose proof (nodup_state_fields s) as Hnd. destruct m as [v|].
  2: { destruct s. exact (dec_enc norm f64_round _ _ Hsafe). }
  cbv beta in Hsafe. simpl in Hsafe.
  pose proof (λ n Hn, transitivity
    (matching_insert_ne n "registration_mode" v (generic_of (state_fields s)) Hn)
    (matching_generic (state_fields s) n Hnd)) as Hp.
  change (dec (state_obj s (Some v)) zero) with (dec_StateDefaults (JObj (map_to_obj
    (<["registration_mode" := v]> (generic_of (state_fields s))))) zero).
  unfold dec_StateDefaults, dec_struct.
  rewrite (dec_set_field (state_fields s) _ _ _ _ Hnd) by in_tags.
  change (dec v (sd_RegistrationMode zero)) with (dec v ""). destruct (dec v ""); [|done].
  eapply bind_some; [reflexivity|cbv beta]. do 4 dec_others Hp Hnd. done.
Qed.

(** Decoding the modified pack changes those two objects only. *)
Lemma dec_generic_after p d m :
  safe f64_round p →
  dec (enc (generic_after p d m)) zero
  = (t ← dec (timers_obj p.(mp_Timers) d) zero;
     s ← dec (state_obj p.(mp_StateDefaults) m) zero;
     Some (mkPack p.(mp_SchemaVersion) p.(mp_PackName) p.(mp_PackVersion) p.(mp_Description)
       p.(mp_Extends) p.(mp_Tags) p.(mp_Wire) p.(mp_ControlPlane) t s
       p.(mp_LoggingHints) p.(mp_Operations))).
Proof.
  intros (H1 & H2 & H3 & H4). cbv beta in *. rewrite enc_generic.
  pose proof (nodup_pack_fields p) as Hnd.
  set (w1 := timers_obj p.(mp_Timers) d). set (w2 := state_obj p.(mp_StateDefaults) m).
  assert (Hp : ∀ n, EqualFold "timers" n = false → EqualFold "state_defaults" n = false →
    matching n (map_to_obj (generic_after p d m))
    ≡ₚ matching n (map (λ kv, (kv.1, norm kv.2)) (entries (pack_fields p)))).
  { intros n Hn1 Hn2. unfold generic_after.
    rewrite (matching_insert_ne _ _ _ _ Hn1), (matching_insert_ne _ _ _ _ Hn2).
    by apply matching_generic. }
  change (dec (JObj (map_to_obj (generic_after p d m))) zero)
    with (dec_MessagePack (JObj (map_to_obj (generic_after p d m))) zero).
  assert (Hw : ∀ n k w (A : Type) (dd : decoder A) old,
    n ∈ map (λ f : field, f.1.1) (pack_fields p) → EqualFold k n = false →
    ∀ w', dec_key n dd (map_to_obj (<[n := w']> (<[k := w]> (generic_of (pack_fields p))))) old
    = dd w' old).
  { intros n k w A dd old Hn Hk w'. apply dec_key_insert. intros k' Hk' Hf.
    destruct (decide (k = k')) as [<-|Hne]; [congruence|].
    rewrite lookup_insert_ne in Hk' by done.
    eapply (entries_key_unique norm (pack_fields p)); eauto. }
  assert (Ht : dec_key "timers" dec (map_to_obj (generic_after p d m)) zero
    = dec (A := TimersConfig) w1 zero).
  { apply (Hw "timers" "state_defaults"); [in_tags|done]. }
  assert (Hs : dec_key "state_defaults" dec (map_to_obj (generic_after p d m)) zero
    = dec (A := StateDefaultsConfig) w2 zero).
  { unfold generic_after. rewrite insert_insert_ne by done.
    apply (Hw "state_defaults" "timers"); [in_tags|done]. }
  do 8 dec_others Hp Hnd.
  change (mp_Timers zero) with (zero (A := TimersConfig)). rewrite Ht.
  destruct (dec w1 zero) as [t|]; [|done]. eapply bind_some; [reflexivity|cbv beta].
  change (mp_StateDefaults zero) with (zero (A := StateDefaultsConfig)). rewrite Hs.
  destruct (dec w2 zero) as [s|]; [|done]. eapply bind_some; [reflexivity|cbv beta].
  destruct H4 as (? & ? & ?). do 2 dec_others Hp Hnd. done.
Qed.

Lemma example_pack_ok timeout : pack_ok (example_pack timeout).
Proof. apply (ValidatePack_in_ok (map_to_list (mp_Operations (example_pack timeout)))); reflexivity. Qed.

Lemma example_operation_safe r name k v :
  Forall (int_ok r) [0; 200]%Z → f64_round 0 = 0%Z → norm v = v →
  safe r (example_operation name {[ k := v ]}).
Proof.
  intros H Hz Hv. rewrite !Forall_cons in H. destruct H as (H4 & H5 & _).
  repeat first
    [ exact I | assumption
    | by apply map_Forall_singleton | by apply map_Forall_empty
    | split | constructor | by destruct H4 | progress simpl ].
Qed.

Lemma example_pack_safe r timeout :
  Forall (int_ok r) [timeout; 5000; 12000; 0; 200]%Z → f64_round 0 = 0%Z →
  safe r (example_pack timeout).
Proof.
  intros H Hz. rewrite !Forall_cons in H. destruct H as (H1 & H2 & H3 & H4 & H5 & _).
  assert (Hops : safe r (mp_Operations (example_pack timeout))).
  { apply map_Forall_insert_2; [|apply map_Forall_singleton];
      apply example_operation_safe; auto. }
  repeat first [ exact I | assumption | by apply map_Forall_singleton
               | split | constructor | progress simpl ].
Qed.

(** ** Theorems *)

(** [ValidatePack] accepts a pack exactly when it meets the checks of
    pack/validate.go, stated on the data: known schema, names that are not
    blank, known protocol, modes and states, no TLS mode listed twice, and every
    enabled operation with a direction, rules and responses. *)
Theorem ValidatePack_correct p : ValidatePack (Some p) = Ok () ↔ pack_ok p.
Proof. by apply ValidatePack_in_ok. Qed.

(** The loop over the map of operations runs in an order Go does not
    specify; the verdict and the text of the error do not depend on it. *)
Theorem ValidatePack_order p ops :
  ops ≡ₚ map_to_list p.(mp_Operations) → ValidatePack_in ops p = ValidatePack (Some p).
Proof.
  intros H. apply finish_perm. apply Permutation_app_head. by apply concat_map_perm.
Qed.

(** [duplicates] returns, sorted and once each, the values that occur at
    least twice. *)
Theorem duplicates_correct l :
  (∀ v, v ∈ duplicates l ↔ 2 ≤ occurrences v l) ∧
  NoDup (duplicates l) ∧ StronglySorted String.le (duplicates l).
Proof.
  split; [intros v; apply elem_of_duplicates|split; [apply duplicates_nodup|]].
  apply (StronglySorted_merge_sort _).
Qed.

(** C35. A pack that is valid and whose integers fit [int] is read back unchanged
    from the JSON written for it. *)
Theorem ParsePack_roundtrip p :
  pack_ok p → safe (λ z, z) p → ParsePack (enc p) = Ok p.
Proof.
  intros Hp Hs. unfold ParsePack.
  rewrite (dec_enc (λ j, j) (λ z, z) p _ Hs).
  rewrite (proj2 (ValidatePack_in_ok _ p (Permutation_refl _)) Hp : ValidatePack (Some p) = Ok ()).
  done.
Qed.

(** C16. Applying a valid overlay to the pack it targets is a record update of
    the response delay and the registration mode to the last value set for
    each, followed by validation: the detour through a generic JSON value keeps
    every other field, provided the integers of the pack are exact as float64. *)
Theorem ApplyOverlay_refines b o :
  pack_ok b → safe f64_round b →
  ValidateOverlay (Some o) = Ok () → o.(ov_TargetPack) = b.(mp_PackName) →
  ApplyOverlay (Some b) (Some o) = overlay_spec b o.(ov_Changes).
Proof.
  intros Hb Hsafe Ho Ht. unfold ApplyOverlay.
  rewrite (proj2 (ValidatePack_in_ok _ b (Permutation_refl _)) Hb : ValidatePack (Some b) = Ok ()).
  simpl wrap_err. rewrite Ho. cbn [mbind result_bind].
  rewrite bool_decide_eq_true_2 by done. cbn [negb].
  rewrite generic_start, apply_changes_after. unfold ParsePack, overlay_spec.
  rewrite dec_generic_after by done. destruct Hsafe as (_ & _ & Ht' & Hs' & _).
  rewrite (dec_timers_obj _ _ Ht'), (dec_state_obj _ _ Hs').
  fold (last_set delay_path (ov_Changes o)) (last_set mode_path (ov_Changes o)).
  change (foldl (last_set_step delay_path) None (ov_Changes o)) with (last_set delay_path (ov_Changes o)).
  change (foldl (last_set_step mode_path) None (ov_Changes o)) with (last_set mode_path (ov_Changes o)).
  destruct (match last_set delay_path _ with Some _ => _ | None => _ end) as [x|]; [|done].
  cbn [mbind option_bind].
  destruct (match last_set mode_path _ with Some _ => _ | None => _ end) as [y|]; done.
Qed.

(** Whatever the overlay, a pack that [ApplyOverlay] returns is valid. *)
Theorem ApplyOverlay_valid b o p : ApplyOverlay b o = Ok p → pack_ok p.
Proof.
  unfold ApplyOverlay, ParsePack. intros H. destruct b as [b|], o as [o|]; try done.
  result_binds. case_match; [done|].
  destruct (dec (enc b) zero); [|done]. destruct (dec _ zero) as [p'|]; [|done].
  result_binds. simplify_eq. destruct v1.
  by apply (ValidatePack_in_ok (map_to_list p.(mp_Operations)) p).
Qed.


Lemma ValidatePack_order_witness :
  let ops := reverse (map_to_list (mp_Operations (example_pack 3000))) in
  length ops = 2 ∧
  ValidatePack_in ops (example_pack 3000) = ValidatePack (Some (example_pack 3000)).
Proof. split; [reflexivity|]. apply ValidatePack_order. apply reverse_Permutation. Defined.

Lemma ParsePack_roundtrip_witness :
  ParsePack (enc (example_pack 3000)) = Ok (example_pack 3000).
Proof.
  apply ParsePack_roundtrip; [apply example_pack_ok|].
  apply example_pack_safe; [repeat constructor|reflexivity].
Defined.

Lemma ApplyOverlay_refines_witness :
  ApplyOverlay (Some (example_pack 3000)) (Some (example_overlay example_changes))
  = Ok (with_overlay 250 "open" (example_pack 3000)).
Proof.
  rewrite ApplyOverlay_refines.
  - vm_compute. reflexivity.
  - apply example_pack_ok.
  - apply example_pack_safe; [repeat constructor|reflexivity].
  - vm_compute. reflexivity.
  - reflexivity.
Defined.

Lemma ApplyOverlay_valid_witness : pack_ok (with_overlay 250 "open" (example_pack 3000)).
Proof.
  apply (ApplyOverlay_valid (Some (example_pack 3000)) (Some (example_overlay example_changes))).
  vm_compute. reflexivity.
Defined.

(** The bound on the integers matters: the detour through [any] turns
    integers into float64, and a timeout of 2^53 + 1 ms comes back as 2^53 from
    an overlay that does not touch it. *)
Theorem ApplyOverlay_rounds_large_integers :
  ∃ p, ApplyOverlay (Some (example_pack (2 ^ 53 + 1)))
         (Some (example_overlay [mkChange "set" mode_path (JStr "open")])) = Ok p ∧
       p.(mp_Timers).(RequestTimeoutMS) = (2 ^ 53)%Z.
Proof. eexists. split; vm_compute; reflexivity. Qed.
