(* ===== verification/Render.v ===== *)
(** * Message templates (src/runtime/render.go)

    [RenderTemplate] replaces placeholders by repeated textual replacement: the
    namespaces in sorted order, then the request fields and the state in the
    unspecified order of their maps. The reference is the substitution of a
    template that is split into text and holes; the two agree on templates and
    values without stray braces, and differ otherwise. *)

From S2P Require Import Prelude GoStrings.

Definition placeholder (kind key : string) : string := "{{" +:+ kind +:+ "." +:+ key +:+ "}}".

(** One pass of [strings.ReplaceAll] per entry, in the order of the list. *)
Definition replace_entries (kind : string) (entries : list (string * string)) (out : string) : string :=
  foldl (λ out kv, replace_all out (placeholder kind kv.1) kv.2) out entries.

(** The keys of [ns], sorted. *)
Definition sorted_entries (ns : gmap string string) : list (string * string) :=
  map (λ k, (k, get_str ns k)) (sort_strings (map_to_list ns).*1).

(** [RenderTemplate] when the loops over the request and the state visit the
    entries as listed; the values of the state are strings, which [fmt.Sprint]
    leaves as they are. *)
Definition RenderTemplate_in (tmpl : string) (ns : gmap string string)
    (request state : list (string * string)) : string :=
  replace_entries "state" state (replace_entries "request" request
    (replace_entries "ns" (sorted_entries ns) tmpl)).

Definition RenderTemplate (tmpl : string) (ns request state : gmap string string) : string :=
  RenderTemplate_in tmpl ns (map_to_list request) (map_to_list state).

(** ** The reference: templates as text and holes *)

Inductive segment :=
  | Text (s : string)
  | Hole (name : string).

Definition print_segment (x : segment) : string :=
  match x with Text s => s | Hole name => "{{" +:+ name +:+ "}}" end.

Definition print_segments (l : list segment) : string := foldr String.append "" (map print_segment l).

(** No braces in texts, values and names. *)
Definition plain (s : string) : bool := free_of "{" s && free_of "}" s.

Definition segment_ok (x : segment) : Prop :=
  match x with
  | Text s => plain s = true
  | Hole name => plain name = true ∧ name ≠ ""
  end.

(** Fill the holes that the environment knows. *)
Definition fill (env : string → option string) (x : segment) : segment :=
  match x with
  | Text s => Text s
  | Hole name => match env name with Some v => Text v | None => Hole name end
  end.

(** [strings.CutPrefix] *)
Definition cut_prefix (p s : string) : option string :=
  if has_prefix p s then Some (drop_bytes (String.length p) s) else None.

(** The value that a placeholder stands for: its kind selects the map. *)
Definition template_env (ns request state : gmap string string) (name : string) : option string :=
  match cut_prefix "ns." name with
  | Some key => ns !! key
  | None =>
      match cut_prefix "request." name with
      | Some key => request !! key
      | None => match cut_prefix "state." name with Some key => state !! key | None => None end
      end
  end.

Definition values_plain (m : gmap string string) : Prop :=
  map_Forall (λ k v, plain k = true ∧ plain v = true) m.

(** ** Lemmas: replacing in a text without braces *)

Lemma has_prefix_app p s : has_prefix p (p +:+ s) = true.
Proof.
  induction p as [|a p IH]; [done|]. rewrite string_app_cons. simpl.
  by rewrite bool_decide_eq_true_2, IH.
Qed.

Lemma replace_go_here old new c s :
  replace_go old new 0 (String c s)
  = if has_prefix old (String c s) then new +:+ replace_go old new (String.length old - 1) s
    else String c (replace_go old new 0 s).
Proof. done. Qed.

(** While bytes of a match are skipped nothing else happens. *)
Lemma replace_go_skip old new s t : replace_go old new (String.length s) (s +:+ t) = replace_go old new 0 t.
Proof. induction s as [|a s IH]; [done|]. rewrite string_app_cons. simpl. apply IH. Qed.

(** Text without an opening brace is copied. *)
Lemma replace_go_text old new s t :
  has_prefix "{" old = true → free_of "{" s = true →
  replace_go old new 0 (s +:+ t) = s +:+ replace_go old new 0 t.
Proof.
  intros Ho. induction s as [|a s IH]; [done|]. rewrite !string_app_cons. simpl. intros H. bool_props.
  destruct old as [|b old]; [done|]. simpl in Ho. bool_props. subst b. simpl.
  rewrite bool_decide_eq_false_2 by congruence. simpl. by rewrite IH.
Qed.

(** Only the hole of that name matches at its start. *)
Lemma prefix_hole name name' t :
  plain name = true → plain name' = true →
  has_prefix ("{{" +:+ name +:+ "}}") ("{{" +:+ name' +:+ "}}" +:+ t) = bool_decide (name = name').
Proof.
  unfold plain. rewrite !andb_true_iff. intros [_ Hn] [_ Hn'].
  change (has_prefix (name +:+ "}}") (name' +:+ "}}" +:+ t) = bool_decide (name = name')).
  revert name' Hn'. induction name as [|a n IH]; intros [|b n'] Hn'.
  - rewrite bool_decide_eq_true_2 by done. done.
  - rewrite string_app_cons. simpl in *. bool_props. rewrite !bool_decide_eq_false_2 by congruence. done.
  - rewrite string_app_cons. simpl in *. bool_props. rewrite !bool_decide_eq_false_2 by congruence. done.
  - simpl in Hn, Hn'. bool_props. rewrite !string_app_cons. cbn [has_prefix]. rewrite IH by done.
    repeat case_bool_decide; simpl; congruence.
Qed.

(** One replacement pass on a printed template fills the holes of that name. *)
Lemma replace_go_hole name v name' t :
  plain name = true → plain name' = true → name' ≠ "" →
  replace_go ("{{" +:+ name +:+ "}}") v 0 ("{{" +:+ name' +:+ "}}" +:+ t)
  = (if bool_decide (name = name') then v else "{{" +:+ name' +:+ "}}")
    +:+ replace_go ("{{" +:+ name +:+ "}}") v 0 t.
Proof.
  intros Hn Hn' Hne. pose proof (prefix_hole name name' t Hn Hn') as Hp.
  set (old := "{{" +:+ name +:+ "}}") in *.
  change ("{{" +:+ name' +:+ "}}" +:+ t) with (String "{" (String "{" (name' +:+ "}}" +:+ t))) in *.
  rewrite replace_go_here, Hp. case_bool_decide as Hname.
  - subst name'. f_equal.
    change ("{" +:+ name +:+ "}}" +:+ t) with (String "{" (name +:+ ("}}" +:+ t))).
    rewrite (string_app_assoc name "}}" t).
    change (String "{" ((name +:+ "}}") +:+ t)) with (String "{" (name +:+ "}}") +:+ t).
    change (String.length old - 1) with (String.length (String "{" (name +:+ "}}")) - 0).
    rewrite Nat.sub_0_r. apply replace_go_skip.
  - destruct name' as [|b n']; [done|].
    assert (Hb : b ≠ "{"%char).
    { unfold plain in Hn'. simpl in Hn'. bool_props. done. }
    assert (Hp2 : has_prefix old (String "{" (String b n' +:+ "}}" +:+ t)) = false).
    { unfold old. simpl. rewrite (bool_decide_eq_false_2 (_ = b)); [done|congruence]. }
    rewrite replace_go_here, Hp2.
    rewrite (string_app_assoc (String b n') "}}" t).
    rewrite replace_go_text.
    + done.
    + done.
    + unfold plain in Hn'. apply andb_true_iff in Hn' as [Hf _]. rewrite free_of_app, Hf. done.
Qed.

Lemma replace_segments name v l :
  plain name = true → Forall segment_ok l →
  replace_all (print_segments l) ("{{" +:+ name +:+ "}}") v
  = print_segments (map (fill (λ n, if bool_decide (name = n) then Some v else None)) l).
Proof.
  intros Hn Hl. unfold replace_all. set (env := λ n, _).
  induction Hl as [|x l Hx Hl IH]; [done|].
  change (print_segments (x :: l)) with (print_segment x +:+ print_segments l).
  change (print_segments (map (fill env) (x :: l)))
    with (print_segment (fill env x) +:+ print_segments (map (fill env) l)).
  destruct x as [s|n]; cbn [print_segment fill segment_ok] in *.
  - unfold plain in Hx. apply andb_true_iff in Hx as [Hs _]. by rewrite replace_go_text, IH.
  - destruct Hx as [Hpn Hne]. rewrite <-!string_app_assoc.
    rewrite replace_go_hole, IH by done. unfold env. case_bool_decide; [done|].
    cbn [print_segment]. by rewrite <-!string_app_assoc.
Qed.

(** ** Lemmas: a whole rendering *)

Lemma fill_ok env x :
  segment_ok x → (∀ n v, env n = Some v → plain v = true) → segment_ok (fill env x).
Proof. destruct x as [s|n]; simpl; [done|]. intros Hx Hv. destruct (env n) eqn:He; [by eapply Hv|done]. Qed.

Lemma plain_app s t : plain (s +:+ t) = plain s && plain t.
Proof.
  unfold plain. rewrite !free_of_app. by destruct (free_of "{" s), (free_of "{" t), (free_of "}" s), (free_of "}" t).
Qed.

Fixpoint entries_env (kind : string) (entries : list (string * string)) (name : string)
    : option string :=
  match entries with
  | [] => None
  | kv :: rest =>
      if bool_decide (kind +:+ "." +:+ kv.1 = name) then Some kv.2 else entries_env kind rest name
  end.

Definition entries_plain (l : list (string * string)) : Prop :=
  Forall (λ kv, plain kv.1 = true ∧ plain kv.2 = true) l.

(** The passes of one loop fill the holes of its kind, one entry after the other. *)
Lemma replace_entries_segments kind entries l :
  plain kind = true → entries_plain entries → Forall segment_ok l →
  replace_entries kind entries (print_segments l)
  = print_segments (map (fill (entries_env kind entries)) l).
Proof.
  intros Hk He. revert l. induction He as [|[k v] entries [Hkp Hvp] He IH]; intros l Hl.
  { simpl. f_equal. rewrite (map_ext _ id), map_id; [done|]. by intros []. }
  unfold replace_entries in *. cbn [foldl fst snd] in *.
  assert (Hname : plain (kind +:+ "." +:+ k) = true) by (by rewrite !plain_app, Hk, Hkp).
  assert (Hph : placeholder kind k = "{{" +:+ (kind +:+ "." +:+ k) +:+ "}}").
  { unfold placeholder. by rewrite !string_app_assoc. }
  rewrite Hph, replace_segments by done. rewrite IH.
  - f_equal. rewrite map_map. apply map_ext. intros [s|n]; cbn [fill entries_env fst snd]; [done|].
    by case_bool_decide.
  - apply Forall_fmap. eapply Forall_impl; [exact Hl|]. intros x Hx. apply fill_ok; [done|].
    intros n w. case_bool_decide; [|done]. by intros [= <-].
Qed.

Lemma entries_env_Some kind l name v :
  NoDup l.*1 → entries_env kind l name = Some v ↔ ∃ k, name = kind +:+ "." +:+ k ∧ (k, v) ∈ l.
Proof.
  induction l as [|[k w] l IH]; simpl; intros Hnd.
  { split; [done|]. intros (k & _ & Hk). by apply elem_of_nil in Hk. }
  apply NoDup_cons in Hnd as [Hk Hnd]. case_bool_decide as Hn.
  - subst name. split.
    + intros [= ->]. exists k. split; [done|by left].
    + intros (k' & Hk' & Hin). apply string_app_inj_l, string_app_inj_l in Hk' as <-.
      apply elem_of_cons in Hin as [[= ->]|Hin]; [done|].
      exfalso. apply Hk. apply (list_elem_of_fmap_2 fst _ _ Hin).
  - rewrite IH by done. split; intros (k' & Hk' & Hin); exists k'; (split; [done|]).
    + by right.
    + apply elem_of_cons in Hin as [[= -> ->]|Hin]; [|done]. by destruct Hn.
Qed.

Lemma cut_prefix_Some p s t : cut_prefix p s = Some t ↔ s = p +:+ t.
Proof.
  unfold cut_prefix. revert s. induction p as [|a p IH]; intros s.
  - simpl. split; [by intros [= ->]|by intros ->].
  - rewrite string_app_cons. destruct s as [|b s]; simpl; [done|].
    case_bool_decide as Hb; simpl.
    + subst b. rewrite IH. split; [by intros ->|by intros [= ->]].
    + split; [done|]. intros [= -> _]. by destruct Hb.
Qed.

Lemma entries_env_map kind l (m : gmap string string) name :
  l ≡ₚ map_to_list m →
  entries_env kind l name = cut_prefix (kind +:+ ".") name ≫= λ key, m !! key.
Proof.
  intros Hl. apply option_eq. intros v.
  rewrite entries_env_Some by (rewrite Hl; apply NoDup_fst_map_to_list).
  setoid_rewrite Hl. setoid_rewrite elem_of_map_to_list. rewrite bind_Some.
  setoid_rewrite cut_prefix_Some. by setoid_rewrite string_app_assoc.
Qed.

Lemma sorted_entries_perm ns : sorted_entries ns ≡ₚ map_to_list ns.
Proof.
  unfold sorted_entries. rewrite sort_strings_perm, <-list_fmap_compose.
  assert (H : map (λ kv : string * string, (kv.1, get_str ns kv.1)) (map_to_list ns) = map_to_list ns);
    [|by rewrite <-H at 2].
  rewrite <-(map_id (map_to_list ns)) at 2. apply map_ext_in. intros [k v] Hin. simpl.
  apply list_elem_of_In, elem_of_map_to_list in Hin. unfold get_str. by rewrite Hin.
Qed.

Lemma values_plain_entries m l : values_plain m → l ≡ₚ map_to_list m → entries_plain l.
Proof.
  intros Hm Hl. unfold entries_plain. rewrite Hl. apply Forall_forall. intros [k v] Hk.
  apply (Hm k v). by apply elem_of_map_to_list.
Qed.

Lemma fill_fill env env' x :
  fill env' (fill env x) = fill (λ n, match env n with Some v => Some v | None => env' n end) x.
Proof. destruct x as [s|n]; simpl; [done|]. by destruct (env n). Qed.

(** Names of different kinds differ. *)
Lemma template_env_entries ns request state l1 l2 l3 name :
  l1 ≡ₚ map_to_list ns → l2 ≡ₚ map_to_list request → l3 ≡ₚ map_to_list state →
  match entries_env "ns" l1 name with
  | Some v => Some v
  | None => match entries_env "request" l2 name with
            | Some v => Some v
            | None => entries_env "state" l3 name
            end
  end = template_env ns request state name.
Proof.
  intros H1 H2 H3. rewrite (entries_env_map _ _ _ _ H1), (entries_env_map _ _ _ _ H2),
    (entries_env_map _ _ _ _ H3). unfold template_env.
  change ("ns" +:+ ".") with "ns.". change ("request" +:+ ".") with "request.".
  change ("state" +:+ ".") with "state.".
  destruct (cut_prefix "ns." name) as [k|] eqn:E1.
  - apply cut_prefix_Some in E1 as ->. simpl. by destruct (ns !! k).
  - simpl. destruct (cut_prefix "request." name) as [k|] eqn:E2; [|done].
    apply cut_prefix_Some in E2 as ->. simpl. by destruct (request !! k).
Qed.

Lemma fill_entries_ok kind es l :
  entries_plain es → Forall segment_ok l → Forall segment_ok (map (fill (entries_env kind es)) l).
Proof.
  intros Hes Hl. apply Forall_fmap. eapply Forall_impl; [exact Hl|]. intros x Hx. apply fill_ok; [done|].
  intros n v. induction Hes as [|[k w] es [_ Hw] Hes IH]; simpl; [done|]. case_bool_decide; [|done].
  by intros [= <-].
Qed.

(** Text without a brace has no placeholder. *)
Lemma replace_entries_text kind entries t : free_of "{" t = true → replace_entries kind entries t = t.
Proof.
  intros Ht. unfold replace_entries. induction entries as [|[k v] entries IH]; [done|]. cbn [foldl fst snd].
  enough (replace_all t (placeholder kind k) v = t) as -> by done.
  unfold replace_all. rewrite <-(string_app_nil_r t) at 1. rewrite replace_go_text by done. apply string_app_nil_r.
Qed.

Lemma print_texts l :
  Forall segment_ok l → (∀ name, Hole name ∉ l) → free_of "{" (print_segments l) = true.
Proof.
  induction 1 as [|[s|n] l Hx Hl IH]; intros Hn; [done| |].
  - change (print_segments (Text s :: l)) with (s +:+ print_segments l). cbn in Hx.
    unfold plain in Hx. apply andb_true_iff in Hx as [Hs _]. rewrite free_of_app, Hs, IH; [done|].
    intros name H. apply (Hn name). by right.
  - destruct (Hn n). by left.
Qed.

(** A template whose holes the namespaces and the request fill: the state, with
    whatever it holds, does not matter. *)
Lemma render_filled ns request requests states l :
  requests ≡ₚ map_to_list request → values_plain ns → values_plain request → Forall segment_ok l →
  (∀ name, Hole name ∈ l → is_Some (template_env ns request ∅ name)) →
  RenderTemplate_in (print_segments l) ns requests states
  = print_segments (map (fill (template_env ns request ∅)) l).
Proof.
  intros Hr Hn1 Hn2 Hl Hfill. unfold RenderTemplate_in.
  pose proof (values_plain_entries _ _ Hn1 (sorted_entries_perm ns)) as H1.
  pose proof (values_plain_entries _ _ Hn2 Hr) as H2.
  assert (Hok : Forall segment_ok (map (fill (entries_env "request" requests))
    (map (fill (entries_env "ns" (sorted_entries ns))) l))) by (apply fill_entries_ok; [done|by apply fill_entries_ok]).
  rewrite !replace_entries_segments by (done || by apply fill_entries_ok).
  assert (He : map (fill (entries_env "request" requests)) (map (fill (entries_env "ns" (sorted_entries ns))) l)
    = map (fill (template_env ns request ∅)) l).
  { rewrite map_map. apply map_ext. intros x. rewrite fill_fill. destruct x as [s|n]; [done|]. cbn [fill].
    rewrite <-(template_env_entries ns request ∅ (sorted_entries ns) requests [] n (sorted_entries_perm ns) Hr) by (by rewrite map_to_list_empty).
    cbn [entries_env]. by destruct (entries_env "ns" (sorted_entries ns) n), (entries_env "request" requests n). }
  rewrite He in *. apply replace_entries_text, print_texts; [done|].
  intros name ([s|n] & Hx & Hin)%list_elem_of_fmap; [done|]. destruct (Hfill n Hin) as [v Hv].
  cbn [fill] in Hx. by rewrite Hv in Hx.
Qed.

Definition example_template : list segment :=
  [Text "<s:Body xmlns:s='"; Hole "ns.soap"; Text "'><keepAliveAck hostId='"; Hole "request.hostId";
   Text "' state='"; Hole "state.sessionState"; Text "'/></s:Body>"].

(** ** Theorems *)

(** C34. On a template that is text and holes, with names and values without
    braces, [RenderTemplate] is the substitution of the holes, whatever the order
    in which the loops over the request and the state visit their maps; holes
    that nothing fills are left as they are written. *)
Theorem RenderTemplate_correct ns request state requests states l :
  requests ≡ₚ map_to_list request → states ≡ₚ map_to_list state →
  values_plain ns → values_plain request → values_plain state → Forall segment_ok l →
  RenderTemplate_in (print_segments l) ns requests states
  = print_segments (map (fill (template_env ns request state)) l).
Proof.
  intros Hr Hs Hn1 Hn2 Hn3 Hl. unfold RenderTemplate_in.
  pose proof (values_plain_entries _ _ Hn1 (sorted_entries_perm ns)).
  pose proof (values_plain_entries _ _ Hn2 Hr). pose proof (values_plain_entries _ _ Hn3 Hs).
  rewrite !replace_entries_segments by auto using fill_entries_ok. f_equal. rewrite !map_map. apply map_ext. intros x.
  rewrite !fill_fill. destruct x as [s|n]; [done|]. cbn [fill].
  by rewrite (template_env_entries ns request state _ _ _ n (sorted_entries_perm ns) Hr Hs).
Qed.

(** Values that contain a placeholder are expanded again, so that the result
    depends on the order of a Go map: a host identifier taken from the wire can
    pull in another field or not. *)
Theorem RenderTemplate_order_dependent :
  let tmpl := "host={{request.hostId}}" in
  let request := {[ "hostId" := "{{request.egmId}}"; "egmId" := "EGM-1" ]} in
  RenderTemplate_in tmpl ∅ [("hostId", "{{request.egmId}}"); ("egmId", "EGM-1")] [] = "host=EGM-1" ∧
  RenderTemplate_in tmpl ∅ [("egmId", "EGM-1"); ("hostId", "{{request.egmId}}")] []
    = "host={{request.egmId}}" ∧
  [("hostId", "{{request.egmId}}"); ("egmId", "EGM-1")] ≡ₚ map_to_list (request : gmap string string) ∧
  [("egmId", "EGM-1"); ("hostId", "{{request.egmId}}")] ≡ₚ map_to_list (request : gmap string string).
Proof.
  split_and!; [reflexivity|reflexivity|..]; vm_compute; first [reflexivity | apply Permutation_swap].
Qed.

(** ** Witnesses *)

Lemma RenderTemplate_correct_witness :
  let ns := {[ "soap" := "http://schemas.xmlsoap.org/soap/envelope/" ]} in
  RenderTemplate_in (print_segments example_template) ns [("hostId", "HOST-1")] []
  = "<s:Body xmlns:s='http://schemas.xmlsoap.org/soap/envelope/'><keepAliveAck hostId='HOST-1' state='{{state.sessionState}}'/></s:Body>".
Proof.
  intros ns. rewrite (RenderTemplate_correct ns {[ "hostId" := "HOST-1" ]} ∅);
    [reflexivity|reflexivity|reflexivity|by apply map_Forall_singleton
    |by apply map_Forall_singleton|apply map_Forall_empty|by repeat constructor].
Defined.
