(* ===== verification/Envelope.v ===== *)
(** * SOAP and G2S envelopes (src/runtime/soap_parser.go, xmlutil.go,
    ack_resolver.go, outbound.go, session_keepalive.go)

    The parsers walk the tokens of Go's [encoding/xml] decoder. Here they take
    the token stream: what the decoder delivers before it stops, and the error
    it stops with, if any. Names are local names with their name space. *)

From S2P Require Import Prelude GoStrings.

(** ** Tokens *)

Record attr := mkAttr { attr_Local : string; attr_Value : string }.

Inductive token :=
  | StartElement (local space : string) (attrs : list attr)
  | EndElement
  | CharData (text : string)
  | OtherToken.

(** The decoder's tokens and, unless it reached the end of input, its error. *)
Record xml_stream := mkStream { xs_tokens : list token; xs_error : option string }.

(** ** ParseG2SEnvelope *)

Definition SOAP11Namespace : string := "http://schemas.xmlsoap.org/soap/envelope/".
Definition SOAP12Namespace : string := "http://www.w3.org/2003/05/soap-envelope".

Record ParsedG2SEnvelope := mkParsed {
  pe_RootKind : string;
  pe_ClassName : string;
  pe_OperationName : string;
  pe_HostID : string;
  pe_EGMID : string;
  pe_DateTimeSent : string;
  pe_SessionID : string;
  pe_RawRoot : string;
  pe_RootNamespace : string;
  pe_SOAPNamespace : string;
  pe_HasEnvelope : bool;
  pe_HasBody : bool;
  pe_Fields : gmap string string;
}.

Definition empty_parsed : ParsedG2SEnvelope := mkParsed "" "" "" "" "" "" "" "" "" "" false false ∅.

Definition set_root (raw space : string) (p : ParsedG2SEnvelope) : ParsedG2SEnvelope :=
  mkParsed p.(pe_RootKind) p.(pe_ClassName) p.(pe_OperationName) p.(pe_HostID) p.(pe_EGMID)
    p.(pe_DateTimeSent) p.(pe_SessionID) raw space p.(pe_SOAPNamespace) p.(pe_HasEnvelope)
    p.(pe_HasBody) p.(pe_Fields).
Definition set_envelope (space : string) (p : ParsedG2SEnvelope) : ParsedG2SEnvelope :=
  mkParsed p.(pe_RootKind) p.(pe_ClassName) p.(pe_OperationName) p.(pe_HostID) p.(pe_EGMID)
    p.(pe_DateTimeSent) p.(pe_SessionID) p.(pe_RawRoot) p.(pe_RootNamespace) space true
    p.(pe_HasBody) p.(pe_Fields).
Definition set_body (p : ParsedG2SEnvelope) : ParsedG2SEnvelope :=
  mkParsed p.(pe_RootKind) p.(pe_ClassName) p.(pe_OperationName) p.(pe_HostID) p.(pe_EGMID)
    p.(pe_DateTimeSent) p.(pe_SessionID) p.(pe_RawRoot) p.(pe_RootNamespace) p.(pe_SOAPNamespace)
    p.(pe_HasEnvelope) true p.(pe_Fields).
Definition set_kind (kind : string) (p : ParsedG2SEnvelope) : ParsedG2SEnvelope :=
  mkParsed kind p.(pe_ClassName) p.(pe_OperationName) p.(pe_HostID) p.(pe_EGMID)
    p.(pe_DateTimeSent) p.(pe_SessionID) p.(pe_RawRoot) p.(pe_RootNamespace) p.(pe_SOAPNamespace)
    p.(pe_HasEnvelope) p.(pe_HasBody) p.(pe_Fields).
Definition set_class (class : string) (p : ParsedG2SEnvelope) : ParsedG2SEnvelope :=
  mkParsed p.(pe_RootKind) class p.(pe_OperationName) p.(pe_HostID) p.(pe_EGMID)
    p.(pe_DateTimeSent) p.(pe_SessionID) p.(pe_RawRoot) p.(pe_RootNamespace) p.(pe_SOAPNamespace)
    p.(pe_HasEnvelope) p.(pe_HasBody) p.(pe_Fields).
Definition set_operation (op : string) (p : ParsedG2SEnvelope) : ParsedG2SEnvelope :=
  mkParsed p.(pe_RootKind) p.(pe_ClassName) op p.(pe_HostID) p.(pe_EGMID)
    p.(pe_DateTimeSent) p.(pe_SessionID) p.(pe_RawRoot) p.(pe_RootNamespace) p.(pe_SOAPNamespace)
    p.(pe_HasEnvelope) p.(pe_HasBody) p.(pe_Fields).
Definition set_fields (fields : gmap string string) (p : ParsedG2SEnvelope) : ParsedG2SEnvelope :=
  mkParsed p.(pe_RootKind) p.(pe_ClassName) p.(pe_OperationName) p.(pe_HostID) p.(pe_EGMID)
    p.(pe_DateTimeSent) p.(pe_SessionID) p.(pe_RawRoot) p.(pe_RootNamespace) p.(pe_SOAPNamespace)
    p.(pe_HasEnvelope) p.(pe_HasBody) fields.

(** [parsed.HostID = firstNonEmpty(parsed.HostID, v)] and its likes *)
Definition keep_HostID (v : string) (p : ParsedG2SEnvelope) : ParsedG2SEnvelope :=
  mkParsed p.(pe_RootKind) p.(pe_ClassName) p.(pe_OperationName) (firstNonEmpty [p.(pe_HostID); v])
    p.(pe_EGMID) p.(pe_DateTimeSent) p.(pe_SessionID) p.(pe_RawRoot) p.(pe_RootNamespace)
    p.(pe_SOAPNamespace) p.(pe_HasEnvelope) p.(pe_HasBody) p.(pe_Fields).
Definition keep_EGMID (v : string) (p : ParsedG2SEnvelope) : ParsedG2SEnvelope :=
  mkParsed p.(pe_RootKind) p.(pe_ClassName) p.(pe_OperationName) p.(pe_HostID)
    (firstNonEmpty [p.(pe_EGMID); v]) p.(pe_DateTimeSent) p.(pe_SessionID) p.(pe_RawRoot)
    p.(pe_RootNamespace) p.(pe_SOAPNamespace) p.(pe_HasEnvelope) p.(pe_HasBody) p.(pe_Fields).
Definition keep_DateTimeSent (v : string) (p : ParsedG2SEnvelope) : ParsedG2SEnvelope :=
  mkParsed p.(pe_RootKind) p.(pe_ClassName) p.(pe_OperationName) p.(pe_HostID) p.(pe_EGMID)
    (firstNonEmpty [p.(pe_DateTimeSent); v]) p.(pe_SessionID) p.(pe_RawRoot)
    p.(pe_RootNamespace) p.(pe_SOAPNamespace) p.(pe_HasEnvelope) p.(pe_HasBody) p.(pe_Fields).
Definition keep_SessionID (v : string) (p : ParsedG2SEnvelope) : ParsedG2SEnvelope :=
  mkParsed p.(pe_RootKind) p.(pe_ClassName) p.(pe_OperationName) p.(pe_HostID) p.(pe_EGMID)
    p.(pe_DateTimeSent) (firstNonEmpty [p.(pe_SessionID); v]) p.(pe_RawRoot)
    p.(pe_RootNamespace) p.(pe_SOAPNamespace) p.(pe_HasEnvelope) p.(pe_HasBody) p.(pe_Fields).

Definition copyAttrs (fields : gmap string string) (attrs : list attr) : gmap string string :=
  foldl (λ m a, <[a.(attr_Local) := a.(attr_Value)]> m) fields attrs.

Fixpoint attrValue (attrs : list attr) (name : string) : string :=
  match attrs with
  | [] => ""
  | a :: rest => if bool_decide (a.(attr_Local) = name) then a.(attr_Value) else attrValue rest name
  end.

Definition with_attrs (attrs : list attr) (p : ParsedG2SEnvelope) : ParsedG2SEnvelope :=
  set_fields (copyAttrs p.(pe_Fields) attrs) p.

Definition isG2SClassContainer (parent : string) : bool := EqualFold parent "g2sBody".

Definition isG2SClassName (local : string) : bool :=
  bool_decide (ToLower local ∈ ["communications"; "cabinet"; "meters"; "eventhandler"; "deviceconfig";
    "commconfig"; "optionconfig"; "gameplay"; "player"; "printer"; "voucher"; "noteacceptor";
    "notedispenser"; "coinacceptor"; "hopper"; "handpay"; "bonus"; "progressive"; "download";
    "hardware"; "idreader"; "gat"; "wat"; "central"]).

Definition isLegacyOperationCandidate (local parent : string) (hasEnvelope : bool) : bool :=
  if EqualFold local "Envelope" || EqualFold local "Body" || EqualFold local "g2sMessage"
     || EqualFold local "g2sBody"
  then false else hasEnvelope && EqualFold parent "Body".

(** The case of a start element, [parent] being the local name of the element
    it stands in. *)
Definition start_element (parent local space : string) (attrs : list attr) (p : ParsedG2SEnvelope)
    : result ParsedG2SEnvelope :=
  let p := if bool_decide (p.(pe_RawRoot) = "") then set_root local space p else p in
  if EqualFold local "Envelope" then
    if negb (bool_decide (space = "")) && negb (bool_decide (space = SOAP11Namespace))
       && negb (bool_decide (space = SOAP12Namespace))
    then Err ("unsupported soap namespace " +:+ quote space)
    else Ok (set_envelope space p)
  else if EqualFold local "Body" && p.(pe_HasEnvelope) then Ok (set_body p)
  else if EqualFold local "g2sMessage" then
    Ok (set_root p.(pe_RawRoot) space (set_kind "g2sMessage" p))
  else if EqualFold local "g2sBody" then
    let p := if bool_decide (p.(pe_RootKind) = "") then set_kind "g2sBody" p else p in
    Ok (keep_DateTimeSent (attrValue attrs "dateTimeSent") (keep_EGMID (attrValue attrs "egmId")
         (keep_HostID (attrValue attrs "hostId") (with_attrs attrs p))))
  else if EqualFold local "g2sAck" then
    Ok (keep_DateTimeSent (attrValue attrs "dateTimeSent") (keep_EGMID (attrValue attrs "egmId")
         (keep_HostID (attrValue attrs "hostId")
           (with_attrs attrs (set_operation "g2sAck" (set_kind "g2sAck" p))))))
  else if EqualFold parent "g2sBody" && bool_decide (p.(pe_ClassName) = "")
          && bool_decide (p.(pe_OperationName) = "") then
    Ok (with_attrs attrs
         (if isG2SClassName local then set_class local p
          else keep_SessionID (attrValue attrs "sessionId") (set_operation local p)))
  else if isG2SClassContainer parent && bool_decide (p.(pe_ClassName) = "") then
    Ok (with_attrs attrs (set_class local p))
  else if negb (bool_decide (p.(pe_ClassName) = "")) && EqualFold parent p.(pe_ClassName)
          && bool_decide (p.(pe_OperationName) = "") then
    Ok (keep_SessionID (attrValue attrs "sessionId") (with_attrs attrs (set_operation local p)))
  else if bool_decide (p.(pe_OperationName) = "")
          && isLegacyOperationCandidate local parent p.(pe_HasEnvelope) then
    let p := set_root p.(pe_RawRoot) space (set_operation local (set_kind "legacy" p)) in
    Ok (keep_SessionID (attrValue attrs "sessionId") (keep_EGMID (attrValue attrs "egmId")
         (keep_HostID (attrValue attrs "hostId") (with_attrs attrs p))))
  else Ok p.

(** The case of character data in the element [cur]. *)
Definition char_data (cur text : string) (p : ParsedG2SEnvelope) : ParsedG2SEnvelope :=
  let text := TrimSpace text in
  if bool_decide (text = "") then p
  else
    let p := set_fields (<[cur := text]> p.(pe_Fields)) p in
    if bool_decide (cur ∈ ["hostId"; "hostID"; "host_id"]) then keep_HostID text p
    else if bool_decide (cur ∈ ["egmId"; "egmID"; "egm_id"]) then keep_EGMID text p
    else if bool_decide (cur ∈ ["sessionId"; "session_id"]) then keep_SessionID text p
    else if bool_decide (cur = "dateTimeSent") then keep_DateTimeSent text p
    else p.

(** The loop over the tokens; [stack] holds the local names of the open
    elements, innermost first. *)
Fixpoint parse_tokens (toks : list token) (stack : list string) (p : ParsedG2SEnvelope)
    : result ParsedG2SEnvelope :=
  match toks with
  | [] => Ok p
  | StartElement local space attrs :: rest =>
      p ← start_element (default "" (head stack)) local space attrs p;
      parse_tokens rest (local :: stack) p
  | CharData text :: rest =>
      parse_tokens rest stack
        (match stack with [] => p | cur :: _ => char_data cur text p end)
  | EndElement :: rest => parse_tokens rest (tail stack) p
  | OtherToken :: rest => parse_tokens rest stack p
  end.

Definition ParseG2SEnvelope (data : xml_stream) : result ParsedG2SEnvelope :=
  p ← parse_tokens data.(xs_tokens) [] empty_parsed;
  match data.(xs_error) with
  | Some e => Err e
  | None =>
      if bool_decide (p.(pe_OperationName) = "") then Err "g2s operation is required"
      else Ok (if bool_decide (p.(pe_RootKind) = "") then set_kind "legacy" p else p)
  end.

(** ** ParseG2SMessage *)

Record ParsedG2SMessage := mkMessage {
  pm_RootLocalName : string;
  pm_RootNamespace : string;
  pm_SOAPNamespace : string;
  pm_HasEnvelope : bool;
  pm_HasBody : bool;
  pm_Fields : gmap string string;
}.

Definition ParseG2SMessage (data : xml_stream) : result ParsedG2SMessage :=
  p ← ParseG2SEnvelope data;
  Ok (mkMessage (firstNonEmpty [p.(pe_OperationName); p.(pe_RawRoot)]) p.(pe_RootNamespace)
    p.(pe_SOAPNamespace) p.(pe_HasEnvelope) p.(pe_HasBody) p.(pe_Fields)).

(** ** Regular expressions of xmlutil.go

    Go's [regexp] finds the leftmost match and prefers the longer repetition;
    the matchers below are written in continuation-passing style, so that every
    choice is tried in that order. All repetitions range over byte classes. *)

Section matchers.
Context {A : Type}.

Definition matcher : Type := string → option A.

Fixpoint rx_star (p : ascii → bool) (k : matcher) (s : string) : option A :=
  match s with
  | String c s' =>
      if p c then match rx_star p k s' with Some a => Some a | None => k s end else k s
  | EmptyString => k ""
  end.

Definition rx_plus (p : ascii → bool) (k : matcher) : matcher := λ s,
  match s with
  | String c s' => if p c then rx_star p k s' else None
  | EmptyString => None
  end.

Definition rx_word (w : string) (k : matcher) : matcher := λ s,
  if has_prefix w s then k (drop_bytes (String.length w) s) else None.

Definition rx_opt (r : matcher → matcher) (k : matcher) : matcher := λ s,
  match r k s with Some a => Some a | None => k s end.

(** [FindStringSubmatch]: the leftmost position at which the matcher succeeds. *)
Fixpoint rx_find (r : matcher) (s : string) : option A :=
  match r s with
  | Some a => Some a
  | None => match s with EmptyString => None | String _ s' => rx_find r s' end
  end.
End matchers.

(** A capturing [(p+)] followed by [k]. *)
Definition rx_capture (p : ascii → bool) (k : string → bool) : string → option string := λ s,
  rx_plus p (λ rest, if k rest
    then Some (take_bytes (String.length s - String.length rest) s) else None) s.

Definition name_byte (c : ascii) : bool :=
  let n := Ascii.nat_of_ascii c in
  ((65 <=? n) && (n <=? 90)) || ((97 <=? n) && (n <=? 122)) || ((48 <=? n) && (n <=? 57))
  || (n =? 95) || (n =? 45).
Definition space_byte (c : ascii) : bool :=
  bool_decide (c ∈ ["009"%char; "010"%char; "012"%char; "013"%char; " "%char]).
Definition not_byte (d c : ascii) : bool := negb (bool_decide (c = d)).

(** [(?:(?:[A-Za-z0-9_\-]+):)?([A-Za-z0-9_\-]+)] followed by [k] *)
Definition rx_local_name (k : string → bool) : string → option string :=
  rx_opt (λ k', rx_plus name_byte (rx_word ":" k')) (rx_capture name_byte k).

Definition rx_after_body : string → option string :=
  rx_word "<" (rx_star (not_byte ">") (rx_word "Body" (rx_star (not_byte ">")
    (rx_word ">" (rx_star space_byte (rx_word "<" (rx_local_name (λ _, true)))))))).

Definition rx_any_tag : string → option string :=
  rx_word "<" (rx_local_name (λ rest,
    bool_decide (is_Some (rx_star (A := unit) (not_byte ">") (rx_word ">" (λ _, Some ())) rest)))).

Definition rootLocalNameFromRaw (raw : string) : string :=
  match rx_find rx_after_body raw with
  | Some name => name
  | None => default "" (rx_find rx_any_tag raw)
  end.

Definition ExtractLocalName (selector : string) : string :=
  default "" (rx_find (rx_word "local-name()='" (rx_capture (not_byte "'") (has_prefix "'"))) selector).

(** ** ParseMessage and acknowledgements *)

Definition isEnvelopeLocal (local : string) : bool := EqualFold local "Envelope".
Definition isBodyLocal (local : string) : bool := EqualFold local "Body".

Record ParsedMessage := mkParsedMessage {
  parsed_RootLocalName : string;
  parsed_Fields : gmap string string;
}.

(** The loop of [ParseMessage], which ends silently at the first error. *)
Fixpoint message_tokens (toks : list token) (stack : list string) (root : string)
    (fields : gmap string string) : string * gmap string string :=
  match toks with
  | [] => (root, fields)
  | StartElement local _ _ :: rest =>
      let root := if bool_decide (root = "") && negb (isEnvelopeLocal local) && negb (isBodyLocal local)
                  then local else root in
      message_tokens rest (local :: stack) root fields
  | EndElement :: rest => message_tokens rest (tail stack) root fields
  | CharData text :: rest =>
      let text := TrimSpace text in
      match stack with
      | [] => message_tokens rest stack root fields
      | cur :: _ =>
          message_tokens rest stack root
            (if bool_decide (text = "") then fields else <[cur := text]> fields)
      end
  | OtherToken :: rest => message_tokens rest stack root fields
  end.

(** The bytes of a message with the tokens the decoder finds in them. *)
Record xml_bytes := mkBytes { xb_raw : string; xb_stream : xml_stream }.

Definition ParseMessage (data : xml_bytes) : ParsedMessage :=
  let '(root, fields) := message_tokens data.(xb_stream).(xs_tokens) [] "" ∅ in
  mkParsedMessage (if bool_decide (root = "") then rootLocalNameFromRaw data.(xb_raw) else root) fields.

(** [rootLocalNameFromResponse] of outbound.go *)
Definition rootLocalNameFromResponse (data : xml_bytes) : string :=
  match ParseG2SEnvelope data.(xb_stream) with
  | Ok p => firstNonEmpty [p.(pe_OperationName); p.(pe_RawRoot)]
  | Err _ => (ParseMessage data).(parsed_RootLocalName)
  end.

(** [firstNestedAckName] of evidence_latest.go; [depth] is the number of open
    elements. *)
Fixpoint nested_ack_tokens (toks : list token) (depth : nat) : string :=
  match toks with
  | [] => ""
  | StartElement local _ _ :: rest =>
      if (1 <? S depth) && has_suffix "Ack" local && negb (bool_decide (local = "g2sAck"))
      then local else nested_ack_tokens rest (S depth)
  | EndElement :: rest => nested_ack_tokens rest (pred depth)
  | _ :: rest => nested_ack_tokens rest depth
  end.
Definition firstNestedAckName (data : xml_stream) : string := nested_ack_tokens data.(xs_tokens) 0.

(** ack_resolver.go; [acceptWrapped] is [cfg.AcceptWrappedG2SResponseAck]. *)
Definition resolveAck (expected actual : string) (raw : xml_stream) (acceptWrapped : bool) : string :=
  if bool_decide (actual = expected) then actual
  else if acceptWrapped then
    if bool_decide (actual = "g2sResponse") then
      if bool_decide (firstNestedAckName raw = expected) then expected else expected
    else actual
  else actual.

(** [expectedAckRoot] of outbound.go *)
Definition expectedAckRoot (messageType : string) : string :=
  if bool_decide (messageType = "commsOnLine") then "commsOnLineAck"
  else if bool_decide (messageType = "keepAlive") then "keepAliveAck"
  else if bool_decide (messageType = "setKeepAlive") then "setKeepAliveAck"
  else if bool_decide (messageType = "commsClosing") then "commsClosingAck"
  else "".

(** ** binding.go *)

Record bindingCheckResult := mkBinding { bc_OK : bool; bc_StatusCode : Z; bc_Message : string }.

Definition media_type (contentType : string) : string :=
  default "" (head (split_char ";" contentType)).

Definition xml_media_types : list string := ["text/xml"; "application/xml"; "application/soap+xml"].

Definition validateG2SBindingRequest (method contentType : string) : bindingCheckResult :=
  if negb (bool_decide (method = "POST")) then mkBinding false 405 "method not allowed"
  else
    let contentType := ToLower (TrimSpace contentType) in
    if bool_decide (contentType = "") then mkBinding false 415 "content-type is required"
    else if bool_decide (TrimSpace (media_type contentType) ∈ xml_media_types) then mkBinding true 0 ""
    else mkBinding false 415 ("unsupported content-type " +:+ quote contentType).

(** [isXMLContentType] of wire_restore.go *)
Definition isXMLContentType (contentType : string) : bool :=
  bool_decide (ToLower (TrimSpace (media_type contentType)) ∈ xml_media_types).

Example raw_root_body :
  rootLocalNameFromRaw "<s:Envelope><s:Body><g:keepAliveAck a='1'></broken" = "keepAliveAck".
Proof. reflexivity. Qed.
Example raw_root_tag : rootLocalNameFromRaw "junk <g:foo-bar x='1'> </g:other>" = "foo-bar".
Proof. reflexivity. Qed.
Example local_name_selector : ExtractLocalName "//*[local-name()='hostId']" = "hostId".
Proof. reflexivity. Qed.

(** ** What a parsed envelope satisfies *)

Definition soap_namespaces : list string := [""; SOAP11Namespace; SOAP12Namespace].
Definition root_kinds : list string := ["g2sMessage"; "g2sBody"; "g2sAck"; "legacy"].

Record parsed_inv (p : ParsedG2SEnvelope) : Prop := {
  inv_kind : p.(pe_RootKind) = "" ∨ p.(pe_RootKind) ∈ root_kinds;
  inv_soap : p.(pe_SOAPNamespace) ∈ soap_namespaces;
  inv_body : p.(pe_HasBody) = true → p.(pe_HasEnvelope) = true;
  inv_root : p.(pe_RawRoot) = "" → p.(pe_OperationName) = "";
}.

(** What was found first stays: only a g2sAck replaces an operation. *)
Record extends (p q : ParsedG2SEnvelope) : Prop := {
  ext_host : p.(pe_HostID) ≠ "" → q.(pe_HostID) = p.(pe_HostID);
  ext_egm : p.(pe_EGMID) ≠ "" → q.(pe_EGMID) = p.(pe_EGMID);
  ext_date : p.(pe_DateTimeSent) ≠ "" → q.(pe_DateTimeSent) = p.(pe_DateTimeSent);
  ext_session : p.(pe_SessionID) ≠ "" → q.(pe_SessionID) = p.(pe_SessionID);
  ext_class : p.(pe_ClassName) ≠ "" → q.(pe_ClassName) = p.(pe_ClassName);
  ext_root : p.(pe_RawRoot) ≠ "" → q.(pe_RawRoot) = p.(pe_RawRoot);
  ext_operation : p.(pe_OperationName) ≠ "" →
    q.(pe_OperationName) = p.(pe_OperationName) ∨ q.(pe_OperationName) = "g2sAck";
  ext_envelope : p.(pe_HasEnvelope) = true → q.(pe_HasEnvelope) = true;
  ext_body : p.(pe_HasBody) = true → q.(pe_HasBody) = true;
}.

(** An element name that the parser gives no meaning of its own. *)
Definition plain_element (local : string) : Prop :=
  local ≠ "" ∧ EqualFold local "Envelope" = false ∧ EqualFold local "Body" = false ∧
  EqualFold local "g2sMessage" = false ∧ EqualFold local "g2sBody" = false ∧
  EqualFold local "g2sAck" = false.

(** A message of the schema: g2sMessage, g2sBody, a class, an operation. *)
Definition xsd_tokens (ns host egm time class op : string) (attrs : list attr) : list token :=
  [StartElement "g2sMessage" ns [];
   StartElement "g2sBody" ns [mkAttr "dateTimeSent" time; mkAttr "egmId" egm; mkAttr "hostId" host];
   StartElement class ns []; StartElement op ns attrs;
   EndElement; EndElement; EndElement; EndElement].

(** A legacy message: a SOAP body with the operation and its fields as elements. *)
Definition field_tokens (ns : string) (field : string * string) : list token :=
  [StartElement field.1 ns []; CharData field.2; EndElement].
Definition legacy_tokens (soap ns op : string) (fields : list (string * string)) : list token :=
  [StartElement "Envelope" soap []; StartElement "Body" soap []; StartElement op ns []]
  ++ concat (map (field_tokens ns) fields) ++ [EndElement; EndElement; EndElement].

(** The text of an element, as the parser takes it up. *)
Definition add_field (p : ParsedG2SEnvelope) (field : string * string) : ParsedG2SEnvelope :=
  char_data field.1 field.2 p.

(** The texts of the elements with one of the names, in order. *)
Definition said (names : list string) (fields : list (string * string)) : list string :=
  omap (λ f, if decide (f.1 ∈ names ∧ TrimSpace f.2 ≠ "") then Some (TrimSpace f.2) else None) fields.
Definition first_said (names : list string) (fields : list (string * string)) : string :=
  default "" (head (said names fields)).

(** ** Lemmas *)

Lemma EqualFold_refl s : EqualFold s s = true.
Proof. apply String.eqb_refl. Qed.

Lemma keep_first a b : a ≠ "" → firstNonEmpty [a; b] = a.
Proof. intros H. simpl. by rewrite bool_decide_eq_false_2. Qed.

#[export] Instance extends_refl : Reflexive extends.
Proof. intros p. split; auto. Qed.

#[export] Instance extends_trans : Transitive extends.
Proof.
  intros p q r [A1 A2 A3 A4 A5 A6 A7 A8 A9] [B1 B2 B3 B4 B5 B6 B7 B8 B9].
  split; intros H; [| | | | | | |auto|auto].
  1-6: match goal with A : ?x ≠ "" → ?y = ?x, B : ?y ≠ "" → ?z = ?y |- ?z = ?x =>
         rewrite B, A by (rewrite ?A by exact H; exact H); reflexivity end.
  assert (Hq : q.(pe_OperationName) ≠ "") by (intros Hq; destruct (A7 H); congruence).
  destruct (B7 Hq) as [->|?]; [by apply A7|by right].
Qed.

(** Case analysis on one element: every branch of [start_element]. *)
Ltac element_cases H :=
  unfold start_element in H; cbv zeta in H;
  repeat match type of H with
  | context [if ?b then _ else _] => destruct b eqn:?; cbn in H
  end; try discriminate H; try (injection H as <-).

Ltac keep_fields :=
  repeat match goal with
  | H : ?a ≠ "" |- context [bool_decide (?a = "")] => rewrite (bool_decide_eq_false_2 _ H)
  end.

Lemma EqualFold_ne local s : EqualFold local s = true → s ≠ "" → fold_case s ≠ "" → local ≠ "".
Proof. intros H _ Hs ->. apply String.eqb_eq in H. by destruct Hs. Qed.

Lemma start_element_extends parent local space attrs p q :
  start_element parent local space attrs p = Ok q → extends p q.
Proof.
  intros H. element_cases H; split; cbn; intros Hx; keep_fields; bool_props; simpl in *;
    first [done | by auto | congruence].
Qed.

Lemma char_data_extends cur text p : extends p (char_data cur text p).
Proof.
  unfold char_data. cbv zeta. repeat case_bool_decide; split; cbn; intros Hx; keep_fields; auto.
Qed.

(** Parsing is monotone in what was found. *)
Lemma parse_tokens_extends toks stack p q : parse_tokens toks stack p = Ok q → extends p q.
Proof.
  revert stack p. induction toks as [|t toks IH]; intros stack p H; simpl in H.
  { by injection H as <-. }
  destruct t as [local space attrs| |text|]; [|by apply (IH _ _ H)| |by apply (IH _ _ H)].
  - apply result_bind_ok in H as (p' & Hp & H). etrans; [by eapply start_element_extends|by eapply IH].
  - etrans; [|by eapply IH]. destruct stack; [reflexivity|apply char_data_extends].
Qed.

Lemma soap_namespace_ok space :
  negb (bool_decide (space = "")) && negb (bool_decide (space = SOAP11Namespace))
  && negb (bool_decide (space = SOAP12Namespace)) = false ↔ space ∈ soap_namespaces.
Proof.
  unfold soap_namespaces. rewrite !elem_of_cons, elem_of_nil.
  repeat case_bool_decide; simpl; naive_solver.
Qed.

(** Every named element leaves the name of the root behind. *)
Lemma start_element_root parent local space attrs p q :
  start_element parent local space attrs p = Ok q → local ≠ "" → q.(pe_RawRoot) ≠ "".
Proof.
  intros H Hl. element_cases H; cbn in *; bool_props; simpl in *; congruence.
Qed.

Lemma start_element_soap parent local space attrs p q :
  start_element parent local space attrs p = Ok q →
  p.(pe_SOAPNamespace) ∈ soap_namespaces → q.(pe_SOAPNamespace) ∈ soap_namespaces.
Proof.
  intros H Hs. unfold start_element in H. cbv zeta in H.
  destruct (EqualFold local "Envelope").
  - destruct (negb _ && _ && _) eqn:Hns; [discriminate|]. injection H as <-. by apply soap_namespace_ok.
  - repeat match type of H with context [if ?b then _ else _] => destruct b; cbn in H end;
      injection H as <-; exact Hs.
Qed.

Lemma start_element_kind parent local space attrs p q :
  start_element parent local space attrs p = Ok q →
  p.(pe_RootKind) = "" ∨ p.(pe_RootKind) ∈ root_kinds →
  q.(pe_RootKind) = "" ∨ q.(pe_RootKind) ∈ root_kinds.
Proof.
  intros H Hk. element_cases H; cbn; try exact Hk; right; unfold root_kinds; rewrite !elem_of_cons; auto.
Qed.

Lemma start_element_body parent local space attrs p q :
  start_element parent local space attrs p = Ok q →
  (p.(pe_HasBody) = true → p.(pe_HasEnvelope) = true) →
  q.(pe_HasBody) = true → q.(pe_HasEnvelope) = true.
Proof.
  intros H Hb. element_cases H; cbn in *; bool_props; auto.
Qed.

Lemma start_element_nameless parent local space attrs p q :
  start_element parent local space attrs p = Ok q →
  (p.(pe_RawRoot) = "" → p.(pe_OperationName) = "") →
  q.(pe_RawRoot) = "" → q.(pe_OperationName) = "".
Proof.
  intros H Hr Hq. destruct (decide (local = "")) as [->|Hl].
  - destruct (decide (p.(pe_RawRoot) = "")) as [Hp|Hp].
    + specialize (Hr Hp). unfold start_element in H. cbv zeta in H. rewrite Hp in H. cbn in H.
      repeat match type of H with context [if ?b then _ else _] => destruct b; cbn in H end;
        injection H as <-; done.
    + by rewrite (ext_root _ _ (start_element_extends _ _ _ _ _ _ H) Hp) in Hq.
  - by destruct (start_element_root _ _ _ _ _ _ H).
Qed.

Lemma start_element_inv parent local space attrs p q :
  start_element parent local space attrs p = Ok q → parsed_inv p → parsed_inv q.
Proof.
  intros H [Hk Hs Hb Hr]. split.
  - by eapply start_element_kind.
  - by eapply start_element_soap.
  - by eapply start_element_body.
  - by eapply start_element_nameless.
Qed.

Lemma char_data_inv cur text p : parsed_inv p → parsed_inv (char_data cur text p).
Proof. intros []. unfold char_data. cbv zeta. repeat case_bool_decide; by split. Qed.

Lemma parse_tokens_inv toks stack p q :
  parse_tokens toks stack p = Ok q → parsed_inv p → parsed_inv q.
Proof.
  revert stack p. induction toks as [|t toks IH]; intros stack p H Hp; simpl in H; [by injection H as <-|].
  destruct t as [local space attrs| |text|]; [|by eapply IH| |by eapply IH].
  - apply result_bind_ok in H as (p' & Hp' & H). eapply IH; [exact H|]. by eapply start_element_inv.
  - eapply IH; [exact H|]. destruct stack; [done|by apply char_data_inv].
Qed.

Lemma empty_parsed_inv : parsed_inv empty_parsed.
Proof. split; [by left|left|done|done]. Qed.

(** An envelope of an unknown name space ends the loop. *)
Lemma parse_tokens_rejects toks stack p local space attrs :
  StartElement local space attrs ∈ toks → EqualFold local "Envelope" = true →
  space ∉ soap_namespaces → is_ok (parse_tokens toks stack p) = false.
Proof.
  intros Hin He Hs. revert stack p. induction toks as [|t toks IH]; intros stack p; [by apply elem_of_nil in Hin|].
  apply elem_of_cons in Hin as [<-|Hin].
  - simpl. unfold start_element. rewrite He.
    destruct (negb _ && _ && _) eqn:Hns; [done|]. by apply soap_namespace_ok in Hns.
  - destruct t as [l sp at'| |text|]; simpl; [|by apply IH..].
    destruct (start_element _ _ _ _ _); simpl; [by apply IH|done].
Qed.

(** ** Lemmas: the two shapes of a message *)

Lemma plain_element_ne op : plain_element op → bool_decide (op = "") = false.
Proof. intros (H & _). by apply bool_decide_eq_false. Qed.

Lemma start_plain parent local space attrs p :
  plain_element local → p.(pe_RawRoot) ≠ "" →
  start_element parent local space attrs p
  = if EqualFold parent "g2sBody" && bool_decide (p.(pe_ClassName) = "")
       && bool_decide (p.(pe_OperationName) = "") then
      Ok (with_attrs attrs
         (if isG2SClassName local then set_class local p
          else keep_SessionID (attrValue attrs "sessionId") (set_operation local p)))
    else if isG2SClassContainer parent && bool_decide (p.(pe_ClassName) = "") then
      Ok (with_attrs attrs (set_class local p))
    else if negb (bool_decide (p.(pe_ClassName) = "")) && EqualFold parent p.(pe_ClassName)
            && bool_decide (p.(pe_OperationName) = "") then
      Ok (keep_SessionID (attrValue attrs "sessionId") (with_attrs attrs (set_operation local p)))
    else if bool_decide (p.(pe_OperationName) = "") && (p.(pe_HasEnvelope) && EqualFold parent "Body") then
      Ok (keep_SessionID (attrValue attrs "sessionId") (keep_EGMID (attrValue attrs "egmId")
         (keep_HostID (attrValue attrs "hostId") (with_attrs attrs
           (set_root p.(pe_RawRoot) space (set_operation local (set_kind "legacy" p)))))))
    else Ok p.
Proof.
  intros (Hn & He & Hb & Hm & Hg & Ha) Hr. unfold start_element, isLegacyOperationCandidate.
  rewrite (bool_decide_eq_false_2 _ Hr), He, Hb, Hm, Hg, Ha. done.
Qed.

Lemma first_of_empty v : firstNonEmpty [""; v] = v.
Proof. simpl. by case_bool_decide. Qed.

Lemma parse_start local space attrs rest stack p q :
  start_element (default "" (head stack)) local space attrs p = Ok q →
  parse_tokens (StartElement local space attrs :: rest) stack p = parse_tokens rest (local :: stack) q.
Proof. intros H. cbn [parse_tokens]. by rewrite H. Qed.

Lemma start_message ns :
  start_element "" "g2sMessage" ns [] empty_parsed
  = Ok (mkParsed "g2sMessage" "" "" "" "" "" "" "g2sMessage" ns "" false false ∅).
Proof. reflexivity. Qed.

Lemma start_body ns host egm time :
  let attrs := [mkAttr "dateTimeSent" time; mkAttr "egmId" egm; mkAttr "hostId" host] in
  start_element "g2sMessage" "g2sBody" ns attrs
    (mkParsed "g2sMessage" "" "" "" "" "" "" "g2sMessage" ns "" false false ∅)
  = Ok (mkParsed "g2sMessage" "" "" host egm time "" "g2sMessage" ns "" false false (copyAttrs ∅ attrs)).
Proof.
  intros attrs.
  transitivity (Ok (mkParsed "g2sMessage" "" "" (firstNonEmpty [""; host]) (firstNonEmpty [""; egm])
    (firstNonEmpty [""; time]) "" "g2sMessage" ns "" false false (copyAttrs ∅ attrs)));
    [reflexivity|by rewrite !first_of_empty].
Qed.

Lemma parse_xsd_tokens ns host egm time class op attrs :
  plain_element class → isG2SClassName class = true → plain_element op →
  parse_tokens (xsd_tokens ns host egm time class op attrs) [] empty_parsed
  = Ok (mkParsed "g2sMessage" class op host egm time (attrValue attrs "sessionId") "g2sMessage" ns ""
      false false (copyAttrs {[ "dateTimeSent" := time; "egmId" := egm; "hostId" := host ]} attrs)).
Proof.
  intros Hc Hcn Ho. unfold xsd_tokens.
  erewrite parse_start; [|exact (start_message ns)].
  erewrite parse_start; [|exact (start_body ns host egm time)].
  assert (E3 : ∀ p, p.(pe_ClassName) = "" → p.(pe_OperationName) = "" → p.(pe_RawRoot) ≠ "" →
    start_element "g2sBody" class ns [] p = Ok (set_class class p)).
  { intros p H1 H2 H3. rewrite start_plain, H1, H2 by done. cbn. rewrite Hcn. by destruct p. }
  erewrite parse_start; [|by apply E3].
  assert (E4 : ∀ p, p.(pe_ClassName) = class → p.(pe_OperationName) = "" → p.(pe_RawRoot) ≠ "" →
    start_element class op ns attrs p
    = Ok (keep_SessionID (attrValue attrs "sessionId") (with_attrs attrs (set_operation op p)))).
  { intros p H1 H2 H3. rewrite start_plain, H1, H2 by done.
    destruct Hc as (Hne & _ & _ & _ & Hg & _). unfold isG2SClassContainer.
    rewrite Hg, (bool_decide_eq_false_2 _ Hne), EqualFold_refl. done. }
  erewrite parse_start; [|by apply E4].
  cbn [parse_tokens]. unfold keep_SessionID. rewrite first_of_empty. reflexivity.
Qed.

Lemma start_envelope soap :
  soap ∈ soap_namespaces →
  start_element "" "Envelope" soap [] empty_parsed
  = Ok (mkParsed "" "" "" "" "" "" "" "Envelope" soap soap true false ∅).
Proof.
  intros Hs. unfold start_element. change (EqualFold "Envelope" "Envelope") with true. cbv zeta.
  by rewrite (proj2 (soap_namespace_ok soap) Hs).
Qed.

Definition legacy_start (soap ns op : string) : ParsedG2SEnvelope :=
  mkParsed "legacy" "" op "" "" "" "" "Envelope" ns soap true true ∅.

Lemma add_field_keeps p f :
  (add_field p f).(pe_ClassName) = p.(pe_ClassName) ∧
  (add_field p f).(pe_OperationName) = p.(pe_OperationName) ∧
  (add_field p f).(pe_RootKind) = p.(pe_RootKind).
Proof. unfold add_field, char_data. cbv zeta. by repeat case_bool_decide. Qed.

(** The elements of the fields only add their text. *)
Lemma parse_fields ns op fields p rest :
  Forall (λ f, plain_element f.1) fields → p.(pe_ClassName) = "" → p.(pe_OperationName) ≠ "" →
  p.(pe_RawRoot) ≠ "" → EqualFold op "g2sBody" = false →
  parse_tokens (concat (map (field_tokens ns) fields) ++ rest) [op; "Body"; "Envelope"] p
  = parse_tokens rest [op; "Body"; "Envelope"] (foldl add_field p fields).
Proof.
  intros Hf. revert p. induction Hf as [|[k v] fields Hk Hf IH]; intros p Hc Ho Hr Hg; [done|].
  cbn [fst] in Hk. cbn [map concat field_tokens app fst snd].
  assert (E : start_element op k ns [] p = Ok p).
  { rewrite start_plain, Hc, (bool_decide_eq_false_2 _ Ho) by done. unfold isG2SClassContainer.
    by rewrite Hg. }
  erewrite parse_start; [|exact E]. cbn [parse_tokens tail foldl].
  pose proof (char_data_extends k v p) as Hx.
  destruct (add_field_keeps p (k, v)) as (Hc' & Ho' & _).
  apply IH; [by rewrite Hc'|by rewrite Ho'| |done].
  intros Hz. unfold add_field in Hz. cbn [fst snd] in Hz. by rewrite (ext_root _ _ Hx Hr) in Hz.
Qed.

Lemma parse_legacy_tokens soap ns op fields :
  soap ∈ soap_namespaces → plain_element op → Forall (λ f, plain_element f.1) fields →
  parse_tokens (legacy_tokens soap ns op fields) [] empty_parsed
  = Ok (foldl add_field (legacy_start soap ns op) fields).
Proof.
  intros Hs Ho Hf. unfold legacy_tokens. cbn [app].
  erewrite parse_start; [|exact (start_envelope soap Hs)].
  rewrite (parse_start _ _ _ _ _ _ (mkParsed "" "" "" "" "" "" "" "Envelope" soap soap true true ∅))
    by reflexivity.
  rewrite (parse_start _ _ _ _ _ _ (legacy_start soap ns op)).
  - destruct Ho as (Hne & _ & _ & _ & Hg & _). by rewrite parse_fields.
  - rewrite start_plain by done. reflexivity.
Qed.

Lemma add_fields_operation p fields :
  (foldl add_field p fields).(pe_OperationName) = p.(pe_OperationName).
Proof.
  revert p. induction fields as [|f fields IH]; intros p; [done|]. cbn [foldl]. rewrite IH.
  apply add_field_keeps.
Qed.

Lemma add_fields_kind p fields : (foldl add_field p fields).(pe_RootKind) = p.(pe_RootKind).
Proof.
  revert p. induction fields as [|f fields IH]; intros p; [done|]. cbn [foldl]. rewrite IH.
  apply add_field_keeps.
Qed.

(** An identifier that is known stays; else the first element that gives one
    decides. *)
Lemma first_said_cons names k v fields h :
  firstNonEmpty [if decide (k ∈ names ∧ TrimSpace v ≠ "") then firstNonEmpty [h; TrimSpace v] else h;
                 first_said names fields]
  = firstNonEmpty [h; first_said names ((k, v) :: fields)].
Proof.
  unfold first_said, said. cbn [omap list_omap fst snd]. fold (said names fields). cbn [firstNonEmpty].
  destruct (decide _) as [[_ Hv]|]; cbn [head default from_option]; [|done].
  destruct (decide (h = "")) as [->|Hh].
  - rewrite (bool_decide_eq_true_2 ("" = "")), !(bool_decide_eq_false_2 _ Hv) by done. done.
  - by rewrite !(bool_decide_eq_false_2 _ Hh).
Qed.

Lemma last_said_cons name k v fields :
  last (said [name] ((k, v) :: fields))
  = match last (said [name] fields) with
    | Some t => Some t
    | None => if decide (k = name ∧ TrimSpace v ≠ "") then Some (TrimSpace v) else None
    end.
Proof.
  unfold said. cbn [omap list_omap fst snd]. fold (said [name] fields).
  destruct (decide (k ∈ [name] ∧ _)) as [[Hk Hv]|Hn].
  - apply list_elem_of_singleton in Hk as ->. rewrite decide_True by done. rewrite last_cons. by destruct (last _).
  - rewrite decide_False by (intros [-> ?]; apply Hn; split; [by left|done]). by destruct (last _).
Qed.

(** One element. *)
Lemma add_field_said p k v :
  ∃ values, add_field p (k, v) = {|
    pe_RootKind := p.(pe_RootKind); pe_ClassName := p.(pe_ClassName); pe_OperationName := p.(pe_OperationName);
    pe_HostID := if decide (k ∈ ["hostId"; "hostID"; "host_id"] ∧ TrimSpace v ≠ "")
                 then firstNonEmpty [p.(pe_HostID); TrimSpace v] else p.(pe_HostID);
    pe_EGMID := if decide (k ∈ ["egmId"; "egmID"; "egm_id"] ∧ TrimSpace v ≠ "")
                then firstNonEmpty [p.(pe_EGMID); TrimSpace v] else p.(pe_EGMID);
    pe_DateTimeSent := if decide (k ∈ ["dateTimeSent"] ∧ TrimSpace v ≠ "")
                       then firstNonEmpty [p.(pe_DateTimeSent); TrimSpace v] else p.(pe_DateTimeSent);
    pe_SessionID := if decide (k ∈ ["sessionId"; "session_id"] ∧ TrimSpace v ≠ "")
                    then firstNonEmpty [p.(pe_SessionID); TrimSpace v] else p.(pe_SessionID);
    pe_RawRoot := p.(pe_RawRoot); pe_RootNamespace := p.(pe_RootNamespace); pe_SOAPNamespace := p.(pe_SOAPNamespace);
    pe_HasEnvelope := p.(pe_HasEnvelope); pe_HasBody := p.(pe_HasBody); pe_Fields := values |} ∧
  ∀ name, values !! name = if decide (k = name ∧ TrimSpace v ≠ "") then Some (TrimSpace v) else p.(pe_Fields) !! name.
Proof.
  unfold add_field, char_data. cbn [fst snd]. set (t := TrimSpace v). clearbody t.
  destruct (decide (t = "")) as [->|Ht].
  { exists p.(pe_Fields). rewrite bool_decide_eq_true_2 by done. rewrite !decide_False by (by intros [_ ?]).
    split; [by destruct p|]. intros name. by rewrite decide_False by (by intros [_ ?]). }
  rewrite (bool_decide_eq_false_2 _ Ht). exists (<[k := t]> p.(pe_Fields)). split.
  2: { intros name. destruct (decide (k = name)) as [->|Hn].
       - by rewrite lookup_insert_eq, decide_True.
       - by rewrite lookup_insert_ne, decide_False by (done || by intros [? _]). }
  set (P1 := k ∈ ["hostId"; "hostID"; "host_id"]). set (P2 := k ∈ ["egmId"; "egmID"; "egm_id"]).
  set (P3 := k ∈ ["sessionId"; "session_id"]). set (P4 := k ∈ ["dateTimeSent"]).
  assert (H12 : P1 → ¬ P2 ∧ ¬ P3 ∧ ¬ P4) by (subst P1 P2 P3 P4; set_solver).
  assert (H23 : P2 → ¬ P3 ∧ ¬ P4) by (subst P2 P3 P4; set_solver).
  assert (H34 : P3 → ¬ P4) by (subst P3 P4; set_solver).
  assert (E4 : bool_decide (k = "dateTimeSent") = bool_decide P4)
    by (apply bool_decide_ext; subst P4; by rewrite list_elem_of_singleton).
  rewrite E4. clear E4.
  assert (N : ∀ P (d : Decision P) A (a b : A), (if decide (P ∧ t ≠ "") then a else b) = if bool_decide P then a else b).
  { intros P d A a b. destruct (decide P) as [HP|HP].
    - by rewrite decide_True, bool_decide_eq_true_2.
    - by rewrite decide_False, bool_decide_eq_false_2 by tauto. }
  rewrite !N. destruct (decide P1); [|destruct (decide P2); [|destruct (decide P3); [|destruct (decide P4)]]];
    rewrite ?(bool_decide_eq_true_2 P1), ?(bool_decide_eq_true_2 P2), ?(bool_decide_eq_true_2 P3),
      ?(bool_decide_eq_true_2 P4), ?(bool_decide_eq_false_2 P1), ?(bool_decide_eq_false_2 P2),
      ?(bool_decide_eq_false_2 P3), ?(bool_decide_eq_false_2 P4) by tauto; reflexivity.
Qed.

(** What the elements of a legacy message add up to. *)
Lemma add_fields_said fields : ∀ p, ∃ values, foldl add_field p fields = {|
    pe_RootKind := p.(pe_RootKind); pe_ClassName := p.(pe_ClassName); pe_OperationName := p.(pe_OperationName);
    pe_HostID := firstNonEmpty [p.(pe_HostID); first_said ["hostId"; "hostID"; "host_id"] fields];
    pe_EGMID := firstNonEmpty [p.(pe_EGMID); first_said ["egmId"; "egmID"; "egm_id"] fields];
    pe_DateTimeSent := firstNonEmpty [p.(pe_DateTimeSent); first_said ["dateTimeSent"] fields];
    pe_SessionID := firstNonEmpty [p.(pe_SessionID); first_said ["sessionId"; "session_id"] fields];
    pe_RawRoot := p.(pe_RawRoot); pe_RootNamespace := p.(pe_RootNamespace); pe_SOAPNamespace := p.(pe_SOAPNamespace);
    pe_HasEnvelope := p.(pe_HasEnvelope); pe_HasBody := p.(pe_HasBody); pe_Fields := values |} ∧
  ∀ name, values !! name = match last (said [name] fields) with Some t => Some t | None => p.(pe_Fields) !! name end.
Proof.
  assert (E : ∀ a, firstNonEmpty [a; ""] = a) by (intros a; cbn; case_bool_decide; by subst).
  induction fields as [|[k v] fields IH]; intros p; cbn [foldl].
  { exists p.(pe_Fields). unfold first_said. cbn [said omap list_omap head default from_option].
    rewrite !E. split; [by destruct p|done]. }
  destruct (add_field_said p k v) as (values & -> & Hv).
  match goal with |- context [foldl add_field ?q fields] => destruct (IH q) as (values' & -> & Hv') end.
  exists values'. split.
  { cbn [pe_RootKind pe_ClassName pe_OperationName pe_HostID pe_EGMID pe_DateTimeSent pe_SessionID pe_RawRoot
      pe_RootNamespace pe_SOAPNamespace pe_HasEnvelope pe_HasBody]. by rewrite !first_said_cons. }
  intros name. rewrite Hv', last_said_cons. cbn [pe_Fields]. rewrite Hv. destruct (last _); [done|].
  by destruct (decide (k = name ∧ TrimSpace v ≠ "")).
Qed.

(** ** Theorems *)

(** C31. A message that [ParseG2SEnvelope] accepts has an operation, a root and a
    known root kind, its SOAP name space is empty or one of the two SOAP
    versions, and a body was only seen inside an envelope. *)
Theorem ParseG2SEnvelope_sound data p :
  ParseG2SEnvelope data = Ok p →
  p.(pe_OperationName) ≠ "" ∧ p.(pe_RawRoot) ≠ "" ∧ p.(pe_RootKind) ∈ root_kinds ∧
  p.(pe_SOAPNamespace) ∈ soap_namespaces ∧ (p.(pe_HasBody) = true → p.(pe_HasEnvelope) = true).
Proof.
  unfold ParseG2SEnvelope. intros H. apply result_bind_ok in H as (q & Hq & H).
  destruct (parse_tokens_inv _ _ _ _ Hq empty_parsed_inv) as [Hk Hs Hb Hr].
  destruct (xs_error data); [done|]. case_bool_decide as Ho; [done|]. injection H as <-.
  assert (Hroot : q.(pe_RawRoot) ≠ "") by (intros Hq'; by apply Ho, Hr).
  case_bool_decide as Hkind; cbn; split_and!; try done.
  - unfold root_kinds. rewrite !elem_of_cons. auto.
  - by destruct Hk.
Qed.

(** Tokens after the first use of a name do not change what was found: the
    host, machine and session identifiers, the class and the root of a message
    are those found first, and only a g2sAck replaces the operation. *)
Theorem parse_first_wins toks stack p q : parse_tokens toks stack p = Ok q → extends p q.
Proof. apply parse_tokens_extends. Qed.

(** A message with an envelope in any other name space is rejected, wherever
    the envelope stands. *)
Theorem ParseG2SEnvelope_rejects data local space attrs :
  StartElement local space attrs ∈ data.(xs_tokens) → EqualFold local "Envelope" = true →
  space ∉ soap_namespaces → is_ok (ParseG2SEnvelope data) = false.
Proof.
  intros Hin He Hs. unfold ParseG2SEnvelope.
  pose proof (parse_tokens_rejects _ [] empty_parsed _ _ _ Hin He Hs).
  by destruct (parse_tokens _ _ _).
Qed.

(** A message of the G2S schema is parsed into its class, operation and
    identifiers. *)
Theorem ParseG2SEnvelope_xsd ns host egm time class op attrs :
  plain_element class → isG2SClassName class = true → plain_element op →
  ParseG2SEnvelope (mkStream (xsd_tokens ns host egm time class op attrs) None)
  = Ok (mkParsed "g2sMessage" class op host egm time (attrValue attrs "sessionId") "g2sMessage" ns ""
      false false (copyAttrs {[ "dateTimeSent" := time; "egmId" := egm; "hostId" := host ]} attrs)).
Proof.
  intros Hc Hcn Ho. unfold ParseG2SEnvelope. cbn [xs_tokens xs_error].
  rewrite (parse_xsd_tokens ns host egm time class op attrs Hc Hcn Ho). cbn.
  by rewrite (plain_element_ne op Ho).
Qed.

(** C30. A legacy message is parsed into its operation and what its elements say,
    blanks around a text removed and blank texts ignored: each identifier is the
    text of the first element of its accepted spellings, and each field the text
    of the last element of its name. *)
Theorem ParseG2SEnvelope_legacy soap ns op fields :
  soap ∈ soap_namespaces → plain_element op → Forall (λ f, plain_element f.1) fields →
  ∃ values, (∀ name, values !! name = last (said [name] fields)) ∧
    ParseG2SEnvelope (mkStream (legacy_tokens soap ns op fields) None)
    = Ok {| pe_RootKind := "legacy"; pe_ClassName := ""; pe_OperationName := op;
            pe_HostID := first_said ["hostId"; "hostID"; "host_id"] fields;
            pe_EGMID := first_said ["egmId"; "egmID"; "egm_id"] fields;
            pe_DateTimeSent := first_said ["dateTimeSent"] fields;
            pe_SessionID := first_said ["sessionId"; "session_id"] fields;
            pe_RawRoot := "Envelope"; pe_RootNamespace := ns; pe_SOAPNamespace := soap;
            pe_HasEnvelope := true; pe_HasBody := true; pe_Fields := values |}.
Proof.
  intros Hs Ho Hf. unfold ParseG2SEnvelope. cbn [xs_tokens xs_error].
  rewrite (parse_legacy_tokens soap ns op fields Hs Ho Hf). cbn [mbind result_bind].
  rewrite add_fields_operation, add_fields_kind. cbn [legacy_start pe_OperationName pe_RootKind].
  rewrite (plain_element_ne op Ho), bool_decide_eq_false_2 by done.
  destruct (add_fields_said fields (legacy_start soap ns op)) as (values & -> & Hv).
  assert (E : ∀ x, firstNonEmpty [""; x] = x) by (intros x; cbn; repeat case_bool_decide; by subst).
  exists values. split; [intros name; rewrite Hv; by destruct (last (said [name] fields))|].
  cbn [legacy_start pe_ClassName pe_HostID pe_EGMID pe_DateTimeSent pe_SessionID pe_RawRoot pe_RootNamespace
    pe_SOAPNamespace pe_HasEnvelope pe_HasBody pe_RootKind pe_OperationName]. by rewrite !E.
Qed.

(** [resolveAck] returns the expected acknowledgement exactly when it was
    received, or when wrapped acknowledgements are accepted and the response was
    a g2sResponse; otherwise it returns what was received. What is nested in the
    response makes no difference. *)
Theorem resolveAck_correct expected actual raw acceptWrapped :
  resolveAck expected actual raw acceptWrapped
  = if bool_decide (actual = expected ∨ (acceptWrapped = true ∧ actual = "g2sResponse"))
    then expected else actual.
Proof.
  unfold resolveAck. destruct acceptWrapped; repeat case_bool_decide; naive_solver.
Qed.

(** The two sources of the host identifier of a message disagree: the parsed
    envelope keeps the first one, the fields, which [handleWire] consults, the
    last one. *)
Theorem host_identifier_differs :
  let toks := xsd_tokens "ns" "HOST-1" "EGM-1" "now" "communications" "keepAlive" [mkAttr "hostId" "HOST-2"] in
  (λ p, (p.(pe_HostID), p.(pe_Fields) !! "hostId")) <$> ParseG2SEnvelope (mkStream toks None)
  = Ok ("HOST-1", Some "HOST-2").
Proof. vm_compute. reflexivity. Qed.

(** ** Witnesses *)

Definition example_legacy : list token :=
  legacy_tokens SOAP11Namespace "urn:g2s:lab" "keepAlive"
    [("hostId", " HOST-1 "); ("egmId", "EGM-1"); ("sessionId", "S-1")].

Lemma ParseG2SEnvelope_sound_witness :
  ∃ p, ParseG2SEnvelope (mkStream example_legacy None) = Ok p ∧ p.(pe_OperationName) ≠ "".
Proof.
  eexists. split; [vm_compute; reflexivity|].
  refine (proj1 (ParseG2SEnvelope_sound (mkStream example_legacy None) _ _)). vm_compute. reflexivity.
Defined.

Lemma parse_first_wins_witness :
  match parse_tokens (take 5 example_legacy) [] empty_parsed with
  | Ok p =>
      match parse_tokens (drop 5 example_legacy) ["hostId"; "keepAlive"; "Body"; "Envelope"] p with
      | Ok q => p.(pe_HostID) = "HOST-1" ∧ q.(pe_SessionID) = "S-1" ∧ extends p q
      | Err _ => False
      end
  | Err _ => False
  end.
Proof.
  destruct (parse_tokens (take 5 example_legacy) [] empty_parsed) as [p|] eqn:Hp;
    [|vm_compute in Hp; discriminate].
  destruct (parse_tokens (drop 5 example_legacy) ["hostId"; "keepAlive"; "Body"; "Envelope"] p)
    as [q|] eqn:Hq.
  - split; [vm_compute in Hp; by injection Hp as <-|].
    split; [vm_compute in Hp; injection Hp as <-; vm_compute in Hq; by injection Hq as <-|].
    exact (parse_first_wins _ _ _ _ Hq).
  - vm_compute in Hp. injection Hp as <-. vm_compute in Hq. discriminate.
Defined.

Lemma ParseG2SEnvelope_rejects_witness :
  is_ok (ParseG2SEnvelope (mkStream (legacy_tokens "urn:other" "ns" "keepAlive" []) None)) = false.
Proof.
  apply (ParseG2SEnvelope_rejects _ "Envelope" "urn:other" []); [left|reflexivity|].
  apply (bool_decide_unpack _). vm_compute. exact I.
Defined.

Lemma ParseG2SEnvelope_xsd_witness :
  ParseG2SEnvelope (mkStream (xsd_tokens "ns" "HOST-1" "EGM-1" "now" "communications" "setKeepAlive"
    [mkAttr "interval" "5000"]) None)
  = Ok (mkParsed "g2sMessage" "communications" "setKeepAlive" "HOST-1" "EGM-1" "now" "" "g2sMessage" "ns"
      "" false false
      {[ "interval" := "5000"; "dateTimeSent" := "now"; "egmId" := "EGM-1"; "hostId" := "HOST-1" ]}).
Proof.
  apply ParseG2SEnvelope_xsd; [by repeat split|reflexivity|by repeat split].
Defined.

Lemma ParseG2SEnvelope_legacy_witness :
  ∃ values, values !! "hostId" = Some "HOST-1" ∧
    ParseG2SEnvelope (mkStream example_legacy None)
    = Ok (mkParsed "legacy" "" "keepAlive" "HOST-1" "EGM-1" "" "S-1" "Envelope" "urn:g2s:lab"
        SOAP11Namespace true true values).
Proof.
  destruct (ParseG2SEnvelope_legacy SOAP11Namespace "urn:g2s:lab" "keepAlive"
    [("hostId", " HOST-1 "); ("egmId", "EGM-1"); ("sessionId", "S-1")]) as (values & Hv & H).
  - right. left.
  - by repeat split.
  - repeat constructor; done.
  - exists values. split; [by rewrite Hv|]. exact H.
Defined.
