(* ===== verification/XmlText.v ===== *)
(** * The XML decoder (Go's [encoding/xml], as src/runtime/soap_parser.go,
    xmlutil.go and evidence_latest.go use it)

    [Decoder.Token] in its strict mode on the bytes of a message: tags with their
    name spaces, character data with its references, comments, CDATA, directives
    and processing instructions, the checks that end tags match, and the errors
    with their lines. Two things are arguments: which characters beyond ASCII
    may stand in names (Unicode tables), and whether an XML declaration after
    other content is refused, which versions of the library answer differently. *)

From S2P Require Import Prelude GoStrings Envelope.

(** ** Results *)

(** An error is a [SyntaxError], whose text gets the line, or another one; with
    the fuel that [Decode] gives, it never runs out. *)
Inductive failure := Syntax (msg : string) | Failed (msg : string) | NoFuel.

(** A result with what is left of the input, also where an error was found. *)
Inductive outcome (A : Type) :=
  | Got (a : A) (rest : string)
  | Bad (f : failure) (rest : string).
Arguments Got {A} _ _.
Arguments Bad {A} _ _.

Definition parser (A : Type) : Type := string → outcome A.

#[export] Instance parser_ret : MRet parser := λ A a s, Got a s.
#[export] Instance parser_bind : MBind parser := λ A B f p s,
  match p s with Got a rest => f a rest | Bad e rest => Bad e rest end.

Definition eof {A} : outcome A := Bad (Syntax "unexpected EOF") "".
Definition syntax {A} (msg : string) : parser A := λ s, Bad (Syntax msg) s.

(** [mustgetc] *)
Definition mustgetc : parser ascii := λ s,
  match s with EmptyString => eof | String c s' => Got c s' end.

(** What follows a given prefix. *)
Definition strip (p s : string) : option string :=
  if has_prefix p s then Some (drop_bytes (String.length p) s) else None.

(** The longest prefix of bytes that satisfy [p], and the rest. *)
Fixpoint span (p : ascii → bool) (s : string) : string * string :=
  match s with
  | EmptyString => ("", "")
  | String c s' => if p c then let '(a, r) := span p s' in (String c a, r) else ("", s)
  end.

(** [space] *)
Definition is_space (c : ascii) : bool := bool_decide (c ∈ [" "%char; "013"%char; "010"%char; "009"%char]).
Definition spaces : parser unit := λ s, Got () (span is_space s).2.

(** ** Characters *)

(** [string(rune(n))]: the bytes of a character; what is none becomes U+FFFD. *)
Definition utf8 (n : N) : string :=
  let byte (x : N) : ascii := Ascii.ascii_of_N x in
  let cont (shift : N) : ascii := byte (128 + N.land (N.shiftr n shift) 63)%N in
  if (n <? 128)%N then String (byte n) ""
  else if (n <? 2048)%N then String (byte (192 + N.shiftr n 6)%N) (String (cont 0%N) "")
  else if ((55296 <=? n) && (n <=? 57343))%N || (1114111 <? n)%N
  then String "239"%char (String "191"%char (String "189"%char ""))
  else if (n <? 65536)%N
  then String (byte (224 + N.shiftr n 12)%N) (String (cont 6%N) (String (cont 0%N) ""))
  else String (byte (240 + N.shiftr n 18)%N) (String (cont 12%N) (String (cont 6%N) (String (cont 0%N) ""))).

Example utf8_ascii : utf8 65 = "A". Proof. reflexivity. Qed.
Example utf8_euro : utf8 8364 = "€". Proof. reflexivity. Qed.
Example utf8_clef : utf8 119070 = "𝄞". Proof. reflexivity. Qed.

Definition upper_hex (n : nat) : ascii := Ascii.ascii_of_nat (if n <? 10 then 48 + n else 55 + n).

(** Why the character that begins the string [c s'], of [n] bytes, is refused. *)
Definition illegal (c : ascii) (s' : string) (n : nat) : option string :=
  let code := Ascii.nat_of_ascii c in
  if (n =? 1) && byte_in 128 255 c then Some "invalid UTF-8"
  else if byte_in 0 31 c && negb (bool_decide (c ∈ ["009"%char; "010"%char; "013"%char])) then
    Some ("illegal character code U+00" +:+ String (upper_hex (code / 16)) (String (upper_hex (code mod 16)) ""))
  else if has_prefix (String "239"%char (String "191"%char (String "190"%char ""))) (String c s')
  then Some "illegal character code U+FFFE"
  else if has_prefix (String "239"%char (String "191"%char (String "191"%char ""))) (String c s')
  then Some "illegal character code U+FFFF"
  else None.

(** The first character of [s] that is refused; [skip] as in [rune_len]. *)
Fixpoint illegal_go (skip : nat) (s : string) : option string :=
  match s with
  | EmptyString => None
  | String c s' =>
      match skip with
      | S k => illegal_go k s'
      | 0 =>
          let n := rune_len s in
          match illegal c s' n with Some e => Some e | None => illegal_go (n - 1) s' end
      end
  end.

Section decoder.
(** [name_rune start r]: the character [r] beyond ASCII may stand in a name, at
    its start when [start] holds. *)
Context (name_rune : bool → string → bool).
(** The error for an XML declaration after other content, if it is refused. *)
Context (late_declaration : option string).

(** ** Names *)

Definition isNameByte (c : ascii) : bool := name_byte c || bool_decide (c = ":"%char) || bool_decide (c = "."%char).
Definition name_part (c : ascii) : bool := isNameByte c || byte_in 128 255 c.
Definition start_byte (c : ascii) : bool :=
  byte_in 65 90 c || byte_in 97 122 c || bool_decide (c = "_"%char) || bool_decide (c = ":"%char).

(** [readName]; the empty name where none begins. *)
Definition readName : parser string := λ s,
  match s with
  | EmptyString => eof
  | String c _ =>
      if name_part c then
        let '(n, rest) := span name_part s in
        match rest with EmptyString => eof | _ => Got n rest end
      else Got "" s
  end.

Definition rune_in_name (start : bool) (c : ascii) (s' : string) (n : nat) : bool :=
  if byte_in 128 255 c then negb (n =? 1) && name_rune start (take_bytes n (String c s'))
  else if start then start_byte c else isNameByte c.

Fixpoint isName_go (start : bool) (skip : nat) (s : string) : bool :=
  match s with
  | EmptyString => true
  | String c s' =>
      match skip with
      | S k => isName_go start k s'
      | 0 => let n := rune_len s in rune_in_name start c s' n && isName_go false (n - 1) s'
      end
  end.
Definition isName (s : string) : bool := negb (bool_decide (s = "")) && isName_go true 0 s.

(** [name]; where none begins the caller's error is [expected]. *)
Definition name (expected : string) : parser string :=
  n ← readName;
  if bool_decide (n = "") then syntax expected
  else if isName n then mret n
  else syntax ("invalid XML name: " +:+ n).

(** [nsname]: prefix and local name. *)
Definition nsname (expected : string) : parser (string * string) :=
  n ← name expected;
  match split_char ":" n with
  | [_] => mret ("", n)
  | [p; l] => mret (if bool_decide (p = "") || bool_decide (l = "") then ("", n) else (p, l))
  | _ => syntax expected
  end.

(** ** Character data *)

Definition digit_value (base : N) (c : ascii) : option N :=
  let n := Ascii.N_of_ascii c in
  if byte_in 48 57 c then Some (n - 48)%N
  else if (base =? 16)%N && byte_in 97 102 c then Some (n - 87)%N
  else if (base =? 16)%N && byte_in 65 70 c then Some (n - 55)%N
  else None.

Fixpoint digits_value (base acc : N) (s : string) : N :=
  match s with
  | EmptyString => acc
  | String c s' => digits_value base (acc * base + default 0 (digit_value base c))%N s'
  end.

Definition entity_rune (n : string) : option string :=
  if bool_decide (n = "lt") then Some "<"
  else if bool_decide (n = "gt") then Some ">"
  else if bool_decide (n = "amp") then Some "&"
  else if bool_decide (n = "apos") then Some "'"
  else if bool_decide (n = "quot") then Some (String "034"%char "")
  else None.

(** What stands between the ampersand and where a semicolon should be, and the
    text it refers to, if it does. *)
Definition numeric_reference (mark : string) (base : N) : parser (string * option string) := λ s,
  let '(ds, rest) := span (λ c, bool_decide (is_Some (digit_value base c))) s in
  match rest with
  | EmptyString => eof
  | _ =>
      let n := digits_value base 0 ds in
      Got (mark +:+ ds, if negb (bool_decide (ds = "")) && (n <=? 1114111)%N then Some (utf8 n) else None) rest
  end.

Definition reference : parser (string * option string) := λ s,
  match strip "#x" s, strip "#" s with
  | Some s', _ => numeric_reference "#x" 16 s'
  | None, Some s' => numeric_reference "#" 10 s'
  | None, None => (n ← readName; mret (n, if isName n then entity_rune n else None)) s
  end.

(** The text that a reference after an ampersand stands for. *)
Definition semicolon (written : string) (text : option string) : parser string := λ s,
  match strip ";" s, text with
  | Some s', Some t => Got t s'
  | Some s', None => Bad (Syntax ("invalid character entity &" +:+ written +:+ ";")) s'
  | None, _ =>
      if bool_decide (s = "") then eof
      else Bad (Syntax ("invalid character entity &" +:+ written +:+ " (no semicolon)")) s
  end.
Definition char_reference : parser string :=
  '(written, text) ← reference; semicolon written text.

(** Where a text ends: before a tag, at a quote, or with a CDATA section. *)
Inductive section := Plain | Quoted (quote : ascii) | CData.

Definition in_quotes (sec : section) : bool := match sec with Quoted _ => true | _ => false end.
Definition in_cdata (sec : section) : bool := match sec with CData => true | _ => false end.

Definition prepend (t : string) (o : outcome string) : outcome string :=
  match o with Got d rest => Got (t +:+ d) rest | Bad e rest => Bad e rest end.

(** The loop of [text]; [b0] and [b1] are the two bytes before, [skip] counts the
    bytes of a reference that are still to be passed. *)
Fixpoint text_go (sec : section) (skip : nat) (b0 b1 : option ascii) (s : string) : outcome string :=
  match s with
  | EmptyString =>
      if in_cdata sec then Bad (Syntax "unexpected EOF in CDATA section") "" else Got "" ""
  | String b s' =>
      match skip with
      | S k => text_go sec k b0 b1 s'
      | 0 =>
          if negb (in_quotes sec) && bool_decide (b0 = Some "]"%char) && bool_decide (b1 = Some "]"%char)
             && bool_decide (b = ">"%char)
          then if in_cdata sec then Got "" s' else Bad (Syntax "unescaped ]]> not in CDATA section") s'
          else if bool_decide (b = "<"%char) && negb (in_cdata sec) then
            if in_quotes sec then Bad (Syntax "unescaped < inside quoted string") s' else Got "" s
          else if match sec with Quoted q => bool_decide (b = q) | _ => false end then Got "" s'
          else if bool_decide (b = "&"%char) && negb (in_cdata sec) then
            match char_reference s' with
            | Bad e rest => Bad e rest
            | Got t rest =>
                prepend t (text_go sec (String.length s' - String.length rest) None None s')
            end
          else if bool_decide (b = "013"%char) then prepend newline (text_go sec 0 b1 (Some b) s')
          else if bool_decide (b1 = Some "013"%char) && bool_decide (b = "010"%char)
          then text_go sec 0 b1 (Some b) s'
          else prepend (String b "") (text_go sec 0 b1 (Some b) s')
      end
  end.

(** [text]; a CDATA section ends with two brackets that are cut off. *)
Definition char_text (sec : section) : parser string := λ s,
  match text_go sec 0 None None s with
  | Bad e rest => Bad e rest
  | Got d rest =>
      let d := if in_cdata sec then take_bytes (String.length d - 2) d else d in
      match illegal_go 0 d with Some e => Bad (Syntax e) rest | None => Got d rest end
  end.

(** ** Tags *)

Record xml_attr := mkXmlAttr { xa_Name : string * string; xa_Value : string }.

Definition attrval : parser string :=
  b ← mustgetc;
  if bool_decide (b = "034"%char) || bool_decide (b = "'"%char) then char_text (Quoted b)
  else syntax "unquoted or missing attribute value in element".

Definition attribute_ : parser xml_attr :=
  n ← nsname "expected attribute name in element";
  spaces;;
  b ← mustgetc;
  if bool_decide (b = "="%char) then spaces;; v ← attrval; mret (mkXmlAttr n v)
  else syntax "attribute name without = in element".

(** After a slash: the end of an empty element. *)
Definition empty_end : parser (list xml_attr * bool) :=
  b ← mustgetc;
  if bool_decide (b = ">"%char) then mret ([], true) else syntax "expected /> in element".

(** The attributes up to the end of the tag, and whether the element is empty. *)
Fixpoint attrs_go (fuel : nat) : parser (list xml_attr * bool) := λ s,
  let s := (span is_space s).2 in
  if bool_decide (s = "") then eof
  else match strip "/" s, strip ">" s, fuel with
  | Some s', _, _ => empty_end s'
  | _, Some s', _ => Got ([], false) s'
  | _, _, 0 => Bad NoFuel s
  | _, _, S n => (a ← attribute_; '(attrs, empty) ← attrs_go n; mret (a :: attrs, empty)) s
  end.

(** ** Other markup *)

(** [procInst]: the quoted value after [param=], looked for as the library does. *)
Fixpoint procInst_go (fuel : nat) (param s : string) : string :=
  match fuel, index param s with
  | S n, Some k =>
      match drop_bytes (k + String.length param) s with
      | EmptyString => ""
      | String c rest =>
          if bool_decide (c = "034"%char) || bool_decide (c = "'"%char)
          then let '(v, after) := span (not_byte c) rest in
               match after with EmptyString => "" | _ => v end
          else procInst_go n param rest
      end
  | _, _ => ""
  end.
Definition procInst (param s : string) : string := procInst_go (String.length s) (param +:+ "=") s.

(** What the reader finds next. *)
Inductive raw :=
  | RawText (data : string)
  | RawStart (n : string * string) (attrs : list xml_attr) (empty : bool)
  | RawEnd (n : string * string)
  | RawDeclaration
  | RawOther.

Definition end_tag : parser raw :=
  n ← nsname "expected element name after </";
  spaces;;
  b ← mustgetc;
  if bool_decide (b = ">"%char) then mret (RawEnd n)
  else syntax ("invalid characters between </" +:+ n.2 +:+ " and >").

Definition declaration (content : string) : parser raw :=
  let ver := procInst "version" content in
  let enc := procInst "encoding" content in
  if negb (bool_decide (ver = "")) && negb (bool_decide (ver = "1.0")) then
    λ s, Bad (Failed ("xml: unsupported version " +:+ quote ver +:+ "; only version 1.0 is supported")) s
  else if negb (bool_decide (enc = "")) && negb (EqualFold enc "utf-8") then
    λ s, Bad (Failed ("xml: encoding " +:+ quote enc +:+ " declared but Decoder.CharsetReader is nil")) s
  else mret RawDeclaration.

Definition proc_inst_end (target : string) : parser raw := λ s,
  match index "?>" s with
  | None => eof
  | Some k =>
      let rest := drop_bytes (k + 2) s in
      if bool_decide (target = "xml") then declaration (take_bytes k s) rest else Got RawOther rest
  end.
Definition proc_inst : parser raw :=
  target ← name "expected target name after <?";
  spaces;;
  proc_inst_end target.

Definition comment : parser raw := λ s,
  match index "--" s with
  | None => eof
  | Some k =>
      (b ← mustgetc;
       if bool_decide (b = ">"%char) then mret RawOther
       else syntax ("invalid sequence " +:+ String "034"%char ("--" +:+
              String "034"%char " not allowed in comments"))) (drop_bytes (k + 2) s)
  end.

(** [CDATA[] byte by byte, then its text. *)
Fixpoint cdata (expected : string) : parser raw := λ s,
  match expected with
  | EmptyString => (d ← char_text CData; mret (RawText d)) s
  | String e expected' =>
      match s with
      | EmptyString => eof
      | String c s' => if bool_decide (c = e) then cdata expected' s' else Bad (Syntax "invalid <![ sequence") s'
      end
  end.

(** Inside a directive: in quotes, [k] bytes into what may open a comment, or in
    a comment, with the two bytes before. *)
Inductive directive_state :=
  | InDirective (inquote : option ascii) (depth : nat)
  | Opening (k : nat) (depth : nat)
  | InComment (b0 b1 : option ascii) (depth : nat).

Definition directive_byte (inquote : option ascii) (depth : nat) (b : ascii) : directive_state :=
  match inquote with
  | Some q => InDirective (if bool_decide (b = q) then None else Some q) depth
  | None =>
      if bool_decide (b = "'"%char) || bool_decide (b = "034"%char) then InDirective (Some b) depth
      else if bool_decide (b = ">"%char) then InDirective None (depth - 1)
      else if bool_decide (b = "<"%char) then Opening 0 depth
      else InDirective None depth
  end.

Fixpoint directive (st : directive_state) : parser raw := λ s,
  match s with
  | EmptyString => eof
  | String b s' =>
      match st with
      | InDirective None 0 => if bool_decide (b = ">"%char) then Got RawOther s' else directive (directive_byte None 0 b) s'
      | InDirective q depth => directive (directive_byte q depth b) s'
      | Opening k depth =>
          if bool_decide (String.get k "!--" = Some b)
          then directive (if k =? 2 then InComment None None depth else Opening (S k) depth) s'
          else directive (directive_byte None (S depth) b) s'
      | InComment b0 b1 depth =>
          if bool_decide (b0 = Some "-"%char) && bool_decide (b1 = Some "-"%char) && bool_decide (b = ">"%char)
          then directive (InDirective None depth) s'
          else directive (InComment b1 (Some b) depth) s'
      end
  end.

Definition markup : parser raw :=
  b ← mustgetc;
  if bool_decide (b = "-"%char) then
    b ← mustgetc;
    if bool_decide (b = "-"%char) then comment else syntax "invalid sequence <!- not part of <!--"
  else if bool_decide (b = "["%char) then cdata "CDATA["
  else directive (InDirective None 0).

Definition start_tag : parser raw := λ s,
  (n ← nsname "expected element name after <";
   '(attrs, empty) ← attrs_go (String.length s);
   mret (RawStart n attrs empty)) s.

(** [rawToken], on input that is not empty. *)
Definition rawToken : parser raw := λ s,
  match strip "</" s, strip "<?" s, strip "<!" s, strip "<" s with
  | Some s', _, _, _ => end_tag s'
  | _, Some s', _, _ => proc_inst s'
  | _, _, Some s', _ => markup s'
  | _, _, _, Some s' => start_tag s'
  | _, _, _, _ => (d ← char_text Plain; mret (RawText d)) s
  end.

(** ** Name spaces and nesting *)

Definition bind_attr (ns : gmap string string) (a : xml_attr) : gmap string string :=
  if bool_decide (a.(xa_Name).1 = "xmlns") then <[a.(xa_Name).2 := a.(xa_Value)]> ns
  else if bool_decide (a.(xa_Name) = ("", "xmlns")) then <["" := a.(xa_Value)]> ns
  else ns.
Definition bind_attrs (ns : gmap string string) (attrs : list xml_attr) : gmap string string :=
  foldl bind_attr ns attrs.

(** [translate], for the name of an element. *)
Definition translate (ns : gmap string string) (n : string * string) : string :=
  if bool_decide (n.1 = "xmlns") then n.1
  else if bool_decide (n.1 = "xml") then "http://www.w3.org/XML/1998/namespace"
  else if bool_decide (n = ("", "xmlns")) then ""
  else default n.1 (ns !! n.1).

(** An open element, with the name spaces that hold again after it. *)
Definition frame : Type := (string * string) * gmap string string.

(** [popElement] *)
Definition popElement (n : string * string) (stack : list frame) : string + gmap string string * list frame :=
  match stack with
  | [] => inl ("unexpected end element </" +:+ n.2 +:+ ">")
  | (m, ns) :: stack' =>
      if negb (bool_decide (m.2 = n.2)) then inl ("element <" +:+ m.2 +:+ "> closed by </" +:+ n.2 +:+ ">")
      else if negb (bool_decide (m.1 = n.1)) then
        inl ("element <" +:+ m.2 +:+ "> in space " +:+ m.1 +:+ " closed by </" +:+ n.2 +:+ "> in space " +:+
          (if bool_decide (n.1 = "") then String "034"%char (String "034"%char "") else n.1))
      else inr (ns, stack')
  end.

Definition start_token (ns : gmap string string) (n : string * string) (attrs : list xml_attr) : token :=
  StartElement n.2 (translate ns n) (map (λ a, mkAttr a.(xa_Name).2 a.(xa_Value)) attrs).

Definition decoded : Type := list token * option (failure * string).
Definition emit (toks : list token) (d : decoded) : decoded := (toks ++ d.1, d.2).

(** [Token] until it returns an error; [seen] tells whether something other than
    white space came before. *)
Fixpoint decode_go (fuel : nat) (ns : gmap string string) (stack : list frame) (seen : bool) (s : string)
    : decoded :=
  match s, fuel with
  | EmptyString, _ => ([], match stack with [] => None | _ => Some (Syntax "unexpected EOF", "") end)
  | _, 0 => ([], Some (NoFuel, s))
  | _, S n =>
      match rawToken s with
      | Bad e rest => ([], Some (e, rest))
      | Got t rest =>
          match t with
          | RawText d => emit [CharData d] (decode_go n ns stack (seen || negb (blank d)) rest)
          | RawDeclaration =>
              match late_declaration with
              | Some e => if seen then ([], Some (Failed e, rest))
                          else emit [OtherToken] (decode_go n ns stack true rest)
              | None => emit [OtherToken] (decode_go n ns stack true rest)
              end
          | RawOther => emit [OtherToken] (decode_go n ns stack true rest)
          | RawStart m attrs empty =>
              let ns' := bind_attrs ns attrs in
              let start := start_token ns' m attrs in
              if empty then emit [start; EndElement] (decode_go n ns stack true rest)
              else emit [start] (decode_go n ns' ((m, ns) :: stack) true rest)
          | RawEnd m =>
              match popElement m stack with
              | inl msg => ([], Some (Syntax msg, rest))
              | inr (ns', stack') => emit [EndElement] (decode_go n ns' stack' true rest)
              end
          end
      end
  end.

Fixpoint lines (s : string) : nat :=
  match s with
  | EmptyString => 0
  | String c s' => (if bool_decide (c = "010"%char) then 1 else 0) + lines s'
  end.

(** The text of an error found where [rest] of the input was left. *)
Definition error_text (data : string) (e : failure * string) : string :=
  match e.1 with
  | Syntax msg =>
      "XML syntax error on line " +:+ itoa_nat (1 + lines data - lines e.2) +:+ ": " +:+ msg
  | Failed msg => msg
  | NoFuel => ""
  end.

Definition Decode (data : string) : xml_stream :=
  let d := decode_go (String.length data) ∅ [] false data in
  mkStream d.1 (error_text data <$> d.2).
End decoder.

(** What the library guarantees of its tokens: no element is closed that is not
    open, and none is left open when the input ends without an error. *)
Fixpoint nested (open : nat) (toks : list token) (complete : bool) : bool :=
  match toks with
  | [] => negb complete || (open =? 0)
  | StartElement _ _ _ :: rest => nested (S open) rest complete
  | EndElement :: rest => match open with 0 => false | S k => nested k rest complete end
  | _ :: rest => nested open rest complete
  end.

(** ** Lemmas: parsers go forward *)

(** What a parser leaves is no longer, or shorter, than what it got, and it does
    not run out of fuel. *)
Definition leaves {A} (R : nat → nat → Prop) (s : string) (o : outcome A) : Prop :=
  match o with Got _ r => R (String.length r) (String.length s) | Bad e _ => e ≠ NoFuel end.
Definition shrinks {A} (p : parser A) : Prop := ∀ s, leaves le s (p s).
Definition consumes {A} (p : parser A) : Prop := ∀ s, leaves lt s (p s).

Create HintDb parsing.

Lemma leaves_lt {A} s (o : outcome A) : leaves lt s o → leaves le s o.
Proof. destruct o; [apply Nat.lt_le_incl|done]. Qed.

Lemma leaves_longer {A} s t (o : outcome A) : String.length s ≤ String.length t → leaves le s o → leaves le t o.
Proof. destruct o; [cbn; lia|done]. Qed.

Lemma leaves_shorter {A} s t (o : outcome A) : String.length s < String.length t → leaves le s o → leaves lt t o.
Proof. destruct o; [cbn; lia|done]. Qed.

Lemma consumes_shrinks {A} (p : parser A) : consumes p → shrinks p.
Proof. intros H s. by apply leaves_lt. Qed.

Lemma shrinks_ret {A} (a : A) : shrinks (mret a).
Proof. intros s. apply le_n. Qed.

Lemma shrinks_syntax {A} msg : shrinks (syntax (A := A) msg).
Proof. intros s. discriminate. Qed.

Lemma shrinks_bind {A B} (p : parser A) (f : A → parser B) :
  shrinks p → (∀ a, shrinks (f a)) → shrinks (p ≫= f).
Proof.
  intros Hp Hf s. unfold mbind, parser_bind. specialize (Hp s). destruct (p s) as [a r|]; [|exact Hp].
  apply (leaves_longer r); [exact Hp|apply Hf].
Qed.

Lemma consumes_bind {A B} (p : parser A) (f : A → parser B) :
  consumes p → (∀ a, shrinks (f a)) → consumes (p ≫= f).
Proof.
  intros Hp Hf s. unfold mbind, parser_bind. specialize (Hp s). destruct (p s) as [a r|]; [|exact Hp].
  apply (leaves_shorter r); [exact Hp|apply Hf].
Qed.

Lemma shrinks_if {A} (b : bool) (p q : parser A) : shrinks p → shrinks q → shrinks (if b then p else q).
Proof. by destruct b. Qed.

Lemma consumes_mustgetc : consumes mustgetc.
Proof. intros [|c s]; [done|]. apply Nat.lt_succ_diag_r. Qed.

Lemma span_app p s : (span p s).1 +:+ (span p s).2 = s.
Proof.
  induction s as [|c s IH]; [done|]. cbn [span]. destruct (p c); [|done].
  destruct (span p s) as [a r]. cbn [fst snd] in *. by rewrite string_app_cons, IH.
Qed.

Lemma span_length p s : String.length (span p s).2 ≤ String.length s.
Proof. rewrite <-(span_app p s) at 2. rewrite string_length_app. lia. Qed.

Lemma shrinks_spaces : shrinks spaces.
Proof. intros s. apply span_length. Qed.

Lemma drop_bytes_length n s : String.length (drop_bytes n s) ≤ String.length s.
Proof. revert s. induction n as [|n IH]; intros [|c s]; cbn; [done..|]. specialize (IH s). lia. Qed.

Lemma strip_app p s t : strip p s = Some t → s = p +:+ t.
Proof.
  unfold strip. destruct (has_prefix p s) eqn:H; [|done]. intros [= <-]. revert s H.
  induction p as [|c p IH]; intros s H; [done|]. destruct s as [|d s]; [done|]. cbn in *.
  apply andb_true_iff in H as [->%bool_decide_eq_true H]. by rewrite string_app_cons, <-IH.
Qed.

Lemma strip_length p s t : strip p s = Some t → String.length s = String.length p + String.length t.
Proof. intros ->%strip_app. apply string_length_app. Qed.

#[export] Hint Resolve shrinks_ret shrinks_syntax shrinks_spaces consumes_mustgetc consumes_shrinks : parsing.

Ltac shrink := repeat first
  [ progress eauto 2 with parsing
  | match goal with
    | |- shrinks (_ ≫= _) => apply shrinks_bind; [|intros ?]
    | |- shrinks (if _ then _ else _) => apply shrinks_if
    | |- shrinks (match ?x with _ => _ end) => destruct x
    end ].

(** A parser that goes on after a prefix. *)
Ltac after H :=
  apply strip_length in H; cbn [String.length] in H; first
  [ match goal with |- leaves le _ (_ ?t) => apply (leaves_longer t); [lia|] end
  | match goal with |- leaves lt _ (_ ?t) => apply (leaves_shorter t); [lia|] end ].

Section progress.
Context (name_rune : bool → string → bool) (late_declaration : option string).

Lemma shrinks_readName : shrinks readName.
Proof.
  intros s. unfold readName. destruct s as [|c s]; [discriminate|]. destruct (name_part c); [|apply le_n].
  pose proof (span_length name_part (String c s)) as H.
  destruct (span name_part (String c s)) as [n rest]. destruct rest; [discriminate|exact H].
Qed.

Lemma consumes_name expected : consumes (name name_rune expected).
Proof.
  intros s. unfold name, mbind, parser_bind, readName. destruct s as [|c s]; [discriminate|].
  destruct (name_part c) eqn:Hc; [|discriminate]. cbn [span]. rewrite Hc.
  pose proof (span_length name_part s) as H. destruct (span name_part s) as [n rest].
  destruct rest; [discriminate|]. rewrite bool_decide_eq_false_2 by done.
  destruct (isName _ _); [|discriminate]. cbn in *. lia.
Qed.

Lemma consumes_nsname expected : consumes (nsname name_rune expected).
Proof. apply consumes_bind; [apply consumes_name|]. intros a. shrink. Qed.

Lemma shrinks_numeric mark base : shrinks (numeric_reference mark base).
Proof.
  intros s. unfold numeric_reference.
  pose proof (span_length (λ c, bool_decide (is_Some (digit_value base c))) s) as H.
  destruct (span _ s) as [ds rest]. destruct rest; [discriminate|exact H].
Qed.

Lemma shrinks_reference : shrinks (reference name_rune).
Proof.
  intros s. unfold reference. destruct (strip "#x" s) as [s'|] eqn:H1; [after H1; apply shrinks_numeric|].
  destruct (strip "#" s) as [s'|] eqn:H2; [after H2; apply shrinks_numeric|].
  apply shrinks_bind; [apply shrinks_readName|intros; shrink].
Qed.

Lemma shrinks_char_reference : shrinks (char_reference name_rune).
Proof.
  apply shrinks_bind; [apply shrinks_reference|]. intros [written t] s. unfold semicolon.
  destruct (strip ";" s) as [s'|] eqn:H; [|destruct (bool_decide _); discriminate].
  apply strip_length in H. destruct t; [|discriminate]. cbn in *. lia.
Qed.

Lemma leaves_prepend R t s o : leaves R s o → leaves R s (prepend t o).
Proof. by destruct o. Qed.

Lemma text_go_leaves sec skip b0 b1 s : leaves le s (text_go name_rune sec skip b0 b1 s).
Proof.
  revert skip b0 b1. induction s as [|b s IH]; intros skip b0 b1; cbn [text_go].
  { destruct (in_cdata sec); [discriminate|apply le_n]. }
  assert (Hle : ∀ o : outcome string, leaves le s o → leaves le (String b s) o).
  { intros o. apply leaves_longer. cbn. lia. }
  destruct skip as [|k]; [|by apply Hle].
  pose proof (shrinks_char_reference s) as Hr. destruct (char_reference _ s) as [t r|];
    repeat match goal with |- context [if ?c then _ else _] => destruct c end;
    first [exact Hr | discriminate | by apply Hle | by apply Hle, leaves_prepend | cbn; lia].
Qed.

Lemma text_leaves R sec s : leaves R s (text_go name_rune sec 0 None None s) → leaves R s (char_text name_rune sec s).
Proof.
  unfold char_text. destruct (text_go _ _ _ _ _ _) as [d r|]; [|done]. cbv zeta. intros H.
  destruct (illegal_go _ _); [discriminate|exact H].
Qed.

Lemma shrinks_text sec : shrinks (char_text name_rune sec).
Proof. intros s. apply text_leaves, text_go_leaves. Qed.

Lemma text_plain_leaves b s : b ≠ "<"%char → leaves lt (String b s) (char_text name_rune Plain (String b s)).
Proof.
  intros Hb. apply text_leaves. cbn [text_go in_quotes in_cdata negb andb].
  rewrite (bool_decide_eq_false_2 (b = "<"%char)) by done. cbn [andb].
  assert (Hlt : ∀ o : outcome string, leaves le s o → leaves lt (String b s) o).
  { intros o. apply leaves_shorter. cbn. lia. }
  pose proof (shrinks_char_reference s) as Hr. destruct (char_reference _ s) as [t r|];
    repeat match goal with |- context [if ?c then _ else _] => destruct c end;
    first [exact Hr | discriminate | by apply Hlt, text_go_leaves | by apply Hlt, leaves_prepend, text_go_leaves].
Qed.

Lemma shrinks_attrval : shrinks (attrval name_rune).
Proof. unfold attrval. shrink. apply shrinks_text. Qed.

Lemma consumes_attribute : consumes (attribute_ name_rune).
Proof.
  apply consumes_bind; [apply consumes_nsname|]. intros n. shrink. apply shrinks_attrval.
Qed.

Lemma shrinks_empty_end : shrinks empty_end.
Proof. unfold empty_end. shrink. Qed.

(** The loop over the attributes: enough fuel is enough. *)
Lemma attrs_leaves n s : String.length s ≤ n → leaves le s (attrs_go name_rune n s).
Proof.
  revert s. induction n as [|n IH]; intros s Hn.
  { by destruct s; [|cbn in *; lia]. }
  cbn [attrs_go]. cbv zeta. pose proof (span_length is_space s) as Hs. set (t := (span is_space s).2) in *.
  apply (leaves_longer t); [done|]. case_bool_decide; [done|].
  destruct (strip "/" t) eqn:H1; [after H1; apply shrinks_empty_end|].
  destruct (strip ">" t) eqn:H2; [apply strip_length in H2; cbn in *; lia|].
  unfold mbind, parser_bind. pose proof (consumes_attribute t) as Ha.
  destruct (attribute_ _ t) as [a r|]; [|done]. cbn in Ha. specialize (IH r).
  destruct (attrs_go _ n r) as [[attrs empty] r'|]; [cbn in *; lia|]. apply IH. lia.
Qed.

Lemma attrs_fuel n m s :
  String.length s ≤ n → String.length s ≤ m → attrs_go name_rune n s = attrs_go name_rune m s.
Proof.
  revert m s. induction n as [|n IH]; intros m s Hn Hm.
  { destruct s; [|cbn in *; lia]. by destruct m. }
  destruct m as [|m]; [destruct s; [done|cbn in *; lia]|].
  cbn [attrs_go]. cbv zeta. pose proof (span_length is_space s) as Hs. set (t := (span is_space s).2) in *.
  case_bool_decide; [done|]. destruct (strip "/" t); [done|]. destruct (strip ">" t); [done|].
  unfold mbind, parser_bind. pose proof (consumes_attribute t) as Ha.
  destruct (attribute_ _ t) as [a r|]; [|done]. cbn in Ha. by rewrite (IH m r) by lia.
Qed.

Lemma consumes_start_tag : consumes (start_tag name_rune).
Proof.
  intros s. unfold start_tag, mbind, parser_bind. pose proof (consumes_nsname "expected element name after <" s) as Hn.
  destruct (nsname _ _ s) as [n r|]; [|done]. cbn in Hn.
  pose proof (attrs_leaves (String.length s) r) as Ha.
  destruct (attrs_go _ _ r) as [[attrs empty] r'|]; [|apply Ha; lia]. cbn in *. lia.
Qed.

Lemma consumes_end_tag : consumes (end_tag name_rune).
Proof. apply consumes_bind; [apply consumes_nsname|]. intros n. shrink. Qed.

Lemma shrinks_declaration content : shrinks (declaration content).
Proof.
  intros s. unfold declaration. cbv zeta.
  repeat match goal with |- context [if ?c then _ else _] => destruct c end; [discriminate..|apply le_n].
Qed.

Lemma shrinks_proc_inst_end target : shrinks (proc_inst_end target).
Proof.
  intros s. unfold proc_inst_end. destruct (index "?>" s) as [k|]; [|discriminate]. cbv zeta.
  pose proof (drop_bytes_length (k + 2) s) as Hl.
  destruct (bool_decide _); [|exact Hl]. by apply (leaves_longer (drop_bytes (k + 2) s)), shrinks_declaration.
Qed.

Lemma consumes_proc_inst : consumes (proc_inst name_rune).
Proof. apply consumes_bind; [apply consumes_name|]. intros n. shrink. apply shrinks_proc_inst_end. Qed.

Lemma shrinks_comment : shrinks comment.
Proof.
  intros s. unfold comment. destruct (index "--" s) as [k|]; [|discriminate].
  apply (leaves_longer (drop_bytes (k + 2) s)); [apply drop_bytes_length|].
  generalize (drop_bytes (k + 2) s). fold (shrinks (b ← mustgetc;
    if bool_decide (b = ">"%char) then mret RawOther
    else syntax ("invalid sequence " +:+ String "034"%char ("--" +:+ String "034"%char " not allowed in comments")))).
  shrink.
Qed.

Lemma shrinks_cdata expected : shrinks (cdata name_rune expected).
Proof.
  induction expected as [|e expected IH]; intros s; cbn [cdata].
  - apply shrinks_bind; [apply shrinks_text|]. intros d. shrink.
  - destruct s as [|c s]; [discriminate|]. destruct (bool_decide _); [|discriminate].
    apply (leaves_longer s); [cbn; lia|apply IH].
Qed.

Lemma shrinks_directive st : shrinks (directive st).
Proof.
  intros s. revert st. induction s as [|b s IH]; intros st; [discriminate|]. cbn [directive].
  assert (Hs : String.length s ≤ String.length (String b s)) by (cbn; lia).
  assert (Hle : ∀ st, leaves le (String b s) (directive st s)) by (intros st'; by apply (leaves_longer s)).
  destruct st as [[q|] [|d]|k d|b0 b1 d]; try apply Hle; [destruct (bool_decide _); [exact Hs|apply Hle]|..];
    destruct (bool_decide _); try apply Hle; destruct (bool_decide _); try apply Hle; destruct (bool_decide _); apply Hle.
Qed.

Lemma consumes_markup : consumes (markup name_rune).
Proof.
  apply consumes_bind; [apply consumes_mustgetc|]. intros b.
  apply shrinks_if; [apply shrinks_bind; [shrink|intros c; apply shrinks_if; [apply shrinks_comment|shrink]]|].
  apply shrinks_if; [apply shrinks_cdata|apply shrinks_directive].
Qed.

(** Every step of the reader takes something. *)
Lemma rawToken_leaves s : s ≠ "" → leaves lt s (rawToken name_rune s).
Proof.
  intros Hne. unfold rawToken. destruct (strip "</" s) eqn:H1.
  { after H1. apply leaves_lt, consumes_end_tag. }
  destruct (strip "<?" s) eqn:H2; [after H2; apply leaves_lt, consumes_proc_inst|].
  destruct (strip "<!" s) eqn:H3; [after H3; apply leaves_lt, consumes_markup|].
  destruct (strip "<" s) eqn:H4; [after H4; apply leaves_lt, consumes_start_tag|].
  unfold mbind, parser_bind. destruct s as [|b s]; [done|].
  assert (Hb : b ≠ "<"%char) by (intros ->; done).
  pose proof (text_plain_leaves b s Hb) as H. destruct (char_text _ _ _); [exact H|exact H].
Qed.

Abbreviation decode := (decode_go name_rune late_declaration).

(** The reader does not depend on the fuel, nor run out of it. *)
Lemma decode_fuel n m ns stack seen s :
  String.length s ≤ n → String.length s ≤ m → decode n ns stack seen s = decode m ns stack seen s.
Proof.
  revert m ns stack seen s. induction n as [|n IH]; intros m ns stack seen s Hn Hm.
  { destruct s; [|cbn in *; lia]. by destruct m. }
  destruct s as [|c s]; [by destruct m|]. destruct m as [|m]; [cbn in *; lia|]. cbn [decode_go].
  pose proof (rawToken_leaves (String c s) ltac:(done)) as Hr.
  destruct (rawToken _ _) as [t r|]; [|done]. cbn in *.
  assert (H : ∀ ns stack seen, decode n ns stack seen r = decode m ns stack seen r) by (intros; apply IH; lia).
  destruct t as [|? ? []|?| |]; try (by rewrite H).
  destruct (popElement _ _) as [|[]]; [done|]. by rewrite H.
Qed.

Lemma decode_enough n ns stack seen s e r :
  String.length s ≤ n → (decode n ns stack seen s).2 = Some (e, r) → e ≠ NoFuel.
Proof.
  revert ns stack seen s. induction n as [|n IH]; intros ns stack seen s Hn.
  { destruct s; [|cbn in *; lia]. destruct stack; [done|]. cbn. by intros [= <- _]. }
  destruct s as [|c s]; [destruct stack; [done|]; cbn; by intros [= <- _]|]. cbn [decode_go].
  pose proof (rawToken_leaves (String c s) ltac:(done)) as Hr.
  destruct (rawToken _ _) as [t r'|]; [|by intros [= <- _]]. cbn [leaves] in Hr.
  assert (H : ∀ ns stack seen, (decode n ns stack seen r').2 = Some (e, r) → e ≠ NoFuel) by (intros ???; apply IH; lia).
  destruct t as [|? ? []|?| |]; try apply H; [|destruct late_declaration, seen; try apply H; by intros [= <- _]].
  destruct (popElement _ _) as [|[]]; [by intros [= <- _]|]. apply H.
Qed.

Lemma decode_nested n ns stack seen s :
  let d := decode n ns stack seen s in
  nested (length stack) d.1 (bool_decide (d.2 = None)) = true.
Proof.
  cbv zeta. revert ns stack seen s. induction n as [|n IH]; intros ns stack seen s; cbn [decode_go].
  { destruct s; [by destruct stack|done]. }
  destruct s as [|c s]; [by destruct stack|]. destruct (rawToken _ _) as [t r|]; [|done].
  destruct t as [|m ? []|?| |]; cbn [emit fst snd app nested]; try apply IH.
  - by apply (IH _ (((m, ns)) :: stack)).
  - destruct (popElement n0 stack) as [|[ns' stack']] eqn:Hp; [done|]. cbn [emit fst snd app nested].
    destruct stack as [|[m ns0] stack]; [done|]. cbn [popElement] in Hp.
    destruct (negb _); [done|]. destruct (negb _); [done|]. injection Hp as _ <-. apply IH.
  - destruct late_declaration, seen; try done; apply IH.
Qed.
End progress.

(** ** Theorems *)

(** The decoder reads every input to its end or to an error, with tokens that are
    properly nested. *)
Theorem Decode_correct name_rune late data :
  let d := Decode name_rune late data in
  nested 0 d.(xs_tokens) (bool_decide (d.(xs_error) = None)) = true ∧
  ∀ n, String.length data ≤ n →
    decode_go name_rune late n ∅ [] false data = decode_go name_rune late (String.length data) ∅ [] false data ∧
    ∀ e r, (decode_go name_rune late n ∅ [] false data).2 = Some (e, r) → e ≠ NoFuel.
Proof.
  cbv zeta. split.
  - unfold Decode. cbn [xs_tokens xs_error].
    pose proof (decode_nested name_rune late (String.length data) ∅ [] false data) as H. cbv zeta in H.
    destruct (decode_go _ _ _ _ _ _ _) as [toks [e|]]; exact H.
  - intros n Hn. split; [by apply decode_fuel|]. intros e r. by apply decode_enough.
Qed.
