(* ===== verification/State.v ===== *)
(** * The state of a running process (src/runtime/server.go, logger.go,
    session_timestamps.go, session_parse_evidence.go)

    The server object with its runtime state, the process-wide tables it
    updates, its log, and the arrays behind its slices; a state monad over it,
    in which the handlers are written. The clock is a parameter: the n-th reading
    of it. Times are nanoseconds, [None] is the zero [time.Time]. *)

From S2P Require Import Prelude GoStrings Json Config Pack Render Envelope.

(** ** Slices

    A slice of strings that the program appends to and cuts in place: the
    number of its backing array and its length. The capacity is the length of
    the array; all slices of the program start at index 0. *)

Record slice := mkSlice { sl_array : nat; sl_len : nat }.

Abbreviation arrays := (gmap nat (list string)).

(** What a slice shows, given the arrays. *)
Definition slice_view (h : arrays) (s : slice) : list string :=
  take s.(sl_len) (default [] (h !! s.(sl_array))).

Definition fresh_array (h : arrays) : nat := fresh (dom h).

(** [append(s, x)]: in place when the capacity allows it, else in a new array
    whose spare capacity is up to the language's implementation. *)
Definition slice_append (spare : nat → nat) (h : arrays) (s : slice) (x : string) : arrays * slice :=
  let a := default [] (h !! s.(sl_array)) in
  if s.(sl_len) <? length a
  then (<[s.(sl_array) := <[s.(sl_len) := x]> a]> h, mkSlice s.(sl_array) (S s.(sl_len)))
  else
    let n := fresh_array h in
    (<[n := take s.(sl_len) a ++ x :: replicate (spare (S s.(sl_len))) ""]> h, mkSlice n (S s.(sl_len))).

(** [for _, id := range s { if id != x { out = append(out, id) } }] with
    [out := s[:0]]: turn [i] reads index [i] of the shared array and writes at
    the length of [out], which never exceeds [i]. *)
Fixpoint filter_in_place (x : string) (i n out : nat) (a : list string) : list string * nat :=
  match n with
  | 0 => (a, out)
  | S n' =>
      match a !! i with
      | Some id =>
          if bool_decide (id = x) then filter_in_place x (S i) n' out a
          else filter_in_place x (S i) n' (S out) (<[out := id]> a)
      | None => (a, out)
      end
  end.

Definition slice_remove (h : arrays) (s : slice) (x : string) : arrays * slice :=
  let a := default [] (h !! s.(sl_array)) in
  let '(a', out) := filter_in_place x 0 s.(sl_len) 0 a in
  (<[s.(sl_array) := a']> h, mkSlice s.(sl_array) out).

(** ** Data *)

Record OutboundSchedulerState := mkScheduler {
  os_Running : bool;
  os_TargetURL : string;
  os_LastAttemptAt : option Z;
  os_LastTickAt : option Z;
  os_LastSuccessAt : option Z;
  os_LastError : string;
  os_ConsecutiveFailures : Z;
  os_OpenAttempts : Z;
  os_HeartbeatAttempts : Z;
  os_LastOperation : string;
}.

Record RuntimeState := mkState {
  rs_InstanceID : string;
  rs_EGMID : string;
  rs_TrustMode : string;
  rs_ConnectionState : string;
  rs_RegistrationState : string;
  rs_SessionState : string;
  rs_HeartbeatState : string;
  rs_AudioState : string;
  rs_HoldState : string;
  rs_LockState : string;
  rs_MachineState : string;
  rs_AllowedHostIDs : slice;
  rs_RegisteredHosts : list RegisteredHost;
  rs_LastMessageType : string;
  rs_LastCommandType : string;
  rs_LastCommandAt : option Z;
  rs_LastCommandSource : string;
  rs_LastSessionID : string;
  rs_LastHostID : string;
  rs_LastAckStatus : string;
  rs_LastTransitionAt : option Z;
  rs_LastTransitionReason : string;
  rs_LastError : string;
  rs_StartedAt : option Z;
  rs_StorageBackend : string;
  rs_StorageSQLitePath : string;
  rs_OutboundScheduler : OutboundSchedulerState;
}.

(** ** Assignments to fields *)

Definition set_os_Running (v : bool) (s : OutboundSchedulerState) : OutboundSchedulerState :=
  mkScheduler v s.(os_TargetURL) s.(os_LastAttemptAt) s.(os_LastTickAt) s.(os_LastSuccessAt)
    s.(os_LastError) s.(os_ConsecutiveFailures) s.(os_OpenAttempts) s.(os_HeartbeatAttempts)
    s.(os_LastOperation).
Definition set_os_TargetURL (v : string) (s : OutboundSchedulerState) : OutboundSchedulerState :=
  mkScheduler s.(os_Running) v s.(os_LastAttemptAt) s.(os_LastTickAt) s.(os_LastSuccessAt)
    s.(os_LastError) s.(os_ConsecutiveFailures) s.(os_OpenAttempts) s.(os_HeartbeatAttempts)
    s.(os_LastOperation).
Definition set_os_LastAttemptAt (v : option Z) (s : OutboundSchedulerState) : OutboundSchedulerState :=
  mkScheduler s.(os_Running) s.(os_TargetURL) v s.(os_LastTickAt) s.(os_LastSuccessAt)
    s.(os_LastError) s.(os_ConsecutiveFailures) s.(os_OpenAttempts) s.(os_HeartbeatAttempts)
    s.(os_LastOperation).
Definition set_os_LastTickAt (v : option Z) (s : OutboundSchedulerState) : OutboundSchedulerState :=
  mkScheduler s.(os_Running) s.(os_TargetURL) s.(os_LastAttemptAt) v s.(os_LastSuccessAt)
    s.(os_LastError) s.(os_ConsecutiveFailures) s.(os_OpenAttempts) s.(os_HeartbeatAttempts)
    s.(os_LastOperation).
Definition set_os_LastSuccessAt (v : option Z) (s : OutboundSchedulerState) : OutboundSchedulerState :=
  mkScheduler s.(os_Running) s.(os_TargetURL) s.(os_LastAttemptAt) s.(os_LastTickAt) v
    s.(os_LastError) s.(os_ConsecutiveFailures) s.(os_OpenAttempts) s.(os_HeartbeatAttempts)
    s.(os_LastOperation).
Definition set_os_LastError (v : string) (s : OutboundSchedulerState) : OutboundSchedulerState :=
  mkScheduler s.(os_Running) s.(os_TargetURL) s.(os_LastAttemptAt) s.(os_LastTickAt)
    s.(os_LastSuccessAt) v s.(os_ConsecutiveFailures) s.(os_OpenAttempts) s.(os_HeartbeatAttempts)
    s.(os_LastOperation).
Definition set_os_ConsecutiveFailures (v : Z) (s : OutboundSchedulerState) : OutboundSchedulerState :=
  mkScheduler s.(os_Running) s.(os_TargetURL) s.(os_LastAttemptAt) s.(os_LastTickAt)
    s.(os_LastSuccessAt) s.(os_LastError) v s.(os_OpenAttempts) s.(os_HeartbeatAttempts)
    s.(os_LastOperation).
Definition set_os_OpenAttempts (v : Z) (s : OutboundSchedulerState) : OutboundSchedulerState :=
  mkScheduler s.(os_Running) s.(os_TargetURL) s.(os_LastAttemptAt) s.(os_LastTickAt)
    s.(os_LastSuccessAt) s.(os_LastError) s.(os_ConsecutiveFailures) v s.(os_HeartbeatAttempts)
    s.(os_LastOperation).
Definition set_os_HeartbeatAttempts (v : Z) (s : OutboundSchedulerState) : OutboundSchedulerState :=
  mkScheduler s.(os_Running) s.(os_TargetURL) s.(os_LastAttemptAt) s.(os_LastTickAt)
    s.(os_LastSuccessAt) s.(os_LastError) s.(os_ConsecutiveFailures) s.(os_OpenAttempts) v
    s.(os_LastOperation).
Definition set_os_LastOperation (v : string) (s : OutboundSchedulerState) : OutboundSchedulerState :=
  mkScheduler s.(os_Running) s.(os_TargetURL) s.(os_LastAttemptAt) s.(os_LastTickAt)
    s.(os_LastSuccessAt) s.(os_LastError) s.(os_ConsecutiveFailures) s.(os_OpenAttempts)
    s.(os_HeartbeatAttempts) v.
Definition set_rs_TrustMode (v : string) (s : RuntimeState) : RuntimeState :=
  mkState s.(rs_InstanceID) s.(rs_EGMID) v s.(rs_ConnectionState) s.(rs_RegistrationState)
    s.(rs_SessionState) s.(rs_HeartbeatState) s.(rs_AudioState) s.(rs_HoldState) s.(rs_LockState)
    s.(rs_MachineState) s.(rs_AllowedHostIDs) s.(rs_RegisteredHosts) s.(rs_LastMessageType)
    s.(rs_LastCommandType) s.(rs_LastCommandAt) s.(rs_LastCommandSource) s.(rs_LastSessionID)
    s.(rs_LastHostID) s.(rs_LastAckStatus) s.(rs_LastTransitionAt) s.(rs_LastTransitionReason)
    s.(rs_LastError) s.(rs_StartedAt) s.(rs_StorageBackend) s.(rs_StorageSQLitePath)
    s.(rs_OutboundScheduler).
Definition set_rs_ConnectionState (v : string) (s : RuntimeState) : RuntimeState :=
  mkState s.(rs_InstanceID) s.(rs_EGMID) s.(rs_TrustMode) v s.(rs_RegistrationState)
    s.(rs_SessionState) s.(rs_HeartbeatState) s.(rs_AudioState) s.(rs_HoldState) s.(rs_LockState)
    s.(rs_MachineState) s.(rs_AllowedHostIDs) s.(rs_RegisteredHosts) s.(rs_LastMessageType)
    s.(rs_LastCommandType) s.(rs_LastCommandAt) s.(rs_LastCommandSource) s.(rs_LastSessionID)
    s.(rs_LastHostID) s.(rs_LastAckStatus) s.(rs_LastTransitionAt) s.(rs_LastTransitionReason)
    s.(rs_LastError) s.(rs_StartedAt) s.(rs_StorageBackend) s.(rs_StorageSQLitePath)
    s.(rs_OutboundScheduler).
Definition set_rs_RegistrationState (v : string) (s : RuntimeState) : RuntimeState :=
  mkState s.(rs_InstanceID) s.(rs_EGMID) s.(rs_TrustMode) s.(rs_ConnectionState) v
    s.(rs_SessionState) s.(rs_HeartbeatState) s.(rs_AudioState) s.(rs_HoldState) s.(rs_LockState)
    s.(rs_MachineState) s.(rs_AllowedHostIDs) s.(rs_RegisteredHosts) s.(rs_LastMessageType)
    s.(rs_LastCommandType) s.(rs_LastCommandAt) s.(rs_LastCommandSource) s.(rs_LastSessionID)
    s.(rs_LastHostID) s.(rs_LastAckStatus) s.(rs_LastTransitionAt) s.(rs_LastTransitionReason)
    s.(rs_LastError) s.(rs_StartedAt) s.(rs_StorageBackend) s.(rs_StorageSQLitePath)
    s.(rs_OutboundScheduler).
Definition set_rs_SessionState (v : string) (s : RuntimeState) : RuntimeState :=
  mkState s.(rs_InstanceID) s.(rs_EGMID) s.(rs_TrustMode) s.(rs_ConnectionState)
    s.(rs_RegistrationState) v s.(rs_HeartbeatState) s.(rs_AudioState) s.(rs_HoldState)
    s.(rs_LockState) s.(rs_MachineState) s.(rs_AllowedHostIDs) s.(rs_RegisteredHosts)
    s.(rs_LastMessageType) s.(rs_LastCommandType) s.(rs_LastCommandAt) s.(rs_LastCommandSource)
    s.(rs_LastSessionID) s.(rs_LastHostID) s.(rs_LastAckStatus) s.(rs_LastTransitionAt)
    s.(rs_LastTransitionReason) s.(rs_LastError) s.(rs_StartedAt) s.(rs_StorageBackend)
    s.(rs_StorageSQLitePath) s.(rs_OutboundScheduler).
Definition set_rs_HeartbeatState (v : string) (s : RuntimeState) : RuntimeState :=
  mkState s.(rs_InstanceID) s.(rs_EGMID) s.(rs_TrustMode) s.(rs_ConnectionState)
    s.(rs_RegistrationState) s.(rs_SessionState) v s.(rs_AudioState) s.(rs_HoldState)
    s.(rs_LockState) s.(rs_MachineState) s.(rs_AllowedHostIDs) s.(rs_RegisteredHosts)
    s.(rs_LastMessageType) s.(rs_LastCommandType) s.(rs_LastCommandAt) s.(rs_LastCommandSource)
    s.(rs_LastSessionID) s.(rs_LastHostID) s.(rs_LastAckStatus) s.(rs_LastTransitionAt)
    s.(rs_LastTransitionReason) s.(rs_LastError) s.(rs_StartedAt) s.(rs_StorageBackend)
    s.(rs_StorageSQLitePath) s.(rs_OutboundScheduler).
Definition set_rs_AudioState (v : string) (s : RuntimeState) : RuntimeState :=
  mkState s.(rs_InstanceID) s.(rs_EGMID) s.(rs_TrustMode) s.(rs_ConnectionState)
    s.(rs_RegistrationState) s.(rs_SessionState) s.(rs_HeartbeatState) v s.(rs_HoldState)
    s.(rs_LockState) s.(rs_MachineState) s.(rs_AllowedHostIDs) s.(rs_RegisteredHosts)
    s.(rs_LastMessageType) s.(rs_LastCommandType) s.(rs_LastCommandAt) s.(rs_LastCommandSource)
    s.(rs_LastSessionID) s.(rs_LastHostID) s.(rs_LastAckStatus) s.(rs_LastTransitionAt)
    s.(rs_LastTransitionReason) s.(rs_LastError) s.(rs_StartedAt) s.(rs_StorageBackend)
    s.(rs_StorageSQLitePath) s.(rs_OutboundScheduler).
Definition set_rs_HoldState (v : string) (s : RuntimeState) : RuntimeState :=
  mkState s.(rs_InstanceID) s.(rs_EGMID) s.(rs_TrustMode) s.(rs_ConnectionState)
    s.(rs_RegistrationState) s.(rs_SessionState) s.(rs_HeartbeatState) s.(rs_AudioState) v
    s.(rs_LockState) s.(rs_MachineState) s.(rs_AllowedHostIDs) s.(rs_RegisteredHosts)
    s.(rs_LastMessageType) s.(rs_LastCommandType) s.(rs_LastCommandAt) s.(rs_LastCommandSource)
    s.(rs_LastSessionID) s.(rs_LastHostID) s.(rs_LastAckStatus) s.(rs_LastTransitionAt)
    s.(rs_LastTransitionReason) s.(rs_LastError) s.(rs_StartedAt) s.(rs_StorageBackend)
    s.(rs_StorageSQLitePath) s.(rs_OutboundScheduler).
Definition set_rs_LockState (v : string) (s : RuntimeState) : RuntimeState :=
  mkState s.(rs_InstanceID) s.(rs_EGMID) s.(rs_TrustMode) s.(rs_ConnectionState)
    s.(rs_RegistrationState) s.(rs_SessionState) s.(rs_HeartbeatState) s.(rs_AudioState)
    s.(rs_HoldState) v s.(rs_MachineState) s.(rs_AllowedHostIDs) s.(rs_RegisteredHosts)
    s.(rs_LastMessageType) s.(rs_LastCommandType) s.(rs_LastCommandAt) s.(rs_LastCommandSource)
    s.(rs_LastSessionID) s.(rs_LastHostID) s.(rs_LastAckStatus) s.(rs_LastTransitionAt)
    s.(rs_LastTransitionReason) s.(rs_LastError) s.(rs_StartedAt) s.(rs_StorageBackend)
    s.(rs_StorageSQLitePath) s.(rs_OutboundScheduler).
Definition set_rs_MachineState (v : string) (s : RuntimeState) : RuntimeState :=
  mkState s.(rs_InstanceID) s.(rs_EGMID) s.(rs_TrustMode) s.(rs_ConnectionState)
    s.(rs_RegistrationState) s.(rs_SessionState) s.(rs_HeartbeatState) s.(rs_AudioState)
    s.(rs_HoldState) s.(rs_LockState) v s.(rs_AllowedHostIDs) s.(rs_RegisteredHosts)
    s.(rs_LastMessageType) s.(rs_LastCommandType) s.(rs_LastCommandAt) s.(rs_LastCommandSource)
    s.(rs_LastSessionID) s.(rs_LastHostID) s.(rs_LastAckStatus) s.(rs_LastTransitionAt)
    s.(rs_LastTransitionReason) s.(rs_LastError) s.(rs_StartedAt) s.(rs_StorageBackend)
    s.(rs_StorageSQLitePath) s.(rs_OutboundScheduler).
Definition set_rs_AllowedHostIDs (v : slice) (s : RuntimeState) : RuntimeState :=
  mkState s.(rs_InstanceID) s.(rs_EGMID) s.(rs_TrustMode) s.(rs_ConnectionState)
    s.(rs_RegistrationState) s.(rs_SessionState) s.(rs_HeartbeatState) s.(rs_AudioState)
    s.(rs_HoldState) s.(rs_LockState) s.(rs_MachineState) v s.(rs_RegisteredHosts)
    s.(rs_LastMessageType) s.(rs_LastCommandType) s.(rs_LastCommandAt) s.(rs_LastCommandSource)
    s.(rs_LastSessionID) s.(rs_LastHostID) s.(rs_LastAckStatus) s.(rs_LastTransitionAt)
    s.(rs_LastTransitionReason) s.(rs_LastError) s.(rs_StartedAt) s.(rs_StorageBackend)
    s.(rs_StorageSQLitePath) s.(rs_OutboundScheduler).
Definition set_rs_LastMessageType (v : string) (s : RuntimeState) : RuntimeState :=
  mkState s.(rs_InstanceID) s.(rs_EGMID) s.(rs_TrustMode) s.(rs_ConnectionState)
    s.(rs_RegistrationState) s.(rs_SessionState) s.(rs_HeartbeatState) s.(rs_AudioState)
    s.(rs_HoldState) s.(rs_LockState) s.(rs_MachineState) s.(rs_AllowedHostIDs)
    s.(rs_RegisteredHosts) v s.(rs_LastCommandType) s.(rs_LastCommandAt) s.(rs_LastCommandSource)
    s.(rs_LastSessionID) s.(rs_LastHostID) s.(rs_LastAckStatus) s.(rs_LastTransitionAt)
    s.(rs_LastTransitionReason) s.(rs_LastError) s.(rs_StartedAt) s.(rs_StorageBackend)
    s.(rs_StorageSQLitePath) s.(rs_OutboundScheduler).
Definition set_rs_LastCommandType (v : string) (s : RuntimeState) : RuntimeState :=
  mkState s.(rs_InstanceID) s.(rs_EGMID) s.(rs_TrustMode) s.(rs_ConnectionState)
    s.(rs_RegistrationState) s.(rs_SessionState) s.(rs_HeartbeatState) s.(rs_AudioState)
    s.(rs_HoldState) s.(rs_LockState) s.(rs_MachineState) s.(rs_AllowedHostIDs)
    s.(rs_RegisteredHosts) s.(rs_LastMessageType) v s.(rs_LastCommandAt) s.(rs_LastCommandSource)
    s.(rs_LastSessionID) s.(rs_LastHostID) s.(rs_LastAckStatus) s.(rs_LastTransitionAt)
    s.(rs_LastTransitionReason) s.(rs_LastError) s.(rs_StartedAt) s.(rs_StorageBackend)
    s.(rs_StorageSQLitePath) s.(rs_OutboundScheduler).
Definition set_rs_LastCommandAt (v : option Z) (s : RuntimeState) : RuntimeState :=
  mkState s.(rs_InstanceID) s.(rs_EGMID) s.(rs_TrustMode) s.(rs_ConnectionState)
    s.(rs_RegistrationState) s.(rs_SessionState) s.(rs_HeartbeatState) s.(rs_AudioState)
    s.(rs_HoldState) s.(rs_LockState) s.(rs_MachineState) s.(rs_AllowedHostIDs)
    s.(rs_RegisteredHosts) s.(rs_LastMessageType) s.(rs_LastCommandType) v
    s.(rs_LastCommandSource) s.(rs_LastSessionID) s.(rs_LastHostID) s.(rs_LastAckStatus)
    s.(rs_LastTransitionAt) s.(rs_LastTransitionReason) s.(rs_LastError) s.(rs_StartedAt)
    s.(rs_StorageBackend) s.(rs_StorageSQLitePath) s.(rs_OutboundScheduler).
Definition set_rs_LastCommandSource (v : string) (s : RuntimeState) : RuntimeState :=
  mkState s.(rs_InstanceID) s.(rs_EGMID) s.(rs_TrustMode) s.(rs_ConnectionState)
    s.(rs_RegistrationState) s.(rs_SessionState) s.(rs_HeartbeatState) s.(rs_AudioState)
    s.(rs_HoldState) s.(rs_LockState) s.(rs_MachineState) s.(rs_AllowedHostIDs)
    s.(rs_RegisteredHosts) s.(rs_LastMessageType) s.(rs_LastCommandType) s.(rs_LastCommandAt) v
    s.(rs_LastSessionID) s.(rs_LastHostID) s.(rs_LastAckStatus) s.(rs_LastTransitionAt)
    s.(rs_LastTransitionReason) s.(rs_LastError) s.(rs_StartedAt) s.(rs_StorageBackend)
    s.(rs_StorageSQLitePath) s.(rs_OutboundScheduler).
Definition set_rs_LastSessionID (v : string) (s : RuntimeState) : RuntimeState :=
  mkState s.(rs_InstanceID) s.(rs_EGMID) s.(rs_TrustMode) s.(rs_ConnectionState)
    s.(rs_RegistrationState) s.(rs_SessionState) s.(rs_HeartbeatState) s.(rs_AudioState)
    s.(rs_HoldState) s.(rs_LockState) s.(rs_MachineState) s.(rs_AllowedHostIDs)
    s.(rs_RegisteredHosts) s.(rs_LastMessageType) s.(rs_LastCommandType) s.(rs_LastCommandAt)
    s.(rs_LastCommandSource) v s.(rs_LastHostID) s.(rs_LastAckStatus) s.(rs_LastTransitionAt)
    s.(rs_LastTransitionReason) s.(rs_LastError) s.(rs_StartedAt) s.(rs_StorageBackend)
    s.(rs_StorageSQLitePath) s.(rs_OutboundScheduler).
Definition set_rs_LastHostID (v : string) (s : RuntimeState) : RuntimeState :=
  mkState s.(rs_InstanceID) s.(rs_EGMID) s.(rs_TrustMode) s.(rs_ConnectionState)
    s.(rs_RegistrationState) s.(rs_SessionState) s.(rs_HeartbeatState) s.(rs_AudioState)
    s.(rs_HoldState) s.(rs_LockState) s.(rs_MachineState) s.(rs_AllowedHostIDs)
    s.(rs_RegisteredHosts) s.(rs_LastMessageType) s.(rs_LastCommandType) s.(rs_LastCommandAt)
    s.(rs_LastCommandSource) s.(rs_LastSessionID) v s.(rs_LastAckStatus) s.(rs_LastTransitionAt)
    s.(rs_LastTransitionReason) s.(rs_LastError) s.(rs_StartedAt) s.(rs_StorageBackend)
    s.(rs_StorageSQLitePath) s.(rs_OutboundScheduler).
Definition set_rs_LastAckStatus (v : string) (s : RuntimeState) : RuntimeState :=
  mkState s.(rs_InstanceID) s.(rs_EGMID) s.(rs_TrustMode) s.(rs_ConnectionState)
    s.(rs_RegistrationState) s.(rs_SessionState) s.(rs_HeartbeatState) s.(rs_AudioState)
    s.(rs_HoldState) s.(rs_LockState) s.(rs_MachineState) s.(rs_AllowedHostIDs)
    s.(rs_RegisteredHosts) s.(rs_LastMessageType) s.(rs_LastCommandType) s.(rs_LastCommandAt)
    s.(rs_LastCommandSource) s.(rs_LastSessionID) s.(rs_LastHostID) v s.(rs_LastTransitionAt)
    s.(rs_LastTransitionReason) s.(rs_LastError) s.(rs_StartedAt) s.(rs_StorageBackend)
    s.(rs_StorageSQLitePath) s.(rs_OutboundScheduler).
Definition set_rs_LastTransitionAt (v : option Z) (s : RuntimeState) : RuntimeState :=
  mkState s.(rs_InstanceID) s.(rs_EGMID) s.(rs_TrustMode) s.(rs_ConnectionState)
    s.(rs_RegistrationState) s.(rs_SessionState) s.(rs_HeartbeatState) s.(rs_AudioState)
    s.(rs_HoldState) s.(rs_LockState) s.(rs_MachineState) s.(rs_AllowedHostIDs)
    s.(rs_RegisteredHosts) s.(rs_LastMessageType) s.(rs_LastCommandType) s.(rs_LastCommandAt)
    s.(rs_LastCommandSource) s.(rs_LastSessionID) s.(rs_LastHostID) s.(rs_LastAckStatus) v
    s.(rs_LastTransitionReason) s.(rs_LastError) s.(rs_StartedAt) s.(rs_StorageBackend)
    s.(rs_StorageSQLitePath) s.(rs_OutboundScheduler).
Definition set_rs_LastTransitionReason (v : string) (s : RuntimeState) : RuntimeState :=
  mkState s.(rs_InstanceID) s.(rs_EGMID) s.(rs_TrustMode) s.(rs_ConnectionState)
    s.(rs_RegistrationState) s.(rs_SessionState) s.(rs_HeartbeatState) s.(rs_AudioState)
    s.(rs_HoldState) s.(rs_LockState) s.(rs_MachineState) s.(rs_AllowedHostIDs)
    s.(rs_RegisteredHosts) s.(rs_LastMessageType) s.(rs_LastCommandType) s.(rs_LastCommandAt)
    s.(rs_LastCommandSource) s.(rs_LastSessionID) s.(rs_LastHostID) s.(rs_LastAckStatus)
    s.(rs_LastTransitionAt) v s.(rs_LastError) s.(rs_StartedAt) s.(rs_StorageBackend)
    s.(rs_StorageSQLitePath) s.(rs_OutboundScheduler).
Definition set_rs_LastError (v : string) (s : RuntimeState) : RuntimeState :=
  mkState s.(rs_InstanceID) s.(rs_EGMID) s.(rs_TrustMode) s.(rs_ConnectionState)
    s.(rs_RegistrationState) s.(rs_SessionState) s.(rs_HeartbeatState) s.(rs_AudioState)
    s.(rs_HoldState) s.(rs_LockState) s.(rs_MachineState) s.(rs_AllowedHostIDs)
    s.(rs_RegisteredHosts) s.(rs_LastMessageType) s.(rs_LastCommandType) s.(rs_LastCommandAt)
    s.(rs_LastCommandSource) s.(rs_LastSessionID) s.(rs_LastHostID) s.(rs_LastAckStatus)
    s.(rs_LastTransitionAt) s.(rs_LastTransitionReason) v s.(rs_StartedAt) s.(rs_StorageBackend)
    s.(rs_StorageSQLitePath) s.(rs_OutboundScheduler).
Definition set_rs_OutboundScheduler (v : OutboundSchedulerState) (s : RuntimeState) : RuntimeState :=
  mkState s.(rs_InstanceID) s.(rs_EGMID) s.(rs_TrustMode) s.(rs_ConnectionState)
    s.(rs_RegistrationState) s.(rs_SessionState) s.(rs_HeartbeatState) s.(rs_AudioState)
    s.(rs_HoldState) s.(rs_LockState) s.(rs_MachineState) s.(rs_AllowedHostIDs)
    s.(rs_RegisteredHosts) s.(rs_LastMessageType) s.(rs_LastCommandType) s.(rs_LastCommandAt)
    s.(rs_LastCommandSource) s.(rs_LastSessionID) s.(rs_LastHostID) s.(rs_LastAckStatus)
    s.(rs_LastTransitionAt) s.(rs_LastTransitionReason) s.(rs_LastError) s.(rs_StartedAt)
    s.(rs_StorageBackend) s.(rs_StorageSQLitePath) v.

(** ** The server object and the process-wide tables *)

Record Event := mkEvent {
  ev_Time : Z;
  ev_Level : string;
  ev_Category : string;
  ev_Message : string;
  ev_InstanceID : string;
  ev_Fields : gmap string json;
}.

(** A payload file; its name is made of the time, the direction and the part of
    the operation that [sanitizeFilePart] leaves. *)
Record Payload := mkPayload {
  pl_Time : Z;
  pl_Direction : string;
  pl_Operation : string;
  pl_Data : string;
}.

Record sessionTimestampSet := mkTimestamps {
  ts_LastCommsOnlineAt : option Z;
  ts_LastKeepAliveAt : option Z;
  ts_LastAckAt : option Z;
}.

Record sessionParseEvidenceSet := mkEvidence {
  pv_G2SXMLMode : string;
  pv_G2SXMLNamespace : string;
  pv_G2SXMLEGMLocation : string;
  pv_LastParsedRootKind : string;
  pv_LastParsedClass : string;
  pv_LastParsedOperation : string;
  pv_LastRawRoot : string;
  pv_LastExpectedAck : string;
  pv_LastActualAck : string;
}.

(** [time.Duration(ms) * time.Millisecond] *)
Definition duration_ms (ms : Z) : Z := int64_wrap (ms * 1000000).

(** [tls.VersionTLS12] *)
Definition VersionTLS12 : Z := 771.

(** A call of the process's HTTP client: the operation its body was rendered for,
    the address, the body, the client's time limit in nanoseconds, where zero and
    less mean none, and the TLS settings, [None] for the default transport. *)
Record tlsTransport := mkTLS {
  tt_MinVersion : Z;
  tt_InsecureSkipVerify : bool;
  tt_Certificate : option (string * string);
  tt_RootCAs : option string;
  tt_ServerName : string;
}.

Record call := mkCall {
  cl_Operation : string;
  cl_URL : string;
  cl_Body : string;
  cl_Timeout : Z;
  cl_Transport : option tlsTransport;
}.

(** [sv_sent]: the calls of the client made so far. *)
Record Server := mkServer {
  sv_cfg : Config;
  sv_pack : MessagePack;
  sv_state : RuntimeState;
  sv_schedulerCancel : bool;
  sv_arrays : gmap nat (list string);
  sv_events : list Event;
  sv_payloads : list Payload;
  sv_clock : nat;
  sv_timestamps : gmap string sessionTimestampSet;
  sv_evidence : gmap string sessionParseEvidenceSet;
  sv_xmlModes : gmap string G2SXMLConfig;
  sv_sent : list call;
}.

Definition set_sv_cfg (v : Config) (w : Server) : Server :=
  mkServer v w.(sv_pack) w.(sv_state) w.(sv_schedulerCancel) w.(sv_arrays) w.(sv_events)
    w.(sv_payloads) w.(sv_clock) w.(sv_timestamps) w.(sv_evidence) w.(sv_xmlModes) w.(sv_sent).
Definition set_sv_pack (v : MessagePack) (w : Server) : Server :=
  mkServer w.(sv_cfg) v w.(sv_state) w.(sv_schedulerCancel) w.(sv_arrays) w.(sv_events)
    w.(sv_payloads) w.(sv_clock) w.(sv_timestamps) w.(sv_evidence) w.(sv_xmlModes) w.(sv_sent).
Definition set_sv_state (v : RuntimeState) (w : Server) : Server :=
  mkServer w.(sv_cfg) w.(sv_pack) v w.(sv_schedulerCancel) w.(sv_arrays) w.(sv_events)
    w.(sv_payloads) w.(sv_clock) w.(sv_timestamps) w.(sv_evidence) w.(sv_xmlModes) w.(sv_sent).
Definition set_sv_schedulerCancel (v : bool) (w : Server) : Server :=
  mkServer w.(sv_cfg) w.(sv_pack) w.(sv_state) v w.(sv_arrays) w.(sv_events) w.(sv_payloads)
    w.(sv_clock) w.(sv_timestamps) w.(sv_evidence) w.(sv_xmlModes) w.(sv_sent).
Definition set_sv_arrays (v : gmap nat (list string)) (w : Server) : Server :=
  mkServer w.(sv_cfg) w.(sv_pack) w.(sv_state) w.(sv_schedulerCancel) v w.(sv_events)
    w.(sv_payloads) w.(sv_clock) w.(sv_timestamps) w.(sv_evidence) w.(sv_xmlModes) w.(sv_sent).
Definition set_sv_events (v : list Event) (w : Server) : Server :=
  mkServer w.(sv_cfg) w.(sv_pack) w.(sv_state) w.(sv_schedulerCancel) w.(sv_arrays) v
    w.(sv_payloads) w.(sv_clock) w.(sv_timestamps) w.(sv_evidence) w.(sv_xmlModes) w.(sv_sent).
Definition set_sv_payloads (v : list Payload) (w : Server) : Server :=
  mkServer w.(sv_cfg) w.(sv_pack) w.(sv_state) w.(sv_schedulerCancel) w.(sv_arrays) w.(sv_events)
    v w.(sv_clock) w.(sv_timestamps) w.(sv_evidence) w.(sv_xmlModes) w.(sv_sent).
Definition set_sv_clock (v : nat) (w : Server) : Server :=
  mkServer w.(sv_cfg) w.(sv_pack) w.(sv_state) w.(sv_schedulerCancel) w.(sv_arrays) w.(sv_events)
    w.(sv_payloads) v w.(sv_timestamps) w.(sv_evidence) w.(sv_xmlModes) w.(sv_sent).
Definition set_sv_timestamps (v : gmap string sessionTimestampSet) (w : Server) : Server :=
  mkServer w.(sv_cfg) w.(sv_pack) w.(sv_state) w.(sv_schedulerCancel) w.(sv_arrays) w.(sv_events)
    w.(sv_payloads) w.(sv_clock) v w.(sv_evidence) w.(sv_xmlModes) w.(sv_sent).
Definition set_sv_evidence (v : gmap string sessionParseEvidenceSet) (w : Server) : Server :=
  mkServer w.(sv_cfg) w.(sv_pack) w.(sv_state) w.(sv_schedulerCancel) w.(sv_arrays) w.(sv_events)
    w.(sv_payloads) w.(sv_clock) w.(sv_timestamps) v w.(sv_xmlModes) w.(sv_sent).
Definition set_sv_sent (v : list call) (w : Server) : Server :=
  mkServer w.(sv_cfg) w.(sv_pack) w.(sv_state) w.(sv_schedulerCancel) w.(sv_arrays) w.(sv_events)
    w.(sv_payloads) w.(sv_clock) w.(sv_timestamps) w.(sv_evidence) w.(sv_xmlModes) v.

(** ** The monad of the handlers *)

Definition M (A : Type) : Type := Server → A * Server.

#[export] Instance M_ret : MRet M := λ A a w, (a, w).
#[export] Instance M_bind : MBind M := λ A B f x w, let '(a, w') := x w in f a w'.

Lemma M_bind_eq {A B} (x : M A) (f : A → M B) w : (x ≫= f) w = f (x w).1 (x w).2.
Proof. unfold mbind, M_bind. by destruct (x w). Qed.

Definition gets {A} (f : Server → A) : M A := λ w, (f w, w).
Definition modify (f : Server → Server) : M unit := λ w, ((), f w).
Definition on_state (f : RuntimeState → RuntimeState) : M unit :=
  modify (λ w, set_sv_state (f w.(sv_state)) w).
Definition get_state : M RuntimeState := gets sv_state.

(** [for]-free conditionals *)
Definition when (b : bool) (x : M unit) : M unit := if b then x else mret ().

(** [sanitizeFilePart] of logger.go: one character per rune; [skip] counts the
    bytes of the last rune that are still to come. *)
Fixpoint sanitize_runes (skip : nat) (s : string) : string :=
  match s with
  | EmptyString => ""
  | String c s' =>
      match skip with
      | S k => sanitize_runes k s'
      | 0 =>
          let keep := byte_in 97 122 c || byte_in 65 90 c || byte_in 48 57 c in
          String (if keep then c else "_"%char) (sanitize_runes (rune_len s - 1) s')
      end
  end.
Definition sanitizeFilePart (s : string) : string :=
  if bool_decide (s = "") then "unknown" else sanitize_runes 0 s.

Section clock.
Context (clock : nat → Z).

(** [time.Now()] *)
Definition Now : M Z := λ w, (clock w.(sv_clock), set_sv_clock (S w.(sv_clock)) w).

(** [Logger.Log]: one event at the end of the log. *)
Definition Log (level category message : string) (fields : gmap string json) : M unit :=
  t ← Now;
  id ← gets (λ w, w.(sv_cfg).(cfg_InstanceID));
  modify (λ w, set_sv_events (w.(sv_events) ++ [mkEvent t level category message id fields]) w).

(** [Logger.WritePayload], whose result every caller drops. *)
Definition WritePayload (direction op data : string) : M unit :=
  t ← Now;
  modify (λ w, set_sv_payloads
    (w.(sv_payloads) ++ [mkPayload t direction (sanitizeFilePart op) data]) w).

(** ** State updates: control_restore.go *)

Definition update_string (updates : gmap string json) (key : string)
    (set : string → RuntimeState → RuntimeState) (s : RuntimeState) : RuntimeState :=
  match updates !! key with Some (JStr v) => set v s | _ => s end.

Definition update_strings (updates : gmap string json) (s : RuntimeState) : RuntimeState :=
  update_string updates "connection_state" set_rs_ConnectionState
  (update_string updates "heartbeat_state" set_rs_HeartbeatState
  (update_string updates "session_state" set_rs_SessionState
  (update_string updates "machine_state" set_rs_MachineState
  (update_string updates "lock_state" set_rs_LockState
  (update_string updates "hold_state" set_rs_HoldState
  (update_string updates "audio_state" set_rs_AudioState s)))))).

Definition applyStateUpdatesLocked (updates : gmap string json) (reason : string) : M unit :=
  if bool_decide (updates = ∅) then mret ()
  else
    on_state (update_strings updates);;
    t ← Now;
    on_state (λ s, set_rs_LastTransitionReason reason (set_rs_LastTransitionAt (Some t) s));;
    Log "info" "state" "state updated" {[ "reason" := JStr reason; "updates" := enc updates ]}.

Definition templateStateLocked (s : RuntimeState) : gmap string string := list_to_map [
  ("instanceId", s.(rs_InstanceID));
  ("egmId", s.(rs_EGMID));
  ("trustMode", s.(rs_TrustMode));
  ("connectionState", s.(rs_ConnectionState));
  ("sessionState", s.(rs_SessionState));
  ("heartbeatState", s.(rs_HeartbeatState));
  ("audioState", s.(rs_AudioState));
  ("holdState", s.(rs_HoldState));
  ("lockState", s.(rs_LockState));
  ("machineState", s.(rs_MachineState));
  ("lastMessageType", s.(rs_LastMessageType));
  ("lastCommandType", s.(rs_LastCommandType));
  ("lastCommandSource", s.(rs_LastCommandSource));
  ("lastSessionId", s.(rs_LastSessionID));
  ("lastHostId", s.(rs_LastHostID));
  ("lastAckStatus", s.(rs_LastAckStatus))].
End clock.

Example sanitize_accent : sanitizeFilePart "keep-Alivé9" = "keep_Aliv_9".
Proof. reflexivity. Qed.

(** ** Lemmas: slices *)

(** Filtering in place never overtakes itself: what is still to be read is
    untouched, so that the result is what filtering into a new array would give.
    Behind it the rest of the old array stays. *)
Lemma filter_in_place_spec x n i out orig :
  i + n ≤ length orig → length out ≤ i →
  let out' := out ++ filter (λ id, id ≠ x) (take n (drop i orig)) in
  filter_in_place x i n (length out) (out ++ drop (length out) orig)
  = (out' ++ drop (length out') orig, length out').
Proof.
  revert i out. induction n as [|n IH]; intros i out Hn Ho; cbv zeta; cbn [filter_in_place].
  { by rewrite take_0, filter_nil, app_nil_r. }
  assert (Hlt : i < length orig) by lia.
  destruct (lookup_lt_is_Some_2 orig i Hlt) as [id Hid].
  assert (Hl : (out ++ drop (length out) orig) !! i = Some id).
  { rewrite lookup_app_r by done. rewrite lookup_drop. by replace (length out + (i - length out)) with i by lia. }
  rewrite Hl, (drop_S _ _ _ Hid). cbn [take]. case_bool_decide as Hx.
  - rewrite filter_cons_False by naive_solver. apply IH; lia.
  - rewrite filter_cons_True by done.
    destruct (lookup_lt_is_Some_2 orig (length out)) as [y Hy]; [lia|].
    assert (Hins : <[length out := id]> (out ++ drop (length out) orig)
                   = (out ++ [id]) ++ drop (length (out ++ [id])) orig).
    { rewrite (drop_S _ _ _ Hy), insert_app_r_alt by done.
      rewrite Nat.sub_diag. simpl. rewrite length_app, Nat.add_1_r. by rewrite <-app_assoc. }
    rewrite Hins. replace (S (length out)) with (length (out ++ [id])) by (rewrite length_app; simpl; lia).
    rewrite IH by (rewrite ?length_app; simpl; lia). cbn zeta. by rewrite <-!app_assoc.
Qed.

(** A slice that lies in its array. *)
Definition slice_ok (h : arrays) (s : slice) : Prop :=
  s.(sl_len) ≤ length (default [] (h !! s.(sl_array))).

Lemma slice_view_length h s : slice_ok h s → length (slice_view h s) = s.(sl_len).
Proof. intros H. unfold slice_view. rewrite length_take. unfold slice_ok in H. lia. Qed.

Lemma slice_append_ok spare h s x :
  slice_ok h s →
  slice_ok (slice_append spare h s x).1 (slice_append spare h s x).2 ∧
  slice_view (slice_append spare h s x).1 (slice_append spare h s x).2 = slice_view h s ++ [x].
Proof.
  unfold slice_ok, slice_view, slice_append. intros H. cbv zeta.
  set (a := default [] (h !! s.(sl_array))) in *.
  destruct (sl_len s <? length a) eqn:Hlt; cbn [fst snd sl_array sl_len].
  - apply Nat.ltb_lt in Hlt. rewrite lookup_insert_eq. simpl. rewrite length_insert. split; [lia|].
    rewrite (take_S_r _ _ x) by (by apply list_lookup_insert_eq). by rewrite take_insert_ge by lia.
  - apply Nat.ltb_ge in Hlt. assert (Hlen : sl_len s = length a) by lia.
    rewrite lookup_insert_eq. simpl. rewrite length_app, length_take. simpl. split; [lia|].
    rewrite Hlen, firstn_all. rewrite take_app_ge by lia.
    replace (S (length a) - length a) with 1 by lia. done.
Qed.

Lemma slice_remove_eq h s x :
  slice_ok h s →
  let a := default [] (h !! s.(sl_array)) in
  let kept := filter (λ id, id ≠ x) (slice_view h s) in
  slice_remove h s x
  = (<[s.(sl_array) := kept ++ drop (length kept) a]> h, mkSlice s.(sl_array) (length kept)).
Proof.
  intros H a kept. unfold slice_remove. fold a.
  pose proof (filter_in_place_spec x (sl_len s) 0 [] a H ltac:(done)) as Hf.
  cbn [length app drop] in Hf. rewrite drop_0 in Hf. rewrite Hf. done.
Qed.

(** Removing shows what it should ... *)
Lemma slice_remove_ok h s x :
  slice_ok h s →
  slice_ok (slice_remove h s x).1 (slice_remove h s x).2 ∧
  slice_view (slice_remove h s x).1 (slice_remove h s x).2 = filter (λ id, id ≠ x) (slice_view h s).
Proof.
  intros H. rewrite slice_remove_eq by done. unfold slice_ok, slice_view. cbn [fst snd sl_array sl_len].
  rewrite lookup_insert_eq. simpl. rewrite length_app. split; [lia|]. by rewrite take_app_length.
Qed.

(** ... but an older copy of the slice now shows the remaining elements followed
    by stale ones. *)
Lemma slice_remove_stale h s x :
  slice_ok h s →
  let kept := filter (λ id, id ≠ x) (slice_view h s) in
  slice_view (slice_remove h s x).1 s = kept ++ drop (length kept) (slice_view h s).
Proof.
  intros H kept. rewrite slice_remove_eq by done. unfold slice_view at 1. cbn [fst].
  rewrite lookup_insert_eq. simpl. fold kept.
  assert (Hk : length kept ≤ sl_len s).
  { rewrite <-(slice_view_length h s H). apply length_filter. }
  rewrite take_app_ge by done. f_equal. unfold slice_view. by rewrite skipn_firstn_comm.
Qed.

(** ** Lemmas: state updates *)

(** The value a field has after an update that may mention it. *)
Definition field_after (updates : gmap string json) (key old : string) : string :=
  match updates !! key with Some (JStr v) => v | _ => old end.

(** What an update does to the state. *)
Definition updated (u : gmap string json) (reason : string) (at_ : Z) (s : RuntimeState) : RuntimeState :=
  if bool_decide (u = ∅) then s
  else set_rs_LastTransitionReason reason (set_rs_LastTransitionAt (Some at_) (update_strings u s)).

(** The seven fields that an update may change. *)
Record visible := mkVisible {
  vs_Connection : string; vs_Heartbeat : string; vs_Session : string; vs_Machine : string;
  vs_Lock : string; vs_Hold : string; vs_Audio : string;
}.
Definition visible_of (s : RuntimeState) : visible :=
  mkVisible s.(rs_ConnectionState) s.(rs_HeartbeatState) s.(rs_SessionState) s.(rs_MachineState)
    s.(rs_LockState) s.(rs_HoldState) s.(rs_AudioState).
Definition visible_after (u : gmap string json) (v : visible) : visible :=
  mkVisible (field_after u "connection_state" v.(vs_Connection))
    (field_after u "heartbeat_state" v.(vs_Heartbeat))
    (field_after u "session_state" v.(vs_Session)) (field_after u "machine_state" v.(vs_Machine))
    (field_after u "lock_state" v.(vs_Lock)) (field_after u "hold_state" v.(vs_Hold))
    (field_after u "audio_state" v.(vs_Audio)).

Lemma field_after_empty k old : field_after ∅ k old = old.
Proof. unfold field_after. by rewrite lookup_empty. Qed.

(** What no update touches: everything but the seven fields and the two that
    describe the last transition. *)
Definition set_visible (v : visible) (at_ : option Z) (reason : string) (s : RuntimeState) : RuntimeState :=
  set_rs_LastTransitionReason reason (set_rs_LastTransitionAt at_
  (set_rs_ConnectionState v.(vs_Connection) (set_rs_HeartbeatState v.(vs_Heartbeat)
  (set_rs_SessionState v.(vs_Session) (set_rs_MachineState v.(vs_Machine)
  (set_rs_LockState v.(vs_Lock) (set_rs_HoldState v.(vs_Hold) (set_rs_AudioState v.(vs_Audio) s)))))))).

Lemma set_visible_id s :
  set_visible (visible_of s) s.(rs_LastTransitionAt) s.(rs_LastTransitionReason) s = s.
Proof. by destruct s. Qed.

Lemma update_string_set u k (set : string → RuntimeState → RuntimeState) (proj : RuntimeState → string) s :
  (∀ s, set (proj s) s = s) → update_string u k set s = set (field_after u k (proj s)) s.
Proof. unfold update_string, field_after. intros H. destruct (u !! k) as [[]|]; by rewrite ?H. Qed.

Lemma updated_eq u reason at_ s :
  updated u reason at_ s
  = set_visible (visible_after u (visible_of s))
      (if bool_decide (u = ∅) then s.(rs_LastTransitionAt) else Some at_)
      (if bool_decide (u = ∅) then s.(rs_LastTransitionReason) else reason) s.
Proof.
  unfold updated. case_bool_decide as Hu.
  - subst u. unfold visible_after. rewrite !field_after_empty. symmetry. apply set_visible_id.
  - unfold update_strings, set_visible.
    rewrite (update_string_set u "audio_state" set_rs_AudioState rs_AudioState) by (by intros []).
    rewrite (update_string_set u "hold_state" set_rs_HoldState rs_HoldState) by (by intros []).
    rewrite (update_string_set u "lock_state" set_rs_LockState rs_LockState) by (by intros []).
    rewrite (update_string_set u "machine_state" set_rs_MachineState rs_MachineState) by (by intros []).
    rewrite (update_string_set u "session_state" set_rs_SessionState rs_SessionState) by (by intros []).
    rewrite (update_string_set u "heartbeat_state" set_rs_HeartbeatState rs_HeartbeatState) by (by intros []).
    rewrite (update_string_set u "connection_state" set_rs_ConnectionState rs_ConnectionState) by (by intros []).
    reflexivity.
Qed.

Lemma updated_visible u reason at_ s :
  visible_of (updated u reason at_ s) = visible_after u (visible_of s).
Proof. rewrite updated_eq. by destruct s. Qed.

(** Run a computation one bind at a time. *)
Ltac step := rewrite M_bind_eq; cbn [fst snd gets modify on_state get_state mret M_ret].
Ltac run := repeat step.

Lemma when_eq b (x : M unit) w : when b x w = ((), if b then (x w).2 else w).
Proof. destruct b; [|done]. unfold when. by destruct (x w) as [[] ?]. Qed.

(** ** Lemmas: what the log and the state updates leave alone *)

(** Nothing but the state, the log, the payload files and the clock moves, and
    these three only grow. *)
Record quiet (w w' : Server) : Prop := {
  quiet_cfg : w'.(sv_cfg) = w.(sv_cfg);
  quiet_pack : w'.(sv_pack) = w.(sv_pack);
  quiet_cancel : w'.(sv_schedulerCancel) = w.(sv_schedulerCancel);
  quiet_arrays : w'.(sv_arrays) = w.(sv_arrays);
  quiet_timestamps : w'.(sv_timestamps) = w.(sv_timestamps);
  quiet_evidence : w'.(sv_evidence) = w.(sv_evidence);
  quiet_xmlModes : w'.(sv_xmlModes) = w.(sv_xmlModes);
  quiet_sent : w'.(sv_sent) = w.(sv_sent);
  quiet_events : w.(sv_events) `prefix_of` w'.(sv_events);
  quiet_payloads : w.(sv_payloads) `prefix_of` w'.(sv_payloads);
  quiet_clock : w.(sv_clock) ≤ w'.(sv_clock);
}.

#[export] Instance quiet_preorder : PreOrder quiet.
Proof.
  split.
  - intros w. by split.
  - intros w1 w2 w3 H1 H2. destruct H1, H2. split; try congruence; try lia; by etrans.
Qed.

Lemma quiet_on_state f w : quiet w (set_sv_state f w).
Proof. by split. Qed.

Section clock_lemmas.
Context (clock : nat → Z).

Lemma Log_state level cat msg fields w :
  (Log clock level cat msg fields w).2.(sv_state) = w.(sv_state).
Proof. done. Qed.

Lemma Log_quiet level cat msg fields w : quiet w (Log clock level cat msg fields w).2.
Proof. split; try done; [by apply prefix_app_r|]. simpl. apply Nat.le_succ_diag_r. Qed.

Lemma WritePayload_quiet dir op data w : quiet w (WritePayload clock dir op data w).2.
Proof. split; try done; [by apply prefix_app_r|]. simpl. apply Nat.le_succ_diag_r. Qed.

(** The server after an update. *)
Definition applied (u : gmap string json) (reason : string) (w : Server) : Server :=
  (applyStateUpdatesLocked clock u reason w).2.

Lemma apply_eq u reason w : applyStateUpdatesLocked clock u reason w = ((), applied u reason w).
Proof. unfold applied. by destruct (applyStateUpdatesLocked clock u reason w) as [[] ?]. Qed.

Lemma applied_empty reason w : applied ∅ reason w = w.
Proof. unfold applied, applyStateUpdatesLocked. by rewrite bool_decide_eq_true_2. Qed.

Lemma applied_state u reason w :
  (applied u reason w).(sv_state) = updated u reason (clock w.(sv_clock)) w.(sv_state).
Proof. unfold applied, applyStateUpdatesLocked, updated. by case_bool_decide. Qed.

Lemma applied_quiet u reason w : quiet w (applied u reason w).
Proof.
  unfold applied, applyStateUpdatesLocked. case_bool_decide; [done|].
  split; try done; [by apply prefix_app_r|]. exact (Nat.le_add_l _ 2).
Qed.
End clock_lemmas.

#[export] Hint Resolve Log_quiet WritePayload_quiet applied_quiet quiet_on_state : vegm.
