(* ===== verification/Control.v ===== *)
(** * Wire and control handlers (src/runtime/wire_restore.go, control_restore.go,
    control_ui.go, server.go)

    The handlers of a process as computations of the state monad of [State]: the
    part of a handler between locking and unlocking is one definition, what it
    does before and after is another, so that other handlers can run in between. *)

From S2P Require Import Prelude GoStrings Json Config Pack Render Envelope State.

(** ** Requests and responses *)

(** The body of a request as the handlers read it: as bytes of XML, [Err] with
    the error's text when reading fails, or as a JSON value; [rq_JsonError] is the
    text of the decoder's error, used when there is no value or it does not fit. *)
Record Request := mkRequest {
  rq_Method : string;
  rq_ContentType : string;
  rq_Bytes : result xml_bytes;
  rq_Json : option json;
  rq_JsonError : string;
}.

Inductive body :=
  | BText (s : string)
  | BXml (s : string)
  | BState (s : RuntimeState)
  | BJson (kvs : list (string * json))
  | BJsonState (kvs : list (string * json)) (s : RuntimeState)
  | BScheduler (s : OutboundSchedulerState)
  | BEvents (l : list Event)
  | BOperations (m : gmap string Operation).

(** Status and body. A status outside 100..999, which [net/http] refuses by a
    panic, is kept as it is. *)
Record Response := mkResponse { rp_Status : Z; rp_Body : body }.

Definition http_error (msg : string) (status : Z) : M Response := mret (mkResponse status (BText msg)).
Definition method_not_allowed : M Response := http_error "method not allowed" 405.

(** [if r.Method != method { http.Error(...); return }] *)
Definition require_method (method : string) (r : Request) (k : M Response) : M Response :=
  if bool_decide (r.(rq_Method) = method) then k else method_not_allowed.

(** Decoding the body into a struct. *)
Definition decode_body `{Codec A} (r : Request) : option A := r.(rq_Json) ≫= λ j, dec j zero.

(** Decoding whose error is dropped: the decoder goes on after a value that does
    not fit, and keeps what fits. *)
Definition dec_key_lenient {A} (n : string) (d : decoder A) (kvs : list (string * json)) (old : A) : A :=
  foldl (λ acc kv, default acc (d kv.2 acc)) old (matching n kvs).

(** The entries of the body, none when it is not an object. *)
Definition body_entries (r : Request) : list (string * json) :=
  match r.(rq_Json) with Some (JObj kvs) => kvs | _ => [] end.

Record audioControlRequest := mkAudio { au_Muted : bool }.
Record securityModeRequest := mkSecurityMode { sm_TrustMode : string }.
Record hostControlRequest := mkHostControl { hc_HostID : string }.
Record logicalCommandRequest := mkLogical {
  lc_LogicalCommand : string;
  lc_HostID : string;
  lc_SessionID : string;
}.

Definition dec_securityMode : decoder securityModeRequest := dec_struct (λ kvs old,
  v0 ← dec_key "trust_mode" dec kvs old.(sm_TrustMode); Some (mkSecurityMode v0)).
Definition dec_hostControl : decoder hostControlRequest := dec_struct (λ kvs old,
  v0 ← dec_key "host_id" dec kvs old.(hc_HostID); Some (mkHostControl v0)).
Definition dec_logical : decoder logicalCommandRequest := dec_struct (λ kvs old,
  v0 ← dec_key "logical_command" dec kvs old.(lc_LogicalCommand);
  v1 ← dec_key "host_id" dec kvs old.(lc_HostID);
  v2 ← dec_key "session_id" dec kvs old.(lc_SessionID);
  Some (mkLogical v0 v1 v2)).

(** ** Host admission *)

(** The first entry of that identifier decides. *)
Fixpoint registered_enabled (hosts : list RegisteredHost) (hostID : string) : bool :=
  match hosts with
  | [] => false
  | h :: rest =>
      if bool_decide (h.(host_HostID) = hostID) then h.(host_Enabled) else registered_enabled rest hostID
  end.

Definition hostAllowedLocked (w : Server) (hostID : string) : bool :=
  let s := w.(sv_state) in
  if bool_decide (w.(sv_pack).(mp_StateDefaults).(sd_RegistrationMode) = "open")
     || bool_decide (s.(rs_RegistrationState) = "open") then true
  else match s.(rs_RegisteredHosts) with
       | [] => bool_decide (hostID ∈ slice_view w.(sv_arrays) s.(rs_AllowedHostIDs))
       | hosts => registered_enabled hosts hostID
       end.

Section handlers.
Context (clock : nat → Z) (spare : nat → nat).
(** The order in which a [range] loop visits a map of strings. *)
Context (range : gmap string string → list (string * string)).

Let Now := Now clock.
Let Log := Log clock.
Let WritePayload := WritePayload clock.
Let applyStateUpdatesLocked := applyStateUpdatesLocked clock.

(** ** Inbound messages: wire_restore.go *)

Definition applyBuiltInOperationStateLocked (opName : string) : M unit :=
  if bool_decide (opName = "commsOnLine") then
    applyStateUpdatesLocked {[ "session_state" := JStr "online"; "heartbeat_state" := JStr "healthy" ]}
      "wire commsOnLine"
  else if bool_decide (opName = "keepAlive") then
    applyStateUpdatesLocked {[ "heartbeat_state" := JStr "healthy" ]} "wire keepAlive"
  else mret ().

(** What the locked part of [handleWire] decides. *)
Inductive decision :=
  | Forbidden
  | Undefined
  | Handled (responseXML : string) (status : Z).

(** The fields that every accepted message sets. *)
Definition note_command (connection opName hostID sessionID : string) (at_ : Z) (s : RuntimeState)
    : RuntimeState :=
  set_rs_LastError "" (set_rs_LastHostID hostID (set_rs_LastSessionID sessionID
  (set_rs_LastCommandSource hostID (set_rs_LastCommandAt (Some at_) (set_rs_LastCommandType opName
  (set_rs_LastMessageType opName (set_rs_ConnectionState connection s))))))).

Definition response_status (v : ResponseVariant) : Z :=
  if bool_decide (v.(rv_HTTPStatus) = 0%Z) then 200 else v.(rv_HTTPStatus).

Definition request_fields (hostID sessionID egmID : string) : gmap string string :=
  {[ "hostId" := hostID; "sessionId" := sessionID; "egmId" := egmID ]}.

Definition render_variant (v : ResponseVariant) (fields : gmap string string) : M string :=
  s ← get_state;
  ns ← gets (λ w, w.(sv_pack).(mp_Wire).(wire_Namespaces));
  mret (RenderTemplate_in v.(rv_Template) ns (range fields) (range (templateStateLocked s))).

Definition wire_locked (opName hostID sessionID egmID : string) : M decision :=
  allowed ← gets (λ w, hostAllowedLocked w hostID);
  if negb allowed then
    on_state (set_rs_LastError ("host " +:+ quote hostID +:+ " is not registered or enabled"));;
    mret Forbidden
  else
  op ← gets (λ w, w.(sv_pack).(mp_Operations) !! opName);
  match op ≫= (λ o, head o.(op_Responses)) with
  | None =>
      on_state (set_rs_LastError ("operation " +:+ quote opName +:+ " is not defined"));;
      mret Undefined
  | Some variant =>
      at_ ← Now;
      on_state (note_command "controller_connected" opName hostID sessionID at_);;
      applyBuiltInOperationStateLocked opName;;
      when (negb (bool_decide (variant.(rv_SetState) = ∅)))
        (applyStateUpdatesLocked variant.(rv_SetState) ("wire " +:+ opName));;
      responseXML ← render_variant variant (request_fields hostID sessionID egmID);
      let status := response_status variant in
      on_state (set_rs_LastAckStatus ("http_" +:+ itoa status));;
      mret (Handled responseXML status)
  end.

(** After the lock is released: the text of an error is read from the state as
    it is then. *)
Definition wire_respond (opName hostID sessionID : string) (d : decision) : M Response :=
  match d with
  | Forbidden => s ← get_state; http_error s.(rs_LastError) 403
  | Undefined => s ← get_state; http_error s.(rs_LastError) 400
  | Handled responseXML status =>
      capture ← gets (λ w, w.(sv_cfg).(cfg_Logging).(lo_CaptureRenderedXML));
      when capture (WritePayload "inbound_response" opName responseXML);;
      Log "info" "wire" "inbound G2S message handled"
        {[ "message_type" := JStr opName; "host_id" := JStr hostID; "session_id" := JStr sessionID;
           "status" := enc_int status ]};;
      mret (mkResponse status (BXml responseXML))
  end.

Definition default_session (w : Server) (t : Z) : string :=
  w.(sv_cfg).(cfg_InstanceID) +:+ "-" +:+ itoa t.

Definition handleWire (r : Request) : M Response :=
  require_method "POST" r (
  if negb (isXMLContentType r.(rq_ContentType)) then http_error "unsupported content type" 415
  else match r.(rq_Bytes) with
  | Err e => http_error e 400
  | Ok data =>
      match ParseG2SMessage data.(xb_stream) with
      | Err e =>
          Log "warn" "wire" "failed to parse inbound G2S message" {[ "error" := JStr e ]};;
          http_error e 400
      | Ok parsed =>
          let opName := parsed.(pm_RootLocalName) in
          capture ← gets (λ w, w.(sv_cfg).(cfg_Logging).(lo_CaptureRawXML));
          when capture (WritePayload "inbound_request" opName data.(xb_raw));;
          t ← Now;
          cfg ← gets sv_cfg;
          fallback ← gets (λ w, default_session w t);
          let f := get_str parsed.(pm_Fields) in
          let hostID := firstNonEmpty [f "hostId"; f "hostID"; f "host_id"; "HOST-001"] in
          let sessionID := firstNonEmpty [f "sessionId"; f "session_id"; fallback] in
          let egmID := firstNonEmpty [f "egmId"; f "egmID"; f "egm_id"; cfg.(cfg_EGMID)] in
          d ← wire_locked opName hostID sessionID egmID;
          wire_respond opName hostID sessionID d
      end
  end).

(** ** Injected commands: control_ui.go *)

Definition logicalCommandToOperation (logical : string) : result string :=
  let l := TrimSpace logical in
  if bool_decide (l ∈ ["audio_mute_on"; "audioMuteOn"]) then Ok "audioMuteOn"
  else if bool_decide (l ∈ ["audio_mute_off"; "audioMuteOff"]) then Ok "audioMuteOff"
  else if bool_decide (l ∈ ["hold_on"; "holdOn"]) then Ok "holdOn"
  else if bool_decide (l ∈ ["hold_off"; "holdOff"]) then Ok "holdOff"
  else if bool_decide (l ∈ ["lock_on"; "lockOn"]) then Ok "lockOn"
  else if bool_decide (l ∈ ["lock_off"; "lockOff"]) then Ok "lockOff"
  else if bool_decide (l ∈ ["comms_online"; "commsOnLine"]) then Ok "commsOnLine"
  else if bool_decide (l ∈ ["keep_alive"; "keepAlive"]) then Ok "keepAlive"
  else Err ("unsupported logical command " +:+ quote logical).

Definition processSimulatedInbound (opName hostID sessionID : string) : M (result (string * Z)) :=
  op ← gets (λ w, w.(sv_pack).(mp_Operations) !! opName);
  match op ≫= (λ o, head o.(op_Responses)) with
  | None => mret (Err ("operation " +:+ quote opName +:+ " is not defined"))
  | Some variant =>
      at_ ← Now;
      on_state (note_command "controller_simulated" opName hostID sessionID at_);;
      when (bool_decide (opName = "commsOnLine"))
        (applyStateUpdatesLocked
          {[ "session_state" := JStr "online"; "heartbeat_state" := JStr "healthy" ]}
          "scenario commsOnLine");;
      when (bool_decide (opName = "keepAlive"))
        (applyStateUpdatesLocked {[ "heartbeat_state" := JStr "healthy" ]} "scenario keepAlive");;
      when (negb (bool_decide (variant.(rv_SetState) = ∅)))
        (applyStateUpdatesLocked variant.(rv_SetState) ("scenario " +:+ opName));;
      cfg ← gets sv_cfg;
      responseXML ← render_variant variant (request_fields hostID sessionID cfg.(cfg_EGMID));
      let status := response_status variant in
      on_state (set_rs_LastAckStatus ("http_" +:+ itoa status));;
      when cfg.(cfg_Logging).(lo_CaptureRenderedXML)
        (WritePayload "scenario_response" opName responseXML);;
      Log "info" "scenario" "logical command injected"
        {[ "logical_command" := JStr opName; "host_id" := JStr hostID; "session_id" := JStr sessionID;
           "status" := enc_int status ]};;
      mret (Ok (responseXML, status))
  end.

Definition handleControlInjectLogicalCommand (r : Request) : M Response :=
  require_method "POST" r (
  match r.(rq_Json) ≫= λ j, dec_logical j (mkLogical "" "" "") with
  | None => http_error r.(rq_JsonError) 400
  | Some req =>
      match logicalCommandToOperation req.(lc_LogicalCommand) with
      | Err e => http_error e 400
      | Ok opName =>
          let hostID := firstNonEmpty [req.(lc_HostID); "HOST-001"] in
          let sessionID := firstNonEmpty [req.(lc_SessionID); "SCENARIO"] in
          res ← processSimulatedInbound opName hostID sessionID;
          match res with
          | Err e => http_error e 400
          | Ok (responseXML, status) =>
              s ← get_state;
              mret (mkResponse 200 (BJsonState [("ok", JBool true); ("operation", JStr opName);
                ("response_xml", JStr responseXML); ("status", enc_int status)] s))
          end
      end
  end).

(** ** Control: control_restore.go *)

Definition handleHealthz (r : Request) : M Response :=
  cfg ← gets sv_cfg;
  mret (mkResponse 200 (BJson [("instance_id", JStr cfg.(cfg_InstanceID)); ("ok", JBool true)])).

Definition handleControlState (r : Request) : M Response :=
  require_method "GET" r (s ← get_state; mret (mkResponse 200 (BState s))).

Definition handleControlMachineStatus (r : Request) : M Response := handleControlState r.

Definition handleControlAudio (r : Request) : M Response :=
  require_method "POST" r (
  let req := mkAudio (dec_key_lenient "muted" dec (body_entries r) false) in
  (if req.(au_Muted)
   then applyStateUpdatesLocked {[ "audio_state" := JStr "muted" ]} "control audio muted"
   else applyStateUpdatesLocked {[ "audio_state" := JStr "normal" ]} "control audio normal");;
  s ← get_state;
  mret (mkResponse 200 (BState s))).

Definition registration_of (pk : MessagePack) : string :=
  if bool_decide (pk.(mp_StateDefaults).(sd_RegistrationMode) = "open") then "open" else "restricted".

Definition handleControlOverlay (r : Request) : M Response :=
  require_method "POST" r (
  match decode_body (A := MessageOverlay) r with
  | None => http_error r.(rq_JsonError) 400
  | Some overlay =>
      pk ← gets sv_pack;
      match ApplyOverlay (Some pk) (Some overlay) with
      | Err e => http_error e 400
      | Ok updated =>
          modify (set_sv_pack updated);;
          on_state (set_rs_RegistrationState (registration_of updated));;
          s ← get_state;
          Log "info" "control" "overlay applied"
            {[ "overlay_name" := JStr overlay.(ov_OverlayName);
               "target_pack" := JStr overlay.(ov_TargetPack) ]};;
          mret (mkResponse 200 (BJson [("ok", JBool true); ("pack_name", JStr updated.(mp_PackName));
            ("registration_state", JStr s.(rs_RegistrationState))]))
      end
  end).

(** [if err := ...Decode(&req); err != nil || req.HostID == ""] *)
Definition decode_host (r : Request) : option string :=
  match r.(rq_Json) ≫= λ j, dec_hostControl j (mkHostControl "") with
  | Some req => if bool_decide (req.(hc_HostID) = "") then None else Some req.(hc_HostID)
  | None => None
  end.

Definition add_host (id : string) (w : Server) : Server :=
  let '(h, s) := slice_append spare w.(sv_arrays) w.(sv_state).(rs_AllowedHostIDs) id in
  set_sv_state (set_rs_AllowedHostIDs s w.(sv_state)) (set_sv_arrays h w).

Definition remove_host (id : string) (w : Server) : Server :=
  let '(h, s) := slice_remove w.(sv_arrays) w.(sv_state).(rs_AllowedHostIDs) id in
  set_sv_state (set_rs_AllowedHostIDs s w.(sv_state)) (set_sv_arrays h w).

Definition handleControlHostsAdd (r : Request) : M Response :=
  require_method "POST" r (
  match decode_host r with
  | None => http_error "host_id is required" 400
  | Some id => modify (add_host id);; s ← get_state; mret (mkResponse 200 (BState s))
  end).

Definition handleControlHostsRemove (r : Request) : M Response :=
  require_method "POST" r (
  match decode_host r with
  | None => http_error "host_id is required" 400
  | Some id => modify (remove_host id);; s ← get_state; mret (mkResponse 200 (BState s))
  end).

Definition set_trust_mode (mode : string) (w : Server) : Server :=
  set_sv_cfg (set_cfg_Security (set_TrustMode mode w.(sv_cfg).(cfg_Security)) w.(sv_cfg)) w.

Definition handleControlSecurityMode (r : Request) : M Response :=
  require_method "POST" r (
  match r.(rq_Json) ≫= λ j, dec_securityMode j (mkSecurityMode "") with
  | Some req =>
      if bool_decide (req.(sm_TrustMode) = "") then http_error "trust_mode is required" 400
      else
        modify (set_trust_mode req.(sm_TrustMode));;
        on_state (set_rs_TrustMode req.(sm_TrustMode));;
        s ← get_state;
        mret (mkResponse 200 (BState s))
  | None => http_error "trust_mode is required" 400
  end).

Definition handleControlPackSummary (r : Request) : M Response :=
  pk ← gets sv_pack;
  mret (mkResponse 200 (BJson [("operations", enc_int (Z.of_nat (size pk.(mp_Operations))));
    ("pack_name", JStr pk.(mp_PackName)); ("pack_version", JStr pk.(mp_PackVersion))])).

Definition handleControlPackOperations (r : Request) : M Response :=
  pk ← gets sv_pack;
  mret (mkResponse 200 (BOperations pk.(mp_Operations))).
End handlers.

(** [withControlCORS]: an OPTIONS request is answered without the handler. *)
Definition withControlCORS (next : Request → M Response) (r : Request) : M Response :=
  if bool_decide (r.(rq_Method) = "OPTIONS") then mret (mkResponse 204 (BText "")) else next r.

(** ** Construction: server.go *)

Section construction.
Context (clock : nat → Z).

(** The overlays of the configuration, applied in order. *)
Fixpoint apply_overlays (fs : gmap string file) (pk : MessagePack) (overlays : list string)
    : result MessagePack :=
  match overlays with
  | [] => Ok pk
  | path :: rest =>
      overlay ← LoadOverlay fs path;
      pk ← ApplyOverlay (Some pk) (Some overlay);
      apply_overlays fs pk rest
  end.

Definition DefaultSQLitePath (logDir : string) : string := JoinPath [logDir; "vegm-index.db"].

Definition initial_state (cfg : Config) (pk : MessagePack) (backend sqlitePath : string) (at_ : Z)
    (allowed : slice) : RuntimeState := {|
  rs_InstanceID := cfg.(cfg_InstanceID);
  rs_EGMID := cfg.(cfg_EGMID);
  rs_TrustMode := cfg.(cfg_Security).(sec_TrustMode);
  rs_ConnectionState := "listening";
  rs_RegistrationState := registration_of pk;
  rs_SessionState := pk.(mp_StateDefaults).(sd_SessionState);
  rs_HeartbeatState := pk.(mp_StateDefaults).(sd_HeartbeatState);
  rs_AudioState := "normal";
  rs_HoldState := "inactive";
  rs_LockState := "inactive";
  rs_MachineState := "available";
  rs_AllowedHostIDs := allowed;
  rs_RegisteredHosts := pk.(mp_StateDefaults).(sd_RegisteredHosts);
  rs_LastMessageType := ""; rs_LastCommandType := ""; rs_LastCommandAt := None;
  rs_LastCommandSource := ""; rs_LastSessionID := ""; rs_LastHostID := ""; rs_LastAckStatus := "";
  rs_LastTransitionAt := None; rs_LastTransitionReason := ""; rs_LastError := "";
  rs_StartedAt := Some at_;
  rs_StorageBackend := backend;
  rs_StorageSQLitePath := sqlitePath;
  rs_OutboundScheduler := mkScheduler false "" None None None "" 0 0 0 "";
|}.

(** [NewServer]; opening the index and the log files is the parameter [open_log]. *)
Definition NewServer (open_log : string → string → string → result unit) (fs : gmap string file)
    (cfg : Config) (xmlModes : gmap string G2SXMLConfig) : result Server :=
  pk ← LoadPack fs cfg.(cfg_PackFile);
  pk ← apply_overlays fs pk cfg.(cfg_Overlay);
  let backend := or_default cfg.(cfg_Storage).(st_Backend) "noop" in
  let sqlitePath :=
    if bool_decide (backend = "sqlite") && bool_decide (cfg.(cfg_Storage).(st_SQLitePath) = "")
    then DefaultSQLitePath cfg.(cfg_Logging).(lo_Dir) else cfg.(cfg_Storage).(st_SQLitePath) in
  _ ← open_log backend sqlitePath cfg.(cfg_Logging).(lo_Dir);
  let allowed := sort_strings pk.(mp_StateDefaults).(sd_AllowedHostIDs) in
  Ok {|
    sv_cfg := cfg; sv_pack := pk;
    sv_state := initial_state cfg pk backend sqlitePath (clock 0) (mkSlice 0 (length allowed));
    sv_schedulerCancel := false; sv_arrays := {[ 0 := allowed ]}; sv_events := []; sv_payloads := [];
    sv_clock := 1; sv_timestamps := ∅; sv_evidence := ∅; sv_xmlModes := xmlModes; sv_sent := [] |}.
End construction.

(** ** Specifications *)

(** Who may send a message: the policies in the order in which they apply. *)
Definition host_admitted (w : Server) (id : string) : Prop :=
  let s := w.(sv_state) in
  w.(sv_pack).(mp_StateDefaults).(sd_RegistrationMode) = "open" ∨ s.(rs_RegistrationState) = "open" ∨
  (∃ before h after, s.(rs_RegisteredHosts) = before ++ h :: after ∧ h.(host_HostID) = id ∧
     (id ∉ (host_HostID <$> before)) ∧ h.(host_Enabled) = true) ∨
  s.(rs_RegisteredHosts) = [] ∧ id ∈ slice_view w.(sv_arrays) s.(rs_AllowedHostIDs).

(** What the machine does by itself on the two session messages. *)
Definition builtin_updates (op : string) : gmap string json :=
  if bool_decide (op = "commsOnLine")
  then {[ "session_state" := JStr "online"; "heartbeat_state" := JStr "healthy" ]}
  else if bool_decide (op = "keepAlive") then {[ "heartbeat_state" := JStr "healthy" ]}
  else ∅.

(** The variant that answers an operation. *)
Definition variant_for (w : Server) (op : string) : option ResponseVariant :=
  w.(sv_pack).(mp_Operations) !! op ≫= λ o, head o.(op_Responses).

(** The state [s'] after an accepted command in the state [s]. *)
Record command_done (connection op host session : string) (v : ResponseVariant) (s s' : RuntimeState)
    : Prop := {
  done_connection : s'.(rs_ConnectionState) = field_after v.(rv_SetState) "connection_state" connection;
  done_session : s'.(rs_SessionState) = field_after v.(rv_SetState) "session_state"
    (if bool_decide (op = "commsOnLine") then "online" else s.(rs_SessionState));
  done_heartbeat : s'.(rs_HeartbeatState) = field_after v.(rv_SetState) "heartbeat_state"
    (if bool_decide (op ∈ ["commsOnLine"; "keepAlive"]) then "healthy" else s.(rs_HeartbeatState));
  done_machine : s'.(rs_MachineState) = field_after v.(rv_SetState) "machine_state" s.(rs_MachineState);
  done_lock : s'.(rs_LockState) = field_after v.(rv_SetState) "lock_state" s.(rs_LockState);
  done_hold : s'.(rs_HoldState) = field_after v.(rv_SetState) "hold_state" s.(rs_HoldState);
  done_audio : s'.(rs_AudioState) = field_after v.(rv_SetState) "audio_state" s.(rs_AudioState);
  done_message : s'.(rs_LastMessageType) = op ∧ s'.(rs_LastCommandType) = op;
  done_from : s'.(rs_LastCommandSource) = host ∧ s'.(rs_LastHostID) = host ∧ s'.(rs_LastSessionID) = session;
  done_ack : s'.(rs_LastAckStatus) = "http_" +:+ itoa (response_status v);
  done_error : s'.(rs_LastError) = "";
  done_hosts : s'.(rs_AllowedHostIDs) = s.(rs_AllowedHostIDs) ∧
    s'.(rs_RegisteredHosts) = s.(rs_RegisteredHosts) ∧ s'.(rs_RegistrationState) = s.(rs_RegistrationState);
  done_identity : s'.(rs_InstanceID) = s.(rs_InstanceID) ∧ s'.(rs_EGMID) = s.(rs_EGMID) ∧
    s'.(rs_TrustMode) = s.(rs_TrustMode) ∧ s'.(rs_StartedAt) = s.(rs_StartedAt) ∧
    s'.(rs_StorageBackend) = s.(rs_StorageBackend) ∧
    s'.(rs_StorageSQLitePath) = s.(rs_StorageSQLitePath) ∧
    s'.(rs_OutboundScheduler) = s.(rs_OutboundScheduler);
}.

(** The identifiers that a message carries, or their defaults. *)
Definition wire_host (m : ParsedG2SMessage) : string :=
  let f := get_str m.(pm_Fields) in firstNonEmpty [f "hostId"; f "hostID"; f "host_id"; "HOST-001"].
Definition wire_egm (m : ParsedG2SMessage) (cfg : Config) : string :=
  let f := get_str m.(pm_Fields) in firstNonEmpty [f "egmId"; f "egmID"; f "egm_id"; cfg.(cfg_EGMID)].

(** The session, when the machine [w] names one itself at the time [t]. *)
Definition wire_session (m : ParsedG2SMessage) (w : Server) (t : Z) : string :=
  let f := get_str m.(pm_Fields) in firstNonEmpty [f "sessionId"; f "session_id"; default_session w t].

(** A request that reaches the machine's state: the message it carries. *)
Definition wire_message (r : Request) : result (xml_bytes * ParsedG2SMessage) :=
  if negb (bool_decide (r.(rq_Method) = "POST")) then Err "method not allowed"
  else if negb (isXMLContentType r.(rq_ContentType)) then Err "unsupported content type"
  else data ← r.(rq_Bytes); m ← ParseG2SMessage data.(xb_stream); Ok (data, m).

(** ** Lemmas: admission *)

Lemma registered_enabled_spec hosts id :
  registered_enabled hosts id = true ↔
  ∃ before h after, hosts = before ++ h :: after ∧ h.(host_HostID) = id ∧
    (id ∉ (host_HostID <$> before)) ∧ h.(host_Enabled) = true.
Proof.
  induction hosts as [|h0 hosts IH]; simpl.
  { split; [done|]. intros (before & h & after & H & _). by destruct before. }
  case_bool_decide as Hid; [|rewrite IH]; split.
  - intros He. exists [], h0, hosts. split_and!; [done..| |done]. by apply not_elem_of_nil.
  - intros ([|h1 before] & h & after & H & Hh & Hn & He); simplify_eq/=; [done|].
    exfalso. apply Hn. by left.
  - intros (before & h & after & -> & Hh & Hn & He). exists (h0 :: before), h, after.
    split_and!; [done..| |done]. simpl. rewrite not_elem_of_cons. split; [congruence|done].
  - intros ([|h1 before] & h & after & H & Hh & Hn & He); simplify_eq/=.
    exists before, h, after. apply not_elem_of_cons in Hn as [_ Hn]. by split_and!.
Qed.

Lemma host_admitted_quiet w w' id :
  quiet w w' → w'.(sv_state) = w.(sv_state) → hostAllowedLocked w' id = hostAllowedLocked w id.
Proof. intros Hq Hs. unfold hostAllowedLocked. by rewrite Hs, (quiet_pack _ _ Hq), (quiet_arrays _ _ Hq). Qed.

Definition allowed_ids (w : Server) : list string :=
  slice_view w.(sv_arrays) w.(sv_state).(rs_AllowedHostIDs).

Definition registration_open (w : Server) : bool :=
  bool_decide (w.(sv_pack).(mp_StateDefaults).(sd_RegistrationMode) = "open")
  || bool_decide (w.(sv_state).(rs_RegistrationState) = "open").

(** Whether the list of allowed identifiers counts. *)
Definition by_list (w : Server) : bool :=
  negb (registration_open w) && match w.(sv_state).(rs_RegisteredHosts) with [] => true | _ => false end.

Lemma hostAllowed_list w id :
  hostAllowedLocked w id
  = if registration_open w then true
    else match w.(sv_state).(rs_RegisteredHosts) with
         | [] => bool_decide (id ∈ allowed_ids w)
         | hosts => registered_enabled hosts id
         end.
Proof. done. Qed.

(** What admission reads besides the list. *)
Definition policy_of (w : Server) := (registration_open w, w.(sv_state).(rs_RegisteredHosts)).

Lemma add_host_spec spare id w :
  slice_ok w.(sv_arrays) w.(sv_state).(rs_AllowedHostIDs) →
  let w' := add_host spare id w in
  slice_ok w'.(sv_arrays) w'.(sv_state).(rs_AllowedHostIDs) ∧
  allowed_ids w' = allowed_ids w ++ [id] ∧ policy_of w' = policy_of w.
Proof.
  intros H. pose proof (slice_append_ok spare _ _ id H) as [H1 H2]. unfold add_host.
  destruct (slice_append _ _ _ _) as [h s]. by split_and!.
Qed.

Lemma remove_host_spec id w :
  slice_ok w.(sv_arrays) w.(sv_state).(rs_AllowedHostIDs) →
  let w' := remove_host id w in
  slice_ok w'.(sv_arrays) w'.(sv_state).(rs_AllowedHostIDs) ∧
  allowed_ids w' = filter (λ x, x ≠ id) (allowed_ids w) ∧ policy_of w' = policy_of w.
Proof.
  intros H. pose proof (slice_remove_ok _ _ id H) as [H1 H2]. unfold remove_host.
  destruct (slice_remove _ _ _) as [h s]. by split_and!.
Qed.

(** ** Lemmas: commands *)

Definition command_state (connection prefix op : string) (v : ResponseVariant) (host session : string)
    (t1 t2 t3 : Z) (s : RuntimeState) : RuntimeState :=
  set_rs_LastAckStatus ("http_" +:+ itoa (response_status v))
  (updated v.(rv_SetState) (prefix +:+ op) t3
  (updated (builtin_updates op) (prefix +:+ op) t2
  (note_command connection op host session t1 s))).

Lemma set_ack_back a b s : s.(rs_LastAckStatus) = a → set_rs_LastAckStatus a (set_rs_LastAckStatus b s) = s.
Proof. intros <-. by destruct s. Qed.

Lemma builtin_visible op v :
  visible_after (builtin_updates op) v
  = mkVisible v.(vs_Connection)
      (if bool_decide (op ∈ ["commsOnLine"; "keepAlive"]) then "healthy" else v.(vs_Heartbeat))
      (if bool_decide (op = "commsOnLine") then "online" else v.(vs_Session))
      v.(vs_Machine) v.(vs_Lock) v.(vs_Hold) v.(vs_Audio).
Proof.
  unfold builtin_updates, visible_after. destruct (decide (op = "commsOnLine")) as [->|H1]; [done|].
  rewrite (bool_decide_eq_false_2 (op = "commsOnLine")) by done.
  destruct (decide (op = "keepAlive")) as [->|H2]; [done|].
  rewrite (bool_decide_eq_false_2 (op = "keepAlive")) by done.
  rewrite bool_decide_eq_false_2 by set_solver. by rewrite !field_after_empty.
Qed.

Lemma command_state_done connection prefix op v host session t1 t2 t3 s :
  command_done connection op host session v s
    (command_state connection prefix op v host session t1 t2 t3 s).
Proof.
  unfold command_state. set (s2 := updated (builtin_updates op) _ _ _).
  assert (Hv : visible_of s2
    = visible_after (builtin_updates op) (visible_of (note_command connection op host session t1 s)))
    by apply updated_visible.
  rewrite builtin_visible in Hv. rewrite updated_eq, Hv. unfold s2. rewrite (updated_eq (builtin_updates op)).
  destruct s. by split.
Qed.

Lemma wire_session_given m w t : get_str m.(pm_Fields) "sessionId" ≠ "" → wire_session m w t = get_str m.(pm_Fields) "sessionId".
Proof. intros H. unfold wire_session. simpl. by rewrite bool_decide_eq_false_2. Qed.

Lemma default_session_ne w t : default_session w t ≠ "".
Proof.
  unfold default_session. intros H. apply (f_equal String.length) in H.
  rewrite !string_length_app in H. simpl in H. lia.
Qed.

Section handler_lemmas.
Context (clock : nat → Z) (range : gmap string string → list (string * string)).

Lemma builtin_eq op w :
  applyBuiltInOperationStateLocked clock op w
  = ((), applied clock (builtin_updates op) ("wire " +:+ op) w).
Proof.
  unfold applyBuiltInOperationStateLocked, builtin_updates.
  case_bool_decide as H1; [subst; apply apply_eq|]. case_bool_decide as H2; [subst; apply apply_eq|].
  by rewrite applied_empty.
Qed.

Lemma simulated_builtin {A} op (k : M A) w :
  (when (bool_decide (op = "commsOnLine"))
     (applyStateUpdatesLocked clock {[ "session_state" := JStr "online"; "heartbeat_state" := JStr "healthy" ]}
       "scenario commsOnLine");;
   (when (bool_decide (op = "keepAlive"))
     (applyStateUpdatesLocked clock {[ "heartbeat_state" := JStr "healthy" ]} "scenario keepAlive");; k)) w
  = k (applied clock (builtin_updates op) ("scenario " +:+ op) w).
Proof.
  step. rewrite when_eq. step. rewrite when_eq. cbn [fst snd]. unfold builtin_updates.
  destruct (decide (op = "commsOnLine")) as [->|H1]; [done|].
  rewrite (bool_decide_eq_false_2 (op = "commsOnLine")) by done.
  case_bool_decide as H2; [by subst|]. by rewrite applied_empty.
Qed.

Lemma when_apply_eq u reason w :
  when (negb (bool_decide (u = ∅))) (applyStateUpdatesLocked clock u reason) w
  = ((), applied clock u reason w).
Proof.
  unfold when. case_bool_decide as H; simpl; [|apply apply_eq]. subst. by rewrite applied_empty.
Qed.

Lemma render_variant_eq v fields w :
  render_variant range v fields w
  = (RenderTemplate_in v.(rv_Template) w.(sv_pack).(mp_Wire).(wire_Namespaces) (range fields)
       (range (templateStateLocked w.(sv_state))), w).
Proof. done. Qed.

(** The body of the answer: the template of the variant with the fields of the
    request, and the state as the command left it but for the status of the
    answer, which is recorded after rendering. *)
Definition answer (v : ResponseVariant) (w : Server) (fields : gmap string string) (s' : RuntimeState)
    : string :=
  RenderTemplate_in v.(rv_Template) w.(sv_pack).(mp_Wire).(wire_Namespaces) (range fields)
    (range (templateStateLocked (set_rs_LastAckStatus w.(sv_state).(rs_LastAckStatus) s'))).

Lemma wire_locked_handled op host session egm w v :
  hostAllowedLocked w host = true → variant_for w op = Some v →
  ∃ w', wire_locked clock range op host session egm w
    = (Handled (answer v w (request_fields host session egm) w'.(sv_state)) (response_status v), w') ∧
    quiet w w' ∧ w'.(sv_payloads) = w.(sv_payloads) ∧
    command_done "controller_connected" op host session v w.(sv_state) w'.(sv_state).
Proof.
  intros Ha Hv. unfold wire_locked. run. rewrite Ha. cbn [negb].
  unfold variant_for in Hv. run. rewrite Hv. unfold render_variant. run.
  rewrite builtin_eq. cbn [fst snd]. rewrite when_apply_eq. cbn [fst snd].
  set (w1 := set_sv_state _ _). set (w2 := applied clock _ _ w1). set (w3 := applied clock _ _ w2).
  assert (Hq : quiet w w3).
  { transitivity w1; [|transitivity w2; unfold w3, w2; apply applied_quiet].
    split; cbn; try done. apply Nat.le_succ_diag_r. }
  assert (Hd : command_done "controller_connected" op host session v (sv_state w)
      (set_rs_LastAckStatus ("http_" +:+ itoa (response_status v)) w3.(sv_state))).
  { unfold w3, w2. rewrite !applied_state. apply command_state_done. }
  exists (set_sv_state (set_rs_LastAckStatus ("http_" +:+ itoa (response_status v)) w3.(sv_state)) w3).
  split; [|split; [|split; [|exact Hd]]].
  - f_equal. f_equal. unfold answer. rewrite (quiet_pack _ _ Hq). cbn [sv_state set_sv_state].
    assert (Hl : w3.(sv_state).(rs_LastAckStatus) = w.(sv_state).(rs_LastAckStatus)).
    { unfold w3, w2. by rewrite !applied_state, !updated_eq. }
    by rewrite set_ack_back.
  - transitivity w3; [exact Hq|apply quiet_on_state].
  - unfold w3, w2, applied, applyStateUpdatesLocked. cbn -[set_visible].
    repeat case_bool_decide; done.
Qed.

Lemma wire_locked_forbidden op host session egm w :
  hostAllowedLocked w host = false →
  wire_locked clock range op host session egm w
  = (Forbidden, set_sv_state (set_rs_LastError ("host " +:+ quote host +:+ " is not registered or enabled")
      w.(sv_state)) w).
Proof. intros Ha. unfold wire_locked. run. by rewrite Ha. Qed.

Lemma wire_locked_undefined op host session egm w :
  hostAllowedLocked w host = true → variant_for w op = None →
  wire_locked clock range op host session egm w
  = (Undefined, set_sv_state (set_rs_LastError ("operation " +:+ quote op +:+ " is not defined")
      w.(sv_state)) w).
Proof.
  intros Ha Hv. unfold wire_locked. run. rewrite Ha. cbn [negb].
  unfold variant_for in Hv. run. by rewrite Hv.
Qed.

(** What [handleWire] does to a message before it takes the lock: at most a
    payload file. *)
Lemma handleWire_message r w data m :
  wire_message r = Ok (data, m) →
  ∃ w1, quiet w w1 ∧ w1.(sv_state) = w.(sv_state) ∧
    (∃ n, let session := wire_session m w (clock n) in
    handleWire clock range r w
    = (wire_locked clock range m.(pm_RootLocalName) (wire_host m) session (wire_egm m w.(sv_cfg))
        ≫= wire_respond clock m.(pm_RootLocalName) (wire_host m) session) w1).
Proof.
  unfold wire_message. case_bool_decide as Hm; [|done]. cbn [negb].
  destruct (isXMLContentType (rq_ContentType r)) eqn:Hx; [|done]. cbn [negb]. intros H.
  result_binds. unfold handleWire, require_method. rewrite bool_decide_eq_true_2, Hx, E by done. cbn [negb].
  simplify_eq. rewrite E0.
  set (w0 := if w.(sv_cfg).(cfg_Logging).(lo_CaptureRawXML)
             then (WritePayload clock "inbound_request" (pm_RootLocalName m) (xb_raw data) w).2 else w).
  assert (Hq : quiet w w0) by (unfold w0; destruct (lo_CaptureRawXML _); [apply WritePayload_quiet|done]).
  assert (Hs : w0.(sv_state) = w.(sv_state)) by (unfold w0; by destruct (lo_CaptureRawXML _)).
  exists (set_sv_clock (S w0.(sv_clock)) w0). split_and!.
  - transitivity w0; [done|]. split; try done. apply Nat.le_succ_diag_r.
  - done.
  - exists w0.(sv_clock). run. rewrite when_eq. fold w0. cbn [fst snd]. unfold w0 in *. clear w0.
    destruct (lo_CaptureRawXML _); reflexivity.
Qed.
End handler_lemmas.

(** The policies of the pack, read off the code. *)
Lemma hostAllowedLocked_admitted w id : hostAllowedLocked w id = true ↔ host_admitted w id.
Proof.
  unfold hostAllowedLocked, host_admitted. destruct (bool_decide _ || bool_decide _) eqn:Ho.
  - apply orb_true_iff in Ho as [H|H]; bool_props; tauto.
  - bool_props. destruct (rs_RegisteredHosts (sv_state w)) as [|h hs] eqn:Hr.
    + rewrite bool_decide_eq_true. split; [tauto|].
      intros [?|[?|[(before & ? & ? & Hb & _)|[_ ?]]]]; try done. by destruct before.
    + rewrite registered_enabled_spec. naive_solver.
Qed.

(** The locked part of [handleWire], in the state that it finds. *)
Lemma wire_locked_cases clock range op host session egm w :
  let '(d, w') := wire_locked clock range op host session egm w in
  quiet w w' ∧
  let fails error := w'.(sv_state) = set_rs_LastError error w.(sv_state) in
  (¬ host_admitted w host ∧ d = Forbidden ∧
    fails ("host " +:+ quote host +:+ " is not registered or enabled") ∨
   host_admitted w host ∧ variant_for w op = None ∧ d = Undefined ∧
    fails ("operation " +:+ quote op +:+ " is not defined") ∨
   host_admitted w host ∧ ∃ v, variant_for w op = Some v ∧
    d = Handled (answer range v w (request_fields host session egm) w'.(sv_state)) (response_status v) ∧
    command_done "controller_connected" op host session v w.(sv_state) w'.(sv_state)).
Proof.
  pose proof (hostAllowedLocked_admitted w host) as Ha.
  destruct (hostAllowedLocked w host) eqn:Hb.
  - apply proj1 in Ha. specialize (Ha eq_refl). destruct (variant_for w op) as [v|] eqn:Hv.
    + destruct (wire_locked_handled clock range op host session egm w v Hb Hv) as (w' & -> & Hq & _ & Hd).
      split; [done|]. do 2 right. split; [done|]. by exists v.
    + rewrite wire_locked_undefined by done. split; [apply quiet_on_state|]. right. left. by split_and!.
  - rewrite wire_locked_forbidden by done. split; [apply quiet_on_state|]. left. split_and!; [|done..].
    intros H. by apply Ha in H.
Qed.

Section properties.
Context (clock : nat → Z) (spare : nat → nat) (range : gmap string string → list (string * string)).

(** C21. A message is admitted exactly by the policies of the pack, in order: an
    open registration admits everyone; else the first registered host of that
    identifier decides; only where no host is registered does the list of
    allowed identifiers count. *)
Theorem hostAllowedLocked_correct w id : hostAllowedLocked w id = true ↔ host_admitted w id.
Proof. apply hostAllowedLocked_admitted. Qed.

(** What becomes of an admitted message. *)
Lemma handleWire_admitted r w data m v :
  wire_message r = Ok (data, m) →
  hostAllowedLocked w (wire_host m) = true →
  variant_for w m.(pm_RootLocalName) = Some v →
  ∃ w' n, let session := wire_session m w (clock n) in
    handleWire clock range r w
    = (mkResponse (response_status v)
        (BXml (answer range v w (request_fields (wire_host m) session (wire_egm m w.(sv_cfg))) w'.(sv_state))), w') ∧
    quiet w w' ∧
    command_done "controller_connected" m.(pm_RootLocalName) (wire_host m) session v
      w.(sv_state) w'.(sv_state).
Proof.
  intros Hm Ha Hv. destruct (handleWire_message clock range r w data m Hm) as (w1 & Hq1 & Hs1 & n & ->). cbv zeta.
  rewrite <-(host_admitted_quiet w w1) in Ha by done.
  assert (Hv1 : variant_for w1 (pm_RootLocalName m) = Some v)
    by (unfold variant_for in *; by rewrite (quiet_pack _ _ Hq1)).
  destruct (wire_locked_handled clock range _ _ (wire_session m w (clock n)) (wire_egm m (sv_cfg w)) w1 v Ha Hv1)
    as (w2 & He & Hq2 & _ & Hd).
  rewrite M_bind_eq, He. cbn [fst snd wire_respond]. run. rewrite when_eq. cbn [fst snd].
  set (w3 := if lo_CaptureRenderedXML _ then _ else w2).
  assert (Hq3 : quiet w2 w3) by (unfold w3; destruct (lo_CaptureRenderedXML _); [apply WritePayload_quiet|done]).
  assert (Hs3 : w3.(sv_state) = w2.(sv_state)) by (unfold w3; by destruct (lo_CaptureRenderedXML _)).
  eexists _, n. split; [|split].
  - f_equal. rewrite Log_state, Hs3. unfold answer. by rewrite (quiet_pack _ _ Hq1), Hs1.
  - etrans; [exact Hq1|]. etrans; [exact Hq2|]. etrans; [exact Hq3|]. apply Log_quiet.
  - rewrite Log_state, Hs3. by rewrite Hs1 in Hd.
Qed.

(** C1. An admitted message for an operation with a variant is answered with the
    variant's status and its rendered template, and leaves the state that the
    variant prescribes: its updates win over what the machine does by itself on
    the session messages, the identifiers and the operation are recorded, hosts
    and identity stay. A session that the message does not name gets a name. *)
Theorem handleWire_accepts r w data m v :
  wire_message r = Ok (data, m) →
  hostAllowedLocked w (wire_host m) = true →
  variant_for w m.(pm_RootLocalName) = Some v →
  ∃ w' n, let session := wire_session m w (clock n) in
    handleWire clock range r w
    = (mkResponse (response_status v)
        (BXml (answer range v w (request_fields (wire_host m) session (wire_egm m w.(sv_cfg))) w'.(sv_state))), w') ∧
    quiet w w' ∧
    command_done "controller_connected" m.(pm_RootLocalName) (wire_host m) session v
      w.(sv_state) w'.(sv_state).
Proof. apply handleWire_admitted. Qed.

(** C2. Any other request is refused with the status of its reason, and changes
    at most the last error of the state: a host that is not admitted learns
    nothing about the operations of the pack. *)
Theorem handleWire_refuses r w :
  let '(resp, w') := handleWire clock range r w in
  match wire_message r with
  | Err e =>
      resp = mkResponse (if bool_decide (r.(rq_Method) = "POST")
                         then if isXMLContentType r.(rq_ContentType) then 400 else 415 else 405) (BText e) ∧
      quiet w w' ∧ w'.(sv_state) = w.(sv_state)
  | Ok (_, m) =>
      let forbidden := "host " +:+ quote (wire_host m) +:+ " is not registered or enabled" in
      let undefined := "operation " +:+ quote m.(pm_RootLocalName) +:+ " is not defined" in
      if negb (hostAllowedLocked w (wire_host m)) then
        resp = mkResponse 403 (BText forbidden) ∧ quiet w w' ∧
        w'.(sv_state) = set_rs_LastError forbidden w.(sv_state)
      else variant_for w m.(pm_RootLocalName) = None →
        resp = mkResponse 400 (BText undefined) ∧ quiet w w' ∧
        w'.(sv_state) = set_rs_LastError undefined w.(sv_state)
  end.
Proof.
  destruct (wire_message r) as [[data m]|e] eqn:Hm; cbv zeta.
  - destruct (handleWire_message clock range r w data m Hm) as (w1 & Hq1 & Hs1 & n & ->).
    destruct (hostAllowedLocked w (wire_host m)) eqn:Ha; cbn [negb];
      rewrite <-(host_admitted_quiet w w1) in Ha by done.
    + destruct (mbind (M := M) _ _ w1) as [resp w'] eqn:He. intros Hv. revert He.
      assert (Hv1 : variant_for w1 (pm_RootLocalName m) = None)
        by (unfold variant_for in *; by rewrite (quiet_pack _ _ Hq1)).
      rewrite M_bind_eq, wire_locked_undefined by done. cbn. intros [= <- <-].
      rewrite <-Hs1. split_and!; [done| |done]. rewrite Hq1. apply quiet_on_state.
    + rewrite M_bind_eq, wire_locked_forbidden by done. cbn.
      rewrite <-Hs1. split_and!; [done| |done]. rewrite Hq1. apply quiet_on_state.
  - unfold wire_message in Hm. unfold handleWire, require_method.
    case_bool_decide as Hp; cbn [negb] in *; [|simplify_eq; done].
    destruct (isXMLContentType _); cbn [negb] in *; [|simplify_eq; done].
    destruct (rq_Bytes r) as [data|]; [|simplify_eq/=; done]. simpl in Hm.
    destruct (ParseG2SMessage (xb_stream data)) as [m'|e']; simplify_eq/=.
    split_and!; [done| |done]. apply (Log_quiet clock).
Qed.

(** An injected command leaves the state that the same message on the wire
    leaves, except that the connection reads as simulated; no host is refused. *)
Theorem processSimulatedInbound_correct op host session w :
  match variant_for w op with
  | None =>
      processSimulatedInbound clock range op host session w
      = (Err ("operation " +:+ quote op +:+ " is not defined"), w)
  | Some v => ∃ w',
      processSimulatedInbound clock range op host session w
      = (Ok (answer range v w (request_fields host session w.(sv_cfg).(cfg_EGMID)) w'.(sv_state), response_status v), w') ∧
      quiet w w' ∧
      command_done "controller_simulated" op host session v w.(sv_state) w'.(sv_state)
  end.
Proof.
  unfold processSimulatedInbound. destruct (variant_for w op) as [v|] eqn:Hv; unfold variant_for in Hv.
  2:{ run. by rewrite Hv. }
  step. rewrite Hv. step. step. rewrite simulated_builtin. rewrite M_bind_eq, when_apply_eq. cbn [fst snd].
  set (w1 := set_sv_state _ _). set (w2 := applied clock _ _ w1). set (w3 := applied clock _ _ w2).
  assert (Hq : quiet w w3).
  { transitivity w1; [|transitivity w2; unfold w3, w2; apply applied_quiet].
    split; cbn; try done. apply Nat.le_succ_diag_r. }
  set (s4 := set_rs_LastAckStatus ("http_" +:+ itoa (response_status v)) w3.(sv_state)).
  assert (Hd : command_done "controller_simulated" op host session v (sv_state w) s4).
  { unfold s4, w3, w2. rewrite !applied_state. apply command_state_done. }
  assert (Hl : set_rs_LastAckStatus w.(sv_state).(rs_LastAckStatus) s4 = w3.(sv_state)).
  { apply set_ack_back. unfold w3, w2. by rewrite !applied_state, !updated_eq. }
  clearbody w3. step. rewrite M_bind_eq, render_variant_eq. cbn [fst snd]. step. rewrite M_bind_eq, when_eq.
  cbn [fst snd].
  fold s4. set (w5 := if lo_CaptureRenderedXML _ then _ else _). 
  assert (Hq5 : quiet w w5).
  { transitivity (set_sv_state s4 w3); [rewrite Hq; apply quiet_on_state|].
    unfold w5. destruct (lo_CaptureRenderedXML _); [apply WritePayload_quiet|done]. }
  assert (Hs5 : w5.(sv_state) = s4) by (unfold w5; by destruct (lo_CaptureRenderedXML _)).
  clearbody w5. rewrite M_bind_eq. set (w6 := (Log _ _ _ _ _ w5).2).
  assert (Hq6 : quiet w w6) by (rewrite Hq5; apply Log_quiet).
  assert (Hs6 : w6.(sv_state) = s4) by exact Hs5.
  clearbody w6. exists w6. split; [|split; [done|by rewrite Hs6]].
  unfold answer. cbn [mret M_ret]. by rewrite Hs6, Hl, (quiet_pack _ _ Hq), (quiet_cfg _ _ Hq).
Qed.
(** C32. The two edits of the list of allowed hosts change what it shows as they
    should, and admission exactly where the list counts: with an open
    registration, or as soon as the pack registers a host, adding and removing
    identifiers has no effect on who is admitted. *)
Theorem host_edits_correct r w id other :
  slice_ok w.(sv_arrays) w.(sv_state).(rs_AllowedHostIDs) →
  r.(rq_Method) = "POST" → decode_host r = Some id →
  let wa := (handleControlHostsAdd spare r w).2 in
  let wr := (handleControlHostsRemove r w).2 in
  slice_ok wa.(sv_arrays) wa.(sv_state).(rs_AllowedHostIDs) ∧
  slice_ok wr.(sv_arrays) wr.(sv_state).(rs_AllowedHostIDs) ∧
  allowed_ids wa = allowed_ids w ++ [id] ∧
  allowed_ids wr = filter (λ x, x ≠ id) (allowed_ids w) ∧
  hostAllowedLocked wa other = hostAllowedLocked w other || (by_list w && bool_decide (other = id)) ∧
  hostAllowedLocked wr other
  = hostAllowedLocked w other && (negb (by_list w) || negb (bool_decide (other = id))).
Proof.
  intros Hok Hm Hd. unfold handleControlHostsAdd, handleControlHostsRemove, require_method.
  rewrite bool_decide_eq_true_2, Hd by done. cbv zeta. run.
  destruct (add_host_spec spare id w Hok) as (Ha1 & Ha2 & Ha3).
  destruct (remove_host_spec id w Hok) as (Hr1 & Hr2 & Hr3).
  injection Ha3 as Ha3 Ha4. injection Hr3 as Hr3 Hr4.
  split_and!; [done..| |].
  - rewrite !hostAllowed_list, Ha2, Ha3, Ha4. unfold by_list.
    destruct (registration_open w); [done|]. destruct (rs_RegisteredHosts (sv_state w)) as [|h hs]; cbn [negb andb].
    + apply eq_true_iff_eq. rewrite orb_true_iff, !bool_decide_eq_true.
      by rewrite elem_of_app, list_elem_of_singleton.
    + by rewrite orb_false_r.
  - rewrite !hostAllowed_list, Hr2, Hr3, Hr4. unfold by_list.
    destruct (registration_open w); [done|]. destruct (rs_RegisteredHosts (sv_state w)) as [|h hs]; cbn [negb orb andb].
    + apply eq_true_iff_eq. rewrite andb_true_iff, negb_true_iff, bool_decide_eq_false, !bool_decide_eq_true.
      rewrite list_elem_of_filter. tauto.
    + by rewrite andb_true_r.
Qed.

(** A state that was captured before an identifier is removed, and is encoded
    afterwards, shows neither the old nor the new list: the removal compacts the
    array that both share. *)
Lemma remove_spoils_snapshot id w :
  slice_ok w.(sv_arrays) w.(sv_state).(rs_AllowedHostIDs) →
  let kept := filter (λ x, x ≠ id) (allowed_ids w) in
  slice_view (remove_host id w).(sv_arrays) w.(sv_state).(rs_AllowedHostIDs)
  = kept ++ drop (length kept) (allowed_ids w).
Proof.
  intros H. unfold remove_host. rewrite <-(slice_remove_stale _ _ _ H).
  by destruct (slice_remove _ _ _).
Qed.

(** The trust mode of the running configuration becomes any text that is sent. *)
Lemma SecurityMode_unchecked r w mode :
  r.(rq_Method) = "POST" → r.(rq_Json) = Some (JObj [("trust_mode", JStr mode)]) → mode ≠ "" →
  let '(resp, w') := handleControlSecurityMode r w in
  resp.(rp_Status) = 200%Z ∧ w'.(sv_cfg).(cfg_Security).(sec_TrustMode) = mode.
Proof.
  intros Hm Hj Hne. unfold handleControlSecurityMode, require_method.
  rewrite bool_decide_eq_true_2, Hj by done. cbn [mbind option_bind].
  assert (Hd : dec_securityMode (JObj [("trust_mode", JStr mode)]) (mkSecurityMode "")
    = Some (mkSecurityMode mode)) by reflexivity.
  rewrite Hd. cbn [sm_TrustMode]. rewrite bool_decide_eq_false_2 by done. done.
Qed.
End properties.

(** ** Witnesses *)

Definition example_server : Server := {|
  sv_cfg := example_config; sv_pack := example_pack 3000;
  sv_state := initial_state example_config (example_pack 3000) "noop" "" 0 (mkSlice 0 2);
  sv_schedulerCancel := false; sv_arrays := {[ 0 := ["HOST-001"; "HOST-002"] ]};
  sv_events := []; sv_payloads := []; sv_clock := 1; sv_timestamps := ∅; sv_evidence := ∅;
  sv_xmlModes := ∅; sv_sent := [] |}.

Definition example_request (op : string) : Request := {|
  rq_Method := "POST"; rq_ContentType := "text/xml; charset=utf-8";
  rq_Bytes := Ok (mkBytes "..." (mkStream
    (legacy_tokens SOAP11Namespace "urn:g2s:lab" op
      [("hostId", "HOST-001"); ("egmId", "EGM-1"); ("sessionId", "S-1")]) None));
  rq_Json := None; rq_JsonError := "EOF" |}.

Definition edit_request (id : string) : Request :=
  mkRequest "POST" "application/json" (Ok (mkBytes "" (mkStream [] None))) (Some (JObj [("host_id", JStr id)])) "".

Example handleWire_accepts_witness :
  ∃ w' xml, handleWire Z.of_nat map_to_list (example_request "keepAlive") example_server
    = (mkResponse 200 (BXml xml), w') ∧ w'.(sv_state).(rs_HeartbeatState) = "healthy".
Proof.
  destruct (wire_message (example_request "keepAlive")) as [[data m]|] eqn:Hm;
    [|vm_compute in Hm; discriminate].
  destruct (handleWire_accepts Z.of_nat map_to_list (example_request "keepAlive") example_server data m
    (mkVariant "ack" "<x/>" [] {[ "heartbeat_state" := JStr "healthy" ]} 200 ∅ 0) Hm)
    as (w' & n & He & _ & Hd).
  - vm_compute in Hm. injection Hm as _ <-. vm_compute. reflexivity.
  - vm_compute in Hm. injection Hm as _ <-. reflexivity.
  - exists w'. eexists. split; [exact He|]. exact (done_heartbeat _ _ _ _ _ _ _ Hd).
Defined.

Example host_edits_correct_witness :
  let wr := (handleControlHostsRemove (edit_request "HOST-001") example_server).2 in
  allowed_ids wr = ["HOST-002"] ∧ hostAllowedLocked wr "HOST-001" = false.
Proof.
  destruct (host_edits_correct (λ n, n) (edit_request "HOST-001") example_server "HOST-001" "HOST-001")
    as (_ & _ & _ & H1 & _ & H2); [vm_compute; lia|reflexivity|reflexivity|].
  cbv zeta. rewrite H1, H2. split; vm_compute; reflexivity.
Defined.

(** The snapshot shows the second identifier twice. *)
Example spoiled_snapshot :
  slice_view (remove_host "HOST-001" example_server).(sv_arrays)
    example_server.(sv_state).(rs_AllowedHostIDs) = ["HOST-002"; "HOST-002"].
Proof. vm_compute. reflexivity. Qed.
