(* ===== verification/Messages.v ===== *)
(** * Outgoing messages (src/runtime/g2s_xsd_renderer.go, session_engine.go,
    session_startup_exchange.go, session_keepalive.go)

    The renderers of the four messages a process sends by itself, in the two
    forms the configuration chooses between: a G2S message with escaped
    attributes, or a SOAP envelope into which the identifiers are printed. *)

From S2P Require Import Prelude GoStrings Json Config Pack Render Envelope State.

(** ** xml.EscapeText *)

(** The replacement character, as bytes. *)
Definition replacement : string :=
  String "239"%char (String "191"%char (String "189"%char "")).

(** The characters that have a character reference. *)
Definition entity (c : ascii) : option string :=
  match c with
  | "034"%char => Some "&#34;"
  | "'"%char => Some "&#39;"
  | "&"%char => Some "&amp;"
  | "<"%char => Some "&lt;"
  | ">"%char => Some "&gt;"
  | "009"%char => Some "&#x9;"
  | "010"%char => Some "&#xA;"
  | "013"%char => Some "&#xD;"
  | _ => None
  end.

(** The escape of a byte that begins the string [c s'], a rune of [n] bytes:
    [None] when the rune is copied. *)
Definition escape_rune (c : ascii) (s' : string) (n : nat) : option string :=
  match entity c with
  | Some e => Some e
  | None =>
      if byte_in 0 31 c then Some replacement
      else if (n =? 1) && byte_in 128 255 c then Some replacement
      else if has_prefix (String "239"%char (String "191"%char (String "190"%char ""))) (String c s')
              || has_prefix (String "239"%char (String "191"%char (String "191"%char ""))) (String c s')
      then Some replacement
      else None
  end.

(** [skip] counts the bytes of the current rune that are still to be passed,
    which are copied when [copy] holds. *)
Fixpoint escape_go (skip : nat) (copy : bool) (s : string) : string :=
  match s with
  | EmptyString => ""
  | String c s' =>
      match skip with
      | S k => if copy then String c (escape_go k copy s') else escape_go k copy s'
      | 0 =>
          let n := rune_len s in
          match escape_rune c s' n with
          | Some e => e +:+ escape_go (n - 1) false s'
          | None => String c (escape_go (n - 1) true s')
          end
      end
  end.
Definition xmlEscape (v : string) : string := escape_go 0 true v.

(** ** Times *)

(** Decimal digits of [z], at least [width] of them. *)
Definition pad (width : nat) (z : Z) : string :=
  let s := itoa z in String.concat "" (replicate (width - String.length s) "0") +:+ s.

(** Year, month and day of a day counted from 1970-01-01 in the proleptic
    Gregorian calendar. *)
Definition civil_from_days (days : Z) : Z * Z * Z :=
  (let z := days + 719468 in
   let era := z / 146097 in
   let doe := z mod 146097 in
   let yoe := (doe - doe / 1460 + doe / 36524 - doe / 146096) / 365 in
   let doy := doe - (365 * yoe + yoe / 4 - yoe / 100) in
   let mp := (5 * doy + 2) / 153 in
   let d := doy - (153 * mp + 2) / 5 + 1 in
   let m := if mp <? 10 then mp + 3 else mp - 9 in
   (yoe + era * 400 + (if m <=? 2 then 1 else 0), m, d))%Z.

(** [t.UTC().Format(time.RFC3339Nano)], for years from 0 on: the fraction has no
    trailing zeros, and is left out when it is zero. *)
Definition RFC3339Nano (nanos : Z) : string :=
  let second := 1000000000%Z in
  let secs := (nanos / second)%Z in
  let frac := (nanos mod second)%Z in
  let '(y, m, d) := civil_from_days (secs / 86400) in
  let s := (secs mod 86400)%Z in
  pad 4 y +:+ "-" +:+ pad 2 m +:+ "-" +:+ pad 2 d +:+ "T" +:+
  pad 2 (s / 3600)%Z +:+ ":" +:+ pad 2 (s / 60 mod 60)%Z +:+ ":" +:+ pad 2 (s mod 60)%Z +:+
  (if bool_decide (frac = 0%Z) then "" else "." +:+ trim_right_char "0" (pad 9 frac)) +:+ "Z".

Example time_1 : RFC3339Nano 1700000000123450000 = "2023-11-14T22:13:20.12345Z".
Proof. reflexivity. Qed.
Example time_2 : RFC3339Nano 951782400000000000 = "2000-02-29T00:00:00Z".
Proof. reflexivity. Qed.

(** ** The G2S form *)

Definition boolAttr (v : bool) : string := if v then "true" else "false".
Definition intAttr (v : Z) : string := itoa v.

(** The attributes with a name and a value, in the order of their names. *)
Definition writeXMLAttrs (attrs : gmap string string) : string :=
  let keys := sort_strings (map_to_list (filter (λ kv, kv.1 ≠ "" ∧ kv.2 ≠ "") attrs)).*1 in
  String.concat "" (map (λ k,
    " " +:+ k +:+ "=" +:+ String "034"%char (xmlEscape (get_str attrs k)) +:+ String "034"%char "") keys).

Definition G2SXMLModeXSDMessage : string := "xsd_g2s_message".
Definition G2SDefaultNamespace : string := "http://www.gamingstandards.com/g2s/schemas/v1.0.3".

Definition shouldRenderXSDG2SMessage (cfg : Config) : bool :=
  bool_decide (cfg.(cfg_G2SXML).(gx_Mode) = G2SXMLModeXSDMessage).

(** [renderXSDCommunicationsMessage] at the time [at_]. *)
Definition xsd_message (cfg : Config) (at_ : Z) (operationName : string) (attrs : gmap string string)
    : string :=
  let ns := firstNonEmpty [cfg.(cfg_G2SXML).(gx_Namespace); G2SDefaultNamespace] in
  let bodyAttrs := {[ "hostId" := cfg.(cfg_HostID); "egmId" := cfg.(cfg_EGMID);
                      "dateTimeSent" := RFC3339Nano at_ ]} in
  "<g2s:g2sMessage xmlns:g2s=" +:+ String "034"%char (xmlEscape ns) +:+ String "034"%char "><g2s:g2sBody" +:+
  writeXMLAttrs bodyAttrs +:+ "><g2s:communications><g2s:" +:+ operationName +:+ writeXMLAttrs attrs +:+
  " /></g2s:communications></g2s:g2sBody></g2s:g2sMessage>".

(** ** The SOAP form *)

Definition legacy_field (name value : string) : string :=
  "<g2s:" +:+ name +:+ ">" +:+ value +:+ "</g2s:" +:+ name +:+ ">".

Definition legacy_message (pk : MessagePack) (operationName : string)
    (fields : list (string * string)) : string :=
  let soapNS := firstNonEmpty [get_str pk.(mp_Wire).(wire_Namespaces) "soapenv"; SOAP11Namespace] in
  let g2sNS := firstNonEmpty [get_str pk.(mp_Wire).(wire_Namespaces) "g2s"; "urn:g2s:lab"] in
  "<soapenv:Envelope xmlns:soapenv=" +:+ String "034"%char soapNS +:+ String "034"%char " xmlns:g2s=" +:+
  String "034"%char g2sNS +:+ String "034"%char "><soapenv:Body><g2s:" +:+ operationName +:+ ">" +:+
  String.concat "" (map (λ f, legacy_field f.1 f.2) fields) +:+
  "</g2s:" +:+ operationName +:+ "></soapenv:Body></soapenv:Envelope>".

Definition identifiers (cfg : Config) (sessionID : string) : list (string * string) :=
  [("hostId", cfg.(cfg_HostID)); ("egmId", cfg.(cfg_EGMID)); ("sessionId", sessionID)].

(** ** The renderers *)

Section renderers.
Context (clock : nat → Z).

Definition renderXSDCommunicationsMessage (operationName : string) (attrs : gmap string string) : M string :=
  cfg ← gets sv_cfg;
  at_ ← Now clock;
  mret (xsd_message cfg at_ operationName attrs).

(** The choice of the form, which every renderer makes. *)
Definition render_message (operationName : string) (attrs : gmap string string)
    (fields : list (string * string)) : M string :=
  cfg ← gets sv_cfg;
  if shouldRenderXSDG2SMessage cfg then renderXSDCommunicationsMessage operationName attrs
  else pk ← gets sv_pack; mret (legacy_message pk operationName fields).

Definition renderCommsOnline (sessionID : string) : M string :=
  cfg ← gets sv_cfg;
  render_message "commsOnLine"
    (list_to_map [("equipmentType", "G2S_egm"); ("egmLocation", cfg.(cfg_G2SXML).(gx_EGMLocation));
      ("deviceReset", boolAttr false); ("deviceChanged", boolAttr false);
      ("subscriptionLost", boolAttr false); ("metersReset", boolAttr false)])
    (identifiers cfg sessionID).

Definition renderGetDescriptor (sessionID : string) : M string :=
  cfg ← gets sv_cfg;
  render_message "getDescriptor"
    (list_to_map [("includeOwners", boolAttr true); ("includeConfigs", boolAttr true);
      ("includeGuests", boolAttr true); ("includeOthers", boolAttr true)])
    (identifiers cfg sessionID).

Definition renderSetKeepAlive (sessionID : string) : M string :=
  cfg ← gets sv_cfg;
  let interval := cfg.(cfg_SessionEngine).(se_KeepAliveIntervalMS) in
  render_message "setKeepAlive" {[ "interval" := intAttr interval ]}
    (identifiers cfg sessionID ++ [("keepAliveIntervalMS", itoa interval)]).

Definition renderKeepAlive (sessionID : string) : M string :=
  cfg ← gets sv_cfg;
  render_message "keepAlive" ∅ (identifiers cfg sessionID).

(** [renderConfiguredOutboundBody] of outbound.go *)
Definition renderConfiguredOutboundBody (messageType sessionID : string) : M string :=
  if bool_decide (messageType = "commsOnLine") then renderCommsOnline sessionID
  else if bool_decide (messageType = "getDescriptor") then renderGetDescriptor sessionID
  else if bool_decide (messageType = "setKeepAlive") then renderSetKeepAlive sessionID
  else if bool_decide (messageType = "keepAlive") then renderKeepAlive sessionID
  else mret "".
End renderers.

(** ** Specifications *)

(** Reading character references back, as an XML processor does. *)
Fixpoint unescape_go (skip : nat) (s : string) : string :=
  match s with
  | EmptyString => ""
  | String c s' =>
      match skip with
      | S k => unescape_go k s'
      | 0 =>
          if has_prefix "&#34;" s then String "034"%char (unescape_go 4 s')
          else if has_prefix "&#39;" s then String "'"%char (unescape_go 4 s')
          else if has_prefix "&amp;" s then String "&"%char (unescape_go 4 s')
          else if has_prefix "&lt;" s then String "<"%char (unescape_go 3 s')
          else if has_prefix "&gt;" s then String ">"%char (unescape_go 3 s')
          else if has_prefix "&#x9;" s then String "009"%char (unescape_go 4 s')
          else if has_prefix "&#xA;" s then String "010"%char (unescape_go 4 s')
          else if has_prefix "&#xD;" s then String "013"%char (unescape_go 4 s')
          else String c (unescape_go 0 s')
      end
  end.

(** Valid UTF-8 of characters that XML allows. *)
Fixpoint xml_text_go (skip : nat) (s : string) : bool :=
  match s with
  | EmptyString => true
  | String c s' =>
      match skip with
      | S k => xml_text_go k s'
      | 0 =>
          let n := rune_len s in
          negb (bool_decide (escape_rune c s' n = Some replacement)) && xml_text_go (n - 1) s'
      end
  end.
Definition xml_text (s : string) : bool := xml_text_go 0 s.

Definition message_ns (c : Config) : string :=
  firstNonEmpty [c.(cfg_G2SXML).(gx_Namespace); G2SDefaultNamespace].

(** Identifiers that can be written into a message. *)
Definition printable (c : Config) : Prop :=
  xml_text (message_ns c) && xml_text c.(cfg_HostID) && xml_text c.(cfg_EGMID) = true ∧
  c.(cfg_HostID) ≠ "" ∧ c.(cfg_EGMID) ≠ "".

(** ** Lemmas: escaping *)

(** The first [k] bytes are not ASCII. *)
Fixpoint high_bytes (k : nat) (s : string) : Prop :=
  match k, s with
  | S k', String c s' => byte_in 128 255 c = true ∧ high_bytes k' s'
  | _, _ => True
  end.

Lemma byte_in_sub lo hi lo' hi' c :
  byte_in lo hi c = true → lo' ≤ lo → hi ≤ hi' → byte_in lo' hi' c = true.
Proof.
  unfold byte_in. intros H Hl Hh. apply andb_true_iff in H as [H1 H2].
  apply Nat.leb_le in H1. apply Nat.leb_le in H2. apply andb_true_iff. split; apply Nat.leb_le; lia.
Qed.

Lemma high_continuation c : continuation c = true → byte_in 128 255 c = true.
Proof. intros H. eapply byte_in_sub; [exact H|lia..]. Qed.

(** Bytes known to lie in a higher range are not ASCII. *)
Ltac high :=
  match goal with
  | H : continuation ?c = true |- byte_in 128 255 ?c = true => by apply high_continuation
  | H : byte_in ?lo ?hi ?c = true |- byte_in 128 255 ?c = true => apply (byte_in_sub lo hi); [done|lia|lia]
  end.
Ltac cases_or :=
  repeat match goal with H : _ || _ = true |- _ => apply orb_true_iff in H as [H|H] end.

(** The bytes of a rune after its first are not ASCII, and a rune of several
    bytes begins with none. *)
Lemma rune_len_high c s' :
  high_bytes (rune_len (String c s') - 1) s' ∧
  (rune_len (String c s') = 1 ∨ byte_in 128 255 c = true).
Proof.
  destruct s' as [|b s2]; [by split; [|left]|]. unfold rune_len.
  destruct (byte_in 194 223 c && continuation b) eqn:H2.
  { bool_props. split; [split; [high|done]|right; high]. }
  destruct s2 as [|d s3]; [by split; [|left]|].
  destruct (_ && continuation d) eqn:H3.
  { bool_props. cases_or; bool_props; cases_or; (split; [split; [high|split; [high|done]]|right; high]). }
  destruct s3 as [|e s4]; [by split; [|left]|].
  destruct (_ && continuation d && continuation e) eqn:H4; [|by split; [|left]].
  bool_props. cases_or; bool_props; cases_or; (split; [split; [high|split; [high|split; [high|done]]]|right; high]).
Qed.

Lemma rune_len_pos s : 1 ≤ rune_len s.
Proof. unfold rune_len. repeat case_match; lia. Qed.

(** A byte other than the ampersand is read back as it is. *)
Lemma unescape_plain c s : c ≠ "&"%char → unescape_go 0 (String c s) = String c (unescape_go 0 s).
Proof.
  intros H. cbn [unescape_go]. cbn [has_prefix]. by rewrite !(bool_decide_eq_false_2 ("&"%char = c)) by congruence.
Qed.

Lemma high_not_amp c : byte_in 128 255 c = true → c ≠ "&"%char.
Proof. by intros H ->. Qed.

Definition entities : list (ascii * string) :=
  [("034"%char, "&#34;"); ("'"%char, "&#39;"); ("&"%char, "&amp;"); ("<"%char, "&lt;");
   (">"%char, "&gt;"); ("009"%char, "&#x9;"); ("010"%char, "&#xA;"); ("013"%char, "&#xD;")].

Lemma entity_elem c e : entity c = Some e → (c, e) ∈ entities.
Proof.
  intros H. destruct c as [[] [] [] [] [] [] [] []]; try discriminate H; injection H as <-;
    apply (bool_decide_unpack _); vm_compute; exact I.
Qed.

Lemma entity_None d : entity d = None → d ∉ entities.*1.
Proof.
  intros H Hd. unfold entities in Hd. cbn in Hd. rewrite !elem_of_cons, elem_of_nil in Hd.
  by repeat (destruct Hd as [->|Hd]).
Qed.

Lemma escape_rune_cases c s' n e :
  escape_rune c s' n = Some e → entity c = Some e ∨ e = replacement.
Proof. unfold escape_rune. intros H. destruct (entity c); [left; congruence|]. right. repeat case_match; congruence. Qed.

(** What [escape_rune] writes for a byte that XML allows. *)
Lemma escape_rune_reads_back c s' n e t :
  escape_rune c s' n = Some e → e ≠ replacement →
  unescape_go 0 (e +:+ t) = String c (unescape_go 0 t) ∧ byte_in 128 255 c = false.
Proof.
  intros H Hne. apply escape_rune_cases in H as [H|H]; [|done]. apply entity_elem in H.
  unfold entities in H. rewrite !elem_of_cons, elem_of_nil in H. by repeat (destruct H as [[= -> ->]|H]).
Qed.

Lemma escape_go_reads_back skip s :
  (skip = 0 ∨ high_bytes skip s) → xml_text_go skip s = true →
  unescape_go 0 (escape_go skip true s) = s.
Proof.
  revert skip. induction s as [|c s' IH]; intros skip Hh Hx; [done|].
  destruct skip as [|k]; cbn [escape_go xml_text_go] in *.
  - apply andb_true_iff in Hx as [He Hx]. apply negb_true_iff, bool_decide_eq_false in He.
    pose proof (rune_len_high c s') as [Hr Hc].
    destruct (escape_rune c s' (rune_len (String c s'))) as [e|] eqn:Hes.
    + assert (Hne : e ≠ replacement) by congruence.
      destruct (escape_rune_reads_back _ _ _ _ (escape_go (rune_len (String c s') - 1) false s') Hes Hne)
        as [-> Hl].
      destruct Hc as [Hc|Hc]; [|congruence]. rewrite Hc in *. f_equal.
      assert (Hf : ∀ s, escape_go 0 false s = escape_go 0 true s) by (by intros []).
      rewrite Nat.sub_diag in *. rewrite Hf. apply IH; [by left|done].
    + assert (Ha : c ≠ "&"%char) by (by intros ->). rewrite unescape_plain by done. f_equal.
      apply IH; [by right|done].
  - destruct Hh as [Hh|[Hc Hh]]; [done|]. rewrite unescape_plain by (by apply high_not_amp). f_equal.
    apply IH; [by right|done].
Qed.

(** Escaped text holds no character with a meaning in an attribute value. *)
Lemma escape_rune_free d c s' n e :
  d ∈ ["034"%char; "<"%char; ">"%char; "'"%char] → escape_rune c s' n = Some e → free_of d e = true.
Proof.
  intros Hd H. rewrite !elem_of_cons, elem_of_nil in Hd.
  apply escape_rune_cases in H as [H|H]; [apply entity_elem in H|];
    [unfold entities in H; rewrite !elem_of_cons, elem_of_nil in H|].
  - repeat (destruct H as [[= -> ->]|H]); [..|done]; by repeat (destruct Hd as [->|Hd]).
  - subst. by repeat (destruct Hd as [->|Hd]).
Qed.

Lemma escape_rune_None d c s' n :
  d ∈ ["034"%char; "<"%char; ">"%char; "'"%char] → escape_rune c s' n = None → c ≠ d.
Proof.
  intros Hd H ->. unfold escape_rune in H. destruct (entity d) eqn:He; [done|]. apply entity_None in He.
  apply He. unfold entities. cbn. set_solver.
Qed.

Lemma escape_go_free d skip copy s :
  d ∈ ["034"%char; "<"%char; ">"%char; "'"%char] → (skip = 0 ∨ high_bytes skip s) →
  free_of d (escape_go skip copy s) = true.
Proof.
  intros Hd. revert skip copy. induction s as [|c s' IH]; intros skip copy Hh; [done|].
  destruct skip as [|k]; cbn [escape_go].
  - pose proof (rune_len_high c s') as [Hr _].
    destruct (escape_rune c s' _) as [e|] eqn:He.
    + rewrite free_of_app, (escape_rune_free d c s' _ e Hd He). apply IH. by right.
    + cbn [free_of]. rewrite bool_decide_eq_false_2 by (by eapply escape_rune_None).
      apply IH. by right.
  - destruct Hh as [|[Hc Hh]]; [done|]. destruct copy; [|apply IH; by right].
    cbn [free_of]. rewrite bool_decide_eq_false_2; [apply IH; by right|].
    intros ->. rewrite !elem_of_cons, elem_of_nil in Hd. by repeat (destruct Hd as [->|Hd]).
Qed.

Lemma xmlEscape_reads_back v : xml_text v = true → unescape_go 0 (xmlEscape v) = v.
Proof. apply escape_go_reads_back. by left. Qed.

Lemma xmlEscape_quote_free v : free_of "034" (xmlEscape v) = true.
Proof. apply escape_go_free; [left|by left]. Qed.

Lemma xmlEscape_inj v w : xml_text v = true → xml_text w = true → xmlEscape v = xmlEscape w → v = w.
Proof.
  intros Hv Hw H. by rewrite <-(xmlEscape_reads_back v Hv), <-(xmlEscape_reads_back w Hw), H.
Qed.

(** ** Lemmas: attributes *)

Lemma sep_unique_first c x y a b :
  free_of c x = true → free_of c y = true →
  x +:+ String c a = y +:+ String c b → x = y ∧ a = b.
Proof.
  revert y. induction x as [|d x IH]; intros [|e y] Hx Hy H.
  - injection H as ->. done.
  - injection H as -> H. simpl in Hy. bool_props. done.
  - injection H as <- H. simpl in Hx. bool_props. done.
  - simpl in Hx, Hy. bool_props. rewrite !string_app_cons in H. injection H as <- H.
    destruct (IH y) as [-> ->]; auto.
Qed.

(** A quoted value followed by anything. *)
Definition attribute (k v : string) : string :=
  " " +:+ k +:+ "=" +:+ String "034"%char (xmlEscape v) +:+ String "034"%char "".

Lemma attribute_inj k v w a b :
  attribute k v +:+ a = attribute k w +:+ b → xmlEscape v = xmlEscape w ∧ a = b.
Proof.
  unfold attribute. rewrite <-!string_app_assoc. intros H.
  apply string_app_inj_l, string_app_inj_l, string_app_inj_l in H. rewrite !string_app_cons in H.
  injection H as H. rewrite <-?string_app_assoc, ?string_app_cons in H.
  apply sep_unique_first in H as [H1 H2]; [split; [exact H1|exact H2]|apply xmlEscape_quote_free..].
Qed.

Definition body_attrs (host egm time : string) : gmap string string :=
  {[ "hostId" := host; "egmId" := egm; "dateTimeSent" := time ]}.

(** The names under which [writeXMLAttrs] prints, in order. *)
Definition attr_keys (attrs : gmap string string) : list string :=
  sort_strings (map_to_list (filter (λ kv, kv.1 ≠ "" ∧ kv.2 ≠ "") attrs)).*1.

Lemma body_keys host egm time :
  host ≠ "" → egm ≠ "" → time ≠ "" →
  attr_keys (body_attrs host egm time) = ["dateTimeSent"; "egmId"; "hostId"].
Proof.
  intros Hh He Ht. unfold attr_keys.
  assert (Hf : filter (λ kv : string * string, kv.1 ≠ "" ∧ kv.2 ≠ "") (body_attrs host egm time)
               = body_attrs host egm time).
  { apply map_filter_id. intros k v Hk. unfold body_attrs in Hk.
    rewrite !lookup_insert_Some, lookup_singleton_Some in Hk. naive_solver. }
  rewrite Hf, (sort_strings_canonical _ ["hostId"; "egmId"; "dateTimeSent"]); [vm_compute; reflexivity|].
  unfold body_attrs. rewrite !map_to_list_insert, map_to_list_singleton; [done|..].
  - by rewrite lookup_singleton_ne.
  - by rewrite lookup_insert_ne, lookup_singleton_ne.
Qed.

Lemma writeXMLAttrs_body host egm time :
  host ≠ "" → egm ≠ "" → time ≠ "" →
  writeXMLAttrs (body_attrs host egm time)
  = attribute "dateTimeSent" time +:+ attribute "egmId" egm +:+ attribute "hostId" host.
Proof.
  intros Hh He Ht. unfold writeXMLAttrs. fold (attr_keys (body_attrs host egm time)).
  by rewrite body_keys.
Qed.

Lemma RFC3339Nano_ne t : RFC3339Nano t ≠ "".
Proof.
  unfold RFC3339Nano. destruct (civil_from_days _) as [[y m] d]. intros H.
  apply (f_equal String.length) in H. rewrite !string_length_app in H. simpl in H. lia.
Qed.

(** The prefix of a message up to the name of the operation. *)
Lemma xsd_message_eq cfg at_ op attrs :
  cfg.(cfg_HostID) ≠ "" → cfg.(cfg_EGMID) ≠ "" →
  ∃ rest, xsd_message cfg at_ op attrs
  = "<g2s:g2sMessage" +:+ attribute "xmlns:g2s" (message_ns cfg)
    +:+ "><g2s:g2sBody" +:+ attribute "dateTimeSent" (RFC3339Nano at_) +:+
    attribute "egmId" cfg.(cfg_EGMID) +:+ attribute "hostId" cfg.(cfg_HostID) +:+ rest.
Proof.
  intros Hh He. unfold xsd_message. cbv zeta.
  change {[ "hostId" := cfg_HostID cfg; "egmId" := cfg_EGMID cfg; "dateTimeSent" := RFC3339Nano at_ ]}
    with (body_attrs (cfg_HostID cfg) (cfg_EGMID cfg) (RFC3339Nano at_)).
  rewrite writeXMLAttrs_body by (done || apply RFC3339Nano_ne). eexists.
  unfold attribute at 4. rewrite <-!string_app_assoc. reflexivity.
Qed.

(** ** Theorems *)

(** Escaping is read back exactly, for every text that XML can carry, and
    whatever the text, none of the characters that end an attribute value or
    open a tag is left in it. *)
Theorem xmlEscape_correct v :
  (xml_text v = true → unescape_go 0 (xmlEscape v) = v) ∧
  ∀ d, d ∈ ["034"%char; "<"%char; ">"%char; "'"%char] → free_of d (xmlEscape v) = true.
Proof. split; [apply xmlEscape_reads_back|]. intros d Hd. apply escape_go_free; [done|by left]. Qed.

(** A message in the G2S form determines the name space and the identifiers
    it was rendered with: no choice of identifiers, operation or attributes can
    imitate another machine or another host. *)
Theorem xsd_message_injective cfg cfg' t t' op op' attrs attrs' :
  printable cfg → printable cfg' →
  xsd_message cfg t op attrs = xsd_message cfg' t' op' attrs' →
  message_ns cfg = message_ns cfg' ∧ cfg.(cfg_HostID) = cfg'.(cfg_HostID) ∧
  cfg.(cfg_EGMID) = cfg'.(cfg_EGMID).
Proof.
  intros (Hp & Hh & He) (Hp' & Hh' & He') H. bool_props.
  destruct (xsd_message_eq cfg t op attrs Hh He) as [rest Hr].
  destruct (xsd_message_eq cfg' t' op' attrs' Hh' He') as [rest' Hr'].
  rewrite Hr, Hr' in H. apply string_app_inj_l in H.
  apply attribute_inj in H as [Hns H]. apply string_app_inj_l in H.
  apply attribute_inj in H as [_ H]. apply attribute_inj in H as [Hegm H].
  apply attribute_inj in H as [Hhost _]. apply xmlEscape_inj in Hns, Hegm, Hhost; done.
Qed.

(** The SOAP form escapes nothing: two pairs of identifiers, one message. *)
Lemma legacy_message_ambiguous :
  let message host egm := legacy_message (example_pack 3000) "keepAlive"
    [("hostId", host); ("egmId", egm); ("sessionId", "S")] in
  message "H</g2s:hostId><g2s:egmId>E" "M" = message "H" "E</g2s:hostId><g2s:egmId>M".
Proof. vm_compute. reflexivity. Qed.

(** ** Witnesses *)

Definition example_named (host : string) : Config := set_cfg_HostID host example_config.

Example xsd_message_injective_witness :
  xsd_message (example_named "HOST-007") 0 "keepAlive" ∅ ≠ xsd_message (example_named "HOST-008") 1 "keepAlive" ∅.
Proof.
  assert (Hp : ∀ h, h = "HOST-007" ∨ h = "HOST-008" → printable (example_named h)).
  { intros h [-> | ->]; split; [vm_compute; reflexivity|done|vm_compute; reflexivity|done]. }
  intros H. destruct (xsd_message_injective (example_named "HOST-007") (example_named "HOST-008") 0 1
    "keepAlive" "keepAlive" ∅ ∅ (Hp _ (or_introl eq_refl)) (Hp _ (or_intror eq_refl)) H) as (_ & Hh & _).
  discriminate Hh.
Defined.
