(* ===== verification/XmlDoc.v ===== *)
(** * Printed documents (src/runtime/g2s_xsd_renderer.go, session_engine.go and its
    files)

    Elements as the renderers print them, with their attributes and texts escaped
    by [xmlEscape], and the tokens that the decoder of [XmlText] reads back. *)

From S2P Require Import Prelude GoStrings Json Config Pack Render Envelope XmlText State Messages.

(** ** Documents *)

(** An element with elements in it, with a text in it, or closed in its tag. *)
Inductive xml_doc :=
  | Element (n : string * string) (attrs : list xml_attr) (children : list xml_doc)
  | Leaf (n : string * string) (attrs : list xml_attr) (content : string)
  | Single (n : string * string) (attrs : list xml_attr).

(** The printers take what follows as [k], and the mark around the values of
    attributes as [q]. *)
Definition put_name (n : string * string) (k : string) : string :=
  if bool_decide (n.1 = "") then n.2 +:+ k else n.1 +:+ String ":" (n.2 +:+ k).
Definition put_attr (q : ascii) (a : xml_attr) (k : string) : string :=
  String " " (put_name a.(xa_Name) (String "=" (String q (xmlEscape a.(xa_Value) +:+ String q k)))).
Definition put_open (q : ascii) (n : string * string) (attrs : list xml_attr) (k : string) : string :=
  String "<" (put_name n (foldr (put_attr q) k attrs)).
Definition put_close (n : string * string) (k : string) : string :=
  String "<" (String "/" (put_name n (String ">" k))).

Fixpoint put_doc (q : ascii) (d : xml_doc) (k : string) : string :=
  match d with
  | Element n attrs children => put_open q n attrs (String ">" (foldr (put_doc q) (put_close n k) children))
  | Leaf n attrs content => put_open q n attrs (String ">" (xmlEscape content +:+ put_close n k))
  | Single n attrs => put_open q n attrs (String " " (String "/" (String ">" k)))
  end.

(** The two marks. *)
Definition quote_marks : list ascii := ["034"%char; "'"%char].

(** The tokens of a document where the name spaces [ns] hold. *)
Fixpoint doc_tokens (ns : gmap string string) (d : xml_doc) : list token :=
  match d with
  | Element n attrs children =>
      let ns := bind_attrs ns attrs in
      start_token ns n attrs :: concat (map (doc_tokens ns) children) ++ [EndElement]
  | Leaf n attrs content =>
      start_token (bind_attrs ns attrs) n attrs ::
      (if bool_decide (content = "") then [] else [CharData content]) ++ [EndElement]
  | Single n attrs => [start_token (bind_attrs ns attrs) n attrs; EndElement]
  end.

(** Names of ASCII letters, digits, hyphens and underscores. *)
Fixpoint all_bytes (p : ascii → bool) (s : string) : bool :=
  match s with EmptyString => true | String c s' => p c && all_bytes p s' end.
Definition simple_name (s : string) : bool :=
  match s with
  | EmptyString => false
  | String c _ => (byte_in 65 90 c || byte_in 97 122 c || bool_decide (c = "_"%char)) && all_bytes name_byte s
  end.
Definition name_ok (n : string * string) : bool :=
  (bool_decide (n.1 = "") || simple_name n.1) && simple_name n.2.
Definition attr_ok (a : xml_attr) : bool := name_ok a.(xa_Name) && xml_text a.(xa_Value).

Fixpoint doc_ok (d : xml_doc) : bool :=
  match d with
  | Element n attrs children => name_ok n && forallb attr_ok attrs && forallb doc_ok children
  | Leaf n attrs content => name_ok n && forallb attr_ok attrs && xml_text content
  | Single n attrs => name_ok n && forallb attr_ok attrs
  end.

Section doc_induction.
Context (P : xml_doc → Prop).
Hypothesis (HE : ∀ n attrs children, Forall P children → P (Element n attrs children)).
Hypothesis (HL : ∀ n attrs content, P (Leaf n attrs content)).
Hypothesis (HS : ∀ n attrs, P (Single n attrs)).

(** Induction over documents and the lists of documents in them. *)
Fixpoint xml_doc_induction (d : xml_doc) : P d :=
  match d with
  | Element n attrs children =>
      HE n attrs children ((fix go (l : list xml_doc) : Forall P l :=
        match l with [] => Forall_nil_2 P | d :: l => Forall_cons_2 P d l (xml_doc_induction d) (go l) end) children)
  | Leaf n attrs content => HL n attrs content
  | Single n attrs => HS n attrs
  end.
End doc_induction.

(** ** Lemmas: names *)

Lemma all_bytes_impl (p q : ascii → bool) s :
  (∀ c, p c = true → q c = true) → all_bytes p s = true → all_bytes q s = true.
Proof. intros H. induction s as [|c s IH]; [done|]. cbn. intros [Hc Hs]%andb_true_iff. rewrite (H c Hc). by apply IH. Qed.

Lemma all_bytes_app p s t : all_bytes p (s +:+ t) = all_bytes p s && all_bytes p t.
Proof. induction s as [|c s IH]; [done|]. rewrite string_app_cons. cbn. by rewrite IH, andb_assoc. Qed.

Lemma span_all p s t :
  all_bytes p s = true → match t with EmptyString => True | String c _ => p c = false end →
  span p (s +:+ t) = (s, t).
Proof.
  intros Hs Ht. induction s as [|c s IH].
  - destruct t as [|c t]; [done|]. change (span p (String c t) = (""%string, String c t)). cbn [span]. by rewrite Ht.
  - rewrite string_app_cons. cbn [all_bytes span] in *. apply andb_true_iff in Hs as [Hc Hs]. by rewrite Hc, IH.
Qed.

Lemma simple_name_bytes s : simple_name s = true → s ≠ "" ∧ all_bytes name_byte s = true.
Proof. destruct s; [done|]. by intros [_ H]%andb_true_iff. Qed.

Lemma simple_name_start s : simple_name s = true → ∃ c s', s = String c s' ∧ start_byte c = true.
Proof.
  destruct s as [|c s]; [done|]. intros [Hc _]%andb_true_iff. exists c, s. split; [done|]. unfold start_byte.
  by rewrite Hc.
Qed.

Lemma name_byte_ascii c : isNameByte c = true → byte_in 128 255 c = false.
Proof. destruct c as [[] [] [] [] [] [] [] []]; intros H; vm_compute in H; done. Qed.

Lemma name_byte_colon c : name_byte c = true → c ≠ ":"%char.
Proof. by intros H ->. Qed.

Lemma name_byte_part c : name_byte c = true → isNameByte c = true ∧ name_part c = true.
Proof. intros H. unfold name_part, isNameByte. by rewrite H. Qed.

Lemma free_of_all c s : all_bytes (λ d, negb (bool_decide (d = c))) s = true → free_of c s = true.
Proof. induction s as [|d s IH]; [done|]. cbn. intros [-> H]%andb_true_iff. by apply IH. Qed.

(** The characters of ASCII are bytes. *)
Lemma rune_len_ascii c s : byte_in 128 255 c = false → rune_len (String c s) = 1.
Proof. intros H. destruct (rune_len_high c s) as [_ [?|?]]; congruence. Qed.

Section names.
Context (name_rune : bool → string → bool).

Lemma isName_go_ascii start s :
  all_bytes isNameByte s = true →
  (start = true → match s with EmptyString => True | String c _ => start_byte c = true end) →
  isName_go name_rune start 0 s = true.
Proof.
  revert start. induction s as [|c s IH]; intros start Hs Hstart; [done|]. cbn [all_bytes isName_go] in *.
  apply andb_true_iff in Hs as [Hc Hs]. pose proof (name_byte_ascii c Hc) as Ha.
  rewrite rune_len_ascii by done. unfold rune_in_name. rewrite Ha, Nat.sub_diag, IH by done.
  destruct start; [by rewrite Hstart|by rewrite Hc].
Qed.

Lemma isName_simple s : simple_name s = true → isName name_rune s = true.
Proof.
  intros H. destruct (simple_name_bytes s H) as [Hne Hb]. unfold isName. rewrite bool_decide_eq_false_2 by done.
  apply isName_go_ascii.
  - eapply all_bytes_impl; [|exact Hb]. intros c Hc. by apply name_byte_part.
  - intros _. by destruct (simple_name_start _ H) as (c & s' & -> & Hc).
Qed.

Lemma put_name_app n k : put_name n k = put_name n "" +:+ k.
Proof.
  unfold put_name. case_bool_decide; [by rewrite string_app_nil_r|].
  by rewrite string_app_nil_r, <-string_app_assoc, string_app_cons.
Qed.

Lemma put_name_ok n :
  name_ok n = true →
  put_name n "" ≠ "" ∧ all_bytes isNameByte (put_name n "") = true ∧ isName name_rune (put_name n "") = true ∧
  split_char ":" (put_name n "") = if bool_decide (n.1 = "") then [n.2] else [n.1; n.2].
Proof.
  assert (Hsimple : ∀ s, simple_name s = true → s ≠ "" ∧ all_bytes isNameByte s = true ∧ free_of ":" s = true).
  { intros s [Hne Hb]%simple_name_bytes. split_and!; [done|eapply all_bytes_impl; [|exact Hb]|].
    - intros c Hc. by apply name_byte_part.
    - apply free_of_all. eapply all_bytes_impl; [|exact Hb]. intros c Hc%name_byte_colon.
      by apply negb_true_iff, bool_decide_eq_false_2. }
  intros [Hp Hl]%andb_true_iff. destruct (Hsimple _ Hl) as (Hne & Hb & Hf). unfold put_name.
  rewrite !string_app_nil_r. case_bool_decide as H0.
  { split_and!; [done..|by apply isName_simple|by apply split_char_free]. }
  cbn [orb] in Hp. destruct (Hsimple _ Hp) as (Hne' & Hb' & Hf').
  split_and!.
  - by destruct n.1.
  - rewrite all_bytes_app. cbn. by rewrite Hb', Hb.
  - unfold isName. rewrite bool_decide_eq_false_2 by (by destruct n.1). apply isName_go_ascii.
    + rewrite all_bytes_app. cbn. by rewrite Hb', Hb.
    + intros _. destruct (simple_name_start _ Hp) as (c & s & -> & Hc). by rewrite string_app_cons.
  - rewrite split_char_app, split_char_free by done. done.
Qed.

(** A printed name is read up to the byte that ends it. *)
Lemma readName_put n c k :
  name_ok n = true → name_part c = false → readName (put_name n (String c k)) = Got (put_name n "") (String c k).
Proof.
  intros Hn Hc. destruct (put_name_ok n Hn) as (Hne & Hb & _). rewrite put_name_app.
  assert (Hb' : all_bytes name_part (put_name n "") = true).
  { eapply all_bytes_impl; [|exact Hb]. intros d Hd. unfold name_part. by rewrite Hd. }
  unfold readName. rewrite (span_all name_part _ (String c k)) by done.
  destruct (put_name n "") as [|d s]; [done|]. rewrite string_app_cons. cbn in Hb'.
  apply andb_true_iff in Hb' as [-> _]. done.
Qed.

Lemma nsname_put expected n c k :
  name_ok n = true → name_part c = false →
  nsname name_rune expected (put_name n (String c k)) = Got n (String c k).
Proof.
  intros Hn Hc. destruct (put_name_ok n Hn) as (Hne & _ & Hi & Hs). unfold nsname, name, mbind, parser_bind.
  rewrite readName_put by done. rewrite bool_decide_eq_false_2 by done. rewrite Hi. cbn [mret parser_ret].
  unfold parser_ret. rewrite Hs. apply andb_true_iff in Hn as [Hp Hl]. destruct n as [p l]. cbn [fst snd] in *.
  case_bool_decide as H0.
  { subst. unfold put_name. cbn [fst snd]. by rewrite bool_decide_eq_true_2, string_app_nil_r. } rewrite (bool_decide_eq_false_2 (p = "")) by done.
  by rewrite bool_decide_eq_false_2 by (by apply simple_name_bytes).
Qed.
End names.

(** ** Lemmas: texts *)

Lemma xml_text_legal skip s : xml_text_go skip s = true → illegal_go skip s = None.
Proof.
  revert skip. induction s as [|c s IH]; intros skip; [done|]. destruct skip as [|k]; [|apply IH].
  cbn [xml_text_go illegal_go]. intros [He Hs]%andb_true_iff. apply negb_true_iff, bool_decide_eq_false in He.
  rewrite (IH _ Hs). enough (illegal c s (rune_len (String c s)) = None) as -> by done.
  revert He. generalize (rune_len (String c s)). intros n. unfold escape_rune, illegal.
  destruct (entity c) as [e|] eqn:Hent.
  { intros _. apply entity_elem in Hent. unfold entities in Hent. rewrite !elem_of_cons, elem_of_nil in Hent.
    repeat (destruct Hent as [[= -> _]|Hent]); [..|done]; by destruct (n =? 1). }
  destruct (byte_in 0 31 c); [done|]. destruct ((n =? 1) && byte_in 128 255 c); [done|]. cbn [andb].
  destruct (has_prefix _ _); [done|]. by destruct (has_prefix _ _).
Qed.

Section texts.
Context (name_rune : bool → string → bool) (q : ascii) (Hq : q ∈ quote_marks).

Lemma mark_not_space : is_space q = false.
Proof. unfold quote_marks in Hq. rewrite !elem_of_cons, elem_of_nil in Hq. by destruct Hq as [->|[->|[]]]. Qed.

Lemma quote_ends : bool_decide (q = ">"%char) = false ∧ bool_decide (q = "<"%char) = false ∧
  bool_decide ("&"%char = q) = false.
Proof. unfold quote_marks in Hq. rewrite !elem_of_cons, elem_of_nil in Hq. by destruct Hq as [->|[->|[]]]. Qed.

Lemma mark_entity c : entity c = None → c ≠ q.
Proof. unfold quote_marks in Hq. rewrite !elem_of_cons, elem_of_nil in Hq. by intros H ->; destruct Hq as [->|[->|[]]]. Qed.

(** A reference that was passed. *)
Lemma text_go_skip sec t b0 b1 s :
  text_go name_rune sec (String.length t) b0 b1 (t +:+ s) = text_go name_rune sec 0 b0 b1 s.
Proof. induction t as [|c t IH]; [done|]. rewrite string_app_cons. cbn [String.length text_go]. apply IH. Qed.

Lemma char_reference_entity c e s :
  entity c = Some e → ∃ e', e = String "&" e' ∧ char_reference name_rune (e' +:+ s) = Got (String c "") s.
Proof.
  intros He%entity_elem. unfold entities in He. rewrite !elem_of_cons, elem_of_nil in He.
  repeat (destruct He as [[= -> ->]|He]; [eexists; split; [reflexivity|reflexivity]|]). done.
Qed.

(** Bytes that stand for themselves. *)
Lemma text_go_plain sec b0 b1 c s :
  sec = Plain ∨ sec = Quoted q → entity c = None → b1 ≠ Some "013"%char →
  text_go name_rune sec 0 b0 b1 (String c s) = prepend (String c "") (text_go name_rune sec 0 b1 (Some c) s).
Proof.
  intros Hsec Hc Hb. cbn [text_go].
  rewrite (bool_decide_eq_false_2 (c = ">"%char)), (bool_decide_eq_false_2 (c = "<"%char)),
    (bool_decide_eq_false_2 (c = "&"%char)), (bool_decide_eq_false_2 (c = "013"%char)),
    (bool_decide_eq_false_2 (b1 = Some "013"%char)) by (done || by intros ->).
  rewrite !andb_false_r. cbn [andb].
  destruct Hsec as [->| ->]; [done|]. by rewrite (bool_decide_eq_false_2 (c = q)) by (by apply mark_entity).
Qed.

Lemma high_no_entity c : byte_in 128 255 c = true → entity c = None.
Proof. destruct (entity c) eqn:H; [|done]. apply entity_elem in H. unfold entities in H.
  rewrite !elem_of_cons, elem_of_nil in H. by repeat (destruct H as [[= -> _]|H]). Qed.

Lemma prepend_char c s rest : prepend (String c "") (Got s rest) = Got (String c s) rest.
Proof. done. Qed.

(** An escaped text is read back, up to the byte that ends it. *)
Lemma text_go_escape sec stop rest skip s b0 b1 :
  sec = Plain ∨ sec = Quoted q →
  (∀ b0 b1, text_go name_rune sec 0 b0 b1 stop = Got "" rest) →
  (skip = 0 ∨ high_bytes skip s) → xml_text_go skip s = true → b1 ≠ Some "013"%char →
  text_go name_rune sec 0 b0 b1 (escape_go skip true s +:+ stop) = Got s rest.
Proof.
  intros Hsec Hstop. revert skip b0 b1. induction s as [|c s IH]; intros skip b0 b1 Hh Hx Hb; [by apply Hstop|].
  destruct skip as [|k]; cbn [escape_go xml_text_go] in *.
  - apply andb_true_iff in Hx as [He Hx]. apply negb_true_iff, bool_decide_eq_false in He.
    pose proof (rune_len_high c s) as [Hr Hc].
    destruct (escape_rune c s (rune_len (String c s))) as [e|] eqn:Hes.
    + destruct (escape_rune_cases _ _ _ _ Hes) as [Hent| ->]; [|done].
      destruct Hc as [Hc|Hc]; [|by rewrite high_no_entity in Hent]. rewrite Hc, Nat.sub_diag in *.
      assert (Hf : ∀ s, escape_go 0 false s = escape_go 0 true s) by (by intros []). rewrite Hf, <-string_app_assoc.
      set (t := escape_go 0 true s +:+ stop).
      destruct (char_reference_entity c e t Hent) as (e' & -> & Hcr). rewrite string_app_cons. cbn [text_go].
      rewrite !(bool_decide_eq_false_2 ("&"%char = _)) by done.
      rewrite !andb_false_r. cbn [andb]. rewrite bool_decide_eq_true_2, Hcr by done.
      replace (String.length (e' +:+ t) - String.length t) with (String.length e') by (rewrite string_length_app; lia).
      rewrite text_go_skip. unfold t. rewrite (IH 0 None None) by (done || by left).
      destruct Hsec as [->| ->]; [done|]. destruct quote_ends as (_ & _ & ->). done.
    + assert (Hent : entity c = None) by (unfold escape_rune in Hes; by destruct (entity c)).
      rewrite string_app_cons, text_go_plain, (IH _ b1 (Some c)) by (done || (by right) || (by intros [= ->])). done.
  - destruct Hh as [Hh|[Hc Hh]]; [done|]. pose proof (high_no_entity c Hc) as Hent.
    rewrite string_app_cons, text_go_plain, (IH _ b1 (Some c)) by (done || (by right) || (by intros [= ->])). done.
Qed.

Lemma text_escape sec stop rest v :
  sec = Plain ∨ sec = Quoted q → (∀ b0 b1, text_go name_rune sec 0 b0 b1 stop = Got "" rest) →
  xml_text v = true → char_text name_rune sec (xmlEscape v +:+ stop) = Got v rest.
Proof.
  intros Hsec Hstop Hv. unfold char_text, xmlEscape. rewrite (text_go_escape sec stop rest) by (done || by left).
  assert (Hc : in_cdata sec = false) by (by destruct Hsec as [->| ->]). rewrite Hc. cbv zeta.
  by rewrite xml_text_legal.
Qed.

Lemma attrval_put v k : xml_text v = true → attrval name_rune (String q (xmlEscape v +:+ String q k)) = Got v k.
Proof.
  intros Hv. unfold attrval, mbind, parser_bind. cbn [mustgetc].
  assert (Hm : bool_decide (q = "034"%char) || bool_decide (q = "'"%char) = true).
  { unfold quote_marks in Hq. rewrite !elem_of_cons, elem_of_nil in Hq. by destruct Hq as [->|[->|[]]]. }
  rewrite Hm. apply (text_escape (Quoted q)); [by right| |done]. intros b0 b1. cbn [text_go in_quotes].
  destruct quote_ends as (_ & -> & _).
  cbn [negb andb]. by rewrite bool_decide_eq_true_2.
Qed.

Lemma attribute_put a k : attr_ok a = true →
  attribute_ name_rune (put_name a.(xa_Name) (String "=" (String q (xmlEscape a.(xa_Value) +:+ String q k)))) = Got a k.
Proof.
  intros [Hn Hv]%andb_true_iff. destruct a as [n v]. cbn [xa_Name xa_Value] in *.
  unfold attribute_, mbind, parser_bind. rewrite nsname_put by done. unfold spaces. cbn [span].
  change (is_space "=") with false. cbn [snd mustgetc]. rewrite bool_decide_eq_true_2 by done. cbn [span].
  rewrite mark_not_space. cbn [snd]. by rewrite attrval_put.
Qed.
End texts.

(** ** Lemmas: tags *)

Lemma put_name_start n k :
  name_ok n = true → ∃ c t, put_name n k = String c t ∧ start_byte c = true.
Proof.
  intros [Hp Hl]%andb_true_iff. unfold put_name. case_bool_decide as H0.
  - destruct (simple_name_start _ Hl) as (c & s & -> & Hc). exists c, (s +:+ k). by rewrite string_app_cons.
  - cbn [orb] in Hp. destruct (simple_name_start _ Hp) as (c & s & -> & Hc). eexists c, _.
    by rewrite string_app_cons.
Qed.

(** A byte that begins a name is none of those that mean something else. *)
Lemma start_byte_ne d c : start_byte c = true → start_byte d = false → d ≠ c.
Proof. congruence. Qed.

Lemma strip_other p d c s : d ≠ c → strip (String d p) (String c s) = None.
Proof. intros H. unfold strip. cbn [has_prefix]. by rewrite bool_decide_eq_false_2. Qed.

Lemma start_not_space c : start_byte c = true → is_space c = false.
Proof. intros H. apply bool_decide_eq_false. rewrite !elem_of_cons, elem_of_nil. intros Hs. by repeat destruct Hs as [->|Hs]. Qed.

Lemma put_attr_longer q a k : String.length k < String.length (put_attr q a k).
Proof.
  unfold put_attr. rewrite put_name_app. cbn [String.length]. rewrite string_length_app. cbn [String.length].
  rewrite string_length_app. cbn [String.length]. lia.
Qed.

(** What may follow the attributes: the two ends of a start tag. *)
Inductive tag_end : string → bool → string → Prop :=
  | tag_open k : tag_end (String ">" k) false k
  | tag_empty k : tag_end (String " " (String "/" (String ">" k))) true k.

Section tags.
Context (name_rune : bool → string → bool) (late_declaration : option string).
Context (q : ascii) (Hq : q ∈ quote_marks).

Lemma attrs_put attrs k empty rest n :
  tag_end k empty rest → forallb attr_ok attrs = true → String.length (foldr (put_attr q) k attrs) ≤ n →
  attrs_go name_rune n (foldr (put_attr q) k attrs) = Got (attrs, empty) rest.
Proof.
  intros Hk. revert n. induction attrs as [|a attrs IH]; intros n Ha Hn.
  { cbn [foldr]. destruct Hk, n; done. }
  cbn [forallb foldr] in *. apply andb_true_iff in Ha as [Ha Hattrs].
  set (k' := foldr (put_attr q) k attrs) in *. pose proof (put_attr_longer q a k') as Hlen.
  destruct n as [|n]; [lia|]. unfold put_attr.
  destruct (andb_prop _ _ Ha) as [Hname _].
  pose proof (attribute_put name_rune q Hq a k' Ha) as Hput.
  destruct (put_name_start (xa_Name a) (String "=" (String q (xmlEscape (xa_Value a) +:+ String q k'))) Hname)
    as (c & t & Heq & Hc).
  rewrite Heq in Hput |- *. cbn [attrs_go span].
  change (is_space " ") with true. cbv iota. cbn [span].
  rewrite start_not_space by done. cbn [snd]. rewrite bool_decide_eq_false_2 by done.
  rewrite !strip_other by (by apply start_byte_ne). unfold mbind, parser_bind. rewrite Hput.
  by rewrite IH by (done || lia).
Qed.

Lemma tag_end_attrs k empty rest attrs :
  tag_end k empty rest → ∃ c t, foldr (put_attr q) k attrs = String c t ∧ name_part c = false.
Proof. destruct attrs; [|by eexists _, _]. destruct 1; by eexists _, _. Qed.

Lemma rawToken_open n attrs k empty rest :
  tag_end k empty rest → name_ok n = true → forallb attr_ok attrs = true →
  rawToken name_rune (put_open q n attrs k) = Got (RawStart n attrs empty) rest.
Proof.
  intros Hk Hn Ha. unfold put_open. destruct (tag_end_attrs k empty rest attrs Hk) as (c & t & Heq & Hc).
  destruct (put_name_start n (foldr (put_attr q) k attrs) Hn) as (d & u & Hd & Hs).
  assert (Htag : start_tag name_rune (put_name n (foldr (put_attr q) k attrs)) = Got (RawStart n attrs empty) rest).
  { unfold start_tag, mbind, parser_bind. rewrite Heq at 1. rewrite nsname_put by done. rewrite <-Heq.
    by rewrite (attrs_put attrs k empty rest) by (done || (rewrite (put_name_app n (foldr _ _ _)), string_length_app; lia)). }
  rewrite Hd in *. unfold rawToken.
  assert (Hother : ∀ x, start_byte x = false → strip (String "<" (String x "")) (String "<" (String d u)) = None).
  { intros x Hx. unfold strip. cbn [has_prefix]. rewrite (bool_decide_eq_false_2 (x = d)) by congruence.
    by rewrite andb_false_r. }
  by rewrite !Hother.
Qed.

Lemma rawToken_close n k : name_ok n = true → rawToken name_rune (put_close n k) = Got (RawEnd n) k.
Proof.
  intros Hn. unfold put_close, rawToken.
  change (strip "</" _) with (Some (put_name n (String ">" k))). cbv iota.
  unfold end_tag, mbind, parser_bind. by rewrite nsname_put.
Qed.

Lemma rawToken_text v n k :
  v ≠ "" → xml_text v = true → rawToken name_rune (xmlEscape v +:+ put_close n k) = Got (RawText v) (put_close n k).
Proof.
  intros Hne Hv. pose proof (text_escape name_rune q Hq Plain (put_close n k) (put_close n k) v) as Ht.
  assert (Hfree : free_of "<" (xmlEscape v) = true) by (apply escape_go_free; [set_solver|by left]).
  assert (He : xmlEscape v ≠ "") by (intros He; pose proof (xmlEscape_reads_back v Hv) as H; by rewrite He in H).
  destruct (xmlEscape v) as [|c s]; [done|]. rewrite string_app_cons in *. cbn [free_of] in Hfree.
  apply andb_true_iff in Hfree as [Hc _]. apply negb_true_iff, bool_decide_eq_false in Hc.
  unfold rawToken. rewrite !strip_other by done. unfold mbind, parser_bind. rewrite Ht; [done|by left| |done].
  intros b0 b1. unfold put_close. cbn [text_go in_quotes in_cdata negb]. rewrite !andb_false_r. by rewrite bool_decide_eq_true_2.
Qed.

(** ** Lemmas: documents *)

(** The decoder with the fuel it needs. *)
Definition reading (ns : gmap string string) (stack : list frame) (seen : bool) (s : string) : decoded :=
  decode_go name_rune late_declaration (String.length s) ns stack seen s.

Lemma reads_step ns stack seen s t rest :
  s ≠ "" → rawToken name_rune s = Got t rest →
  reading ns stack seen s =
  match t with
  | RawText d => emit [CharData d] (reading ns stack (seen || negb (blank d)) rest)
  | RawStart m attrs empty =>
      let ns' := bind_attrs ns attrs in
      if empty then emit [start_token ns' m attrs; EndElement] (reading ns stack true rest)
      else emit [start_token ns' m attrs] (reading ns' ((m, ns) :: stack) true rest)
  | RawEnd m =>
      match popElement m stack with
      | inl msg => ([], Some (Syntax msg, rest))
      | inr (ns', stack') => emit [EndElement] (reading ns' stack' true rest)
      end
  | _ => reading ns stack seen s
  end.
Proof.
  intros Hne Ht. pose proof (rawToken_leaves name_rune s Hne) as Hl. rewrite Ht in Hl. cbn [leaves] in Hl.
  destruct s as [|c s]; [done|]. assert (Hf : ∀ ns stack seen,
    decode_go name_rune late_declaration (String.length s) ns stack seen rest = reading ns stack seen rest).
  { intros. apply decode_fuel; cbn in *; lia. }
  destruct t as [d|m attrs []|m| |]; try done; unfold reading at 1; cbn [String.length decode_go]; rewrite Ht; cbv zeta; try by rewrite Hf.
  destruct (popElement m stack) as [|[]]; [done|]. by rewrite Hf.
Qed.

Lemma emit_emit a b d : emit a (emit b d) = emit (a ++ b) d.
Proof. unfold emit. cbn. by rewrite app_assoc. Qed.

Lemma reads_open ns stack seen n attrs k empty rest :
  tag_end k empty rest → name_ok n = true → forallb attr_ok attrs = true →
  reading ns stack seen (put_open q n attrs k)
  = if empty then emit [start_token (bind_attrs ns attrs) n attrs; EndElement] (reading ns stack true rest)
    else emit [start_token (bind_attrs ns attrs) n attrs] (reading (bind_attrs ns attrs) ((n, ns) :: stack) true rest).
Proof. intros Hk Hn Ha. apply (reads_step _ _ _ _ (RawStart n attrs empty)); [done|]. by apply rawToken_open. Qed.

Lemma reads_close ns ns' stack seen n k :
  name_ok n = true → reading ns' ((n, ns) :: stack) seen (put_close n k) = emit [EndElement] (reading ns stack true k).
Proof.
  intros Hn. rewrite (reads_step _ _ _ (put_close n k) (RawEnd n) k); [|done|by apply rawToken_close]. cbn [popElement fst snd].
  by rewrite !bool_decide_eq_true_2 by done.
Qed.

(** The decoder reads a printed document back, and goes on after it. *)
Lemma reads_doc d ns stack seen k :
  doc_ok d = true → reading ns stack seen (put_doc q d k) = emit (doc_tokens ns d) (reading ns stack true k).
Proof.
  revert ns stack seen k. induction d as [n attrs children IH|n attrs v|n attrs] using xml_doc_induction;
    intros ns stack seen k Hd; cbn [doc_ok put_doc doc_tokens] in *; bool_props.
  - erewrite reads_open by (done || constructor). cbv iota zeta.
    enough (∀ seen, reading (bind_attrs ns attrs) ((n, ns) :: stack) seen (foldr (put_doc q) (put_close n k) children)
      = emit (concat (map (doc_tokens (bind_attrs ns attrs)) children)) (emit [EndElement] (reading ns stack true k)))
      as -> by (by rewrite !emit_emit).
    generalize (bind_attrs ns attrs). intros ns'. induction IH as [|c children Hc _ IHc]; intros seen'.
    { cbn [foldr map concat]. rewrite reads_close by done. by rewrite emit_emit. }
    cbn [foldr map concat forallb] in *. bool_props. rewrite Hc, IHc by done. by rewrite emit_emit.
  - erewrite reads_open by (done || constructor). cbv iota zeta. case_bool_decide as Hv.
    { subst. change (xmlEscape "" +:+ put_close n k) with (put_close n k). rewrite reads_close by done.
      by rewrite emit_emit. }
    rewrite (reads_step _ _ _ (xmlEscape v +:+ put_close n k) (RawText v) (put_close n k));
      [|by destruct (xmlEscape v)|by apply rawToken_text].
    cbn [orb]. rewrite reads_close by done. by rewrite !emit_emit.
  - by erewrite reads_open by (done || constructor).
Qed.
End tags.

(** ** Theorems *)

(** A printed document, read by the decoder, is its tokens. *)
Theorem Decode_doc name_rune late q d :
  q ∈ quote_marks → doc_ok d = true → Decode name_rune late (put_doc q d "") = mkStream (doc_tokens ∅ d) None.
Proof.
  intros Hq Hd. unfold Decode. fold (reading name_rune late ∅ [] false (put_doc q d "")). rewrite (reads_doc name_rune late q Hq d ∅ [] false "" Hd). cbn. by rewrite app_nil_r.
Qed.
