(* ===== verification/Outbound.v ===== *)
(** * Outgoing requests (src/runtime/outbound.go, session_timestamps.go,
    session_parse_evidence.go)

    [SendOutbound] with the handlers that call it, and the tables of the session
    engine. What the process cannot decide by itself is a parameter: the answers
    of the peer, which may depend on everything sent before, the addresses that
    [net/http] refuses, the file system and the key files. *)

From S2P Require Import Prelude GoStrings Json Config Pack Render Envelope State Control Messages.

Record outboundRequest := mkOutboundRequest {
  or_MessageType : string;
  or_HostID : string;
  or_SessionID : string;
  or_TargetURL : string;
  or_AllowGenericAck : bool;
}.

Record outboundResult := mkOutboundResult {
  ob_OK : bool;
  ob_HTTPStatus : Z;
  ob_ResponseRoot : string;
  ob_Error : string;
}.

Definition dec_outboundRequest : decoder outboundRequest := dec_struct (λ kvs old,
  v0 ← dec_key "message_type" dec kvs old.(or_MessageType);
  v1 ← dec_key "host_id" dec kvs old.(or_HostID);
  v2 ← dec_key "session_id" dec kvs old.(or_SessionID);
  v3 ← dec_key "target_url" dec kvs old.(or_TargetURL);
  v4 ← dec_key "allow_generic_ack" dec kvs old.(or_AllowGenericAck);
  Some (mkOutboundRequest v0 v1 v2 v3 v4)).

Definition dec_outboundRequest_lenient (r : Request) : outboundRequest :=
  let kvs := body_entries r in
  mkOutboundRequest (dec_key_lenient "message_type" dec kvs "") (dec_key_lenient "host_id" dec kvs "")
    (dec_key_lenient "session_id" dec kvs "") (dec_key_lenient "target_url" dec kvs "")
    (dec_key_lenient "allow_generic_ack" dec kvs false).

(** What the process relies on from the outside. *)
Record environment := mkEnvironment {
  env_peer : list call → call → result (Z * xml_bytes);
  env_bad_url : string → option string;
  env_read_file : string → result string;
  env_load_keypair : string → string → result unit;
}.

Definition outboundTransport (env : environment) (security : SecurityConfig) (trustMode : string)
    (cfg : OutboundConfig) : result (option tlsTransport) :=
  if bool_decide (trustMode = "plaintext_lab") then Ok None
  else if bool_decide (trustMode = "accept_all_lab") then Ok (Some (mkTLS VersionTLS12 true None None ""))
  else if bool_decide (trustMode ∈ ["tls_server_only"; "strict_mtls"; "mtls_no_revocation"]) then
    certificate ←
      (if cfg.(out_UseRuntimeCerts) && negb (bool_decide (security.(sec_CertFile) = ""))
          && negb (bool_decide (security.(sec_KeyFile) = ""))
       then _ ← env.(env_load_keypair) security.(sec_CertFile) security.(sec_KeyFile);
            Ok (Some (security.(sec_CertFile), security.(sec_KeyFile)))
       else Ok None);
    roots ←
      (if bool_decide (security.(sec_CAFile) = "") then Ok None
       else pem ← env.(env_read_file) security.(sec_CAFile); Ok (Some pem));
    Ok (Some (mkTLS VersionTLS12 false certificate roots cfg.(out_ServerName)))
  else Err ("unsupported outbound trust mode " +:+ quote trustMode).

(** [strictAckOK || genericAckOK] *)
Definition ack_accepted (messageType parsedRoot : string) (allowGeneric : bool) : bool :=
  let ackExpected := expectedAckRoot messageType in
  bool_decide (ackExpected = "") || EqualFold parsedRoot ackExpected
  || (allowGeneric && EqualFold parsedRoot "g2sResponse").

Definition outbound_result (req : outboundRequest) (status : Z) (parsedRoot : string) : outboundResult :=
  let ok := (200 <=? status)%Z && (status <? 300)%Z
            && ack_accepted req.(or_MessageType) parsedRoot req.(or_AllowGenericAck) in
  mkOutboundResult ok status parsedRoot
    (if ok then "" else "unexpected http_status=" +:+ itoa status +:+ " response_root=" +:+ parsedRoot).

Section outbound.
Context (clock : nat → Z) (range : gmap string string → list (string * string)).
Context (env : environment).

Let Log := Log clock.
Let WritePayload := WritePayload clock.

(** [client.Do]: one call of the client. What the library does inside it, such as
    following the peer's redirections, is part of the peer's behaviour, and the
    answer is the last one. *)
Definition Do (c : call) : M (result (Z * xml_bytes)) := λ w,
  (env.(env_peer) w.(sv_sent) c, set_sv_sent (w.(sv_sent) ++ [c]) w).

(** The body of the message: one of the process's own renderers, else the first
    variant of the operation. *)
Definition outbound_body (pk : MessagePack) (state : gmap string string) (req : outboundRequest)
    (sessionID : string) : M (result string) :=
  body ← renderConfiguredOutboundBody clock req.(or_MessageType) sessionID;
  if negb (bool_decide (body = "")) then mret (Ok body)
  else match pk.(mp_Operations) !! req.(or_MessageType) ≫= (λ o, head o.(op_Responses)) with
  | None =>
      mret (Err ("operation " +:+ quote req.(or_MessageType) +:+ " is not defined for outbound use"))
  | Some variant =>
      cfg ← gets sv_cfg;
      let hostID := firstNonEmpty [req.(or_HostID); cfg.(cfg_HostID); cfg.(cfg_InstanceID)] in
      mret (Ok (RenderTemplate_in variant.(rv_Template) pk.(mp_Wire).(wire_Namespaces)
        (range (request_fields hostID sessionID cfg.(cfg_EGMID))) (range state)))
  end.

(** From the call to the result. *)
Definition outbound_exchange (req : outboundRequest) (c : call) : M (result outboundResult) :=
  reply ← Do c;
  match reply with
  | Err e =>
      Log "warn" "outbound" "outbound request failed"
        {[ "message_type" := JStr req.(or_MessageType); "target_url" := JStr c.(cl_URL); "error" := JStr e ]};;
      mret (Err e)
  | Ok (status, respBody) =>
      cfg ← gets sv_cfg;
      let parsedRoot := rootLocalNameFromResponse respBody in
      when cfg.(cfg_Logging).(lo_CaptureRawXML)
        (WritePayload "outbound_response" req.(or_MessageType) respBody.(xb_raw));;
      let res := outbound_result req status parsedRoot in
      Log "info" "outbound" "outbound request complete"
        {[ "message_type" := JStr req.(or_MessageType); "target_url" := JStr c.(cl_URL);
           "http_status" := enc_int status; "response_root" := JStr parsedRoot;
           "ok" := JBool res.(ob_OK); "allow_generic_ack" := JBool req.(or_AllowGenericAck);
           "xml_mode" := JStr cfg.(cfg_G2SXML).(gx_Mode) ]};;
      mret (Ok res)
  end.

(** The first address given: the request's, the configured default, the host's. *)
Definition target_url (req : outboundRequest) (cfg : Config) : string :=
  firstNonEmpty [req.(or_TargetURL); cfg.(cfg_Outbound).(out_DefaultTargetURL);
                 cfg.(cfg_HostEndpoint).(he_URL)].

(** The request and the client that sends it. *)
Definition outbound_call (req : outboundRequest) (targetURL body : string) (out : OutboundConfig)
    (transport : option tlsTransport) : call :=
  mkCall req.(or_MessageType) targetURL body (duration_ms (maxInt out.(out_TimeoutMS) 3000)) transport.

Definition SendOutbound (req : outboundRequest) : M (result outboundResult) :=
  pk ← gets sv_pack;
  state ← gets (λ w, templateStateLocked w.(sv_state));
  cfg ← gets sv_cfg;
  let out := cfg.(cfg_Outbound) in
  if bool_decide (req.(or_MessageType) = "") then mret (Err "message_type is required")
  else if bool_decide (target_url req cfg = "") then mret (Err "target url is required")
  else
    let targetURL := target_url req cfg in
    t ← Now clock;
    fallback ← gets (λ w, default_session w t);
    let sessionID := firstNonEmpty [req.(or_SessionID); fallback] in
    body ← outbound_body pk state req sessionID;
    match body with
    | Err e => mret (Err e)
    | Ok body =>
        when cfg.(cfg_Logging).(lo_CaptureRenderedXML)
          (WritePayload "outbound_request" req.(or_MessageType) body);;
        match env.(env_bad_url) targetURL with
        | Some e => mret (Err e)
        | None =>
            match outboundTransport env cfg.(cfg_Security) cfg.(cfg_Security).(sec_TrustMode) out with
            | Err e => mret (Err e)
            | Ok transport => outbound_exchange req (outbound_call req targetURL body out transport)
            end
        end
    end.

(** ** Handlers *)

(** What a successful message tells about the session. *)
Definition note_success (messageType : string) : M unit :=
  when (bool_decide (messageType = "commsOnLine")) (on_state (set_rs_SessionState "online"));;
  when (bool_decide (messageType = "keepAlive")) (on_state (set_rs_HeartbeatState "healthy")).

Definition result_fields (res : outboundResult) : list (string * json) :=
  [("ok", JBool res.(ob_OK)); ("http_status", enc_int res.(ob_HTTPStatus))]
  ++ (if bool_decide (res.(ob_ResponseRoot) = "") then [] else [("response_root", JStr res.(ob_ResponseRoot))])
  ++ (if bool_decide (res.(ob_Error) = "") then [] else [("error", JStr res.(ob_Error))]).

Definition send_and_note (req : outboundRequest) : M Response :=
  res ← SendOutbound req;
  match res with
  | Err e => http_error e 400
  | Ok res =>
      when res.(ob_OK) (note_success req.(or_MessageType));;
      mret (mkResponse 200 (BJson (result_fields res)))
  end.

Definition handleControlOutboundSend (r : Request) : M Response :=
  require_method "POST" r (
  match r.(rq_Json) ≫= (λ j, dec_outboundRequest j (mkOutboundRequest "" "" "" "" false)) with
  | None => http_error r.(rq_JsonError) 400
  | Some req => send_and_note req
  end).

Definition handleOutboundSendLike (r : Request) (msgType : string) : M Response :=
  require_method "POST" r (
  let req := dec_outboundRequest_lenient r in
  send_and_note (mkOutboundRequest msgType req.(or_HostID) req.(or_SessionID) req.(or_TargetURL)
    (if bool_decide (msgType = "keepAlive") then true else req.(or_AllowGenericAck)))).

Definition handleControlOutboundSessionOpen (r : Request) : M Response := handleOutboundSendLike r "commsOnLine".
Definition handleControlOutboundHeartbeat (r : Request) : M Response := handleOutboundSendLike r "keepAlive".

(** ** The tables of the session engine *)

Definition zero_timestamps : sessionTimestampSet := mkTimestamps None None None.

Definition timestampsForInstance (w : Server) (instanceID : string) : sessionTimestampSet :=
  default zero_timestamps (w.(sv_timestamps) !! instanceID).

Definition recordSessionTimestamp (kind : string) (at_ : Z) : M unit :=
  id ← gets (λ w, w.(sv_cfg).(cfg_InstanceID));
  if bool_decide (id = "") then mret ()
  else
    set ← gets (λ w, timestampsForInstance w id);
    let set' :=
      if bool_decide (kind = "commsOnLine") then mkTimestamps (Some at_) set.(ts_LastKeepAliveAt) (Some at_)
      else if bool_decide (kind = "keepAlive") then mkTimestamps set.(ts_LastCommsOnlineAt) (Some at_) (Some at_)
      else if bool_decide (kind = "ack") then mkTimestamps set.(ts_LastCommsOnlineAt) set.(ts_LastKeepAliveAt) (Some at_)
      else set in
    modify (λ w, set_sv_timestamps (<[id := set']> w.(sv_timestamps)) w).

Definition parseEvidenceForInstance (w : Server) (instanceID : string) : sessionParseEvidenceSet :=
  default (mkEvidence "" "" "" "" "" "" "" "" "") (w.(sv_evidence) !! instanceID).

Definition recordParsedResponseEvidence (expectedAck : string) (parsed : ParsedG2SEnvelope) : M unit :=
  cfg ← gets sv_cfg;
  if bool_decide (cfg.(cfg_InstanceID) = "") then mret ()
  else
    let set := mkEvidence cfg.(cfg_G2SXML).(gx_Mode) cfg.(cfg_G2SXML).(gx_Namespace)
      cfg.(cfg_G2SXML).(gx_EGMLocation) parsed.(pe_RootKind) parsed.(pe_ClassName)
      parsed.(pe_OperationName) parsed.(pe_RawRoot) expectedAck
      (firstNonEmpty [parsed.(pe_OperationName); parsed.(pe_RawRoot)]) in
    modify (λ w, set_sv_evidence (<[cfg.(cfg_InstanceID) := set]> w.(sv_evidence)) w).

(** The fields that [RuntimeState.MarshalJSON] adds to a state. *)
Record state_extras := mkExtras {
  sx_LastCommsOnlineAt : option Z;
  sx_LastKeepAliveAt : option Z;
  sx_LastAckAt : option Z;
  sx_G2SXMLMode : string;
  sx_G2SXMLNamespace : string;
  sx_G2SXMLEGMLocation : string;
  sx_evidence : sessionParseEvidenceSet;
}.

Definition MarshalJSON (w : Server) (r : RuntimeState) : state_extras :=
  let set := timestampsForInstance w r.(rs_InstanceID) in
  let keepAlive :=
    if bool_decide (set.(ts_LastKeepAliveAt) = None) && bool_decide (r.(rs_LastCommandType) = "keepAlive")
    then r.(rs_LastCommandAt) else set.(ts_LastKeepAliveAt) in
  let ack :=
    if bool_decide (set.(ts_LastAckAt) = None) && negb (bool_decide (r.(rs_LastAckStatus) = ""))
    then r.(rs_LastCommandAt) else set.(ts_LastAckAt) in
  let evidence := parseEvidenceForInstance w r.(rs_InstanceID) in
  let xml := xmlModeInfoForInstance r.(rs_InstanceID) w.(sv_xmlModes) in
  mkExtras set.(ts_LastCommsOnlineAt) keepAlive ack
    (firstNonEmpty [evidence.(pv_G2SXMLMode); xml.(gx_Mode)])
    (firstNonEmpty [evidence.(pv_G2SXMLNamespace); xml.(gx_Namespace)])
    (firstNonEmpty [evidence.(pv_G2SXMLEGMLocation); xml.(gx_EGMLocation)]) evidence.
End outbound.

(** ** Specifications *)

(** Nothing but the log, the payload files, the clock and the requests made
    moves, and these only grow. *)
Record talks (w w' : Server) : Prop := {
  talks_state : w'.(sv_state) = w.(sv_state);
  talks_cfg : w'.(sv_cfg) = w.(sv_cfg);
  talks_pack : w'.(sv_pack) = w.(sv_pack);
  talks_cancel : w'.(sv_schedulerCancel) = w.(sv_schedulerCancel);
  talks_arrays : w'.(sv_arrays) = w.(sv_arrays);
  talks_timestamps : w'.(sv_timestamps) = w.(sv_timestamps);
  talks_evidence : w'.(sv_evidence) = w.(sv_evidence);
  talks_xmlModes : w'.(sv_xmlModes) = w.(sv_xmlModes);
  talks_events : w.(sv_events) `prefix_of` w'.(sv_events);
  talks_payloads : w.(sv_payloads) `prefix_of` w'.(sv_payloads);
  talks_clock : w.(sv_clock) ≤ w'.(sv_clock);
  talks_sent : w.(sv_sent) `prefix_of` w'.(sv_sent);
}.

#[export] Instance talks_preorder : PreOrder talks.
Proof.
  split.
  - intros w. by split.
  - intros w1 w2 w3 H1 H2. destruct H1, H2. split; try congruence; try lia; by etrans.
Qed.

Lemma quiet_talks w w' : quiet w w' → w'.(sv_state) = w.(sv_state) → talks w w'.
Proof. intros [] Hs. split; try done; by eapply reflexive_eq. Qed.

(** Only the log, the payload files and the clock move. *)
Definition still (w w' : Server) : Prop := quiet w w' ∧ w'.(sv_state) = w.(sv_state).

#[export] Instance still_preorder : PreOrder still.
Proof. split; [by intros w|]. intros w1 w2 w3 [H1 S1] [H2 S2]. split; [by etrans|congruence]. Qed.

Lemma still_talks w w' : still w w' → talks w w'.
Proof. intros [? ?]. by apply quiet_talks. Qed.

Lemma Now_still w : still w (set_sv_clock (S w.(sv_clock)) w).
Proof. split; [|done]. split; try done. apply Nat.le_succ_diag_r. Qed.

Lemma Log_talks clock level cat msg fields w : talks w (Log clock level cat msg fields w).2.
Proof. by apply quiet_talks; [apply Log_quiet|]. Qed.

(** An optional payload file. *)
Lemma capture_still clock (b : bool) dir op data w :
  still w (if b then (WritePayload clock dir op data w).2 else w).
Proof. destruct b; [|done]. split; [apply WritePayload_quiet|done]. Qed.

(** The messages that the process renders by itself. *)
Definition own_messages : list string := ["commsOnLine"; "getDescriptor"; "setKeepAlive"; "keepAlive"].

(** A body that a process with the configuration and the pack of [w] renders for
    the operation in the session [sid]. *)
Definition spoken (clock : nat → Z) (w : Server) (op sid body : string) : Prop :=
  ∃ w0, w0.(sv_cfg) = w.(sv_cfg) ∧ w0.(sv_pack) = w.(sv_pack) ∧
    body = (renderConfiguredOutboundBody clock op sid w0).1.

(** The body of a message in the session [sid]: what the process renders for its
    own messages, and the first variant of the operation for the others. *)
Definition message_body (clock : nat → Z) (range : gmap string string → list (string * string))
    (w : Server) (req : outboundRequest) (sid body : string) : Prop :=
  if decide (req.(or_MessageType) ∈ own_messages) then spoken clock w req.(or_MessageType) sid body
  else ∃ v, variant_for w req.(or_MessageType) = Some v ∧
    body = RenderTemplate_in v.(rv_Template) w.(sv_pack).(mp_Wire).(wire_Namespaces)
      (range (request_fields (firstNonEmpty [req.(or_HostID); w.(sv_cfg).(cfg_HostID); w.(sv_cfg).(cfg_InstanceID)])
        sid w.(sv_cfg).(cfg_EGMID)))
      (range (templateStateLocked w.(sv_state))).

(** The call that carries a message: to the first address given, with the body in
    the session that the request names or else a new one, over TLS as the trust
    mode asks for, limited to the configured time or three seconds, at 64 bits. *)
Record carries (clock : nat → Z) (range : gmap string string → list (string * string)) (env : environment)
    (w : Server) (req : outboundRequest) (c : call) : Prop := {
  carries_operation : c.(cl_Operation) = req.(or_MessageType);
  carries_url : c.(cl_URL) = target_url req w.(sv_cfg);
  carries_body : ∃ t, message_body clock range w req (firstNonEmpty [req.(or_SessionID); default_session w t]) c.(cl_Body);
  carries_transport : outboundTransport env w.(sv_cfg).(cfg_Security) w.(sv_cfg).(cfg_Security).(sec_TrustMode)
    w.(sv_cfg).(cfg_Outbound) = Ok c.(cl_Transport);
  carries_limit : c.(cl_Timeout)
    = int64_wrap ((if (0 <? w.(sv_cfg).(cfg_Outbound).(out_TimeoutMS))%Z
                   then w.(sv_cfg).(cfg_Outbound).(out_TimeoutMS) else 3000) * 1000000);
}.

(** What a message needs before it can be sent. *)
Record sendable (env : environment) (req : outboundRequest) (w : Server) : Prop := {
  send_type : req.(or_MessageType) ≠ "";
  send_target : target_url req w.(sv_cfg) ≠ "";
  send_body : req.(or_MessageType) ∈ own_messages ∨ is_Some (variant_for w req.(or_MessageType));
  send_url : env.(env_bad_url) (target_url req w.(sv_cfg)) = None;
  send_tls : is_ok (outboundTransport env w.(sv_cfg).(cfg_Security) w.(sv_cfg).(cfg_Security).(sec_TrustMode)
               w.(sv_cfg).(cfg_Outbound)) = true;
}.

(** When the answer to a message counts as a success. *)
Definition answered (req : outboundRequest) (status : Z) (root : string) : Prop :=
  (200 ≤ status < 300)%Z ∧
  (expectedAckRoot req.(or_MessageType) = "" ∨
   EqualFold root (expectedAckRoot req.(or_MessageType)) = true ∨
   req.(or_AllowGenericAck) = true ∧ EqualFold root "g2sResponse" = true).

Lemma outbound_result_ok req status root :
  (outbound_result req status root).(ob_OK) = true ↔ answered req status root.
Proof.
  unfold outbound_result, answered, ack_accepted. cbn [ob_OK].
  rewrite !andb_true_iff, !orb_true_iff, andb_true_iff, bool_decide_eq_true, Z.leb_le, Z.ltb_lt. tauto.
Qed.

(** ** Lemmas: bodies *)

Section outbound_lemmas.
Context (clock : nat → Z) (range : gmap string string → list (string * string)) (env : environment).

Lemma message_ne op attrs fields w : (render_message clock op attrs fields w).1 ≠ "".
Proof. unfold render_message. step. destruct (shouldRenderXSDG2SMessage _); [|step]; done. Qed.

Lemma render_message_still op attrs fields w : still w (render_message clock op attrs fields w).2.
Proof.
  unfold render_message. step. destruct (shouldRenderXSDG2SMessage _); [|by step].
  unfold renderXSDCommunicationsMessage. do 2 step. apply Now_still.
Qed.

(** One of the process's own messages has a body; for another type there is none. *)
Lemma configured_body op sid w :
  let r := renderConfiguredOutboundBody clock op sid w in
  still w r.2 ∧ (r.1 = "" ↔ op ∉ own_messages).
Proof.
  unfold renderConfiguredOutboundBody, own_messages. cbv zeta.
  repeat case_bool_decide; subst;
    try (unfold renderCommsOnline, renderGetDescriptor, renderSetKeepAlive, renderKeepAlive; step;
         split; [apply render_message_still|split; [by intros ?%message_ne|set_solver]]).
  split; [done|]. split; [set_solver|done].
Qed.

(** The body of a message, when it has one. *)
Lemma outbound_body_spec req sid w :
  let r := outbound_body clock range w.(sv_pack) (templateStateLocked w.(sv_state)) req sid w in
  still w r.2 ∧
  (∀ body, r.1 = Ok body → message_body clock range w req sid body) ∧
  (is_ok r.1 = true ↔ req.(or_MessageType) ∈ own_messages ∨ is_Some (variant_for w req.(or_MessageType))).
Proof.
  unfold outbound_body, message_body, variant_for. cbv zeta. step.
  destruct (configured_body (or_MessageType req) sid w) as [Ht Hb].
  assert (Hw : spoken clock w (or_MessageType req) sid (renderConfiguredOutboundBody clock (or_MessageType req) sid w).1)
    by (by exists w).
  destruct (renderConfiguredOutboundBody _ _ _ _) as [body w1]. cbn [fst snd] in *.
  destruct (decide (or_MessageType req ∈ own_messages)) as [Ho|Ho].
  - rewrite bool_decide_eq_false_2 by (by intros ?%Hb). cbn [negb]. split; [done|]. split; [by intros ? [= <-]|].
    by split; [left|].
  - rewrite bool_decide_eq_true_2 by (by apply Hb). cbn [negb].
    destruct (mp_Operations (sv_pack w) !! or_MessageType req ≫= _) as [v|]; [step|]; (split; [done|]); cbn.
    + split; [|by split; [right|]]. intros b [= <-]. exists v. split; [done|].
      by rewrite (quiet_cfg _ _ (proj1 Ht)).
    + split; [done|]. split; [done|]. by intros [H|[? [=]]].
Qed.

(** One request goes out; the result is decided by the peer's answer. *)
Lemma outbound_exchange_spec req c w :
  let r := outbound_exchange clock env req c w in
  talks w r.2 ∧ r.2.(sv_sent) = w.(sv_sent) ++ [c] ∧
  match env.(env_peer) w.(sv_sent) c with
  | Err e => r.1 = Err e
  | Ok (status, body) => r.1 = Ok (outbound_result req status (rootLocalNameFromResponse body))
  end.
Proof.
  unfold outbound_exchange. cbv zeta. step. cbn [Do fst snd].
  set (w1 := set_sv_sent _ w). assert (Ht : talks w w1) by (split; try done; by apply prefix_app_r).
  destruct (env_peer env (sv_sent w) c) as [[status body]|e].
  - step. step. rewrite when_eq. cbn [fst snd].
    pose proof (capture_still clock (lo_CaptureRawXML (cfg_Logging (sv_cfg w1))) "outbound_response"
      (or_MessageType req) (xb_raw body) w1) as Ht2.
    set (w2 := if lo_CaptureRawXML _ then _ else w1) in *. clearbody w2. step.
    split_and!; [|exact (quiet_sent _ _ (proj1 Ht2))|done].
    etrans; [exact Ht|]. etrans; [exact (still_talks _ _ Ht2)|]. apply Log_talks.
  - step. split_and!; [|done..]. etrans; [exact Ht|]. apply Log_talks.
Qed.
End outbound_lemmas.

Section properties.
Context (clock : nat → Z) (range : gmap string string → list (string * string)) (env : environment).

(** A message is sent or not, and then exactly one request leaves. *)
Lemma SendOutbound_spec req w :
  let '(res, w') := SendOutbound clock range env req w in
  talks w w' ∧
  (¬ sendable env req w ∧ is_ok res = false ∧ w'.(sv_sent) = w.(sv_sent) ∨
   sendable env req w ∧ ∃ c, w'.(sv_sent) = w.(sv_sent) ++ [c] ∧
     carries clock range env w req c ∧
     match env.(env_peer) w.(sv_sent) c with
     | Err e => res = Err e
     | Ok (status, body) => res = Ok (outbound_result req status (rootLocalNameFromResponse body))
     end).
Proof.
  unfold SendOutbound. step. step. step.
  case_bool_decide as Hty; [split; [done|left; split_and!; try done; by intros []]|].
  case_bool_decide as Hta; [split; [done|left; split_and!; try done; by intros []]|].
  rewrite M_bind_eq. cbn [Now fst snd]. step. set (w1 := set_sv_clock _ w). set (sid := firstNonEmpty _).
  assert (Ht1 : still w w1) by apply Now_still.
  destruct (outbound_body_spec clock range req sid w1) as (Ht2 & Hbody & Hb).
  assert (Hmsg : ∀ b, message_body clock range w1 req sid b → message_body clock range w req sid b) by done.
  change (sv_pack w1) with (sv_pack w) in *. change (sv_state w1) with (sv_state w) in *.
  change (variant_for w1) with (variant_for w) in Hb. rewrite M_bind_eq.
  destruct (outbound_body _ _ _ _ _ _ w1) as [[body|e] w2] eqn:He; cbn [fst snd is_ok] in *.
  2:{ assert (Ht : still w w2) by (by etrans). split; [by apply still_talks|]. left.
      split_and!; [|done|exact (quiet_sent _ _ (proj1 Ht))]. intros [_ _ Hs _ _]. by apply Hb in Hs. }
  rewrite M_bind_eq, when_eq. cbn [fst snd].
  pose proof (capture_still clock (lo_CaptureRenderedXML (cfg_Logging (sv_cfg w))) "outbound_request"
    (or_MessageType req) body w2) as Ht3.
  set (w3 := if lo_CaptureRenderedXML _ then _ else w2) in *. clearbody w3.
  assert (Ht : still w w3) by (by do 2 (etrans; [eassumption|])).
  pose proof (quiet_sent _ _ (proj1 Ht)) as Hs.
  destruct (env_bad_url env (target_url req (sv_cfg w))) as [e|] eqn:Hu.
  { split; [by apply still_talks|]. left. split_and!; try done. intros [_ _ _ ? _]. congruence. }
  destruct (outboundTransport _ _ _ _) as [transport|e] eqn:Htr.
  2:{ split; [by apply still_talks|]. left. split_and!; try done. intros [_ _ _ _ Hk].
      by rewrite Htr in Hk. }
  match goal with |- context [outbound_exchange _ _ _ ?c _] => set (call := c) end.
  destruct (outbound_exchange_spec clock env req call w3) as (Hx & Hsent & Hr).
  destruct (outbound_exchange _ _ _ _ w3) as [res w4]. cbn [fst snd] in *.
  split; [etrans; [by apply still_talks|done]|]. right. split.
  { split; try done; [by apply Hb|by rewrite Htr]. }
  exists call. rewrite Hs in *. split_and!; [done| |done].
  split; [done|done| |by rewrite Htr|reflexivity].
  exists (clock (sv_clock w)). by apply Hmsg, Hbody.
Qed.

Lemma limit_positive ms limit :
  limit = int64_wrap ((if (0 <? ms)%Z then ms else 3000) * 1000000) → (ms <= 9223372036854)%Z → (0 < limit)%Z.
Proof.
  intros -> Hms. destruct (0 <? ms)%Z eqn:H0; [apply Z.ltb_lt in H0|reflexivity]. rewrite int64_wrap_id; [lia|].
  unfold in_int64, int64_min, int64_max. apply andb_true_iff. rewrite !Z.leb_le. lia.
Qed.

Lemma SendOutbound_talks req w : talks w (SendOutbound clock range env req w).2.
Proof. pose proof (SendOutbound_spec req w) as H. destruct (SendOutbound _ _ _ _ _). apply H. Qed.


(** Accepted time limits beyond 64 bits in nanoseconds are none. *)
Lemma timeout_wraps : duration_ms (maxInt 9223372036855 3000) = (-9223372036854551616)%Z.
Proof. reflexivity. Qed.

(** The identifier of the host in a request has no effect on the messages the
    process renders by itself. *)
Lemma own_message_ignores_host req host sid w :
  req.(or_MessageType) ∈ own_messages →
  let req' := mkOutboundRequest req.(or_MessageType) host req.(or_SessionID) req.(or_TargetURL)
                req.(or_AllowGenericAck) in
  outbound_body clock range w.(sv_pack) (templateStateLocked w.(sv_state)) req' sid w
  = outbound_body clock range w.(sv_pack) (templateStateLocked w.(sv_state)) req sid w.
Proof.
  intros Ho. unfold outbound_body. cbv zeta. cbn [or_MessageType]. rewrite !M_bind_eq.
  pose proof (proj2 (configured_body clock (or_MessageType req) sid w)) as Hb.
  destruct (renderConfiguredOutboundBody _ _ _ _) as [body w1]. cbn [fst snd] in *.
  rewrite bool_decide_eq_false_2; [done|]. intros Hn. by apply Hb in Hn.
Qed.

(** The requests that the handlers of the control plane make: they change the
    state at most by what a success tells. *)
Lemma send_and_note_state req w :
  let w' := (send_and_note clock range env req w).2 in
  ∃ w1, talks w w1 ∧ (w' = w1 ∨ w' = (note_success req.(or_MessageType) w1).2).
Proof.
  cbv zeta. unfold send_and_note. rewrite M_bind_eq. exists (SendOutbound clock range env req w).2.
  pose proof (SendOutbound_talks req w) as Ht.
  split; [done|]. destruct (SendOutbound _ _ _ _ _) as [[res|e] w1]; cbn [fst snd]; [|by left].
  rewrite M_bind_eq, when_eq. cbn [fst snd]. destruct (ob_OK res); [by right|by left].
Qed.
End properties.

(** ** Witnesses *)

Definition example_environment (root : string) : environment := {|
  env_peer := λ _ c, Ok (200%Z, mkBytes "..." (mkStream (legacy_tokens SOAP11Namespace "urn:g2s:lab" root []) None));
  env_bad_url := λ _, None;
  env_read_file := λ _, Ok "pem";
  env_load_keypair := λ _ _, Ok () |}.

Example SendOutbound_example :
  let '(res, w') := SendOutbound Z.of_nat map_to_list (example_environment "keepAliveAck")
    (mkOutboundRequest "keepAlive" "" "S-1" "" false) example_server in
  (ob_OK <$> res) = Ok true ∧ length w'.(sv_sent) = 1.
Proof. vm_compute. split; reflexivity. Qed.
