(* ===== verification/Scheduler.v ===== *)
(** * The outbound scheduler (src/runtime/scheduler.go)

    Starting and stopping, the decision that opens a tick, and the bookkeeping
    after it. A tick is not atomic: it decides under the read lock, sends without
    a lock, and records the result under the lock; the three are definitions of
    their own and [runOutboundSchedulerTick] composes them. The goroutines and
    their interleaving are the subject of [Process]. *)

From S2P Require Import Prelude GoStrings Json Config Pack Envelope State Control Messages Outbound.

(** [t.Sub(u)], which saturates. *)
Definition time_sub (t u : Z) : Z := Z.max int64_min (Z.min int64_max (t - u)).

Definition positive_or (v d : Z) : Z := if (v <=? 0)%Z then d else v.

Definition schedulerConfig (cfg : OutboundSchedulerConfig) : OutboundSchedulerConfig := {|
  sch_Enabled := cfg.(sch_Enabled);
  sch_AutoStart := cfg.(sch_AutoStart);
  sch_OpenSessionOnStart := if cfg.(sch_RunHeartbeatWhenIdle) then cfg.(sch_OpenSessionOnStart) else true;
  sch_HeartbeatIntervalMS := positive_or cfg.(sch_HeartbeatIntervalMS) 5000;
  sch_OpenRetryIntervalMS := positive_or cfg.(sch_OpenRetryIntervalMS) 2000;
  sch_FailureThreshold := positive_or cfg.(sch_FailureThreshold) 2;
  sch_RunHeartbeatWhenIdle := cfg.(sch_RunHeartbeatWhenIdle);
|}.

Definition on_scheduler (f : OutboundSchedulerState → OutboundSchedulerState) (s : RuntimeState)
    : RuntimeState :=
  set_rs_OutboundScheduler (f s.(rs_OutboundScheduler)) s.

(** The interval of the ticker; [time.NewTicker] panics unless it is positive. *)
Definition ticker_interval (cfg : OutboundSchedulerConfig) : Z :=
  duration_ms (schedulerConfig cfg).(sch_HeartbeatIntervalMS).

(** [runOutboundSchedulerTick] up to the message it sends, if any. *)
Definition tick_decision (cfg : OutboundSchedulerConfig) (s : RuntimeState) (now : Z) : option string :=
  let online := bool_decide (s.(rs_SessionState) = "online") in
  if negb online && negb cfg.(sch_OpenSessionOnStart) && negb cfg.(sch_RunHeartbeatWhenIdle) then None
  else if negb online &&
    match s.(rs_OutboundScheduler).(os_LastAttemptAt) with
    | Some last => (time_sub now last <? duration_ms cfg.(sch_OpenRetryIntervalMS))%Z
    | None => false
    end then None
  else if negb online && cfg.(sch_RunHeartbeatWhenIdle) then Some "keepAlive"
  else if online then Some "keepAlive" else Some "commsOnLine".

(** The counters are 64-bit integers. *)
Definition count_attempt (operation : string) (st : OutboundSchedulerState) : OutboundSchedulerState :=
  if bool_decide (operation = "commsOnLine") then set_os_OpenAttempts (int64_wrap (st.(os_OpenAttempts) + 1)) st
  else if bool_decide (operation = "keepAlive")
  then set_os_HeartbeatAttempts (int64_wrap (st.(os_HeartbeatAttempts) + 1)) st
  else st.

Definition attempt (operation : string) (now : Z) (st : OutboundSchedulerState) : OutboundSchedulerState :=
  count_attempt operation (set_os_LastOperation operation
    (set_os_LastAttemptAt (Some now) (set_os_LastTickAt (Some now) st))).

Definition tick_succeeded (operation : string) (now : Z) (s : RuntimeState) : RuntimeState :=
  let s := on_scheduler (λ st, set_os_LastError "" (set_os_ConsecutiveFailures 0
             (set_os_LastSuccessAt (Some now) st))) s in
  if bool_decide (operation = "commsOnLine")
  then set_rs_HeartbeatState "healthy" (set_rs_SessionState "online" s)
  else if bool_decide (operation = "keepAlive") then set_rs_HeartbeatState "healthy" s
  else s.

(** The text of a failure. *)
Definition tick_error (res : result outboundResult) : string :=
  match res with
  | Err e => e
  | Ok r => if bool_decide (r.(ob_Error) = "")
            then "http_status=" +:+ itoa r.(ob_HTTPStatus) +:+ " response_root=" +:+ r.(ob_ResponseRoot)
            else r.(ob_Error)
  end.

Definition tick_failed (error : string) (s : RuntimeState) : RuntimeState :=
  on_scheduler (λ st, set_os_LastError error
    (set_os_ConsecutiveFailures (int64_wrap (st.(os_ConsecutiveFailures) + 1)) st)) s.

Definition threshold_reached (cfg : OutboundSchedulerConfig) (s : RuntimeState) : bool :=
  (cfg.(sch_FailureThreshold) <=? s.(rs_OutboundScheduler).(os_ConsecutiveFailures))%Z.

Definition degrade (operation : string) (s : RuntimeState) : RuntimeState :=
  set_rs_HeartbeatState "degraded"
    (if bool_decide (operation = "commsOnLine") then set_rs_SessionState "idle" s else s).

Section scheduler.
Context (clock : nat → Z) (range : gmap string string → list (string * string)) (env : environment).

Let Log := Log clock.

(** [Ok true]: the goroutine is started; [Ok false]: one is running already. *)
Definition StartOutboundScheduler : M (result bool) :=
  cfg ← gets (λ w, w.(sv_cfg).(cfg_Outbound));
  running ← gets sv_schedulerCancel;
  if negb cfg.(out_Scheduler).(sch_Enabled) then mret (Err "outbound scheduler is not enabled in config")
  else if bool_decide (cfg.(out_DefaultTargetURL) = "")
  then mret (Err "outbound.default_target_url is required for scheduler")
  else if (running : bool) then mret (Ok false)
  else
    modify (set_sv_schedulerCancel true);;
    on_state (on_scheduler (λ st, set_os_LastError "" (set_os_TargetURL cfg.(out_DefaultTargetURL)
      (set_os_Running true st))));;
    Log "info" "scheduler" "outbound scheduler started"
      {[ "target_url" := JStr cfg.(out_DefaultTargetURL) ]};;
    mret (Ok true).

(** The result tells whether a goroutine is cancelled. *)
Definition StopOutboundScheduler : M bool :=
  running ← gets sv_schedulerCancel;
  if (running : bool) then
    modify (set_sv_schedulerCancel false);;
    on_state (on_scheduler (set_os_Running false));;
    Log "info" "scheduler" "outbound scheduler stopped" ∅;;
    mret true
  else mret false.

Definition tick_begin (cfg : OutboundSchedulerConfig) : M (option string) :=
  s ← get_state;
  if negb s.(rs_OutboundScheduler).(os_Running) then mret None
  else now ← Now clock; mret (tick_decision cfg s now).

Definition updateSchedulerAfterResult (operation : string) (res : result outboundResult)
    (cfg : OutboundSchedulerConfig) : M unit :=
  now ← Now clock;
  on_state (on_scheduler (attempt operation now));;
  if match res with Ok r => r.(ob_OK) | Err _ => false end then
    on_state (tick_succeeded operation now)
  else
    on_state (tick_failed (tick_error res));;
    s ← get_state;
    let st := s.(rs_OutboundScheduler) in
    let fields : gmap string json := {[ "operation" := JStr operation; "error" := JStr st.(os_LastError);
      "consecutive_failures" := enc_int st.(os_ConsecutiveFailures);
      "failure_threshold" := enc_int cfg.(sch_FailureThreshold); "target_url" := JStr st.(os_TargetURL) ]} in
    if threshold_reached cfg s then
      on_state (degrade operation);;
      Log "warn" "scheduler" "outbound scheduler failure threshold reached" fields
    else Log "warn" "scheduler" "outbound scheduler tick failed" fields.

Definition tick_request (operation : string) : outboundRequest := mkOutboundRequest operation "" "" "" false.

Definition runOutboundSchedulerTick (cfg : OutboundSchedulerConfig) : M unit :=
  operation ← tick_begin cfg;
  match operation with
  | None => mret ()
  | Some operation =>
      res ← SendOutbound clock range env (tick_request operation);
      updateSchedulerAfterResult operation res cfg
  end.

(** A goroutine that is cancelled after [n] turns of its ticker. *)
Fixpoint ticks (cfg : OutboundSchedulerConfig) (n : nat) : M unit :=
  match n with
  | 0 => mret ()
  | S n' => runOutboundSchedulerTick cfg;; ticks cfg n'
  end.

(** [runOutboundScheduler]: a tick at once, then one per turn; [None] when
    [time.NewTicker] panics, which ends the process. *)
Definition runOutboundScheduler (turns : nat) : M (option unit) :=
  cfg ← gets (λ w, w.(sv_cfg).(cfg_Outbound).(out_Scheduler));
  if (0 <? ticker_interval cfg)%Z
  then ticks (schedulerConfig cfg) (S turns);; mret (Some ())
  else mret None.

Definition handleControlOutboundSchedulerStart (r : Request) : M Response :=
  require_method "POST" r (
  res ← StartOutboundScheduler;
  match res with
  | Err e => http_error e 400
  | Ok _ => s ← get_state; mret (mkResponse 200 (BScheduler s.(rs_OutboundScheduler)))
  end).

Definition handleControlOutboundSchedulerStop (r : Request) : M Response :=
  require_method "POST" r (
  _ ← StopOutboundScheduler;
  s ← get_state; mret (mkResponse 200 (BScheduler s.(rs_OutboundScheduler)))).
End scheduler.

(** ** Specifications *)

(** A setting in milliseconds, as a duration at 64 bits; one that is not positive
    stands for its default. *)
Definition setting (v default : Z) : Z := if (0 <? v)%Z then v else default.
Definition interval_of (ms default : Z) : Z := int64_wrap (setting ms default * 1000000).

(** The last attempt was less than the retry interval, or two seconds, ago. *)
Definition recently_attempted (cfg : OutboundSchedulerConfig) (s : RuntimeState) (now : Z) : Prop :=
  ∃ last, s.(rs_OutboundScheduler).(os_LastAttemptAt) = Some last ∧
    (time_sub now last < interval_of cfg.(sch_OpenRetryIntervalMS) 2000)%Z.

(** What a running scheduler owes the host: a session that is online is kept
    alive; one that is not is left alone during the retry interval, and then
    kept alive, where heartbeats run without a session, or opened. *)
Inductive owes (cfg : OutboundSchedulerConfig) (s : RuntimeState) (now : Z) : option string → Prop :=
  | owes_heartbeat : s.(rs_SessionState) = "online" → owes cfg s now (Some "keepAlive")
  | owes_patience :
      s.(rs_SessionState) ≠ "online" → recently_attempted cfg s now → owes cfg s now None
  | owes_idle_heartbeat :
      s.(rs_SessionState) ≠ "online" → ¬ recently_attempted cfg s now →
      cfg.(sch_RunHeartbeatWhenIdle) = true → owes cfg s now (Some "keepAlive")
  | owes_opening :
      s.(rs_SessionState) ≠ "online" → ¬ recently_attempted cfg s now →
      cfg.(sch_RunHeartbeatWhenIdle) = false → owes cfg s now (Some "commsOnLine").

(** The state [s'] after the result of [operation], a success or the error, is
    recorded in the state [s] of a scheduler with the failure threshold. *)
Record recorded (threshold : Z) (operation : string) (ok : bool) (error : string) (s s' : RuntimeState) : Prop := {
  rec_failures : s'.(rs_OutboundScheduler).(os_ConsecutiveFailures)
    = if ok then 0%Z else int64_wrap (s.(rs_OutboundScheduler).(os_ConsecutiveFailures) + 1);
  rec_session : s'.(rs_SessionState)
    = if bool_decide (operation = "commsOnLine")
      then if ok then "online"
           else if (threshold <=? s'.(rs_OutboundScheduler).(os_ConsecutiveFailures))%Z
           then "idle" else s.(rs_SessionState)
      else s.(rs_SessionState);
  rec_heartbeat : s'.(rs_HeartbeatState)
    = if ok then if bool_decide (operation ∈ ["commsOnLine"; "keepAlive"]) then "healthy"
                 else s.(rs_HeartbeatState)
      else if (threshold <=? s'.(rs_OutboundScheduler).(os_ConsecutiveFailures))%Z
      then "degraded" else s.(rs_HeartbeatState);
  rec_attempts :
    s'.(rs_OutboundScheduler).(os_OpenAttempts)
    = (if bool_decide (operation = "commsOnLine")
       then int64_wrap (s.(rs_OutboundScheduler).(os_OpenAttempts) + 1)
       else s.(rs_OutboundScheduler).(os_OpenAttempts)) ∧
    s'.(rs_OutboundScheduler).(os_HeartbeatAttempts)
    = (if bool_decide (operation = "keepAlive")
       then int64_wrap (s.(rs_OutboundScheduler).(os_HeartbeatAttempts) + 1)
       else s.(rs_OutboundScheduler).(os_HeartbeatAttempts));
  rec_times : is_Some s'.(rs_OutboundScheduler).(os_LastTickAt) ∧
    s'.(rs_OutboundScheduler).(os_LastTickAt) = s'.(rs_OutboundScheduler).(os_LastAttemptAt) ∧
    s'.(rs_OutboundScheduler).(os_LastSuccessAt)
    = (if ok then s'.(rs_OutboundScheduler).(os_LastTickAt) else s.(rs_OutboundScheduler).(os_LastSuccessAt));
  rec_operation : s'.(rs_OutboundScheduler).(os_LastOperation) = operation;
  rec_error : s'.(rs_OutboundScheduler).(os_LastError) = if ok then "" else error;
  rec_rest : s'.(rs_OutboundScheduler).(os_Running) = s.(rs_OutboundScheduler).(os_Running) ∧
    s'.(rs_OutboundScheduler).(os_TargetURL) = s.(rs_OutboundScheduler).(os_TargetURL) ∧
    s' = set_rs_OutboundScheduler s'.(rs_OutboundScheduler)
           (set_rs_HeartbeatState s'.(rs_HeartbeatState) (set_rs_SessionState s'.(rs_SessionState) s));
}.

Definition succeeded (res : result outboundResult) : bool :=
  match res with Ok r => r.(ob_OK) | Err _ => false end.

(** ** Lemmas *)

Lemma setting_positive_or v d : positive_or v d = setting v d.
Proof. unfold positive_or, setting. destruct (v <=? 0)%Z eqn:H1, (0 <? v)%Z eqn:H2; bool_props; lia. Qed.

Lemma positive_or_pos v d : (0 < d)%Z → (0 < positive_or v d)%Z.
Proof. unfold positive_or. destruct (v <=? 0)%Z eqn:H; [done|]. apply Z.leb_gt in H. lia. Qed.

Lemma schedulerConfig_opens c :
  (schedulerConfig c).(sch_OpenSessionOnStart) || (schedulerConfig c).(sch_RunHeartbeatWhenIdle) = true.
Proof. cbn. destruct (sch_RunHeartbeatWhenIdle c); [by rewrite orb_true_r|done]. Qed.

(** The four tests on the operation of a tick, case by case. *)
Lemma operation_cases op (P : bool → bool → bool → Prop) :
  (op = "commsOnLine" → P true false true) →
  (op = "keepAlive" → P false true true) →
  (op ≠ "commsOnLine" → op ≠ "keepAlive" → P false false false) →
  P (bool_decide (op = "commsOnLine")) (bool_decide (op = "keepAlive"))
    (bool_decide (op ∈ ["commsOnLine"; "keepAlive"])).
Proof.
  intros H1 H2 H3. destruct (decide (op = "commsOnLine")) as [->|Hn1]; [by apply H1|].
  destruct (decide (op = "keepAlive")) as [->|Hn2]; [by apply H2|].
  rewrite !bool_decide_eq_false_2 by (done || set_solver). by apply H3.
Qed.

Ltac cases_operation op :=
  pattern (bool_decide (op = "commsOnLine")), (bool_decide (op = "keepAlive")),
    (bool_decide (op ∈ ["commsOnLine"; "keepAlive"]));
  apply (operation_cases op); intros; cbv beta.

Lemma recorded_success threshold op error now s :
  recorded threshold op true error s (tick_succeeded op now (on_scheduler (attempt op now) s)).
Proof.
  unfold tick_succeeded, attempt, count_attempt.
  split; cases_operation op; cbn; split_and?; done.
Qed.

Lemma recorded_failure cfg op error now s :
  let s1 := tick_failed error (on_scheduler (attempt op now) s) in
  recorded cfg.(sch_FailureThreshold) op false error s (if threshold_reached cfg s1 then degrade op s1 else s1).
Proof.
  unfold tick_failed, attempt, count_attempt, threshold_reached, degrade. cbv zeta.
  split; revert error now; cases_operation op; intros; cbn; destruct (_ <=? _)%Z eqn:Ht; cbn;
    rewrite ?Ht; split_and?; done.
Qed.

Section scheduler_lemmas.
Context (clock : nat → Z) (range : gmap string string → list (string * string)) (env : environment).

(** What recording a result leaves alone: everything but the state, the log and
    the clock. *)
Lemma update_spec operation res cfg w :
  let w' := (updateSchedulerAfterResult clock operation res cfg w).2 in
  quiet w w' ∧ recorded cfg.(sch_FailureThreshold) operation (succeeded res) (tick_error res) w.(sv_state) w'.(sv_state).
Proof.
  unfold updateSchedulerAfterResult. cbv zeta. rewrite M_bind_eq. cbn [Now fst snd]. step.
  set (now := clock _). set (w1 := set_sv_state _ _).
  assert (Hq : quiet w w1) by (split; try done; apply Nat.le_succ_diag_r).
  change (match res with Ok r => ob_OK r | Err _ => false end) with (succeeded res).
  destruct (succeeded res).
  - split; [etrans; [exact Hq|apply quiet_on_state]|]. apply recorded_success.
  - step. step. set (w2 := set_sv_state _ w1).
    pose proof (recorded_failure cfg operation (tick_error res) now (sv_state w)) as Hr. cbv zeta in Hr.
    change (tick_failed (tick_error res) (on_scheduler (attempt operation now) (sv_state w)))
      with (sv_state w2) in Hr.
    assert (Hq2 : quiet w w2) by (etrans; [exact Hq|apply quiet_on_state]).
    destruct (threshold_reached cfg (sv_state w2)).
    + step. split; [|exact Hr]. etrans; [exact Hq2|]. etrans; [apply quiet_on_state|apply Log_quiet].
    + split; [|exact Hr]. etrans; [exact Hq2|apply Log_quiet].
Qed.

(** A tick of a running scheduler. *)
Lemma tick_running cfg w :
  w.(sv_state).(rs_OutboundScheduler).(os_Running) = true →
  ∃ w1, still w w1 ∧
    runOutboundSchedulerTick clock range env cfg w
    = match tick_decision cfg w.(sv_state) (clock w.(sv_clock)) with
      | None => ((), w1)
      | Some op =>
          updateSchedulerAfterResult clock op (SendOutbound clock range env (tick_request op) w1).1 cfg
            (SendOutbound clock range env (tick_request op) w1).2
      end.
Proof.
  intros Hr. exists (set_sv_clock (S w.(sv_clock)) w). split; [apply Now_still|].
  unfold runOutboundSchedulerTick, tick_begin. rewrite M_bind_eq. rewrite M_bind_eq. cbn [get_state gets fst snd].
  rewrite Hr. cbn [negb]. rewrite M_bind_eq. cbn [Now fst snd mret M_ret].
  destruct (tick_decision _ _ _); [by rewrite M_bind_eq|done].
Qed.
End scheduler_lemmas.

(** A configuration whose heartbeat interval overflows. *)
Definition greedy_config : Config :=
  set_cfg_Outbound (mkOutbound "" "" "" 0 false
    (mkSchedulerConfig true true true 9223372036855 0 0 false)) example_config.

Section properties.
Context (clock : nat → Z) (range : gmap string string → list (string * string)) (env : environment).

Let tick := runOutboundSchedulerTick clock range env.

Lemma tick_stopped cfg w :
  w.(sv_state).(rs_OutboundScheduler).(os_Running) = false → tick cfg w = ((), w).
Proof.
  intros Hr. unfold tick, runOutboundSchedulerTick, tick_begin. rewrite M_bind_eq. rewrite M_bind_eq.
  cbn [get_state gets fst snd]. by rewrite Hr.
Qed.

(** What a tick that sends a message does. *)
Lemma tick_sends cfg w op :
  w.(sv_state).(rs_OutboundScheduler).(os_Running) = true →
  tick_decision cfg w.(sv_state) (clock w.(sv_clock)) = Some op →
  let w' := (tick cfg w).2 in
  ∃ res w1, still w w1 ∧ res = (SendOutbound clock range env (tick_request op) w1).1 ∧
    recorded cfg.(sch_FailureThreshold) op (succeeded res) (tick_error res) w.(sv_state) w'.(sv_state) ∧
    w'.(sv_cfg) = w.(sv_cfg) ∧ w'.(sv_pack) = w.(sv_pack) ∧ w'.(sv_arrays) = w.(sv_arrays) ∧
    w'.(sv_schedulerCancel) = w.(sv_schedulerCancel) ∧
    w'.(sv_sent) = (SendOutbound clock range env (tick_request op) w1).2.(sv_sent).
Proof.
  intros Hr Hd. cbv zeta. destruct (tick_running clock range env cfg w Hr) as (w1 & Hw1 & He).
  rewrite Hd in He. unfold tick. rewrite He. clear He.
  pose proof (SendOutbound_talks clock range env (tick_request op) w1) as Ht.
  destruct (SendOutbound clock range env (tick_request op) w1) as [res w2] eqn:Hsend. cbn [fst snd] in *.
  destruct (update_spec clock op res cfg w2) as [Hq Hrec].
  pose proof (still_talks _ _ Hw1) as Ht1. assert (Ht2 : talks w w2) by (by etrans).
  exists res, w1. rewrite Hsend. cbn [fst snd]. rewrite (talks_state _ _ Ht2) in Hrec. split; [exact Hw1|]. split; [done|]. split; [exact Hrec|].
  destruct Hq, Ht2. split_and!; congruence.
Qed.

(** What a tick sends: a session that is online is kept alive; one that is
    not is opened, or kept alive where heartbeats are to run without a session,
    but only after the retry interval. The setting that a session should be
    opened at the start has no effect. *)
Theorem tick_decision_correct c s now :
  let decide := tick_decision (schedulerConfig c) s now in
  (s.(rs_SessionState) = "online" → decide = Some "keepAlive") ∧
  (s.(rs_SessionState) ≠ "online" → recently_attempted c s now → decide = None) ∧
  (s.(rs_SessionState) ≠ "online" → ¬ recently_attempted c s now →
   decide = Some (if c.(sch_RunHeartbeatWhenIdle) then "keepAlive" else "commsOnLine")) ∧
  (∀ b, tick_decision (schedulerConfig (mkSchedulerConfig c.(sch_Enabled) c.(sch_AutoStart) b
      c.(sch_HeartbeatIntervalMS) c.(sch_OpenRetryIntervalMS) c.(sch_FailureThreshold)
      c.(sch_RunHeartbeatWhenIdle))) s now = decide).
Proof.
  unfold tick_decision, recently_attempted, interval_of. rewrite <-setting_positive_or.
  cbn [sch_OpenSessionOnStart sch_RunHeartbeatWhenIdle sch_OpenRetryIntervalMS schedulerConfig].
  change (int64_wrap (positive_or (sch_OpenRetryIntervalMS c) 2000 * 1000000))
    with (duration_ms (positive_or (sch_OpenRetryIntervalMS c) 2000)).
  set (d := duration_ms _). split_and!.
  - intros ->. by rewrite bool_decide_eq_true_2.
  - intros Hs (last & -> & Hl). rewrite bool_decide_eq_false_2 by done. cbn [negb andb].
    apply Z.ltb_lt in Hl. rewrite Hl. by destruct (_ && _).
  - intros Hs Hr. rewrite bool_decide_eq_false_2 by done. cbn [negb andb].
    destruct (os_LastAttemptAt _) as [last|]; [destruct (_ <? _)%Z eqn:Hl|].
    + exfalso. apply Hr. exists last. by apply Z.ltb_lt in Hl.
    + by destruct (sch_RunHeartbeatWhenIdle c), (sch_OpenSessionOnStart c).
    + by destruct (sch_RunHeartbeatWhenIdle c), (sch_OpenSessionOnStart c).
  - intros b. by destruct (sch_RunHeartbeatWhenIdle c), b, (sch_OpenSessionOnStart c), (bool_decide _).
Qed.

Lemma owes_decision c s now : owes c s now (tick_decision (schedulerConfig c) s now).
Proof.
  destruct (tick_decision_correct c s now) as (H1 & H2 & H3 & _).
  destruct (decide (s.(rs_SessionState) = "online")) as [Ho|Ho]; [rewrite H1 by done; by apply owes_heartbeat|].
  assert (Hd : recently_attempted c s now ∨ ¬ recently_attempted c s now).
  { unfold recently_attempted. destruct (os_LastAttemptAt _) as [last|]; [|right; by intros (? & [=] & _)].
    destruct (Z.lt_decidable (time_sub now last) (interval_of c.(sch_OpenRetryIntervalMS) 2000)); [left; eauto|].
    right. by intros (? & [= <-] & ?). }
  destruct Hd as [Hr|Hr]; [rewrite H2 by done; by apply owes_patience|].
  rewrite H3 by done. destruct (sch_RunHeartbeatWhenIdle c) eqn:Hi; by constructor.
Qed.

(** What is sent after the time has passed could have been sent before. *)
Lemma carries_still req w w1 c : still w w1 → carries clock range env w1 req c → carries clock range env w req c.
Proof.
  intros [Hq Hs] [H1 H2 [t H3] H4 H5]. rewrite (quiet_cfg _ _ Hq) in *.
  split; try done. exists t. unfold default_session, message_body, spoken, variant_for in *.
  by rewrite (quiet_cfg _ _ Hq), (quiet_pack _ _ Hq), Hs in H3.
Qed.

Lemma sendable_still req w w1 : still w w1 → sendable env req w1 ↔ sendable env req w.
Proof.
  intros [Hq _]. pose proof (quiet_cfg _ _ Hq) as Hc. pose proof (quiet_pack _ _ Hq) as Hp.
  split; intros [H1 H2 H3 H4 H5]; unfold variant_for in *; split; unfold variant_for; congruence.
Qed.

(** The text that a tick records for a result that is no success. *)
Definition unexpected (status : Z) (root : string) : string :=
  "unexpected http_status=" +:+ itoa status +:+ " response_root=" +:+ root.

(** C18. A tick of a stopped scheduler does nothing; one of a running scheduler
    sends what it owes the host: a heartbeat while the session is online, else
    nothing during the retry interval, and then, as the settings say, a heartbeat
    or the message that opens the session. When it owes nothing the state stays.
    What it owes is sent at most once: not at all when it cannot be sent, else
    by one call that carries it; and what is recorded is a success exactly when
    the peer's answer counts as one, and else the error, with the session and
    the heartbeat following. *)
Theorem runOutboundSchedulerTick_correct c w :
  let w' := (tick (schedulerConfig c) w).2 in
  let s := w.(sv_state) in
  (s.(rs_OutboundScheduler).(os_Running) = false → w' = w) ∧
  (s.(rs_OutboundScheduler).(os_Running) = true → ∃ owed, owes c s (clock w.(sv_clock)) owed ∧
   match owed with
   | None => still w w'
   | Some op =>
       w'.(sv_cfg) = w.(sv_cfg) ∧ w'.(sv_pack) = w.(sv_pack) ∧ w'.(sv_arrays) = w.(sv_arrays) ∧
       w'.(sv_schedulerCancel) = w.(sv_schedulerCancel) ∧
       ∃ ok error, recorded (setting c.(sch_FailureThreshold) 2) op ok error s w'.(sv_state) ∧
         (¬ sendable env (tick_request op) w ∧ ok = false ∧ w'.(sv_sent) = w.(sv_sent) ∨
          sendable env (tick_request op) w ∧ ∃ call, w'.(sv_sent) = w.(sv_sent) ++ [call] ∧
            carries clock range env w (tick_request op) call ∧
            match env.(env_peer) w.(sv_sent) call with
            | Err e => ok = false ∧ error = e
            | Ok (status, body) =>
                let root := rootLocalNameFromResponse body in
                (ok = true ↔ answered (tick_request op) status root) ∧
                (ok = false → error = unexpected status root)
            end)
   end).
Proof.
  cbv zeta. split.
  { intros Hr. by rewrite tick_stopped. }
  intros Hr. eexists. split; [apply owes_decision|]. destruct (tick_decision _ _ _) as [op|] eqn:Hd.
  2: { destruct (tick_running clock range env (schedulerConfig c) w Hr) as (w1 & Hw1 & He). unfold tick.
       by rewrite He, Hd. }
  destruct (tick_sends (schedulerConfig c) w op Hr Hd) as (res & w1 & Hst & Hres & Hrec & H1 & H2 & H3 & H4 & Hsent).
  split_and!; try done. exists (succeeded res), (tick_error res). split.
  { unfold setting. cbn [schedulerConfig sch_FailureThreshold] in Hrec. by rewrite setting_positive_or in Hrec. }
  clear Hrec. pose proof (SendOutbound_spec clock range env (tick_request op) w1) as Hspec.
  destruct (SendOutbound clock range env (tick_request op) w1) as [res' w2]. cbn [fst snd] in *. subst res'.
  rewrite Hsent. destruct Hspec as [_ [(Hno & Herr & He)|(Hyes & call & Hc & Hcar & Hp)]];
    rewrite (sendable_still _ _ _ Hst), ?(quiet_sent _ _ (proj1 Hst)) in *.
  - left. split_and!; [done|by destruct res|done].
  - right. split; [done|]. exists call. split_and!; [done|by eapply carries_still|].
    destruct (env_peer env (sv_sent w) call) as [[status body]|e]; subst res; [|done].
    split; [apply outbound_result_ok|]. cbn. by intros ->.
Qed.

(** No answer to a heartbeat counts. *)
Definition unhelpful : Prop := ∀ sent c status body,
  env.(env_peer) sent c = Ok (status, body) →
  ¬ answered (tick_request "keepAlive") status (rootLocalNameFromResponse body).

(** The scheduler is running on a session that is online, after [k] failures. *)
Record keeping (k : Z) (w : Server) : Prop := {
  keeping_running : w.(sv_state).(rs_OutboundScheduler).(os_Running) = true;
  keeping_online : w.(sv_state).(rs_SessionState) = "online";
  keeping_failures : w.(sv_state).(rs_OutboundScheduler).(os_ConsecutiveFailures) = k;
}.

Lemma failing_tick cfg k w :
  unhelpful → keeping k w → in_int64 (k + 1) = true →
  keeping (k + 1) (tick cfg w).2 ∧
  ((cfg.(sch_FailureThreshold) <= k + 1)%Z → (tick cfg w).2.(sv_state).(rs_HeartbeatState) = "degraded").
Proof.
  intros Hu [Hr Ho Hk] Hw.
  assert (Hd : tick_decision cfg (sv_state w) (clock (sv_clock w)) = Some "keepAlive").
  { unfold tick_decision. by rewrite bool_decide_eq_true_2. }
  destruct (tick_sends cfg w "keepAlive" Hr Hd) as (res & w1 & _ & Hres & Hrec & _).
  assert (Hf : succeeded res = false).
  { pose proof (SendOutbound_spec clock range env (tick_request "keepAlive") w1) as Hspec.
    destruct (SendOutbound clock range env (tick_request "keepAlive") w1) as [res' w2]. cbn [fst] in Hres. subst res'.
    destruct Hspec as [_ [(_ & Herr & _)|(_ & c & _ & _ & Hp)]]; [by destruct res|].
    destruct (env_peer env (sv_sent w1) c) as [[status body]|e] eqn:He; subst res; [|done].
    apply not_true_iff_false. cbn [succeeded]. rewrite outbound_result_ok. by eapply Hu. }
  rewrite Hf in Hrec. destruct Hrec as [Hc Hse Hhb _ _ _ _ (Hrun & _)].
  rewrite bool_decide_eq_false_2 in Hse by done.
  rewrite Hk, int64_wrap_id in Hc by done. rewrite Hc in *. split; [split; congruence|].
  intros Hle. apply Z.leb_le in Hle. by rewrite Hle in Hhb.
Qed.

(** C22. A peer that stops acknowledging heartbeats is noticed: after as many
    ticks as the failure threshold asks for, the heartbeat is degraded, for every
    number of further ticks. The session itself stays online, so that the
    scheduler never opens it again. *)
Theorem scheduler_degrades cfg n w :
  unhelpful → keeping 0 w →
  (0 < cfg.(sch_FailureThreshold) <= Z.of_nat n)%Z → in_int64 (Z.of_nat n) = true →
  let w' := (ticks clock range env cfg n w).2 in
  keeping (Z.of_nat n) w' ∧ w'.(sv_state).(rs_HeartbeatState) = "degraded".
Proof.
  intros Hu Hk [Hpos Hle] Hn. cbv zeta.
  assert (Hgen : ∀ m k w, keeping k w → (0 <= k)%Z → (cfg.(sch_FailureThreshold) <= k + Z.of_nat m)%Z →
    in_int64 (k + Z.of_nat m) = true →
    (m = 0 → w.(sv_state).(rs_HeartbeatState) = "degraded") →
    let w' := (ticks clock range env cfg m w).2 in
    keeping (k + Z.of_nat m) w' ∧ w'.(sv_state).(rs_HeartbeatState) = "degraded").
  { clear dependent w n. induction m as [|m IH]; intros k w Hk H0 Hle Hw Hlast.
    - cbn. rewrite Z.add_0_r. auto.
    - cbn [ticks]. rewrite M_bind_eq. unfold in_int64, int64_min, int64_max in *. bool_props.
      destruct (failing_tick cfg k w Hu Hk) as [Hk' Hd];
        [unfold in_int64, int64_min, int64_max; apply andb_true_iff; split; apply Z.leb_le; lia|].
      replace (k + Z.of_nat (S m))%Z with (k + 1 + Z.of_nat m)%Z in * by lia.
      apply IH; [done|lia|done|apply andb_true_iff; split; apply Z.leb_le; lia|].
      intros ->. apply Hd. lia. }
  destruct n as [|n]; [lia|]. by apply (Hgen (S n) 0%Z w).
Qed.

(** The goroutine's timer: an interval of up to 9223372036854 ms gives a
    positive duration, so that the loop runs for every number of turns; one
    millisecond more wraps around to a negative duration, and a configuration
    that passes validation can ask for it. *)
Theorem runOutboundScheduler_interval :
  (∀ turns w,
    (w.(sv_cfg).(cfg_Outbound).(out_Scheduler).(sch_HeartbeatIntervalMS) <= 9223372036854)%Z →
    (runOutboundScheduler clock range env turns w).1 = Some ()) ∧
  (∀ turns w,
    w.(sv_cfg).(cfg_Outbound).(out_Scheduler).(sch_HeartbeatIntervalMS) = 9223372036855%Z →
    (runOutboundScheduler clock range env turns w).1 = None) ∧
  ∃ reg c reg' c', ValidateConfig reg c = (reg', c', Ok ()) ∧
    c'.(cfg_Outbound).(out_Scheduler).(sch_HeartbeatIntervalMS) = 9223372036855%Z.
Proof.
  split_and!.
  - intros turns w Hle. unfold runOutboundScheduler. rewrite M_bind_eq. cbn [gets fst snd].
    assert (Hpos : (0 < ticker_interval w.(sv_cfg).(cfg_Outbound).(out_Scheduler))%Z).
    { unfold ticker_interval, duration_ms. cbn [sch_HeartbeatIntervalMS schedulerConfig].
      set (ms := sch_HeartbeatIntervalMS _) in *. unfold positive_or.
      rewrite int64_wrap_id; [destruct (ms <=? 0)%Z eqn:H; bool_props; lia|].
      unfold in_int64, int64_min, int64_max. apply andb_true_iff.
      destruct (ms <=? 0)%Z eqn:H; bool_props; split; apply Z.leb_le; lia. }
    apply Z.ltb_lt in Hpos. rewrite Hpos. by rewrite M_bind_eq.
  - intros turns w He. unfold runOutboundScheduler. rewrite M_bind_eq. cbn [gets fst snd].
    unfold ticker_interval. cbn [sch_HeartbeatIntervalMS schedulerConfig]. by rewrite He.
  - exists ∅, greedy_config. do 2 eexists. split.
    + apply ValidateConfig_ok. split; [|done].
      apply normalised_ok. split_and!; done || (vm_compute; reflexivity).
    + vm_compute. reflexivity.
Qed.
End properties.

(** ** Witnesses *)

Definition silent_environment : environment :=
  mkEnvironment (λ _ _, Err "connection refused") (λ _, None) (λ _, Ok "pem") (λ _ _, Ok ()).

Definition online_server : Server :=
  set_sv_state (set_rs_SessionState "online" (on_scheduler (set_os_Running true) example_server.(sv_state)))
    (set_sv_schedulerCancel true example_server).

Example scheduler_degrades_witness :
  let w' := (ticks Z.of_nat map_to_list silent_environment
    (schedulerConfig (mkSchedulerConfig true true false 0 0 0 false)) 2 online_server).2 in
  w'.(sv_state).(rs_HeartbeatState) = "degraded".
Proof.
  refine (proj2 (scheduler_degrades Z.of_nat map_to_list silent_environment _ 2 online_server _ _ _ _)).
  - intros sent c status body [=].
  - by split.
  - cbn. lia.
  - reflexivity.
Defined.
