(* ===== verification/Session.v ===== *)
(** * The session engine (src/runtime/session_engine.go,
    session_startup_exchange.go, session_keepalive.go)

    The engine opens a session with the host, runs the startup exchange and keeps
    the session alive; when a heartbeat fails it sleeps and opens a new session.
    Its goroutine is a machine whose phases are the points where the loops of the
    source wait, look at the context or call the next exchange. *)

From S2P Require Import Prelude GoStrings Json Config Pack Envelope State Control Messages Outbound.

(** Where the goroutine stands: before opening a session; before the startup
    exchange; before the first heartbeat; waiting for the ticker; asleep before
    it reconnects; returned. *)
Inductive phase :=
  | Connecting
  | Starting (sessionID : string)
  | FirstKeepAlive (sessionID : string)
  | Waiting (sessionID : string)
  | Sleeping
  | Stopped.

Section session.
Context (clock : nat → Z) (env : environment).

Let Log := Log clock.
Let WritePayload := WritePayload clock.

(** The requests of the engine go through a client of its own, with the default
    transport. *)
Definition session_call (cfg : Config) (operation body : string) : call :=
  mkCall operation cfg.(cfg_HostEndpoint).(he_URL) body
    (duration_ms cfg.(cfg_SessionEngine).(se_CommsOnlineTimeoutMS)) None.

(** What the four exchanges have in common: send, look at the status, parse,
    record the evidence, compare the acknowledgement. *)
Definition exchange (operation expected body : string) : M (result (Z * ParsedG2SEnvelope * string)) :=
  cfg ← gets sv_cfg;
  when cfg.(cfg_Logging).(lo_CaptureRenderedXML) (WritePayload "outbound_request" operation body);;
  match env.(env_bad_url) cfg.(cfg_HostEndpoint).(he_URL) with
  | Some e => mret (Err e)
  | None =>
      reply ← Do env (session_call cfg operation body);
      match reply with
      | Err e => mret (Err e)
      | Ok (status, buf) =>
          when cfg.(cfg_Logging).(lo_CaptureRawXML) (WritePayload "inbound_response" expected buf.(xb_raw));;
          if (status <? 200)%Z || (300 <=? status)%Z
          then mret (Err (operation +:+ " status " +:+ itoa status))
          else match ParseG2SEnvelope buf.(xb_stream) with
          | Err e => mret (Err ("parse " +:+ expected +:+ ": " +:+ e))
          | Ok parsed =>
              recordParsedResponseEvidence expected parsed;;
              let actual := resolveAck expected (firstNonEmpty [parsed.(pe_OperationName); parsed.(pe_RawRoot)])
                buf.(xb_stream) cfg.(cfg_SessionEngine).(se_AcceptWrappedG2SResponseAck) in
              if bool_decide (actual = expected) then mret (Ok (status, parsed, actual))
              else mret (Err ("expected " +:+ expected +:+ ", got " +:+ actual))
          end
      end
  end.

(** The fields that every acknowledged exchange sets. *)
Definition note_ack (cfg : Config) (operation expected sessionID : string) (status at_ : Z)
    (s : RuntimeState) : RuntimeState :=
  set_rs_LastError "" (set_rs_LastAckStatus ("http_" +:+ itoa status)
  (set_rs_LastHostID cfg.(cfg_HostID) (set_rs_LastSessionID sessionID
  (set_rs_LastCommandAt (Some at_) (set_rs_LastCommandType operation (set_rs_LastMessageType expected s)))))).

Definition log_ack (message expected sessionID : string) (status : Z) (parsed : ParsedG2SEnvelope)
    (actual : string) : M unit :=
  cfg ← gets sv_cfg;
  Log "info" "session" message {[ "host_id" := JStr cfg.(cfg_HostID); "egm_id" := JStr cfg.(cfg_EGMID);
    "session_id" := JStr sessionID; "status" := enc_int status; "message_type" := JStr expected;
    "parsed_root_kind" := JStr parsed.(pe_RootKind); "parsed_class" := JStr parsed.(pe_ClassName);
    "parsed_operation" := JStr parsed.(pe_OperationName); "raw_root" := JStr parsed.(pe_RawRoot);
    "expected_ack" := JStr expected; "actual_ack" := JStr actual ]}.

(** What follows an acknowledgement: [f] sets the fields of the connection,
    [stamp] tells whether the exchange is one of the two that are timed. *)
Definition acknowledge (operation expected message sessionID : string) (stamp : bool)
    (f : RuntimeState → RuntimeState) (x : Z * ParsedG2SEnvelope * string) : M unit :=
  let '(status, parsed, actual) := x in
  now ← Now clock;
  cfg ← gets sv_cfg;
  on_state (λ s, note_ack cfg operation expected sessionID status now (f s));;
  when stamp (recordSessionTimestamp operation now);;
  log_ack message expected sessionID status parsed actual.

Definition runCommsOnlineOnce : M (result string) :=
  cfg ← gets sv_cfg;
  if bool_decide (cfg.(cfg_HostEndpoint).(he_URL) = "") then mret (Err "host endpoint url is empty")
  else
    t ← Now clock;
    let sessionID := cfg.(cfg_InstanceID) +:+ "-" +:+ itoa t in
    body ← renderCommsOnline clock sessionID;
    res ← exchange "commsOnLine" "commsOnLineAck" body;
    match res with
    | Err e => mret (Err e)
    | Ok x =>
        acknowledge "commsOnLine" "commsOnLineAck" "commsOnLine acknowledged" sessionID true
          (λ s, set_rs_HeartbeatState "idle" (set_rs_ConnectionState "host_connected"
                  (set_rs_SessionState "online" s))) x;;
        mret (Ok sessionID)
    end.

Definition runGetDescriptorOnce (sessionID : string) : M (result unit) :=
  body ← renderGetDescriptor clock sessionID;
  res ← exchange "getDescriptor" "descriptorList" body;
  match res with
  | Err e => mret (Err e)
  | Ok x =>
      acknowledge "getDescriptor" "descriptorList" "descriptorList received" sessionID false (λ s, s) x;;
      mret (Ok ())
  end.

Definition runSetKeepAliveOnce (sessionID : string) : M (result unit) :=
  body ← renderSetKeepAlive clock sessionID;
  res ← exchange "setKeepAlive" "setKeepAliveAck" body;
  match res with
  | Err e => mret (Err e)
  | Ok x =>
      acknowledge "setKeepAlive" "setKeepAliveAck" "setKeepAlive acknowledged" sessionID false (λ s, s) x;;
      mret (Ok ())
  end.

Definition runStartupExchange (sessionID : string) : M (result unit) :=
  res ← runGetDescriptorOnce sessionID;
  match res with
  | Err e => mret (Err e)
  | Ok _ => runSetKeepAliveOnce sessionID
  end.

Definition runKeepAliveOnce (sessionID : string) : M (result unit) :=
  body ← renderKeepAlive clock sessionID;
  res ← exchange "keepAlive" "keepAliveAck" body;
  match res with
  | Err e => mret (Err e)
  | Ok x =>
      acknowledge "keepAlive" "keepAliveAck" "keepAlive acknowledged" sessionID true
        (λ s, set_rs_ConnectionState "host_connected" (set_rs_HeartbeatState "healthy" s)) x;;
      mret (Ok ())
  end.

(** ** Failures *)

Definition session_failure (session connection error : string) (s : RuntimeState) : RuntimeState :=
  set_rs_LastError error (set_rs_HeartbeatState "failed" (set_rs_ConnectionState connection
  (set_rs_SessionState session s))).

Definition recordKeepAliveFailure (sessionID error : string) : M unit :=
  on_state (λ s, set_rs_LastError error (set_rs_ConnectionState "host_unreachable"
    (set_rs_HeartbeatState "failed" s)));;
  cfg ← gets sv_cfg;
  Log "warn" "session" "keepAlive failed" {[ "error" := JStr error;
    "host_endpoint" := JStr cfg.(cfg_HostEndpoint).(he_URL); "session_id" := JStr sessionID;
    "message_type" := JStr "keepAlive" ]}.

Definition record_comms_failure (error : string) : M unit :=
  on_state (session_failure "connect_failed" "host_unreachable" error);;
  cfg ← gets sv_cfg;
  Log "warn" "session" "commsOnLine failed; auto-start single-shot will not retry" {[ "error" := JStr error;
    "host_endpoint" := JStr cfg.(cfg_HostEndpoint).(he_URL); "message_type" := JStr "commsOnLine";
    "auto_start_single_shot" := JBool true ]}.

Definition record_startup_failure (sessionID error : string) : M unit :=
  on_state (session_failure "startup_failed" "host_connected" error);;
  cfg ← gets sv_cfg;
  Log "warn" "session" "startup exchange failed; auto-start single-shot will not retry" {[ "error" := JStr error;
    "host_endpoint" := JStr cfg.(cfg_HostEndpoint).(he_URL); "session_id" := JStr sessionID;
    "auto_start_single_shot" := JBool true ]}.

(** ** The loops *)

(** One heartbeat of [runKeepAliveLoop]. *)
Definition heartbeat (sessionID : string) : M phase :=
  res ← runKeepAliveOnce sessionID;
  match res with
  | Ok _ => mret (Waiting sessionID)
  | Err e => recordKeepAliveFailure sessionID e;; mret Sleeping
  end.

(** One turn of [sessionEngineLoop] and the loop and sleep inside it; [done]
    tells whether the context is seen to be cancelled where the code looks. *)
Definition engine_step (done : bool) (p : phase) : M phase :=
  match p with
  | Connecting =>
      if done then mret Stopped
      else
        res ← runCommsOnlineOnce;
        match res with
        | Ok sessionID => mret (Starting sessionID)
        | Err e => record_comms_failure e;; mret Stopped
        end
  | Starting sessionID =>
      res ← runStartupExchange sessionID;
      match res with
      | Ok _ => mret (FirstKeepAlive sessionID)
      | Err e => record_startup_failure sessionID e;; mret Stopped
      end
  | FirstKeepAlive sessionID => heartbeat sessionID
  | Waiting sessionID => if done then mret Stopped else heartbeat sessionID
  | Sleeping => mret (if done then Stopped else Connecting)
  | Stopped => mret Stopped
  end.

Fixpoint engine_run (dones : list bool) (p : phase) : M phase :=
  match dones with
  | [] => mret p
  | d :: dones' => p' ← engine_step d p; engine_run dones' p'
  end.

(** [StartSessionEngine]: the phase in which the goroutine starts, if it does. *)
Definition StartSessionEngine : M (option phase) :=
  cfg ← gets sv_cfg;
  let se := cfg.(cfg_SessionEngine) in
  mret (if se.(se_Enabled) && se.(se_AutoStart) then Some Connecting else None).

(** The pause between two heartbeats and before a new session, in nanoseconds. *)
Definition default_duration (d : Z) : Z := if (d <=? 0)%Z then 5000000000 else d.

(** [sleepOrDone]: whether the pause [d] passes, when the context is cancelled the
    given time after its start; when both happen at once, [first] decides. *)
Definition sleepOrDone (cancelled : option Z) (first : bool) (d : Z) : bool :=
  let d := default_duration d in
  match cancelled with
  | None => true
  | Some t => if (t <? d)%Z then false else if (d <? t)%Z then true else first
  end.
Definition keepalive_interval (cfg : Config) : Z :=
  default_duration (duration_ms cfg.(cfg_SessionEngine).(se_KeepAliveIntervalMS)).
Definition reconnect_interval (cfg : Config) : Z :=
  default_duration (duration_ms cfg.(cfg_SessionEngine).(se_ReconnectIntervalMS)).
End session.

(** ** Specifications *)

(** The acknowledgement that ends an exchange. *)
Definition ack_of (operation : string) : string :=
  if bool_decide (operation = "commsOnLine") then "commsOnLineAck"
  else if bool_decide (operation = "getDescriptor") then "descriptorList"
  else if bool_decide (operation = "setKeepAlive") then "setKeepAliveAck"
  else "keepAliveAck".

(** Whether the peer, after the requests [before], acknowledges the request [c]. *)
Definition acknowledged (env : environment) (wrapped : bool) (before : list call) (c : call) : bool :=
  match env.(env_peer) before c with
  | Err _ => false
  | Ok (status, buf) =>
      (200 <=? status)%Z && (status <? 300)%Z &&
      match ParseG2SEnvelope buf.(xb_stream) with
      | Err _ => false
      | Ok parsed =>
          bool_decide (resolveAck (ack_of c.(cl_Operation))
            (firstNonEmpty [parsed.(pe_OperationName); parsed.(pe_RawRoot)]) buf.(xb_stream) wrapped
            = ack_of c.(cl_Operation))
      end
  end.

(** The operation that follows an acknowledged one. *)
Definition next_operation (operation : string) : string :=
  if bool_decide (operation = "commsOnLine") then "getDescriptor"
  else if bool_decide (operation = "getDescriptor") then "setKeepAlive"
  else "keepAlive".

(** Two requests in a row: the second continues an acknowledged first one, or
    opens a new session after a heartbeat that was not acknowledged. *)
Definition link (env : environment) (wrapped : bool) (before : list call) (c1 c2 : call) : Prop :=
  if acknowledged env wrapped before c1
  then c2.(cl_Operation) = next_operation c1.(cl_Operation)
  else c1.(cl_Operation) = "keepAlive" ∧ c2.(cl_Operation) = "commsOnLine".

(** The requests of an engine, after the requests [base] of others. *)
Inductive conversation (env : environment) (wrapped : bool) (base : list call) : list call → Prop :=
  | conversation_nil : conversation env wrapped base []
  | conversation_first c : c.(cl_Operation) = "commsOnLine" → conversation env wrapped base [c]
  | conversation_next l c1 c2 :
      conversation env wrapped base (l ++ [c1]) → link env wrapped (base ++ l) c1 c2 →
      conversation env wrapped base ((l ++ [c1]) ++ [c2]).

(** What the phase tells about the last request. *)
Definition phase_link (env : environment) (wrapped : bool) (base : list call) (p : phase) (l : list call)
    : Prop :=
  let last op ack := ∃ l' c, l = l' ++ [c] ∧ c.(cl_Operation) = op ∧ acknowledged env wrapped (base ++ l') c = ack in
  match p with
  | Connecting => l = [] ∨ last "keepAlive" false
  | Starting _ => last "commsOnLine" true
  | FirstKeepAlive _ => last "setKeepAlive" true
  | Waiting _ => last "keepAlive" true
  | Sleeping => last "keepAlive" false
  | Stopped => True
  end.

(** What the phase tells about the state. *)
Definition phase_state (p : phase) (s : RuntimeState) : Prop :=
  let connected sid heartbeat :=
    s.(rs_SessionState) = "online" ∧ s.(rs_ConnectionState) = "host_connected" ∧
    s.(rs_HeartbeatState) = heartbeat ∧ s.(rs_LastSessionID) = sid ∧ s.(rs_LastError) = "" in
  match p with
  | Starting sid | FirstKeepAlive sid => connected sid "idle"
  | Waiting sid => connected sid "healthy"
  | Sleeping => s.(rs_HeartbeatState) = "failed" ∧ s.(rs_ConnectionState) = "host_unreachable"
  | Connecting | Stopped => True
  end.

(** How many turns lie between a phase and the wait between two heartbeats. *)
Definition turns_left (p : phase) : nat :=
  match p with
  | Sleeping => 4 | Connecting => 3 | Starting _ => 2 | FirstKeepAlive _ => 1 | Waiting _ | Stopped => 0
  end.

Definition session_operations : list string := ["commsOnLine"; "getDescriptor"; "setKeepAlive"; "keepAlive"].

(** After the requests of [w], the peer acknowledges what the engine sends. *)
Definition answers (clock : nat → Z) (env : environment) (w : Server) : Prop :=
  ∀ before op sid body, w.(sv_sent) `prefix_of` before → op ∈ session_operations → spoken clock w op sid body →
    acknowledged env w.(sv_cfg).(cfg_SessionEngine).(se_AcceptWrappedG2SResponseAck) before
      (session_call w.(sv_cfg) op body) = true.

(** ** Lemmas *)

(** What the engine never touches. *)
Record untouched (w w' : Server) : Prop := {
  un_cfg : w'.(sv_cfg) = w.(sv_cfg);
  un_pack : w'.(sv_pack) = w.(sv_pack);
  un_arrays : w'.(sv_arrays) = w.(sv_arrays);
  un_cancel : w'.(sv_schedulerCancel) = w.(sv_schedulerCancel);
  un_hosts : w'.(sv_state).(rs_AllowedHostIDs) = w.(sv_state).(rs_AllowedHostIDs) ∧
    w'.(sv_state).(rs_RegisteredHosts) = w.(sv_state).(rs_RegisteredHosts) ∧
    w'.(sv_state).(rs_RegistrationState) = w.(sv_state).(rs_RegistrationState);
  un_identity : w'.(sv_state).(rs_InstanceID) = w.(sv_state).(rs_InstanceID) ∧
    w'.(sv_state).(rs_EGMID) = w.(sv_state).(rs_EGMID) ∧
    w'.(sv_state).(rs_TrustMode) = w.(sv_state).(rs_TrustMode) ∧
    w'.(sv_state).(rs_OutboundScheduler) = w.(sv_state).(rs_OutboundScheduler);
}.

#[export] Instance untouched_preorder : PreOrder untouched.
Proof.
  split.
  - intros w. by split.
  - intros w1 w2 w3 [? ? ? ? (? & ? & ?) (? & ? & ? & ?)] [? ? ? ? (? & ? & ?) (? & ? & ? & ?)].
    split; split_and?; congruence.
Qed.

Lemma still_untouched w w' : still w w' → untouched w w'.
Proof. intros [[] Hs]. split; rewrite ?Hs; split_and?; done. Qed.

Section session_lemmas.
Context (clock : nat → Z) (env : environment).

Lemma renderers_still sid w :
  still w (renderCommsOnline clock sid w).2 ∧ still w (renderGetDescriptor clock sid w).2 ∧
  still w (renderSetKeepAlive clock sid w).2 ∧ still w (renderKeepAlive clock sid w).2.
Proof.
  unfold renderCommsOnline, renderGetDescriptor, renderSetKeepAlive, renderKeepAlive.
  split_and!; step; apply render_message_still.
Qed.

Lemma evidence_frame expected parsed w :
  let w' := (recordParsedResponseEvidence expected parsed w).2 in
  untouched w w' ∧ w'.(sv_state) = w.(sv_state) ∧ w'.(sv_sent) = w.(sv_sent).
Proof. unfold recordParsedResponseEvidence. cbv zeta. step. by case_bool_decide. Qed.

Lemma timestamp_frame kind at_ w :
  let w' := (recordSessionTimestamp kind at_ w).2 in
  untouched w w' ∧ w'.(sv_state) = w.(sv_state) ∧ w'.(sv_sent) = w.(sv_sent).
Proof. unfold recordSessionTimestamp. cbv zeta. step. case_bool_decide; [done|]. by step. Qed.

Lemma log_ack_still message expected sid status parsed actual w :
  still w (log_ack clock message expected sid status parsed actual w).2.
Proof. unfold log_ack. step. split; [apply Log_quiet|done]. Qed.

(** An exchange leaves the state, sends one request where the address is not
    refused, and succeeds exactly when the request is acknowledged. *)
Lemma exchange_spec op body w :
  let c := session_call w.(sv_cfg) op body in
  let '(res, w') := exchange clock env op (ack_of op) body w in
  untouched w w' ∧ w'.(sv_state) = w.(sv_state) ∧
  match env.(env_bad_url) w.(sv_cfg).(cfg_HostEndpoint).(he_URL) with
  | Some _ => w'.(sv_sent) = w.(sv_sent) ∧ is_ok res = false
  | None => w'.(sv_sent) = w.(sv_sent) ++ [c] ∧
      is_ok res = acknowledged env w.(sv_cfg).(cfg_SessionEngine).(se_AcceptWrappedG2SResponseAck) w.(sv_sent) c
  end.
Proof.
  cbv zeta. unfold exchange. step. rewrite M_bind_eq, when_eq. cbn [fst snd].
  pose proof (capture_still clock (lo_CaptureRenderedXML (cfg_Logging (sv_cfg w))) "outbound_request" op body w) as Ht.
  set (w1 := if lo_CaptureRenderedXML _ then _ else w) in *. clearbody w1.
  pose proof (still_untouched _ _ Ht) as Hu. destruct Ht as [Hq Hs]. pose proof (quiet_sent _ _ Hq) as Hn.
  destruct (env_bad_url env _) as [e|]; [by split_and!|].
  rewrite M_bind_eq. cbn [Do fst snd]. unfold acknowledged. cbn [cl_Operation session_call]. rewrite Hn.
  set (w2 := set_sv_sent _ w1).
  assert (Hu2 : untouched w w2) by (etrans; [exact Hu|by split]).
  destruct (env_peer env (sv_sent w) _) as [[status buf]|e]; [|by split; [exact Hu2|split; [exact Hs|]]].
  rewrite M_bind_eq, when_eq. cbn [fst snd].
  pose proof (capture_still clock (lo_CaptureRawXML (cfg_Logging (sv_cfg w))) "inbound_response" (ack_of op) (xb_raw buf) w2) as Ht.
  set (w3 := if lo_CaptureRawXML _ then _ else w2) in *. clearbody w3.
  pose proof (still_untouched _ _ Ht) as Hu3. destruct Ht as [Hq3 Hs3]. pose proof (quiet_sent _ _ Hq3) as Hn3.
  assert (Hu4 : untouched w w3) by (by etrans). change (sv_state w2) with (sv_state w1) in Hs3.
  rewrite Hs in Hs3. change (sv_sent w2) with (sv_sent w ++ [session_call (sv_cfg w) op body]) in Hn3.
  rewrite (Z.ltb_antisym 200 status), (Z.leb_antisym status 300).
  destruct (200 <=? status)%Z; cbn [negb orb andb]; [|by split_and!].
  destruct (status <? 300)%Z; cbn [negb orb andb]; [|by split_and!].
  destruct (ParseG2SEnvelope (xb_stream buf)) as [parsed|e]; [|by split_and!].
  rewrite M_bind_eq. destruct (evidence_frame (ack_of op) parsed w3) as (Hu5 & Hs5 & Hn5).
  set (w4 := (recordParsedResponseEvidence _ _ w3).2) in *. clearbody w4.
  rewrite Hs3 in Hs5. rewrite Hn3 in Hn5. assert (Hu6 : untouched w w4) by (by etrans).
  case_bool_decide; by split_and!.
Qed.

(** One exchange of the engine with the bookkeeping around it: [f] is what an
    acknowledgement does to the state. *)
Record once (op sid : string) (w : Server) (ok : bool) (w' : Server) (done : RuntimeState → Prop) : Prop := {
  once_untouched : untouched w w';
  once_sent : match env.(env_bad_url) w.(sv_cfg).(cfg_HostEndpoint).(he_URL) with
    | Some _ => w'.(sv_sent) = w.(sv_sent) ∧ ok = false
    | None => ∃ body, spoken clock w op sid body ∧
        w'.(sv_sent) = w.(sv_sent) ++ [session_call w.(sv_cfg) op body] ∧
        ok = acknowledged env w.(sv_cfg).(cfg_SessionEngine).(se_AcceptWrappedG2SResponseAck) w.(sv_sent)
               (session_call w.(sv_cfg) op body)
    end;
  once_state : if ok then done w'.(sv_state) else w'.(sv_state) = w.(sv_state);
}.

(** An exchange, with what follows an acknowledgement given by its effect. *)
Lemma exchange_once {A} op sid body w w1 (k : Z * ParsedG2SEnvelope * string → M (result A)) (done : RuntimeState → Prop) :
  still w w1 → spoken clock w op sid body →
  (∀ x w2, untouched w w2 → w2.(sv_state) = w.(sv_state) →
    is_ok (k x w2).1 = true ∧ untouched w2 (k x w2).2 ∧ (k x w2).2.(sv_sent) = w2.(sv_sent) ∧
    done (k x w2).2.(sv_state)) →
  let r := (res ← exchange clock env op (ack_of op) body;
            match res with Err e => mret (Err e) | Ok x => k x end) w1 in
  once op sid w (is_ok r.1) r.2 done.
Proof.
  intros [Hq Hs] Hb Hk. cbv zeta. pose proof (still_untouched _ _ (conj Hq Hs)) as Hu1. rewrite M_bind_eq.
  pose proof (exchange_spec op body w1) as Hx. cbv zeta in Hx.
  destruct (exchange clock env op (ack_of op) body w1) as [res w2]. cbn [fst snd].
  rewrite (quiet_cfg _ _ Hq), (quiet_sent _ _ Hq), Hs in Hx. destruct Hx as (Hu2 & Hs2 & Hx).
  assert (Hu : untouched w w2) by (by etrans).
  destruct res as [x|e].
  - destruct (Hk x w2 Hu Hs2) as (Hok & Hu3 & Hn & Hd). destruct (k x w2) as [r w3]. cbn [fst snd] in *.
    split; [by etrans| |by rewrite Hok].
    destruct (env_bad_url _ _); [by destruct Hx|]. exists body. rewrite Hn, Hok. destruct Hx as [-> Hx]. split; [exact Hb|]. by split.
  - split; [done| |done]. cbn. destruct (env_bad_url _ _); [done|]. exists body. split; [exact Hb|exact Hx].
Qed.

Definition connected (sid heartbeat : string) (s : RuntimeState) : Prop :=
  s.(rs_SessionState) = "online" ∧ s.(rs_ConnectionState) = "host_connected" ∧
  s.(rs_HeartbeatState) = heartbeat ∧ s.(rs_LastSessionID) = sid ∧ s.(rs_LastError) = "".

(** The bookkeeping after an acknowledgement; [f] changes no field but those of
    the connection. *)
Lemma acknowledge_spec op expected message sid stamp f x w :
  untouched w (set_sv_state (f w.(sv_state)) w) →
  let w' := (acknowledge clock op expected message sid stamp f x w).2 in
  untouched w w' ∧ w'.(sv_sent) = w.(sv_sent) ∧
  ∃ status at_, w'.(sv_state) = note_ack w.(sv_cfg) op expected sid status at_ (f w.(sv_state)).
Proof.
  intros Hf. cbv zeta. destruct x as [[status parsed] actual]. unfold acknowledge.
  rewrite M_bind_eq. cbn [Now fst snd]. step. step. cbn [sv_cfg set_sv_clock].
  set (w1 := set_sv_state _ _). rewrite M_bind_eq, when_eq. cbn [fst snd].
  set (w2 := if stamp then _ else w1).
  assert (H2 : untouched w1 w2 ∧ w2.(sv_state) = w1.(sv_state) ∧ w2.(sv_sent) = w1.(sv_sent)).
  { unfold w2. destruct stamp; [apply timestamp_frame|done]. }
  clearbody w2. destruct H2 as (Hu2 & Hs2 & Hn2).
  pose proof (log_ack_still message expected sid status parsed actual w2) as Hl.
  destruct (log_ack _ _ _ _ _ _ _ w2) as [[] w3]. cbn [snd] in *. destruct (Hl) as [Hq3 Hs3].
  split_and!.
  - transitivity w1; [|etrans; [exact Hu2|by apply still_untouched]].
    destruct Hf as [_ _ _ _ ? ?]. by split.
  - by rewrite (quiet_sent _ _ Hq3), Hn2.
  - exists status, (clock (sv_clock w)). by rewrite Hs3, Hs2.
Qed.

(** An exchange followed by that bookkeeping. *)
Lemma acknowledged_once {A} op message sid stamp f body (y : A) w w1 (done : RuntimeState → Prop) :
  still w w1 → spoken clock w op sid body →
  (∀ w2, untouched w2 (set_sv_state (f w2.(sv_state)) w2)) →
  (∀ status at_, done (note_ack w.(sv_cfg) op (ack_of op) sid status at_ (f w.(sv_state)))) →
  let r := (res ← exchange clock env op (ack_of op) body;
            match res with
            | Err e => mret (Err e)
            | Ok x => acknowledge clock op (ack_of op) message sid stamp f x;; mret (Ok y)
            end) w1 in
  once op sid w (is_ok r.1) r.2 done ∧ (∀ z, r.1 = Ok z → z = y).
Proof.
  intros Ht Hb Hf Hd. split.
  - apply exchange_once; [done..|]. intros x w2 Hu Hs. rewrite M_bind_eq. cbn [mret M_ret fst snd is_ok].
    destruct (acknowledge_spec op (ack_of op) message sid stamp f x w2 (Hf w2)) as (H1 & H2 & status & at_ & H3).
    split_and!; [done..|]. rewrite H3, Hs, (un_cfg _ _ Hu). apply Hd.
  - rewrite M_bind_eq. destruct (exchange _ _ _ _ _ w1) as [[x|e] w2]; cbn [fst snd]; [|done].
    rewrite M_bind_eq. cbn. by intros z [= <-].
Qed.

Lemma comms_once w :
  w.(sv_cfg).(cfg_HostEndpoint).(he_URL) ≠ "" →
  ∃ t, let sid := default_session w t in
    let '(res, w') := runCommsOnlineOnce clock env w in
    once "commsOnLine" sid w (is_ok res) w' (connected sid "idle") ∧ (∀ s, res = Ok s → s = sid).
Proof.
  intros Hu. unfold runCommsOnlineOnce. step. rewrite bool_decide_eq_false_2 by done.
  rewrite M_bind_eq. cbn [Now fst snd]. set (w0 := set_sv_clock _ w). rewrite M_bind_eq.
  set (sid := cfg_InstanceID _ +:+ _). exists (clock w.(sv_clock)). fold (default_session w (clock w.(sv_clock))) in sid.
  cbv zeta. fold sid.
  destruct (renderers_still sid w0) as (Hr & _ & _ & _).
  assert (Hb : spoken clock w "commsOnLine" sid (renderCommsOnline clock sid w0).1) by (by exists w0).
  destruct (renderCommsOnline clock sid w0) as [body w1]. cbn [fst snd] in *.
  assert (Ht : still w w1) by (etrans; [apply Now_still|exact Hr]).
  destruct (mbind (M := M) _ _ w1) as [res w2] eqn:He.
  pose proof (acknowledged_once "commsOnLine" "commsOnLine acknowledged" sid true
    (λ s, set_rs_HeartbeatState "idle" (set_rs_ConnectionState "host_connected" (set_rs_SessionState "online" s)))
    body sid w w1 (connected sid "idle") Ht Hb) as Ho.
  cbv zeta in Ho. change (ack_of "commsOnLine") with "commsOnLineAck" in Ho. rewrite He in Ho.
  by apply Ho.
Qed.

(** The other three, for any renderer. *)
Lemma plain_once op message sid stamp f (render : string → M string) w (done : RuntimeState → Prop) :
  still w (render sid w).2 → (render sid w).1 = (renderConfiguredOutboundBody clock op sid w).1 →
  (∀ w2, untouched w2 (set_sv_state (f w2.(sv_state)) w2)) →
  (∀ status at_, done (note_ack w.(sv_cfg) op (ack_of op) sid status at_ (f w.(sv_state)))) →
  let r := (body ← render sid;
            res ← exchange clock env op (ack_of op) body;
            match res with
            | Err e => mret (Err e)
            | Ok x => acknowledge clock op (ack_of op) message sid stamp f x;; mret (Ok ())
            end) w in
  once op sid w (is_ok r.1) r.2 done.
Proof.
  intros Ht Hb Hf Hd. cbv zeta. rewrite M_bind_eq. destruct (render sid w) as [body w1].
  apply (acknowledged_once op message sid stamp f body () w w1 done); [done| |done..].
  exists w. by split_and!.
Qed.

Lemma keepalive_once sid w :
  let r := runKeepAliveOnce clock env sid w in
  once "keepAlive" sid w (is_ok r.1) r.2 (λ s', connected sid "healthy" (set_rs_SessionState "online" s') ∧
    s'.(rs_SessionState) = w.(sv_state).(rs_SessionState)).
Proof.
  apply (plain_once "keepAlive" "keepAlive acknowledged" sid true
    (λ s, set_rs_ConnectionState "host_connected" (set_rs_HeartbeatState "healthy" s)) (renderKeepAlive clock));
    [apply renderers_still|done|done|done].
Qed.

(** The two exchanges of the startup keep what the session shows. *)
Lemma descriptor_once sid w :
  let r := runGetDescriptorOnce clock env sid w in
  once "getDescriptor" sid w (is_ok r.1) r.2
    (λ s', ∀ heartbeat, connected sid heartbeat w.(sv_state) → connected sid heartbeat s').
Proof.
  apply (plain_once "getDescriptor" "descriptorList received" sid false (λ s, s) (renderGetDescriptor clock));
    [apply renderers_still|done|done|]. intros status at_ hb (? & ? & ? & ? & ?). by split_and!.
Qed.

Lemma setkeepalive_once sid w :
  let r := runSetKeepAliveOnce clock env sid w in
  once "setKeepAlive" sid w (is_ok r.1) r.2
    (λ s', ∀ heartbeat, connected sid heartbeat w.(sv_state) → connected sid heartbeat s').
Proof.
  apply (plain_once "setKeepAlive" "setKeepAlive acknowledged" sid false (λ s, s) (renderSetKeepAlive clock));
    [apply renderers_still|done|done|]. intros status at_ hb (? & ? & ? & ? & ?). by split_and!.
Qed.
End session_lemmas.

(** ** The engine by itself *)

Ltac ret := unfold mret, M_ret; cbn [fst snd].

Section engine.
Context (clock : nat → Z) (env : environment) (cfg : Config) (base : list call).

Let wrapped := cfg.(cfg_SessionEngine).(se_AcceptWrappedG2SResponseAck).

Record engine_inv (p : phase) (w : Server) : Prop := {
  inv_cfg : w.(sv_cfg) = cfg;
  inv_url : match p with
            | Connecting | Stopped => True
            | _ => env.(env_bad_url) cfg.(cfg_HostEndpoint).(he_URL) = None
            end;
  inv_sent : ∃ l, w.(sv_sent) = base ++ l ∧ conversation env wrapped base l ∧ phase_link env wrapped base p l;
  inv_state : phase_state p w.(sv_state);
}.

Lemma failure_frame e sid w :
  let w1 := (record_comms_failure clock e w).2 in
  let w2 := (record_startup_failure clock sid e w).2 in
  let w3 := (recordKeepAliveFailure clock sid e w).2 in
  (w1.(sv_cfg) = w.(sv_cfg) ∧ w1.(sv_sent) = w.(sv_sent)) ∧
  (w2.(sv_cfg) = w.(sv_cfg) ∧ w2.(sv_sent) = w.(sv_sent)) ∧
  (w3.(sv_cfg) = w.(sv_cfg) ∧ w3.(sv_sent) = w.(sv_sent) ∧ phase_state Sleeping w3.(sv_state)).
Proof. done. Qed.

(** Adding an exchange to the conversation. *)
Lemma conversation_add l c :
  conversation env wrapped base l →
  (l = [] ∧ c.(cl_Operation) = "commsOnLine" ∨
   ∃ l' c1, l = l' ++ [c1] ∧ link env wrapped (base ++ l') c1 c) →
  conversation env wrapped base (l ++ [c]).
Proof.
  intros Hl [[-> Hc]|(l' & c1 & -> & Hk)]; [by apply conversation_first|by apply conversation_next].
Qed.

Lemma stopped_inv w l :
  w.(sv_cfg) = cfg → w.(sv_sent) = base ++ l → conversation env wrapped base l → engine_inv Stopped w.
Proof. intros Hc Hs Hl. split; [done..| |done]. by exists l. Qed.

Lemma heartbeat_inv sid w l :
  w.(sv_cfg) = cfg → env.(env_bad_url) cfg.(cfg_HostEndpoint).(he_URL) = None →
  w.(sv_sent) = base ++ l → conversation env wrapped base l →
  (∃ l' c, l = l' ++ [c] ∧ next_operation c.(cl_Operation) = "keepAlive" ∧
     acknowledged env wrapped (base ++ l') c = true) →
  w.(sv_state).(rs_SessionState) = "online" →
  let r := heartbeat clock env sid w in engine_inv r.1 r.2.
Proof.
  intros Hc Hurl Hs Hl (l' & c1 & -> & Hop & Hack) Hon. cbv zeta. unfold heartbeat. rewrite M_bind_eq.
  pose proof (keepalive_once clock env sid w) as Ho. cbv zeta in Ho.
  destruct (runKeepAliveOnce clock env sid w) as [res w1]. cbn [fst snd] in *.
  destruct Ho as [Hu Hsent Hst]. rewrite Hc, Hurl in Hsent. destruct Hsent as (body & _ & Hsent & Hok).
  set (c := session_call cfg "keepAlive" body) in *.
  rewrite Hs, <-app_assoc in Hsent.
  assert (Hconv : conversation env wrapped base ((l' ++ [c1]) ++ [c])).
  { apply conversation_next; [done|]. unfold link. rewrite Hack. by rewrite Hop. }
  destruct res as [[]|e]; cbn [is_ok] in *.
  - ret. split; [by rewrite (un_cfg _ _ Hu)|done| |].
    + exists ((l' ++ [c1]) ++ [c]). split_and!; [done..|]. exists (l' ++ [c1]), c. by rewrite Hs in Hok.
    + destruct Hst as [(? & ? & ? & ? & ?) ?]. cbn in *. split_and!; congruence.
  - rewrite M_bind_eq. ret. destruct (failure_frame e sid w1) as (_ & _ & H1 & H2 & H3).
    split; [by rewrite H1, (un_cfg _ _ Hu)|done| |done].
    exists ((l' ++ [c1]) ++ [c]). split_and!; [by rewrite H2|done|]. exists (l' ++ [c1]), c.
    by rewrite Hs in Hok.
Qed.

Lemma starting_inv sid w :
  engine_inv (Starting sid) w →
  let r := engine_step clock env false (Starting sid) w in engine_inv r.1 r.2.
Proof.
  intros [Hc Hurl (l & Hs & Hl & l' & c1 & -> & Hop1 & Hack1) Hst]. cbv zeta. cbn [engine_step]. rewrite M_bind_eq.
  unfold runStartupExchange. rewrite M_bind_eq.
  pose proof (descriptor_once clock env sid w) as Ho. cbv zeta in Ho.
  destruct (runGetDescriptorOnce clock env sid w) as [res w1]. cbn [fst snd] in *.
  destruct Ho as [Hu Hsent Hst1]. rewrite Hc, Hurl in Hsent. destruct Hsent as (body & _ & Hsent & Hok).
  set (c2 := session_call cfg "getDescriptor" body) in *. rewrite Hs, <-app_assoc in Hsent.
  assert (Hconv : conversation env wrapped base ((l' ++ [c1]) ++ [c2])).
  { apply conversation_next; [done|]. unfold link. by rewrite Hack1, Hop1. }
  assert (Hc1 : w1.(sv_cfg) = cfg) by (by rewrite (un_cfg _ _ Hu)).
  destruct res as [[]|e]; cbn [is_ok] in *.
  2:{ ret. rewrite M_bind_eq. ret. destruct (failure_frame e sid w1) as (_ & [H1 H2] & _).
      eapply stopped_inv; [by rewrite H1|by rewrite H2|done]. }
  pose proof (setkeepalive_once clock env sid w1) as Ho. cbv zeta in Ho.
  destruct (runSetKeepAliveOnce clock env sid w1) as [res w2]. cbn [fst snd] in *.
  destruct Ho as [Hu2 Hsent2 Hst2]. rewrite Hc1, Hurl in Hsent2. destruct Hsent2 as (body2 & _ & Hsent2 & Hok2).
  set (c3 := session_call cfg "setKeepAlive" body2) in *. rewrite Hsent in Hsent2, Hok2. rewrite <-app_assoc in Hsent2.
  assert (Hconv2 : conversation env wrapped base (((l' ++ [c1]) ++ [c2]) ++ [c3])).
  { apply conversation_next; [done|]. unfold link. rewrite Hs in Hok. unfold wrapped. by rewrite <-Hok. }
  assert (Hc2 : w2.(sv_cfg) = cfg) by (by rewrite (un_cfg _ _ Hu2)).
  destruct res as [[]|e]; cbn [is_ok fst snd] in *.
  - ret. split; [done|done| |by apply Hst2, Hst1].
    eexists. split; [exact Hsent2|]. split; [done|]. exists ((l' ++ [c1]) ++ [c2]), c3. by split_and!.
  - rewrite M_bind_eq. ret. destruct (failure_frame e sid w2) as (_ & [H1 H2] & _).
    eapply stopped_inv; [by rewrite H1|by rewrite H2|done].
Qed.

Lemma connecting_inv w :
  engine_inv Connecting w →
  let r := engine_step clock env false Connecting w in engine_inv r.1 r.2.
Proof.
  intros [Hc _ (l & Hs & Hl & Hlink) _]. cbv zeta. cbn [engine_step]. rewrite M_bind_eq.
  destruct (decide (w.(sv_cfg).(cfg_HostEndpoint).(he_URL) = "")) as [He|Hne].
  { unfold runCommsOnlineOnce. rewrite !(M_bind_eq (gets sv_cfg)). cbn [gets fst snd].
    rewrite bool_decide_eq_true_2 by done. ret. rewrite M_bind_eq. ret.
    destruct (failure_frame "host endpoint url is empty" "" w) as ([H1 H2] & _ & _).
    eapply stopped_inv; [by rewrite H1|by rewrite H2|done]. }
  destruct (comms_once clock env w Hne) as [sid Ho].
  destruct (runCommsOnlineOnce clock env w) as [res w1]. cbn [fst snd] in *. destruct Ho as [[Hu Hsent Hst] Hsid].
  assert (Hc1 : w1.(sv_cfg) = cfg) by (by rewrite (un_cfg _ _ Hu)). rewrite Hc in Hsent.
  assert (Hstop : ∀ e l', w1.(sv_sent) = base ++ l' → conversation env wrapped base l' →
    engine_inv Stopped (record_comms_failure clock e w1).2).
  { intros e l' Hs' Hl'. destruct (failure_frame e "" w1) as ([H1 H2] & _ & _).
    eapply stopped_inv; [by rewrite H1|by rewrite H2|done]. }
  destruct (env_bad_url env _) as [b|] eqn:Hurl.
  { destruct Hsent as [Hsent Hok]. destruct res as [?|e]; [done|]. rewrite M_bind_eq. ret.
    apply (Hstop e l); [by rewrite Hsent|done]. }
  destruct Hsent as (body & _ & Hsent & Hok). set (c := session_call cfg "commsOnLine" body) in *.
  rewrite Hs in Hsent, Hok. rewrite <-app_assoc in Hsent.
  assert (Hconv : conversation env wrapped base (l ++ [c])).
  { apply conversation_add; [done|]. destruct Hlink as [->|(l' & c1 & -> & Hop & Hack)]; [by left|right].
    exists l', c1. split; [done|]. unfold link. by rewrite Hack. }
  destruct res as [s|e]; cbn [is_ok] in *.
  - rewrite (Hsid s eq_refl). ret. split; [done|done| |done]. exists (l ++ [c]). split_and!; [done..|].
    exists l, c. by split_and!.
  - rewrite M_bind_eq. ret. by apply (Hstop e (l ++ [c])).
Qed.

Lemma engine_step_inv done p w :
  engine_inv p w → let r := engine_step clock env done p w in engine_inv r.1 r.2.
Proof.
  intros Hinv. destruct p as [|sid|sid|sid| |].
  - destruct done; [|by apply connecting_inv]. destruct Hinv as [? ? (l & ? & ? & ?) ?]. by eapply stopped_inv.
  - by apply starting_inv.
  - destruct Hinv as [Hc Hurl (l & Hs & Hl & l' & c & -> & Hop & Hack) (Hon & _)].
    apply (heartbeat_inv sid w (l' ++ [c])); try done. exists l', c. by rewrite Hop.
  - destruct Hinv as [Hc Hurl (l & Hs & Hl & l' & c & -> & Hop & Hack) (Hon & _)].
    destruct done; [by eapply stopped_inv|].
    apply (heartbeat_inv sid w (l' ++ [c])); try done. exists l', c. by rewrite Hop.
  - destruct Hinv as [Hc Hurl (l & Hs & Hl & Hlink) _]. destruct done; [by eapply stopped_inv|].
    split; [done..| |done]. exists l. split_and!; [done..|]. by right.
  - done.
Qed.

Lemma engine_run_inv dones p w :
  engine_inv p w → let r := engine_run clock env dones p w in engine_inv r.1 r.2.
Proof.
  revert p w. induction dones as [|d dones IH]; intros p w Hinv; [done|]. cbn [engine_run].
  rewrite M_bind_eq. apply IH. by apply engine_step_inv.
Qed.
(** ** A context that is cancelled *)

(** What is left to say in a phase, and the turns until the goroutine returns. *)
Definition rest_of_exchange (p : phase) : list string :=
  match p with
  | Starting _ => ["getDescriptor"; "setKeepAlive"; "keepAlive"]
  | FirstKeepAlive _ => ["keepAlive"]
  | Connecting | Waiting _ | Sleeping | Stopped => []
  end.
Definition turns_to_stop (p : phase) : nat :=
  match p with Starting _ => 3 | FirstKeepAlive _ => 2 | Connecting | Waiting _ | Sleeping => 1 | Stopped => 0 end.

(** An exchange says its message, or nothing when it fails. *)
Lemma once_says op sid w ok w' done :
  once clock env op sid w ok w' done →
  ∃ l, w'.(sv_sent) = w.(sv_sent) ++ l ∧ map cl_Operation l `prefix_of` [op] ∧
    (ok = true → map cl_Operation l = [op]).
Proof.
  intros [_ Hs _]. destruct (env_bad_url env _).
  - exists []. destruct Hs as [-> ->]. rewrite app_nil_r. split_and!; [done|by exists [op]|done].
  - destruct Hs as (body & _ & Hs & _). eexists. split; [exact Hs|]. by split.
Qed.

Lemma heartbeat_says sid w :
  ∃ l, (heartbeat clock env sid w).2.(sv_sent) = w.(sv_sent) ++ l ∧
    map cl_Operation l `prefix_of` ["keepAlive"] ∧
    ((heartbeat clock env sid w).1 = Waiting sid ∨ (heartbeat clock env sid w).1 = Sleeping).
Proof.
  pose proof (once_says _ _ _ _ _ _ (keepalive_once clock env sid w)) as (l & Hl & Hp & _). exists l.
  unfold heartbeat. rewrite M_bind_eq. destruct (runKeepAliveOnce clock env sid w) as [[[]|e] w1]; cbn [fst snd] in *.
  - ret. split_and!; [done..|by left].
  - rewrite M_bind_eq. ret. destruct (failure_frame e sid w1) as (_ & _ & _ & -> & _). split_and!; [done..|by right].
Qed.

Lemma stopped_stays dones w : engine_run clock env dones Stopped w = (Stopped, w).
Proof. induction dones as [|d dones IH]; [done|]. cbn [engine_run engine_step]. rewrite M_bind_eq. apply IH. Qed.

Lemma first_heartbeat_stops n sid w :
  let r := engine_run clock env (true :: true :: replicate n true) (FirstKeepAlive sid) w in
  r.1 = Stopped ∧ ∃ l, r.2.(sv_sent) = w.(sv_sent) ++ l ∧ map cl_Operation l `prefix_of` ["keepAlive"].
Proof.
  cbv zeta. cbn [engine_run]. rewrite M_bind_eq. cbn [engine_step].
  destruct (heartbeat_says sid w) as (l & Hl & Hk & Hp).
  destruct (heartbeat clock env sid w) as [p1 w1]. cbn [fst snd] in *. rewrite M_bind_eq.
  replace (engine_step clock env true p1 w1) with (Stopped, w1) by (by destruct Hp as [->| ->]).
  cbn [fst snd]. rewrite stopped_stays. split; [done|by exists l].
Qed.

Lemma starting_says sid w :
  let r := engine_step clock env true (Starting sid) w in
  ∃ l, r.2.(sv_sent) = w.(sv_sent) ++ l ∧
    (r.1 = Stopped ∧ map cl_Operation l `prefix_of` ["getDescriptor"; "setKeepAlive"] ∨
     r.1 = FirstKeepAlive sid ∧ map cl_Operation l = ["getDescriptor"; "setKeepAlive"]).
Proof.
  cbv zeta. cbn [engine_step]. rewrite M_bind_eq. unfold runStartupExchange. rewrite M_bind_eq.
  pose proof (once_says _ _ _ _ _ _ (descriptor_once clock env sid w)) as (l & Hl & Hp & Hok).
  destruct (runGetDescriptorOnce clock env sid w) as [[[]|e] w1]; cbn [fst snd is_ok] in *.
  2:{ exists l. ret. rewrite M_bind_eq. ret. destruct (failure_frame e sid w1) as (_ & [_ ->] & _).
      split; [done|]. left. split; [done|]. etrans; [exact Hp|by exists ["setKeepAlive"]]. }
  pose proof (once_says _ _ _ _ _ _ (setkeepalive_once clock env sid w1)) as (l2 & Hl2 & Hp2 & Hok2).
  specialize (Hok eq_refl).
  exists (l ++ l2). rewrite map_app, Hok. 
  destruct (runSetKeepAliveOnce clock env sid w1) as [[[]|e] w2]; cbn [fst snd is_ok] in *.
  - ret. split; [by rewrite Hl2, Hl, app_assoc|]. right. by rewrite Hok2.
  - rewrite M_bind_eq. ret. destruct (failure_frame e sid w2) as (_ & [_ ->] & _).
    split; [by rewrite Hl2, Hl, app_assoc|]. left. split; [done|]. by apply (prefix_app ["getDescriptor"]).
Qed.

(** ** A peer that answers *)

Section answered.
Context (w0 : Server).
Hypothesis (Hne : w0.(sv_cfg).(cfg_HostEndpoint).(he_URL) ≠ "").
Hypothesis (Hurl : env.(env_bad_url) w0.(sv_cfg).(cfg_HostEndpoint).(he_URL) = None).
Hypothesis (Hans : answers clock env w0).

(** The states in which the peer answers the engine. *)
Record served (w : Server) : Prop := {
  served_cfg : w.(sv_cfg) = w0.(sv_cfg);
  served_pack : w.(sv_pack) = w0.(sv_pack);
  served_sent : w0.(sv_sent) `prefix_of` w.(sv_sent);
}.

Lemma once_answered op sid w ok w' done :
  once clock env op sid w ok w' done → served w → op ∈ session_operations → ok = true ∧ served w'.
Proof.
  intros [Hu Hsent _] [Hc Hp Hs] Hop. rewrite Hc, Hurl in Hsent. destruct Hsent as (body & Hb & Hs' & ->).
  split.
  - apply (Hans _ op sid); [done..|]. destruct Hb as (w2 & H1 & H2 & H3). exists w2. by rewrite H1, H2.
  - split; [by rewrite (un_cfg _ _ Hu)|by rewrite (un_pack _ _ Hu)|]. rewrite Hs'. by apply prefix_app_r.
Qed.

Ltac answered H :=
  let Hok := fresh "Hok" in let Hv := fresh "Hv" in
  eapply once_answered in H as [Hok Hv]; [|eassumption|set_solver].

Lemma heartbeat_answered sid w :
  served w → let r := heartbeat clock env sid w in r.1 = Waiting sid ∧ served r.2.
Proof.
  intros Hw. cbv zeta. unfold heartbeat. rewrite M_bind_eq. pose proof (keepalive_once clock env sid w) as Ho.
  cbv zeta in Ho. answered Ho. by destruct (runKeepAliveOnce _ _ _ _) as [[]?].
Qed.

(** Each turn brings the engine nearer to its wait, and there it stays. *)
Lemma engine_advances p w :
  p ≠ Stopped → served w →
  let r := engine_step clock env false p w in
  r.1 ≠ Stopped ∧ turns_left r.1 = Nat.pred (turns_left p) ∧ served r.2.
Proof.
  intros Hp Hw. destruct p as [|sid|sid|sid| |]; [..|done]; cbn [engine_step]; [| |try solve [
    destruct (heartbeat_answered sid w Hw) as [-> ?]; done]..|done].
  - rewrite M_bind_eq. destruct (comms_once clock env w) as [sid Ho]; [by rewrite (served_cfg w Hw)|].
    destruct (runCommsOnlineOnce clock env w) as [res w1]. destruct Ho as [Ho _]. answered Ho.
    by destruct res.
  - rewrite M_bind_eq. unfold runStartupExchange. rewrite M_bind_eq.
    pose proof (descriptor_once clock env sid w) as Ho. cbv zeta in Ho. answered Ho.
    destruct (runGetDescriptorOnce _ _ _ _) as [[]w1]; [|done]. cbn [fst snd] in *.
    pose proof (setkeepalive_once clock env sid w1) as Ho1. cbv zeta in Ho1. answered Ho1.
    by destruct (runSetKeepAliveOnce _ _ _ _) as [[]?].
Qed.

Lemma engine_arrives n p w :
  p ≠ Stopped → served w → turns_left p ≤ n →
  ∃ sid, (engine_run clock env (replicate n false) p w).1 = Waiting sid.
Proof.
  revert p w. induction n as [|n IH]; intros p w Hp Hw Hn; cbn [replicate engine_run].
  - destruct p as [| | |sid| |]; cbn in Hn; try lia; [by exists sid|done].
  - rewrite M_bind_eq. destruct (engine_advances p w Hp Hw) as (Hp' & Ht & Hw'). apply IH; [done..|lia].
Qed.
End answered.
End engine.

Section properties.
Context (clock : nat → Z) (env : environment).

Lemma engine_started_inv dones w :
  let r := engine_run clock env dones Connecting w in engine_inv env w.(sv_cfg) w.(sv_sent) r.1 r.2.
Proof.
  apply engine_run_inv. split; [done..| |done]. exists []. split_and!; [by rewrite app_nil_r|constructor|by left].
Qed.

(** C6. Undisturbed, the engine speaks its protocol with the host: it opens a
    session first, each further request continues the exchange that the previous
    acknowledgement completed, a new session is opened only after a heartbeat
    that was not acknowledged, and a failed opening or startup ends it. Where it
    waits between heartbeats, the state shows the session it opened, online and
    healthy. *)
Theorem engine_protocol dones w :
  let '(p, w') := engine_run clock env dones Connecting w in
  let wrapped := w.(sv_cfg).(cfg_SessionEngine).(se_AcceptWrappedG2SResponseAck) in
  w'.(sv_cfg) = w.(sv_cfg) ∧
  (∃ l, w'.(sv_sent) = w.(sv_sent) ++ l ∧ conversation env wrapped w.(sv_sent) l ∧
     phase_link env wrapped w.(sv_sent) p l) ∧
  phase_state p w'.(sv_state).
Proof.
  pose proof (engine_started_inv dones w) as H. cbv zeta in H.
  destruct (engine_run clock env dones Connecting w) as [p w']. by destruct H as [H1 _ H2 H3].
Qed.

(** C7. A host that comes back is found again: whatever has happened before, as
    long as the engine has not stopped and from now on the host acknowledges what
    it is sent, four turns later and ever after the engine waits between two
    heartbeats of a session which the state shows, online and healthy; every
    request until then belongs to the protocol. *)
Theorem session_comes_online dones n w :
  let '(p, w1) := engine_run clock env dones Connecting w in
  let cfg := w.(sv_cfg) in
  let wrapped := cfg.(cfg_SessionEngine).(se_AcceptWrappedG2SResponseAck) in
  p ≠ Stopped →
  cfg.(cfg_HostEndpoint).(he_URL) ≠ "" → env.(env_bad_url) cfg.(cfg_HostEndpoint).(he_URL) = None →
  answers clock env w1 →
  let '(p', w2) := engine_run clock env (replicate (4 + n) false) p w1 in
  ∃ sid l c, p' = Waiting sid ∧ phase_state (Waiting sid) w2.(sv_state) ∧
    w2.(sv_sent) = w.(sv_sent) ++ l ++ [c] ∧ c.(cl_Operation) = "keepAlive" ∧
    conversation env wrapped w.(sv_sent) (l ++ [c]).
Proof.
  pose proof (engine_started_inv dones w) as Hinv. cbv zeta in Hinv.
  destruct (engine_run clock env dones Connecting w) as [p w1]. cbv zeta. intros Hp Hne Hurl Hans.
  rewrite <-(inv_cfg _ _ _ _ _ Hinv) in Hne, Hurl.
  destruct (engine_arrives clock env w1 Hne Hurl Hans (4 + n) p w1) as [sid Hsid];
    [done|done|destruct p; simpl; lia|].
  pose proof (engine_run_inv clock env _ _ (replicate (4 + n) false) p w1 Hinv) as H2. cbv zeta in H2.
  destruct (engine_run clock env (replicate (4 + n) false) p w1) as [p' w2]. cbn [fst snd] in *. subst p'.
  destruct H2 as [_ _ (l & Hs & Hl & l' & c & -> & Hop & _) Hst]. exists sid, l', c. by split_and!.
Qed.

(** C5. The engine's goroutine ends. Whatever it is doing and whatever the host
    answers, when it sees the context cancelled wherever it looks, it has returned
    after the turns that its phase needs, three at the most, and stays so: it says
    nothing more than the rest of the exchange it is in, in order, opens no session,
    and outside of an exchange it leaves the server as it is. *)
Theorem engine_stops p n w :
  let '(p', w') := engine_run clock env (replicate (turns_to_stop p + n) true) p w in
  p' = Stopped ∧
  (∃ l, w'.(sv_sent) = w.(sv_sent) ++ l ∧ map cl_Operation l `prefix_of` rest_of_exchange p) ∧
  (rest_of_exchange p = [] → w' = w).
Proof.
  rewrite replicate_add. destruct p as [|sid|sid|sid| |]; cbn [turns_to_stop replicate app];
    try (cbn [engine_run]; rewrite ?M_bind_eq; cbn [engine_step mret M_ret fst snd];
      rewrite stopped_stays; split_and!; [done|by exists []; rewrite app_nil_r|done]).
  - cbn [engine_run]. rewrite M_bind_eq. destruct (starting_says clock env sid w) as (l & Hl & Hp).
    destruct (engine_step _ _ _ _ w) as [p1 w1]. cbn [fst snd] in *. destruct Hp as [[-> Hl2]|[-> Hl2]].
    + cbn [engine_step]. rewrite !M_bind_eq. cbn [mret M_ret fst snd]. rewrite stopped_stays.
      split_and!; [done| |done]. exists l. split; [done|]. etrans; [exact Hl2|by exists ["keepAlive"]].
    + destruct (first_heartbeat_stops clock env n sid w1) as (Hs & l' & Hl' & k & Hk).
      cbn [engine_run] in Hs, Hl'. destruct (mbind (M := M) _ _ w1) as [p2 w2]. cbn [fst snd] in *.
      split_and!; [done| |done]. exists (l ++ l'). split; [by rewrite Hl', Hl, app_assoc|].
      exists k. rewrite map_app, Hl2, <-app_assoc, <-Hk. done.
  - destruct (first_heartbeat_stops clock env n sid w) as (Hs & l & Hl & Hk).
    destruct (engine_run _ _ _ _ w) as [p2 w2]. split_and!; [done| |done]. by exists l.
Qed.

Lemma default_duration_pos d : (0 < default_duration d)%Z.
Proof. unfold default_duration. destruct (d <=? 0)%Z eqn:Hd; [done|]. by apply Z.leb_gt in Hd. Qed.

(** The pauses are positive, whatever the configuration: there is no busy loop. *)
Lemma intervals_positive cfg : (0 < keepalive_interval cfg)%Z ∧ (0 < reconnect_interval cfg)%Z.
Proof. split; apply default_duration_pos. Qed.

(** A context that is cancelled already is always seen, and one that is not
    cancelled within the pause never. *)
Lemma sleepOrDone_cancelled first d t : (t <= 0)%Z → sleepOrDone (Some t) first d = false.
Proof.
  intros Ht. unfold sleepOrDone. pose proof (default_duration_pos d).
  by rewrite (proj2 (Z.ltb_lt t (default_duration d))) by lia.
Qed.

Lemma sleepOrDone_passes cancelled first d :
  (∀ t, cancelled = Some t → default_duration d < t)%Z → sleepOrDone cancelled first d = true.
Proof.
  intros H. destruct cancelled as [t|]; [|done]. specialize (H t eq_refl). unfold sleepOrDone.
  rewrite (proj2 (Z.ltb_ge t (default_duration d))) by lia. by rewrite (proj2 (Z.ltb_lt (default_duration d) t)) by lia.
Qed.
End properties.

(** Two heartbeats of an engine whose host answers, then a cancelled context. *)
Example engine_example :
  let env := mkEnvironment (λ _ c, Ok (200%Z, mkBytes "" (mkStream
    (legacy_tokens SOAP11Namespace "urn:g2s:lab" (ack_of c.(cl_Operation)) []) None))) (λ _, None)
    (λ _, Err "") (λ _ _, Err "") in
  let '(p, w) := engine_run Z.of_nat env [false; false; false; false; true] Connecting example_server in
  p = Stopped ∧
  map cl_Operation w.(sv_sent) = ["commsOnLine"; "getDescriptor"; "setKeepAlive"; "keepAlive"; "keepAlive"] ∧
  w.(sv_state).(rs_HeartbeatState) = "healthy".
Proof. vm_compute. split_and!; reflexivity. Qed.

(** ** Witness *)

(** A host that lets the first heartbeat time out, and answers otherwise. *)
Definition recovering_env : environment :=
  mkEnvironment (λ before c,
    if length before =? 3 then Err "context deadline exceeded"
    else Ok (200%Z, mkBytes "" (mkStream
      (legacy_tokens SOAP11Namespace "urn:g2s:lab" (ack_of c.(cl_Operation)) []) None)))
    (λ _, None) (λ _, Err "") (λ _ _, Err "").

Lemma recovering_answers clock w : 4 ≤ length w.(sv_sent) → answers clock recovering_env w.
Proof.
  intros Hf before op sid body [l ->] Hop _. unfold acknowledged. cbn [env_peer recovering_env].
  replace (length (sv_sent w ++ l) =? 3) with false by (symmetry; apply Nat.eqb_neq; rewrite length_app; lia).
  destruct (se_AcceptWrappedG2SResponseAck _); repeat (apply elem_of_cons in Hop as [->|Hop]; [vm_compute; reflexivity|]);
    by apply not_elem_of_nil in Hop.
Qed.

Lemma session_comes_online_witness :
  let '(p, w1) := engine_run Z.of_nat recovering_env [false; false; false] Connecting example_server in
  p = Sleeping ∧ w1.(sv_state).(rs_ConnectionState) = "host_unreachable" ∧
  let '(p', w2) := engine_run Z.of_nat recovering_env (replicate 6 false) p w1 in
  ∃ sid, p' = Waiting sid ∧ phase_state (Waiting sid) w2.(sv_state).
Proof.
  pose proof (session_comes_online Z.of_nat recovering_env [false; false; false] 2 example_server) as H.
  assert (Hp : let '(p, w1) := engine_run Z.of_nat recovering_env [false; false; false] Connecting example_server in
    p = Sleeping ∧ w1.(sv_state).(rs_ConnectionState) = "host_unreachable" ∧ length w1.(sv_sent) = 4).
  { vm_compute. by split_and!. }
  destruct (engine_run Z.of_nat recovering_env [false; false; false] Connecting example_server) as [p w1].
  destruct Hp as (-> & Hc & Hl). split_and!; [done..|]. cbv zeta in H.
  destruct (engine_run Z.of_nat recovering_env (replicate 6 false) Sleeping w1) as [p' w2] eqn:He2.
  change (4 + 2) with 6 in H. rewrite He2 in H.
  destruct H as (sid & _ & _ & Hw & Hst & _); [done|vm_compute; done|done|apply recovering_answers; lia|].
  by exists sid.
Defined.
