(* ===== verification/Exchange.v ===== *)
(** * Messages between processes (src/runtime/session_engine.go and its files,
    g2s_xsd_renderer.go, soap_parser.go)

    What one process renders is read by another: the renderers of [Messages], the
    decoder of [XmlText] and the parser of [Envelope] put together. *)

From S2P Require Import Prelude GoStrings Json Config Pack Render Envelope XmlText State Control Messages XmlDoc Outbound Scheduler Session.

(** ** The messages as documents *)

Definition attr_list (attrs : gmap string string) : list xml_attr :=
  map (λ k, mkXmlAttr ("", k) (get_str attrs k)) (attr_keys attrs).

Definition xsd_doc (cfg : Config) (at_ : Z) (op : string) (attrs : gmap string string) : xml_doc :=
  Element ("g2s", "g2sMessage") [mkXmlAttr ("xmlns", "g2s") (message_ns cfg)]
    [Element ("g2s", "g2sBody") (attr_list (body_attrs cfg.(cfg_HostID) cfg.(cfg_EGMID) (RFC3339Nano at_)))
      [Element ("g2s", "communications") [] [Single ("g2s", op) (attr_list attrs)]]].

Definition soap_ns (pk : MessagePack) : string :=
  firstNonEmpty [get_str pk.(mp_Wire).(wire_Namespaces) "soapenv"; SOAP11Namespace].
Definition g2s_ns (pk : MessagePack) : string :=
  firstNonEmpty [get_str pk.(mp_Wire).(wire_Namespaces) "g2s"; "urn:g2s:lab"].

(** A message in a SOAP envelope. *)
Definition envelope_doc (soap ns op : string) (fields : list (string * string)) : xml_doc :=
  Element ("soapenv", "Envelope") [mkXmlAttr ("xmlns", "soapenv") soap; mkXmlAttr ("xmlns", "g2s") ns]
    [Element ("soapenv", "Body") [] [Element ("g2s", op) [] (map (λ f, Leaf ("g2s", f.1) [] f.2) fields)]].
Definition legacy_doc (pk : MessagePack) (op : string) (fields : list (string * string)) : xml_doc :=
  envelope_doc (soap_ns pk) (g2s_ns pk) op fields.

(** What the four renderers pass on. *)
Definition op_attrs (cfg : Config) (op : string) : gmap string string :=
  if bool_decide (op = "commsOnLine") then
    list_to_map [("equipmentType", "G2S_egm"); ("egmLocation", cfg.(cfg_G2SXML).(gx_EGMLocation));
      ("deviceReset", "false"); ("deviceChanged", "false"); ("subscriptionLost", "false"); ("metersReset", "false")]
  else if bool_decide (op = "getDescriptor") then
    list_to_map [("includeOwners", "true"); ("includeConfigs", "true"); ("includeGuests", "true"); ("includeOthers", "true")]
  else if bool_decide (op = "setKeepAlive") then {[ "interval" := itoa cfg.(cfg_SessionEngine).(se_KeepAliveIntervalMS) ]}
  else ∅.
Definition op_fields (cfg : Config) (op sid : string) : list (string * string) :=
  identifiers cfg sid ++
  (if bool_decide (op = "setKeepAlive")
   then [("keepAliveIntervalMS", itoa cfg.(cfg_SessionEngine).(se_KeepAliveIntervalMS))] else []).

(** Printable characters of ASCII without a meaning in XML. *)
Definition plain_byte (c : ascii) : bool :=
  byte_in 33 126 c && negb (bool_decide (c ∈ ["034"%char; "'"%char; "&"%char; "<"%char; ">"%char])).

(** Identifiers that the configured form of the messages carries: the G2S form
    escapes, the SOAP form does not. *)
Definition sayable (w : Server) : Prop :=
  let cfg := w.(sv_cfg) in
  cfg.(cfg_HostID) ≠ "" ∧ cfg.(cfg_EGMID) ≠ "" ∧
  if shouldRenderXSDG2SMessage cfg then
    xml_text (message_ns cfg) && xml_text cfg.(cfg_HostID) && xml_text cfg.(cfg_EGMID)
    && xml_text cfg.(cfg_G2SXML).(gx_EGMLocation) = true
  else
    all_bytes plain_byte cfg.(cfg_HostID) && all_bytes plain_byte cfg.(cfg_EGMID)
    && all_bytes plain_byte cfg.(cfg_InstanceID) && all_bytes plain_byte (g2s_ns w.(sv_pack)) = true ∧
    soap_ns w.(sv_pack) ∈ [SOAP11Namespace; SOAP12Namespace].

(** ** Lemmas: plain text *)

Lemma plain_byte_text c s :
  plain_byte c = true →
  byte_in 128 255 c = false ∧ escape_rune c s 1 = None ∧ space_len (String c s) = 0.
Proof. destruct c as [[] [] [] [] [] [] [] []]; intros H; try (by exfalso; vm_compute in H); split_and!; try reflexivity; by destruct s as [|? []]. Qed.

Lemma plain_value s :
  all_bytes plain_byte s = true → xmlEscape s = s ∧ xml_text s = true ∧ TrimSpace s = s.
Proof.
  intros H. assert (Hr : trim_space_right s = s ∧ trim_space_left_go 0 s = s ∧ (s ≠ "" → all_space_go 0 s = false)).
  { induction s as [|c s IH]; [done|]. cbn [all_bytes] in H. apply andb_true_iff in H as [Hc Hs].
    destruct (plain_byte_text c s Hc) as (_ & _ & Hsp). destruct (IH Hs) as (Hr & _ & _).
    assert (Ha : all_space_go 0 (String c s) = false) by (cbn [all_space_go]; by rewrite Hsp).
    split_and!; [|cbn [trim_space_left_go]; by rewrite Hsp|done].
    cbn [trim_space_right]. by rewrite Ha, Hr. }
  destruct Hr as (Hr & Hl & _). split_and!; [| |unfold TrimSpace; by rewrite Hl, Hr].
  - clear Hr Hl. unfold xmlEscape. induction s as [|c s IH]; [done|]. cbn [all_bytes] in H. apply andb_true_iff in H as [Hc Hs].
    destruct (plain_byte_text c s Hc) as (Ha & He & _). cbn [escape_go]. rewrite rune_len_ascii, He by done.
    by rewrite Nat.sub_diag, IH.
  - clear Hr Hl. unfold xml_text. induction s as [|c s IH]; [done|]. cbn [all_bytes] in H. apply andb_true_iff in H as [Hc Hs].
    destruct (plain_byte_text c s Hc) as (Ha & He & _). cbn [xml_text_go]. rewrite rune_len_ascii, He by done.
    by rewrite Nat.sub_diag, IH.
Qed.

Lemma all_bytes_free p s : (∀ c, p c = false → free_of c s = true) → all_bytes p s = true.
Proof.
  induction s as [|c s IH]; intros H; [done|]. cbn [all_bytes]. destruct (p c) eqn:Hc.
  - apply IH. intros d Hd. specialize (H d Hd). cbn in H. by apply andb_true_iff in H as [_ ?].
  - specialize (H c Hc). cbn in H. by rewrite bool_decide_eq_true_2 in H.
Qed.

Lemma itoa_plain z : all_bytes plain_byte (itoa z) = true.
Proof.
  apply all_bytes_free. intros c Hc. apply itoa_free. destruct (numeral_byte c) eqn:Hn; [|done].
  exfalso. revert Hc Hn. by destruct c as [[] [] [] [] [] [] [] []].
Qed.

Lemma concat_plain l : Forall (λ s, all_bytes plain_byte s = true) l → all_bytes plain_byte (String.concat "" l) = true.
Proof.
  induction 1 as [|s l Hs Hl IH]; [done|]. destruct l as [|t l]; [done|].
  change (String.concat "" (s :: t :: l)) with (s +:+ "" +:+ String.concat "" (t :: l)).
  rewrite !all_bytes_app, Hs, IH. done.
Qed.

Lemma pad_plain n z : all_bytes plain_byte (pad n z) = true.
Proof.
  unfold pad. cbv zeta. rewrite all_bytes_app, itoa_plain, andb_true_r. apply concat_plain, Forall_forall.
  by intros s [-> _]%elem_of_replicate.
Qed.

Lemma trim_right_plain c s : all_bytes plain_byte s = true → all_bytes plain_byte (trim_right_char c s) = true.
Proof.
  induction s as [|d s IH]; [done|]. cbn [all_bytes trim_right_char]. intros [Hd Hs]%andb_true_iff.
  specialize (IH Hs). destruct (trim_right_char c s); [|cbn [all_bytes] in *; by rewrite Hd].
  case_bool_decide; [done|]. cbn. by rewrite Hd.
Qed.

Lemma time_plain t : all_bytes plain_byte (RFC3339Nano t) = true.
Proof.
  unfold RFC3339Nano. destruct (civil_from_days _) as [[y m] d]. rewrite !all_bytes_app, !pad_plain.
  destruct (bool_decide _); [done|]. rewrite all_bytes_app, trim_right_plain by apply pad_plain. done.
Qed.

(** ** Lemmas: the printed documents *)

Lemma put_attrs_eq attrs k : foldr (put_attr "034") k (attr_list attrs) = writeXMLAttrs attrs +:+ k.
Proof.
  unfold writeXMLAttrs, attr_list. fold (attr_keys attrs). induction (attr_keys attrs) as [|n keys IH]; [done|].
  cbn [map foldr]. rewrite IH. unfold put_attr, put_name. cbn [xa_Name xa_Value fst snd].
  rewrite bool_decide_eq_true_2 by done. set (v := xmlEscape (get_str attrs n)).
  assert (Hc : ∀ s l, String.concat "" (s :: l) = s +:+ String.concat "" l).
  { intros s [|t l]; [cbn; by rewrite string_app_nil_r|done]. }
  rewrite Hc, <-!string_app_assoc. done.
Qed.

Lemma xsd_message_doc cfg at_ op attrs : xsd_message cfg at_ op attrs = put_doc "034" (xsd_doc cfg at_ op attrs) "".
Proof.
  unfold xsd_message, xsd_doc. fold (message_ns cfg) (body_attrs (cfg_HostID cfg) (cfg_EGMID cfg) (RFC3339Nano at_)).
  cbn [put_doc foldr]. unfold put_open. rewrite !put_attrs_eq. unfold put_close, put_name, put_attr.
  cbn [foldr fst snd xa_Name xa_Value]. unfold put_name. cbn [fst snd].
  rewrite !bool_decide_eq_false_2 by done. reflexivity.
Qed.

Lemma legacy_message_doc pk op fields :
  xmlEscape (soap_ns pk) = soap_ns pk → xmlEscape (g2s_ns pk) = g2s_ns pk →
  Forall (λ f, xmlEscape f.2 = f.2) fields →
  legacy_message pk op fields = put_doc "034" (legacy_doc pk op fields) "".
Proof.
  intros Hs Hg Hf. unfold legacy_message, legacy_doc, envelope_doc. fold (soap_ns pk) (g2s_ns pk).
  assert (Hfields : ∀ k, foldr (put_doc "034") k (map (λ f, Leaf ("g2s", f.1) [] f.2) fields)
    = String.concat "" (map (λ f, legacy_field f.1 f.2) fields) +:+ k).
  { intros k. induction Hf as [|[n v] fields Hv Hf IH]; [done|]. cbn [map foldr]. rewrite IH.
    assert (Hc : ∀ s l, String.concat "" (s :: l) = s +:+ String.concat "" l).
    { intros s [|t l]; [cbn; by rewrite string_app_nil_r|done]. }
    rewrite Hc. cbn [put_doc fst snd] in *. rewrite Hv. unfold legacy_field, put_open, put_close, put_name.
    cbn [foldr fst snd]. rewrite !bool_decide_eq_false_2 by done. by rewrite <-!string_app_assoc. }
  cbn [put_doc foldr]. rewrite Hfields. unfold put_open, put_close. cbn [foldr]. unfold put_attr.
  cbn [xa_Name xa_Value]. rewrite Hs, Hg. unfold put_name. cbn [fst snd].
  rewrite !bool_decide_eq_false_2 by done. reflexivity.
Qed.

Lemma attr_keys_elem attrs k :
  k ∈ attr_keys attrs → is_Some (attrs !! k) ∧ k ≠ "".
Proof.
  unfold attr_keys. rewrite sort_strings_perm. intros ([k' v] & -> & Hk)%list_elem_of_fmap.
  apply elem_of_map_to_list, map_lookup_filter_Some in Hk as [Hk [Hne _]]. split; [by exists v|done].
Qed.

Lemma attr_list_ok attrs :
  map_Forall (λ k v, simple_name k = true ∧ xml_text v = true) attrs → forallb attr_ok (attr_list attrs) = true.
Proof.
  intros H. apply forallb_forall. intros a (k & <- & Hk)%in_map_iff. apply list_elem_of_In in Hk.
  apply attr_keys_elem in Hk as [[v Hv] _]. destruct (H k v Hv) as [Hn Hx].
  unfold attr_ok, name_ok, get_str. cbn. by rewrite Hv, Hn.
Qed.

Lemma op_attrs_ok cfg op :
  xml_text cfg.(cfg_G2SXML).(gx_EGMLocation) = true →
  map_Forall (λ k v, simple_name k = true ∧ xml_text v = true) (op_attrs cfg op).
Proof.
  intros Hl. unfold op_attrs. repeat case_bool_decide;
    intros k v Hk; cbn [list_to_map foldr fst snd uncurry] in Hk;
    rewrite ?lookup_insert_Some, ?lookup_empty, ?lookup_singleton_Some in Hk;
    repeat destruct Hk as [[<- <-]|[_ Hk]]; try done.
  destruct Hk as [<- <-]. split; [done|]. apply plain_value, itoa_plain.
Qed.

Lemma xsd_doc_ok cfg at_ op :
  op ∈ session_operations → cfg.(cfg_HostID) ≠ "" → cfg.(cfg_EGMID) ≠ "" →
  xml_text (message_ns cfg) && xml_text cfg.(cfg_HostID) && xml_text cfg.(cfg_EGMID)
    && xml_text cfg.(cfg_G2SXML).(gx_EGMLocation) = true →
  doc_ok (xsd_doc cfg at_ op (op_attrs cfg op)) = true.
Proof.
  intros Hop Hh He H. bool_props. unfold xsd_doc. cbn [doc_ok forallb].
  rewrite !attr_list_ok; [|by apply op_attrs_ok|].
  - unfold attr_ok. cbn [xa_Value]. unfold session_operations in Hop. rewrite !elem_of_cons in Hop.
    assert (Hname : name_ok ("g2s"%string, op) = true) by (repeat destruct Hop as [->|Hop]; try done; by apply elem_of_nil in Hop).
    rewrite Hname. repeat (apply andb_true_intro; split); done.
  - intros k v Hk. unfold body_attrs in Hk. rewrite !lookup_insert_Some, lookup_singleton_Some in Hk.
    destruct Hk as [[<- <-]|[_ [[<- <-]|[_ [<- <-]]]]]; split; try done. apply plain_value, time_plain.
Qed.

(** ** Lemmas: what the parser finds *)

(** The attributes of the two root elements are not looked at. *)
Lemma parse_root_attrs local space attrs rest :
  local ∈ ["Envelope"; "g2sMessage"] →
  parse_tokens (StartElement local space attrs :: rest) [] empty_parsed
  = parse_tokens (StartElement local space [] :: rest) [] empty_parsed.
Proof. rewrite !elem_of_cons, elem_of_nil. by intros [->|[->|[]]]. Qed.

Definition attr_tokens (attrs : gmap string string) : list attr :=
  map (λ k, mkAttr k (get_str attrs k)) (attr_keys attrs).

Lemma attr_list_tokens attrs : map (λ a, mkAttr a.(xa_Name).2 a.(xa_Value)) (attr_list attrs) = attr_tokens attrs.
Proof. unfold attr_list, attr_tokens. by rewrite map_map. Qed.

Lemma bind_attr_list ns attrs : attrs !! "xmlns" = None → bind_attrs ns (attr_list attrs) = ns.
Proof.
  intros Hx. unfold bind_attrs, attr_list.
  assert (H : Forall (λ k, k ≠ "xmlns") (attr_keys attrs)).
  { apply Forall_forall. intros k [[v Hv] _]%attr_keys_elem ->. congruence. }
  induction H as [|k keys Hk _ IH]; [done|]. cbn [map foldl]. unfold bind_attr at 2. cbn [xa_Name fst snd].
  rewrite bool_decide_eq_false_2 by done. rewrite bool_decide_eq_false_2 by congruence. exact IH.
Qed.

Lemma start_token_at ns p local attrs :
  p ≠ "xmlns" → p ≠ "xml" → p ≠ "" → ∀ space, ns !! p = Some space →
  start_token ns (p, local) attrs = StartElement local space (map (λ a, mkAttr a.(xa_Name).2 a.(xa_Value)) attrs).
Proof.
  intros H1 H2 H3 space Hs. unfold start_token, translate. cbn [fst snd].
  rewrite !bool_decide_eq_false_2 by congruence. by rewrite Hs.
Qed.

Lemma xsd_doc_tokens cfg at_ op attrs :
  cfg.(cfg_HostID) ≠ "" → cfg.(cfg_EGMID) ≠ "" → attrs !! "xmlns" = None →
  let ns := message_ns cfg in
  doc_tokens ∅ (xsd_doc cfg at_ op attrs)
  = StartElement "g2sMessage" ns [mkAttr "g2s" ns]
    :: tail (xsd_tokens ns cfg.(cfg_HostID) cfg.(cfg_EGMID) (RFC3339Nano at_) "communications" op (attr_tokens attrs)).
Proof.
  intros Hh He Hx ns. unfold xsd_doc. cbn [doc_tokens]. fold ns.
  change (bind_attrs ∅ [mkXmlAttr ("xmlns", "g2s") ns]) with ({[ "g2s" := ns ]} : gmap string string).
  set (nss := {[ "g2s" := ns ]} : gmap string string).
  assert (Hn : nss !! "g2s" = Some ns) by (apply lookup_singleton_eq).
  cbn [map concat doc_tokens app].
  rewrite (bind_attr_list nss (body_attrs _ _ _)) by done. change (bind_attrs nss []) with nss.
  rewrite (bind_attr_list nss attrs) by done.
  rewrite !(start_token_at nss "g2s" _ _ ltac:(done) ltac:(done) ltac:(done) ns Hn), !attr_list_tokens.
  unfold attr_tokens at 1. rewrite body_keys by (done || apply RFC3339Nano_ne). reflexivity.
Qed.

Lemma copyAttrs_other fields attrs k :
  k ∉ map attr_Local attrs → get_str (copyAttrs fields attrs) k = get_str fields k.
Proof.
  unfold copyAttrs. revert fields. induction attrs as [|a attrs IH]; intros fields Hk; [done|].
  cbn [map foldl] in *. apply not_elem_of_cons in Hk as [Ha Hk]. rewrite IH by done.
  unfold get_str. by rewrite lookup_insert_ne.
Qed.

Lemma attr_tokens_names attrs k : attrs !! k = None → k ∉ map attr_Local (attr_tokens attrs).
Proof.
  intros Hk. unfold attr_tokens. rewrite map_map. cbn. rewrite map_id. intros [[v Hv] _]%attr_keys_elem. congruence.
Qed.

Lemma envelope_doc_tokens soap ns op fields :
  Forall (λ f, f.2 ≠ "") fields →
  doc_tokens ∅ (envelope_doc soap ns op fields)
  = StartElement "Envelope" soap [mkAttr "soapenv" soap; mkAttr "g2s" ns] :: tail (legacy_tokens soap ns op fields).
Proof.
  intros Hf. unfold envelope_doc. cbn [doc_tokens map concat].
  set (nss := bind_attrs ∅ _).
  assert (Hs : nss !! "soapenv" = Some soap) by reflexivity.
  assert (Hg : nss !! "g2s" = Some ns) by reflexivity.
  cbn [map concat doc_tokens app]. do 2 change (bind_attrs nss []) with nss.
  rewrite !(start_token_at nss "soapenv" _ _ ltac:(done) ltac:(done) ltac:(done) _ Hs).
  rewrite !(start_token_at nss "g2s" _ _ ltac:(done) ltac:(done) ltac:(done) _ Hg).
  assert (Hleaves : concat (map (doc_tokens nss) (map (λ f, Leaf ("g2s", f.1) [] f.2) fields))
    = concat (map (field_tokens ns) fields)).
  { rewrite map_map. induction Hf as [|[k v] fields Hv Hf IH]; [done|]. cbn [map concat] in *. rewrite IH.
    cbn [doc_tokens fst snd] in *. change (bind_attrs nss []) with nss.
    rewrite (start_token_at nss "g2s" _ _ ltac:(done) ltac:(done) ltac:(done) _ Hg).
    by rewrite bool_decide_eq_false_2. }
  rewrite Hleaves. unfold legacy_tokens. cbn [app tail map xa_Name xa_Value snd]. by rewrite <-!app_assoc.
Qed.

(** What makes an envelope readable. *)
Definition leaf_ok (f : string * string) : Prop :=
  simple_name f.1 = true ∧ plain_element f.1 ∧ xml_text f.2 = true ∧ f.2 ≠ "".

Lemma envelope_doc_ok soap ns op fields :
  simple_name op = true → xml_text soap = true → xml_text ns = true → Forall leaf_ok fields →
  doc_ok (envelope_doc soap ns op fields) = true.
Proof.
  intros Hop Hs Hg Hf.
  assert (Hleaves : forallb doc_ok (map (λ f, Leaf ("g2s"%string, f.1) [] f.2) fields) = true).
  { apply forallb_forall. intros d (f & <- & H)%in_map_iff. apply list_elem_of_In in H.
    rewrite Forall_forall in Hf. destruct (Hf f H) as (H1 & _ & H2 & _). cbn [doc_ok forallb].
    unfold name_ok. cbn [fst snd]. by rewrite H1, H2. }
  unfold envelope_doc. cbn [doc_ok forallb]. unfold attr_ok, name_ok. cbn [xa_Name xa_Value fst snd].
  by rewrite Hs, Hg, Hop, Hleaves.
Qed.

Lemma add_field_plain p k v :
  TrimSpace v = v → v ≠ "" → (add_field p (k, v)).(pe_Fields) = <[k := v]> p.(pe_Fields).
Proof.
  intros Ht Hv. unfold add_field, char_data. cbn [fst snd]. rewrite Ht. cbv zeta.
  rewrite bool_decide_eq_false_2 by done. by repeat case_bool_decide.
Qed.

Lemma add_fields_plain fields p :
  Forall (λ f, TrimSpace f.2 = f.2 ∧ f.2 ≠ "") fields →
  (foldl add_field p fields).(pe_Fields) = foldl (λ m f, <[f.1 := f.2]> m) p.(pe_Fields) fields.
Proof.
  intros H. revert p. induction H as [|[k v] fields [Ht Hv] _ IH]; intros p; [done|].
  cbn [foldl fst snd] in *. by rewrite IH, add_field_plain.
Qed.

(** What a message says of its sender. *)
Record says (w : Server) (op sid : string) (m : ParsedG2SMessage) : Prop := {
  says_operation : m.(pm_RootLocalName) = op;
  says_host : wire_host m = w.(sv_cfg).(cfg_HostID);
  says_egm cfg : wire_egm m cfg = w.(sv_cfg).(cfg_EGMID);
  says_session w' t : wire_session m w' t
    = if shouldRenderXSDG2SMessage w.(sv_cfg) then default_session w' t else sid;
}.

Lemma says_intro w op sid m :
  m.(pm_RootLocalName) = op → w.(sv_cfg).(cfg_HostID) ≠ "" → w.(sv_cfg).(cfg_EGMID) ≠ "" →
  get_str m.(pm_Fields) "hostId" = w.(sv_cfg).(cfg_HostID) →
  get_str m.(pm_Fields) "egmId" = w.(sv_cfg).(cfg_EGMID) →
  (if shouldRenderXSDG2SMessage w.(sv_cfg)
   then get_str m.(pm_Fields) "sessionId" = "" ∧ get_str m.(pm_Fields) "session_id" = ""
   else get_str m.(pm_Fields) "sessionId" = sid ∧ sid ≠ "") →
  says w op sid m.
Proof.
  intros Ho Hh He H1 H2 H3. split; [done| | |]; unfold wire_host, wire_egm; intros.
  - rewrite H1. cbn. by rewrite bool_decide_eq_false_2.
  - rewrite H2. cbn. by rewrite bool_decide_eq_false_2.
  - destruct (shouldRenderXSDG2SMessage (sv_cfg w)); destruct H3 as [H3 H4].
    + unfold wire_session. rewrite H3, H4. simpl. by rewrite (bool_decide_eq_false_2 (default_session w' t = "")) by apply default_session_ne.
    + rewrite <-H3. apply wire_session_given. congruence.
Qed.

Lemma session_operation_plain op : op ∈ session_operations → plain_element op.
Proof. unfold session_operations. rewrite !elem_of_cons, elem_of_nil. by intros [->|[->|[->|[->|[]]]]]. Qed.

Section arrival.
Context (clock : nat → Z) (name_rune : bool → string → bool) (late : option string).

Let Decode := Decode name_rune late.

Lemma parse_message toks p :
  parse_tokens toks [] empty_parsed = Ok p → p.(pe_OperationName) ≠ "" →
  ∃ m, ParseG2SMessage (mkStream toks None) = Ok m ∧ m.(pm_RootLocalName) = p.(pe_OperationName) ∧
    m.(pm_Fields) = p.(pe_Fields).
Proof.
  intros Hp Ho. unfold ParseG2SMessage, ParseG2SEnvelope. cbn [xs_tokens xs_error]. rewrite Hp.
  cbn [mbind result_bind]. rewrite bool_decide_eq_false_2 by done. cbn [mbind result_bind].
  eexists. split; [reflexivity|]. cbn [pm_RootLocalName pm_Fields].
  case_bool_decide; cbn [set_kind pe_OperationName pe_RawRoot pe_Fields firstNonEmpty];
    by rewrite bool_decide_eq_false_2.
Qed.

Lemma op_attrs_none cfg op k :
  op ∈ session_operations → k ∈ ["xmlns"; "hostId"; "egmId"; "sessionId"; "session_id"] → op_attrs cfg op !! k = None.
Proof.
  unfold session_operations, op_attrs. generalize (gx_EGMLocation (cfg_G2SXML cfg)),
    (itoa (se_KeepAliveIntervalMS (cfg_SessionEngine cfg))). intros location interval.
  intros Hop Hk. rewrite !elem_of_cons, elem_of_nil in Hop. rewrite !elem_of_cons, elem_of_nil in Hk.
  destruct Hop as [->|[->|[->|[->|[]]]]], Hk as [->|[->|[->|[->|[->|[]]]]]]; reflexivity.
Qed.

Lemma xsd_fields host egm time attrs :
  attrs !! "hostId" = None → attrs !! "egmId" = None → attrs !! "sessionId" = None → attrs !! "session_id" = None →
  let fields := copyAttrs {[ "dateTimeSent" := time; "egmId" := egm; "hostId" := host ]} (attr_tokens attrs) in
  get_str fields "hostId" = host ∧ get_str fields "egmId" = egm ∧ get_str fields "sessionId" = "" ∧
  get_str fields "session_id" = "".
Proof. intros H1 H2 H3 H4. cbv zeta. by rewrite !copyAttrs_other by (by apply attr_tokens_names). Qed.

Lemma xsd_parsed ns host egm time op attrs :
  plain_element op → attrs !! "hostId" = None → attrs !! "egmId" = None → attrs !! "sessionId" = None →
  attrs !! "session_id" = None →
  ∃ m, ParseG2SMessage (mkStream (StartElement "g2sMessage" ns [mkAttr "g2s" ns]
      :: tail (xsd_tokens ns host egm time "communications" op (attr_tokens attrs))) None) = Ok m ∧
    m.(pm_RootLocalName) = op ∧ get_str m.(pm_Fields) "hostId" = host ∧ get_str m.(pm_Fields) "egmId" = egm ∧
    get_str m.(pm_Fields) "sessionId" = "" ∧ get_str m.(pm_Fields) "session_id" = "".
Proof.
  intros Hplain H1 H2 H3 H4.
  assert (Hp := parse_xsd_tokens ns host egm time "communications" op (attr_tokens attrs)
    ltac:(by repeat split) eq_refl Hplain).
  pose proof (eq_trans (parse_root_attrs "g2sMessage" _ [mkAttr "g2s" ns] _ ltac:(by right; left)) Hp) as Hp'.
  destruct (parse_message _ _ Hp' ltac:(by destruct Hplain)) as (m & Hm & Hr & Hf). exists m.
  split; [exact Hm|]. split; [exact Hr|]. rewrite Hf. by apply xsd_fields.
Qed.

(** A message in the G2S form. *)
Lemma xsd_arrives w at_ op sid :
  op ∈ session_operations → shouldRenderXSDG2SMessage w.(sv_cfg) = true → sayable w →
  ∃ m, ParseG2SMessage (Decode (xsd_message w.(sv_cfg) at_ op (op_attrs w.(sv_cfg) op))) = Ok m ∧ says w op sid m.
Proof.
  intros Hop Hx (Hh & He & H). rewrite Hx in H. rewrite xsd_message_doc. unfold Decode.
  rewrite (Decode_doc _ _ "034") by (by left || by apply xsd_doc_ok).
  pose proof (λ k, op_attrs_none (sv_cfg w) op k Hop) as Hnone.
  rewrite xsd_doc_tokens by (first [assumption | apply Hnone; by left]).
  destruct (xsd_parsed (message_ns (sv_cfg w)) (cfg_HostID (sv_cfg w)) (cfg_EGMID (sv_cfg w)) (RFC3339Nano at_) op
    (op_attrs (sv_cfg w) op)) as (m & Hm & Hr & H1 & H2 & H3 & H4);
    [by apply session_operation_plain|apply Hnone; set_solver..|].
  exists m. split; [exact Hm|]. apply says_intro; try assumption. by rewrite Hx.
Qed.

(** A message in a SOAP envelope, as the decoder and the parser take it in. *)
Lemma envelope_parsed mark soap ns op fields :
  mark ∈ quote_marks → soap ∈ soap_namespaces → xml_text soap = true → xml_text ns = true →
  simple_name op = true → plain_element op → Forall leaf_ok fields →
  let toks := Decode (put_doc mark (envelope_doc soap ns op fields) "") in
  toks.(xs_error) = None ∧
  parse_tokens toks.(xs_tokens) [] empty_parsed = Ok (foldl add_field (legacy_start soap ns op) fields).
Proof.
  intros Hm Hs Hs' Hn Hop Hplain Hf. cbv zeta. unfold Decode.
  rewrite (Decode_doc _ _ mark) by (done || by apply envelope_doc_ok). cbn [xs_tokens xs_error]. split; [done|].
  rewrite envelope_doc_tokens by (eapply Forall_impl; [exact Hf|by intros f (_ & _ & _ & ?)]).
  rewrite <-(parse_legacy_tokens soap ns op fields Hs Hplain);
    [|eapply Forall_impl; [exact Hf|by intros f (_ & ? & _)]].
  apply (parse_root_attrs "Envelope"). by left.
Qed.

Lemma identifier_fields cfg op sid :
  let fields : gmap string string := foldl (λ m f, <[f.1 := f.2]> m) ∅ (op_fields cfg op sid) in
  get_str fields "hostId" = cfg.(cfg_HostID) ∧ get_str fields "egmId" = cfg.(cfg_EGMID) ∧
  get_str fields "sessionId" = sid.
Proof.
  cbv zeta. unfold op_fields, identifiers.
  generalize (cfg_HostID cfg), (cfg_EGMID cfg), (itoa (se_KeepAliveIntervalMS (cfg_SessionEngine cfg))).
  intros host egm interval. case_bool_decide; split_and!; reflexivity.
Qed.

(** A message in the SOAP form. *)
Lemma legacy_arrives w op sid :
  op ∈ session_operations → shouldRenderXSDG2SMessage w.(sv_cfg) = false → sayable w →
  all_bytes plain_byte sid = true → sid ≠ "" →
  ∃ m, ParseG2SMessage (Decode (legacy_message w.(sv_pack) op (op_fields w.(sv_cfg) op sid))) = Ok m ∧ says w op sid m.
Proof.
  intros Hop Hx (Hh & He & H) Hsid Hne. rewrite Hx in H. destruct H as [H Hsoap]. bool_props.
  set (fields := op_fields (sv_cfg w) op sid).
  assert (Hv : Forall (λ f, all_bytes plain_byte f.2 = true ∧ f.2 ≠ "") fields).
  { unfold fields, op_fields, identifiers. apply Forall_app. split; [by repeat constructor|].
    case_bool_decide; [|done]. repeat constructor; [apply itoa_plain|apply itoa_ne]. }
  assert (Hsp : all_bytes plain_byte (soap_ns (sv_pack w)) = true)
    by (rewrite !elem_of_cons, elem_of_nil in Hsoap; by destruct Hsoap as [->|[->|[]]]).
  destruct (plain_value _ Hsp) as (Hs1 & Hs2 & _). destruct (plain_value (g2s_ns (sv_pack w)) ltac:(done)) as (Hg1 & Hg2 & _).
  rewrite legacy_message_doc; [|done..|].
  2: { eapply Forall_impl; [exact Hv|]. intros f [Hf _]. by apply plain_value. }
  assert (Hnames : Forall (λ f, simple_name f.1 = true ∧ plain_element f.1) fields).
  { unfold fields, op_fields, identifiers. apply Forall_app. split; [by repeat constructor|].
    case_bool_decide; by repeat constructor. }
  assert (Hname : simple_name op = true).
  { unfold session_operations in Hop. rewrite !elem_of_cons, elem_of_nil in Hop. by destruct Hop as [->|[->|[->|[->|[]]]]]. }
  destruct (envelope_parsed "034" (soap_ns (sv_pack w)) (g2s_ns (sv_pack w)) op fields) as [He' Hp]; [by left| |done|done| | | |].
  { unfold soap_namespaces. by right. }
  { done. }
  { by apply session_operation_plain. }
  { rewrite Forall_forall in Hv, Hnames |- *. intros f Hf. destruct (Hv f Hf), (Hnames f Hf). split_and!; try done. by apply plain_value. }
  fold (legacy_doc (sv_pack w) op fields) in He', Hp. destruct (Decode _) as [toks err]. cbn [xs_tokens xs_error] in *. subst err.
  destruct (parse_message _ _ Hp) as (m & Hm & Hr & Hf); [rewrite add_fields_operation; by destruct (session_operation_plain op Hop)|].
  rewrite add_fields_operation in Hr. rewrite add_fields_plain in Hf.
  2: { eapply Forall_impl; [exact Hv|]. intros f [Hf1 Hf2]. split; [by apply plain_value|done]. }
  exists m. split; [exact Hm|]. destruct (identifier_fields (sv_cfg w) op sid) as (H5 & H6 & H7).
  apply says_intro; rewrite ?Hf; try assumption. by rewrite Hx.
Qed.
End arrival.

(** ** Messages arrive *)

Lemma render_operation clock op sid w :
  op ∈ session_operations →
  renderConfiguredOutboundBody clock op sid w
  = render_message clock op (op_attrs w.(sv_cfg) op) (op_fields w.(sv_cfg) op sid) w.
Proof.
  unfold session_operations. rewrite !elem_of_cons, elem_of_nil.
  by intros [->|[->|[->|[->|[]]]]].
Qed.

(** Session identifiers that the configured form of the messages can carry. *)
Definition sayable_session (w : Server) (sid : string) : Prop :=
  shouldRenderXSDG2SMessage w.(sv_cfg) = true ∨ (all_bytes plain_byte sid = true ∧ sid ≠ "").

Lemma spoken_arrives clock name_rune late w op sid body :
  op ∈ session_operations → sayable w → sayable_session w sid → spoken clock w op sid body →
  ∃ m, ParseG2SMessage (Decode name_rune late body) = Ok m ∧ says w op sid m.
Proof.
  intros Hop Hw Hsid (w0 & Hc & Hp & ->). rewrite render_operation, Hc by done. unfold render_message.
  rewrite M_bind_eq. cbn [gets fst snd]. rewrite Hc. destruct (shouldRenderXSDG2SMessage (sv_cfg w)) eqn:Hx.
  - unfold renderXSDCommunicationsMessage. rewrite !M_bind_eq. cbn [gets Now mret M_ret fst snd]. rewrite Hc. by apply xsd_arrives.
  - rewrite M_bind_eq. cbn [gets mret M_ret fst snd]. rewrite Hp. destruct Hsid as [Hs|[Hs Hne]]; [congruence|].
    by apply legacy_arrives.
Qed.

(** The sessions that a process opens. *)
Lemma own_session a t : sayable a → sayable_session a (default_session a t).
Proof.
  intros (_ & _ & H). unfold sayable_session. destruct (shouldRenderXSDG2SMessage (sv_cfg a)); [by left|].
  right. destruct H as [H _]. bool_props. split; [|apply default_session_ne].
  unfold default_session. rewrite !all_bytes_app, itoa_plain, H1. done.
Qed.


(** ** Theorem *)

(** C9. What a process says is understood: each message of a session, in the form
    and with the identifiers that are configured, is decoded and parsed by the
    receiver as that operation from that host identifier and that machine; the
    SOAP form carries the session as well, the G2S form leaves it to the receiver
    to name it. Whatever XML means in the identifiers of the G2S form is escaped. *)
Theorem message_arrives clock name_rune late w op sid :
  op ∈ session_operations → sayable w → sayable_session w sid →
  ∃ m, ParseG2SMessage (Decode name_rune late (renderConfiguredOutboundBody clock op sid w).1) = Ok m ∧
    says w op sid m.
Proof. intros Hop Hw Hsid. apply (spoken_arrives clock); [done..|]. by exists w. Qed.

(** ** Witness *)

(** The two forms, the G2S form with identifiers that XML has to escape. *)
Definition speaker (mode host : string) : Server :=
  set_sv_cfg (set_cfg_G2SXML (mkG2SXML mode "" "") (set_cfg_HostID host example_config)) example_server.

Lemma message_arrives_witness :
  let heard mode host :=
    match ParseG2SMessage (Decode (λ _ _, false) None
      (renderConfiguredOutboundBody Z.of_nat "keepAlive" "S-1" (speaker mode host)).1) with
    | Ok m => (m.(pm_RootLocalName), wire_host m, get_str m.(pm_Fields) "sessionId")
    | Err _ => ("", "", "")
    end in
  heard "xsd_g2s_message" "A & <B>" = ("keepAlive", "A & <B>", "") ∧
  heard "" "HOST-001" = ("keepAlive", "HOST-001", "S-1").
Proof.
  assert (H : ∀ mode host, (mode = "xsd_g2s_message" ∧ host = "A & <B>") ∨ (mode = "" ∧ host = "HOST-001") →
    sayable (speaker mode host) ∧ sayable_session (speaker mode host) "S-1").
  { intros mode host [[-> ->]|[-> ->]]; (split; [split_and!; [done|done|]|]).
    - vm_compute. reflexivity.
    - by left.
    - split; [vm_compute; reflexivity|by left].
    - by right. }
  assert (Hop : "keepAlive" ∈ session_operations) by (unfold session_operations; set_solver).
  cbv zeta. split.
  - destruct (H "xsd_g2s_message" "A & <B>") as [Hw Hs]; [by left|].
    destruct (message_arrives Z.of_nat (λ _ _, false) None _ "keepAlive" "S-1" Hop Hw Hs) as (m & Hm & [Ho Hh _ _]).
    vm_compute in Hm. injection Hm as <-. vm_compute. reflexivity.
  - destruct (H "" "HOST-001") as [Hw Hs]; [by right|].
    destruct (message_arrives Z.of_nat (λ _ _, false) None _ "keepAlive" "S-1" Hop Hw Hs) as (m & Hm & [Ho Hh _ _]).
    vm_compute in Hm. injection Hm as <-. vm_compute. reflexivity.
Defined.
