(* ===== verification/Peers.v ===== *)
(** * A process as the host of another (src/runtime/wire_restore.go,
    session_engine.go and its files)

    The requests of one engine reach the wire handler of another process, through
    [XmlText], and the answers come back the same way, on a line that may lose
    either: the two agree on their session, and reach one when the line is good. The answers may come from templates of the form that the
    message packs of the repository use. *)

From S2P Require Import Prelude GoStrings Json Config Pack Render Envelope XmlText State Control Messages XmlDoc Outbound Scheduler Session Exchange.

(** The request that carries a message. *)
Definition post (name_rune : bool → string → bool) (late : option string) (raw : string) : Request :=
  mkRequest "POST" "text/xml; charset=utf-8" (Ok (mkBytes raw (Decode name_rune late raw))) None "".

(** ** Answers from templates *)

(** The values that such a template takes over: texts that mean nothing to XML
    or to the placeholders. *)
Definition bare (s : string) : bool := all_bytes plain_byte s && plain s.

Definition field_segments (f : string * segment) : list segment :=
  [Text ("<g2s:" +:+ f.1 +:+ ">"); f.2; Text ("</g2s:" +:+ f.1 +:+ ">")].

(** The templates of example.pack.json and its variants. *)
Definition answer_segments (ack : string) (fields : list (string * segment)) : list segment :=
  [Text "<soapenv:Envelope xmlns:soapenv='"; Hole "ns.soapenv"; Text "' xmlns:g2s='"; Hole "ns.g2s";
   Text ("'><soapenv:Body><g2s:" +:+ ack +:+ ">")]
  ++ concat (map field_segments fields)
  ++ [Text ("</g2s:" +:+ ack +:+ "></soapenv:Body></soapenv:Envelope>")].

Definition request_holes : list string := ["request.hostId"; "request.egmId"; "request.sessionId"].

Definition answer_field_ok (f : string * segment) : Prop :=
  simple_name f.1 = true ∧ plain f.1 = true ∧ plain_element f.1 ∧
  match f.2 with Text s => bare s = true ∧ s ≠ "" | Hole n => n ∈ request_holes end.

Definition filled_text (env : string → option string) (x : segment) : string :=
  match fill env x with Text s => s | Hole _ => "" end.

(** ** A process as the host of another *)

(** What becomes of a request and its answer: both arrive, or the sender sees an
    error, whether the request got to the host or not. *)
Inductive delivery := Delivered | Broken (reached : bool) (error : string).

#[export] Instance delivery_eq_dec : EqDecision delivery.
Proof. solve_decision. Defined.

Section host.
Context (name_rune : bool → string → bool) (late : option string).
(** The clocks of the two processes, and the order in which the host's loops
    visit their maps. *)
Context (clock host_clock : nat → Z) (range : gmap string string → list (string * string)).

(** The connection, which may depend on all that was sent over it. *)
Context (line : list call → call → delivery).

(** What [net/http] sends of a response; [http.Error] adds a line feed. *)
Definition response_text (b : body) : string :=
  match b with BXml s => s | BText s => s +:+ newline | _ => "" end.

(** The host in the state [w] receives the request [c]. *)
Definition hear (w : Server) (c : call) : Response * Server :=
  handleWire host_clock range (post name_rune late c.(cl_Body)) w.

(** Whether the request [c], after the requests [before], gets to the host. *)
Definition reaches (before : list call) (c : call) : bool :=
  match line before c with Delivered => true | Broken reached _ => reached end.

Fixpoint heard_after (before : list call) (w : Server) (cs : list call) : Server :=
  match cs with
  | [] => w
  | c :: cs' => heard_after (before ++ [c]) (if reaches before c then (hear w c).2 else w) cs'
  end.

(** The host [w] after all the requests of the other process. *)
Definition heard (w : Server) (cs : list call) : Server := heard_after [] w cs.

(** The surroundings of a process whose requests go to the host [w]. *)
Definition hosted (w : Server) : environment :=
  mkEnvironment (λ before c,
    match line before c with
    | Broken _ e => Err e
    | Delivered =>
        let r := (hear (heard w before) c).1 in
        let t := response_text r.(rp_Body) in
        Ok (r.(rp_Status), mkBytes t (Decode name_rune late t))
    end)
    (λ _, None) (λ path, Err path) (λ _ _, Err "").

(** From the request after [cs] on, everything is delivered. *)
Definition reliable (cs : list call) : Prop := ∀ before c, cs `prefix_of` before → line before c = Delivered.

(** The session that the host [w] sees when [a] opens one: the G2S form of the
    messages does not carry the identifier, and the host makes up its own. *)
Definition seen_session (a w : Server) (t : Z) : string :=
  default_session (if shouldRenderXSDG2SMessage a.(sv_cfg) then w else a) t.

(** A text that [a] reads as the acknowledgement of the operation. *)
Definition reads_as (ack text : string) : Prop :=
  ∃ p, ParseG2SEnvelope (Decode name_rune late text) = Ok p ∧
    firstNonEmpty [p.(pe_OperationName); p.(pe_RawRoot)] = ack.

(** A variant with which the host [w] acknowledges the operation of [a]: its
    template, rendered for a session of [a], is the acknowledgement, and it shows
    no other session than an open one. *)
Record acks (a w : Server) (op : string) (v : ResponseVariant) : Prop := {
  acks_variant : variant_for w op = Some v;
  acks_status : (200 <= response_status v < 300)%Z;
  acks_answer t s :
    let request := request_fields a.(sv_cfg).(cfg_HostID) (seen_session a w t) a.(sv_cfg).(cfg_EGMID) in
    reads_as (ack_of op) (RenderTemplate_in v.(rv_Template) w.(sv_pack).(mp_Wire).(wire_Namespaces)
      (range request) (range (templateStateLocked s)));
  acks_session : field_after v.(rv_SetState) "session_state" "online" = "online";
  acks_heartbeat : field_after v.(rv_SetState) "heartbeat_state" "healthy" = "healthy";
  acks_connection : field_after v.(rv_SetState) "connection_state" "controller_connected" = "controller_connected";
}.

(** A host that admits [a] and acknowledges the operations of a session. *)
Record ready (a w : Server) : Prop := {
  ready_host : hostAllowedLocked w a.(sv_cfg).(cfg_HostID) = true;
  ready_acks : ∀ op, op ∈ session_operations → ∃ v, acks a w op v;
}.

(** What the host shows of a session. *)
Definition hosts (a : Server) (sid : string) (s : RuntimeState) : Prop :=
  s.(rs_SessionState) = "online" ∧ s.(rs_HeartbeatState) = "healthy" ∧
  s.(rs_ConnectionState) = "controller_connected" ∧ s.(rs_LastHostID) = a.(sv_cfg).(cfg_HostID) ∧
  (shouldRenderXSDG2SMessage a.(sv_cfg) = false → s.(rs_LastSessionID) = sid).

(** ** Lemmas: the host *)

Lemma post_message raw m :
  ParseG2SMessage (Decode name_rune late raw) = Ok m →
  wire_message (post name_rune late raw) = Ok (mkBytes raw (Decode name_rune late raw), m).
Proof.
  intros H. unfold wire_message. cbn [post rq_Method rq_ContentType rq_Bytes].
  rewrite bool_decide_eq_true_2 by done. change (isXMLContentType "text/xml; charset=utf-8") with true.
  cbn [negb mbind result_bind xb_stream]. by rewrite H.
Qed.

Lemma seen_session_quiet a w w' t : quiet w w' → seen_session a w' t = seen_session a w t.
Proof. intros Hq. unfold seen_session. destruct (shouldRenderXSDG2SMessage _); [|done]. unfold default_session. by rewrite (quiet_cfg _ _ Hq). Qed.

Lemma acks_quiet a w w' op v : quiet w w' → acks a w op v → acks a w' op v.
Proof.
  intros Hq [H1 H2 H3 H4 H5 H6]. split; try done.
  - unfold variant_for in *. by rewrite (quiet_pack _ _ Hq).
  - intros t s. rewrite (seen_session_quiet a w w' t Hq), (quiet_pack _ _ Hq). apply H3.
Qed.

(** A host that is ready acknowledges a message of the session, records it, and
    stays ready. *)
Lemma hear_session a w op t body :
  ready a w → sayable a → op ∈ session_operations → spoken clock a op (default_session a t) body →
  let '(r, w') := hear w (session_call a.(sv_cfg) op body) in
  (200 <= r.(rp_Status) < 300)%Z ∧ reads_as (ack_of op) (response_text r.(rp_Body)) ∧
    ready a w' ∧
    (op = "commsOnLine" ∨ hosts a (default_session a t) w.(sv_state) →
     hosts a (default_session a t) w'.(sv_state)).
Proof.
  intros [Hhost Hacks] Hsay Hop Hb. destruct (Hacks op Hop) as [v Hv]. set (sid := default_session a t) in *.
  destruct (spoken_arrives clock name_rune late a op sid body Hop Hsay (own_session a t Hsay) Hb)
    as (m & Hm & [Ho Hh He Hs]).
  unfold hear. cbn [session_call cl_Body].
  destruct (handleWire_admitted host_clock range (post name_rune late body) w _ m v (post_message _ _ Hm))
    as (w' & n & -> & Hq & Hd).
  { by rewrite Hh. }
  { rewrite Ho. by apply (acks_variant a). }
  assert (Hsess : wire_session m w (host_clock n)
    = seen_session a w (if shouldRenderXSDG2SMessage (sv_cfg a) then host_clock n else t)).
  { rewrite Hs. unfold seen_session. by destruct (shouldRenderXSDG2SMessage (sv_cfg a)). }
  rewrite Hsess, Hh, He in *. destruct Hv as [_ V2 V3 V4 V5 V6]. cbn [rp_Status rp_Body response_text].
  split; [done|]. split; [apply V3|]. split.
  - split; [|intros op' Hop'; destruct (Hacks op' Hop') as [v' Hv']; exists v'; by apply (acks_quiet a w)].
    unfold hostAllowedLocked in *. destruct (done_hosts _ _ _ _ _ _ _ Hd) as (-> & -> & ->).
    by rewrite (quiet_pack _ _ Hq), (quiet_arrays _ _ Hq).
  - intros Hbefore. destruct Hd as [D1 D2 D3 _ _ _ _ _ D4 _ _ _ _]. rewrite Ho in D2, D3.
    destruct D4 as (_ & D4 & D5). unfold hosts. rewrite D1, D2, D3, D4, D5. clear D1 D2 D3 D4 D5.
    destruct Hbefore as [->|(B1 & B2 & _)].
    + split_and!; try done. intros Hx. unfold seen_session. by rewrite Hx.
    + rewrite B1, B2. split_and!; try done; [by destruct (bool_decide _)..|].
      intros Hx. unfold seen_session. by rewrite Hx.
Qed.

Lemma heard_after_snoc before w cs c :
  heard_after before w (cs ++ [c])
  = let w' := heard_after before w cs in if reaches (before ++ cs) c then (hear w' c).2 else w'.
Proof.
  revert before w. induction cs as [|d cs IH]; intros before w; cbn [app heard_after].
  - by rewrite app_nil_r.
  - rewrite IH. by rewrite <-app_assoc.
Qed.

Lemma reliable_more cs c : reliable cs → reliable (cs ++ [c]).
Proof. intros H before d Hb. apply H. etrans; [|exact Hb]. by apply prefix_app_r. Qed.

(** ** Lemmas: the engine and its host *)

Section talk.
Context (b a0 : Server) (Hsay : sayable a0).

Record talks_to (a : Server) : Prop := {
  tt_cfg : a.(sv_cfg) = a0.(sv_cfg);
  tt_pack : a.(sv_pack) = a0.(sv_pack);
  tt_ready : ready a0 (heard b a.(sv_sent));
}.

(** What the host shows when it is asked for a session of [a0]. *)
Definition shown (sid : string) (a : Server) : Prop := hosts a0 sid (heard b a.(sv_sent)).(sv_state).

(** One exchange with the host, over a line that may break. *)
Lemma once_heard a op t ok a' done :
  let sid := default_session a0 t in
  once clock (hosted b) op sid a ok a' done → talks_to a → op ∈ session_operations →
  talks_to a' ∧ (ok = true → op = "commsOnLine" ∨ shown sid a → shown sid a') ∧
  (reliable a.(sv_sent) → ok = true ∧ reliable a'.(sv_sent)).
Proof.
  intros sid [Hu Hsent _] [Hc Hp Hr] Hop. cbn [env_bad_url hosted] in Hsent.
  destruct Hsent as (body & Hb & Hs & Hok). rewrite Hc in Hs, Hok.
  assert (Hb0 : spoken clock a0 op sid body).
  { destruct Hb as (w0 & H1 & H2 & H3). exists w0. by rewrite H1, H2, Hc, Hp. }
  pose proof (hear_session a0 (heard b (sv_sent a)) op t body Hr Hsay Hop Hb0) as Hh.
  set (c := session_call (sv_cfg a0) op body) in *.
  assert (He : heard b (sv_sent a') = if reaches (sv_sent a) c then (hear (heard b (sv_sent a)) c).2 else heard b (sv_sent a))
    by (rewrite Hs; apply heard_after_snoc).
  assert (Hack : acknowledged (hosted b) (se_AcceptWrappedG2SResponseAck (cfg_SessionEngine (sv_cfg a0))) (sv_sent a) c
    = bool_decide (line (sv_sent a) c = Delivered)).
  { unfold acknowledged. cbn [env_peer hosted]. destruct (line (sv_sent a) c); [|by rewrite bool_decide_eq_false_2].
    rewrite bool_decide_eq_true_2 by done. destruct (hear (heard b (sv_sent a)) c) as [r b'].
    destruct Hh as (Hst & (p & Hp1 & Hp2) & _). cbn [fst xb_stream].
    rewrite Hp1, Hp2. rewrite (proj2 (Z.leb_le _ _)) by lia. rewrite (proj2 (Z.ltb_lt _ _)) by lia.
    cbn [c session_call cl_Operation andb]. apply bool_decide_eq_true. unfold resolveAck.
    by rewrite bool_decide_eq_true_2. }
  rewrite Hack in Hok. unfold shown. split_and!.
  - split; [by rewrite (un_cfg _ _ Hu)|by rewrite (un_pack _ _ Hu)|]. rewrite He.
    destruct (hear (heard b (sv_sent a)) c) as [r b']. destruct (reaches _ _); [apply Hh|done].
  - intros -> Hsh. symmetry in Hok. apply bool_decide_eq_true in Hok. rewrite He. unfold reaches. rewrite Hok.
    destruct (hear (heard b (sv_sent a)) c) as [r b']. by apply Hh.
  - intros Hrel. rewrite Hs. split; [|by apply reliable_more]. rewrite Hok. apply bool_decide_eq_true.
    by apply Hrel.
Qed.

(** What the two know of each other in each phase. *)
Definition joined (p : phase) (a : Server) : Prop :=
  match p with
  | Stopped => True
  | Connecting | Sleeping => talks_to a
  | Starting sid | FirstKeepAlive sid | Waiting sid =>
      talks_to a ∧ ∃ t, sid = default_session a0 t ∧ shown sid a
  end.

Lemma heartbeat_joined t a :
  let sid := default_session a0 t in
  talks_to a → shown sid a →
  let r := heartbeat clock (hosted b) sid a in
  joined r.1 r.2 ∧ (reliable a.(sv_sent) → r.1 = Waiting sid ∧ reliable r.2.(sv_sent)).
Proof.
  intros sid Ha Hh. cbv zeta. unfold heartbeat. rewrite M_bind_eq.
  pose proof (keepalive_once clock (hosted b) sid a) as Ho. cbv zeta in Ho.
  eapply once_heard in Ho as (Hj & Hst & Hrel); [|eassumption|set_solver].
  destruct (runKeepAliveOnce _ _ _ _) as [[[]|e] a1]; cbn [fst snd is_ok mret M_ret] in *.
  - split; [|tauto]. split; [done|]. exists t. split; [done|]. apply Hst; [done|]. by right.
  - rewrite M_bind_eq. split; [|by intros [? _]%Hrel]. destruct Hj as [J1 J2 J3]. by split.
Qed.

(** Each turn keeps that; over a good line it also brings the engine nearer to
    its wait. *)
Lemma joined_step d p a :
  a0.(sv_cfg).(cfg_HostEndpoint).(he_URL) ≠ "" → joined p a →
  let r := engine_step clock (hosted b) d p a in
  joined r.1 r.2 ∧
  (d = false → p ≠ Stopped → reliable a.(sv_sent) →
   r.1 ≠ Stopped ∧ turns_left r.1 = Nat.pred (turns_left p) ∧ reliable r.2.(sv_sent)).
Proof.
  intros Hne Hj. destruct p as [|sid|sid|sid| |]; cbn [engine_step joined] in *; [| | | | |done].
  - destruct d; [done|]. rewrite M_bind_eq.
    destruct (comms_once clock (hosted b) a) as (t & Ho); [by rewrite (tt_cfg _ Hj)|].
    assert (Hsid : default_session a t = default_session a0 t) by (unfold default_session; by rewrite (tt_cfg _ Hj)).
    rewrite Hsid in Ho. destruct (runCommsOnlineOnce clock (hosted b) a) as [res a1]. destruct Ho as [Ho Hr].
    eapply once_heard in Ho as (Hj1 & Hst & Hrel); [|eassumption|set_solver].
    destruct res as [sid|e]; cbn [fst snd is_ok mret M_ret] in *.
    + rewrite (Hr sid) by done. split; [|intros _ _ H; by destruct (Hrel H)].
      split; [done|]. exists t. split; [done|]. apply Hst; [done|]. by left.
    + rewrite M_bind_eq. split; [done|]. intros _ _ H. by destruct (Hrel H).
  - destruct Hj as (Hj & t & -> & Hh). rewrite M_bind_eq. unfold runStartupExchange. rewrite M_bind_eq.
    pose proof (descriptor_once clock (hosted b) (default_session a0 t) a) as Ho. cbv zeta in Ho.
    eapply once_heard in Ho as (Hj1 & Hst & Hrel); [|eassumption|set_solver].
    destruct (runGetDescriptorOnce _ _ _ _) as [[[]|e] a1]; cbn [fst snd is_ok mret M_ret] in *.
    2: { rewrite M_bind_eq. split; [done|]. intros _ _ H. by destruct (Hrel H). }
    pose proof (setkeepalive_once clock (hosted b) (default_session a0 t) a1) as Ho1. cbv zeta in Ho1.
    eapply once_heard in Ho1 as (Hj2 & Hst2 & Hrel2); [|eassumption|set_solver].
    destruct (runSetKeepAliveOnce _ _ _ _) as [[[]|e] a2]; cbn [fst snd is_ok mret M_ret] in *.
    + split; [|intros _ _ H; destruct (Hrel H) as [_ H']; by destruct (Hrel2 H')].
      split; [done|]. exists t. split; [done|]. apply Hst2; [done|]. right. apply Hst; [done|]. by right.
    + rewrite M_bind_eq. split; [done|]. intros _ _ H. destruct (Hrel H) as [_ H']. by destruct (Hrel2 H').
  - destruct Hj as (Hj & t & -> & Hh). destruct (heartbeat_joined t a Hj Hh) as [H1 H2]. split; [done|].
    intros _ _ H. by destruct (H2 H) as [-> ?].
  - destruct d; [done|]. destruct Hj as (Hj & t & -> & Hh). destruct (heartbeat_joined t a Hj Hh) as [H1 H2].
    split; [done|]. intros _ _ H. by destruct (H2 H) as [-> ?].
  - by destruct d.
Qed.

Lemma joined_run ds p a :
  a0.(sv_cfg).(cfg_HostEndpoint).(he_URL) ≠ "" → joined p a →
  let r := engine_run clock (hosted b) ds p a in joined r.1 r.2.
Proof.
  intros Hne. revert p a. induction ds as [|d ds IH]; intros p a Hj; [done|]. cbn [engine_run].
  rewrite M_bind_eq. apply IH. by apply (joined_step d p a Hne Hj).
Qed.

Lemma joined_arrives n p a :
  a0.(sv_cfg).(cfg_HostEndpoint).(he_URL) ≠ "" → joined p a → p ≠ Stopped → reliable a.(sv_sent) →
  turns_left p ≤ n →
  ∃ sid, (engine_run clock (hosted b) (replicate n false) p a).1 = Waiting sid.
Proof.
  intros Hne. revert p a. induction n as [|n IH]; intros p a Hj Hp Hrel Hn; cbn [replicate engine_run].
  - destruct p as [| | |sid| |]; cbn in Hn; try lia; [by exists sid|done].
  - rewrite M_bind_eq. destruct (joined_step false p a Hne Hj) as [Hj' H].
    destruct H as (Hp' & Ht & Hrel'); [done..|]. apply IH; [done..|lia].
Qed.
End talk.

(** ** Lemmas: answers from templates *)

(** The order of the loops of [RenderTemplate] is some order. *)
Hypothesis (Hrange : ∀ m, range m ≡ₚ map_to_list m).

Lemma print_app l k : print_segments (l ++ k) = print_segments l +:+ print_segments k.
Proof.
  induction l as [|x l IH]; [done|]. change (print_segments ((x :: l) ++ k)) with (print_segment x +:+ print_segments (l ++ k)).
  rewrite IH, string_app_assoc. done.
Qed.

Lemma answer_segments_doc ack env soap ns fields :
  env "ns.soapenv" = Some soap → env "ns.g2s" = Some ns → xmlEscape soap = soap → xmlEscape ns = ns →
  Forall (λ f, ∃ v, fill env f.2 = Text v ∧ xmlEscape v = v) fields →
  print_segments (map (fill env) (answer_segments ack fields))
  = put_doc "'" (envelope_doc soap ns ack (map (λ f, (f.1, filled_text env f.2)) fields)) "".
Proof.
  intros Hs Hn Es En Hf. unfold answer_segments. rewrite !map_app, !print_app.
  set (close := print_segments (map (fill env) [Text _])).
  assert (Hfields : ∀ k, foldr (put_doc "'") k (map (λ f, Leaf ("g2s", f.1) [] f.2)
      (map (λ f, (f.1, filled_text env f.2)) fields))
    = print_segments (map (fill env) (concat (map field_segments fields))) +:+ k).
  { intros k. induction Hf as [|[n x] fields (v & Hv & Ev) Hf IH]; [done|]. cbn [map foldr concat fst snd] in *.
    rewrite IH, map_app, print_app, <-string_app_assoc. unfold filled_text, field_segments. cbn [map fst snd]. rewrite Hv.
    cbn [put_doc fill]. rewrite Ev. unfold put_open, put_close, put_name. cbn [foldr fst snd].
    rewrite !bool_decide_eq_false_2 by done. unfold print_segments at 2. cbn [map print_segment foldr].
    rewrite <-!string_app_assoc. done. }
  unfold envelope_doc. cbn [put_doc foldr]. rewrite Hfields. unfold put_open, put_close. cbn [foldr]. unfold put_attr.
  cbn [xa_Name xa_Value]. rewrite Es, En. unfold put_name. cbn [fst snd].
  rewrite !bool_decide_eq_false_2 by done. cbn [map fill]. rewrite Hs, Hn. unfold close, print_segments at 1.
  cbn [map fill print_segment foldr]. unfold print_segments at 2. cbn [map print_segment foldr].
  rewrite <-!string_app_assoc. reflexivity.
Qed.

Lemma bare_value s : bare s = true → xmlEscape s = s ∧ xml_text s = true ∧ plain s = true.
Proof. intros [H1 H2]%andb_true_iff. by destruct (plain_value s H1) as (? & ? & _). Qed.

Lemma bare_session a w t :
  bare a.(sv_cfg).(cfg_InstanceID) = true → bare w.(sv_cfg).(cfg_InstanceID) = true →
  bare (seen_session a w t) = true ∧ seen_session a w t ≠ "".
Proof.
  assert (H : ∀ w, bare w.(sv_cfg).(cfg_InstanceID) = true → bare (default_session w t) = true ∧ default_session w t ≠ "").
  { intros x [H1 H2]%andb_true_iff. split; [|apply default_session_ne]. unfold bare, default_session.
    rewrite !all_bytes_app, !plain_app, H1, H2, itoa_plain. unfold plain. by rewrite !itoa_free. }
  intros Ha Hw. unfold seen_session. by destruct (shouldRenderXSDG2SMessage _); apply H.
Qed.

(** What the names of the namespaces and of the request stand for. *)
Lemma env_request ns host session egm n :
  n ∈ request_holes → ∃ v, template_env ns (request_fields host session egm) ∅ n = Some v ∧ v ∈ [host; session; egm].
Proof.
  unfold request_holes. rewrite !elem_of_cons, elem_of_nil. intros [->|[->|[->|[]]]];
    [exists host|exists egm|exists session]; (split; [reflexivity|set_solver]).
Qed.

Lemma answer_segments_ok ack fields :
  plain ack = true → Forall answer_field_ok fields → Forall segment_ok (answer_segments ack fields).
Proof.
  intros Ha Hf. assert (Hp : ∀ s t u, plain s = true → plain t = true → plain u = true → plain (s +:+ t +:+ u) = true).
  { intros s t u H1 H2 H3. by rewrite !plain_app, H1, H2, H3. }
  unfold answer_segments. rewrite !Forall_app. split_and!.
  - repeat (constructor; [first [done | by apply Hp]|]). done.
  - induction Hf as [|[k x] fields (_ & Hk & _ & Hx) Hf IH]; [done|]. cbn [map concat field_segments app fst snd] in *.
    constructor; [by apply Hp|]. constructor; [|constructor; [by apply Hp|done]].
    destruct x as [s|n]; cbn [segment_ok]; [by destruct Hx as [[_ ?]%andb_true_iff _]|].
    unfold request_holes in Hx. rewrite !elem_of_cons, elem_of_nil in Hx. by destruct Hx as [->|[->|[->|[]]]].
  - constructor; [by apply Hp|done].
Qed.

Lemma answer_segments_holes ack fields n :
  Hole n ∈ answer_segments ack fields → n = "ns.soapenv" ∨ n = "ns.g2s" ∨ ∃ f, f ∈ fields ∧ f.2 = Hole n.
Proof.
  unfold answer_segments. rewrite !elem_of_app, !elem_of_cons, !elem_of_nil.
  intros [H|[H|H]]; [naive_solver| |naive_solver]. right; right.
  apply list_elem_of_In, in_concat in H as (l & (f & <- & Hf)%in_map_iff & Hin).
  exists f. split; [by apply list_elem_of_In|]. destruct Hin as [?|[?|[?|[]]]]; [done|done|done].
Qed.

(** A template of that form acknowledges. *)
Lemma answer_acks a w op v fields soap ns :
  op ∈ session_operations → variant_for w op = Some v → (200 <= response_status v < 300)%Z →
  v.(rv_Template) = print_segments (answer_segments (ack_of op) fields) → Forall answer_field_ok fields →
  let names := w.(sv_pack).(mp_Wire).(wire_Namespaces) in
  names !! "soapenv" = Some soap → soap ∈ [SOAP11Namespace; SOAP12Namespace] →
  names !! "g2s" = Some ns → bare ns = true → values_plain names →
  Forall (λ s, bare s = true) [a.(sv_cfg).(cfg_InstanceID); w.(sv_cfg).(cfg_InstanceID); a.(sv_cfg).(cfg_HostID); a.(sv_cfg).(cfg_EGMID)] →
  a.(sv_cfg).(cfg_HostID) ≠ "" → a.(sv_cfg).(cfg_EGMID) ≠ "" →
  Forall (λ u : string * string, field_after v.(rv_SetState) u.1 u.2 = u.2)
    [("session_state", "online"); ("heartbeat_state", "healthy"); ("connection_state", "controller_connected")] →
  acks a w op v.
Proof.
  intros Hop Hv Hst Ht Hf names Hsoap Hsoap' Hns Hns' Hnames Hb Hh He Hu.
  rewrite !Forall_cons in Hu. destruct Hu as (U1 & U2 & U3 & _). split; try done. intros t s request.
  rewrite !Forall_cons in Hb. destruct Hb as (B1 & B2 & B3 & B4 & _).
  destruct (bare_session a w t B1 B2) as [B5 Hsid]. set (sid := seen_session a w t) in *.
  set (host := cfg_HostID (sv_cfg a)) in *. set (egm := cfg_EGMID (sv_cfg a)) in *.
  set (env := template_env names request ∅).
  assert (Hvalue : ∀ n, n ∈ request_holes → ∃ x, env n = Some x ∧ bare x = true ∧ x ≠ "").
  { intros n Hn. destruct (env_request names host sid egm n Hn) as (x & Hx & Hin). exists x. split; [done|].
    rewrite !elem_of_cons, elem_of_nil in Hin. by destruct Hin as [->|[->|[->|[]]]]. }
  assert (Hfill : Forall (λ f, ∃ x, fill env f.2 = Text x ∧ bare x = true ∧ x ≠ "") fields).
  { eapply Forall_impl; [exact Hf|]. intros [k [x|n]] (_ & _ & _ & Hx); cbn [snd fill] in *; [by exists x|].
    destruct (Hvalue n Hx) as (x & -> & ?). by exists x. }
  assert (Es : env "ns.soapenv" = Some soap) by exact Hsoap.
  assert (Eg : env "ns.g2s" = Some ns) by exact Hns.
  assert (Hack : simple_name (ack_of op) = true ∧ plain (ack_of op) = true ∧ plain_element (ack_of op)).
  { unfold session_operations in Hop. rewrite !elem_of_cons, elem_of_nil in Hop. by destruct Hop as [->|[->|[->|[->|[]]]]]. }
  destruct Hack as (A1 & A2 & A3).
  assert (Hs2 : xmlEscape soap = soap ∧ xml_text soap = true)
    by (rewrite !elem_of_cons, elem_of_nil in Hsoap'; by destruct Hsoap' as [->|[->|[]]]).
  rewrite Ht. fold names. rewrite (render_filled names request); [|apply Hrange|done| | |].
  - fold env. rewrite (answer_segments_doc _ env soap ns); [|done..|by apply Hs2|by apply bare_value|].
    2: { eapply Forall_impl; [exact Hfill|]. intros f (x & Hx & Hbx & _). exists x. split; [done|by apply bare_value]. }
    set (values := map _ fields).
    destruct (envelope_parsed name_rune late "'" soap ns (ack_of op) values) as [Hxe Hp].
    { by right; left. }
    { unfold soap_namespaces. by right. }
    { apply Hs2. }
    { by apply bare_value. }
    { done. }
    { done. }
    { rewrite Forall_forall in Hf, Hfill. apply Forall_forall. intros g (f & -> & Hin)%list_elem_of_fmap.
      destruct (Hf f Hin) as (F1 & _ & F3 & _), (Hfill f Hin) as (x & Hx & Hbx & Hne).
      unfold leaf_ok, filled_text. cbn [fst snd]. rewrite Hx. split_and!; try done. by apply bare_value. }
    unfold reads_as. destruct (Decode name_rune late _) as [toks err]. cbn [xs_tokens xs_error] in *. subst err.
    unfold ParseG2SEnvelope. cbn [xs_tokens xs_error]. rewrite Hp. cbn [mbind result_bind].
    destruct A3 as [A3 _]. rewrite add_fields_operation, add_fields_kind. cbn [legacy_start pe_OperationName pe_RootKind].
    rewrite !bool_decide_eq_false_2 by done. eexists. split; [reflexivity|]. rewrite add_fields_operation.
    cbn [legacy_start pe_OperationName firstNonEmpty]. by rewrite bool_decide_eq_false_2.
  - intros k x Hx. unfold request, request_fields in Hx.
    rewrite !lookup_insert_Some, lookup_singleton_Some in Hx.
    destruct Hx as [[<- <-]|[_ [[<- <-]|[_ [<- <-]]]]]; (split; [done|by apply bare_value]).
  - by apply answer_segments_ok.
  - fold env. intros n [-> |[->|(f & Hin & Hn)]]%answer_segments_holes; [by rewrite Es|by rewrite Eg|].
    rewrite Forall_forall in Hfill. destruct (Hfill f Hin) as (x & Hx & _). rewrite Hn in Hx. cbn [fill] in Hx.
    by destruct (env n).
Qed.

(** ** Theorem *)

(** C8. A process and its host, another process of this program, which admits it
    and whose pack acknowledges the operations of a session; between them nothing
    but the text of messages and answers, on a line that may lose either. Whatever
    was lost, the host knows every session that the engine believes in: it shows
    it online and healthy. And if the engine has not stopped when the line turns
    good, four turns later and ever after it waits between two heartbeats of a
    session which both processes show. *)
Theorem two_processes a b dones n :
  a.(sv_sent) = [] → a.(sv_cfg).(cfg_HostEndpoint).(he_URL) ≠ "" → sayable a → ready a b →
  let both_show p a' :=
    match p with
    | Starting sid | FirstKeepAlive sid | Waiting sid => hosts a sid (heard b a'.(sv_sent)).(sv_state)
    | _ => True
    end ∧ phase_state p a'.(sv_state) in
  let '(p, a1) := engine_run clock (hosted b) dones Connecting a in
  both_show p a1 ∧
  (p ≠ Stopped → reliable a1.(sv_sent) →
   let '(p', a2) := engine_run clock (hosted b) (replicate (4 + n) false) p a1 in
   (∃ sid, p' = Waiting sid) ∧ both_show p' a2).
Proof.
  intros Hsent Hne Hsay Hready both_show.
  assert (Hboth : ∀ p a', joined b a p a' → phase_state p a'.(sv_state) → both_show p a').
  { intros p a' Hj Hp. split; [|done]. destruct p; [done|..|done|done]; by destruct Hj as (_ & t & _ & ?). }
  assert (Hj : joined b a Connecting a) by (split; [done|done|by rewrite Hsent]).
  apply (joined_run b a Hsay dones Connecting a Hne) in Hj.
  pose proof (engine_started_inv clock (hosted b) dones a) as Hi.
  destruct (engine_run clock (hosted b) dones Connecting a) as [p a1]. cbn [fst snd] in *.
  split; [apply Hboth; [done|apply Hi]|]. intros Hp Hrel.
  destruct (joined_arrives b a Hsay (4 + n) p a1 Hne Hj Hp Hrel) as [sid Hsid]; [destruct p; cbn; lia|].
  apply (joined_run b a Hsay (replicate (4 + n) false) p a1 Hne) in Hj.
  apply (engine_run_inv clock (hosted b) _ _ (replicate (4 + n) false)) in Hi.
  destruct (engine_run clock (hosted b) (replicate (4 + n) false) p a1) as [p' a2]. cbn [fst snd] in *.
  split; [by exists sid|]. apply Hboth; [done|apply Hi].
Qed.
End host.

(** ** Witness *)

(** The answers of example.extended.pack.json to the operations of a session. *)
Definition answering (op : string) (fields : list (string * segment)) (updates : gmap string json) : Operation := {|
  op_Enabled := true; op_Description := ""; op_Direction := "bidirectional";
  op_Match := [mkMatchRule "message_type" op "body"]; op_Preconditions := []; op_Extract := [];
  op_Responses := [mkVariant "ack" (print_segments (answer_segments (ack_of op) fields)) [] updates 200 ∅ 0];
  op_FaultPolicy := mkFaultPolicy (NInt 0) (NInt 0) false false 0;
  op_LogFields := [] |}.

Definition host_field : string * segment := ("hostId"%string, Hole "request.hostId").
Definition egm_field : string * segment := ("egmId"%string, Hole "request.egmId").
Definition session_field : string * segment := ("sessionId"%string, Hole "request.sessionId").

Definition session_answers : list (string * (list (string * segment) * gmap string json)) := [
  ("commsOnLine", ([host_field; egm_field; session_field],
    {[ "session_state" := JStr "online"; "heartbeat_state" := JStr "healthy" ]}));
  ("keepAlive", ([host_field; egm_field; session_field], {[ "heartbeat_state" := JStr "healthy" ]}));
  ("getDescriptor", ([egm_field; session_field; ("descriptorClass"%string, Text "cabinet")], ∅));
  ("setKeepAlive", ([session_field], ∅))].

Definition with_wire (names : gmap string string) (ops : gmap string Operation) (p : MessagePack) : MessagePack :=
  mkPack p.(mp_SchemaVersion) p.(mp_PackName) p.(mp_PackVersion) p.(mp_Description) p.(mp_Extends) p.(mp_Tags)
    (mkWire p.(mp_Wire).(wire_ProtocolFamily) p.(mp_Wire).(wire_Transport) p.(mp_Wire).(wire_Envelope)
       p.(mp_Wire).(wire_Paths) names)
    p.(mp_ControlPlane) p.(mp_Timers) p.(mp_StateDefaults) p.(mp_LoggingHints) ops.

Definition egm_process : Server := set_sv_cfg (set_cfg_HostID "HOST-001" example_config) example_server.
Definition host_process : Server := set_sv_pack (with_wire
  {[ "soapenv" := SOAP11Namespace; "g2s" := "urn:com:g2s:2010:common"; "cab" := "urn:com:g2s:2010:cabinet" ]}
  (list_to_map (map (λ o, (o.1, answering o.1 o.2.1 o.2.2)) session_answers)) (example_pack 3000)) example_server.

Lemma host_process_ready name_rune late range :
  (∀ m, range m ≡ₚ map_to_list m) → ready name_rune late range egm_process host_process.
Proof.
  intros Hrange. split; [vm_compute; reflexivity|]. intros op Hop.
  assert (Hnames : values_plain host_process.(sv_pack).(mp_Wire).(wire_Namespaces)).
  { unfold values_plain. apply map_Forall_to_list. vm_compute. by repeat constructor. }
  assert (Hanswer : ∃ fields updates, (op, (fields, updates)) ∈ session_answers).
  { unfold session_operations in Hop. rewrite !elem_of_cons, elem_of_nil in Hop. unfold session_answers.
    destruct Hop as [->|[->|[->|[->|[]]]]]; do 2 eexists; repeat first [by apply list_elem_of_here | apply list_elem_of_further]. }
  destruct Hanswer as (fields & updates & Hin).
  exists (mkVariant "ack" (print_segments (answer_segments (ack_of op) fields)) [] updates 200 ∅ 0).
  unfold session_answers in Hin. rewrite !elem_of_cons, elem_of_nil in Hin.
  eapply answer_acks; [exact Hrange|exact Hop| |done|reflexivity| |reflexivity|by left|reflexivity|reflexivity
    |exact Hnames|by repeat constructor|done|done|].
  - by destruct Hin as [[= -> -> ->]|[[= -> -> ->]|[[= -> -> ->]|[[= -> -> ->]|[]]]]].
  - destruct Hin as [[= -> -> ->]|[[= -> -> ->]|[[= -> -> ->]|[[= -> -> ->]|[]]]]];
      repeat constructor; try done; set_solver.
  - destruct Hin as [[= -> -> ->]|[[= -> -> ->]|[[= -> -> ->]|[[= -> -> ->]|[]]]]]; by repeat constructor.
Qed.

(** A line that loses the answer to the first heartbeat. *)
Definition shaky (before : list call) (c : call) : delivery :=
  if length before =? 3 then Broken true "context deadline exceeded" else Delivered.

Lemma shaky_reliable cs : length cs = 4 → reliable shaky cs.
Proof.
  intros Hl before c [l ->]. unfold shaky. rewrite length_app, Hl.
  by rewrite (proj2 (Nat.eqb_neq _ _)) by lia.
Qed.

Lemma two_processes_witness :
  let host := hosted (λ _ _, false) None Z.of_nat map_to_list shaky host_process in
  let '(p, a1) := engine_run Z.of_nat host [false; false; false] Connecting egm_process in
  p = Sleeping ∧
  let '(p', a2) := engine_run Z.of_nat host (replicate 6 false) p a1 in
  let b := heard (λ _ _, false) None Z.of_nat map_to_list shaky host_process a2.(sv_sent) in
  (∃ sid, p' = Waiting sid) ∧ b.(sv_state).(rs_SessionState) = "online" ∧
  b.(sv_state).(rs_LastHostID) = "HOST-001".
Proof.
  pose proof (two_processes (λ _ _, false) None Z.of_nat Z.of_nat map_to_list shaky egm_process host_process
    [false; false; false] 2) as H.
  assert (Hp : let '(p, a1) := engine_run Z.of_nat (hosted (λ _ _, false) None Z.of_nat map_to_list shaky host_process)
      [false; false; false] Connecting egm_process in p = Sleeping ∧ length a1.(sv_sent) = 4).
  { vm_compute. by split. }
  cbv zeta. destruct (engine_run _ _ [false; false; false] Connecting egm_process) as [p a1].
  destruct Hp as [-> Hl]. split; [done|].
  destruct H as (_ & H); [done|done| |by apply host_process_ready|].
  { split_and!; [done|done|vm_compute; reflexivity]. }
  specialize (H ltac:(done) (shaky_reliable _ Hl)). change (4 + 2) with 6 in H.
  destruct (engine_run _ _ (replicate 6 false) Sleeping a1) as [p' a2].
  destruct H as ((sid & ->) & (Hs & _ & _ & Hh & _) & _). split_and!; [by exists sid|exact Hs|exact Hh].
Defined.
