(* ===== verification/Supervisor.v ===== *)
(** * The supervisor's processes (src/cmd/vegm-supervisor/server.go,
    restart_policy.go, scale_launcher.go)

    The supervisor keeps one child process per instance: it starts and stops
    them on request and a goroutine per start watches the child and restarts it
    a bounded number of times. A function that runs under the mutex is one
    definition over the whole state; the goroutines are turned one loop body at
    a time, so that steps interleave as the mutex lets them. Exit states are
    those of Unix, where a killed process has not exited. *)

From stdpp Require Import gmultiset.
From S2P Require Import Prelude GoStrings Url Json Validate Config FleetTypes Fleet Generate.

(** ** State *)

Record restartMeta := mkMeta {
  rm_Desired : bool;
  rm_RestartCount : Z;
  rm_LastExit : string;
}.

(** [os.ProcessState]: what [Wait] reported. *)
Inductive exit_status := Exited_with (code : Z) | Signaled (name : string).

(** [ProcessState.Exited] and [ProcessState.String] *)
Definition Exited (st : exit_status) : bool :=
  match st with Exited_with _ => true | Signaled _ => false end.
Definition exit_string (st : exit_status) : string :=
  match st with
  | Exited_with code => "exit status " +:+ itoa code
  | Signaled name => "signal: " +:+ name
  end.

(** A started command: its arguments, the log files it writes, whether it was
    killed, and its state once [Wait] has returned. *)
Record process := mkProcess {
  pr_Args : list string;
  pr_Logs : list string;
  pr_Killed : bool;
  pr_State : option exit_status;
}.

(** The server. [cmds] maps an instance to the number of its process: the
    pointers of the program are those numbers, and commands in the map have
    been started, so their [Process] is never nil. The goroutines running
    [monitorChild], the processes ever started, the number of attempts to start
    one, the log files open in this process and the files of manifest and
    configurations are part of the state. *)
Record supervisorServer := mkSupervisor {
  su_ManifestPath : string;
  su_GeneratedDir : string;
  su_Generated : list GeneratedConfig;
  su_Cmds : gmap string nat;
  su_Restart : gmap string restartMeta;
  su_Cancelled : bool;
  su_Monitors : list string;
  su_Processes : list process;
  su_Attempts : nat;
  su_OpenLogs : gmultiset string;
  su_Files : gmap string file;
}.

Definition set_su_ManifestPath (v : string) (s : supervisorServer) : supervisorServer :=
  mkSupervisor v s.(su_GeneratedDir) s.(su_Generated) s.(su_Cmds) s.(su_Restart)
    s.(su_Cancelled) s.(su_Monitors) s.(su_Processes) s.(su_Attempts) s.(su_OpenLogs)
    s.(su_Files).
Definition set_su_GeneratedDir (v : string) (s : supervisorServer) : supervisorServer :=
  mkSupervisor s.(su_ManifestPath) v s.(su_Generated) s.(su_Cmds) s.(su_Restart)
    s.(su_Cancelled) s.(su_Monitors) s.(su_Processes) s.(su_Attempts) s.(su_OpenLogs)
    s.(su_Files).
Definition set_su_Generated (v : list GeneratedConfig) (s : supervisorServer) : supervisorServer :=
  mkSupervisor s.(su_ManifestPath) s.(su_GeneratedDir) v s.(su_Cmds) s.(su_Restart)
    s.(su_Cancelled) s.(su_Monitors) s.(su_Processes) s.(su_Attempts) s.(su_OpenLogs)
    s.(su_Files).
Definition set_su_Cmds (v : gmap string nat) (s : supervisorServer) : supervisorServer :=
  mkSupervisor s.(su_ManifestPath) s.(su_GeneratedDir) s.(su_Generated) v s.(su_Restart)
    s.(su_Cancelled) s.(su_Monitors) s.(su_Processes) s.(su_Attempts) s.(su_OpenLogs)
    s.(su_Files).
Definition set_su_Restart (v : gmap string restartMeta) (s : supervisorServer) : supervisorServer :=
  mkSupervisor s.(su_ManifestPath) s.(su_GeneratedDir) s.(su_Generated) s.(su_Cmds) v
    s.(su_Cancelled) s.(su_Monitors) s.(su_Processes) s.(su_Attempts) s.(su_OpenLogs)
    s.(su_Files).
Definition set_su_Cancelled (v : bool) (s : supervisorServer) : supervisorServer :=
  mkSupervisor s.(su_ManifestPath) s.(su_GeneratedDir) s.(su_Generated) s.(su_Cmds)
    s.(su_Restart) v s.(su_Monitors) s.(su_Processes) s.(su_Attempts) s.(su_OpenLogs)
    s.(su_Files).
Definition set_su_Monitors (v : list string) (s : supervisorServer) : supervisorServer :=
  mkSupervisor s.(su_ManifestPath) s.(su_GeneratedDir) s.(su_Generated) s.(su_Cmds)
    s.(su_Restart) s.(su_Cancelled) v s.(su_Processes) s.(su_Attempts) s.(su_OpenLogs)
    s.(su_Files).
Definition set_su_Processes (v : list process) (s : supervisorServer) : supervisorServer :=
  mkSupervisor s.(su_ManifestPath) s.(su_GeneratedDir) s.(su_Generated) s.(su_Cmds)
    s.(su_Restart) s.(su_Cancelled) s.(su_Monitors) v s.(su_Attempts) s.(su_OpenLogs)
    s.(su_Files).
Definition set_su_Attempts (v : nat) (s : supervisorServer) : supervisorServer :=
  mkSupervisor s.(su_ManifestPath) s.(su_GeneratedDir) s.(su_Generated) s.(su_Cmds)
    s.(su_Restart) s.(su_Cancelled) s.(su_Monitors) s.(su_Processes) v s.(su_OpenLogs)
    s.(su_Files).
Definition set_su_OpenLogs (v : gmultiset string) (s : supervisorServer) : supervisorServer :=
  mkSupervisor s.(su_ManifestPath) s.(su_GeneratedDir) s.(su_Generated) s.(su_Cmds)
    s.(su_Restart) s.(su_Cancelled) s.(su_Monitors) s.(su_Processes) s.(su_Attempts) v
    s.(su_Files).
Definition set_su_Files (v : gmap string file) (s : supervisorServer) : supervisorServer :=
  mkSupervisor s.(su_ManifestPath) s.(su_GeneratedDir) s.(su_Generated) s.(su_Cmds)
    s.(su_Restart) s.(su_Cancelled) s.(su_Monitors) s.(su_Processes) s.(su_Attempts)
    s.(su_OpenLogs) v.

Definition newSupervisorServer (manifestPath generatedDir : string) (generated : list GeneratedConfig)
    (files : gmap string file) : supervisorServer :=
  mkSupervisor manifestPath generatedDir generated ∅ ∅ false [] [] 0 ∅ files.

(** What the operating system answers when the [n]-th child is started: the
    environment variable, the program's own path, whether a path is a file,
    and the errors of creating the directory, opening a log, looking up the
    program and starting it. *)
Record child_environment := mkChildEnv {
  ce_binary : string;
  ce_executable : result string;
  ce_is_file : string → bool;
  ce_windows : bool;
  ce_mkdir : nat → string → option string;
  ce_open : nat → string → option string;
  ce_lookup : nat → string → option string;
  ce_start : nat → list string → option string;
}.

(** ** Launching: scale_launcher.go *)

Section launch.
Context (env : child_environment).

Definition siblingVEGMBinary : string :=
  match env.(ce_executable) with
  | Err _ => ""
  | Ok exe =>
      let name := if env.(ce_windows) then "vegm.exe" else "vegm" in
      let beside := JoinPath [Dir exe; name] in
      let bin := JoinPath [Dir exe; "bin"; name] in
      if env.(ce_is_file) beside then beside
      else if env.(ce_is_file) bin then bin else ""
  end.

Definition buildVEGMCommand (configPath : string) : list string :=
  if negb (bool_decide (env.(ce_binary) = "")) then [env.(ce_binary); "-config"; configPath]
  else if negb (bool_decide (siblingVEGMBinary = "")) then [siblingVEGMBinary; "-config"; configPath]
  else ["go"; "run"; "./cmd/vegm"; "-config"; configPath].

Definition open_log (path : string) (s : supervisorServer) : supervisorServer :=
  set_su_OpenLogs (s.(su_OpenLogs) ⊎ {[+ path +]}) s.
Definition close_log (path : string) (s : supervisorServer) : supervisorServer :=
  set_su_OpenLogs (s.(su_OpenLogs) ∖ {[+ path +]}) s.
Definition close_logs (paths : list string) (s : supervisorServer) : supervisorServer :=
  foldl (flip close_log) s paths.

(** [cmd.Start()]: the error of looking up the program, then the context, then
    the operating system. *)
Definition Start (n : nat) (args : list string) (cancelled : bool) : option string :=
  match env.(ce_lookup) n (hd "" args) with
  | Some e => Some e
  | None => if cancelled then Some "context canceled" else env.(ce_start) n args
  end.

Definition startVEGMProcessForScale (configPath logDir : string) (s : supervisorServer)
    : supervisorServer * result nat :=
  let n := s.(su_Attempts) in
  let s := set_su_Attempts (S n) s in
  let logDir := or_default logDir (JoinPath ["logs"; "supervisor-child"]) in
  match env.(ce_mkdir) n logDir with
  | Some e => (s, Err ("mkdir child log dir: " +:+ e))
  | None =>
  let stdoutPath := JoinPath [logDir; "process.stdout.log"] in
  let stderrPath := JoinPath [logDir; "process.stderr.log"] in
  match env.(ce_open) n stdoutPath with
  | Some e => (s, Err ("open child stdout log: " +:+ e))
  | None =>
  let s := open_log stdoutPath s in
  match env.(ce_open) n stderrPath with
  | Some e => (close_log stdoutPath s, Err ("open child stderr log: " +:+ e))
  | None =>
  let s := open_log stderrPath s in
  let args := buildVEGMCommand configPath in
  match Start n args s.(su_Cancelled) with
  | Some e => (close_logs [stdoutPath; stderrPath] s, Err e)
  | None =>
      let p := mkProcess args [stdoutPath; stderrPath] false None in
      (set_su_Processes (s.(su_Processes) ++ [p]) s, Ok (length s.(su_Processes)))
  end end end end.

(** The goroutine of [startVEGMProcessForScale]: [Wait] returns. *)
Definition process_exits (h : nat) (st : exit_status) (s : supervisorServer) : supervisorServer :=
  match s.(su_Processes) !! h with
  | Some p =>
      if bool_decide (p.(pr_State) = None)
      then close_logs p.(pr_Logs) (set_su_Processes
             (<[h := mkProcess p.(pr_Args) p.(pr_Logs) p.(pr_Killed) (Some st)]> s.(su_Processes)) s)
      else s
  | None => s
  end.

(** [cmd.Process.Kill()]; of a process that is already gone it returns an error
    nobody reads. *)
Definition Kill (h : nat) (s : supervisorServer) : supervisorServer :=
  match s.(su_Processes) !! h with
  | Some p =>
      if bool_decide (p.(pr_State) = None)
      then set_su_Processes
             (<[h := mkProcess p.(pr_Args) p.(pr_Logs) true None]> s.(su_Processes)) s
      else s
  | None => s
  end.

(** ** Starting and stopping: server.go, restart_policy.go *)

Definition maxSupervisorRestarts : Z := 3.

Definition restart_meta (s : supervisorServer) (instanceID : string) : restartMeta :=
  default (mkMeta false 0 "") (s.(su_Restart) !! instanceID).

Definition set_restart (instanceID : string) (meta : restartMeta) (s : supervisorServer)
    : supervisorServer :=
  set_su_Restart (<[instanceID := meta]> s.(su_Restart)) s.

Definition markDesired (instanceID : string) (desired : bool) (s : supervisorServer)
    : supervisorServer :=
  let meta := restart_meta s instanceID in
  set_restart instanceID
    (mkMeta desired (if negb desired then 0 else meta.(rm_RestartCount)) meta.(rm_LastExit)) s.

Definition generatedByID (s : supervisorServer) (instanceID : string) : option GeneratedConfig :=
  snd <$> list_find (λ gen, gen.(gc_Instance).(ef_InstanceID) = instanceID) s.(su_Generated).

(** The process of an instance, if it has a command. *)
Definition child (s : supervisorServer) (instanceID : string) : option process :=
  s.(su_Cmds) !! instanceID ≫= λ h, s.(su_Processes) !! h.

Definition processRunning (cmd : option process) : bool :=
  match cmd with
  | Some p => match p.(pr_State) with None => true | Some st => negb (Exited st) end
  | None => false
  end.

Definition forget_cmd (instanceID : string) (s : supervisorServer) : supervisorServer :=
  set_su_Cmds (delete instanceID s.(su_Cmds)) s.
Definition set_cmd (instanceID : string) (h : nat) (s : supervisorServer) : supervisorServer :=
  set_su_Cmds (<[instanceID := h]> s.(su_Cmds)) s.

Definition startOne (instanceID : string) (s : supervisorServer) : supervisorServer * result bool :=
  if processRunning (child s instanceID) then (s, Ok false)
  else
    let s := forget_cmd instanceID s in
    match generatedByID s instanceID with
    | None => (s, Err ("instance " +:+ quote instanceID +:+ " not found"))
    | Some gen =>
        match startVEGMProcessForScale gen.(gc_Path) gen.(gc_Instance).(ef_LogDir) s with
        | (s, Err e) => (s, Err e)
        | (s, Ok h) =>
            let s := markDesired instanceID true (set_cmd instanceID h s) in
            (set_su_Monitors (s.(su_Monitors) ++ [instanceID]) s, Ok true)
        end
    end.

Definition stopOne (instanceID : string) (s : supervisorServer) : supervisorServer * bool :=
  let s := markDesired instanceID false s in
  match s.(su_Cmds) !! instanceID with
  | None => (forget_cmd instanceID s, false)
  | Some h => (forget_cmd instanceID (Kill h s), true)
  end.

(** One turn of the loop of [monitorChild], and whether the loop goes on. *)
Definition monitorChild_turn (instanceID : string) (s : supervisorServer) : supervisorServer * bool :=
  let meta := restart_meta s instanceID in
  if negb meta.(rm_Desired) then (s, false)
  else
  match child s instanceID with
  | None => (s, false)
  | Some p =>
  match p.(pr_State) with
  | None => (s, true)
  | Some st =>
  if negb (Exited st) then (s, true)
  else
    let exit := exit_string st in
    if (maxSupervisorRestarts <=? meta.(rm_RestartCount))%Z
    then (forget_cmd instanceID (set_restart instanceID (mkMeta false meta.(rm_RestartCount) exit) s), false)
    else
      let meta := mkMeta meta.(rm_Desired) (meta.(rm_RestartCount) + 1) exit in
      let s := set_restart instanceID meta s in
      match generatedByID s instanceID with
      | None => (forget_cmd instanceID s, false)
      | Some gen =>
          match startVEGMProcessForScale gen.(gc_Path) gen.(gc_Instance).(ef_LogDir) s with
          | (s, Err e) =>
              (forget_cmd instanceID (set_restart instanceID
                 (mkMeta meta.(rm_Desired) meta.(rm_RestartCount) ("restart failed: " +:+ e)) s), false)
          | (s, Ok h) => (set_cmd instanceID h s, true)
          end
      end
  end end.

(** The goroutine number [i]: one that returns disappears. *)
Definition monitor_turn (i : nat) (s : supervisorServer) : supervisorServer :=
  match s.(su_Monitors) !! i with
  | None => s
  | Some instanceID =>
      match monitorChild_turn instanceID s with
      | (s, true) => s
      | (s, false) => set_su_Monitors (delete i s.(su_Monitors)) s
      end
  end.

(** [shutdown]: the loop over the map only touches the entry it is at, so its
    order does not matter. *)
Definition shutdown_one (instanceID : string) (h : nat) (s : supervisorServer) : supervisorServer :=
  let meta := restart_meta s instanceID in
  forget_cmd instanceID
    (Kill h (set_restart instanceID (mkMeta false meta.(rm_RestartCount) meta.(rm_LastExit)) s)).

Definition shutdown (s : supervisorServer) : supervisorServer :=
  foldl (λ s kv, shutdown_one kv.1 kv.2 s) (set_su_Cancelled true s) (map_to_list s.(su_Cmds)).
End launch.

(** ** What every operation keeps *)

Definition open_logs (ps : list process) : gmultiset string :=
  ⋃+ ((λ p, match p.(pr_State) with None => list_to_set_disj p.(pr_Logs) | Some _ => ∅ end) <$> ps).

(** The state that the supervisor's operations keep: every command in the map
    is a process nobody killed, wanted and watched by a goroutine, two
    instances never share one, restart counts stay within the budget, exactly
    the logs of the processes that run are open, and no command survives the
    end of the context. *)
Record supervised (s : supervisorServer) : Prop := {
  sup_child id h : s.(su_Cmds) !! id = Some h →
    ∃ p, s.(su_Processes) !! h = Some p ∧ p.(pr_Killed) = false;
  sup_desired id h : s.(su_Cmds) !! id = Some h → (restart_meta s id).(rm_Desired) = true;
  sup_watched id h : s.(su_Cmds) !! id = Some h → id ∈ s.(su_Monitors);
  sup_distinct id1 id2 h : s.(su_Cmds) !! id1 = Some h → s.(su_Cmds) !! id2 = Some h → id1 = id2;
  sup_budget id : (0 ≤ (restart_meta s id).(rm_RestartCount) ≤ maxSupervisorRestarts)%Z;
  sup_logs : s.(su_OpenLogs) = open_logs s.(su_Processes);
  sup_cancelled : s.(su_Cancelled) = true → s.(su_Cmds) = ∅;
}.

(** Every process that runs and was not killed is the command of an instance. *)
Definition no_orphans (s : supervisorServer) : Prop := ∀ h p,
  s.(su_Processes) !! h = Some p → p.(pr_State) = None → p.(pr_Killed) = false →
  ∃ id, s.(su_Cmds) !! id = Some h.

Lemma restart_meta_set s id id' meta :
  restart_meta (set_restart id meta s) id' = if bool_decide (id = id') then meta else restart_meta s id'.
Proof.
  unfold restart_meta, set_restart. cbn. case_bool_decide; subst.
  - by rewrite lookup_insert_eq.
  - by rewrite lookup_insert_ne.
Qed.

Lemma open_logs_snoc ps p : open_logs (ps ++ [p]) = open_logs ps ⊎ open_logs [p].
Proof. unfold open_logs. rewrite fmap_app, gmultiset_disj_union_list_app. done. Qed.

(** When a process ends, its logs are no longer among the open ones. *)
Lemma open_logs_exit ps h p st :
  ps !! h = Some p → p.(pr_State) = None →
  open_logs (<[h := mkProcess p.(pr_Args) p.(pr_Logs) p.(pr_Killed) (Some st)]> ps)
  = open_logs ps ∖ list_to_set_disj p.(pr_Logs).
Proof.
  intros Hh Hp. unfold open_logs. revert h Hh. induction ps as [|q ps IH]; intros [|h] Hh; simplify_eq/=.
  - rewrite Hp. multiset_solver.
  - rewrite IH by done.
    assert (Hsub : list_to_set_disj p.(pr_Logs) ⊆ open_logs ps).
    { clear -Hh Hp. revert h Hh. unfold open_logs.
      induction ps as [|r ps IH]; intros [|h] Hh; simplify_eq/=.
      - rewrite Hp. multiset_solver.
      - specialize (IH h Hh). multiset_solver. }
    unfold open_logs in Hsub. multiset_solver.
Qed.

Lemma open_logs_kill ps h p :
  ps !! h = Some p → p.(pr_State) = None →
  open_logs (<[h := mkProcess p.(pr_Args) p.(pr_Logs) true None]> ps) = open_logs ps.
Proof.
  intros Hh Hp. unfold open_logs. f_equal. apply list_eq. intros i.
  rewrite !list_lookup_fmap. destruct (decide (i = h)) as [->|Hi].
  - rewrite list_lookup_insert_eq by by eapply lookup_lt_Some. by rewrite Hh; simpl; rewrite Hp.
  - by rewrite list_lookup_insert_ne.
Qed.

Lemma close_logs_eq paths s :
  close_logs paths s = set_su_OpenLogs (s.(su_OpenLogs) ∖ list_to_set_disj paths) s.
Proof.
  unfold close_logs. revert s. induction paths as [|p paths IH]; intros s; simpl.
  - destruct s; unfold set_su_OpenLogs; simpl. f_equal. multiset_solver.
  - rewrite IH. unfold close_log, set_su_OpenLogs. simpl. f_equal. multiset_solver.
Qed.

Lemma two_logs (X : gmultiset string) a b : X ⊎ {[+ a +]} ⊎ {[+ b +]} = X ⊎ list_to_set_disj [a; b].
Proof. rewrite !list_to_set_disj_cons, list_to_set_disj_nil. multiset_solver. Qed.

(** ** Launching *)

Section launching.
Context (env : child_environment).

Abbreviation launch := (startVEGMProcessForScale env).

(** A failed launch leaves nothing open; a successful one adds one process with
    its two logs, and happens only while the context lasts. *)
Lemma launch_spec path logDir s :
  let s1 := set_su_Attempts (S s.(su_Attempts)) s in
  (∃ e, launch path logDir s = (s1, Err e)) ∨
  (s.(su_Cancelled) = false ∧ ∃ logs,
     let p := mkProcess (buildVEGMCommand env path) logs false None in
     launch path logDir s
     = (set_su_Processes (s.(su_Processes) ++ [p])
          (set_su_OpenLogs (s.(su_OpenLogs) ⊎ list_to_set_disj logs) s1), Ok (length s.(su_Processes)))).
Proof.
  intros s1. unfold startVEGMProcessForScale. fold s1.
  set (dir := or_default logDir _). set (out := JoinPath [dir; "process.stdout.log"]).
  set (er := JoinPath [dir; "process.stderr.log"]).
  destruct (ce_mkdir env _ dir); [left; by eexists|].
  destruct (ce_open env _ out); [left; by eexists|].
  destruct (ce_open env _ er).
  { left. eexists. f_equal. unfold close_log, open_log, s1, set_su_OpenLogs, set_su_Attempts. simpl.
    f_equal. multiset_solver. }
  destruct (Start env _ _ _) eqn:HS.
  { left. eexists. f_equal. rewrite close_logs_eq. unfold open_log, s1, set_su_OpenLogs, set_su_Attempts.
    simpl. f_equal. multiset_solver. }
  right. split.
  - unfold Start in HS. cbn in HS. destruct (ce_lookup env _ _); [done|]. by destruct (su_Cancelled s).
  - exists [out; er]. cbv zeta. by rewrite <-two_logs.
Qed.
End launching.

(** ** Preservation: one piece of state at a time *)

Lemma supervised_forget id s : supervised s → supervised (forget_cmd id s).
Proof.
  intros [H1 H2 H3 H4 H5 H6 H7]. unfold forget_cmd, set_su_Cmds. split; cbn; try done.
  - intros id' h' [_ H]%lookup_delete_Some. eauto.
  - intros id' h' [_ H]%lookup_delete_Some. by eapply H2.
  - intros id' h' [_ H]%lookup_delete_Some. eauto.
  - intros id1 id2 h' [_ Ha]%lookup_delete_Some [_ Hb]%lookup_delete_Some. eauto.
  - intros Hc. rewrite (H7 Hc). apply delete_empty.
Qed.

Lemma supervised_restart id meta s :
  supervised s → (0 ≤ meta.(rm_RestartCount) ≤ maxSupervisorRestarts)%Z →
  (meta.(rm_Desired) = true ∨ s.(su_Cmds) !! id = None) → supervised (set_restart id meta s).
Proof.
  intros [H1 H2 H3 H4 H5 H6 H7] Hb Hd. split; try done.
  - intros id' h' H. rewrite restart_meta_set. cbn in H. case_bool_decide as E; [|by eapply H2].
    subst. destruct Hd as [Hd|Hd]; [done|congruence].
  - intros id'. rewrite restart_meta_set. by case_bool_decide.
Qed.

(** A new command: a running process that is no other instance's. *)
Lemma supervised_set_cmd id h p s :
  supervised s → s.(su_Processes) !! h = Some p → p.(pr_Killed) = false →
  (∀ id', s.(su_Cmds) !! id' ≠ Some h) → (restart_meta s id).(rm_Desired) = true →
  id ∈ s.(su_Monitors) → s.(su_Cancelled) = false → supervised (set_cmd id h s).
Proof.
  intros [H1 H2 H3 H4 H5 H6 H7] Hp Hk Hfresh Hd Hm Hc. unfold set_cmd, set_su_Cmds.
  split; cbn; try done.
  - intros id' h' [[<- <-]|[_ H]]%lookup_insert_Some; eauto.
  - intros id' h' [[<- <-]|[_ H]]%lookup_insert_Some; [done|by eapply H2].
  - intros id' h' [[<- <-]|[_ H]]%lookup_insert_Some; eauto.
  - intros id1 id2 h' [[<- <-]|[_ Ha]]%lookup_insert_Some [[<- Hb]|[_ Hb]]%lookup_insert_Some; subst; try done.
    + by destruct (Hfresh id2).
    + by destruct (Hfresh id1).
    + eauto.
  - congruence.
Qed.

Lemma supervised_watch id s : supervised s → supervised (set_su_Monitors (s.(su_Monitors) ++ [id]) s).
Proof. intros [H1 H2 H3 H4 H5 H6 H7]. split; try done. cbn. intros. apply elem_of_app. eauto. Qed.

(** A goroutine may end when its instance has no command. *)
Lemma supervised_unwatch i id s :
  supervised s → s.(su_Monitors) !! i = Some id → s.(su_Cmds) !! id = None →
  supervised (set_su_Monitors (delete i s.(su_Monitors)) s).
Proof.
  intros [H1 H2 H3 H4 H5 H6 H7] Hi Hn. split; try done. cbn. intros id' h' H.
  pose proof (H3 id' h' H) as Hin.
  rewrite (delete_Permutation _ _ _ Hi) in Hin. apply elem_of_cons in Hin as [->|]; [congruence|done].
Qed.

Lemma supervised_launched logs args s :
  supervised s → s.(su_Cancelled) = false →
  supervised (set_su_Processes (s.(su_Processes) ++ [mkProcess args logs false None])
    (set_su_OpenLogs (s.(su_OpenLogs) ⊎ list_to_set_disj logs)
      (set_su_Attempts (S s.(su_Attempts)) s))).
Proof.
  intros [H1 H2 H3 H4 H5 H6 H7] Hc. split; try done; cbn -[open_logs].
  - intros id h H. destruct (H1 id h H) as (p & Hp & Hk). exists p.
    split; [|done]. by apply lookup_app_l_Some.
  - rewrite open_logs_snoc, H6. f_equal. unfold open_logs.
    rewrite list_fmap_singleton, gmultiset_disj_union_list_singleton. done.
Qed.

Lemma supervised_attempts n s : supervised s → supervised (set_su_Attempts n s).
Proof. intros []. by split. Qed.

Lemma supervised_kill h s :
  supervised s → (∀ id, s.(su_Cmds) !! id ≠ Some h) → supervised (Kill h s).
Proof.
  intros Hs Hn. unfold Kill. destruct (s.(su_Processes) !! h) as [p|] eqn:Hp; [|done].
  case_bool_decide as Hst; [|done]. destruct Hs as [H1 H2 H3 H4 H5 H6 H7]. split; try done; cbn -[open_logs].
  - intros id h' H. rewrite list_lookup_insert_ne; [eauto|]. intros <-. by apply (Hn id).
  - by rewrite open_logs_kill.
Qed.

Lemma supervised_exits h st s : supervised s → supervised (process_exits h st s).
Proof.
  intros Hs. unfold process_exits. destruct (s.(su_Processes) !! h) as [p|] eqn:Hp; [|done].
  case_bool_decide as Hst; [|done]. rewrite close_logs_eq. destruct Hs as [H1 H2 H3 H4 H5 H6 H7].
  split; try done; cbn -[open_logs].
  - intros id h' H. destruct (H1 id h' H) as (q & Hq & Hk). destruct (decide (h = h')) as [<-|Hne].
    + eexists. rewrite list_lookup_insert_eq by by eapply lookup_lt_Some. split; [done|]. cbn. congruence.
    + exists q. by rewrite list_lookup_insert_ne.
  - by rewrite (open_logs_exit _ _ _ st Hp Hst), H6.
Qed.

(** ** Preservation: the operations *)

Lemma fresh_handle s id : supervised s → s.(su_Cmds) !! id ≠ Some (length s.(su_Processes)).
Proof. intros Hs H. destruct (sup_child _ Hs _ _ H) as (p & Hp%lookup_lt_Some & _). lia. Qed.

Lemma meta_budget s id d e :
  supervised s → (0 ≤ (mkMeta d (restart_meta s id).(rm_RestartCount) e).(rm_RestartCount) ≤ maxSupervisorRestarts)%Z.
Proof. intros Hs. apply (sup_budget _ Hs). Qed.

Lemma forget_cmds id s : (forget_cmd id s).(su_Cmds) !! id = None.
Proof. apply lookup_delete_eq. Qed.

(** The command that starts, on a state whose map has no entry for it. *)
Lemma supervised_started id logs args s :
  supervised s → s.(su_Cancelled) = false → s.(su_Cmds) !! id = None →
  let s' := set_su_Processes (s.(su_Processes) ++ [mkProcess args logs false None])
    (set_su_OpenLogs (s.(su_OpenLogs) ⊎ list_to_set_disj logs) (set_su_Attempts (S s.(su_Attempts)) s)) in
  supervised (markDesired id true (set_cmd id (length s.(su_Processes))
    (set_su_Monitors (s.(su_Monitors) ++ [id]) s'))).
Proof.
  intros Hs Hc Hn s'. set (h := length _).
  change (supervised (set_cmd id h (markDesired id true (set_su_Monitors (s'.(su_Monitors) ++ [id]) s')))).
  eapply supervised_set_cmd.
  - unfold markDesired. apply supervised_restart.
    + by apply supervised_watch, supervised_launched.
    + cbn. apply (sup_budget _ Hs).
    + by left.
  - by apply list_lookup_middle.
  - done.
  - intros id'. exact (fresh_handle s id' Hs).
  - unfold markDesired. rewrite restart_meta_set. by rewrite bool_decide_eq_true_2.
  - cbn. apply elem_of_app. right. constructor.
  - done.
Qed.

Lemma supervised_start env id s : supervised s → supervised (startOne env id s).1.
Proof.
  intros Hs. unfold startOne. destruct (processRunning _); [done|].
  pose proof (supervised_forget id s Hs) as Hf. destruct (generatedByID _ id) as [gen|]; [|done].
  destruct (launch_spec env gen.(gc_Path) gen.(gc_Instance).(ef_LogDir) (forget_cmd id s))
    as [[e ->]|(Hc & logs & ->)]; [by apply supervised_attempts|].
  exact (supervised_started id logs _ (forget_cmd id s) Hf Hc (forget_cmds id s)).
Qed.

Lemma forget_kill id h s : forget_cmd id (Kill h s) = Kill h (forget_cmd id s).
Proof. unfold Kill. cbn. destruct (s.(su_Processes) !! h); [|done]. by case_bool_decide. Qed.

(** Killing the command of an instance and forgetting it. *)
Lemma supervised_kill_forget id h s :
  supervised s → s.(su_Cmds) !! id = Some h → supervised (forget_cmd id (Kill h s)).
Proof.
  intros Hs Hh. rewrite forget_kill. apply supervised_kill; [by apply supervised_forget|].
  cbn. intros id' [Hne H]%lookup_delete_Some. by apply Hne, (sup_distinct _ Hs _ _ h).
Qed.

(** Marking the entry that is about to go: the map forgets it first. *)
Lemma supervised_dismiss id h meta s :
  supervised s → s.(su_Cmds) !! id = Some h → (0 ≤ meta.(rm_RestartCount) ≤ maxSupervisorRestarts)%Z →
  supervised (forget_cmd id (Kill h (set_restart id meta s))).
Proof.
  intros Hs Hh Hb.
  assert (Heq : forget_cmd id (Kill h (set_restart id meta s))
    = set_restart id meta (forget_cmd id (Kill h s))).
  { unfold Kill. cbn. destruct (s.(su_Processes) !! h); [|done]. by case_bool_decide. }
  rewrite Heq. apply supervised_restart; [by apply supervised_kill_forget|done|].
  right. apply forget_cmds.
Qed.

Lemma supervised_stop id s : supervised s → supervised (stopOne id s).1.
Proof.
  intros Hs. unfold stopOne, markDesired. cbn [su_Cmds set_restart set_su_Restart].
  assert (Hb : (0 ≤ 0 ≤ maxSupervisorRestarts)%Z) by done.
  destruct (s.(su_Cmds) !! id) as [h|] eqn:Hh; cbn [fst].
  - by apply supervised_dismiss.
  - apply supervised_forget, supervised_restart; [done|done|by right].
Qed.

Lemma supervised_exhausted id meta s :
  supervised s → (0 ≤ meta.(rm_RestartCount) ≤ maxSupervisorRestarts)%Z →
  supervised (forget_cmd id (set_restart id meta s)).
Proof.
  intros Hs Hb. change (supervised (set_restart id meta (forget_cmd id s))).
  apply supervised_restart; [by apply supervised_forget|done|]. right. apply forget_cmds.
Qed.

(** A turn of [monitorChild]; a goroutine that ends leaves no command behind. *)
Lemma supervised_turn env id s :
  supervised s → let r := monitorChild_turn env id s in
  supervised r.1 ∧ r.1.(su_Monitors) = s.(su_Monitors) ∧ (r.2 = false → r.1.(su_Cmds) !! id = None).
Proof.
  intros Hs r. unfold r, monitorChild_turn. clear r. set (meta := restart_meta s id).
  pose proof (sup_budget _ Hs id) as Hb. fold meta in Hb. cbv zeta.
  assert (Hnone : ∀ s', (forget_cmd id s').(su_Cmds) !! id = None) by (intros; apply forget_cmds).
  destruct (rm_Desired meta) eqn:Hd; cbn [negb].
  2: { split; [done|]. split; [done|]. intros _. destruct (s.(su_Cmds) !! id) as [h|] eqn:Hh; [|done].
       pose proof (sup_desired _ Hs _ _ Hh). unfold meta in Hd. congruence. }
  unfold child. destruct (s.(su_Cmds) !! id) as [h|] eqn:Hh; cbn [mbind option_bind]; [|done].
  destruct (sup_child _ Hs _ _ Hh) as (p & -> & Hk).
  destruct (pr_State p) as [st|] eqn:Hst; [|done]. destruct (Exited st); cbn [negb]; [|done].
  destruct (Z.leb_spec maxSupervisorRestarts (rm_RestartCount meta)).
  { split; [by apply supervised_exhausted|]. split; [done|]. intros _. apply Hnone. }
  set (meta' := mkMeta true (rm_RestartCount meta + 1) (exit_string st)).
  assert (Hs1 : supervised (set_restart id meta' s)).
  { apply supervised_restart; [done|simpl; lia|by left]. }
  destruct (generatedByID (set_restart id meta' s) id) as [gen|].
  2: { split; [by apply supervised_forget|]. split; [done|]. intros _. apply Hnone. }
  destruct (launch_spec env gen.(gc_Path) gen.(gc_Instance).(ef_LogDir) (set_restart id meta' s))
    as [[e ->]|(Hc & logs & ->)]; cbn [fst snd].
  - split; [|split; [done|intros _; apply Hnone]]. apply supervised_exhausted; [|simpl; lia].
    by apply supervised_attempts.
  - split; [|split; done]. eapply supervised_set_cmd.
    + by apply supervised_launched.
    + by apply list_lookup_middle.
    + done.
    + intros id'. exact (fresh_handle _ id' Hs1).
    + change (rm_Desired (restart_meta (set_restart id meta' s) id) = true).
      by rewrite restart_meta_set, bool_decide_eq_true_2.
    + by apply (sup_watched _ Hs id h).
    + done.
Qed.

Lemma supervised_monitor env i s : supervised s → supervised (monitor_turn env i s).
Proof.
  intros Hs. unfold monitor_turn. destruct (s.(su_Monitors) !! i) as [id|] eqn:Hi; [|done].
  destruct (supervised_turn env id s Hs) as (H1 & H2 & H3).
  destruct (monitorChild_turn env id s) as [s' []]; [done|]. cbn [fst snd] in *.
  eapply supervised_unwatch; [done|by rewrite H2|by apply H3].
Qed.

(** Without a context the map must be empty, so [shutdown] is followed with the
    context still there. *)
Lemma supervised_shutdown_from l s :
  supervised s → NoDup l.*1 → (∀ id h, (id, h) ∈ l → s.(su_Cmds) !! id = Some h) →
  let s' := foldl (λ s kv, shutdown_one kv.1 kv.2 s) s l in
  supervised s' ∧ s'.(su_Cmds) = foldl (λ m kv, delete kv.1 m) s.(su_Cmds) l.
Proof.
  revert s. induction l as [|[id h] l IH]; intros s Hs Hnd Hl; cbn [foldl]; [done|].
  apply NoDup_cons in Hnd as [Hni Hnd].
  assert (H1 : supervised (shutdown_one id h s)).
  { unfold shutdown_one. apply supervised_dismiss; [done|apply Hl; constructor|]. apply (sup_budget _ Hs). }
  assert (H2 : (shutdown_one id h s).(su_Cmds) = delete id s.(su_Cmds)).
  { unfold shutdown_one. rewrite forget_kill. unfold Kill. cbn.
    destruct (s.(su_Processes) !! h); [|done]. by case_bool_decide. }
  destruct (IH (shutdown_one id h s) H1 Hnd) as [H3 H4].
  - intros id' h' Hin. rewrite H2. rewrite lookup_delete_ne; [apply Hl; by constructor|].
    intros ->. apply Hni, list_elem_of_fmap. eexists. by split; [|exact Hin].
  - cbn [fst snd]. split; [done|]. by rewrite H4, H2.
Qed.

Lemma shutdown_cancelled l s :
  foldl (λ s kv, shutdown_one kv.1 kv.2 s) (set_su_Cancelled true s) l
  = set_su_Cancelled true (foldl (λ s kv, shutdown_one kv.1 kv.2 s) s l).
Proof.
  revert s. induction l as [|[id h] l IH]; intros s; cbn [foldl]; [done|]. rewrite <-IH. f_equal.
  unfold shutdown_one, Kill. cbn. destruct (s.(su_Processes) !! h); [|done]. by case_bool_decide.
Qed.

Lemma delete_all {A} (l : list (string * A)) (m : gmap string A) k :
  foldl (λ m kv, delete kv.1 m) m l !! k = if bool_decide (k ∈ l.*1) then None else m !! k.
Proof.
  revert m. induction l as [|[k' a] l IH]; intros m; cbn [foldl fmap list_fmap fst].
  - by rewrite bool_decide_eq_false_2 by by intros ?%elem_of_nil.
  - rewrite IH. destruct (decide (k ∈ l.*1)) as [Hin|Hin].
    + rewrite !bool_decide_eq_true_2; [done|by constructor|done].
    + rewrite (bool_decide_eq_false_2 (k ∈ l.*1)) by done. destruct (decide (k = k')) as [->|Hne].
      * rewrite bool_decide_eq_true_2 by constructor. apply lookup_delete_eq.
      * rewrite bool_decide_eq_false_2 by by intros [|]%elem_of_cons. by apply lookup_delete_ne.
Qed.

Lemma supervised_shutdown s : supervised s → supervised (shutdown s).
Proof.
  intros Hs. unfold shutdown. cbn [su_Cmds set_su_Cancelled]. rewrite shutdown_cancelled.
  destruct (supervised_shutdown_from (map_to_list s.(su_Cmds)) s Hs) as [[] Hc];
    [apply NoDup_fst_map_to_list|by intros id h ?%elem_of_map_to_list|].
  split; try done. intros _. change (su_Cmds (foldl (λ s kv, shutdown_one kv.1 kv.2 s) s (map_to_list s.(su_Cmds))) = ∅).
  rewrite Hc. apply map_eq. intros k. rewrite delete_all, lookup_empty.
  destruct (s.(su_Cmds) !! k) as [h|] eqn:Hk.
  - rewrite bool_decide_eq_true_2; [done|]. apply list_elem_of_fmap. exists (k, h).
    by rewrite elem_of_map_to_list.
  - by case_bool_decide.
Qed.

(** ** Processes nobody looks after *)

Definition live (s : supervisorServer) (h : nat) : Prop :=
  ∃ p, s.(su_Processes) !! h = Some p ∧ p.(pr_State) = None ∧ p.(pr_Killed) = false.

Lemma no_orphans_live s : no_orphans s ↔ ∀ h, live s h → ∃ id, s.(su_Cmds) !! id = Some h.
Proof. unfold no_orphans, live. naive_solver. Qed.

Lemma live_kill s h h' : live (Kill h s) h' → live s h' ∧ h' ≠ h.
Proof.
  unfold Kill. intros (p & Hp & Hst & Hk). destruct (s.(su_Processes) !! h) as [q|] eqn:Hq.
  - case_bool_decide as Hn; cbn in Hp.
    + apply list_lookup_insert_Some in Hp as [(<- & <- & _)|[Hne Hp]]; [done|]. split; [by exists p|done].
    + split; [by exists p|]. intros ->. congruence.
  - split; [by exists p|]. intros ->. congruence.
Qed.

Lemma live_exits s h st h' : live (process_exits h st s) h' → live s h'.
Proof.
  unfold process_exits. intros (p & Hp & Hst & Hk). destruct (s.(su_Processes) !! h) as [q|] eqn:Hq; [|by exists p].
  case_bool_decide as Hn; [|by exists p]. rewrite close_logs_eq in Hp. cbn in Hp.
  apply list_lookup_insert_Some in Hp as [(<- & <- & _)|[Hne Hp]]; [done|by exists p].
Qed.

(** Forgetting a command whose process is gone. *)
Lemma no_orphans_forget id s :
  no_orphans s → (∀ h, s.(su_Cmds) !! id = Some h → ¬ live s h) → no_orphans (forget_cmd id s).
Proof.
  rewrite !no_orphans_live. intros Hs Hid h Hh. destruct (Hs h Hh) as [id' Hid'].
  exists id'. cbn. rewrite lookup_delete_ne; [done|]. intros <-. by eapply Hid.
Qed.

(** Dismissing: killed and forgotten. *)
Lemma no_orphans_dismiss id h s :
  no_orphans s → s.(su_Cmds) !! id = Some h → no_orphans (forget_cmd id (Kill h s)).
Proof.
  rewrite !no_orphans_live. intros Hs Hh h' [Hl Hne]%live_kill. destruct (Hs h' Hl) as [id' Hid'].
  exists id'. cbn. rewrite lookup_delete_ne; [|congruence].
  unfold Kill. destruct (s.(su_Processes) !! h); [|done]. by case_bool_decide.
Qed.

(** A new process that becomes the command of an instance whose last one, if
    any, is gone. *)
Lemma no_orphans_started id p s s' :
  no_orphans s → (∀ h, s.(su_Cmds) !! id = Some h → ¬ live s h) →
  s'.(su_Processes) = s.(su_Processes) ++ [p] →
  s'.(su_Cmds) = <[id := length s.(su_Processes)]> s.(su_Cmds) → no_orphans s'.
Proof.
  intros Hs Hid Hp Hc h q Hq Hst Hk. rewrite Hp in Hq. rewrite Hc.
  apply lookup_app_Some in Hq as [Hq|[Hge Hq]].
  - destruct (Hs h q Hq Hst Hk) as [id' Hid']. exists id'. rewrite lookup_insert_ne; [done|].
    intros <-. apply (Hid h Hid'). by exists q.
  - exists id. rewrite lookup_insert_eq. f_equal.
    apply lookup_lt_Some in Hq. cbn in Hq. lia.
Qed.

Lemma child_gone s id p :
  child s id = Some p → p.(pr_State) ≠ None → ∀ h, s.(su_Cmds) !! id = Some h → ¬ live s h.
Proof.
  unfold child, live. intros H Hst h Hh (q & Hq & Hn & _). rewrite Hh in H. cbn in H. congruence.
Qed.

Lemma child_stopped s id :
  supervised s → processRunning (child s id) = false → ∀ h, s.(su_Cmds) !! id = Some h → ¬ live s h.
Proof.
  intros Hs H h Hh (q & Hq & Hn & _). unfold child in H. rewrite Hh in H. cbn in H. rewrite Hq in H.
  cbn in H. by rewrite Hn in H.
Qed.

Lemma no_orphans_start env id s : supervised s → no_orphans s → no_orphans (startOne env id s).1.
Proof.
  intros Hs Ho. unfold startOne. destruct (processRunning _) eqn:Hr; [done|].
  pose proof (no_orphans_forget id s Ho (child_stopped s id Hs Hr)) as Hf.
  destruct (generatedByID _ id) as [gen|]; [|done].
  destruct (launch_spec env gen.(gc_Path) gen.(gc_Instance).(ef_LogDir) (forget_cmd id s))
    as [[e ->]|(Hc & logs & ->)]; [done|]. cbn [fst].
  eapply (no_orphans_started id _ (forget_cmd id s)); [done| |reflexivity|reflexivity].
  intros h. by rewrite forget_cmds.
Qed.

Lemma no_orphans_stop id s : no_orphans s → no_orphans (stopOne id s).1.
Proof.
  intros Ho. unfold stopOne, markDesired. cbn [su_Cmds set_restart set_su_Restart].
  destruct (s.(su_Cmds) !! id) as [h|] eqn:Hh; cbn [fst].
  - by apply no_orphans_dismiss.
  - apply no_orphans_forget; [done|]. cbn. by rewrite Hh.
Qed.

Lemma no_orphans_turn env id s :
  no_orphans s → no_orphans (monitorChild_turn env id s).1.
Proof.
  intros Ho. unfold monitorChild_turn. cbv zeta. destruct (negb _); [done|].
  destruct (child s id) as [p|] eqn:Hch; [|done]. destruct (pr_State p) as [st|] eqn:Hst; [|done].
  assert (Hg : ∀ h, s.(su_Cmds) !! id = Some h → ¬ live s h) by (apply (child_gone s id p); congruence).
  destruct (negb (Exited st)); [done|]. case_match; [by apply no_orphans_forget|].
  set (s1 := set_restart id _ s). destruct (generatedByID s1 id) as [gen|]; [|by apply no_orphans_forget].
  destruct (launch_spec env gen.(gc_Path) gen.(gc_Instance).(ef_LogDir) s1)
    as [[e ->]|(Hc & logs & ->)]; cbn [fst]; [by apply no_orphans_forget|].
  by eapply (no_orphans_started id _ s1).
Qed.

Lemma no_orphans_monitor env i s : no_orphans s → no_orphans (monitor_turn env i s).
Proof.
  intros Ho. unfold monitor_turn. destruct (s.(su_Monitors) !! i) as [id|]; [|done].
  pose proof (no_orphans_turn env id s Ho) as H. by destruct (monitorChild_turn env id s) as [s' []].
Qed.

Lemma no_orphans_exits h st s : no_orphans s → no_orphans (process_exits h st s).
Proof.
  rewrite !no_orphans_live. intros Hs h' Hl%live_exits. destruct (Hs h' Hl) as [id Hid]. exists id.
  unfold process_exits. destruct (s.(su_Processes) !! h); [|done]. case_bool_decide; [|done].
  by rewrite close_logs_eq.
Qed.

Lemma shutdown_one_eq id h s :
  ∃ meta, shutdown_one id h s = forget_cmd id (Kill h (set_restart id meta s)).
Proof. by eexists. Qed.

Lemma no_orphans_shutdown s : no_orphans s → no_orphans (shutdown s).
Proof.
  intros Ho. unfold shutdown. cbn [su_Cmds set_su_Cancelled]. rewrite shutdown_cancelled.
  change (no_orphans (foldl (λ s kv, shutdown_one kv.1 kv.2 s) s (map_to_list s.(su_Cmds)))).
  assert (Hl : ∀ id h, (id, h) ∈ map_to_list s.(su_Cmds) → s.(su_Cmds) !! id = Some h)
    by (intros; by apply elem_of_map_to_list).
  pose proof (NoDup_fst_map_to_list s.(su_Cmds)) as Hnd. revert Hl Hnd Ho.
  generalize (map_to_list s.(su_Cmds)). intros l. revert s.
  induction l as [|[id h] l IH]; intros s Hl Hnd Ho; cbn [foldl]; [done|].
  apply NoDup_cons in Hnd as [Hni Hnd]. apply IH; [|done|].
  - intros id' h' Hin. unfold shutdown_one. rewrite forget_kill. cbn [fst snd].
    transitivity (delete id s.(su_Cmds) !! id').
    + unfold Kill. cbn. destruct (s.(su_Processes) !! h); [|done]. by case_bool_decide.
    + rewrite lookup_delete_ne; [apply Hl; by constructor|].
      intros ->. apply Hni, list_elem_of_fmap. eexists. by split; [|exact Hin].
  - apply no_orphans_dismiss; [done|]. apply Hl. constructor.
Qed.

(** ** The budget of launches *)

(** Restarts that the command of an instance has left, and what all commands
    have left together. *)
Definition restarts_left (s : supervisorServer) (id : string) : nat :=
  Z.to_nat (maxSupervisorRestarts - (restart_meta s id).(rm_RestartCount)).
Definition budget (s : supervisorServer) : nat :=
  sum_list_with (λ kv, restarts_left s kv.1) (map_to_list s.(su_Cmds)).

(** Launches made and launches the restart policy may still make. *)
Definition spent (s : supervisorServer) : nat := length s.(su_Processes) + budget s.

Lemma sum_list_with_ext {A} (f g : A → nat) l :
  (∀ x, x ∈ l → f x = g x) → sum_list_with f l = sum_list_with g l.
Proof.
  induction l as [|x l IH]; intros H; simpl; [done|].
  rewrite (H x) by constructor. rewrite IH; [done|]. intros y Hy. apply H. by constructor.
Qed.

Lemma budget_split id h s :
  s.(su_Cmds) !! id = Some h → budget s = restarts_left s id + budget (forget_cmd id s).
Proof.
  intros H. unfold budget. rewrite <-(insert_delete_id s.(su_Cmds) id h H) at 1.
  by rewrite (map_to_list_insert _ id h (lookup_delete_eq _ _)).
Qed.

(** Only the entries of commands in the map count. *)
Lemma budget_forget id s s' :
  s'.(su_Cmds) = s.(su_Cmds) → (∀ id', id' ≠ id → restart_meta s' id' = restart_meta s id') →
  budget (forget_cmd id s') = budget (forget_cmd id s).
Proof.
  intros Hc Hm. unfold budget. cbn. rewrite Hc. apply sum_list_with_ext. intros [id' h'].
  rewrite elem_of_map_to_list. intros [Hne _]%lookup_delete_Some. unfold restarts_left, restart_meta.
  cbn. specialize (Hm id' (not_eq_sym Hne)). unfold restart_meta in Hm. by rewrite Hm.
Qed.

Lemma budget_forget_le id s : budget (forget_cmd id s) ≤ budget s.
Proof.
  destruct (s.(su_Cmds) !! id) as [h|] eqn:Hh; [rewrite (budget_split id h s Hh); lia|].
  unfold budget, forget_cmd. cbn. by rewrite delete_id.
Qed.

Lemma restart_meta_other id meta s id' :
  id' ≠ id → restart_meta (set_restart id meta s) id' = restart_meta s id'.
Proof. intros. rewrite restart_meta_set. by rewrite bool_decide_eq_false_2. Qed.

Lemma Kill_length h s : length (Kill h s).(su_Processes) = length s.(su_Processes).
Proof.
  unfold Kill. destruct (s.(su_Processes) !! h); [|done]. case_bool_decide; [|done]. cbn.
  apply length_insert.
Qed.

Lemma Kill_cmds h s : (Kill h s).(su_Cmds) = s.(su_Cmds) ∧ (Kill h s).(su_Restart) = s.(su_Restart).
Proof. unfold Kill. destruct (s.(su_Processes) !! h); [|done]. by case_bool_decide. Qed.

(** The command of an instance goes, whatever its restart entry becomes. *)
Lemma spent_forget id s s' :
  length s'.(su_Processes) = length s.(su_Processes) → s'.(su_Cmds) = s.(su_Cmds) →
  (∀ id', id' ≠ id → restart_meta s' id' = restart_meta s id') →
  spent (forget_cmd id s') ≤ spent s.
Proof.
  intros Hl Hc Hm. unfold spent. rewrite (budget_forget id s s') by done.
  pose proof (budget_forget_le id s). cbn. lia.
Qed.

Lemma spent_dismiss id h meta s : spent (forget_cmd id (Kill h (set_restart id meta s))) ≤ spent s.
Proof.
  destruct (Kill_cmds h (set_restart id meta s)) as [Hc Hr]. apply spent_forget.
  - by rewrite Kill_length.
  - by rewrite Hc.
  - intros id' Hne. unfold restart_meta at 1. rewrite Hr. by apply restart_meta_other.
Qed.

(** A launch for an instance, with the restarts it leaves. *)
Lemma spent_launched id h s s' :
  length s'.(su_Processes) = S (length s.(su_Processes)) →
  s'.(su_Cmds) = <[id := h]> s.(su_Cmds) →
  (∀ id', id' ≠ id → restart_meta s' id' = restart_meta s id') →
  spent s' = S (length s.(su_Processes)) + restarts_left s' id + budget (forget_cmd id s).
Proof.
  intros Hl Hc Hm. unfold spent. rewrite Hl, (budget_split id h s') by (rewrite Hc; apply lookup_insert_eq).
  rewrite <-Nat.add_assoc. do 2 f_equal. unfold budget. cbn. rewrite Hc, delete_insert_eq.
  apply sum_list_with_ext. intros [id' h']. rewrite elem_of_map_to_list.
  intros [Hne _]%lookup_delete_Some. unfold restarts_left. f_equal. f_equal. f_equal.
  unfold restart_meta in *. cbn. by rewrite (Hm id').
Qed.

Lemma spent_start env id s :
  supervised s →
  let r := startOne env id s in
  spent r.1 ≤ spent s + match r.2 with Ok true => 4 | _ => 0 end.
Proof.
  intros Hs. unfold startOne. destruct (processRunning _); cbn [fst snd]; [lia|].
  assert (Hle : spent (forget_cmd id s) ≤ spent s) by by apply spent_forget.
  cbv zeta.
  destruct (generatedByID (forget_cmd id s) id) as [gen|]; [|cbn [fst snd]; lia].
  destruct (launch_spec env gen.(gc_Path) gen.(gc_Instance).(ef_LogDir) (forget_cmd id s))
    as [[e ->]|(Hc & logs & ->)]; cbn [fst snd]; [change (spent (forget_cmd id s) ≤ spent s + 0); lia|].
  match goal with |- spent ?x ≤ _ => set (s' := x) end.
  rewrite (spent_launched id (length s.(su_Processes)) (forget_cmd id s) s').
  - assert (restarts_left s' id ≤ 3).
    { unfold restarts_left, s', markDesired.
      change (restart_meta (set_su_Monitors ?m ?x) id) with (restart_meta x id).
      rewrite restart_meta_set, bool_decide_eq_true_2 by done. cbn.
      pose proof (sup_budget _ Hs id) as Hb. unfold restart_meta, maxSupervisorRestarts in *. cbn in *. lia. }
    pose proof (budget_forget_le id (forget_cmd id s)) as Hf. unfold spent in Hle |- *. cbn in *. lia.
  - cbn. rewrite length_app. simpl. lia.
  - done.
  - intros id' Hne. exact (restart_meta_other id (mkMeta true (restart_meta s id).(rm_RestartCount)
      (restart_meta s id).(rm_LastExit)) s id' Hne).
Qed.

Lemma spent_stop id s : spent (stopOne id s).1 ≤ spent s.
Proof.
  unfold stopOne, markDesired. cbn [su_Cmds set_restart set_su_Restart].
  destruct (s.(su_Cmds) !! id); cbn [fst]; [apply spent_dismiss|by apply spent_forget; [| |apply restart_meta_other]].
Qed.

Lemma spent_turn env id s : supervised s → spent (monitorChild_turn env id s).1 ≤ spent s.
Proof.
  intros Hs. unfold monitorChild_turn. cbv zeta. destruct (negb _); [done|].
  unfold child. destruct (s.(su_Cmds) !! id) as [h|] eqn:Hh; cbn [mbind option_bind]; [|done].
  destruct (s.(su_Processes) !! h) as [p|]; [|done]. destruct (pr_State p) as [st|]; [|done].
  destruct (negb (Exited st)); [done|]. case_match eqn:Hb.
  { apply spent_forget; [done|done|apply restart_meta_other]. }
  apply Z.leb_gt in Hb. set (meta := mkMeta _ _ _). set (s1 := set_restart id meta s).
  destruct (generatedByID s1 id) as [gen|]; [|by apply (spent_forget id s s1); [| |apply restart_meta_other]].
  destruct (launch_spec env gen.(gc_Path) gen.(gc_Instance).(ef_LogDir) s1)
    as [[e ->]|(Hc & logs & ->)]; cbn [fst].
  - apply spent_forget; [done|done|]. intros id' Hne.
    rewrite restart_meta_other by done. by apply (restart_meta_other id meta s).
  - set (s' := set_cmd _ _ _).
    rewrite (spent_launched id (length s1.(su_Processes)) s s').
    + unfold spent. rewrite (budget_split id h s Hh). unfold restarts_left.
      assert (Hm : restart_meta s' id = meta).
      { change (restart_meta s1 id = meta). unfold s1. by rewrite restart_meta_set, bool_decide_eq_true_2. }
      rewrite Hm. cbn. pose proof (sup_budget _ Hs id). lia.
    + cbn. rewrite length_app. simpl. lia.
    + done.
    + intros id' Hne. by apply (restart_meta_other id meta s).
Qed.

Lemma spent_monitor env i s : supervised s → spent (monitor_turn env i s) ≤ spent s.
Proof.
  intros Hs. unfold monitor_turn. destruct (s.(su_Monitors) !! i) as [id|]; [|done].
  pose proof (spent_turn env id s Hs) as H. by destruct (monitorChild_turn env id s) as [s' []].
Qed.

Lemma spent_exits h st s : spent (process_exits h st s) = spent s.
Proof.
  unfold process_exits. destruct (s.(su_Processes) !! h); [|done]. case_bool_decide; [|done].
  rewrite close_logs_eq. unfold spent. cbn. by rewrite length_insert.
Qed.

Lemma spent_shutdown s : spent (shutdown s) ≤ spent s.
Proof.
  unfold shutdown. cbn [su_Cmds set_su_Cancelled]. rewrite shutdown_cancelled.
  change (spent (foldl (λ s kv, shutdown_one kv.1 kv.2 s) s (map_to_list s.(su_Cmds))) ≤ spent s).
  generalize (map_to_list s.(su_Cmds)). intros l. revert s.
  induction l as [|[id h] l IH]; intros s; cbn [foldl]; [done|].
  etransitivity; [apply IH|]. apply spent_dismiss.
Qed.

(** ** The context *)

Lemma start_cancelled env id s : (startOne env id s).1.(su_Cancelled) = s.(su_Cancelled).
Proof.
  unfold startOne. destruct (processRunning _); [done|]. destruct (generatedByID _ _) as [gen|]; [|done].
  by destruct (launch_spec env gen.(gc_Path) gen.(gc_Instance).(ef_LogDir) (forget_cmd id s))
    as [[e ->]|(_ & logs & ->)].
Qed.

Lemma kill_cancelled h s : (Kill h s).(su_Cancelled) = s.(su_Cancelled).
Proof. unfold Kill. destruct (_ !! h); [|done]. by case_bool_decide. Qed.

Lemma stop_cancelled id s : (stopOne id s).1.(su_Cancelled) = s.(su_Cancelled).
Proof.
  unfold stopOne. destruct (su_Cmds _ !! id) as [h|]; [|done]. cbn [fst].
  change (su_Cancelled (forget_cmd id ?x)) with (su_Cancelled x). by rewrite kill_cancelled.
Qed.

Lemma exits_cancelled h st s : (process_exits h st s).(su_Cancelled) = s.(su_Cancelled).
Proof.
  unfold process_exits. destruct (_ !! h); [|done]. case_bool_decide; [|done]. by rewrite close_logs_eq.
Qed.

Lemma turn_cancelled env id s : (monitorChild_turn env id s).1.(su_Cancelled) = s.(su_Cancelled).
Proof.
  unfold monitorChild_turn. destruct (negb _); [done|]. destruct (child s id) as [p|]; [|done].
  destruct (pr_State p) as [st|]; [|done]. destruct (negb _); [done|]. destruct (_ <=? _)%Z; [done|]. cbv zeta.
  set (s1 := set_restart _ _ s). destruct (generatedByID s1 id) as [gen|]; [|done].
  by destruct (launch_spec env gen.(gc_Path) gen.(gc_Instance).(ef_LogDir) s1) as [[e ->]|(_ & logs & ->)].
Qed.

Lemma monitor_cancelled env i s : (monitor_turn env i s).(su_Cancelled) = s.(su_Cancelled).
Proof.
  unfold monitor_turn. destruct (_ !! i) as [id|]; [|done]. pose proof (turn_cancelled env id s) as H.
  by destruct (monitorChild_turn env id s) as [s' []].
Qed.

Lemma shutdown_cancels s : (shutdown s).(su_Cancelled) = true.
Proof. unfold shutdown. by rewrite shutdown_cancelled. Qed.

(** ** Theorems *)

(** The two logs of a child. *)
Definition child_logs (gen : GeneratedConfig) : list string :=
  let dir := firstNonEmpty [gen.(gc_Instance).(ef_LogDir); JoinPath ["logs"; "supervisor-child"]] in
  [JoinPath [dir; "process.stdout.log"]; JoinPath [dir; "process.stderr.log"]].

(** Why the next child of a configuration cannot be launched, the first reason
    first: its directory, its logs, its program, the end of the supervisor, or
    the operating system. *)
Definition obstacles (env : child_environment) (gen : GeneratedConfig) (s : supervisorServer) : list string :=
  let n := s.(su_Attempts) in
  let command := buildVEGMCommand env gen.(gc_Path) in
  let because prefix (e : option string) := from_option (λ e, [prefix +:+ e]) [] e in
  because "mkdir child log dir: " (env.(ce_mkdir) n (firstNonEmpty [gen.(gc_Instance).(ef_LogDir);
    JoinPath ["logs"; "supervisor-child"]]))
  ++ because "open child stdout log: " (head (child_logs gen) ≫= env.(ce_open) n)
  ++ because "open child stderr log: " (last (child_logs gen) ≫= env.(ce_open) n)
  ++ because "" (env.(ce_lookup) n (hd "" command))
  ++ (if s.(su_Cancelled) then ["context canceled"] else [])
  ++ because "" (env.(ce_start) n command).

(** The instance has a fresh process that runs the configuration of [gen]; all
    the other processes and commands are as before. *)
Definition runs_fresh (env : child_environment) (gen : GeneratedConfig) (id : string)
    (s s' : supervisorServer) : Prop :=
  s'.(su_Processes) = s.(su_Processes) ++ [mkProcess (buildVEGMCommand env gen.(gc_Path)) (child_logs gen) false None] ∧
  s'.(su_Cmds) = <[id := length s.(su_Processes)]> s.(su_Cmds).

(** The instance has no process any more; the processes are as before. *)
Definition runs_no_more (id : string) (s s' : supervisorServer) : Prop :=
  s'.(su_Processes) = s.(su_Processes) ∧ s'.(su_Cmds) = delete id s.(su_Cmds).

(** The ways in which a child that has exited is dealt with: each is taken in its
    case only, so that there is one for every state. *)
Inductive after_exit (env : child_environment) (id : string) (code : Z) (s s' : supervisorServer)
    : bool → Prop :=
  | exit_final : (3 ≤ (restart_meta s id).(rm_RestartCount))%Z →
      runs_no_more id s s' →
      restart_meta s' id = mkMeta false (restart_meta s id).(rm_RestartCount) (exit_string (Exited_with code)) →
      after_exit env id code s s' false
  | exit_unknown : ((restart_meta s id).(rm_RestartCount) < 3)%Z →
      generatedByID s id = None → runs_no_more id s s' →
      restart_meta s' id
      = mkMeta true ((restart_meta s id).(rm_RestartCount) + 1) (exit_string (Exited_with code)) →
      after_exit env id code s s' false
  | exit_failed gen reason : ((restart_meta s id).(rm_RestartCount) < 3)%Z →
      generatedByID s id = Some gen → head (obstacles env gen s) = Some reason → runs_no_more id s s' →
      restart_meta s' id
      = mkMeta true ((restart_meta s id).(rm_RestartCount) + 1) ("restart failed: " +:+ reason) →
      after_exit env id code s s' false
  | exit_restarted gen : ((restart_meta s id).(rm_RestartCount) < 3)%Z →
      generatedByID s id = Some gen → obstacles env gen s = [] → runs_fresh env gen id s s' →
      restart_meta s' id
      = mkMeta true ((restart_meta s id).(rm_RestartCount) + 1) (exit_string (Exited_with code)) →
      after_exit env id code s s' true.

(** A launch meets its first obstacle, or succeeds. *)
Lemma launch_obstacles env gen s :
  let s1 := set_su_Attempts (S s.(su_Attempts)) s in
  let r := startVEGMProcessForScale env gen.(gc_Path) gen.(gc_Instance).(ef_LogDir) s in
  match obstacles env gen s with
  | e :: _ => r = (s1, Err e)
  | [] => r = (set_su_Processes (s.(su_Processes) ++ [mkProcess (buildVEGMCommand env gen.(gc_Path)) (child_logs gen) false None])
          (set_su_OpenLogs (s.(su_OpenLogs) ⊎ list_to_set_disj (child_logs gen)) s1), Ok (length s.(su_Processes)))
  end.
Proof.
  cbv zeta. unfold startVEGMProcessForScale, obstacles, child_logs. rewrite or_default_first.
  set (dir := firstNonEmpty _). set (out := JoinPath [dir; "process.stdout.log"]).
  set (er := JoinPath [dir; "process.stderr.log"]). set (s1 := set_su_Attempts _ s).
  cbn [head last mbind option_bind].
  destruct (ce_mkdir env _ dir) as [e|]; [done|]. destruct (ce_open env _ out) as [e|]; [done|].
  destruct (ce_open env _ er) as [e|].
  { cbn [from_option app]. f_equal. unfold close_log, open_log, s1, set_su_OpenLogs, set_su_Attempts. simpl.
    f_equal. multiset_solver. }
  assert (Hs : (open_log er (open_log out s1)).(su_Cancelled) = s.(su_Cancelled)) by done.
  assert (Hc : close_logs [out; er] (open_log er (open_log out s1)) = s1).
  { rewrite close_logs_eq. unfold open_log, s1, set_su_OpenLogs, set_su_Attempts. simpl. f_equal. multiset_solver. }
  unfold Start. rewrite Hs, Hc. destruct (ce_lookup env _ _) as [e|]; [done|].
  destruct (su_Cancelled s); [done|]. destruct (ce_start env _ _) as [e|]; [done|].
  cbn [from_option app]. by rewrite <-two_logs.
Qed.

Lemma turn_after_exit env id s p code :
  (restart_meta s id).(rm_Desired) = true → child s id = Some p → p.(pr_State) = Some (Exited_with code) →
  let r := monitorChild_turn env id s in after_exit env id code s r.1 r.2.
Proof.
  intros Hd Hch Hst r. unfold r, monitorChild_turn. cbv zeta. rewrite Hd, Hch, Hst. cbn [negb Exited].
  unfold maxSupervisorRestarts. case_match eqn:Hb; [apply Z.leb_le in Hb|apply Z.leb_gt in Hb].
  { apply exit_final; [done|done|]. cbn [fst].
    change (restart_meta (forget_cmd id ?x) id) with (restart_meta x id).
    by rewrite restart_meta_set, bool_decide_eq_true_2. }
  set (meta := mkMeta _ _ _). set (s1 := set_restart id meta s).
  assert (Hm : restart_meta s1 id = meta)
    by (unfold s1; by rewrite restart_meta_set, bool_decide_eq_true_2).
  destruct (generatedByID s1 id) as [gen|] eqn:Hg; cbn [fst snd]; [|by apply exit_unknown].
  pose proof (launch_obstacles env gen s1) as Hl. cbv zeta in Hl.
  change (obstacles env gen s1) with (obstacles env gen s) in Hl.
  destruct (obstacles env gen s) as [|e es] eqn:Ho; rewrite Hl; cbn [fst snd].
  - by eapply exit_restarted.
  - eapply exit_failed; [done|exact Hg|by rewrite Ho|done|].
    change (restart_meta (forget_cmd id ?x) id) with (restart_meta x id).
    by rewrite restart_meta_set, bool_decide_eq_true_2.
Qed.

(** C26. The restart policy: while the child of an instance runs, a turn of its
    goroutine changes nothing; a child that was ended by a signal counts as
    running, so that neither the goroutine nor a start request replaces it. A
    child that exited is launched again, with the configuration that its instance
    has now, while it has been restarted less than three times. It is given up
    only in these cases: the restarts are used up, and then the instance is not
    wanted any more; the instance is gone; or the launch meets an obstacle, whose
    first is recorded. *)
Theorem restart_policy_correct env id p s :
  supervised s → child s id = Some p →
  match p.(pr_State) with
  | None => monitorChild_turn env id s = (s, true) ∧ startOne env id s = (s, Ok false)
  | Some (Signaled _) => monitorChild_turn env id s = (s, true) ∧ startOne env id s = (s, Ok false)
  | Some (Exited_with code) =>
      let r := monitorChild_turn env id s in after_exit env id code s r.1 r.2
  end.
Proof.
  intros Hs Hch.
  assert (Hd : (restart_meta s id).(rm_Desired) = true).
  { unfold child in Hch. destruct (s.(su_Cmds) !! id) eqn:Hh; [|done]. by eapply sup_desired. }
  destruct (pr_State p) as [[code|name]|] eqn:Hst; [by eapply turn_after_exit|..];
    unfold monitorChild_turn, startOne, processRunning; by rewrite Hch, Hst, Hd.
Qed.

(** An instance whose restarts are used up and that is started again by hand is
    not restarted when it exits: [startOne] leaves the count alone. *)
Lemma manual_start_without_budget env id s :
  supervised s → (restart_meta s id).(rm_RestartCount) = maxSupervisorRestarts →
  (startOne env id s).2 = Ok true →
  (restart_meta (startOne env id s).1 id).(rm_RestartCount) = maxSupervisorRestarts.
Proof.
  intros Hs Hb. unfold startOne. destruct (processRunning _); [done|].
  destruct (generatedByID (forget_cmd id s) id) as [gen|]; [|done].
  destruct (launch_spec env gen.(gc_Path) gen.(gc_Instance).(ef_LogDir) (forget_cmd id s))
    as [[e ->]|(Hc & logs & ->)]; [done|]. intros _. cbn [fst].
  change ((restart_meta (set_restart id (mkMeta true (restart_meta s id).(rm_RestartCount)
    (restart_meta s id).(rm_LastExit)) s) id).(rm_RestartCount) = maxSupervisorRestarts).
  by rewrite restart_meta_set, bool_decide_eq_true_2.
Qed.

(** ** Witness *)

(** A machine on which every launch succeeds. *)
Definition example_children : child_environment :=
  mkChildEnv "bin/vegm" (Err "unknown") (λ _, false) false (λ _ _, None) (λ _ _, None) (λ _ _, None)
    (λ _ _, None).

(** A supervisor whose one child exited with status 1. *)
Definition exited_child : supervisorServer :=
  mkSupervisor "fleet.json" "generated" (match example_generated.2 with Ok gens => gens | Err _ => [] end) {[ "egm-1" := 0 ]} {[ "egm-1" := mkMeta true 0 "" ]} false
    ["egm-1"] [mkProcess ["vegm"] [] false (Some (Exited_with 1))] 1 ∅ ∅.

Lemma exited_child_supervised : supervised exited_child.
Proof.
  split; cbn; try done.
  - by intros id h [<- <-]%lookup_singleton_Some; eexists.
  - by intros id h [<- <-]%lookup_singleton_Some.
  - intros id h [<- <-]%lookup_singleton_Some. constructor.
  - by intros id1 id2 h [<- <-]%lookup_singleton_Some [<- _]%lookup_singleton_Some.
  - intros id. unfold restart_meta. cbn. destruct (decide (id = "egm-1")) as [->|Hne].
    + by rewrite lookup_singleton_eq.
    + by rewrite lookup_singleton_ne.
Qed.

Lemma restart_policy_correct_witness :
  let env := example_children in
  let p := mkProcess ["vegm"] [] false (Some (Exited_with 1)) in
  supervised exited_child ∧ child exited_child "egm-1" = Some p ∧
  let r := monitorChild_turn env "egm-1" exited_child in
  after_exit env "egm-1" 1 exited_child r.1 r.2 ∧ r.2 = true ∧ r.1.(su_Cmds) !! "egm-1" = Some 1.
Proof.
  intros env p. split; [exact exited_child_supervised|]. split; [reflexivity|]. split.
  - exact (restart_policy_correct env "egm-1" p exited_child exited_child_supervised eq_refl).
  - split; vm_compute; reflexivity.
Defined.
