(* ===== verification/FleetEdit.v ===== *)
(** * Editing the fleet (src/cmd/vegm-supervisor/fleet_edit.go)

    Instances are added to and removed from the manifest file while the
    supervisor runs; every edit generates the configurations again. Files are
    those of [Generate]; a path that is [denied] cannot be written, with the
    operating system's text as its error. *)

From S2P Require Import Prelude GoStrings Url Json Validate Config FleetTypes Fleet Generate Supervisor.

(** ** Requests *)

Record addInstanceRequest := mkAddInstance {
  ai_Remove : bool;
  ai_InstanceID : string;
  ai_EGMID : string;
  ai_HostID : string;
  ai_Group : string;
  ai_WirePort : Z;
  ai_ControlPort : Z;
  ai_BindHost : string;
  ai_EGMEndpoint : Endpoint;
  ai_HostEndpoint : HostEndpoint;
  ai_G2SXML : G2SXML;
  ai_AdvertisedHost : string;
  ai_AdvertisedIP : string;
}.

Record removeInstanceRequest := mkRemoveInstance {
  ri_InstanceID : string;
}.

Definition enc_addInstanceRequest (x : addInstanceRequest) : json := JObj (entries [
  opt "remove" x.(ai_Remove);
  req "instance_id" x.(ai_InstanceID);
  req "egm_id" x.(ai_EGMID);
  opt "host_id" x.(ai_HostID);
  req "group" x.(ai_Group);
  opt "wire_port" x.(ai_WirePort);
  opt "control_port" x.(ai_ControlPort);
  opt "bind_host" x.(ai_BindHost);
  opt "egm_endpoint" x.(ai_EGMEndpoint);
  opt "host_endpoint" x.(ai_HostEndpoint);
  opt "g2s_xml" x.(ai_G2SXML);
  opt "advertised_host" x.(ai_AdvertisedHost);
  opt "advertised_ip" x.(ai_AdvertisedIP)]).
Definition dec_addInstanceRequest : decoder addInstanceRequest := dec_struct (λ kvs old,
  v0 ← dec_key "remove" dec kvs old.(ai_Remove);
  v1 ← dec_key "instance_id" dec kvs old.(ai_InstanceID);
  v2 ← dec_key "egm_id" dec kvs old.(ai_EGMID);
  v3 ← dec_key "host_id" dec kvs old.(ai_HostID);
  v4 ← dec_key "group" dec kvs old.(ai_Group);
  v5 ← dec_key "wire_port" dec kvs old.(ai_WirePort);
  v6 ← dec_key "control_port" dec kvs old.(ai_ControlPort);
  v7 ← dec_key "bind_host" dec kvs old.(ai_BindHost);
  v8 ← dec_key "egm_endpoint" dec kvs old.(ai_EGMEndpoint);
  v9 ← dec_key "host_endpoint" dec kvs old.(ai_HostEndpoint);
  v10 ← dec_key "g2s_xml" dec kvs old.(ai_G2SXML);
  v11 ← dec_key "advertised_host" dec kvs old.(ai_AdvertisedHost);
  v12 ← dec_key "advertised_ip" dec kvs old.(ai_AdvertisedIP);
  Some (mkAddInstance v0 v1 v2 v3 v4 v5 v6 v7 v8 v9 v10 v11 v12)).
#[export] Program Instance codec_addInstanceRequest : Codec addInstanceRequest := {|
  enc := enc_addInstanceRequest; dec := dec_addInstanceRequest;
  zero := mkAddInstance zero zero zero zero zero zero zero zero zero zero zero zero zero; is_empty _ := false;
  safe r x := safe r x.(ai_WirePort) ∧ safe r x.(ai_ControlPort) ∧ safe r x.(ai_EGMEndpoint) ∧ safe r x.(ai_HostEndpoint) ∧ safe r x.(ai_G2SXML) |}.
Next Obligation. done. Qed.
Next Obligation. intros T r [] HT H; cbv beta in H. destruct_and?. solve_struct_codec. Qed.

Definition enc_removeInstanceRequest (x : removeInstanceRequest) : json := JObj (entries [
  req "instance_id" x.(ri_InstanceID)]).
Definition dec_removeInstanceRequest : decoder removeInstanceRequest := dec_struct (λ kvs old,
  v0 ← dec_key "instance_id" dec kvs old.(ri_InstanceID);
  Some (mkRemoveInstance v0)).
#[export] Program Instance codec_removeInstanceRequest : Codec removeInstanceRequest := {|
  enc := enc_removeInstanceRequest; dec := dec_removeInstanceRequest;
  zero := mkRemoveInstance zero; is_empty _ := false;
  safe r x := True |}.
Next Obligation. done. Qed.
Next Obligation. intros T r [] HT H; cbv beta in H. destruct_and?. solve_struct_codec. Qed.

(** ** Operations *)

Definition defaultFleetG2SXML (x : G2SXML) (ep : Endpoint) : G2SXML :=
  mkFleetG2SXML (or_default x.(fx_Mode) "lab_legacy_xml")
    (or_default x.(fx_Namespace) "http://www.gamingstandards.com/g2s/schemas/v1.0.3")
    (if bool_decide (x.(fx_EGMLocation) = "") && negb (bool_decide (ep.(ep_Host) = "")) && (0 <? ep.(ep_Port))%Z
     then host_port ep.(ep_Host) ep.(ep_Port) else x.(fx_EGMLocation)).

(** The instance that [handleFleetInstancesAdd] builds from a request. *)
Definition requested_instance (i : addInstanceRequest) : FleetInstance := {|
  in_InstanceID := TrimSpace i.(ai_InstanceID);
  in_EGMID := TrimSpace i.(ai_EGMID);
  in_HostID := TrimSpace i.(ai_HostID);
  in_Group := TrimSpace i.(ai_Group);
  in_WirePort := i.(ai_WirePort);
  in_ControlPort := i.(ai_ControlPort);
  in_BindHost := TrimSpace i.(ai_BindHost);
  in_EGMEndpoint := i.(ai_EGMEndpoint);
  in_HostEndpoint := i.(ai_HostEndpoint);
  in_G2SXML := defaultFleetG2SXML i.(ai_G2SXML) i.(ai_EGMEndpoint);
  in_AdvertisedHost := TrimSpace i.(ai_AdvertisedHost);
  in_AdvertisedIP := TrimSpace i.(ai_AdvertisedIP);
  in_DNSServers := []; in_SubnetMask := ""; in_Gateway := ""; in_ServerName := "";
  in_LogDir := ""; in_SQLitePath := ""; in_CertFile := ""; in_KeyFile := ""; in_CAFile := "";
  in_Overrides := ∅;
|}.

(** The loop of [addFleetInstance] over the instances there are. *)
Fixpoint conflict (existing : list FleetInstance) (inst : FleetInstance) : option string :=
  match existing with
  | [] => None
  | e :: rest =>
      if bool_decide (e.(in_InstanceID) = inst.(in_InstanceID))
      then Some ("instance_id " +:+ quote inst.(in_InstanceID) +:+ " already exists")
      else if bool_decide (e.(in_EGMID) = inst.(in_EGMID))
      then Some ("egm_id " +:+ quote inst.(in_EGMID) +:+ " already exists")
      else conflict rest inst
  end.

Definition set_instances (l : list FleetInstance) (m : Manifest) : Manifest :=
  mkManifest m.(mf_SchemaVersion) m.(mf_FleetName) m.(mf_Description) m.(mf_Defaults)
    m.(mf_Profiles) m.(mf_Groups) l.

Section os.
Context (denied : string → bool) (os_error : string → string).

Definition validateAndGenerateFleet (m : Manifest) (generatedDir : string) (fs : gmap string file)
    : gmap string file * result (list GeneratedConfig) :=
  match ResolveInstances (Some m) with
  | Err e => (fs, Err e)
  | Ok _ => GenerateConfigs denied (Some m) generatedDir fs
  end.

Definition writeManifest (path : string) (m : Manifest) (fs : gmap string file)
    : gmap string file * result unit :=
  if denied path then (fs, Err (os_error path)) else (<[path := JsonFile (enc m)]> fs, Ok ()).

(** What adding and removing share: generate, write, remember. *)
Definition commit_fleet (m : Manifest) (s : supervisorServer) : supervisorServer * result unit :=
  match validateAndGenerateFleet m s.(su_GeneratedDir) s.(su_Files) with
  | (fs, Err e) => (set_su_Files fs s, Err e)
  | (fs, Ok generated) =>
      match writeManifest s.(su_ManifestPath) m fs with
      | (fs, Err e) => (set_su_Files fs s, Err e)
      | (fs, Ok _) => (set_su_Generated generated (set_su_Files fs s), Ok ())
      end
  end.

Definition addFleetInstance (inst : FleetInstance) (s : supervisorServer)
    : supervisorServer * result unit :=
  match LoadManifest s.(su_Files) s.(su_ManifestPath) with
  | Err e => (s, Err e)
  | Ok m =>
      match conflict m.(mf_Instances) inst with
      | Some e => (s, Err e)
      | None =>
          match m.(mf_Groups) !! inst.(in_Group) with
          | None => (s, Err ("group " +:+ quote inst.(in_Group) +:+ " not found"))
          | Some _ => commit_fleet (set_instances (m.(mf_Instances) ++ [inst]) m) s
          end
      end
  end.

(** [removeFleetInstance] after [stopOne], under the mutex again. *)
Definition remove_locked (instanceID : string) (s : supervisorServer) : supervisorServer * result unit :=
  match LoadManifest s.(su_Files) s.(su_ManifestPath) with
  | Err e => (s, Err e)
  | Ok m =>
      if negb (bool_decide (instanceID ∈ in_InstanceID <$> m.(mf_Instances)))
      then (s, Err ("instance " +:+ quote instanceID +:+ " not found"))
      else
        let out := filter (λ i, i.(in_InstanceID) ≠ instanceID) m.(mf_Instances) in
        match commit_fleet (set_instances out m) s with
        | (s, Err e) => (s, Err e)
        | (s, Ok _) =>
            (set_su_Restart (delete instanceID s.(su_Restart)) (forget_cmd instanceID s), Ok ())
        end
  end.

Definition removeFleetInstance (instanceID : string) (s : supervisorServer)
    : supervisorServer * result unit :=
  remove_locked instanceID (stopOne instanceID s).1.
End os.

(** ** Lemmas *)

Lemma conflict_None l inst :
  conflict l inst = None ↔
  (inst.(in_InstanceID) ∉ map in_InstanceID l) ∧ (inst.(in_EGMID) ∉ map in_EGMID l).
Proof.
  induction l as [|e l IH]; simpl; [split; [split; by apply not_elem_of_nil|done]|].
  rewrite !not_elem_of_cons. repeat case_bool_decide; naive_solver.
Qed.

(** The results of [GenerateConfigs] for resolved instances. *)
Definition generated_for (dir : string) (effs : list EffectiveInstance) : list GeneratedConfig :=
  map (λ e, mkGenerated e (config_path dir e) (generated_config e)) effs.

Definition generated_dir (s : supervisorServer) : string := or_default s.(su_GeneratedDir) "./generated".

(** Nothing that the edit writes is refused. *)
Definition writable (denied : string → bool) (s : supervisorServer) (effs : list EffectiveInstance) : Prop :=
  denied (generated_dir s) = false ∧
  Forall (λ e, denied (config_path (generated_dir s) e) = false) effs ∧
  denied s.(su_ManifestPath) = false.

Lemma write_configs_total denied dir effs fs :
  is_ok (write_configs denied dir effs fs).2 = true ↔ Forall (λ e, denied (config_path dir e) = false) effs.
Proof.
  revert fs. induction effs as [|e effs IH]; intros fs; simpl; [split; [constructor|done]|].
  rewrite Forall_cons. destruct (denied (config_path dir e)); [simpl; naive_solver|].
  specialize (IH (<[config_path dir e := JsonFile (enc (generated_config e))]> fs)).
  destruct (write_configs denied dir effs _) as [fs' [gens|]]; simpl in *; naive_solver.
Qed.

(** The manifest's file is none of the generated ones. *)
Definition separate (s : supervisorServer) (m : Manifest) : Prop :=
  Forall (λ i, JoinPath [generated_dir s; i.(in_InstanceID) +:+ ".json"] ≠ s.(su_ManifestPath)) m.(mf_Instances).

Lemma separate_paths s m effs :
  separate s m → ResolveInstances (Some m) = Ok effs →
  s.(su_ManifestPath) ∉ map (config_path (generated_dir s)) effs.
Proof.
  intros Hs Hr Hin. apply list_elem_of_In, in_map_iff in Hin as (e & He & Hin%list_elem_of_In).
  destruct (resolved_from _ _ _ Hr Hin) as (i & inst & Hi & Hres).
  apply list_elem_of_lookup_2 in Hi. apply (proj1 (Forall_forall _ _) Hs) in Hi.
  apply Hi. unfold config_path in He. by rewrite (resolved_id _ _ _ _ Hres) in He.
Qed.

Section edits.
Context (denied : string → bool) (os_error : string → string).

(** [validateAndGenerateFleet] resolves twice; once is enough. *)
Lemma validateAndGenerateFleet_eq m dir fs :
  validateAndGenerateFleet denied m dir fs = GenerateConfigs denied (Some m) dir fs.
Proof. unfold validateAndGenerateFleet, GenerateConfigs. by destruct (ResolveInstances (Some m)). Qed.

Lemma commit_fleet_ok m s :
  is_ok (commit_fleet denied os_error m s).2 = true ↔
  ∃ effs, ResolveInstances (Some m) = Ok effs ∧ writable denied s effs.
Proof.
  unfold commit_fleet, writable. rewrite validateAndGenerateFleet_eq. unfold GenerateConfigs.
  destruct (ResolveInstances (Some m)) as [effs|e]; [|naive_solver].
  fold (generated_dir s). destruct (denied (generated_dir s)); [naive_solver|].
  pose proof (write_configs_total denied (generated_dir s) effs s.(su_Files)) as Ht.
  destruct (write_configs denied (generated_dir s) effs _) as [fs [gens|]]; simpl in *; [|naive_solver].
  unfold writeManifest. destruct (denied (su_ManifestPath s)); naive_solver.
Qed.

(** What an edit leaves: on success the new manifest and what it generates, on
    an error at most other files. *)
Lemma commit_fleet_spec m s :
  match commit_fleet denied os_error m s with
  | (s', Ok _) => ∃ effs fs, ResolveInstances (Some m) = Ok effs ∧
      s' = set_su_Generated (generated_for (generated_dir s) effs)
             (set_su_Files (<[s.(su_ManifestPath) := JsonFile (enc m)]> fs) s)
  | (s', Err _) => ∃ fs, s' = set_su_Files fs s ∧
      (separate s m → fs !! s.(su_ManifestPath) = s.(su_Files) !! s.(su_ManifestPath))
  end.
Proof.
  unfold commit_fleet. rewrite validateAndGenerateFleet_eq. unfold GenerateConfigs.
  destruct (ResolveInstances (Some m)) as [effs|e] eqn:Hr; [|by eexists].
  fold (generated_dir s). destruct (denied (generated_dir s)); [by eexists|].
  destruct (write_configs denied (generated_dir s) effs _) as [fs r] eqn:Hw.
  assert (Ho : separate s m → fs !! su_ManifestPath s = su_Files s !! su_ManifestPath s).
  { intros Hs. change fs with (fs, r).1. rewrite <-Hw. apply write_configs_other. by eapply separate_paths. }
  destruct r as [gens|]; [|by exists fs]. unfold writeManifest. destruct (denied _); [by exists fs|].
  exists effs, fs. split; [done|]. by rewrite (write_configs_ok _ _ _ _ _ _ Hw).
Qed.
End edits.

(** ** The fleet behind the file *)

(** The manifest that is read back. *)
Definition fleet_is (s : supervisorServer) (m : Manifest) : Prop :=
  LoadManifest s.(su_Files) s.(su_ManifestPath) = Ok m.

Definition known_ids (s : supervisorServer) : list string :=
  map (λ g, g.(gc_Instance).(ef_InstanceID)) s.(su_Generated).

Lemma fleet_is_ok s m : fleet_is s m → manifest_ok m.
Proof.
  unfold fleet_is, LoadManifest. destruct (su_Files s !! su_ManifestPath s) as [[j|]|]; [|done..].
  destruct (dec j zero) as [m'|]; [|done]. destruct (ValidateManifest (Some m')) as [[]|] eqn:Hv; [|done].
  intros [= <-]. by apply ValidateManifest_ok.
Qed.

Lemma committed_fleet effs fs s m :
  ResolveInstances (Some m) = Ok effs → safe id m →
  let s' := set_su_Generated (generated_for (generated_dir s) effs)
             (set_su_Files (<[s.(su_ManifestPath) := JsonFile (enc m)]> fs) s) in
  fleet_is s' m ∧ known_ids s' = map in_InstanceID m.(mf_Instances).
Proof.
  intros Hr Hs s'. split.
  - unfold fleet_is, LoadManifest.
    assert (Hf : su_Files s' !! su_ManifestPath s' = Some (JsonFile (enc m))) by apply lookup_insert_eq.
    rewrite Hf. cbv beta iota.
    pose proof (dec_enc id id m _ Hs) as Hd. unfold id in Hd at 1. rewrite Hd.
    apply ResolveInstances_ok in Hr as [Hm _]. by rewrite (proj2 (ValidateManifest_ok m) Hm).
  - rewrite <-(resolved_ids _ _ Hr). unfold known_ids, s', generated_for.
    cbn [su_Generated set_su_Generated]. by rewrite map_map.
Qed.

(** Either way of an edit. *)
Lemma commit_fleet_keeps denied os_error s m m' :
  fleet_is s m → safe id m' →
  match commit_fleet denied os_error m' s with
  | (s', Ok _) => fleet_is s' m' ∧ known_ids s' = map in_InstanceID m'.(mf_Instances)
  | (s', Err _) => (separate s m' → fleet_is s' m) ∧ known_ids s' = known_ids s
  end.
Proof.
  intros Hm Hs. pose proof (commit_fleet_spec denied os_error m' s) as Hc.
  destruct (commit_fleet denied os_error m' s) as [s' [[]|e]].
  - destruct Hc as (effs & fs & Hr & ->). by apply committed_fleet.
  - destruct Hc as (fs & -> & Ho). split; [|done]. intros Hsep.
    unfold fleet_is, LoadManifest in *. cbn [su_Files su_ManifestPath set_su_Files]. by rewrite Ho.
Qed.

Lemma stopOne_others id s :
  let s' := (stopOne id s).1 in
  s'.(su_Files) = s.(su_Files) ∧ s'.(su_ManifestPath) = s.(su_ManifestPath) ∧
  s'.(su_GeneratedDir) = s.(su_GeneratedDir) ∧ s'.(su_Generated) = s.(su_Generated).
Proof.
  unfold stopOne, Kill, markDesired. cbn. destruct (s.(su_Cmds) !! id) as [h|]; [|done]. cbn.
  destruct (s.(su_Processes) !! h); [|done]. by case_bool_decide.
Qed.

Lemma safe_fleet m : safe id m → Forall (safe id) m.(mf_Instances).
Proof. simpl. intros H. by destruct_and?. Qed.

Lemma safe_instances l m :
  safe id m → Forall (safe id) l → safe id (set_instances l m).
Proof. simpl. intros H Hl. destruct_and?. split_and?; done. Qed.

(** ** Theorems *)

(** When an instance is added: its identifiers are new, its group is known,
    the manifest with it resolves, and every file can be written; nothing else
    is checked. *)
Theorem addFleetInstance_accepts denied os_error inst s m :
  fleet_is s m →
  is_ok (addFleetInstance denied os_error inst s).2 = true ↔
  (inst.(in_InstanceID) ∉ map in_InstanceID m.(mf_Instances)) ∧
  (inst.(in_EGMID) ∉ map in_EGMID m.(mf_Instances)) ∧ is_Some (m.(mf_Groups) !! inst.(in_Group)) ∧
  ∃ effs, ResolveInstances (Some (set_instances (m.(mf_Instances) ++ [inst]) m)) = Ok effs ∧
    writable denied s effs.
Proof.
  intros Hm. unfold addFleetInstance. rewrite Hm.
  destruct (conflict (mf_Instances m) inst) as [e|] eqn:Hc.
  { split; [done|]. intros (H1 & H2 & _). pose proof (proj2 (conflict_None _ _) (conj H1 H2)). congruence. }
  apply conflict_None in Hc. destruct (mf_Groups m !! in_Group inst) as [g|].
  - rewrite commit_fleet_ok. naive_solver.
  - split; [done|]. by intros (_ & _ & [? ?] & _).
Qed.

(** C20. Edits of the fleet implement edits of the list of instances: adding
    appends, removing deletes, the manifest file is read back as the edited
    manifest and the supervisor knows its instances; a refused edit leaves the
    manifest and the known instances alone, provided the manifest's file is
    none of the generated ones. *)
Theorem fleet_edits_refine denied os_error inst id s m :
  fleet_is s m → safe Datatypes.id m → safe Datatypes.id inst →
  let added := set_instances (m.(mf_Instances) ++ [inst]) m in
  let removed := set_instances (filter (λ i, i.(in_InstanceID) ≠ id) m.(mf_Instances)) m in
  match addFleetInstance denied os_error inst s with
  | (s', Ok _) => fleet_is s' added ∧ known_ids s' = map in_InstanceID added.(mf_Instances)
  | (s', Err _) => (separate s added → fleet_is s' m) ∧ known_ids s' = known_ids s
  end ∧
  match removeFleetInstance denied os_error id s with
  | (s', Ok _) => fleet_is s' removed ∧ known_ids s' = map in_InstanceID removed.(mf_Instances)
  | (s', Err _) => (separate s removed → fleet_is s' m) ∧ known_ids s' = known_ids s
  end.
Proof.
  intros Hm Hsm Hsi added removed. split.
  - unfold addFleetInstance. rewrite Hm. destruct (conflict _ inst); [done|].
    destruct (mf_Groups m !! in_Group inst); [|done]. fold added.
    apply commit_fleet_keeps; [done|]. apply safe_instances; [done|].
    apply Forall_app. split; [by apply safe_fleet|]. by apply Forall_singleton.
  - unfold removeFleetInstance. destruct (stopOne_others id s) as (Hf & Hp & Hd & Hg).
    set (s1 := (stopOne id s).1) in *.
    assert (Hm1 : fleet_is s1 m) by (unfold fleet_is; by rewrite Hf, Hp).
    assert (Hsep : separate s removed ↔ separate s1 removed)
      by (unfold separate, generated_dir; by rewrite Hp, Hd).
    assert (Hk : known_ids s = known_ids s1) by (unfold known_ids; by rewrite Hg).
    rewrite Hk. unfold remove_locked. rewrite Hm1. destruct (negb _); [done|]. fold removed.
    assert (Hsr : safe Datatypes.id removed)
      by (apply safe_instances; [done|]; apply Forall_forall; intros x [_ Hx]%list_elem_of_filter;
          by apply (proj1 (Forall_forall _ _) (safe_fleet m Hsm))).
    pose proof (commit_fleet_keeps denied os_error s1 m removed Hm1 Hsr) as Hc.
    destruct (commit_fleet denied os_error removed s1) as [s' [[]|e]]; [done|].
    destruct Hc as [Hc1 Hc2]. split; [|done]. intros Hs. by apply Hc1, Hsep.
Qed.

(** ** Lemmas about what edits do beyond the list *)

(** The child is stopped before the removal is known to succeed. *)
Lemma remove_stops_first denied os_error id s :
  is_ok (removeFleetInstance denied os_error id s).2 = false →
  (removeFleetInstance denied os_error id s).1.(su_Cmds) = delete id s.(su_Cmds).
Proof.
  unfold removeFleetInstance, remove_locked.
  assert (Hc : (stopOne id s).1.(su_Cmds) = delete id s.(su_Cmds)).
  { unfold stopOne, Kill, markDesired. cbn. destruct (s.(su_Cmds) !! id) as [h|]; [|done]. cbn.
    destruct (s.(su_Processes) !! h); [|done]. by case_bool_decide. }
  destruct (LoadManifest _ _) as [m|e]; [|done]. destruct (negb _); [done|].
  set (m' := set_instances _ m). pose proof (commit_fleet_spec denied os_error m' (stopOne id s).1) as Hs.
  destruct (commit_fleet denied os_error m' (stopOne id s).1) as [s' [[]|e]]; [done|].
  by destruct Hs as (fs & -> & _).
Qed.

(** ** Examples and witnesses *)

Definition three_instances : list FleetInstance := [
  example_instance "egm-1" "EGM-1" "10.0.0.1" 0 0;
  example_instance "egm-2" "EGM-2" "10.0.0.2" 0 0;
  example_instance "egm-3" "EGM-3" "10.0.0.3" 0 0].

Definition example_supervisor (instances : list FleetInstance) : supervisorServer :=
  let m := example_manifest instances in
  let '(fs, r) := GenerateConfigs (λ _, false) (Some m) "generated"
                    {["fleet.json" := JsonFile (enc m)]} in
  newSupervisorServer "fleet.json" "generated" (match r with Ok gens => gens | Err _ => [] end) fs.

(** Removing an instance moves the ports of those after it that take theirs from
    their position, also when their processes run with the old ones. *)
Definition wire_ports (s : supervisorServer) : list (string * Z) :=
  map (λ g, (g.(gc_Instance).(ef_InstanceID), g.(gc_Instance).(ef_WirePort))) s.(su_Generated).

Lemma remove_moves_ports :
  let s := example_supervisor three_instances in
  let s' := (removeFleetInstance (λ _, false) id "egm-1" s).1 in
  wire_ports s = [("egm-1", 19000); ("egm-2", 19001); ("egm-3", 19002)]%Z ∧
  wire_ports s' = [("egm-2", 19000); ("egm-3", 19001)]%Z.
Proof. vm_compute. split; reflexivity. Qed.

Definition new_instance : FleetInstance := example_instance "egm-4" "EGM-4" "10.0.0.4" 0 0.

Lemma addFleetInstance_accepts_witness :
  let s := example_supervisor three_instances in
  let m := example_manifest three_instances in
  fleet_is s m ∧ is_ok (addFleetInstance (λ _, false) id new_instance s).2 = true ∧
  ∃ effs, ResolveInstances (Some (set_instances (m.(mf_Instances) ++ [new_instance]) m)) = Ok effs ∧
    writable (λ _, false) s effs.
Proof.
  intros s m. assert (Hm : fleet_is s m) by (vm_compute; reflexivity).
  assert (Ha : is_ok (addFleetInstance (λ _, false) id new_instance s).2 = true)
    by (vm_compute; reflexivity).
  split; [exact Hm|]. split; [exact Ha|].
  apply (addFleetInstance_accepts (λ _, false) id new_instance s m Hm), Ha.
Defined.

Lemma fleet_edits_refine_witness :
  let s := example_supervisor three_instances in
  let m := example_manifest three_instances in
  fleet_is s m ∧
  fleet_is (addFleetInstance (λ _, false) id new_instance s).1
    (set_instances (three_instances ++ [new_instance]) m).
Proof.
  intros s m. assert (Hm : fleet_is s m) by (vm_compute; reflexivity). split; [exact Hm|].
  assert (Hsm : safe Datatypes.id m).
  { repeat first [ exact I | reflexivity | by apply map_Forall_empty
    | apply map_Forall_singleton | split | constructor | progress simpl ]. }
  assert (Hsi : safe Datatypes.id new_instance).
  { repeat first [ exact I | reflexivity | by apply map_Forall_empty | split | constructor
    | progress simpl ]. }
  destruct (fleet_edits_refine (λ _, false) id new_instance "egm-1" s m Hm Hsm Hsi) as [H _].
  assert (Ha : is_ok (addFleetInstance (λ _, false) id new_instance s).2 = true)
    by (vm_compute; reflexivity).
  destruct (addFleetInstance (λ _, false) id new_instance s) as [s' [[]|]]; [exact (proj1 H)|discriminate Ha].
Defined.
