(* ===== verification/Settings.v ===== *)
(** * Settings of an instance (src/cmd/vegm-supervisor/settings.go)

    The supervisor shows the settings of an instance and takes new ones: they
    are written into the generated configuration, in memory and in its file,
    and take effect when the process is started again. *)

From S2P Require Import Prelude GoStrings Url Json Validate Config FleetTypes Fleet Generate Supervisor FleetEdit.

(** ** Data *)

Record childIndicators := mkIndicators {
  ci_SessionState : string;
  ci_HeartbeatState : string;
  ci_ConnectionState : string;
  ci_AudioState : string;
  ci_HoldState : string;
  ci_LockState : string;
  ci_MachineState : string;
  ci_LastCommandType : string;
  ci_LastCommsOnlineAt : string;
  ci_LastKeepAliveAt : string;
  ci_LastAckAt : string;
}.

Record instanceSettings := mkSettings {
  is_InstanceID : string;
  is_HostID : string;
  is_EGMEndpoint : Endpoint;
  is_HostEndpoint : HostEndpoint;
  is_G2SXML : G2SXMLConfig;
  is_ListenHost : string;
  is_WirePort : Z;
  is_ControlPort : Z;
  is_AdvertisedHost : string;
  is_AdvertisedIP : string;
  is_DNSServers : list string;
  is_SubnetMask : string;
  is_Gateway : string;
  is_ServerName : string;
  is_TrustMode : string;
  is_CertFile : string;
  is_KeyFile : string;
  is_CAFile : string;
}.

Definition enc_childIndicators (x : childIndicators) : json := JObj (entries [
  opt "session_state" x.(ci_SessionState);
  opt "heartbeat_state" x.(ci_HeartbeatState);
  opt "connection_state" x.(ci_ConnectionState);
  opt "audio_state" x.(ci_AudioState);
  opt "hold_state" x.(ci_HoldState);
  opt "lock_state" x.(ci_LockState);
  opt "machine_state" x.(ci_MachineState);
  opt "last_command_type" x.(ci_LastCommandType);
  opt "last_comms_online_at" x.(ci_LastCommsOnlineAt);
  opt "last_keep_alive_at" x.(ci_LastKeepAliveAt);
  opt "last_ack_at" x.(ci_LastAckAt)]).
Definition dec_childIndicators : decoder childIndicators := dec_struct (λ kvs old,
  v0 ← dec_key "session_state" dec kvs old.(ci_SessionState);
  v1 ← dec_key "heartbeat_state" dec kvs old.(ci_HeartbeatState);
  v2 ← dec_key "connection_state" dec kvs old.(ci_ConnectionState);
  v3 ← dec_key "audio_state" dec kvs old.(ci_AudioState);
  v4 ← dec_key "hold_state" dec kvs old.(ci_HoldState);
  v5 ← dec_key "lock_state" dec kvs old.(ci_LockState);
  v6 ← dec_key "machine_state" dec kvs old.(ci_MachineState);
  v7 ← dec_key "last_command_type" dec kvs old.(ci_LastCommandType);
  v8 ← dec_key "last_comms_online_at" dec kvs old.(ci_LastCommsOnlineAt);
  v9 ← dec_key "last_keep_alive_at" dec kvs old.(ci_LastKeepAliveAt);
  v10 ← dec_key "last_ack_at" dec kvs old.(ci_LastAckAt);
  Some (mkIndicators v0 v1 v2 v3 v4 v5 v6 v7 v8 v9 v10)).
#[export] Program Instance codec_childIndicators : Codec childIndicators := {|
  enc := enc_childIndicators; dec := dec_childIndicators;
  zero := mkIndicators zero zero zero zero zero zero zero zero zero zero zero; is_empty _ := false;
  safe r x := True |}.
Next Obligation. done. Qed.
Next Obligation. intros T r [] HT H; cbv beta in H. destruct_and?. solve_struct_codec. Qed.

Definition enc_instanceSettings (x : instanceSettings) : json := JObj (entries [
  req "instance_id" x.(is_InstanceID);
  req "host_id" x.(is_HostID);
  req "egm_endpoint" x.(is_EGMEndpoint);
  opt "host_endpoint" x.(is_HostEndpoint);
  opt "g2s_xml" x.(is_G2SXML);
  req "listen_host" x.(is_ListenHost);
  req "wire_port" x.(is_WirePort);
  req "control_port" x.(is_ControlPort);
  opt "advertised_host" x.(is_AdvertisedHost);
  opt "advertised_ip" x.(is_AdvertisedIP);
  opt "dns_servers" x.(is_DNSServers);
  opt "subnet_mask" x.(is_SubnetMask);
  opt "gateway" x.(is_Gateway);
  opt "server_name" x.(is_ServerName);
  req "trust_mode" x.(is_TrustMode);
  opt "cert_file" x.(is_CertFile);
  opt "key_file" x.(is_KeyFile);
  opt "ca_file" x.(is_CAFile)]).
Definition dec_instanceSettings : decoder instanceSettings := dec_struct (λ kvs old,
  v0 ← dec_key "instance_id" dec kvs old.(is_InstanceID);
  v1 ← dec_key "host_id" dec kvs old.(is_HostID);
  v2 ← dec_key "egm_endpoint" dec kvs old.(is_EGMEndpoint);
  v3 ← dec_key "host_endpoint" dec kvs old.(is_HostEndpoint);
  v4 ← dec_key "g2s_xml" dec kvs old.(is_G2SXML);
  v5 ← dec_key "listen_host" dec kvs old.(is_ListenHost);
  v6 ← dec_key "wire_port" dec kvs old.(is_WirePort);
  v7 ← dec_key "control_port" dec kvs old.(is_ControlPort);
  v8 ← dec_key "advertised_host" dec kvs old.(is_AdvertisedHost);
  v9 ← dec_key "advertised_ip" dec kvs old.(is_AdvertisedIP);
  v10 ← dec_key "dns_servers" dec kvs old.(is_DNSServers);
  v11 ← dec_key "subnet_mask" dec kvs old.(is_SubnetMask);
  v12 ← dec_key "gateway" dec kvs old.(is_Gateway);
  v13 ← dec_key "server_name" dec kvs old.(is_ServerName);
  v14 ← dec_key "trust_mode" dec kvs old.(is_TrustMode);
  v15 ← dec_key "cert_file" dec kvs old.(is_CertFile);
  v16 ← dec_key "key_file" dec kvs old.(is_KeyFile);
  v17 ← dec_key "ca_file" dec kvs old.(is_CAFile);
  Some (mkSettings v0 v1 v2 v3 v4 v5 v6 v7 v8 v9 v10 v11 v12 v13 v14 v15 v16 v17)).
#[export] Program Instance codec_instanceSettings : Codec instanceSettings := {|
  enc := enc_instanceSettings; dec := dec_instanceSettings;
  zero := mkSettings zero zero zero zero zero zero zero zero zero zero zero zero zero zero zero zero zero zero; is_empty _ := false;
  safe r x := safe r x.(is_EGMEndpoint) ∧ safe r x.(is_HostEndpoint) ∧ safe r x.(is_G2SXML) ∧ safe r x.(is_WirePort) ∧ safe r x.(is_ControlPort) |}.
Next Obligation. done. Qed.
Next Obligation. intros T r [] HT H; cbv beta in H. destruct_and?. solve_struct_codec. Qed.

(** ** Operations *)

Definition defaultSettingsG2SXML (x : G2SXMLConfig) (ep : Endpoint) : G2SXMLConfig :=
  mkG2SXML (or_default x.(gx_Mode) "lab_legacy_xml")
    (or_default x.(gx_Namespace) "http://www.gamingstandards.com/g2s/schemas/v1.0.3")
    (if bool_decide (x.(gx_EGMLocation) = "") && negb (bool_decide (ep.(ep_Host) = "")) && (0 <? ep.(ep_Port))%Z
     then host_port ep.(ep_Host) ep.(ep_Port) else x.(gx_EGMLocation)).

(** The settings of an instance, with the given XML settings. *)
Definition settings_of (e : EffectiveInstance) (xml : G2SXMLConfig) : instanceSettings :=
  mkSettings e.(ef_InstanceID) e.(ef_HostID) e.(ef_EGMEndpoint) e.(ef_HostEndpoint) xml
    e.(ef_ListenHost) e.(ef_WirePort) e.(ef_ControlPort) e.(ef_AdvertisedHost) e.(ef_AdvertisedIP)
    e.(ef_DNSServers) e.(ef_SubnetMask) e.(ef_Gateway) e.(ef_ServerName) e.(ef_TrustMode)
    e.(ef_CertFile) e.(ef_KeyFile) e.(ef_CAFile).

Definition find_instance (id : string) (l : list GeneratedConfig) : option (nat * GeneratedConfig) :=
  list_find (λ gen, gen.(gc_Instance).(ef_InstanceID) = id) l.

Definition getInstanceSettings (id : string) (s : supervisorServer) : result instanceSettings :=
  match find_instance id s.(su_Generated) with
  | Some (_, gen) =>
      let inst := gen.(gc_Instance) in
      Ok (settings_of inst (defaultSettingsG2SXML gen.(gc_Config).(cfg_G2SXML) inst.(ef_EGMEndpoint)))
  | None => Err ("instance " +:+ quote id +:+ " not found")
  end.

(** What [updateInstanceSettings] changes in the instance, the configuration and
    its notes. The session engine and the identifiers are left as they were. *)
Definition updated_instance (i : instanceSettings) (e : EffectiveInstance) : EffectiveInstance := {|
  ef_InstanceID := e.(ef_InstanceID); ef_EGMID := e.(ef_EGMID); ef_HostID := i.(is_HostID);
  ef_Group := e.(ef_Group); ef_Profile := e.(ef_Profile); ef_Manufacturer := e.(ef_Manufacturer);
  ef_ListenHost := i.(is_ListenHost); ef_WirePort := i.(is_WirePort); ef_ControlPort := i.(is_ControlPort);
  ef_EGMEndpoint := i.(is_EGMEndpoint); ef_HostEndpoint := i.(is_HostEndpoint); ef_G2SXML := e.(ef_G2SXML);
  ef_AdvertisedHost := i.(is_AdvertisedHost); ef_AdvertisedIP := i.(is_AdvertisedIP);
  ef_DNSServers := i.(is_DNSServers); ef_SubnetMask := i.(is_SubnetMask); ef_Gateway := i.(is_Gateway);
  ef_ServerName := i.(is_ServerName); ef_TrustMode := i.(is_TrustMode); ef_PackFile := e.(ef_PackFile);
  ef_OverlayFiles := e.(ef_OverlayFiles); ef_LogDir := e.(ef_LogDir);
  ef_StorageBackend := e.(ef_StorageBackend); ef_SQLitePath := e.(ef_SQLitePath);
  ef_LogicalCommands := e.(ef_LogicalCommands); ef_Heartbeat := e.(ef_Heartbeat);
  ef_NormalizedState := e.(ef_NormalizedState); ef_Faults := e.(ef_Faults);
  ef_CertFile := i.(is_CertFile); ef_KeyFile := i.(is_KeyFile); ef_CAFile := i.(is_CAFile);
|}.

Definition updated_notes (i : instanceSettings) : gmap string string := list_to_map [
  ("host_id", i.(is_HostID));
  ("egm_endpoint_scheme", i.(is_EGMEndpoint).(ep_Scheme));
  ("egm_endpoint_bind_ip", i.(is_EGMEndpoint).(ep_BindIP));
  ("egm_endpoint_host", i.(is_EGMEndpoint).(ep_Host));
  ("egm_endpoint_path", i.(is_EGMEndpoint).(ep_Path));
  ("host_endpoint_url", i.(is_HostEndpoint).(hep_URL));
  ("g2s_xml_mode", i.(is_G2SXML).(gx_Mode));
  ("g2s_xml_namespace", i.(is_G2SXML).(gx_Namespace));
  ("g2s_xml_egm_location", i.(is_G2SXML).(gx_EGMLocation));
  ("advertised_host", i.(is_AdvertisedHost));
  ("advertised_ip", i.(is_AdvertisedIP));
  ("dns_servers", join "," i.(is_DNSServers));
  ("subnet_mask", i.(is_SubnetMask));
  ("gateway", i.(is_Gateway));
  ("server_name", i.(is_ServerName));
  ("cert_file", i.(is_CertFile));
  ("key_file", i.(is_KeyFile));
  ("ca_file", i.(is_CAFile))].

Definition updated_config (i : instanceSettings) (c : Config) : Config := {|
  cfg_InstanceID := c.(cfg_InstanceID);
  cfg_HostID := i.(is_HostID);
  cfg_EGMID := c.(cfg_EGMID);
  cfg_EGMEndpoint := mkEGMEndpoint i.(is_EGMEndpoint).(ep_Scheme) i.(is_EGMEndpoint).(ep_BindIP)
    i.(is_EGMEndpoint).(ep_Host) i.(is_EGMEndpoint).(ep_Port) i.(is_EGMEndpoint).(ep_Path);
  cfg_HostEndpoint := mkHostEndpoint i.(is_HostEndpoint).(hep_URL);
  cfg_G2SXML := i.(is_G2SXML);
  cfg_SessionEngine := c.(cfg_SessionEngine);
  cfg_Listen := mkListen i.(is_ListenHost) i.(is_WirePort);
  cfg_Security := mkSecurity i.(is_TrustMode) i.(is_CertFile) i.(is_KeyFile) i.(is_CAFile);
  cfg_Logging := c.(cfg_Logging);
  cfg_Storage := c.(cfg_Storage);
  cfg_Control := mkControl (host_port i.(is_ListenHost) i.(is_ControlPort));
  cfg_Outbound := c.(cfg_Outbound);
  cfg_PackFile := c.(cfg_PackFile);
  cfg_Overlay := c.(cfg_Overlay);
  cfg_Notes := updated_notes i ∪ c.(cfg_Notes);
|}.

(** [in.G2SXML = defaultG2SXML(in.G2SXML, in.EGMEndpoint)] *)
Definition complete_settings (i : instanceSettings) : instanceSettings :=
  mkSettings i.(is_InstanceID) i.(is_HostID) i.(is_EGMEndpoint) i.(is_HostEndpoint)
    (defaultSettingsG2SXML i.(is_G2SXML) i.(is_EGMEndpoint)) i.(is_ListenHost) i.(is_WirePort)
    i.(is_ControlPort) i.(is_AdvertisedHost) i.(is_AdvertisedIP) i.(is_DNSServers) i.(is_SubnetMask)
    i.(is_Gateway) i.(is_ServerName) i.(is_TrustMode) i.(is_CertFile) i.(is_KeyFile) i.(is_CAFile).

Definition updated_generated (i : instanceSettings) (gen : GeneratedConfig) : GeneratedConfig :=
  mkGenerated (updated_instance i gen.(gc_Instance)) gen.(gc_Path) (updated_config i gen.(gc_Config)).

(** The memory is updated before the file, and stays so when the file cannot be
    written. *)
Definition updateInstanceSettings (denied : string → bool) (os_error : string → string)
    (id : string) (settings : instanceSettings) (s : supervisorServer)
    : supervisorServer * result instanceSettings :=
  match find_instance id s.(su_Generated) with
  | None => (s, Err ("instance " +:+ quote id +:+ " not found"))
  | Some (k, gen) =>
      let i := complete_settings settings in
      let gen := updated_generated i gen in
      let s := set_su_Generated (<[k := gen]> s.(su_Generated)) s in
      if denied gen.(gc_Path) then (s, Err (os_error gen.(gc_Path)))
      else (set_su_Files (<[gen.(gc_Path) := JsonFile (enc gen.(gc_Config))]> s.(su_Files)) s,
            Ok (settings_of gen.(gc_Instance) gen.(gc_Config).(cfg_G2SXML)))
  end.

(** ** Lemmas *)

Lemma defaultSettingsG2SXML_idem x ep :
  defaultSettingsG2SXML (defaultSettingsG2SXML x ep) ep = defaultSettingsG2SXML x ep.
Proof.
  unfold defaultSettingsG2SXML, or_default. destruct x as [mode ns loc]. cbn [gx_Mode gx_Namespace gx_EGMLocation].
  assert (Hh : host_port ep.(ep_Host) ep.(ep_Port) ≠ "") by (unfold host_port; by destruct (ep_Host ep)).
  revert Hh. generalize (host_port ep.(ep_Host) ep.(ep_Port)). intros hp Hh.
  f_equal; repeat case_bool_decide; subst; simpl; try done.
  all: destruct (0 <? ep_Port ep)%Z; simpl; try done.
  all: by repeat case_bool_decide.
Qed.

Lemma find_instance_updated id i k gen l :
  find_instance id l = Some (k, gen) →
  find_instance id (<[k := updated_generated i gen]> l) = Some (k, updated_generated i gen) ∧
  l !! k = Some gen.
Proof.
  unfold find_instance. intros (Hk & Hid & Hbefore)%list_find_Some. split; [|done].
  apply list_find_Some. split; [|split; [done|]].
  - apply list_lookup_insert_eq. by eapply lookup_lt_Some.
  - intros j y Hj Hlt. rewrite list_lookup_insert_ne in Hj by lia. by eapply Hbefore.
Qed.

Lemma updated_ids i k gen l :
  l !! k = Some gen →
  map (λ g, g.(gc_Instance).(ef_InstanceID)) (<[k := updated_generated i gen]> l)
  = map (λ g, g.(gc_Instance).(ef_InstanceID)) l.
Proof.
  intros Hk. change (map ?f ?l) with (f <$> l). rewrite list_fmap_insert.
  apply list_insert_id. by rewrite list_lookup_fmap, Hk.
Qed.

(** The other instances are found as before. *)
Lemma find_updated_other id other i k gen l :
  gen.(gc_Instance).(ef_InstanceID) = id → other ≠ id → l !! k = Some gen →
  snd <$> list_find (λ g, g.(gc_Instance).(ef_InstanceID) = other) (<[k := updated_generated i gen]> l)
  = snd <$> list_find (λ g, g.(gc_Instance).(ef_InstanceID) = other) l.
Proof.
  intros Hid Ho. revert k. induction l as [|g l IH]; intros k Hk; [done|]. destruct k as [|k].
  - injection Hk as ->. cbn [insert list_insert list_find]. cbn [updated_generated gc_Instance updated_instance ef_InstanceID].
    destruct (decide _); [congruence|]. done.
  - cbn [insert list_insert list_find]. cbn in Hk. specialize (IH k Hk). destruct (decide _); [done|].
    fold (insert (M := list GeneratedConfig) k (updated_generated i gen) l).
    destruct (list_find _ (<[k:=_]> l)) as [[? ?]|], (list_find _ l) as [[? ?]|]; cbn in *; congruence.
Qed.

Lemma generated_others id other i k gen s fs :
  find_instance id s.(su_Generated) = Some (k, gen) → other ≠ id →
  generatedByID (set_su_Files fs (set_su_Generated (<[k := updated_generated i gen]> s.(su_Generated)) s)) other
  = generatedByID s other.
Proof.
  intros (Hk & Hid & _)%list_find_Some Ho. unfold generatedByID. cbn. by eapply find_updated_other.
Qed.

(** ** Theorems *)

(** The notes that a configuration keeps of its settings. *)
Definition noted (i : instanceSettings) : list (string * string) :=
  let ep := i.(is_EGMEndpoint) in
  [("host_id", i.(is_HostID)); ("egm_endpoint_scheme", ep.(ep_Scheme)); ("egm_endpoint_bind_ip", ep.(ep_BindIP));
   ("egm_endpoint_host", ep.(ep_Host)); ("egm_endpoint_path", ep.(ep_Path));
   ("host_endpoint_url", i.(is_HostEndpoint).(hep_URL)); ("g2s_xml_mode", i.(is_G2SXML).(gx_Mode));
   ("g2s_xml_namespace", i.(is_G2SXML).(gx_Namespace)); ("g2s_xml_egm_location", i.(is_G2SXML).(gx_EGMLocation));
   ("advertised_host", i.(is_AdvertisedHost)); ("advertised_ip", i.(is_AdvertisedIP));
   ("dns_servers", join "," i.(is_DNSServers)); ("subnet_mask", i.(is_SubnetMask)); ("gateway", i.(is_Gateway));
   ("server_name", i.(is_ServerName)); ("cert_file", i.(is_CertFile)); ("key_file", i.(is_KeyFile));
   ("ca_file", i.(is_CAFile))].

(** The configuration [c'] is [c] with the settings: every setting has its place,
    and everything else stays. *)
Record carries_settings (i : instanceSettings) (c c' : Config) : Prop := {
  cs_host : c'.(cfg_HostID) = i.(is_HostID);
  cs_scheme : c'.(cfg_EGMEndpoint).(ee_Scheme) = i.(is_EGMEndpoint).(ep_Scheme);
  cs_bind : c'.(cfg_EGMEndpoint).(ee_BindIP) = i.(is_EGMEndpoint).(ep_BindIP);
  cs_address : c'.(cfg_EGMEndpoint).(ee_Host) = i.(is_EGMEndpoint).(ep_Host);
  cs_port : c'.(cfg_EGMEndpoint).(ee_Port) = i.(is_EGMEndpoint).(ep_Port);
  cs_path : c'.(cfg_EGMEndpoint).(ee_Path) = i.(is_EGMEndpoint).(ep_Path);
  cs_url : c'.(cfg_HostEndpoint).(he_URL) = i.(is_HostEndpoint).(hep_URL);
  cs_xml : c'.(cfg_G2SXML) = i.(is_G2SXML);
  cs_listen : c'.(cfg_Listen).(li_Host) = i.(is_ListenHost) ∧ c'.(cfg_Listen).(li_Port) = i.(is_WirePort);
  cs_control : c'.(cfg_Control).(ct_Bind) = i.(is_ListenHost) +:+ ":" +:+ itoa i.(is_ControlPort);
  cs_trust : c'.(cfg_Security).(sec_TrustMode) = i.(is_TrustMode);
  cs_files : c'.(cfg_Security).(sec_CertFile) = i.(is_CertFile) ∧
    c'.(cfg_Security).(sec_KeyFile) = i.(is_KeyFile) ∧ c'.(cfg_Security).(sec_CAFile) = i.(is_CAFile);
  cs_notes : Forall (λ note, c'.(cfg_Notes) !! note.1 = Some note.2) (noted i) ∧
    ∀ key, key ∉ (noted i).*1 → c'.(cfg_Notes) !! key = c.(cfg_Notes) !! key;
  cs_identity : c'.(cfg_InstanceID) = c.(cfg_InstanceID) ∧ c'.(cfg_EGMID) = c.(cfg_EGMID);
  cs_rest : c'.(cfg_SessionEngine) = c.(cfg_SessionEngine) ∧ c'.(cfg_Logging) = c.(cfg_Logging) ∧
    c'.(cfg_Storage) = c.(cfg_Storage) ∧ c'.(cfg_Outbound) = c.(cfg_Outbound) ∧
    c'.(cfg_PackFile) = c.(cfg_PackFile) ∧ c'.(cfg_Overlay) = c.(cfg_Overlay);
}.

Lemma updated_config_carries i c : carries_settings i c (updated_config i c).
Proof.
  split; try done. cbn [updated_config cfg_Notes].
  assert (Hn : updated_notes i = list_to_map (noted i)) by done.
  assert (Hd : NoDup (noted i).*1) by (apply (bool_decide_unpack _); vm_compute; exact I).
  rewrite Hn. split.
  - apply Forall_forall. intros [key v] Hin. cbn [fst snd].
    apply lookup_union_Some_l. by apply elem_of_list_to_map_1.
  - intros key Hk. rewrite lookup_union, not_elem_of_list_to_map_1 by done. by destruct (_ !! key).
Qed.

(** C33. Settings that are saved are the settings that are shown: all of them are
    taken over as they are except the identifier, and empty XML settings, which
    are filled in. In memory and in its file, the configuration of the instance
    then carries them, setting by setting, and is otherwise what it was; no other
    instance and no other file changes. A process that reads the file starts
    exactly when that configuration passes the checks of [ValidateConfig]: the
    supervisor makes none. *)
Theorem updateInstanceSettings_saves denied os_error id i s s' r reg c :
  updateInstanceSettings denied os_error id i s = (s', Ok r) →
  getInstanceSettings id s' = Ok r ∧
  r = mkSettings id i.(is_HostID) i.(is_EGMEndpoint) i.(is_HostEndpoint)
        (defaultSettingsG2SXML i.(is_G2SXML) i.(is_EGMEndpoint)) i.(is_ListenHost) i.(is_WirePort)
        i.(is_ControlPort) i.(is_AdvertisedHost) i.(is_AdvertisedIP) i.(is_DNSServers)
        i.(is_SubnetMask) i.(is_Gateway) i.(is_ServerName) i.(is_TrustMode) i.(is_CertFile)
        i.(is_KeyFile) i.(is_CAFile) ∧
  known_ids s' = known_ids s ∧
  (∀ other, other ≠ id → generatedByID s' other = generatedByID s other) ∧
  ∃ before gen, generatedByID s id = Some before ∧ generatedByID s' id = Some gen ∧
    gen.(gc_Path) = before.(gc_Path) ∧ carries_settings r before.(gc_Config) gen.(gc_Config) ∧
    s'.(su_Files) = <[gen.(gc_Path) := JsonFile (enc gen.(gc_Config))]> s.(su_Files) ∧
    (safe Datatypes.id gen.(gc_Config) →
     (LoadConfig s'.(su_Files) reg gen.(gc_Path)).2 = Ok c ↔
     config_ok (normalised gen.(gc_Config)) ∧ c = normalised gen.(gc_Config)).
Proof.
  unfold updateInstanceSettings. destruct (find_instance id s.(su_Generated)) as [[k gen]|] eqn:Hf; [|done].
  set (gen' := updated_generated (complete_settings i) gen).
  destruct (denied (gc_Path gen')); [done|]. intros [= <- <-].
  destruct (find_instance_updated id (complete_settings i) k gen _ Hf) as [Hf' Hk]. fold gen' in Hf'.
  pose proof Hf as (_ & Hid & _)%list_find_Some.
  split; [|split; [|split; [|split]]].
  - unfold getInstanceSettings. simpl. rewrite Hf'. f_equal. simpl. by rewrite defaultSettingsG2SXML_idem.
  - unfold settings_of. simpl. by rewrite Hid.
  - unfold known_ids. simpl. by apply updated_ids.
  - intros other Ho. by eapply generated_others.
  - exists gen, gen'. split; [|split; [|split; [done|split; [|split]]]].
    + unfold generatedByID. unfold find_instance in Hf. by rewrite Hf.
    + unfold generatedByID. simpl. unfold find_instance in Hf'. by rewrite Hf'.
    + destruct (updated_config_carries (complete_settings i) gen.(gc_Config)). by split.
    + done.
    + intros Hs. apply LoadConfig_enc; [done|]. apply lookup_insert_eq.
Qed.

(** A write that fails is reported, and the settings are shown all the same. *)
Lemma failed_update_is_kept denied os_error id i s s' e k gen :
  find_instance id s.(su_Generated) = Some (k, gen) →
  updateInstanceSettings denied os_error id i s = (s', Err e) →
  getInstanceSettings id s' = Ok (settings_of (updated_instance (complete_settings i) gen.(gc_Instance))
    (defaultSettingsG2SXML i.(is_G2SXML) i.(is_EGMEndpoint))) ∧ s'.(su_Files) = s.(su_Files).
Proof.
  intros Hf. unfold updateInstanceSettings. rewrite Hf.
  destruct (denied _); [|done]. intros [= <- <-].
  destruct (find_instance_updated id (complete_settings i) k gen _ Hf) as [Hf' _].
  split; [|done]. unfold getInstanceSettings. simpl. rewrite Hf'. f_equal. simpl.
  by rewrite defaultSettingsG2SXML_idem.
Qed.

(** ** Examples *)

(** The settings of the example's first instance, with a new host identifier
    and with another endpoint of the host. *)
Definition example_settings (host url : string) : instanceSettings :=
  mkSettings "egm-1" host (mkEndpoint "http" "10.0.0.1" "10.0.0.1" 19000 "/floor")
    (mkFleetHostEndpoint url) (mkG2SXML "" "" "") "10.0.0.1" 19000 18000 "" "" [] "" "" ""
    "plaintext_lab" "" "" "".

Definition loads (s : supervisorServer) (id : string) : bool :=
  match generatedByID s id with
  | Some gen => is_ok (LoadConfig s.(su_Files) ∅ gen.(gc_Path)).2
  | None => false
  end.

Definition save (i : instanceSettings) (s : supervisorServer) : supervisorServer :=
  (updateInstanceSettings (λ _, false) id "egm-1" i s).1.

(** Clearing the address of the host leaves the session engine enabled: the
    settings are accepted and the process cannot start any more. *)
Lemma cleared_host_cannot_start :
  let s := example_supervisor three_instances in
  loads s "egm-1" = true ∧ loads (save (example_settings "HOST-7" "http://127.0.0.1:9000/host") s) "egm-1" = true ∧
  loads (save (example_settings "HOST-7" "") s) "egm-1" = false.
Proof. vm_compute. split_and!; reflexivity. Qed.

(** Settings do not reach the manifest: the next edit of the fleet discards
    them. *)
Lemma edits_discard_settings :
  let s := example_supervisor three_instances in
  let s1 := save (example_settings "HOST-7" "http://127.0.0.1:9000/host") s in
  let s2 := (addFleetInstance (λ _, false) id new_instance s1).1 in
  is_HostID <$> getInstanceSettings "egm-1" s1 = Ok "HOST-7" ∧
  is_HostID <$> getInstanceSettings "egm-1" s2 = Ok "HOST-009".
Proof. vm_compute. split; reflexivity. Qed.

Lemma updateInstanceSettings_saves_witness :
  let s := example_supervisor three_instances in
  let i := example_settings "HOST-7" "http://127.0.0.1:9000/host" in
  let r := complete_settings i in
  updateInstanceSettings (λ _, false) id "egm-1" i s = (save i s, Ok r) ∧
  getInstanceSettings "egm-1" (save i s) = Ok r.
Proof.
  intros s i r.
  assert (Hu : updateInstanceSettings (λ _, false) id "egm-1" i s = (save i s, Ok r))
    by (vm_compute; reflexivity).
  split; [exact Hu|]. exact (proj1 (updateInstanceSettings_saves _ _ _ _ _ _ _ ∅ zero Hu)).
Defined.
