(* ===== verification/Certificate.v ===== *)
(** * Certificate status (src/runtime/cert_status.go)

    What the supervisor shows about the certificates of an instance. Key files,
    certificate parsing and PEM decoding belong to libraries and are parameters. *)

From S2P Require Import Prelude GoStrings Json Config.

Record CertificateStatus := mkCertStatus {
  cs_TrustMode : string;
  cs_CertFile : string;
  cs_KeyFile : string;
  cs_CAFile : string;
  cs_OK : bool;
  cs_Mode : string;
  cs_Subject : string;
  cs_Issuer : string;
  cs_DNSNames : list string;
  cs_IPAddresses : list string;
  cs_NotBefore : option Z;
  cs_NotAfter : option Z;
  cs_CAReadable : bool;
  cs_Error : string;
  cs_OpenSSLHint : string;
}.

(** What a parsed certificate shows. *)
Record x509 := mkX509 {
  x5_Subject : string;
  x5_Issuer : string;
  x5_DNSNames : list string;
  x5_IPAddresses : list string;
  x5_NotBefore : option Z;
  x5_NotAfter : option Z;
}.

(** The libraries: the chain of a key pair, the parser, files, and whether a
    file has a PEM block. *)
Record certificate_environment := mkCertEnv {
  ct_load_keypair : string → string → result (list string);
  ct_parse : string → result x509;
  ct_read_file : string → result string;
  ct_has_pem : string → bool;
}.

Section status.
Context (env : certificate_environment).

(** The status that every return fills: identity of the certificate, validity
    and the final fields. *)
Definition cert_report (s : SecurityConfig) (mode : string) (x : x509) (ok readable : bool)
    (error hint : string) : CertificateStatus :=
  mkCertStatus s.(sec_TrustMode) s.(sec_CertFile) s.(sec_KeyFile) s.(sec_CAFile) ok mode
    x.(x5_Subject) x.(x5_Issuer) x.(x5_DNSNames) x.(x5_IPAddresses) x.(x5_NotBefore) x.(x5_NotAfter)
    readable error hint.

Definition no_x509 : x509 := mkX509 "" "" [] [] None None.

(** The part that looks at the CA file: what is readable, or an error. *)
Definition ca_status (path : string) : result bool :=
  if bool_decide (path = "") then Ok false
  else
    match env.(ct_read_file) path with
    | Err e => Err ("ca_file unreadable: " +:+ e)
    | Ok caBytes => if env.(ct_has_pem) caBytes then Ok true else Err "ca_file does not contain PEM data"
    end.

Definition BuildCertificateStatus (cfg : Config) : CertificateStatus :=
  let s := cfg.(cfg_Security) in
  let mode := s.(sec_TrustMode) in
  if bool_decide (mode = "plaintext_lab") || bool_decide (mode = "")
  then cert_report s "plaintext_lab" no_x509 true false "" ""
  else
  match env.(ct_load_keypair) s.(sec_CertFile) s.(sec_KeyFile) with
  | Err e => cert_report s mode no_x509 false false ("cert/key load failed: " +:+ e) ""
  | Ok [] => cert_report s mode no_x509 false false "cert/key load returned no certificates" ""
  | Ok (leaf :: _) =>
  match env.(ct_parse) leaf with
  | Err e => cert_report s mode no_x509 false false ("certificate parse failed: " +:+ e) ""
  | Ok x =>
  match ca_status s.(sec_CAFile) with
  | Err e => cert_report s mode x false false e ""
  | Ok readable =>
      if mutual_tls mode && bool_decide (s.(sec_CAFile) = "")
      then cert_report s mode x false readable "ca_file is required for mutual TLS" ""
      else cert_report s mode x true readable ""
             ("openssl x509 -in " +:+ s.(sec_CertFile) +:+ " -noout -subject -issuer -dates -ext subjectAltName")
  end end end.

(** ** Theorems *)

(** The CA file can be used, or there is none. *)
Definition ca_usable (path : string) : Prop :=
  path = "" ∨ ∃ b, env.(ct_read_file) path = Ok b ∧ env.(ct_has_pem) b = true.

Lemma ca_status_ok path : is_ok (ca_status path) = true ↔ ca_usable path.
Proof.
  unfold ca_status, ca_usable. case_bool_decide as Hp; [naive_solver|].
  destruct (ct_read_file env path) as [b|e]; [|naive_solver].
  destruct (ct_has_pem env b) eqn:Hb; simpl; naive_solver.
Qed.

(** A certificate status is good exactly when no certificate is needed, or the
    key pair loads and its leaf parses, the CA file is usable or absent, and it
    is present where both sides authenticate; otherwise it carries an error. *)
Theorem BuildCertificateStatus_correct cfg :
  let s := cfg.(cfg_Security) in
  let st := BuildCertificateStatus cfg in
  (st.(cs_OK) = true ↔
     s.(sec_TrustMode) ∈ ["plaintext_lab"; ""] ∨
     ((∃ leaf chain x, env.(ct_load_keypair) s.(sec_CertFile) s.(sec_KeyFile) = Ok (leaf :: chain) ∧
         env.(ct_parse) leaf = Ok x ∧ st.(cs_Subject) = x.(x5_Subject)) ∧
      ca_usable s.(sec_CAFile) ∧ (mutual_tls s.(sec_TrustMode) = true → s.(sec_CAFile) ≠ ""))) ∧
  (st.(cs_OK) = false ↔ st.(cs_Error) ≠ "").
Proof.
  intros s st. unfold st, BuildCertificateStatus. fold s. clear st. cbv zeta.
  rewrite !elem_of_cons, elem_of_nil, <-ca_status_ok.
  destruct (bool_decide (sec_TrustMode s = "plaintext_lab")) eqn:H1;
    [apply bool_decide_eq_true in H1|apply bool_decide_eq_false in H1]; [simpl; naive_solver|].
  destruct (bool_decide (sec_TrustMode s = "")) eqn:H2;
    [apply bool_decide_eq_true in H2|apply bool_decide_eq_false in H2]; [simpl; naive_solver|].
  cbn [orb].
  assert (Hm : ¬ (sec_TrustMode s = "plaintext_lab" ∨ sec_TrustMode s = "" ∨ False)) by tauto.
  destruct (ct_load_keypair env _ _) as [[|leaf chain]|e].
  1, 3: split; [split; [done|intros [?|((?&?&?&?&?)&_)]; done]|done].
  destruct (ct_parse env leaf) as [x|e] eqn:Hx.
  2: split; [split; [done|intros [?|((?&?&?&?&?&?)&_)]; [done|congruence]]|done].
  destruct (ca_status (sec_CAFile s)) as [readable|e] eqn:Hca.
  - destruct (mutual_tls (sec_TrustMode s)); cbn [andb]; [case_bool_decide|]; simpl; naive_solver.
  - assert (He : e ≠ "").
    { revert Hca. unfold ca_status. case_bool_decide; [done|].
      destruct (ct_read_file env _); [destruct (ct_has_pem env _); [done|]|]; by intros [= <-]. }
    split; [split; [done|intros [?|(_&?&_)]; done]|done].
Qed.
End status.
