(* ===== verification/Mux.v ===== *)
(** * Routing (net/http's ServeMux, as the program uses it)

    The control planes of both programs register plain paths (for the wire's
    paths see Patterns): a pattern that ends in a slash stands for everything
    below it, any other one for itself. Requests for paths that
    are not clean are redirected. The percent-encoding of paths is not modelled:
    a path is what the program finds in [r.URL.Path]. *)

From S2P Require Import Prelude GoStrings.

(** [cleanPath] of net/http *)
Definition cleanPath (p : string) : string :=
  if bool_decide (p = "") then "/"
  else
    let p := if has_prefix "/" p then p else "/" +:+ p in
    let np := Clean p in
    if has_suffix "/" p && negb (bool_decide (np = "/")) then np +:+ "/" else np.

(** The pattern that matches: the path itself, else the longest subtree. *)
Definition subtree_of (p pattern : string) : bool := has_suffix "/" pattern && has_prefix pattern p.

Fixpoint longest (patterns : list string) : option string :=
  match patterns with
  | [] => None
  | p :: rest =>
      match longest rest with
      | Some q => if String.length p <? String.length q then Some q else Some p
      | None => Some p
      end
  end.

Definition match_pattern (patterns : list string) (p : string) : option string :=
  if bool_decide (p ∈ patterns) then Some p else longest (filter (λ q, subtree_of p q = true) patterns).

Inductive routed (H : Type) :=
  | Handled_by (h : H)
  | Redirected (path : string)
  | Unrouted.
Arguments Handled_by {H} _.
Arguments Redirected {H} _.
Arguments Unrouted {H}.

(** A path without its own handler is redirected to the subtree of that name,
    an unclean path to its clean form. *)
Definition route {H} (routes : list (string * H)) (path : string) : routed H :=
  let p := cleanPath path in
  let patterns := routes.*1 in
  if negb (bool_decide (p ∈ patterns)) && negb (has_suffix "/" p) && bool_decide (p +:+ "/" ∈ patterns)
  then Redirected (p +:+ "/")
  else if negb (bool_decide (p = path)) then Redirected p
  else
    match match_pattern patterns p with
    | None => Unrouted
    | Some q =>
        match list_find (λ r, r.1 = q) routes with
        | Some (_, r) => Handled_by r.2
        | None => Unrouted
        end
    end.

(** ** Lemmas *)

(** A registered path that is clean goes to its handler. *)
Lemma route_exact {H} (routes : list (string * H)) path h :
  cleanPath path = path → NoDup routes.*1 → (path, h) ∈ routes → route routes path = Handled_by h.
Proof.
  intros Hc Hnd Hin. unfold route. rewrite Hc.
  assert (Hp : path ∈ routes.*1) by (apply list_elem_of_fmap; by exists (path, h)).
  rewrite (bool_decide_eq_true_2 (path ∈ routes.*1)), (bool_decide_eq_true_2 (path = path)) by done.
  cbn [negb andb].
  unfold match_pattern. rewrite bool_decide_eq_true_2 by done.
  apply list_elem_of_lookup in Hin as [i Hi].
  assert (list_find (λ r : string * H, r.1 = path) routes = Some (i, (path, h))) as ->; [|done].
  apply list_find_Some. split; [done|]. split; [done|]. intros j [q g] Hj Hlt Hq. cbn in Hq. subst q.
  assert (i = j); [|lia]. eapply (NoDup_lookup routes.*1); [done|..].
  - by rewrite list_lookup_fmap, Hi.
  - by rewrite list_lookup_fmap, Hj.
Qed.

(** Only registered handlers are reached. *)
Lemma route_in {H} (routes : list (string * H)) path h :
  route routes path = Handled_by h → ∃ q, (q, h) ∈ routes.
Proof.
  unfold route. intros Hr. do 2 (case_match; [done|]). case_match; [|done].
  destruct (list_find _ routes) as [[i [q g]]|] eqn:Hf; [|done]. simplify_eq/=.
  apply list_find_Some in Hf as (Hi & _). exists q. by eapply list_elem_of_lookup_2.
Qed.

(** Two tables of the same patterns route to handlers that are related. *)
Definition related {H K} (R : H → K → Prop) (x : routed H) (y : routed K) : Prop :=
  match x, y with
  | Handled_by h, Handled_by k => R h k
  | Redirected p, Redirected q => p = q
  | Unrouted, Unrouted => True
  | _, _ => False
  end.

Lemma find_related {H K} (R : H → K → Prop) (hs : list (string * H)) (ks : list (string * K)) q :
  Forall2 (λ h k, h.1 = k.1 ∧ R h.2 k.2) hs ks →
  match list_find (λ r, r.1 = q) hs, list_find (λ r, r.1 = q) ks with
  | Some (_, h), Some (_, k) => R h.2 k.2
  | None, None => True
  | _, _ => False
  end.
Proof.
  induction 1 as [|h k hs ks [Hp HR] _ IH]; [done|]. simpl. rewrite Hp. case_decide; [done|].
  destruct (list_find _ hs) as [[i h']|], (list_find _ ks) as [[j k']|]; simpl; done.
Qed.

Lemma route_related {H K} (R : H → K → Prop) (hs : list (string * H)) (ks : list (string * K)) path :
  Forall2 (λ h k, h.1 = k.1 ∧ R h.2 k.2) hs ks → related R (route hs path) (route ks path).
Proof.
  intros Hr. assert (Hp : hs.*1 = ks.*1) by (clear path; induction Hr as [|h k hs ks [Hp _] _ IH]; [done|]; by rewrite !fmap_cons, Hp, IH).
  unfold route. rewrite Hp. case_match; [done|]. case_match; [done|].
  destruct (match_pattern _ _) as [q|]; [|done].
  pose proof (find_related R hs ks q Hr) as Hf.
  by destruct (list_find _ hs) as [[i h']|], (list_find _ ks) as [[j k']|].
Qed.

Lemma longest_in patterns q : longest patterns = Some q → q ∈ patterns.
Proof.
  revert q. induction patterns as [|p rest IH]; intros q; simpl; [done|].
  destruct (longest rest) as [q'|]; [|intros [= <-]; by left].
  destruct (_ <? _); intros [= <-]; [right; by apply IH|by left].
Qed.

(** The pattern of the handler is the path or a subtree that holds it. *)
Lemma route_matches {H} (routes : list (string * H)) path h :
  route routes path = Handled_by h → ∃ q, (q, h) ∈ routes ∧ (q = path ∨ subtree_of path q = true).
Proof.
  unfold route, match_pattern. intros Hr. case_match; [done|].
  destruct (decide (cleanPath path = path)) as [Hc|Hc];
    [rewrite (bool_decide_eq_true_2 _ Hc) in Hr|by rewrite (bool_decide_eq_false_2 _ Hc) in Hr].
  cbn [negb] in Hr. rewrite Hc in Hr. case_match eqn:Hm; [|done].
  destruct (list_find _ routes) as [[i [q g]]|] eqn:Hf; [|done]. simplify_eq/=.
  apply list_find_Some in Hf as (Hi & Hq & _). cbn in Hq. subst q.
  eexists. split; [by eapply list_elem_of_lookup_2|]. case_bool_decide; simplify_eq; [by left|].
  apply longest_in, list_elem_of_filter in Hm as [? _]. by right.
Qed.

Lemma string_app_inj_r p s t : s +:+ p = t +:+ p → s = t.
Proof.
  revert t. induction s as [|a s IH]; intros [|b t] H; try done;
    rewrite ?string_app_cons in H.
  - apply (f_equal String.length) in H. change ("" +:+ p) with p in H. simpl in H. rewrite string_length_app in H. lia.
  - apply (f_equal String.length) in H. change ("" +:+ p) with p in H. simpl in H. rewrite string_length_app in H. lia.
  - injection H as -> H. by rewrite (IH t H).
Qed.

(** A clean path that no pattern matches. *)
Lemma route_nothing {H} (routes : list (string * H)) path :
  cleanPath path = path → path ∉ routes.*1 → path +:+ "/" ∉ routes.*1 →
  (∀ q, q ∈ routes.*1 → subtree_of path q = false) → route routes path = Unrouted.
Proof.
  intros Hc Hp Hs Hq. unfold route. rewrite Hc.
  rewrite (bool_decide_eq_false_2 (path +:+ "/" ∈ _)), (bool_decide_eq_true_2 (path = path)) by done.
  rewrite andb_false_r. cbn [negb]. unfold match_pattern. rewrite bool_decide_eq_false_2 by done.
  destruct (longest _) as [q|] eqn:Hl; [|done].
  apply longest_in, list_elem_of_filter in Hl as [Ht Hin]. by rewrite (Hq _ Hin) in Ht.
Qed.
