(* ===== verification/Patterns.v ===== *)
(** * Patterns of the mux (net/http's ServeMux, as src/runtime/server.go registers
    paths that come from configurations and packs)

    [ServeMux.HandleFunc] takes patterns with methods, hosts and wildcards, and
    panics at a pattern that it cannot parse and at two that conflict. The
    reference says what a pattern matches; two patterns of a host conflict when
    they have a request in common and neither is strictly more specific. Which
    characters beyond ASCII are letters or digits is an argument. *)

From S2P Require Import Prelude GoStrings Url Mux.

(** ** Parsing *)

(** A literal segment, which [{$}] makes a slash, or a wildcard, which [multi]
    extends to the rest of the path; a trailing slash is a nameless one. *)
Inductive pattern_segment := Literal (s : string) | Wild (name : string) (multi : bool).

Record pattern := mkPattern {
  pt_Method : string;
  pt_Host : string;
  pt_Segments : list pattern_segment;
}.

#[export] Instance pattern_segment_eq_dec : EqDecision pattern_segment.
Proof. solve_decision. Defined.

(** [pathUnescape] *)
Definition pathUnescape (s : string) : string :=
  match unescape EncodePath s with Ok t => t | Err _ => s end.

(** [validMethod]: a token of HTTP. *)
Definition token_byte (c : ascii) : bool := is_letter c || is_digit c || char_in c "!#$%&'*+-.^_`|~".
Definition validMethod (method : string) : bool :=
  negb (bool_decide (method = "")) && forall_bytes token_byte method.

(** [strings.CutSuffix] *)
Definition cut_suffix (suffix s : string) : string * bool :=
  if has_suffix suffix s then (take_bytes (String.length s - String.length suffix) s, true) else (s, false).

Definition first_byte (s : string) : option ascii := match s with String c _ => Some c | EmptyString => None end.
Fixpoint last_byte (s : string) : option ascii :=
  match s with EmptyString => None | String c EmptyString => Some c | String _ s' => last_byte s' end.

Definition is_blank (c : ascii) : bool := bool_decide (c = " "%char) || bool_decide (c = "009"%char).

Fixpoint trim_blanks (s : string) : string :=
  match s with String c s' => if is_blank c then trim_blanks s' else s | EmptyString => "" end.

(** The method in front of the first blank, and what follows the blanks. *)
Fixpoint split_method (s : string) : option (string * string) :=
  match s with
  | EmptyString => None
  | String c s' =>
      if is_blank c then Some ("", trim_blanks s')
      else '(method, rest) ← split_method s'; Some (String c method, rest)
  end.

(** What is in front of the first slash, and what begins with it. *)
Fixpoint split_host (s : string) : option (string * string) :=
  match s with
  | EmptyString => None
  | String c s' =>
      if bool_decide (c = "/"%char) then Some ("", s)
      else '(host, path) ← split_host s'; Some (String c host, path)
  end.

Section parse.
(** The letters (or, when the flag is off, letters and digits) beyond ASCII. *)
Context (name_rune : bool → string → bool).

(** [isValidWildcardName]; [skip] counts the bytes of a character that was
    looked at. *)
Fixpoint wildcard_name_go (start : bool) (skip : nat) (s : string) : bool :=
  match s with
  | EmptyString => true
  | String c s' =>
      match skip with
      | S k => wildcard_name_go start k s'
      | 0 =>
          let n := rune_len s in
          (if byte_in 128 255 c then negb (n =? 1) && name_rune start (take_bytes n s)
           else is_letter c || bool_decide (c = "_"%char) || (negb start && is_digit c))
          && wildcard_name_go false (n - 1) s'
      end
  end.
Definition isValidWildcardName (s : string) : bool :=
  negb (bool_decide (s = "")) && wildcard_name_go true 0 s.

(** The loop over the segments; [names] are those of the wildcards so far. *)
Fixpoint parse_segments (names : list string) (segs : list string) : option (list pattern_segment) :=
  match segs with
  | [] => Some []
  | seg :: rest =>
      if bool_decide (seg = "") && bool_decide (rest = []) then Some [Wild "" true]
      else if free_of "{" seg then
        segments ← parse_segments names rest; Some (Literal (pathUnescape seg) :: segments)
      else if negb (bool_decide (first_byte seg = Some "{"%char)) then None
      else if negb (bool_decide (last_byte seg = Some "}"%char)) then None
      else
        let name := take_bytes (String.length seg - 2) (drop_bytes 1 seg) in
        if bool_decide (name = "$") then if bool_decide (rest = []) then Some [Literal "/"] else None
        else
          let '(name, multi) := cut_suffix "..." name in
          if multi && negb (bool_decide (rest = [])) then None
          else if negb (isValidWildcardName name) then None
          else if bool_decide (name ∈ names) then None
          else segments ← parse_segments (name :: names) rest; Some (Wild name multi :: segments)
  end.

Definition parsePattern (s : string) : option pattern :=
  let '(method, rest) := default ("", s) (split_method s) in
  if negb (bool_decide (method = "")) && negb (validMethod method) then None
  else
    '(host, path) ← split_host rest;
    if negb (free_of "{" host) then None
    else if negb (bool_decide (method = "")) && negb (bool_decide (method = "CONNECT"))
            && negb (bool_decide (path = cleanPath path)) then None
    else segments ← parse_segments [] (split_char "/" (drop_bytes 1 path)); Some (mkPattern method host segments).
End parse.

(** ** Comparing *)

Inductive relationship := equivalent | moreGeneral | moreSpecific | disjoint | overlaps.

#[export] Instance relationship_eq_dec : EqDecision relationship.
Proof. solve_decision. Defined.

Definition inverseRelationship (r : relationship) : relationship :=
  match r with moreSpecific => moreGeneral | moreGeneral => moreSpecific | _ => r end.

Definition combineRelationships (r1 r2 : relationship) : relationship :=
  match r1 with
  | equivalent => r2
  | disjoint => disjoint
  | overlaps => if bool_decide (r2 = disjoint) then disjoint else overlaps
  | moreGeneral | moreSpecific =>
      if bool_decide (r2 = equivalent) then r1
      else if bool_decide (r2 = inverseRelationship r1) then overlaps
      else r2
  end.

Definition compareMethods (m1 m2 : string) : relationship :=
  if bool_decide (m1 = m2) then equivalent
  else if bool_decide (m1 = "") then moreGeneral
  else if bool_decide (m2 = "") then moreSpecific
  else if bool_decide (m1 = "GET") && bool_decide (m2 = "HEAD") then moreGeneral
  else if bool_decide (m2 = "GET") && bool_decide (m1 = "HEAD") then moreSpecific
  else disjoint.

Definition compareSegments (s1 s2 : pattern_segment) : relationship :=
  match s1, s2 with
  | Wild _ true, Wild _ true => equivalent
  | Wild _ true, _ => moreGeneral
  | _, Wild _ true => moreSpecific
  | Wild _ false, Wild _ false => equivalent
  | Wild _ false, Literal s => if bool_decide (s = "/") then disjoint else moreGeneral
  | Literal s, Wild _ false => if bool_decide (s = "/") then disjoint else moreSpecific
  | Literal s, Literal t => if bool_decide (s = t) then equivalent else disjoint
  end.

Definition is_multi (s : option pattern_segment) : bool :=
  match s with Some (Wild _ true) => true | _ => false end.

(** The loop over the segments that correspond, and what is left. *)
Fixpoint compare_go (rel : relationship) (l1 l2 : list pattern_segment)
    : relationship * list pattern_segment * list pattern_segment :=
  match l1, l2 with
  | s1 :: l1', s2 :: l2' =>
      let rel := combineRelationships rel (compareSegments s1 s2) in
      if bool_decide (rel = disjoint) then (rel, [], []) else compare_go rel l1' l2'
  | _, _ => (rel, l1, l2)
  end.

Definition comparePaths (l1 l2 : list pattern_segment) : relationship :=
  if negb (length l1 =? length l2) && negb (is_multi (last l1)) && negb (is_multi (last l2)) then disjoint
  else
    let '(rel, r1, r2) := compare_go equivalent l1 l2 in
    match r1, r2 with
    | [], [] => rel
    | [], _ :: _ => if is_multi (last l1) then combineRelationships rel moreGeneral else disjoint
    | _ :: _, [] => if is_multi (last l2) then combineRelationships rel moreSpecific else disjoint
    | _, _ => disjoint
    end.

Definition comparePathsAndMethods (p1 p2 : pattern) : relationship :=
  let mrel := compareMethods p1.(pt_Method) p2.(pt_Method) in
  if bool_decide (mrel = disjoint) then disjoint
  else combineRelationships mrel (comparePaths p1.(pt_Segments) p2.(pt_Segments)).

Definition conflictsWith (p1 p2 : pattern) : bool :=
  if negb (bool_decide (p1.(pt_Host) = p2.(pt_Host))) then false
  else
    let rel := comparePathsAndMethods p1 p2 in
    bool_decide (rel = equivalent) || bool_decide (rel = overlaps).

(** [ServeMux.HandleFunc] for one pattern after the other; [None] is a panic. *)
Fixpoint register_patterns (name_rune : bool → string → bool) (patterns : list string) (seen : list pattern)
    : option (list pattern) :=
  match patterns with
  | [] => Some (reverse seen)
  | s :: rest =>
      p ← parsePattern name_rune s;
      if existsb (conflictsWith p) seen then None else register_patterns name_rune rest (p :: seen)
  end.

(** ** The reference: what a pattern matches *)

Definition method_matches (method m : string) : Prop :=
  method = "" ∨ m = method ∨ (method = "GET" ∧ m = "HEAD").

Definition segment_matches (s : pattern_segment) (x : string) : Prop :=
  match s with Literal t => x = t | Wild _ _ => x ≠ "/" end.

(** The segments of a path; a slash at its end is a segment of its own. *)
Fixpoint path_matches (l : list pattern_segment) (path : list string) : Prop :=
  match l with
  | [] => path = []
  | Wild _ true :: _ => path ≠ []
  | s :: l' => ∃ x path', path = x :: path' ∧ segment_matches s x ∧ path_matches l' path'
  end.

(** A request: its method and the segments of its path. *)
Definition pattern_matches (p : pattern) (r : string * list string) : Prop :=
  method_matches p.(pt_Method) r.1 ∧ path_matches p.(pt_Segments) r.2.

(** Strictly more specific: everything that the first matches, the second does,
    and not the other way round. *)
Definition within {A} (P Q : A → Prop) : Prop := (∀ x, P x → Q x) ∧ ∃ x, Q x ∧ ¬ P x.

Definition conflict (p q : pattern) : Prop :=
  p.(pt_Host) = q.(pt_Host) ∧ (∃ r, pattern_matches p r ∧ pattern_matches q r) ∧
  ¬ within (pattern_matches p) (pattern_matches q) ∧ ¬ within (pattern_matches q) (pattern_matches p).

(** ** Lemmas: relationships of sets *)

(** What a relationship says of two sets. *)
Definition relates {A} (rel : relationship) (P Q : A → Prop) : Prop :=
  match rel with
  | equivalent => ∀ x, P x ↔ Q x
  | moreGeneral => within Q P
  | moreSpecific => within P Q
  | disjoint => ∀ x, P x → Q x → False
  | overlaps => (∃ x, P x ∧ Q x) ∧ (∃ x, P x ∧ ¬ Q x) ∧ ∃ x, Q x ∧ ¬ P x
  end.

Lemma relates_ext {A} rel (P P' Q Q' : A → Prop) :
  (∀ x, P x ↔ P' x) → (∀ x, Q x ↔ Q' x) → relates rel P Q → relates rel P' Q'.
Proof. intros HP HQ. destruct rel; cbn; unfold within; setoid_rewrite HP; by setoid_rewrite HQ. Qed.

(** The facts a relationship stands for, when neither set is empty. *)
Definition meet {A} (P Q : A → Prop) : Prop := ∃ x, P x ∧ Q x.
Definition sub {A} (P Q : A → Prop) : Prop := ∀ x, P x → Q x.
Definition beyond {A} (P Q : A → Prop) : Prop := ∃ x, P x ∧ ¬ Q x.
Definition apart {A} (P Q : A → Prop) : Prop := ∀ x, P x → Q x → False.

Definition facts {A} (rel : relationship) (P Q : A → Prop) : Prop :=
  match rel with
  | equivalent => meet P Q ∧ sub P Q ∧ sub Q P
  | moreGeneral => meet P Q ∧ beyond P Q ∧ sub Q P
  | moreSpecific => meet P Q ∧ sub P Q ∧ beyond Q P
  | disjoint => apart P Q
  | overlaps => meet P Q ∧ beyond P Q ∧ beyond Q P
  end.

Lemma relates_facts {A} rel (P Q : A → Prop) :
  (∃ x, P x) → (∃ x, Q x) → relates rel P Q ↔ facts rel P Q.
Proof. intros [p Hp] [q Hq]. destruct rel; unfold facts, meet, sub, beyond, apart; cbn; unfold within; naive_solver. Qed.

Definition both {A B} (P : A → Prop) (R : B → Prop) (x : A * B) : Prop := P x.1 ∧ R x.2.

Section both.
Context {A B : Type} (P1 Q1 : A → Prop) (P2 Q2 : B → Prop).

Lemma meet_both : meet P1 Q1 → meet P2 Q2 → meet (both P1 P2) (both Q1 Q2).
Proof. intros (x & ? & ?) (y & ? & ?). by exists (x, y). Qed.
Lemma sub_both : sub P1 Q1 → sub P2 Q2 → sub (both P1 P2) (both Q1 Q2).
Proof. intros H1 H2 [x y] [? ?]. split; [by apply H1|by apply H2]. Qed.
Lemma beyond_both_l : beyond P1 Q1 → (∃ y, P2 y) → beyond (both P1 P2) (both Q1 Q2).
Proof. intros (x & ? & ?) [y ?]. exists (x, y). by split; [|intros [? ?]]. Qed.
Lemma beyond_both_r : (∃ x, P1 x) → beyond P2 Q2 → beyond (both P1 P2) (both Q1 Q2).
Proof. intros [x ?] (y & ? & ?). exists (x, y). by split; [|intros [? ?]]. Qed.
Lemma apart_both_l : apart P1 Q1 → apart (both P1 P2) (both Q1 Q2).
Proof. intros H [x y] [? ?] [? ?]. by eapply H. Qed.
Lemma apart_both_r : apart P2 Q2 → apart (both P1 P2) (both Q1 Q2).
Proof. intros H [x y] [? ?] [? ?]. by eapply H. Qed.
End both.

#[local] Hint Resolve meet_both sub_both beyond_both_l beyond_both_r apart_both_l apart_both_r : core.

(** The product of two relationships. *)
Lemma relates_both {A B} r1 r2 (P1 Q1 : A → Prop) (P2 Q2 : B → Prop) :
  (∃ x, P1 x) → (∃ x, Q1 x) → (∃ x, P2 x) → (∃ x, Q2 x) →
  relates r1 P1 Q1 → relates r2 P2 Q2 →
  relates (combineRelationships r1 r2) (both P1 P2) (both Q1 Q2).
Proof.
  intros H1 H2 H3 H4.
  assert (∃ x, both P1 P2 x) by (destruct H1 as [x ?], H3 as [y ?]; by exists (x, y)).
  assert (∃ x, both Q1 Q2 x) by (destruct H2 as [x ?], H4 as [y ?]; by exists (x, y)).
  rewrite !relates_facts by done.
  destruct r1, r2;
    match goal with |- context [combineRelationships ?a ?b] =>
      let r := eval vm_compute in (combineRelationships a b) in change (combineRelationships a b) with r
    end; cbn [facts]; intros HA HB; destruct_and?; split_and?; auto.
Qed.

(** Two sets that are not empty stand in one relationship only. *)
Lemma relates_conflict {A} rel (P Q : A → Prop) :
  (∃ x, P x) → relates rel P Q →
  rel = equivalent ∨ rel = overlaps ↔ (∃ x, P x ∧ Q x) ∧ ¬ within P Q ∧ ¬ within Q P.
Proof. unfold within. destruct rel; cbn; unfold within; naive_solver. Qed.

(** ** Lemmas: methods, segments and paths *)

Lemma app_x_ne s : s +:+ "x" ≠ s.
Proof. intros E. apply (f_equal String.length) in E. rewrite string_length_app in E. cbn in E. lia. Qed.

Lemma app_x_no_slash s : s +:+ "x" ≠ "/".
Proof. intros E. destruct s as [|c [|d s]]; discriminate E. Qed.

Lemma app_x_no_method m : m ≠ "" → ¬ method_matches m (m +:+ "x").
Proof.
  intros N [E|[E|[_ E]]]; [done|by apply app_x_ne in E|].
  destruct m as [|? [|? [|? [|? [|? ?]]]]]; discriminate E.
Qed.

Lemma compareMethods_relates m1 m2 : relates (compareMethods m1 m2) (method_matches m1) (method_matches m2).
Proof.
  assert (G : ∀ x, method_matches "HEAD" x → method_matches "GET" x).
  { intros x [?|[->|[? _]]]; [done|by right; right|done]. }
  assert (N : method_matches "GET" "GET" ∧ ¬ method_matches "HEAD" "GET").
  { split; [by right; left|]. by intros [?|[?|[? _]]]. }
  unfold compareMethods. case_bool_decide as E0; [by subst|].
  case_bool_decide as E1; [subst; split; [by left|]|].
  { exists (m2 +:+ "x"). split; [by left|by apply app_x_no_method; intros ->]. }
  case_bool_decide as E2; [subst; split; [by left|]|].
  { exists (m1 +:+ "x"). split; [by left|by apply app_x_no_method]. }
  destruct (decide (m1 = "GET" ∧ m2 = "HEAD")) as [[-> ->]|N1]; [split; [done|by exists "GET"]|].
  destruct (decide (m2 = "GET" ∧ m1 = "HEAD")) as [[-> ->]|N2]; [split; [done|by exists "GET"]|].
  repeat match goal with |- context [if bool_decide ?a && bool_decide ?b then _ else _] =>
    replace (bool_decide a && bool_decide b) with false by (symmetry; repeat case_bool_decide; naive_solver) end.
  intros x [?|[->|[-> ->]]] [?|[?|[? ?]]]; subst; naive_solver.
Qed.

Definition single (s : pattern_segment) : Prop := match s with Wild _ true => False | _ => True end.

Lemma compareSegments_relates s1 s2 :
  single s1 → single s2 → relates (compareSegments s1 s2) (segment_matches s1) (segment_matches s2).
Proof.
  destruct s1 as [s|n []], s2 as [t|m []]; try done; intros _ _; cbn.
  - case_bool_decide; cbn; naive_solver.
  - pose proof (app_x_ne s). pose proof (app_x_no_slash s). case_bool_decide; cbn; unfold within; naive_solver.
  - pose proof (app_x_ne t). pose proof (app_x_no_slash t). case_bool_decide; cbn; unfold within; naive_solver.
Qed.

Lemma segment_inhabited s : ∃ x, segment_matches s x.
Proof. destruct s as [t|n m]; [by exists t|by exists "x"]. Qed.

(** A wildcard for the rest of the path comes last. *)
Fixpoint multi_last (l : list pattern_segment) : Prop :=
  match l with
  | [] => True
  | Wild _ true :: l' => l' = []
  | _ :: l' => multi_last l'
  end.

Lemma multi_last_cons s l : single s → multi_last (s :: l) = multi_last l.
Proof. by destruct s as [|? []]. Qed.

Lemma path_matches_cons s l x path : single s →
  path_matches (s :: l) (x :: path) ↔ both (segment_matches s) (path_matches l) (x, path).
Proof.
  unfold both. destruct s as [t|n []]; try done; intros _; cbn; split.
  1, 3: by intros (? & ? & [= -> ->] & ? & ?).
  all: intros [? ?]; by eexists _, _.
Qed.

Lemma path_matches_nil s l : ¬ path_matches (s :: l) [].
Proof. destruct s as [t|n []]; cbn; naive_solver. Qed.

Lemma path_inhabited l : multi_last l → ∃ path, path_matches l path.
Proof.
  induction l as [|s l IH]; [by exists []|]. intros W.
  destruct (decide (s = Wild (match s with Wild n _ => n | Literal t => t end) true)) as [->|N]; [by exists ["x"]|].
  assert (S : single s) by (destruct s as [|? []]; done).
  rewrite multi_last_cons in W by done. destruct (IH W) as [path H], (segment_inhabited s) as [x Hx].
  exists (x :: path). by apply path_matches_cons.
Qed.

(** The relationship of two paths, segment by segment. *)
Fixpoint rel_paths (l1 l2 : list pattern_segment) : relationship :=
  match l1, l2 with
  | [], [] => equivalent
  | Wild _ true :: _, Wild _ true :: _ => equivalent
  | [], _ | _, [] => disjoint
  | Wild _ true :: _, _ => moreGeneral
  | _, Wild _ true :: _ => moreSpecific
  | s1 :: l1', s2 :: l2' => combineRelationships (compareSegments s1 s2) (rel_paths l1' l2')
  end.

Lemma rel_paths_cons s1 s2 l1 l2 : single s1 → single s2 →
  rel_paths (s1 :: l1) (s2 :: l2) = combineRelationships (compareSegments s1 s2) (rel_paths l1 l2).
Proof. by destruct s1 as [|? []], s2 as [|? []]. Qed.

(** A relationship of heads and tails is one of lists. *)
Lemma relates_cons {A} rel (P Q : A * list A → Prop) (P' Q' : list A → Prop) :
  ¬ P' [] → ¬ Q' [] → (∀ x l, P' (x :: l) ↔ P (x, l)) → (∀ x l, Q' (x :: l) ↔ Q (x, l)) →
  (∃ x, P x) → (∃ x, Q x) → relates rel P Q → relates rel P' Q'.
Proof.
  intros NP NQ HP HQ IP IQ R. apply relates_facts in R; [|done|done]. apply relates_facts; [| |revert R].
  - destruct IP as [[x l] H]. exists (x :: l). by apply HP.
  - destruct IQ as [[x l] H]. exists (x :: l). by apply HQ.
  - assert (M : meet P Q → meet P' Q') by (intros ([x l] & ? & ?); exists (x :: l); naive_solver).
    assert (B1 : beyond P Q → beyond P' Q') by (intros ([x l] & ? & ?); exists (x :: l); naive_solver).
    assert (B2 : beyond Q P → beyond Q' P') by (intros ([x l] & ? & ?); exists (x :: l); naive_solver).
    assert (S1 : sub P Q → sub P' Q') by (intros S [|x l]; [done|]; rewrite HP, HQ; apply S).
    assert (S2 : sub Q P → sub Q' P') by (intros S [|x l]; [done|]; rewrite HP, HQ; apply S).
    destruct rel; cbn; intros H; destruct_and?; split_and?; auto.
    intros [|x l]; [done|]. rewrite HP, HQ. apply H.
Qed.

(** A wildcard for the rest is more general than anything else that is left. *)
Lemma multi_moreGeneral n r s l : single s → multi_last (s :: l) →
  relates moreGeneral (path_matches (Wild n true :: r)) (path_matches (s :: l)).
Proof.
  intros S W. cbn [relates]. split.
  - intros [|x path] H; [by apply path_matches_nil in H|done].
  - destruct s as [t|m []]; [exists [t +:+ "x"]|done|exists ["/"]]; (split; [done|]);
      rewrite path_matches_cons by done; intros [H _]; [by apply app_x_ne in H|by cbn in H].
Qed.

Lemma relates_inverse {A} (P Q : A → Prop) : relates moreGeneral P Q → relates moreSpecific Q P.
Proof. done. Qed.

Lemma rel_paths_relates l1 : ∀ l2, multi_last l1 → multi_last l2 →
  relates (rel_paths l1 l2) (path_matches l1) (path_matches l2).
Proof.
  induction l1 as [|s1 l1 IH]; intros [|s2 l2] W1 W2.
  - done.
  - assert (rel_paths [] (s2 :: l2) = disjoint) as -> by by destruct s2 as [|? []].
    cbn [relates]. intros x -> H. by apply path_matches_nil in H.
  - assert (rel_paths (s1 :: l1) [] = disjoint) as -> by by destruct s1 as [|? []].
    cbn [relates]. intros x H ->. by apply path_matches_nil in H.
  - assert (C : ∀ s, (∃ n, s = Wild n true) ∨ single s) by (intros [|? []]; cbn; eauto).
    destruct (C s1) as [[n ->]|S1], (C s2) as [[m ->]|S2]; [done|..].
    + assert (rel_paths (Wild n true :: l1) (s2 :: l2) = moreGeneral) as -> by by destruct s2 as [|? []].
      by apply multi_moreGeneral.
    + assert (rel_paths (s1 :: l1) (Wild m true :: l2) = moreSpecific) as -> by by destruct s1 as [|? []].
      by apply relates_inverse, multi_moreGeneral.
    + rewrite rel_paths_cons by done. rewrite multi_last_cons in W1, W2 by done.
      destruct (segment_inhabited s1) as [x1 Hx1], (segment_inhabited s2) as [x2 Hx2],
        (path_inhabited l1 W1) as [p1 Hp1], (path_inhabited l2 W2) as [p2 Hp2].
      eapply relates_cons with (P := both (segment_matches s1) (path_matches l1))
        (Q := both (segment_matches s2) (path_matches l2)).
      1, 2: apply path_matches_nil.
      1, 2: intros; by apply path_matches_cons.
      1, 2: by eexists (_, _); split.
      apply relates_both; eauto using compareSegments_relates.
Qed.

(** ** Lemmas: the comparison computes the relationship *)

Lemma combine_assoc r1 r2 r3 :
  combineRelationships r1 (combineRelationships r2 r3) = combineRelationships (combineRelationships r1 r2) r3.
Proof. by destruct r1, r2, r3. Qed.

Lemma combine_disjoint_r r : combineRelationships r disjoint = disjoint.
Proof. by destruct r. Qed.

(** The tail that [comparePaths] judges. *)
Definition finish (m1 m2 : bool) (r : relationship * list pattern_segment * list pattern_segment) : relationship :=
  let '(rel, r1, r2) := r in
  match r1, r2 with
  | [], [] => rel
  | [], _ :: _ => if m1 then combineRelationships rel moreGeneral else disjoint
  | _ :: _, [] => if m2 then combineRelationships rel moreSpecific else disjoint
  | _, _ => disjoint
  end.

Lemma combine_twice r : r ≠ disjoint →
  (∀ g, g = moreGeneral ∨ g = moreSpecific →
   combineRelationships (combineRelationships r g) g = combineRelationships r g).
Proof. by intros N g [->| ->]; destruct r. Qed.

Lemma compareSegments_multi s1 s2 :
  is_multi (Some s1) = true ∨ is_multi (Some s2) = true →
  compareSegments s1 s2 = rel_paths [s1] [s2].
Proof. destruct s1 as [|? []], s2 as [|? []]; naive_solver. Qed.

Lemma rel_paths_single s1 s2 : rel_paths [s1] [s2] = compareSegments s1 s2.
Proof.
  destruct s1 as [s|n []], s2 as [t|m []]; try done; cbn; repeat case_bool_decide; done.
Qed.

Lemma is_multi_single s : is_multi (Some s) = false ↔ single s.
Proof. destruct s as [|? []]; cbn; naive_solver. Qed.

Lemma multi_last_head s t l : multi_last (s :: t :: l) → single s ∧ multi_last (t :: l).
Proof. destruct s as [|? []]; cbn; naive_solver. Qed.

Lemma compare_go_finish l1 : ∀ l2 rel, rel ≠ disjoint → multi_last l1 → multi_last l2 → l1 ≠ [] → l2 ≠ [] →
  finish (is_multi (last l1)) (is_multi (last l2)) (compare_go rel l1 l2)
  = combineRelationships rel (rel_paths l1 l2).
Proof.
  induction l1 as [|s1 l1 IH]; intros [|s2 l2] rel Nr W1 W2 N1 N2; try done. clear N1 N2.
  set (rel' := combineRelationships rel (compareSegments s1 s2)).
  assert (E : compare_go rel (s1 :: l1) (s2 :: l2)
              = if bool_decide (rel' = disjoint) then (rel', [], []) else compare_go rel' l1 l2) by done.
  rewrite E. destruct l1 as [|t1 l1], l2 as [|t2 l2].
  - rewrite rel_paths_single. cbn. by case_bool_decide.
  - destruct (multi_last_head _ _ _ W2) as [S2 _].
    destruct (is_multi (Some s1)) eqn:M1.
    + assert (R : rel_paths [s1] (s2 :: t2 :: l2) = moreGeneral) by (destruct s1 as [|? []], s2 as [|? []]; done).
      assert (Es : compareSegments s1 s2 = moreGeneral) by (destruct s1 as [|? []], s2 as [|? []]; done).
      rewrite R. subst rel'. rewrite Es. rewrite bool_decide_false by (by destruct rel).
      cbn [compare_go finish last]. rewrite M1. apply combine_twice; auto.
    + rewrite rel_paths_cons, combine_assoc by (done || by apply is_multi_single).
      assert (R : rel_paths [] (t2 :: l2) = disjoint) by (by destruct t2 as [|? []]).
      rewrite R, combine_disjoint_r. case_bool_decide as B; cbn [finish]; [done|].
      cbn [compare_go last]. by rewrite M1.
  - destruct (multi_last_head _ _ _ W1) as [S1 _].
    destruct (is_multi (Some s2)) eqn:M2.
    + assert (R : rel_paths (s1 :: t1 :: l1) [s2] = moreSpecific) by (destruct s1 as [|? []], s2 as [|? []]; done).
      assert (Es : compareSegments s1 s2 = moreSpecific) by (destruct s1 as [|? []], s2 as [|? []]; done).
      rewrite R. subst rel'. rewrite Es. rewrite bool_decide_false by (by destruct rel).
      cbn [compare_go finish last]. rewrite M2. apply combine_twice; auto.
    + rewrite rel_paths_cons, combine_assoc by (done || by apply is_multi_single).
      assert (R : rel_paths (t1 :: l1) [] = disjoint) by (by destruct t1 as [|? []]).
      rewrite R, combine_disjoint_r. case_bool_decide as B; cbn [finish]; [done|].
      cbn [compare_go last]. by rewrite M2.
  - destruct (multi_last_head _ _ _ W1) as [S1 W1'], (multi_last_head _ _ _ W2) as [S2 W2'].
    rewrite rel_paths_cons, combine_assoc by done.
    change (last (s1 :: t1 :: l1)) with (last (t1 :: l1)). change (last (s2 :: t2 :: l2)) with (last (t2 :: l2)).
    fold rel'. case_bool_decide as B; [by rewrite B|]. by apply IH.
Qed.

Lemma rel_paths_length l1 : ∀ l2, multi_last l1 → multi_last l2 → length l1 ≠ length l2 →
  is_multi (last l1) = false → is_multi (last l2) = false → rel_paths l1 l2 = disjoint.
Proof.
  assert (T : ∀ s l, multi_last (s :: l) → is_multi (last (s :: l)) = false →
    single s ∧ multi_last l ∧ is_multi (last l) = false).
  { intros s [|t l] W M; [split; [by apply is_multi_single|done]|].
    by destruct (multi_last_head _ _ _ W). }
  induction l1 as [|s1 l1 IH]; intros [|s2 l2] W1 W2 N M1 M2;
    [done|by destruct s2 as [|? []]|by destruct s1 as [|? []]|].
  destruct (T _ _ W1 M1) as (S1 & ? & ?), (T _ _ W2 M2) as (S2 & ? & ?).
  rewrite rel_paths_cons, IH by (done || cbn in N; lia). apply combine_disjoint_r.
Qed.

Lemma comparePaths_relates l1 l2 : l1 ≠ [] → l2 ≠ [] → multi_last l1 → multi_last l2 →
  relates (comparePaths l1 l2) (path_matches l1) (path_matches l2).
Proof.
  intros N1 N2 W1 W2. assert (comparePaths l1 l2 = rel_paths l1 l2) as ->; [|by apply rel_paths_relates].
  unfold comparePaths. destruct (negb _ && _ && _) eqn:E.
  - rewrite !andb_true_iff, !negb_true_iff, Nat.eqb_neq in E. destruct E as [[? ?] ?].
    symmetry. by apply rel_paths_length.
  - by apply (compare_go_finish l1 l2 equivalent).
Qed.

(** ** Lemmas: patterns that were parsed *)

Definition well_formed (p : pattern) : Prop := p.(pt_Segments) ≠ [] ∧ multi_last p.(pt_Segments).

Lemma parse_segments_multi name_rune segs : ∀ names l,
  parse_segments name_rune names segs = Some l → multi_last l ∧ (segs ≠ [] → l ≠ []).
Proof.
  induction segs as [|seg segs IH]; intros names l; cbn [parse_segments]; [by intros [= <-]|].
  repeat match goal with |- context [if ?b then _ else _] => destruct b eqn:? end;
    try (destruct (cut_suffix _ _) as [name multi] eqn:?; cbn beta iota);
    repeat match goal with |- context [if ?b then _ else _] => destruct b eqn:? end;
    try (destruct (parse_segments _ _ _) as [l'|] eqn:P; cbn);
    intros [= <-]; try done; split; try done.
  - by apply IH in P as [? _].
  - destruct multi; [|by apply IH in P as [? _]]. cbn in *.
    match goal with H : negb (bool_decide (segs = [])) = false |- _ =>
      apply negb_false_iff, bool_decide_eq_true in H as -> end.
    by injection P as <-.
Qed.

Lemma split_char_nonempty c s : split_char c s ≠ [].
Proof. induction s as [|d s IH]; cbn; [done|]. case_bool_decide; [done|]. by destruct (split_char c s). Qed.

Lemma parsePattern_well_formed name_rune s p : parsePattern name_rune s = Some p → well_formed p.
Proof.
  unfold parsePattern. destruct (default _ _) as [method rest].
  match goal with |- context [if ?b then None else _] => destruct b; [done|] end.
  destruct (split_host rest) as [[host path]|]; [cbn [mbind option_bind]|done].
  do 2 match goal with |- context [if ?b then None else _] => destruct b; [done|] end.
  destruct (parse_segments _ _ _) as [l|] eqn:P; [cbn|done]. intros [= <-].
  apply parse_segments_multi in P as [? N]. split; [apply N, split_char_nonempty|done].
Qed.

Lemma pattern_inhabited p : well_formed p → ∃ r, pattern_matches p r.
Proof.
  intros [_ W]. destruct (path_inhabited _ W) as [path H]. exists (p.(pt_Method), path). split; [|done].
  cbn. unfold method_matches. auto.
Qed.

Lemma comparePathsAndMethods_relates p q : well_formed p → well_formed q →
  relates (comparePathsAndMethods p q) (pattern_matches p) (pattern_matches q).
Proof.
  intros [N1 W1] [N2 W2]. unfold comparePathsAndMethods.
  assert (M : ∀ m, ∃ x, method_matches m x) by (intros m; exists m; unfold method_matches; auto).
  pose proof (compareMethods_relates p.(pt_Method) q.(pt_Method)) as HM.
  case_bool_decide as D.
  - rewrite D in HM. intros [m path] [? _] [? _]. by eapply (HM m).
  - apply relates_both; auto using path_inhabited, comparePaths_relates.
Qed.

(** The comparison decides whether two patterns conflict. *)
Lemma conflictsWith_conflict p q : well_formed p → well_formed q → conflictsWith p q = true ↔ conflict p q.
Proof.
  intros W1 W2. unfold conflictsWith, conflict. case_bool_decide as H; cbn; [|naive_solver].
  rewrite orb_true_iff, !bool_decide_eq_true.
  rewrite (relates_conflict (comparePathsAndMethods p q) (pattern_matches p) (pattern_matches q));
    [|by apply pattern_inhabited|by apply comparePathsAndMethods_relates].
  naive_solver.
Qed.

(** Patterns that can be registered one after the other: each can be parsed, and
    no two conflict. *)
Definition patterns_fit (name_rune : bool → string → bool) (l : list string) : Prop :=
  ∃ ps, Forall2 (λ s p, parsePattern name_rune s = Some p) l ps ∧
    ∀ i j p q, i < j → ps !! i = Some p → ps !! j = Some q → ¬ conflict p q.

Lemma register_patterns_fit name_rune l : ∀ seen, Forall well_formed seen →
  is_Some (register_patterns name_rune l seen) ↔
  ∃ ps, Forall2 (λ s p, parsePattern name_rune s = Some p) l ps ∧
    (∀ p q, p ∈ seen → q ∈ ps → ¬ conflict q p) ∧
    ∀ i j p q, i < j → ps !! i = Some p → ps !! j = Some q → ¬ conflict p q.
Proof.
  assert (Sym : ∀ p q, conflict p q → conflict q p).
  { unfold conflict. intros p q (-> & (r & ? & ?) & ? & ?). split_and!; eauto. }
  induction l as [|s l IH]; intros seen W; cbn [register_patterns].
  { split; [intros _; exists []; split_and!; [done|by intros ? ? ? ?%not_elem_of_nil|done]|done]. }
  destruct (parsePattern name_rune s) as [p|] eqn:P; cbn [mbind option_bind].
  2: { split; [by intros [? [=]]|]. intros (ps & F & _). inversion F; congruence. }
  pose proof (parsePattern_well_formed _ _ _ P) as Wp.
  assert (C : existsb (conflictsWith p) seen = true ↔ ∃ q, q ∈ seen ∧ conflict p q).
  { rewrite existsb_exists. setoid_rewrite <- list_elem_of_In. split; intros (q & Hq & H); exists q; split;
      try done; apply conflictsWith_conflict; try done; by eapply Forall_forall in W. }
  destruct (existsb _ _).
  - split; [by intros [? [=]]|]. destruct (proj1 C eq_refl) as (q & Hq & H).
    intros (ps & F & N & _). inversion F; simplify_eq. destruct (N q p); [done|by left|done].
  - rewrite IH by by constructor. split.
    + intros (ps & F & N & O). exists (p :: ps). split_and!; [by constructor| |].
      * intros q r Hq [->|Hr]%elem_of_cons; [intros X; assert (false = true) by (apply C; eauto); done|].
        apply N; [by right|done].
      * intros [|i] [|j] q r L Hq Hr X; cbn in *; try lia; simplify_eq.
        -- apply list_elem_of_lookup_2 in Hr. apply (N q r); [by left|done|by apply Sym].
        -- apply (O i j q r); [lia|done..].
    + intros (ps & F & N & O). inversion F as [|? p' ? ps' P' F']; simplify_eq. exists ps'. split_and!; [done| |].
      * intros q r [->|Hq]%elem_of_cons Hr X; [|by eapply N; [done|right|]].
        apply list_elem_of_lookup in Hr as [j Hj]. apply (O 0 (S j) p r); [lia|done|done|by apply Sym].
      * intros i j q r L Hq Hr. by apply (O (S i) (S j) q r); [lia|..].
Qed.

(** The registration panics exactly when the patterns do not fit. *)
Lemma register_patterns_spec name_rune l : is_Some (register_patterns name_rune l []) ↔ patterns_fit name_rune l.
Proof.
  rewrite register_patterns_fit by done. unfold patterns_fit.
  split; intros (ps & F & H); exists ps; (split; [done|]); [by destruct H|].
  split; [by intros ? ? ?%not_elem_of_nil|done].
Qed.
