(* ===== verification/Panel.v ===== *)
(** * The supervisor's interface (src/cmd/vegm-supervisor/server.go,
    instance_actions.go, fleet_edit.go, settings.go, export.go)

    The handlers of the supervisor and its routes. What child processes answer
    over HTTP, the static pages, the time and the files that cannot be written
    are parameters. *)

From S2P Require Import Prelude GoStrings Url Json Validate Config FleetTypes Fleet Generate Supervisor FleetEdit Settings Certificate Mux.

(** ** Requests and replies *)

Record instanceView := mkView {
  iv_InstanceID : string;
  iv_EGMID : string;
  iv_HostID : string;
  iv_Group : string;
  iv_Profile : string;
  iv_Manufacturer : string;
  iv_EGMEndpoint : Endpoint;
  iv_HostEndpoint : HostEndpoint;
  iv_G2SXML : G2SXMLConfig;
  iv_WireURL : string;
  iv_ControlURL : string;
  iv_UIURL : string;
  iv_ConfigPath : string;
  iv_Running : bool;
  iv_Healthy : bool;
  iv_RestartDesired : bool;
  iv_RestartCount : Z;
  iv_LastExit : string;
  iv_LogDir : string;
  iv_ListenHost : string;
  iv_WirePort : Z;
  iv_ControlPort : Z;
  iv_AdvertisedHost : string;
  iv_AdvertisedIP : string;
  iv_DNSServers : list string;
  iv_SubnetMask : string;
  iv_Gateway : string;
  iv_ServerName : string;
  iv_TrustMode : string;
  iv_CertFile : string;
  iv_KeyFile : string;
  iv_CAFile : string;
  iv_CertificateStatus : CertificateStatus;
  iv_SessionState : string;
  iv_HeartbeatState : string;
  iv_ConnectionState : string;
  iv_AudioState : string;
  iv_HoldState : string;
  iv_LockState : string;
  iv_MachineState : string;
  iv_LastCommandType : string;
}.

(** A request: method, path, the [run_id] of the query, the body as JSON and the
    text of the decoder's error. *)
Record panel_request := mkPanelRequest {
  pq_Method : string;
  pq_Path : string;
  pq_RunID : string;
  pq_Json : option json;
  pq_JsonError : string;
}.

Inductive panel_body :=
  | PEmpty
  | PText (s : string)
  | PJson (kvs : list (string * json))
  | PViews (kvs : list (string * json)) (views : list instanceView)
  | PSettings (kvs : list (string * json)) (i : instanceSettings)
  | PRedirect (path : string)
  | PStatic (path : string).

Record panel_reply := mkReply { pl_Status : Z; pl_Body : panel_body }.

Record configRef := mkConfigRef {
  cr_InstanceID : string;
  cr_EGMID : string;
  cr_HostID : string;
  cr_Path : string;
}.

Record fleetExport := mkFleetExport {
  fe_GeneratedAt : Z;
  fe_RunID : string;
  fe_ManifestPath : string;
  fe_GeneratedDir : string;
  fe_Instances : list instanceView;
  fe_Configs : list configRef;
}.

(** What the supervisor depends on: starting children, writing files, key files,
    the answers of the children (status and body), and the time, as a number and
    as the name of an export. *)
Record panel_environment := mkPanelEnv {
  pe_children : child_environment;
  pe_denied : string → bool;
  pe_os_error : string → string;
  pe_certificates : certificate_environment;
  pe_get : string → result (Z * option json);
  pe_now : Z;
  pe_run_name : string;
}.

Abbreviation handler := (panel_request → supervisorServer → supervisorServer * panel_reply).

Section panel.
Context (env : panel_environment).

(** ** Views *)

Definition controlURLForConfig (bind : string) (fallbackPort : Z) : string :=
  let fallback := "http://127.0.0.1:" +:+ itoa fallbackPort in
  match SplitHostPort bind with
  | None => fallback
  | Some (host, port) =>
      if bool_decide (port = "") then fallback
      else
        let host := if bool_decide (host ∈ [""; "0.0.0.0"; "::"; "[::]"]) then "127.0.0.1" else host in
        "http://" +:+ host +:+ ":" +:+ port
  end.

(** launch.go *)
Definition isHealthy (url : string) : bool :=
  match env.(pe_get) url with Ok (status, _) => (status =? 200)%Z | Err _ => false end.

(** The error of [fetchChildIndicators] is dropped; then all fields are empty. *)
Definition fetchChildIndicators (controlBase : string) : childIndicators :=
  match env.(pe_get) (controlBase +:+ "/control/state") with
  | Ok (status, Some j) => if (status =? 200)%Z then default zero (dec j zero) else zero
  | _ => zero
  end.

Definition instance_view (s : supervisorServer) (gen : GeneratedConfig) : instanceView :=
  let inst := gen.(gc_Instance) in
  let controlURL := controlURLForConfig gen.(gc_Config).(cfg_Control).(ct_Bind) inst.(ef_ControlPort) in
  let running := processRunning (child s inst.(ef_InstanceID)) in
  let meta := restart_meta s inst.(ef_InstanceID) in
  let healthy := running && isHealthy (controlURL +:+ "/healthz") in
  let ind := if healthy then fetchChildIndicators controlURL else zero in
  {| iv_InstanceID := inst.(ef_InstanceID); iv_EGMID := inst.(ef_EGMID); iv_HostID := inst.(ef_HostID);
     iv_Group := inst.(ef_Group); iv_Profile := inst.(ef_Profile); iv_Manufacturer := inst.(ef_Manufacturer);
     iv_EGMEndpoint := inst.(ef_EGMEndpoint); iv_HostEndpoint := inst.(ef_HostEndpoint);
     iv_G2SXML := gen.(gc_Config).(cfg_G2SXML); iv_WireURL := inst.(ef_EGMEndpoint).(ep_Scheme) +:+ "://" +:+
       host_port inst.(ef_EGMEndpoint).(ep_Host) inst.(ef_WirePort) +:+ inst.(ef_EGMEndpoint).(ep_Path);
     iv_ControlURL := controlURL; iv_UIURL := controlURL +:+ "/ui/scenario-runner.html";
     iv_ConfigPath := gen.(gc_Path); iv_Running := running; iv_Healthy := healthy;
     iv_RestartDesired := meta.(rm_Desired); iv_RestartCount := meta.(rm_RestartCount);
     iv_LastExit := meta.(rm_LastExit); iv_LogDir := inst.(ef_LogDir); iv_ListenHost := inst.(ef_ListenHost);
     iv_WirePort := inst.(ef_WirePort); iv_ControlPort := inst.(ef_ControlPort);
     iv_AdvertisedHost := inst.(ef_AdvertisedHost); iv_AdvertisedIP := inst.(ef_AdvertisedIP);
     iv_DNSServers := inst.(ef_DNSServers); iv_SubnetMask := inst.(ef_SubnetMask);
     iv_Gateway := inst.(ef_Gateway); iv_ServerName := inst.(ef_ServerName);
     iv_TrustMode := inst.(ef_TrustMode); iv_CertFile := inst.(ef_CertFile); iv_KeyFile := inst.(ef_KeyFile);
     iv_CAFile := inst.(ef_CAFile);
     iv_CertificateStatus := BuildCertificateStatus env.(pe_certificates) gen.(gc_Config);
     iv_SessionState := ind.(ci_SessionState); iv_HeartbeatState := ind.(ci_HeartbeatState);
     iv_ConnectionState := ind.(ci_ConnectionState); iv_AudioState := ind.(ci_AudioState);
     iv_HoldState := ind.(ci_HoldState); iv_LockState := ind.(ci_LockState);
     iv_MachineState := ind.(ci_MachineState); iv_LastCommandType := ind.(ci_LastCommandType) |}.

Definition instanceViews (s : supervisorServer) : list instanceView :=
  map (instance_view s) s.(su_Generated).

(** ** Handlers *)

Definition text (msg : string) (status : Z) : panel_reply := mkReply status (PText msg).
Definition method_refused : panel_reply := text "method not allowed" 405.
Definition views_reply (kvs : list (string * json)) (s : supervisorServer) : panel_reply :=
  mkReply 200 (PViews kvs (instanceViews s)).

(** [if r.Method != method { ...; return }] *)
Definition only (method : string) (h : handler) : handler := λ r s,
  if bool_decide (r.(pq_Method) = method) then h r s else (s, method_refused).

Definition handleHealthz : handler := λ _ s,
  (s, mkReply 200 (PJson [("ok", JBool true); ("instances", enc_int (Z.of_nat (length s.(su_Generated))))])).

Definition handleUIRoot : handler := λ _ s, (s, mkReply 307 (PRedirect "/ui/supervisor.html")).

Definition uiHandler : handler := λ r s, (s, mkReply 200 (PStatic (trim_prefix "/ui/" r.(pq_Path)))).

Definition handleInstances : handler := only "GET" (λ _ s, (s, views_reply [] s)).

(** The loop of [handleStartAll]: the first error ends it. *)
Fixpoint start_all (gens : list GeneratedConfig) (s : supervisorServer)
    : supervisorServer * result (list string) :=
  match gens with
  | [] => (s, Ok [])
  | gen :: rest =>
      let id := gen.(gc_Instance).(ef_InstanceID) in
      match startOne env.(pe_children) id s with
      | (s, Err e) => (s, Err e)
      | (s, Ok changed) =>
          let '(s, r) := start_all rest s in
          (s, started ← r; Ok (if changed : bool then id :: started else started))
      end
  end.

Definition handleStartAll : handler := only "POST" (λ _ s,
  match start_all s.(su_Generated) s with
  | (s, Err e) => (s, text e 500)
  | (s, Ok started) => (s, views_reply [("started", enc_list JStr started)] s)
  end).

Fixpoint stop_all (gens : list GeneratedConfig) (s : supervisorServer) : supervisorServer * list string :=
  match gens with
  | [] => (s, [])
  | gen :: rest =>
      let id := gen.(gc_Instance).(ef_InstanceID) in
      let '(s, changed) := stopOne id s in
      let '(s, stopped) := stop_all rest s in
      (s, if changed : bool then id :: stopped else stopped)
  end.

Definition handleStopAll : handler := only "POST" (λ _ s,
  let '(s, stopped) := stop_all s.(su_Generated) s in
  (s, views_reply [("stopped", enc_list JStr stopped)] s)).

(** The parts of the path of an action. *)
Definition action_parts (path : string) : option (string * string) :=
  match split_char "/" (trim_char "/" (trim_prefix "/api/instances/" path)) with
  | [id; action] =>
      if bool_decide (id = "") || bool_decide (action = "") then None else Some (id, action)
  | _ => None
  end.

Definition act (id action : string) (s : supervisorServer)
    : option (supervisorServer * result bool) :=
  if bool_decide (action = "start") then Some (startOne env.(pe_children) id s)
  else if bool_decide (action = "stop") then
    let '(s, changed) := stopOne id s in Some (s, Ok changed)
  else if bool_decide (action = "restart") then Some (startOne env.(pe_children) id (stopOne id s).1)
  else None.

Definition handleInstanceAction : handler := only "POST" (λ r s,
  match action_parts r.(pq_Path) with
  | None => (s, text "expected /api/instances/{instance_id}/{action}" 400)
  | Some (id, action) =>
      match act id action s with
      | None => (s, text ("unsupported action " +:+ quote action) 400)
      | Some (s, Err e) => (s, text e 500)
      | Some (s, Ok changed) =>
          (s, views_reply [("ok", JBool true); ("instance_id", JStr id); ("action", JStr action);
                           ("changed", JBool changed)] s)
      end
  end).

Definition decode_panel `{Codec A} (r : panel_request) : option A := r.(pq_Json) ≫= λ j, dec j zero.

(** Both ways to remove an instance end like this. *)
Definition remove_request (instance_id : string) (s : supervisorServer)
    : supervisorServer * panel_reply :=
  let id := TrimSpace instance_id in
  if bool_decide (id = "") then (s, text "instance_id is required" 400)
  else
    match removeFleetInstance env.(pe_denied) env.(pe_os_error) id s with
    | (s, Err e) => (s, text e 400)
    | (s, Ok _) => (s, views_reply [("ok", JBool true); ("removed", JStr id)] s)
    end.

Definition handleFleetInstancesAdd : handler := only "POST" (λ r s,
  match decode_panel (A := addInstanceRequest) r with
  | None => (s, text r.(pq_JsonError) 400)
  | Some req =>
      if req.(ai_Remove) then remove_request req.(ai_InstanceID) s
      else
        let inst := requested_instance req in
        if bool_decide (inst.(in_InstanceID) = "") || bool_decide (inst.(in_EGMID) = "")
           || bool_decide (inst.(in_Group) = "")
        then (s, text "instance_id, egm_id, and group are required" 400)
        else
          match addFleetInstance env.(pe_denied) env.(pe_os_error) inst s with
          | (s, Err e) => (s, text e 400)
          | (s, Ok _) => (s, views_reply [("ok", JBool true); ("instance_id", JStr inst.(in_InstanceID))] s)
          end
  end).

(** Not among the routes. *)
Definition handleFleetInstancesRemove : handler := only "POST" (λ r s,
  match decode_panel (A := removeInstanceRequest) r with
  | None => (s, text r.(pq_JsonError) 400)
  | Some req => remove_request req.(ri_InstanceID) s
  end).

Definition handleInstanceSettings : handler := λ r s,
  let id := trim_char "/" (trim_prefix "/api/instance-settings/" r.(pq_Path)) in
  if bool_decide (id = "") then (s, text "404 page not found" 404)
  else if bool_decide (r.(pq_Method) = "GET") then
    match getInstanceSettings id s with
    | Err e => (s, text e 404)
    | Ok settings => (s, mkReply 200 (PSettings [] settings))
    end
  else if bool_decide (r.(pq_Method) = "POST") then
    match decode_panel (A := instanceSettings) r with
    | None => (s, text r.(pq_JsonError) 400)
    | Some req =>
        match updateInstanceSettings env.(pe_denied) env.(pe_os_error) id req s with
        | (s, Err e) => (s, text e 400)
        | (s, Ok updated) => (s, mkReply 200 (PSettings [("ok", JBool true)] updated))
        end
    end
  else (s, method_refused).

(** The export: where it goes and what it holds. *)
Definition export_dir (s : supervisorServer) : string :=
  if bool_decide (s.(su_GeneratedDir) = "") then JoinPath ["generated"; "exports"]
  else JoinPath [s.(su_GeneratedDir); "exports"].

Definition export_path (runID : string) (s : supervisorServer) : string :=
  JoinPath [export_dir s; runID +:+ "_fleet_bundle.json"].

Definition fleet_export (runID : string) (s : supervisorServer) : fleetExport :=
  mkFleetExport env.(pe_now) runID s.(su_ManifestPath) s.(su_GeneratedDir) (instanceViews s)
    (map (λ gen, mkConfigRef gen.(gc_Instance).(ef_InstanceID) gen.(gc_Instance).(ef_EGMID)
                   gen.(gc_Instance).(ef_HostID) gen.(gc_Path)) s.(su_Generated)).

(** The file is not read back by the program; its content is that of
    [fleet_export]. *)
Definition handleFleetExport : handler := only "GET" (λ r s,
  let runID := or_default r.(pq_RunID) env.(pe_run_name) in
  if env.(pe_denied) (export_dir s) then (s, text (env.(pe_os_error) (export_dir s)) 500)
  else
    let exp := fleet_export runID s in
    let path := export_path runID s in
    if env.(pe_denied) path then (s, text (env.(pe_os_error) path) 500)
    else (set_su_Files (<[path := OtherFile]> s.(su_Files)) s,
          mkReply 200 (PJson [("ok", JBool true); ("run_id", JStr runID); ("path", JStr path);
            ("instances", enc_int (Z.of_nat (length exp.(fe_Instances))))]))).

(** ** Routes *)

Definition supervisor_routes : list (string * handler) := [
  ("/healthz", handleHealthz);
  ("/ui", handleUIRoot);
  ("/ui/", uiHandler);
  ("/api/instances", handleInstances);
  ("/api/instances/start-all", handleStartAll);
  ("/api/instances/stop-all", handleStopAll);
  ("/api/instances/", handleInstanceAction);
  ("/api/instance-settings/", handleInstanceSettings);
  ("/api/fleet/instances/add", handleFleetInstancesAdd);
  ("/api/export/fleet", handleFleetExport)].

(** [routes()] with [withSupervisorCORS] *)
Definition serve : handler := λ r s,
  if bool_decide (r.(pq_Method) = "OPTIONS") then (s, mkReply 204 PEmpty)
  else
    match route supervisor_routes r.(pq_Path) with
    | Handled_by h => h r s
    | Redirected path => (s, mkReply 301 (PRedirect path))
    | Unrouted => (s, text "404 page not found" 404)
    end.
End panel.

(** ** Lemmas *)

(** A host and a port that were put together are taken apart again. *)
Lemma SplitHostPort_host_port host port :
  free_of ":" host = true → free_of "[" host = true → free_of "]" host = true →
  SplitHostPort (host_port host port) = Some (host, itoa port).
Proof.
  intros H1 H2 H3. unfold SplitHostPort, host_port.
  change (host +:+ ":" +:+ itoa port) with (host +:+ String ":" (itoa port)).
  assert (Hf : ∀ c, numeral_byte c = false → free_of c (itoa port) = true) by (intros; by apply itoa_free).
  rewrite cut_last_app by by apply Hf.
  destruct (has_prefix "[" host) eqn:Hp.
  { destruct host as [|a host]; [done|]. simpl in Hp, H2. case_bool_decide; [|done]. by subst. }
  rewrite H1, !free_of_app, H2, H3. simpl. by rewrite !Hf.
Qed.

Lemma trim_prefix_app p s : trim_prefix p (p +:+ s) = s.
Proof.
  unfold trim_prefix. assert (Hp : has_prefix p (p +:+ s) = true).
  { induction p as [|a p IH]; [by destruct s|]. simpl. by rewrite bool_decide_eq_true_2. }
  rewrite Hp. clear Hp. induction p as [|a p IH]; [by destruct s|]. done.
Qed.

Lemma plain_name_parts e : plain_name e = true → free_of "/" e = true ∧ e ≠ "" ∧ e ≠ "." ∧ e ≠ "..".
Proof. unfold plain_name. intros H. bool_props. done. Qed.

Lemma trim_right_free c s : free_of c s = true → trim_right_char c s = s.
Proof.
  induction s as [|a s IH]; [done|]. cbn [free_of trim_right_char].
  intros [Ha Hs]%andb_prop. rewrite IH by done. destruct s; [|done].
  apply negb_true_iff in Ha. by rewrite Ha.
Qed.

Lemma trim_right_app c x e : free_of c e = true → e ≠ "" → trim_right_char c (x +:+ e) = x +:+ e.
Proof.
  intros He Hne. induction x as [|a x IH]; [by apply trim_right_free|].
  change (String a x +:+ e) with (String a (x +:+ e)). cbn [trim_right_char]. rewrite IH.
  by destruct x, e.
Qed.

Lemma trim_left_app c e x : free_of c e = true → e ≠ "" → trim_left_char c (e +:+ x) = e +:+ x.
Proof.
  destruct e as [|a e]; [done|]. change (String a e +:+ x) with (String a (e +:+ x)).
  cbn [free_of trim_left_char]. intros [Ha _]%andb_prop _. apply negb_true_iff in Ha. by rewrite Ha.
Qed.

Lemma has_suffix_free c e : free_of c e = true → has_suffix (String c "") e = false.
Proof.
  induction e as [|a e IH]; [done|]. cbn [free_of has_suffix]. intros [Ha He]%andb_prop.
  rewrite IH by done. rewrite bool_decide_eq_false_2; [done|]. intros [= -> _].
  by rewrite bool_decide_eq_true_2 in Ha.
Qed.

Lemma has_suffix_app c x e : free_of c e = true → e ≠ "" → has_suffix (String c "") (x +:+ e) = false.
Proof.
  intros He Hne. induction x as [|a x IH]; [by apply has_suffix_free|].
  change (String a x +:+ e) with (String a (x +:+ e)). cbn [has_suffix]. rewrite IH.
  rewrite bool_decide_eq_false_2; [done|]. intros [= _ H]. destruct x; [|done]. by destruct e.
Qed.

(** The path of an action of an instance. *)
Definition action_path (id action : string) : string :=
  "/api/instances/" +:+ (id +:+ String "/" action).

Lemma split_action_path id action :
  free_of "/" id = true → free_of "/" action = true →
  split_char "/" (action_path id action) = [""; "api"; "instances"; id; action].
Proof.
  intros Hi Ha. unfold action_path.
  change ("/api/instances/" +:+ (id +:+ String "/" action))
    with ("/api/instances" +:+ String "/" (id +:+ String "/" action)).
  change ("/api/instances" +:+ String "/" (id +:+ String "/" action))
    with ("/api/instances" +:+ (String "/" id +:+ String "/" action)).
  rewrite string_app_assoc, !split_char_app by done. done.
Qed.

Lemma action_path_clean id action :
  plain_name id = true → plain_name action = true →
  cleanPath (action_path id action) = action_path id action.
Proof.
  intros (Hi1 & Hi2 & Hi3 & Hi4)%plain_name_parts (Ha1 & Ha2 & Ha3 & Ha4)%plain_name_parts.
  unfold cleanPath. rewrite bool_decide_eq_false_2 by done.
  assert (Hp : has_prefix "/" (action_path id action) = true) by done. rewrite Hp.
  assert (Hs : has_suffix "/" (action_path id action) = false).
  { unfold action_path. change (id +:+ String "/" action) with (id +:+ ("/" +:+ action)).
    rewrite !string_app_assoc. by apply has_suffix_app. }
  rewrite Hs. cbn [andb]. unfold Clean. rewrite Hp, split_action_path by done.
  assert (Hpush : ∀ st e, e ≠ "" → e ≠ "." → e ≠ ".." → clean_push true st e = e :: st).
  { intros st e H1 H2 H3. unfold clean_push. by rewrite !bool_decide_eq_false_2. }
  cbn [foldl]. change (clean_push true [] "") with (@nil string). rewrite !Hpush by done. done.
Qed.

Lemma route_action (env : panel_environment) id action :
  plain_name id = true → plain_name action = true →
  route (supervisor_routes env) (action_path id action) = Handled_by (handleInstanceAction env).
Proof.
  intros Hi Ha. unfold route. rewrite action_path_clean by done.
  apply plain_name_parts in Hi as (Hi & _), Ha as (Ha & Hane & _).
  set (patterns := (supervisor_routes env).*1).
  assert (Hsplit := split_action_path id action Hi Ha).
  assert (Hnot : action_path id action ∉ patterns).
  { intros Hin. unfold patterns in Hin. cbn in Hin.
    repeat (apply elem_of_cons in Hin as [Hin|Hin]; [rewrite Hin in Hsplit; by vm_compute in Hsplit|]).
    by apply elem_of_nil in Hin. }
  assert (Hnot2 : action_path id action +:+ "/" ∉ patterns).
  { intros Hin. assert (Hs2 : split_char "/" (action_path id action +:+ "/") = [""; "api"; "instances"; id; action; ""]).
    { rewrite split_char_app by done. by rewrite Hsplit. }
    unfold patterns in Hin. cbn in Hin.
    repeat (apply elem_of_cons in Hin as [Hin|Hin]; [rewrite Hin in Hs2; by vm_compute in Hs2|]).
    by apply elem_of_nil in Hin. }
  rewrite (bool_decide_eq_false_2 (_ +:+ _ ∈ _)) by done. rewrite andb_false_r.
  rewrite bool_decide_eq_true_2 by done. cbn [negb].
  unfold match_pattern. rewrite bool_decide_eq_false_2 by done.
  assert (Hl : longest (filter (λ q, subtree_of (action_path id action) q = true) patterns) = Some "/api/instances/")
    by (vm_compute; reflexivity).
  rewrite Hl. reflexivity.
Qed.

Lemma action_parts_path id action :
  plain_name id = true → plain_name action = true → action_parts (action_path id action) = Some (id, action).
Proof.
  intros (Hi & Hi2 & _)%plain_name_parts (Ha & Ha2 & _)%plain_name_parts.
  unfold action_parts, action_path. rewrite trim_prefix_app. unfold trim_char.
  rewrite trim_left_app by done. change (id +:+ String "/" action) with (id +:+ ("/" +:+ action)).
  rewrite string_app_assoc, trim_right_app by done. rewrite <-string_app_assoc.
  change ("/" +:+ action) with (String "/" action).
  rewrite split_char_app, split_char_free by done. cbn [app].
  by rewrite !bool_decide_eq_false_2.
Qed.

(** A handler that leaves everything but the export file alone. *)
Definition only_exports (s s' : supervisorServer) : Prop :=
  s' = s ∨ ∃ runID, s' = set_su_Files (<[export_path runID s := OtherFile]> s.(su_Files)) s.

Lemma handlers_safe env path h r s :
  (path, h) ∈ supervisor_routes env → r.(pq_Method) ≠ "POST" → only_exports s (h r s).1.
Proof.
  intros Hin Hm. unfold supervisor_routes in Hin.
  assert (Hpost : ∀ g : handler, (only "POST" g r s).1 = s)
    by (intros g; unfold only; by rewrite bool_decide_eq_false_2).
  repeat (apply elem_of_cons in Hin as [[= -> ->]|Hin]); [..|by apply elem_of_nil in Hin].
  all: try (left; reflexivity); try (left; apply Hpost).
  - left. unfold handleInstances, only. by destruct (bool_decide (r.(pq_Method) = "GET")).
  - left. unfold handleInstanceSettings. destruct (bool_decide (_ = "")); [done|].
    destruct (bool_decide (_ = "GET")); [by destruct (getInstanceSettings _ _)|].
    by rewrite bool_decide_eq_false_2.
  - unfold handleFleetExport, only. destruct (bool_decide (_ = "GET")); [|by left].
    destruct (pe_denied env (export_dir s)); [by left|].
    destruct (pe_denied env (export_path _ s)); [by left|]. right. by eexists.
Qed.

(** ** Theorems *)

(** Requests other than POST change nothing in the supervisor: neither its
    children nor their settings nor the fleet; the most they do is to write an
    export. *)
Theorem serve_get_is_safe env r s :
  r.(pq_Method) ≠ "POST" → only_exports s (serve env r s).1.
Proof.
  intros Hm. unfold serve. case_bool_decide; [by left|].
  destruct (route _ _) as [h|p|] eqn:Hr; [|by left..].
  apply route_in in Hr as [q Hq]. by eapply handlers_safe.
Qed.

(** A POST to /api/instances/<id>/<action> reaches the action of that instance,
    for every identifier and action that are ordinary names: starting and
    stopping report whether anything changed, restarting stops first, errors of
    the launch are reported as 500, and other actions are refused. *)
Theorem serve_action env id action r s :
  plain_name id = true → plain_name action = true →
  r.(pq_Method) = "POST" → r.(pq_Path) = action_path id action →
  match act env id action s with
  | None => serve env r s = (s, text ("unsupported action " +:+ quote action) 400)
  | Some (s', Err e) => serve env r s = (s', text e 500)
  | Some (s', Ok changed) => (serve env r s).1 = s' ∧ (serve env r s).2.(pl_Status) = 200%Z
  end.
Proof.
  intros Hi Ha Hm Hp. unfold serve. rewrite Hm, Hp, route_action by done.
  rewrite bool_decide_eq_false_2 by done. unfold handleInstanceAction, only.
  rewrite Hm, bool_decide_eq_true_2, Hp by done. rewrite action_parts_path by done.
  destruct (act env id action s) as [[s' [changed|e]]|]; done.
Qed.

(** The control address that settings and generation write is the one the
    supervisor asks, on this machine when the process listens everywhere. *)
Lemma control_url host port fallback :
  free_of ":" host = true → free_of "[" host = true → free_of "]" host = true →
  controlURLForConfig (host_port host port) fallback
  = "http://" +:+ (if bool_decide (host ∈ [""; "0.0.0.0"; "::"; "[::]"]) then "127.0.0.1" else host)
    +:+ ":" +:+ itoa port.
Proof.
  intros H1 H2 H3. unfold controlURLForConfig. rewrite SplitHostPort_host_port by done.
  rewrite bool_decide_eq_false_2; [done|]. apply itoa_ne.
Qed.

(** ** Witnesses *)

(** A machine on which every write succeeds and no child answers. *)
Definition example_panel : panel_environment :=
  mkPanelEnv example_children (λ _, false) id
    (mkCertEnv (λ _ _, Err "no such file") (λ _, Err "asn1") (λ _, Err "no such file") (λ _, false))
    (λ _, Err "connection refused") 0 "20260524T000000Z".

Definition api_request (method path : string) : panel_request := mkPanelRequest method path "" None "EOF".

Lemma serve_get_is_safe_witness :
  let s := example_supervisor three_instances in
  only_exports s (serve example_panel (api_request "GET" "/api/export/fleet") s).1.
Proof. intros s. by apply serve_get_is_safe. Defined.

Lemma serve_action_witness :
  let s := example_supervisor three_instances in
  let r := api_request "POST" "/api/instances/egm-2/start" in
  (serve example_panel r s).1 = (startOne example_children "egm-2" s).1 ∧
  (serve example_panel r s).2.(pl_Status) = 200%Z.
Proof.
  intros s r.
  pose proof (serve_action example_panel "egm-2" "start" r s eq_refl eq_refl eq_refl eq_refl) as H.
  assert (Ha : act example_panel "egm-2" "start" s
    = Some ((startOne example_children "egm-2" s).1, Ok true)) by (vm_compute; reflexivity).
  rewrite Ha in H. exact H.
Defined.
