(* ===== verification/SupervisorRuns.v ===== *)
(** * Runs of the supervisor (src/cmd/vegm-supervisor)

    The supervisor serves requests concurrently, its goroutines watch children,
    and children end when they like. What happens between two operations on the
    mutex is one step; a run is any sequence of steps. Requests are sequences of
    steps, so what holds of all runs holds however requests interleave. *)

From S2P Require Import Prelude GoStrings Url Json Validate Config FleetTypes Fleet Generate Supervisor FleetEdit Settings Certificate Mux Panel.

(** ** Steps *)

Inductive event :=
  | EvStart (id : string)
  | EvStop (id : string)
  | EvTurn (i : nat)
  | EvExit (h : nat) (st : exit_status)
  | EvAdd (inst : FleetInstance)
  | EvRemove (id : string)
  | EvSettings (id : string) (i : instanceSettings)
  | EvExport (runID : string)
  | EvShutdown.

Section runs.
Context (env : panel_environment).

(** [startOne], [stopOne], a turn of a [monitorChild], a child that ends,
    [addFleetInstance], [removeFleetInstance] after its [stopOne],
    [updateInstanceSettings], the file of an export and [shutdown]. *)
Inductive step : supervisorServer → event → supervisorServer → Prop :=
  | step_start s id : step s (EvStart id) (startOne env.(pe_children) id s).1
  | step_stop s id : step s (EvStop id) (stopOne id s).1
  | step_turn s i : step s (EvTurn i) (monitor_turn env.(pe_children) i s)
  | step_exit s h st : step s (EvExit h st) (process_exits h st s)
  | step_add s inst :
      step s (EvAdd inst) (addFleetInstance env.(pe_denied) env.(pe_os_error) inst s).1
  | step_remove s id :
      step s (EvRemove id) (remove_locked env.(pe_denied) env.(pe_os_error) id s).1
  | step_settings s id i :
      step s (EvSettings id i) (updateInstanceSettings env.(pe_denied) env.(pe_os_error) id i s).1
  | step_export s runID :
      step s (EvExport runID) (set_su_Files (<[export_path runID s := OtherFile]> s.(su_Files)) s)
  | step_shutdown s : step s EvShutdown (shutdown s).

(** A start that is accepted. *)
Definition accepted (s : supervisorServer) (e : event) : nat :=
  match e with
  | EvStart id => match (startOne env.(pe_children) id s).2 with Ok true => 1 | _ => 0 end
  | _ => 0
  end.

(** Runs, with the number of accepted starts; the steps meet a condition on the
    state they start in. *)
Inductive run (P : supervisorServer → event → Prop) : supervisorServer → nat → supervisorServer → Prop :=
  | run_here s : run P s 0 s
  | run_step s n s1 e s2 : run P s n s1 → P s1 e → step s1 e s2 → run P s (n + accepted s1 e) s2.

Definition any (s : supervisorServer) (e : event) : Prop := True.

(** A removal whose instance has no child: [stopOne] has just stopped it and no
    request has started it since. *)
Definition orderly (s : supervisorServer) (e : event) : Prop :=
  match e with EvRemove id => s.(su_Cmds) !! id = None | _ => True end.

(** ** Preservation *)

Lemma supervised_files g fs s : supervised s → supervised (set_su_Generated g (set_su_Files fs s)).
Proof. intros []. by split. Qed.

Lemma commit_fleet_shape d o m s :
  ∃ g fs, (commit_fleet d o m s).1 = set_su_Generated g (set_su_Files fs s).
Proof.
  pose proof (commit_fleet_spec d o m s) as H. destruct (commit_fleet d o m s) as [s' [u|e]].
  - destruct H as (effs & fs & _ & ->). by eexists _, _.
  - destruct H as (fs & -> & _). exists s.(su_Generated), fs. done.
Qed.

Lemma add_shape d o inst s :
  ∃ g fs, (addFleetInstance d o inst s).1 = set_su_Generated g (set_su_Files fs s).
Proof.
  assert (Hs : s = set_su_Generated s.(su_Generated) (set_su_Files s.(su_Files) s)) by by destruct s.
  unfold addFleetInstance. destruct (LoadManifest _ _) as [m|e]; [|by eexists _, _].
  destruct (conflict _ _); [by eexists _, _|]. destruct (_ !! _); [apply commit_fleet_shape|by eexists _, _].
Qed.

(** A removal forgets the instance, or changes files only. *)
Lemma remove_shape d o id s :
  ∃ g fs, let s' := set_su_Generated g (set_su_Files fs s) in
    (remove_locked d o id s).1 = s' ∨
    (remove_locked d o id s).1 = set_su_Restart (delete id s'.(su_Restart)) (forget_cmd id s').
Proof.
  assert (Hs : s = set_su_Generated s.(su_Generated) (set_su_Files s.(su_Files) s)) by by destruct s.
  unfold remove_locked. destruct (LoadManifest _ _) as [m|e]; [|by eexists _, _; left].
  destruct (negb _); [by eexists _, _; left|]. set (m' := set_instances _ m).
  destruct (commit_fleet_shape d o m' s) as (g & fs & Hc). exists g, fs.
  destruct (commit_fleet d o m' s) as [s' [u|e]]; cbn [fst] in *; subst s'; [by right|by left].
Qed.

Lemma settings_shape d o id i s :
  ∃ g fs, (updateInstanceSettings d o id i s).1 = set_su_Generated g (set_su_Files fs s).
Proof.
  assert (Hs : s = set_su_Generated s.(su_Generated) (set_su_Files s.(su_Files) s)) by by destruct s.
  unfold updateInstanceSettings. destruct (find_instance _ _) as [[k gen]|]; [|by eexists _, _].
  destruct (d _); cbn [fst]; [by eexists _, s.(su_Files)|by eexists _, _].
Qed.

(** An instance that is forgotten altogether. *)
Lemma supervised_removed id s :
  supervised s → supervised (set_su_Restart (delete id s.(su_Restart)) (forget_cmd id s)).
Proof.
  intros Hs. pose proof (supervised_forget id s Hs) as [H1 H2 H3 H4 H5 H6 H7].
  assert (Hm : ∀ id', id' ≠ id → restart_meta (set_su_Restart (delete id s.(su_Restart)) (forget_cmd id s)) id'
    = restart_meta s id').
  { intros id' Hne. unfold restart_meta. cbn. by rewrite lookup_delete_ne. }
  split; try done.
  - intros id' h Hh. destruct (decide (id' = id)) as [->|Hne].
    + change ((forget_cmd id s).(su_Cmds) !! id = Some h) in Hh. by rewrite forget_cmds in Hh.
    + rewrite Hm by done. by apply (H2 id' h).
  - intros id'. destruct (decide (id' = id)) as [->|Hne]; [|rewrite Hm by done; apply (H5 id')].
    unfold restart_meta. cbn. by rewrite lookup_delete_eq.
Qed.

Lemma step_supervised s e s' : supervised s → step s e s' → supervised s'.
Proof.
  intros Hs Hst. destruct Hst as [s id|s id|s i|s h st|s inst|s id|s id i|s runID|s].
  - by apply supervised_start.
  - by apply supervised_stop.
  - by apply supervised_monitor.
  - by apply supervised_exits.
  - destruct (add_shape env.(pe_denied) env.(pe_os_error) inst s) as (g & fs & ->). by apply supervised_files.
  - destruct (remove_shape env.(pe_denied) env.(pe_os_error) id s) as (g & fs & [->| ->]);
      [by apply supervised_files|by apply supervised_removed, supervised_files].
  - destruct (settings_shape env.(pe_denied) env.(pe_os_error) id i s) as (g & fs & ->).
    by apply supervised_files.
  - by apply (supervised_files s.(su_Generated)).
  - by apply supervised_shutdown.
Qed.

Lemma step_no_orphans s e s' :
  supervised s → no_orphans s → orderly s e → step s e s' → no_orphans s'.
Proof.
  intros Hs Ho Hq Hst. destruct Hst as [s id|s id|s i|s h st|s inst|s id|s id i|s runID|s].
  - by apply no_orphans_start.
  - by apply no_orphans_stop.
  - by apply no_orphans_monitor.
  - by apply no_orphans_exits.
  - by destruct (add_shape env.(pe_denied) env.(pe_os_error) inst s) as (g & fs & ->).
  - destruct (remove_shape env.(pe_denied) env.(pe_os_error) id s) as (g & fs & [->| ->]); [done|].
    apply (no_orphans_forget id s Ho). cbn in Hq. intros h. by rewrite Hq.
  - by destruct (settings_shape env.(pe_denied) env.(pe_os_error) id i s) as (g & fs & ->).
  - done.
  - by apply no_orphans_shutdown.
Qed.

Lemma step_spent s e s' : supervised s → step s e s' → spent s' ≤ spent s + 4 * accepted s e.
Proof.
  intros Hs Hst. destruct Hst as [s id|s id|s i|s h st|s inst|s id|s id i|s runID|s];
    cbn [accepted]; rewrite ?Nat.mul_0_r, ?Nat.add_0_r.
  - pose proof (spent_start env.(pe_children) id s Hs) as H. cbn in H. etransitivity; [exact H|].
    by destruct (startOne env.(pe_children) id s).2 as [[]|].
  - apply spent_stop.
  - by apply spent_monitor.
  - by rewrite spent_exits.
  - by destruct (add_shape env.(pe_denied) env.(pe_os_error) inst s) as (g & fs & ->).
  - destruct (remove_shape env.(pe_denied) env.(pe_os_error) id s) as (g & fs & [->| ->]); [done|].
    set (s1 := set_su_Generated g (set_su_Files fs s)).
    change (spent (forget_cmd id (set_su_Restart (delete id s1.(su_Restart)) s1)) ≤ spent s).
    apply spent_forget; [done|done|]. intros id' Hne. unfold restart_meta. cbn. by rewrite lookup_delete_ne.
  - by destruct (settings_shape env.(pe_denied) env.(pe_os_error) id i s) as (g & fs & ->).
  - done.
  - apply spent_shutdown.
Qed.
End runs.

Lemma initial_supervised path dir gens fs : supervised (newSupervisorServer path dir gens fs).
Proof.
  split; cbn; try done.
  all: try (intros *; rewrite lookup_empty; done).
Qed.

Lemma run_supervised env P s n s' : supervised s → run env P s n s' → supervised s'.
Proof. intros Hs. induction 1 as [|s n s1 e s2 _ IH _ Hst]; [done|].
  eapply step_supervised; [by apply IH|exact Hst]. Qed.

Lemma run_spent env P s n s' : supervised s → run env P s n s' → spent s' ≤ spent s + 4 * n.
Proof.
  intros Hs H. induction H as [|s n s1 e s2 Hr IH _ Hst]; [lia|].
  pose proof (run_supervised _ _ _ _ _ Hs Hr) as H1. pose proof (step_spent _ _ _ _ H1 Hst).
  specialize (IH Hs). lia.
Qed.

Lemma run_no_orphans env s n s' :
  supervised s → no_orphans s → run env orderly s n s' → no_orphans s'.
Proof.
  intros Hs Ho H. induction H as [|s n s1 e s2 Hr IH Hq Hst]; [done|].
  eapply step_no_orphans; [by eapply run_supervised|by apply IH|done|done].
Qed.

(** The context stays cancelled, and no removal then finds a child. *)
Lemma step_cancelled env s e s' : step env s e s' → s.(su_Cancelled) = true → s'.(su_Cancelled) = true.
Proof.
  intros Hst Hc. destruct Hst as [s id|s id|s i|s h st|s inst|s id|s id i|s runID|s].
  - by rewrite start_cancelled.
  - by rewrite stop_cancelled.
  - by rewrite monitor_cancelled.
  - by rewrite exits_cancelled.
  - by destruct (add_shape env.(pe_denied) env.(pe_os_error) inst s) as (g & fs & ->).
  - by destruct (remove_shape env.(pe_denied) env.(pe_os_error) id s) as (g & fs & [->| ->]).
  - by destruct (settings_shape env.(pe_denied) env.(pe_os_error) id i s) as (g & fs & ->).
  - done.
  - apply shutdown_cancels.
Qed.

Lemma run_cancelled env s n s' :
  supervised s → s.(su_Cancelled) = true → no_orphans s → run env any s n s' →
  supervised s' ∧ s'.(su_Cancelled) = true ∧ no_orphans s'.
Proof.
  intros Hs Hc Ho. induction 1 as [|s n s1 e s2 _ IH _ Hst]; [done|].
  destruct (IH Hs Hc Ho) as (Hs1 & Hc1 & Ho1). split_and!.
  - by eapply step_supervised.
  - by eapply step_cancelled.
  - eapply step_no_orphans; [done|done| |done]. unfold orderly. destruct e; try done.
    by rewrite (sup_cancelled _ Hs1 Hc1).
Qed.

Lemma run_trans env P s1 n1 s2 n2 s3 :
  run env P s1 n1 s2 → run env P s2 n2 s3 → run env P s1 (n1 + n2) s3.
Proof.
  intros H1 H2. induction H2 as [|s2 n2 s e s' _ IH HP Hst]; [by rewrite Nat.add_0_r|].
  rewrite Nat.add_assoc. apply (run_step env P _ _ s e s'); auto.
Qed.

Lemma run_once env s e s' : step env s e s' → run env any s (accepted env s e) s'.
Proof. intros H. apply (run_step env any s 0 s e s'); [constructor|done|done]. Qed.

(** Some run, however many starts it accepts. *)
Definition reaches (env : panel_environment) (s s' : supervisorServer) : Prop :=
  ∃ n, run env any s n s'.

#[export] Instance reaches_preorder env : PreOrder (reaches env).
Proof.
  split; [intros s; exists 0; constructor|]. intros s1 s2 s3 [n1 H1] [n2 H2].
  exists (n1 + n2). by eapply run_trans.
Qed.

Lemma reaches_step env s e s' : step env s e s' → reaches env s s'.
Proof. intros H. eexists. by apply run_once. Qed.

Lemma reaches_start_all env gens s : reaches env s (start_all env gens s).1.
Proof.
  revert s. induction gens as [|gen gens IH]; intros s; cbn [start_all]; [done|].
  set (id := ef_InstanceID _). pose proof (reaches_step env s _ _ (step_start env s id)) as H1.
  destruct (startOne (pe_children env) id s) as [s1 [changed|e]]; [|done]. cbn [fst] in *.
  specialize (IH s1). destruct (start_all env gens s1) as [s2 r]. by transitivity s1.
Qed.

Lemma reaches_stop_all env gens s : reaches env s (stop_all gens s).1.
Proof.
  revert s. induction gens as [|gen gens IH]; intros s; cbn [stop_all]; [done|].
  set (id := ef_InstanceID _). pose proof (reaches_step env s _ _ (step_stop env s id)) as H1.
  destruct (stopOne id s) as [s1 changed]. cbn [fst] in *.
  specialize (IH s1). destruct (stop_all gens s1) as [s2 r]. by transitivity s1.
Qed.

Lemma reaches_act env id action s r : act env id action s = Some r → reaches env s r.1.
Proof.
  unfold act. pose proof (reaches_step env s _ _ (step_stop env s id)) as Hstop.
  case_bool_decide; [intros [= <-]; eapply reaches_step, step_start|].
  case_bool_decide.
  - destruct (stopOne id s) as [s1 changed]. by intros [= <-].
  - case_bool_decide; [|done]. intros [= <-]. transitivity (stopOne id s).1; [done|].
    eapply reaches_step, step_start.
Qed.

Lemma reaches_remove env id s : reaches env s (remove_request env id s).1.
Proof.
  unfold remove_request. destruct (bool_decide _); [done|]. unfold removeFleetInstance.
  set (i := TrimSpace id). transitivity (stopOne i s).1; [eapply reaches_step, step_stop|].
  pose proof (reaches_step env _ _ _ (step_remove env (stopOne i s).1 i)) as H.
  by destruct (remove_locked _ _ i _) as [s' [u|e]].
Qed.

Lemma reaches_add env r s : reaches env s (handleFleetInstancesAdd env r s).1.
Proof.
  unfold handleFleetInstancesAdd, only. destruct (bool_decide _); [|done].
  destruct (decode_panel r) as [req|]; [|done]. destruct (ai_Remove req); [apply reaches_remove|].
  destruct (_ || _); [done|].
  pose proof (reaches_step env _ _ _ (step_add env s (requested_instance req))) as H.
  by destruct (addFleetInstance _ _ _ s) as [s' [u|e]].
Qed.

Lemma reaches_settings env r s : reaches env s (handleInstanceSettings env r s).1.
Proof.
  unfold handleInstanceSettings. set (id := trim_char _ _). destruct (bool_decide _); [done|].
  destruct (bool_decide _); [by destruct (getInstanceSettings id s)|].
  destruct (bool_decide _); [|done]. destruct (decode_panel r) as [req|]; [|done].
  pose proof (reaches_step env _ _ _ (step_settings env s id req)) as H.
  by destruct (updateInstanceSettings _ _ id req s) as [s' [u|e]].
Qed.

Lemma handlers_reach env path h r s :
  (path, h) ∈ supervisor_routes env → reaches env s (h r s).1.
Proof.
  intros Hin. unfold supervisor_routes in Hin.
  repeat (apply elem_of_cons in Hin as [[= -> ->]|Hin]); [..|by apply elem_of_nil in Hin].
  - done.
  - done.
  - done.
  - unfold handleInstances, only. by destruct (bool_decide _).
  - unfold handleStartAll, only. destruct (bool_decide _); [|done].
    pose proof (reaches_start_all env s.(su_Generated) s) as H.
    by destruct (start_all env _ s) as [s' [l|e]].
  - unfold handleStopAll, only. destruct (bool_decide _); [|done].
    pose proof (reaches_stop_all env s.(su_Generated) s) as H. by destruct (stop_all _ s) as [s' l].
  - unfold handleInstanceAction, only. destruct (bool_decide _); [|done].
    destruct (action_parts _) as [[id action]|]; [|done].
    pose proof (reaches_act env id action s) as H. destruct (act env id action s) as [[s' [c|e]]|]; [..|done];
      by specialize (H _ eq_refl).
  - apply reaches_settings.
  - apply reaches_add.
  - unfold handleFleetExport, only. destruct (bool_decide _); [|done].
    destruct (pe_denied env _); [done|]. destruct (pe_denied env _); [done|]. eapply reaches_step, step_export.
Qed.

(** ** Theorems *)

(** C13. In every run of the supervisor, however requests, goroutines and exits
    interleave: a command is a process nobody killed, it is wanted and some
    goroutine watches it, no process serves two instances, restart counts stay
    within the budget, the open log files are those of the processes that have
    not been waited for. *)
Theorem supervisor_invariant env path dir gens fs n s :
  run env any (newSupervisorServer path dir gens fs) n s → supervised s.
Proof. apply run_supervised, initial_supervised. Qed.

(** C25. The restart policy is bounded: over any run the processes launched are at
    most four for each start that was accepted, whatever the children do. *)
Theorem launches_bounded env path dir gens fs n s :
  run env any (newSupervisorServer path dir gens fs) n s → length s.(su_Processes) ≤ 4 * n.
Proof.
  intros H. pose proof (run_spent _ _ _ _ _ (initial_supervised path dir gens fs) H) as Hb.
  unfold spent, budget in Hb. cbn [newSupervisorServer su_Processes su_Cmds] in Hb.
  rewrite map_to_list_empty in Hb. cbn in Hb. lia.
Qed.

(** C19. No child is lost: in runs whose removals find no child of the removed
    instance, every process that still runs and was not killed is the command of
    an instance, so that it can be stopped; and [shutdown], whenever it happens
    in such a run, kills them all for good: whatever follows, no process runs
    that was not killed. *)
Theorem no_child_lost env path dir gens fs n s :
  run env orderly (newSupervisorServer path dir gens fs) n s →
  no_orphans s ∧ ∀ s', reaches env (shutdown s) s' → ∀ h, ¬ live s' h.
Proof.
  intros H. pose proof (initial_supervised path dir gens fs) as Hi.
  assert (Ho : no_orphans s) by by eapply run_no_orphans. split; [done|].
  pose proof (run_supervised _ _ _ _ _ Hi H) as Hs. intros s' [m Hm] h Hl.
  pose proof (supervised_shutdown s Hs) as Hs1. pose proof (shutdown_cancels s) as Hc1.
  destruct (run_cancelled _ _ _ _ Hs1 Hc1 (no_orphans_shutdown s Ho) Hm) as (Hs2 & Hc2 & Ho2).
  destruct (proj1 (no_orphans_live s') Ho2 h Hl) as [id Hid]. by rewrite (sup_cancelled _ Hs2 Hc2) in Hid.
Qed.

(** A request is a sequence of steps: serving it one after the other is one of
    the runs. *)
Theorem serve_is_run env r s : reaches env s (serve env r s).1.
Proof.
  unfold serve. destruct (bool_decide _); [done|].
  destruct (route _ _) as [h|p|] eqn:Hr; [|done..].
  apply route_in in Hr as [q Hq]. by eapply handlers_reach.
Qed.

(** ** Examples and witnesses *)

(** A start between the two halves of a removal: the child that it launches is
    forgotten while it runs. *)
Definition race : supervisorServer :=
  let s := example_supervisor three_instances in
  let s := (stopOne "egm-1" s).1 in
  let s := (startOne example_children "egm-1" s).1 in
  (remove_locked (λ _, false) id "egm-1" s).1.

Lemma race_loses_child :
  reaches example_panel (example_supervisor three_instances) race ∧ live race 0 ∧ race.(su_Cmds) = ∅.
Proof.
  split; [|split].
  - unfold race. do 3 (eapply transitivity; [|eapply reaches_step; constructor]). done.
  - eexists. by vm_compute.
  - by vm_compute.
Qed.

(** A run in which the first instance is started, its child exits and is launched
    again. *)
Definition example_run_end : supervisorServer :=
  let s := (startOne example_children "egm-1" (example_supervisor three_instances)).1 in
  monitor_turn example_children 0 (process_exits 0 (Exited_with 1) s).

Lemma example_run :
  run example_panel orderly (example_supervisor three_instances) 1 example_run_end.
Proof.
  set (s0 := example_supervisor three_instances).
  assert (Ha : accepted example_panel s0 (EvStart "egm-1") = 1) by (vm_compute; reflexivity).
  change 1 with (0 + 1 + 0 + 0). rewrite <-Ha.
  eapply (run_step _ _ _ _ _ (EvTurn 0)); [|done|constructor].
  eapply (run_step _ _ _ _ _ (EvExit 0 (Exited_with 1))); [|done|constructor].
  eapply (run_step _ _ _ _ _ (EvStart "egm-1")); [constructor|done|constructor].
Qed.

Lemma run_any env s n s' : run env orderly s n s' → run env any s n s'.
Proof. induction 1; [constructor|]. by eapply run_step. Qed.

Lemma example_supervisor_new :
  let s := example_supervisor three_instances in
  s = newSupervisorServer "fleet.json" "generated" s.(su_Generated) s.(su_Files).
Proof. vm_compute. reflexivity. Qed.

Lemma supervisor_invariant_witness : supervised example_run_end.
Proof.
  apply (supervisor_invariant example_panel "fleet.json" "generated"
    (example_supervisor three_instances).(su_Generated) (example_supervisor three_instances).(su_Files) 1).
  rewrite <-example_supervisor_new. apply run_any, example_run.
Defined.

Lemma launches_bounded_witness : length example_run_end.(su_Processes) ≤ 4 * 1.
Proof.
  apply (launches_bounded example_panel "fleet.json" "generated"
    (example_supervisor three_instances).(su_Generated) (example_supervisor three_instances).(su_Files) 1).
  rewrite <-example_supervisor_new. apply run_any, example_run.
Defined.

Lemma no_child_lost_witness :
  no_orphans example_run_end ∧ live example_run_end 1 ∧
  ∀ s', reaches example_panel (shutdown example_run_end) s' → ∀ h, ¬ live s' h.
Proof.
  assert (H : no_orphans example_run_end ∧
    ∀ s', reaches example_panel (shutdown example_run_end) s' → ∀ h, ¬ live s' h).
  { apply (no_child_lost example_panel "fleet.json" "generated"
      (example_supervisor three_instances).(su_Generated) (example_supervisor three_instances).(su_Files) 1).
    rewrite <-example_supervisor_new. apply example_run. }
  split; [apply H|]. split; [|apply H]. eexists. by vm_compute.
Defined.
