(* ===== verification/SupervisorMain.v ===== *)
(** * The supervisor's command (src/cmd/vegm-supervisor/main.go, launch.go)

    What the command line leads to: the configurations that are written, the
    report, and the server. [launch.go] also holds an earlier launcher, which
    nothing calls any more: it starts a fleet and waits until it is healthy. *)

From S2P Require Import Prelude GoStrings Url Json Validate Config FleetTypes Fleet Generate Supervisor.

(** ** main.go *)

Record flags := mkFlags {
  fl_manifest : string;
  fl_output : string;
  fl_generate_dir : string;
  fl_generate : bool;
  fl_serve : bool;
  fl_bind : string;
}.

Definition default_flags : flags :=
  mkFlags "./example.fleet.json" "summary" "./generated" true false "127.0.0.1:18081".

(** What is printed: lines, or the JSON value with two-space indents. *)
Inductive report :=
  | Summary_lines (lines : list string)
  | Json_report (fleet_name : string) (instances : list EffectiveInstance).

Definition instance_lines (inst : EffectiveInstance) : list string :=
  let at_ (port : Z) := inst.(ef_ListenHost) +:+ ":" +:+ itoa port in
  ["- " +:+ inst.(ef_InstanceID) +:+ " (" +:+ inst.(ef_EGMID) +:+ ")";
   "  group=" +:+ inst.(ef_Group) +:+ " profile=" +:+ inst.(ef_Profile)
     +:+ " manufacturer=" +:+ inst.(ef_Manufacturer);
   "  wire=" +:+ at_ inst.(ef_WirePort) +:+ " control=" +:+ at_ inst.(ef_ControlPort);
   "  trust=" +:+ inst.(ef_TrustMode) +:+ " pack=" +:+ inst.(ef_PackFile);
   "  log_dir=" +:+ inst.(ef_LogDir)] ++
  (if bool_decide (inst.(ef_StorageBackend) = "sqlite") then ["  sqlite=" +:+ inst.(ef_SQLitePath)] else []) ++
  ["  ui=http://" +:+ at_ inst.(ef_ControlPort) +:+ "/ui/scenario-runner.html"; ""].

Definition summary (fl : flags) (m : Manifest) (effective : list EffectiveInstance)
    (generated : list GeneratedConfig) : list string :=
  ["Fleet: " +:+ m.(mf_FleetName)] ++
  (if bool_decide (m.(mf_Description) = "") then [] else ["Description: " +:+ m.(mf_Description)]) ++
  ["Instances: " +:+ itoa (Z.of_nat (length effective))] ++
  (if bool_decide (generated = []) then [] else ["Generated configs: " +:+ fl.(fl_generate_dir)]) ++
  (if fl.(fl_serve) then ["Supervisor UI: http://" +:+ fl.(fl_bind) +:+ "/ui/supervisor.html"] else []) ++
  [""] ++ concat (map instance_lines effective).

(** How the command ends: it returns, [log.Fatal] ends it, or it serves. *)
Inductive ending :=
  | Returned
  | Fatal (message : string)
  | Serving (server : supervisorServer).

Section command.
Context (denied : string → bool) (listen : string → option string).

Definition serveSupervisor (bind : string) (server : supervisorServer) : ending :=
  match listen bind with Some e => Fatal e | None => Serving server end.

(** The report, and then the server if there is to be one. *)
Definition report_and_serve (fl : flags) (m : Manifest) (effective : list EffectiveInstance)
    (generated : list GeneratedConfig) (fs : gmap string file) : gmap string file * option report * ending :=
  let printed :=
    if bool_decide (fl.(fl_output) = "summary") then Some (Summary_lines (summary fl m effective generated))
    else if bool_decide (fl.(fl_output) = "json") then Some (Json_report m.(mf_FleetName) effective)
    else None in
  match printed with
  | None => (fs, None, Fatal ("unsupported output mode " +:+ quote fl.(fl_output)))
  | Some r =>
      (fs, Some r,
       if fl.(fl_serve)
       then serveSupervisor fl.(fl_bind) (newSupervisorServer fl.(fl_manifest) fl.(fl_generate_dir) generated fs)
       else Returned)
  end.

(** The files afterwards, what was printed, and how it ends. *)
Definition supervisor_main (fl : flags) (fs : gmap string file) : gmap string file * option report * ending :=
  match LoadManifest fs fl.(fl_manifest) with
  | Err e => (fs, None, Fatal e)
  | Ok m =>
  match ResolveInstances (Some m) with
  | Err e => (fs, None, Fatal e)
  | Ok effective =>
  let '(fs, generated) :=
    if fl.(fl_generate) || fl.(fl_serve) then GenerateConfigs denied (Some m) fl.(fl_generate_dir) fs
    else (fs, Ok []) in
  match generated with
  | Err e => (fs, None, Fatal e)
  | Ok generated => report_and_serve fl m effective generated fs
  end end end.
End command.

(** ** launch.go *)

(** [filepath.Base]: the last element, trailing slashes removed. *)
Definition Base (p : string) : string :=
  if bool_decide (p = "") then "." else default "/" (last (filter (λ e, e ≠ "") (split_char "/"%char p))).

(** What the operating system answers to the [n]-th start: where [go] is, why the
    log cannot be opened, why the process cannot be started. *)
Record launch_environment := mkLaunchEnv {
  la_go : nat → result string;
  la_open : nat → string → option string;
  la_start : nat → list string → option string;
}.

(** The processes started so far, each with the log file it writes, which this
    process keeps open as well. *)
Abbreviation launched := (list (list string * string)).

Section launch.
Context (env : launch_environment).

Definition process_log (configPath : string) : string :=
  JoinPath [Dir configPath; Base configPath +:+ ".process.log"].

Definition startVEGMProcess (n : nat) (configPath : string) (ps : launched) : launched * result nat :=
  match env.(la_go) n with
  | Err e => (ps, Err ("find go executable: " +:+ e))
  | Ok goExe =>
  let args := [goExe; "run"; "./cmd/vegm"; "-config"; configPath] in
  let logPath := process_log configPath in
  match env.(la_open) n logPath with
  | Some e => (ps, Err ("open process log " +:+ quote logPath +:+ ": " +:+ e))
  | None =>
  match env.(la_start) n args with
  | Some e => (ps, Err ("start VEGM for config " +:+ quote configPath +:+ ": " +:+ e))
  | None => (ps ++ [(args, logPath)], Ok (length ps))
  end end end.

(** The loop over the configurations; an error drops the commands so far. *)
Fixpoint launch_from (n : nat) (generated : list GeneratedConfig) (cmds : list nat) (ps : launched)
    : launched * result (list nat) :=
  match generated with
  | [] => (ps, Ok cmds)
  | gen :: rest =>
      match startVEGMProcess n gen.(gc_Path) ps with
      | (ps, Err e) => (ps, Err e)
      | (ps, Ok cmd) => launch_from (S n) rest (cmds ++ [cmd]) ps
      end
  end.
Definition launchFleet (generated : list GeneratedConfig) (ps : launched) : launched * result (list nat) :=
  launch_from 0 generated [] ps.
End launch.

Section wait.
(** The clock's readings, and the answers to the polls, counted together. *)
Context (now : nat → Z) (healthy : nat → string → bool).

Definition health_url (gen : GeneratedConfig) : string :=
  "http://" +:+ gen.(gc_Instance).(ef_ListenHost) +:+ ":" +:+ itoa gen.(gc_Instance).(ef_ControlPort) +:+ "/healthz".

Definition wait_timeout (gen : GeneratedConfig) : string :=
  "timed out waiting for " +:+ gen.(gc_Instance).(ef_InstanceID) +:+ " to become healthy at " +:+ health_url gen.

(** The inner loop from the [n]-th reading of the clock on: [None] when the fuel
    runs out, [Some (n, false)] past the deadline. *)
Fixpoint wait_one (fuel : nat) (deadline : Z) (url : string) (n : nat) : option (nat * bool) :=
  match fuel with
  | 0 => None
  | S fuel =>
      if (deadline <? now n)%Z then Some (S n, false)
      else if healthy n url then Some (S n, true)
      else wait_one fuel deadline url (S n)
  end.

Fixpoint wait_all (fuel : nat) (deadline : Z) (generated : list GeneratedConfig) (n : nat) : option (result unit) :=
  match generated with
  | [] => Some (Ok ())
  | gen :: rest =>
      '(n, ok) ← wait_one fuel deadline (health_url gen) n;
      if (ok : bool) then wait_all fuel deadline rest n else Some (Err (wait_timeout gen))
  end.

Definition waitForFleetHealthy (fuel : nat) (generated : list GeneratedConfig) (timeout : Z) : option (result unit) :=
  wait_all fuel (now 0 + timeout) generated 1.
End wait.

(** ** Theorems: the command *)

Section theorems.
Context (denied : string → bool) (listen : string → option string).

(** The manifest [m] is loaded, the configurations [gens] are generated where they
    are wanted, which leaves [fs'], and the mode of the report is known. *)
Definition prepared (fl : flags) (fs fs' : gmap string file) (m : Manifest) (gens : list GeneratedConfig) : Prop :=
  LoadManifest fs fl.(fl_manifest) = Ok m ∧ is_ok (ResolveInstances (Some m)) = true ∧
  (if fl.(fl_generate) || fl.(fl_serve)
   then GenerateConfigs denied (Some m) fl.(fl_generate_dir) fs = (fs', Ok gens)
   else fs' = fs ∧ gens = []) ∧
  fl.(fl_output) ∈ ["summary"; "json"].

(** The lines of the summary: each stands for itself, some only under a condition;
    after an empty line there is a paragraph for each instance. *)
Definition line_if (b : bool) (line : string) : list string := if b then [line] else [].

Definition paragraph (inst : EffectiveInstance) : list string :=
  let wire := inst.(ef_ListenHost) +:+ ":" +:+ itoa inst.(ef_WirePort) in
  let control := inst.(ef_ListenHost) +:+ ":" +:+ itoa inst.(ef_ControlPort) in
  ("- " +:+ inst.(ef_InstanceID) +:+ " (" +:+ inst.(ef_EGMID) +:+ ")")
  :: ("  group=" +:+ inst.(ef_Group) +:+ " profile=" +:+ inst.(ef_Profile) +:+ " manufacturer=" +:+ inst.(ef_Manufacturer))
  :: ("  wire=" +:+ wire +:+ " control=" +:+ control)
  :: ("  trust=" +:+ inst.(ef_TrustMode) +:+ " pack=" +:+ inst.(ef_PackFile))
  :: ("  log_dir=" +:+ inst.(ef_LogDir))
  :: line_if (bool_decide (inst.(ef_StorageBackend) = "sqlite")) ("  sqlite=" +:+ inst.(ef_SQLitePath))
  ++ ["  ui=http://" +:+ control +:+ "/ui/scenario-runner.html"; ""].

(** What the report of a manifest says in each mode. *)
Inductive reports (fl : flags) (m : Manifest) (effective : list EffectiveInstance) (gens : list GeneratedConfig)
    : report → Prop :=
  | reports_json : fl.(fl_output) = "json" → reports fl m effective gens (Json_report m.(mf_FleetName) effective)
  | reports_summary : fl.(fl_output) = "summary" →
      reports fl m effective gens (Summary_lines (
        line_if true ("Fleet: " +:+ m.(mf_FleetName))
        ++ line_if (negb (bool_decide (m.(mf_Description) = ""))) ("Description: " +:+ m.(mf_Description))
        ++ line_if true ("Instances: " +:+ itoa (Z.of_nat (length effective)))
        ++ line_if (0 <? length gens) ("Generated configs: " +:+ fl.(fl_generate_dir))
        ++ line_if fl.(fl_serve) ("Supervisor UI: http://" +:+ fl.(fl_bind) +:+ "/ui/supervisor.html")
        ++ line_if true "" ++ (effective ≫= paragraph))).

(** Why the command fails, with the files it leaves. *)
Inductive fails_with (fl : flags) (fs fs' : gmap string file) : string → Prop :=
  | fails_loading e : LoadManifest fs fl.(fl_manifest) = Err e → fs' = fs → fails_with fl fs fs' e
  | fails_resolving m e :
      LoadManifest fs fl.(fl_manifest) = Ok m → ResolveInstances (Some m) = Err e → fs' = fs → fails_with fl fs fs' e
  | fails_generating m e :
      LoadManifest fs fl.(fl_manifest) = Ok m → fl.(fl_generate) || fl.(fl_serve) = true →
      GenerateConfigs denied (Some m) fl.(fl_generate_dir) fs = (fs', Err e) → fails_with fl fs fs' e
  | fails_reporting :
      fl.(fl_output) ∉ ["summary"; "json"] →
      fails_with fl fs fs' ("unsupported output mode " +:+ quote fl.(fl_output))
  | fails_listening m gens e :
      prepared fl fs fs' m gens → fl.(fl_serve) = true → listen fl.(fl_bind) = Some e → fails_with fl fs fs' e.

(** What the command says of itself. *)
Record honest (fl : flags) (fs fs' : gmap string file) (printed : option report) (e : ending) : Prop := {
  honest_serving : ∀ server, e = Serving server ↔
     fl.(fl_serve) = true ∧ listen fl.(fl_bind) = None ∧
     ∃ m gens, prepared fl fs fs' m gens ∧
       server = newSupervisorServer fl.(fl_manifest) fl.(fl_generate_dir) gens fs';
  honest_returned : e = Returned ↔ fl.(fl_serve) = false ∧ ∃ m gens, prepared fl fs fs' m gens;
  honest_printed : ∀ r, printed = Some r ↔ ∃ m gens effective, prepared fl fs fs' m gens ∧
     ResolveInstances (Some m) = Ok effective ∧ reports fl m effective gens r;
  honest_fatal : ∀ msg, e = Fatal msg → fails_with fl fs fs' msg;
}.

Lemma honest_failure fl fs fs' msg :
  (∀ m gens, ¬ prepared fl fs fs' m gens) → fails_with fl fs fs' msg → honest fl fs fs' None (Fatal msg).
Proof.
  intros H Hf. split.
  - intros server. split; [done|]. intros (_ & _ & m & gens & Hp & _). by destruct (H m gens).
  - split; [done|]. intros (_ & m & gens & Hp). by destruct (H m gens).
  - intros r. split; [done|]. intros (m & gens & effs & Hp & _). by destruct (H m gens).
  - by intros ? [= <-].
Qed.

(** A report is decided by the mode. *)
Lemma reports_unique fl m effs gens r1 r2 : reports fl m effs gens r1 → reports fl m effs gens r2 → r1 = r2.
Proof. intros [H1|H1] [H2|H2]; congruence. Qed.

Lemma summary_reported fl m effs gens :
  fl.(fl_output) = "summary" → reports fl m effs gens (Summary_lines (summary fl m effs gens)).
Proof.
  intros Ho.
  assert (summary fl m effs gens = line_if true ("Fleet: " +:+ m.(mf_FleetName))
        ++ line_if (negb (bool_decide (m.(mf_Description) = ""))) ("Description: " +:+ m.(mf_Description))
        ++ line_if true ("Instances: " +:+ itoa (Z.of_nat (length effs)))
        ++ line_if (0 <? length gens) ("Generated configs: " +:+ fl.(fl_generate_dir))
        ++ line_if fl.(fl_serve) ("Supervisor UI: http://" +:+ fl.(fl_bind) +:+ "/ui/supervisor.html")
        ++ line_if true "" ++ (effs ≫= paragraph)) as ->; [|by constructor].
  assert (Hp : concat (map instance_lines effs) = effs ≫= paragraph).
  { clear. induction effs as [|e effs IH]; [done|].
    change (paragraph e ++ concat (map instance_lines effs) = paragraph e ++ (effs ≫= paragraph)). by rewrite IH. }
  unfold summary, line_if. rewrite Hp. by destruct (bool_decide (_ = "")), gens.
Qed.

Lemma honest_success fl fs fs' m gens effs r :
  prepared fl fs fs' m gens → ResolveInstances (Some m) = Ok effs → reports fl m effs gens r →
  honest fl fs fs' (Some r)
    (if fl.(fl_serve) then serveSupervisor listen fl.(fl_bind)
       (newSupervisorServer fl.(fl_manifest) fl.(fl_generate_dir) gens fs') else Returned).
Proof.
  intros Hp Heff Hrep.
  assert (Hu : ∀ m' gens', prepared fl fs fs' m' gens' → m' = m ∧ gens' = gens).
  { intros m' gens' (Hl & _ & Hg & _). destruct Hp as (Hl' & _ & Hg' & _). rewrite Hl in Hl'. simplify_eq.
    destruct (_ || _); [split; congruence|]. destruct Hg as [_ ->], Hg' as [_ ->]. done. }
  split; unfold serveSupervisor.
  - intros server. destruct (fl_serve fl); [|by (split; [|intros [? _]])]. destruct (listen _) as [e|].
    { split; [done|]. by intros (_ & ? & _). }
    split; [intros [= <-]; split_and!; [done..|]; by exists m, gens|].
    intros (_ & _ & m' & gens' & Hp' & ->). by destruct (Hu _ _ Hp') as [_ ->].
  - destruct (fl_serve fl); [destruct (listen _); (split; [done|by intros [? _]])|].
    split; [intros _; split; [done|]; by exists m, gens|done].
  - intros r'. split; [intros [= <-]; by exists m, gens, effs|].
    intros (m' & gens' & effs' & Hp' & He' & Hr'). destruct (Hu _ _ Hp') as [-> ->]. rewrite Heff in He'. injection He' as <-.
    f_equal. by eapply reports_unique.
  - intros msg. destruct (fl_serve fl) eqn:Hs; [|done]. destruct (listen _) as [e|] eqn:Hl; [|done].
    intros [= <-]. by eapply fails_listening.
Qed.

(** The report, once everything is prepared. *)
Lemma honest_report fl fs fs' m gens effs :
  LoadManifest fs fl.(fl_manifest) = Ok m → ResolveInstances (Some m) = Ok effs →
  (fl.(fl_output) ∈ ["summary"; "json"] → prepared fl fs fs' m gens) →
  let '(fs2, printed, e) := report_and_serve listen fl m effs gens fs' in
  fs2 = fs' ∧ honest fl fs fs' printed e.
Proof.
  intros Hl Heff Hp. unfold report_and_serve. case_bool_decide as Hs; [|case_bool_decide as Hj].
  - split; [done|]. eapply honest_success; [apply Hp; rewrite Hs; set_solver|done|by apply summary_reported].
  - split; [done|]. eapply honest_success; [apply Hp; rewrite Hj; set_solver|done|by constructor].
  - assert (fl.(fl_output) ∉ ["summary"; "json"]) by set_solver.
    split; [done|]. apply honest_failure; [by intros m' gens' (_ & _ & _ & ?)|by apply fails_reporting].
Qed.

(** C23. The command serves exactly when it is asked to, the manifest is loaded and
    resolved, its configurations are generated, the output mode is known and the
    address can be listened on; the server then has what was generated and no
    child. It prints a report exactly when the manifest, the configurations and
    the mode are good: the lines of the summary with a paragraph for each
    instance, or the value with the name of the fleet and the resolved instances.
    It writes only the generated configurations, and those only when it generates
    or serves; when it fails, it is with the message of what went wrong. *)
Theorem supervisor_main_correct fl fs :
  let '(fs', printed, e) := supervisor_main denied listen fl fs in
  honest fl fs fs' printed e ∧
  (fs' = fs ∨ fl.(fl_generate) || fl.(fl_serve) = true ∧ ∃ m, LoadManifest fs fl.(fl_manifest) = Ok m ∧
     fs' = (GenerateConfigs denied (Some m) fl.(fl_generate_dir) fs).1).
Proof.
  unfold supervisor_main.
  destruct (LoadManifest _ _) as [m|e] eqn:Hl.
  2: { split; [|by left]. apply honest_failure; [|by apply fails_loading].
       intros m gens (Hl' & _). by rewrite Hl in Hl'. }
  destruct (ResolveInstances _) as [effective|e] eqn:Hr.
  2: { split; [|by left]. apply honest_failure; [|by eapply fails_resolving]. intros m' gens (Hl' & Hr' & _).
       rewrite Hl in Hl'. injection Hl' as <-. by rewrite Hr in Hr'. }
  assert (Hp : ∀ fs' gens,
    (if fl_generate fl || fl_serve fl then GenerateConfigs denied (Some m) (fl_generate_dir fl) fs = (fs', Ok gens)
     else fs' = fs ∧ gens = []) →
    fl_output fl ∈ ["summary"; "json"] → prepared fl fs fs' m gens) by (intros ????; split_and!; try done; by rewrite Hr).
  destruct (fl_generate fl || fl_serve fl) eqn:Hgen.
  - destruct (GenerateConfigs _ _ _ _) as [fs' [gens|e]] eqn:Hg.
    + pose proof (honest_report fl fs fs' m gens effective Hl Hr (Hp fs' gens eq_refl)) as H.
      destruct (report_and_serve _ _ _ _ _ _) as [[fs2 printed] e]. destruct H as [-> Hh].
      split; [done|]. right. split; [done|]. exists m. by rewrite Hg.
    + split; [|right; split; [done|]; exists m; by rewrite Hg].
      apply honest_failure; [|by eapply fails_generating]. intros m' gens (Hl' & _ & Hg' & _).
      rewrite Hgen in Hg'. congruence.
  - pose proof (honest_report fl fs fs m [] effective Hl Hr (Hp fs [] (conj eq_refl eq_refl))) as H.
    destruct (report_and_serve _ _ _ _ _ _) as [[fs2 printed] e]. destruct H as [-> Hh].
    by split; [|left].
Qed.
End theorems.

(** ** Theorems: the earlier launcher *)

Section launch_theorems.
Context (env : launch_environment).

(** The command and the log of a configuration, with what the [n]-th start finds. *)
Definition launch_of (n : nat) (gen : GeneratedConfig) : list string * string :=
  ([match env.(la_go) n with Ok e => e | Err _ => "" end; "run"; "./cmd/vegm"; "-config"; gen.(gc_Path)],
   process_log gen.(gc_Path)).

Lemma launch_from_spec n gens cmds ps :
  let '(ps', r) := launch_from env n gens cmds ps in
  ∃ k, k ≤ length gens ∧ ps' = ps ++ imap (λ i gen, launch_of (n + i) gen) (take k gens) ∧
    match r with
    | Ok cmds' => k = length gens ∧ cmds' = cmds ++ seq (length ps) k
    | Err _ => k < length gens
    end.
Proof.
  revert n cmds ps. induction gens as [|gen gens IH]; intros n cmds ps; cbn [launch_from].
  - exists 0. by rewrite !app_nil_r.
  - unfold startVEGMProcess. destruct (la_go env n) as [go|e] eqn:Hgo.
    2: { exists 0. rewrite app_nil_r. split_and!; [lia|done|simpl; lia]. }
    destruct (la_open env n _) as [e|]; [exists 0; rewrite app_nil_r; split_and!; [lia|done|simpl; lia]|].
    destruct (la_start env n _) as [e|]; [exists 0; rewrite app_nil_r; split_and!; [lia|done|simpl; lia]|].
    specialize (IH (S n) (cmds ++ [length ps]) (ps ++ [([go; "run"; "./cmd/vegm"; "-config"; gc_Path gen],
      process_log (gc_Path gen))])).
    destruct (launch_from _ _ _ _ _) as [ps' r]. destruct IH as (k & Hk & -> & Hr). exists (S k).
    split; [simpl; lia|]. split.
    + rewrite <-app_assoc. f_equal. cbn [take imap app]. unfold launch_of at 2. rewrite Nat.add_0_r, Hgo. f_equal.
      apply imap_ext. intros i x _. simpl. by rewrite Nat.add_succ_r.
    + destruct r as [cmds'|e]; [|simpl; lia]. destruct Hr as [-> ->]. split; [done|].
      rewrite <-app_assoc, length_app. simpl. by rewrite Nat.add_1_r.
Qed.

(** [launchFleet] starts the configurations in order up to the first failure. It
    returns a command for each or none at all: after a failure those started
    before run on, and nothing knows them any more. *)
Theorem launchFleet_correct gens ps :
  let '(ps', r) := launchFleet env gens ps in
  ∃ k, ps' = ps ++ imap launch_of (take k gens) ∧
    match r with
    | Ok cmds => k = length gens ∧ cmds = seq (length ps) k
    | Err _ => k < length gens
    end.
Proof.
  unfold launchFleet. pose proof (launch_from_spec 0 gens [] ps) as H.
  destruct (launch_from _ _ _ _ _) as [ps' r]. destruct H as (k & _ & -> & Hr). by exists k.
Qed.
End launch_theorems.

Section wait_theorems.
Context (now : nat → Z) (healthy : nat → string → bool).

Lemma wait_one_spec fuel deadline url n :
  match wait_one now healthy fuel deadline url n with
  | Some (n', true) => ∃ k, n ≤ k < n' ∧ healthy k url = true ∧ (now k ≤ deadline)%Z
  | Some (n', false) => ∃ k, n ≤ k < n' ∧ (deadline < now k)%Z
  | None => ∀ k, n ≤ k < n + fuel → (now k ≤ deadline)%Z
  end.
Proof.
  revert n. induction fuel as [|fuel IH]; intros n; cbn [wait_one]; [lia|].
  destruct (deadline <? now n)%Z eqn:Hd; [apply Z.ltb_lt in Hd; exists n; split; [lia|done]|].
  apply Z.ltb_ge in Hd. destruct (healthy n url) eqn:Hh; [exists n; split; [lia|done]|].
  specialize (IH (S n)). destruct (wait_one _ _ _ _ _ _) as [[n' []]|].
  - destruct IH as (k & ? & ?). exists k. split; [lia|done].
  - destruct IH as (k & ? & ?). exists k. split; [lia|done].
  - intros k Hk. destruct (decide (k = n)) as [->|]; [done|]. apply IH. lia.
Qed.

Lemma wait_all_spec fuel deadline limit gens n :
  (∀ k, limit ≤ k → (deadline < now k)%Z) → limit < fuel →
  ∃ r, wait_all now healthy fuel deadline gens n = Some r ∧
    match r with
    | Ok _ => ∀ gen, gen ∈ gens → ∃ k, n ≤ k ∧ healthy k (health_url gen) = true ∧ (now k ≤ deadline)%Z
    | Err e => ∃ gen k, gen ∈ gens ∧ n ≤ k ∧ (deadline < now k)%Z ∧ e = wait_timeout gen
    end.
Proof.
  intros Hl Hf. revert n. induction gens as [|gen gens IH]; intros n; cbn [wait_all].
  { eexists. split; [done|]. by intros gen ?%not_elem_of_nil. }
  pose proof (wait_one_spec fuel deadline (health_url gen) n) as Hs.
  destruct (wait_one _ _ _ _ _ _) as [[n' []]|]; cbn [mbind option_bind].
  - destruct Hs as (k & Hk & Hh & Hn). destruct (IH n') as (r & -> & Hr). exists r. split; [done|].
    destruct r as [u|e].
    + intros g [->|Hg]%elem_of_cons; [exists k; split; [lia|done]|].
      destruct (Hr g Hg) as (k' & ? & ?). exists k'. split; [lia|done].
    + destruct Hr as (g & k' & Hg & ? & ?). exists g, k'. split; [by right|]. split; [lia|done].
  - destruct Hs as (k & Hk & Hd). eexists. split; [done|]. exists gen, k. split; [by left|]. split; [lia|done].
  - exfalso. specialize (Hs (n + limit)). specialize (Hl (n + limit)). lia.
Qed.

(** [waitForFleetHealthy] ends once the clock passes its deadline, which bounds
    the polls of every instance; it succeeds only if each instance answered in
    time, and fails only past the deadline, naming an instance. *)
Theorem waitForFleetHealthy_correct fuel limit gens timeout :
  (∀ k, limit ≤ k → (now 0 + timeout < now k)%Z) → limit < fuel →
  ∃ r, waitForFleetHealthy now healthy fuel gens timeout = Some r ∧
    match r with
    | Ok _ => ∀ gen, gen ∈ gens → ∃ k, healthy k (health_url gen) = true ∧ (now k ≤ now 0 + timeout)%Z
    | Err e => ∃ gen k, gen ∈ gens ∧ (now 0 + timeout < now k)%Z ∧ e = wait_timeout gen
    end.
Proof.
  intros Hl Hf. destruct (wait_all_spec fuel _ limit gens 1 Hl Hf) as (r & Hr & Hs). exists r. split; [done|].
  destruct r; [intros gen Hg; destruct (Hs gen Hg) as (k & _ & ?); by exists k|].
  destruct Hs as (gen & k & ? & _ & ?). by exists gen, k.
Qed.
End wait_theorems.

(** ** Witnesses and examples *)

Lemma waitForFleetHealthy_witness gen :
  ∃ r, waitForFleetHealthy (λ n, Z.of_nat n) (λ n _, bool_decide (n = 3)) 20 [gen] 10 = Some r ∧
    match r with
    | Ok _ => ∀ g, g ∈ [gen] → ∃ k, bool_decide (k = 3) = true ∧ (Z.of_nat k ≤ 10)%Z
    | Err e => ∃ g k, g ∈ [gen] ∧ (10 < Z.of_nat k)%Z ∧ e = wait_timeout g
    end.
Proof. apply (waitForFleetHealthy_correct (λ n, Z.of_nat n) (λ n _, bool_decide (n = 3)) 20 11 [gen] 10); lia. Defined.

Definition fleet_files : gmap string file :=
  {["fleet.json" := JsonFile (enc (example_manifest [example_instance "egm-1" "EGM-1" "10.0.0.1" 0 0]))]}.

(** The mode of the report is looked at last: the configurations are written
    before an unknown one is refused. *)
Example unknown_mode_generates :
  let '(fs, printed, e) := supervisor_main (λ _, false) (λ _, None)
    (mkFlags "fleet.json" "yaml" "out" true false "") fleet_files in
  is_Some (fs !! "out/egm-1.json") ∧ printed = None ∧ e = Fatal ("unsupported output mode " +:+ quote "yaml").
Proof. vm_compute. split; [by eexists|done]. Qed.
