(* ===== verification/Logger.v ===== *)
(** * The event log: queries and exports (src/runtime/logger.go, the log handlers
    of control_restore.go)

    [State.Log] and [State.WritePayload] write the log; here it is read back. The
    log file is a list of lines, of which only the length and the event that the
    JSON decoder finds in them matter. *)

From S2P Require Import Prelude GoStrings Json Config Pack Render Envelope State Control Messages.

(** ** [fmt.Sprint] of a field

    A number read from JSON is a float64: up to six digits as they are, then with
    an exponent; beyond 2^53 and for fractions the text is the parameter. *)

Definition exponent_text (z : Z) : string :=
  match itoa (Z.abs z) with
  | EmptyString => ""
  | String d rest =>
      let r := trim_right_char "0" rest in
      (if (z <? 0)%Z then "-" else "") +:+ String d (if bool_decide (r = "") then "" else "." +:+ r)
      +:+ "e+" +:+ pad 2 (Z.of_nat (String.length rest))
  end.

Definition float_text (beyond : num → string) (n : num) : string :=
  match n with
  | NInt z =>
      if (Z.abs z <? 10 ^ 6)%Z then itoa z
      else if (Z.abs z <=? 2 ^ 53)%Z then exponent_text z else beyond n
  | NFlt _ _ => beyond n
  end.

Example float_text_1 : map (λ z, float_text (λ _, "") (NInt z)) [0; -250; 999999; 1000000; -12345670]%Z
  = ["0"; "-250"; "999999"; "1e+06"; "-1.234567e+07"].
Proof. reflexivity. Qed.

Section fields.
Context (number : num → string).

Fixpoint sprint (j : json) : string :=
  match j with
  | JNull => "<nil>"
  | JBool b => btoa b
  | JNum n => number n
  | JStr s => s
  | JArr l => "[" +:+ join " " (map sprint l) +:+ "]"
  | JObj kvs => "map[" +:+ join " " (map (λ kv, kv.1 +:+ ":" +:+ sprint kv.2) kvs) +:+ "]"
  end.

(** [fmt.Sprint(fields[k])]: a missing key gives nil. *)
Definition field_text (fields : gmap string json) (k : string) : string :=
  sprint (default JNull (fields !! k)).

Fixpoint firstField (fields : gmap string json) (keys : list string) : string :=
  match keys with
  | [] => ""
  | k :: rest =>
      match fields !! k with
      | Some v => if bool_decide (sprint v = "") then firstField fields rest else sprint v
      | None => firstField fields rest
      end
  end.

Definition flattenFields (fields : gmap string json) : string :=
  String.concat "" (map (λ kv, kv.1 +:+ "=" +:+ sprint kv.2 +:+ " ") (map_to_obj fields)).

(** ** Filters *)

Record EventFilter := mkFilter {
  ef_Category : string;
  ef_Level : string;
  ef_Contains : string;
  ef_MessageType : string;
  ef_HostID : string;
  ef_SessionID : string;
  ef_Since : option Z;
  ef_Until : option Z;
  ef_Limit : Z;
}.

Definition given (s : string) : bool := negb (bool_decide (s = "")).
Definition differs (a b : string) : bool := negb (bool_decide (a = b)).

Definition matchesEventFilter (evt : Event) (filter : EventFilter) : bool :=
  let f := field_text evt.(ev_Fields) in
  if given filter.(ef_Category) && differs evt.(ev_Category) filter.(ef_Category) then false
  else if given filter.(ef_Level) && differs evt.(ev_Level) filter.(ef_Level) then false
  else if from_option (λ t, evt.(ev_Time) <? t)%Z false filter.(ef_Since) then false
  else if from_option (λ t, t <? evt.(ev_Time))%Z false filter.(ef_Until) then false
  else if given filter.(ef_Contains)
     && negb (contains (ToLower filter.(ef_Contains))
                (ToLower (evt.(ev_Message) +:+ " " +:+ flattenFields evt.(ev_Fields)))) then false
  else if given filter.(ef_MessageType) && differs (f "message_type") filter.(ef_MessageType) then false
  else if given filter.(ef_HostID) && differs (f "hostId") filter.(ef_HostID)
     && differs (f "host_id") filter.(ef_HostID) then false
  else if given filter.(ef_SessionID) && differs (f "sessionId") filter.(ef_SessionID)
     && differs (f "session_id") filter.(ef_SessionID) then false
  else true.

(** ** Reading the log *)

(** A line of the log file: its bytes without the newline, and the event that
    the decoder reads from it. *)
Record log_line := mkLine { ln_Size : Z; ln_Event : option Event }.

(** The longest line that the scanner's buffer takes is one byte shorter. *)
Definition max_line : Z := 1024 * 1024.

(** The loop of [queryEventsLocked]: the scanner stops with an error at a line
    that is too long, and is not asked for another line once the limit is
    reached. *)
Fixpoint scan_events (filter : EventFilter) (out : list Event) (lines : list log_line)
    : result (list Event) :=
  match lines with
  | [] => Ok out
  | l :: rest =>
      if (max_line <=? l.(ln_Size))%Z then Err "bufio.Scanner: token too long"
      else match l.(ln_Event) with
      | None => scan_events filter out rest
      | Some evt =>
          if negb (matchesEventFilter evt filter) then scan_events filter out rest
          else
            let out := out ++ [evt] in
            if (0 <? filter.(ef_Limit))%Z && (filter.(ef_Limit) <=? Z.of_nat (length out))%Z then Ok out
            else scan_events filter out rest
      end
  end.

(** ** Summaries *)

Fixpoint reasonBucket (events : list Event) : string :=
  match events with
  | [] => "none"
  | evt :: rest =>
      if bool_decide (evt.(ev_Level) = "warn") || bool_decide (evt.(ev_Level) = "error") then
        if bool_decide (evt.(ev_Category) ∈ ["binding"; "soap"; "wire"; "session"])
        then evt.(ev_Category) else "runtime"
      else reasonBucket rest
  end.

Record MessageSummaryEntry := mkSummary {
  ms_Time : Z;
  ms_Category : string;
  ms_Message : string;
  ms_MessageType : string;
  ms_HostID : string;
  ms_SessionID : string;
  ms_Status : string;
}.

Definition summary_of (evt : Event) : MessageSummaryEntry := {|
  ms_Time := evt.(ev_Time);
  ms_Category := evt.(ev_Category);
  ms_Message := evt.(ev_Message);
  ms_MessageType := firstField evt.(ev_Fields) ["message_type"; "messageType"];
  ms_HostID := firstField evt.(ev_Fields) ["host_id"; "hostId"];
  ms_SessionID := firstField evt.(ev_Fields) ["session_id"; "sessionId"];
  ms_Status := firstField evt.(ev_Fields) ["status"];
|}.

Fixpoint summarizeMessages (events : list Event) : list MessageSummaryEntry :=
  match events with
  | [] => []
  | evt :: rest =>
      if differs evt.(ev_Category) "wire" && differs evt.(ev_Category) "session"
         && differs evt.(ev_Category) "binding" && differs evt.(ev_Category) "soap"
      then summarizeMessages rest
      else summary_of evt :: summarizeMessages rest
  end.

Fixpoint filterEventsByCategory (events : list Event) (category : string) : list Event :=
  match events with
  | [] => []
  | evt :: rest =>
      if bool_decide (evt.(ev_Category) = category)
      then evt :: filterEventsByCategory rest category else filterEventsByCategory rest category
  end.

(** The entries of the map are those of a summary. *)
Fixpoint firstMessageWorksheet (events : list Event) : option MessageSummaryEntry :=
  match events with
  | [] => None
  | evt :: rest =>
      if bool_decide (evt.(ev_Category) = "wire") || bool_decide (evt.(ev_Category) = "session")
      then Some (summary_of evt) else firstMessageWorksheet rest
  end.

(** ** The log of a process *)

(** An entry of a directory: what [ReadDir], [Info] and [ReadFile] say of it. *)
Record dir_entry := mkEntry {
  de_Name : string;
  de_IsDir : bool;
  de_ModTime : Z;
  de_Size : Z;
  de_Data : result xml_bytes;
}.

(** The file system around the log: the lines that were there before the process
    started, the line that an event is written as, what the payload directory
    holds, and which calls fail. *)
Record log_environment := mkLogEnv {
  le_Prior : list log_line;
  le_Line : Event → log_line;
  le_OpenError : Server → option string;
  le_PayloadDir : Server → result (list dir_entry);
  le_MkdirError : string → option string;
  le_WriteError : string → option string;
}.

Context (le : log_environment).

Definition log_lines (w : Server) : list log_line := le.(le_Prior) ++ map le.(le_Line) w.(sv_events).

Definition queryEventsLocked (filter : EventFilter) : M (result (list Event)) := gets (λ w,
  match le.(le_OpenError) w with
  | Some e => Err e
  | None => scan_events filter [] (log_lines w)
  end).

Definition QueryEvents (filter : EventFilter) : M (result (list Event)) := queryEventsLocked filter.

(** ** Exports *)

Record ExportOptions := mkExportOptions {
  xo_OutputDir : string;
  xo_RunID : string;
  xo_Since : option Z;
  xo_Until : option Z;
  xo_IncludePayloads : bool;
  xo_StateSnapshot : option RuntimeState;
  xo_ConfigSnapshot : option Config;
  xo_PackSummary : option json;
  xo_PassFailNotes : string;
}.

Record ExportBundle := mkBundle {
  eb_GeneratedAt : Z;
  eb_RunID : string;
  eb_InstanceID : string;
  eb_Since : option Z;
  eb_Until : option Z;
  eb_IncludePayloads : bool;
  eb_ReasonBucket : string;
  eb_PassFailNotes : string;
  eb_Events : list Event;
  eb_MessageSummary : list MessageSummaryEntry;
  eb_PayloadFiles : list string;
  eb_StateTransitions : list Event;
  eb_FirstMessageWorksheet : option MessageSummaryEntry;
  eb_StateSnapshot : option RuntimeState;
  eb_ConfigSnapshot : option Config;
  eb_PackSummary : option json;
}.

(** [t.UTC().Format("20060102T150405Z")] *)
Definition compact_time (nanos : Z) : string :=
  let secs := (nanos / 1000000000)%Z in
  let '(y, m, d) := civil_from_days (secs / 86400) in
  let s := (secs mod 86400)%Z in
  pad 4 y +:+ pad 2 m +:+ pad 2 d +:+ "T" +:+
  pad 2 (s / 3600)%Z +:+ pad 2 (s / 60 mod 60)%Z +:+ pad 2 (s mod 60)%Z +:+ "Z".

Definition bundle_name (runID instanceID : string) : string :=
  sanitizeFilePart runID +:+ "_" +:+ sanitizeFilePart instanceID +:+ "_bundle.json".

(** The files of the payload directory; none when it cannot be read. *)
Definition payload_files (w : Server) : list string :=
  match le.(le_PayloadDir) w with
  | Ok entries => sort_strings (map de_Name (List.filter (λ e, negb e.(de_IsDir)) entries))
  | Err _ => []
  end.

Definition bundle_of (opts : ExportOptions) (runID instanceID : string) (t : Z) (events : list Event)
    (files : list string) : ExportBundle := {|
  eb_GeneratedAt := t;
  eb_RunID := runID;
  eb_InstanceID := instanceID;
  eb_Since := opts.(xo_Since);
  eb_Until := opts.(xo_Until);
  eb_IncludePayloads := opts.(xo_IncludePayloads);
  eb_ReasonBucket := reasonBucket events;
  eb_PassFailNotes := opts.(xo_PassFailNotes);
  eb_Events := events;
  eb_MessageSummary := summarizeMessages events;
  eb_PayloadFiles := if opts.(xo_IncludePayloads) then files else [];
  eb_StateTransitions := filterEventsByCategory events "state";
  eb_FirstMessageWorksheet := firstMessageWorksheet events;
  eb_StateSnapshot := opts.(xo_StateSnapshot);
  eb_ConfigSnapshot := opts.(xo_ConfigSnapshot);
  eb_PackSummary := opts.(xo_PackSummary);|}.

Section clock.
Context (clock : nat → Z).

(** [Logger.ExportBundle]: the path, and the bundle that the file then holds. *)
Definition ExportBundle_to (opts : ExportOptions) : M (result (string * ExportBundle)) :=
  cfg ← gets sv_cfg;
  let outDir := if given opts.(xo_OutputDir) then opts.(xo_OutputDir)
                else JoinPath [cfg.(cfg_Logging).(lo_Dir); "exports"] in
  match le.(le_MkdirError) outDir with
  | Some e => mret (Err e)
  | None =>
      runID ← (if given opts.(xo_RunID) then mret opts.(xo_RunID)
               else t ← Now clock; mret (compact_time t));
      let bundlePath := JoinPath [outDir; bundle_name runID cfg.(cfg_InstanceID)] in
      found ← queryEventsLocked (mkFilter "" "" "" "" "" "" opts.(xo_Since) opts.(xo_Until) 0);
      match found with
      | Err e => mret (Err e)
      | Ok events =>
          t ← Now clock;
          files ← gets payload_files;
          let bundle := bundle_of opts runID cfg.(cfg_InstanceID) t events files in
          match le.(le_WriteError) bundlePath with
          | Some e => mret (Err e)
          | None => mret (Ok (bundlePath, bundle))
          end
      end
  end.

(** ** Handlers *)

Definition event_reply (found : result (list Event)) : M Response :=
  match found with
  | Err e => http_error e 500
  | Ok events => mret (mkResponse 200 (BEvents events))
  end.

Definition handleControlStateHistory (r : Request) : M Response :=
  found ← QueryEvents (mkFilter "state" "" "" "" "" "" None None 100);
  event_reply found.

Definition handleControlLogs (r : Request) : M Response :=
  found ← QueryEvents (mkFilter "" "" "" "" "" "" None None 200);
  event_reply found.

(** The answer, and the file that is written. *)
Definition handleControlExport (r : Request) : M (Response * option (string * ExportBundle)) :=
  s ← get_state;
  cfg ← gets sv_cfg;
  res ← ExportBundle_to (mkExportOptions "" "" None None true (Some s) (Some cfg) None "");
  match res with
  | Err e => x ← http_error e 500; mret (x, None)
  | Ok (path, bundle) =>
      mret (mkResponse 200 (BJson [("ok", JBool true); ("path", JStr path)]), Some (path, bundle))
  end.
End clock.
End fields.

(** ** Queries *)

Section queries.
Context (number : num → string).

(** What an event must satisfy. *)
Record matches (evt : Event) (f : EventFilter) : Prop := {
  matches_category : f.(ef_Category) = "" ∨ evt.(ev_Category) = f.(ef_Category);
  matches_level : f.(ef_Level) = "" ∨ evt.(ev_Level) = f.(ef_Level);
  matches_since : ∀ t, f.(ef_Since) = Some t → (t ≤ evt.(ev_Time))%Z;
  matches_until : ∀ t, f.(ef_Until) = Some t → (evt.(ev_Time) ≤ t)%Z;
  matches_contains : f.(ef_Contains) = "" ∨
    contains (ToLower f.(ef_Contains))
      (ToLower (evt.(ev_Message) +:+ " " +:+ flattenFields number evt.(ev_Fields))) = true;
  matches_message_type : f.(ef_MessageType) = "" ∨
    field_text number evt.(ev_Fields) "message_type" = f.(ef_MessageType);
  matches_host : f.(ef_HostID) = "" ∨
    field_text number evt.(ev_Fields) "hostId" = f.(ef_HostID) ∨
    field_text number evt.(ev_Fields) "host_id" = f.(ef_HostID);
  matches_session : f.(ef_SessionID) = "" ∨
    field_text number evt.(ev_Fields) "sessionId" = f.(ef_SessionID) ∨
    field_text number evt.(ev_Fields) "session_id" = f.(ef_SessionID);
}.

Lemma guard_spec (b : bool) (P : Prop) (k : bool) (Q : Prop) :
  (b = false ↔ P) → (k = true ↔ Q) → (if b then false else k) = true ↔ P ∧ Q.
Proof. destruct b; naive_solver. Qed.

Lemma given_differs a b : given b && differs a b = false ↔ b = "" ∨ a = b.
Proof.  unfold given, differs. repeat case_bool_decide; naive_solver. Qed.

Lemma given_differs2 a a' b : given b && differs a b && differs a' b = false ↔ b = "" ∨ a = b ∨ a' = b.
Proof.  unfold given, differs. repeat case_bool_decide; naive_solver. Qed.

Lemma bound_spec (o : option Z) (p : Z → bool) (P : Z → Prop) :
  (∀ t, p t = false ↔ P t) → from_option p false o = false ↔ ∀ t, o = Some t → P t.
Proof. intros H. destruct o; simpl; rewrite ?H; naive_solver. Qed.

Lemma matchesEventFilter_true evt f : matchesEventFilter number evt f = true ↔ matches evt f.
Proof.
  transitivity
    ((f.(ef_Category) = "" ∨ evt.(ev_Category) = f.(ef_Category)) ∧
     (f.(ef_Level) = "" ∨ evt.(ev_Level) = f.(ef_Level)) ∧
     (∀ t, f.(ef_Since) = Some t → (t ≤ evt.(ev_Time))%Z) ∧
     (∀ t, f.(ef_Until) = Some t → (evt.(ev_Time) ≤ t)%Z) ∧
     (f.(ef_Contains) = "" ∨ contains (ToLower f.(ef_Contains))
        (ToLower (evt.(ev_Message) +:+ " " +:+ flattenFields number evt.(ev_Fields))) = true) ∧
     (f.(ef_MessageType) = "" ∨ field_text number evt.(ev_Fields) "message_type" = f.(ef_MessageType)) ∧
     (f.(ef_HostID) = "" ∨ field_text number evt.(ev_Fields) "hostId" = f.(ef_HostID) ∨
        field_text number evt.(ev_Fields) "host_id" = f.(ef_HostID)) ∧
     (f.(ef_SessionID) = "" ∨ field_text number evt.(ev_Fields) "sessionId" = f.(ef_SessionID) ∨
        field_text number evt.(ev_Fields) "session_id" = f.(ef_SessionID)) ∧ True);
    [|split; [by intros (?&?&?&?&?&?&?&?&_) | by intros []]].
  unfold matchesEventFilter.
  repeat (apply guard_spec; [first [apply given_differs | apply given_differs2
    | apply bound_spec; intros; lia
    |  unfold given; case_bool_decide; destruct (contains _ _); naive_solver] |]).
  done.
Qed.

(** The lines before the first that is too long. *)
Fixpoint until_long (lines : list log_line) : list log_line :=
  match lines with
  | [] => []
  | l :: rest => if (max_line <=? l.(ln_Size))%Z then [] else l :: until_long rest
  end.

Definition all_short (lines : list log_line) : bool :=
  forallb (λ l, (l.(ln_Size) <? max_line)%Z) lines.

(** The events of the lines that pass the filter. *)
Definition found (f : EventFilter) (lines : list log_line) : list Event :=
  List.filter (λ e, matchesEventFilter number e f) (omap ln_Event lines).

Definition full (f : EventFilter) (n : nat) : bool :=
  (0 <? f.(ef_Limit))%Z && (f.(ef_Limit) <=? Z.of_nat n)%Z.

(** A query, without the loop: the oldest matches up to the limit; an error when
    the limit is not reached before a line that is too long. *)
Definition query (f : EventFilter) (lines : list log_line) : result (list Event) :=
  let l := found f (until_long lines) in
  if full f (length l) then Ok (take (Z.to_nat f.(ef_Limit)) l)
  else if all_short lines then Ok l
  else Err "bufio.Scanner: token too long".

Lemma full_mono f n m : n ≤ m → full f n = true → full f m = true.
Proof. unfold full. intros. bool_props. lia. Qed.

Lemma scan_events_eq f lines out :
  full f (length out) = false →
  scan_events number f out lines =
    let l := out ++ found f (until_long lines) in
    if full f (length l) then Ok (take (Z.to_nat f.(ef_Limit)) l)
    else if all_short lines then Ok l
    else Err "bufio.Scanner: token too long".
Proof.
  cbv zeta. revert out. induction lines as [|l rest IH]; intros out Hout; cbn [scan_events until_long].
  { by rewrite app_nil_r, Hout. }
  unfold all_short. cbn [forallb]. fold (all_short rest).
  rewrite (Z.ltb_antisym max_line).
  destruct (max_line <=? ln_Size l)%Z; cbn [negb andb].
  { by rewrite app_nil_r, Hout. }
  unfold found. cbn [omap list_omap]. fold (found f (until_long rest)).
  destruct (ln_Event l) as [evt|]; [|by apply IH]. simpl.
  destruct (matchesEventFilter number evt f); simpl; [|by apply IH].
  fold (full f (length (out ++ [evt]))).
  assert (Happ : out ++ evt :: found f (until_long rest) = (out ++ [evt]) ++ found f (until_long rest))
    by (rewrite <-app_assoc; done).
  unfold found in Happ. rewrite Happ. fold (found f (until_long rest)) in *.
  destruct (full f (length (out ++ [evt]))) eqn:Hfull; [|by apply IH].
  rewrite (full_mono f (length (out ++ [evt]))) by (done || (rewrite !length_app; lia)).
  f_equal. rewrite take_app_le, take_ge; [done|..]; unfold full in *; bool_props;
    rewrite ?length_app in *; simpl in *; lia.
Qed.

Lemma scan_events_query f lines : scan_events number f [] lines = query f lines.
Proof.
  rewrite scan_events_eq; [done|]. unfold full. simpl. destruct (ef_Limit f) as [|p|p]; done.
Qed.

(** ** The log only grows at its end *)

Lemma until_long_app a b :
  until_long (a ++ b) = if all_short a then a ++ until_long b else until_long a.
Proof.
  unfold all_short. induction a as [|l a IH]; simpl; [done|]. rewrite (Z.ltb_antisym max_line).
  destruct (max_line <=? ln_Size l)%Z; cbn [negb andb]; [done|]. rewrite IH. by destruct (forallb _ a).
Qed.

Lemma until_long_short a : all_short a = true → until_long a = a.
Proof. intros H. rewrite <-(app_nil_r a) at 1. by rewrite until_long_app, H, app_nil_r. Qed.

Lemma found_app f a b : found f (a ++ b) = found f a ++ found f b.
Proof. unfold found. by rewrite omap_app, List.filter_app. Qed.

Lemma all_short_app a b : all_short (a ++ b) = all_short a && all_short b.
Proof. apply forallb_app. Qed.

Lemma found_extend f a b : ∃ more, found f (until_long (a ++ b)) = found f (until_long a) ++ more.
Proof.
  rewrite until_long_app. destruct (all_short a) eqn:Ha.
  - rewrite (until_long_short a), found_app by done. eauto.
  - exists []. by rewrite app_nil_r.
Qed.

(** A query that is full has its final answer. *)
Lemma query_full f a b :
  full f (length (found f (until_long a))) = true → query f (a ++ b) = query f a.
Proof.
  intros H. destruct (found_extend f a b) as [more Hm]. unfold query. rewrite Hm, H.
  rewrite (full_mono f (length (found f (until_long a)))) by (done || (rewrite length_app; lia)).
  f_equal. apply take_app_le. unfold full in H. bool_props. lia.
Qed.

(** A query that has failed fails for ever. *)
Lemma query_failed f a b e : query f a = Err e → query f (a ++ b) = Err e.
Proof.
  unfold query. destruct (full f (length (found f (until_long a)))) eqn:Hf; [done|].
  destruct (all_short a) eqn:Ha; [done|].
  by rewrite until_long_app, all_short_app, Ha, Hf.
Qed.

Context (le : log_environment).

Lemma log_lines_grow w w' :
  w.(sv_events) `prefix_of` w'.(sv_events) →
  ∃ more, log_lines le w' = log_lines le w ++ more.
Proof. intros [l Hl]. unfold log_lines. rewrite Hl, map_app, app_assoc. eauto. Qed.

Lemma QueryEvents_eq f w :
  QueryEvents number le f w
  = (match le.(le_OpenError) w with Some e => Err e | None => query f (log_lines le w) end, w).
Proof. unfold QueryEvents, queryEventsLocked, gets. destruct (le_OpenError le w); by rewrite ?scan_events_query. Qed.
End queries.

(** ** Exports *)

Lemma byte_in_spec lo hi c : byte_in lo hi c = true ↔ lo ≤ nat_of_ascii c ≤ hi.
Proof. unfold byte_in. rewrite andb_true_iff, !Nat.leb_le. done. Qed.

(** A character of a sanitized part. *)
Definition part_byte (c : ascii) : bool :=
  byte_in 97 122 c || byte_in 65 90 c || byte_in 48 57 c || bool_decide (c = "_"%char).

Fixpoint part (s : string) : bool :=
  match s with EmptyString => true | String c s' => part_byte c && part s' end.

Lemma sanitize_runes_part skip s : part (sanitize_runes skip s) = true.
Proof.
  revert skip. induction s as [|c s IH]; intros [|k]; cbn -[rune_len byte_in]; try done.
  rewrite IH, andb_true_r. unfold part_byte.
  destruct (byte_in 97 122 c || byte_in 65 90 c || byte_in 48 57 c) eqn:H; [by rewrite H|done].
Qed.

Lemma sanitizeFilePart_part s : part (sanitizeFilePart s) = true.
Proof. unfold sanitizeFilePart. case_bool_decide; [done|]. apply sanitize_runes_part. Qed.

Lemma part_free c s : part_byte c = false → part s = true → free_of c s = true.
Proof.
  intros Hc. induction s as [|d s IH]; cbn -[part_byte]; [done|]. intros H. bool_props.
  rewrite IH by done. rewrite andb_true_r. apply negb_true_iff, bool_decide_eq_false_2. congruence.
Qed.

Lemma bundle_name_plain runID instanceID : plain_name (bundle_name runID instanceID) = true.
Proof.
  assert (Hf : free_of "/" (bundle_name runID instanceID) = true).
  { unfold bundle_name. rewrite !free_of_app, !(part_free "/") by (done || apply sanitizeFilePart_part).
    done. }
  assert (Hl : 13 ≤ String.length (bundle_name runID instanceID)).
  { unfold bundle_name. rewrite !string_length_app. simpl. lia. }
  unfold plain_name. rewrite Hf. simpl.
  rewrite !bool_decide_eq_false_2; [done|intros H; rewrite H in Hl; simpl in Hl; lia..].
Qed.

Section exports.
Context (number : num → string) (le : log_environment) (clock : nat → Z).

Definition no_filter : EventFilter := mkFilter "" "" "" "" "" "" None None 0.

Lemma found_no_filter lines : found number no_filter lines = omap ln_Event lines.
Proof. unfold found. induction (omap ln_Event lines) as [|e l IH]; simpl; [done|]. by rewrite IH. Qed.

Lemma query_no_filter lines :
  query number no_filter lines
  = if all_short lines then Ok (omap ln_Event lines) else Err "bufio.Scanner: token too long".
Proof.
  unfold query. cbn [full no_filter ef_Limit]. simpl. destruct (all_short lines) eqn:H; [|done].
  by rewrite until_long_short, found_no_filter.
Qed.

(** A problem is an event of level warn or error. *)
Definition problem (e : Event) : Prop := e.(ev_Level) = "warn" ∨ e.(ev_Level) = "error".

Lemma reasonBucket_none events : reasonBucket events = "none" ↔ Forall (λ e, ¬ problem e) events.
Proof.
  induction events as [|e l IH]; simpl; [done|]. rewrite Forall_cons, <-IH. unfold problem.
  do 2 case_bool_decide; simpl; try tauto;
    (case_bool_decide as Hc; [|naive_solver]);
    (split; [intros He; rewrite He in Hc; set_solver | naive_solver]).
Qed.

Lemma filterEventsByCategory_eq events c :
  filterEventsByCategory events c = filter (λ e, e.(ev_Category) = c) events.
Proof.
  induction events as [|e l IH]; simpl; [done|]. rewrite filter_cons, IH.
  case_bool_decide; by case_decide.
Qed.

Definition run_export_dir (w : Server) : string := JoinPath [w.(sv_cfg).(cfg_Logging).(lo_Dir); "exports"].

(** The export handler: the time is read twice. *)
Definition export_options (w : Server) : ExportOptions :=
  mkExportOptions "" "" None None true (Some w.(sv_state)) (Some w.(sv_cfg)) None "".

Lemma export_eq r w :
  let c := w.(sv_clock) in
  let runID := compact_time (clock c) in
  let path := JoinPath [run_export_dir w; bundle_name runID w.(sv_cfg).(cfg_InstanceID)] in
  let refused e w' := ((mkResponse 500 (BText e), None), w') in
  handleControlExport number le clock r w
  = match le.(le_MkdirError) (run_export_dir w) with
    | Some e => refused e w
    | None =>
        match match le.(le_OpenError) (set_sv_clock (S c) w) with
              | Some e => Err e | None => query number no_filter (log_lines le w)
              end with
        | Err e => refused e (set_sv_clock (S c) w)
        | Ok events =>
            match le.(le_WriteError) path with
            | Some e => refused e (set_sv_clock (S (S c)) w)
            | None =>
                ((mkResponse 200 (BJson [("ok", JBool true); ("path", JStr path)]),
                  Some (path, bundle_of number (export_options w) runID w.(sv_cfg).(cfg_InstanceID)
                          (clock (S c)) events (payload_files le (set_sv_clock (S (S c)) w)))),
                 set_sv_clock (S (S c)) w)
            end
        end
    end.
Proof.
  cbv zeta. unfold handleControlExport, ExportBundle_to. cbv zeta. run. unfold run_export_dir.
  change (given (xo_OutputDir _)) with false. change (given (xo_RunID _)) with false. cbv match.
  destruct (le_MkdirError le _) as [e|]; [reflexivity|]. run. unfold Now. cbn [fst snd].
  run. unfold queryEventsLocked, gets. cbn [fst snd]. rewrite scan_events_query.
  change (mkFilter _ _ _ _ _ _ _ _ _) with no_filter.
  change (log_lines le (set_sv_clock _ w)) with (log_lines le w).
  destruct (match le_OpenError le _ with Some e => Err e | None => _ end) as [events|e]; [|done].
  run. by destruct (le_WriteError le _).
Qed.

(** ** Properties *)

(** C36. A query returns, oldest first and up to the limit, the events of the log
    that satisfy the filter; lines that are not events are skipped; a line of
    2^20 bytes or more makes it fail, unless the limit is reached before it. *)
Theorem QueryEvents_correct f w :
  (∀ e, matchesEventFilter number e f = true ↔ matches number e f) ∧
  (QueryEvents number le f w).1
  = match le.(le_OpenError) w with Some e => Err e | None => query number f (log_lines le w) end.
Proof. split; [intros e; apply matchesEventFilter_true|]. by rewrite QueryEvents_eq. Qed.

(** The log view shows the 200 oldest events: once it is full, nothing that
    the process does changes it. *)
Theorem handleControlLogs_frozen r r' w w' l :
  (∀ w, le.(le_OpenError) w = None) →
  w.(sv_events) `prefix_of` w'.(sv_events) →
  (handleControlLogs number le r w).1 = mkResponse 200 (BEvents l) → length l = 200 →
  (handleControlLogs number le r' w').1 = mkResponse 200 (BEvents l).
Proof.
  intros Ho Hp. unfold handleControlLogs. rewrite !M_bind_eq, !QueryEvents_eq, !Ho. cbn [fst snd].
  destruct (log_lines_grow le w w' Hp) as [more ->]. set (f := mkFilter _ _ _ _ _ _ _ _ _).
  destruct (full f (length (found number f (until_long (log_lines le w))))) eqn:Hc;
    [rewrite query_full by done; by destruct (query _ _ _)|].
  unfold query at 1. rewrite Hc. destruct (all_short _); simpl; intros H Hl; simplify_eq.
  unfold full in Hc. rewrite Hl in Hc. done.
Qed.

(** An export writes one file, straight inside the export directory whatever
    the run and the instance are called, with every event of the log, the state
    changes among them, the names of the payload files in order, the state and
    the configuration of the moment; it moves nothing of the process. It is
    refused exactly when a call fails or a line is too long. *)
Theorem handleControlExport_correct r w :
  let '((resp, written), w') := handleControlExport number le clock r w in
  w' = set_sv_clock w'.(sv_clock) w ∧
  match written with
  | Some (path, b) =>
      resp = mkResponse 200 (BJson [("ok", JBool true); ("path", JStr path)]) ∧
      (∃ name, path = JoinPath [run_export_dir w; name] ∧ plain_name name = true) ∧
      all_short (log_lines le w) = true ∧ b.(eb_Events) = omap ln_Event (log_lines le w) ∧
      b.(eb_StateTransitions) = filter (λ e, e.(ev_Category) = "state") b.(eb_Events) ∧
      (b.(eb_ReasonBucket) = "none" ↔ Forall (λ e, ¬ problem e) b.(eb_Events)) ∧
      b.(eb_PayloadFiles) = payload_files le w' ∧
      b.(eb_StateSnapshot) = Some w.(sv_state) ∧ b.(eb_ConfigSnapshot) = Some w.(sv_cfg)
  | None =>
      resp.(rp_Status) = 500%Z ∧
      (is_Some (le.(le_OpenError) w') ∨ is_Some (le.(le_MkdirError) (run_export_dir w)) ∨
       all_short (log_lines le w) = false ∨ ∃ path, is_Some (le.(le_WriteError) path))
  end.
Proof.
  rewrite export_eq. destruct (le_MkdirError le (run_export_dir w)) as [e|] eqn:Hm.
  { split; [by destruct w|]. eauto 10. }
  destruct (le_OpenError le _) as [e|] eqn:Ho; [split; [done|]; eauto 10|].
  rewrite query_no_filter. destruct (all_short (log_lines le w)) eqn:Hs; [|split; [done|]; eauto 10].
  destruct (le_WriteError le _) as [e|] eqn:Hw; (split; [done|]); [eauto 10|].
  split_and!; try done.
  - eexists. split; [done|]. apply bundle_name_plain.
  - apply filterEventsByCategory_eq.
  - apply reasonBucket_none.
Qed.
End exports.

(** ** A message that blinds the log *)

Section blinded.
Context (number : num → string) (le : log_environment).
Context (clock : nat → Z) (range : gmap string string → list (string * string)).

(** Marshal writes a string field with at least its own bytes. *)
Hypothesis line_holds_fields : ∀ e k s,
  e.(ev_Fields) !! k = Some (JStr s) → (Z.of_nat (String.length s) ≤ (le.(le_Line) e).(ln_Size))%Z.

Lemma long_event_blinds w e k s :
  e ∈ w.(sv_events) → e.(ev_Fields) !! k = Some (JStr s) → (max_line ≤ Z.of_nat (String.length s))%Z →
  all_short (log_lines le w) = false.
Proof.
  intros He Hk Hs. apply line_holds_fields in Hk. apply not_true_iff_false. unfold all_short, log_lines.
  rewrite forallb_forall. intros H.
  assert (Hin : In (le_Line le e) (le_Prior le ++ map (le_Line le) (sv_events w))).
  { apply in_app_iff. right. by apply in_map, list_elem_of_In. }
  specialize (H _ Hin). bool_props. lia.
Qed.

Lemma wire_respond_logs op host session xml status w :
  ∃ e, e ∈ (wire_respond clock op host session (Handled xml status) w).2.(sv_events) ∧
       e.(ev_Fields) !! "session_id" = Some (JStr session).
Proof.
  unfold wire_respond. run. rewrite when_eq. cbn [fst snd].
  eexists. split; [apply elem_of_app; right; apply list_elem_of_singleton; reflexivity|reflexivity].
Qed.

(** C37. One accepted message is enough to blind the log: after a message whose
    session identifier has 2^20 bytes or more, no export of the process ever
    succeeds again. *)
Theorem long_session_blocks_exports r w data m v r' w' :
  wire_message r = Ok (data, m) →
  hostAllowedLocked w (wire_host m) = true →
  variant_for w m.(pm_RootLocalName) = Some v →
  (max_line ≤ Z.of_nat (String.length (get_str m.(pm_Fields) "sessionId")))%Z →
  (handleWire clock range r w).2.(sv_events) `prefix_of` w'.(sv_events) →
  (handleControlExport number le clock r' w').1.2 = None ∧
  (handleControlExport number le clock r' w').1.1.(rp_Status) = 500%Z.
Proof.
  intros Hm Ha Hv Hl Hp.
  destruct (handleWire_message clock range r w data m Hm) as (w1 & Hq1 & Hs1 & n & Hw). cbv zeta in Hw. set (session := wire_session m w (clock n)) in Hw.
  rewrite Hw in Hp. rewrite <-(host_admitted_quiet w w1) in Ha by done.
  assert (Hv1 : variant_for w1 (pm_RootLocalName m) = Some v)
    by (unfold variant_for in *; by rewrite (quiet_pack _ _ Hq1)).
  destruct (wire_locked_handled clock range _ _ session (wire_egm m (sv_cfg w)) w1 v Ha Hv1)
    as (w2 & He & _). rewrite M_bind_eq, He in Hp. cbn [fst snd] in Hp.
  match type of Hp with context [Handled ?x ?st] =>
    destruct (wire_respond_logs (pm_RootLocalName m) (wire_host m) session x st w2) as (e & Hin & Hk) end.
  assert (Hin' : e ∈ w'.(sv_events)).
  { destruct Hp as [more Hmore]. rewrite Hmore. apply elem_of_app. by left. }
  rewrite <-(wire_session_given m w (clock n)) in Hl by (intros Hn; by rewrite Hn in Hl). fold session in Hl.
  rewrite export_eq, query_no_filter, (long_event_blinds w' e "session_id" session) by done.
  cbv zeta. destruct (le_MkdirError le _); [done|]. by destruct (le_OpenError le _).
Qed.
End blinded.

(** ** Witnesses *)

Definition text_size (j : json) : nat := match j with JStr s => String.length s | _ => 0 end.
Definition fields_size (fields : gmap string json) : nat :=
  list_sum (map (λ kv : string * json, text_size kv.2) (map_to_obj fields)).

Lemma fields_size_le fields k s : fields !! k = Some (JStr s) → String.length s ≤ fields_size fields.
Proof.
  intros H. unfold fields_size.
  assert (Hin : (k, JStr s) ∈ map_to_obj fields)
    by (rewrite (map_to_obj_perm fields); by apply elem_of_map_to_list).
  apply list_elem_of_split in Hin as (l1 & l2 & ->). rewrite map_app, list_sum_app. simpl. lia.
Qed.

(** A log whose lines have as many bytes as the texts of their events. *)
Definition example_log : log_environment := {|
  le_Prior := [];
  le_Line := λ e, mkLine (Z.of_nat (fields_size e.(ev_Fields))) (Some e);
  le_OpenError := λ _, None;
  le_PayloadDir := λ _, Ok [];
  le_MkdirError := λ _, None;
  le_WriteError := λ _, None;
|}.

Definition example_event (n : nat) : Event :=
  mkEvent (Z.of_nat n) "info" "state" "state updated" "vegm-1" {[ "reason" := JStr "wire keepAlive" ]}.
Definition with_events (l : list Event) : Server := set_sv_events l example_server.

Fixpoint letters (n : nat) : string := match n with 0 => "" | S n' => String "a" (letters n') end.

Lemma letters_length n : String.length (letters n) = n.
Proof. induction n as [|n IH]; simpl; congruence. Qed.

Lemma letters_trim_right n : trim_space_right (letters n) = letters n.
Proof.
  induction n as [|n IH]; [done|]. cbn [letters trim_space_right].
  assert (H : all_space_go 0 (String "a" (letters n)) = false) by (by destruct n as [|[|[|n]]]).
  by rewrite H, IH.
Qed.

Lemma letters_trim n : TrimSpace (letters n) = letters n.
Proof.
  assert (H : trim_space_left_go 0 (letters n) = letters n) by (by destruct n as [|[|[|[|n]]]]).
  unfold TrimSpace. rewrite H. apply letters_trim_right.
Qed.

Lemma char_data_fields cur text p :
  TrimSpace text = text → text ≠ "" → (char_data cur text p).(pe_Fields) = <[cur := text]> p.(pe_Fields).
Proof.
  intros Ht Hn. unfold char_data. rewrite Ht, bool_decide_eq_false_2 by done.
  by repeat case_bool_decide.
Qed.

Definition long_fields (n : nat) : list (string * string) :=
  [("hostId", "HOST-001"); ("sessionId", letters (S n))].

Definition long_request (n : nat) : Request := {|
  rq_Method := "POST"; rq_ContentType := "text/xml";
  rq_Bytes := Ok (mkBytes "..." (mkStream
    (legacy_tokens SOAP11Namespace "urn:g2s:lab" "keepAlive"
      (long_fields n)) None));
  rq_Json := None; rq_JsonError := "EOF" |}.

Definition long_parsed (n : nat) : ParsedG2SEnvelope :=
  foldl add_field (legacy_start SOAP11Namespace "urn:g2s:lab" "keepAlive") (long_fields n).

Lemma long_parsed_fields n :
  (long_parsed n).(pe_Fields) = <["sessionId" := letters (S n)]> {["hostId" := "HOST-001"]}.
Proof.
  unfold long_parsed, long_fields. cbn [foldl]. unfold add_field. cbn [fst snd].
  rewrite char_data_fields; [|apply letters_trim|discriminate].
  rewrite char_data_fields; [|done|done]. reflexivity.
Qed.

Lemma long_envelope n :
  ParseG2SEnvelope (mkStream (legacy_tokens SOAP11Namespace "urn:g2s:lab" "keepAlive" (long_fields n)) None)
  = Ok (long_parsed n).
Proof.
  unfold ParseG2SEnvelope. cbn [xs_tokens xs_error].
  rewrite parse_legacy_tokens; [|right; left|by repeat split|unfold long_fields; repeat constructor; done].
  fold (long_parsed n). cbn [mbind result_bind].
  assert (Ho : (long_parsed n).(pe_OperationName) = "keepAlive") by apply add_fields_operation.
  assert (Hk : (long_parsed n).(pe_RootKind) = "legacy") by apply add_fields_kind.
  by rewrite Ho, Hk.
Qed.

Definition long_parsed_message (n : nat) : ParsedG2SMessage :=
  mkMessage "keepAlive" (long_parsed n).(pe_RootNamespace) (long_parsed n).(pe_SOAPNamespace)
    (long_parsed n).(pe_HasEnvelope) (long_parsed n).(pe_HasBody) (long_parsed n).(pe_Fields).

Lemma posted_message d j e :
  wire_message (mkRequest "POST" "text/xml" (Ok d) j e)
  = (m ← ParseG2SMessage d.(xb_stream); Ok (d, m)).
Proof. reflexivity. Qed.

Lemma long_message n :
  wire_message (long_request n) = Ok (mkBytes "..." (mkStream
    (legacy_tokens SOAP11Namespace "urn:g2s:lab" "keepAlive" (long_fields n)) None), long_parsed_message n).
Proof.
  unfold long_request. rewrite posted_message. cbn [xb_stream]. unfold ParseG2SMessage.
  rewrite long_envelope. cbn [mbind result_bind].
  assert (Ho : (long_parsed n).(pe_OperationName) = "keepAlive") by apply add_fields_operation.
  rewrite Ho. unfold long_parsed_message. reflexivity.
Qed.

Lemma long_message_host n : wire_host (long_parsed_message n) = "HOST-001".
Proof.
  unfold wire_host, get_str. cbn [long_parsed_message pm_Fields]. rewrite long_parsed_fields.
  by rewrite lookup_insert_ne, lookup_singleton_eq.
Qed.

Lemma long_message_session n : get_str (long_parsed_message n).(pm_Fields) "sessionId" = letters (S n).
Proof.
  unfold get_str. cbn [long_parsed_message pm_Fields]. by rewrite long_parsed_fields, lookup_insert_eq.
Qed.

Lemma example_log_lines e k s :
  e.(ev_Fields) !! k = Some (JStr s) →
  (Z.of_nat (String.length s) ≤ (example_log.(le_Line) e).(ln_Size))%Z.
Proof. intros H. apply Nat2Z.inj_le, (fields_size_le _ k), H. Qed.

Definition long_message_length : nat := Z.to_nat max_line.

Example long_session_blocks_exports_witness :
  (handleControlExport (λ _, "") example_log Z.of_nat (edit_request "")
    (handleWire Z.of_nat map_to_list (long_request long_message_length) example_server).2).1.2 = None.
Proof.
  pose proof (long_session_blocks_exports (λ _, "") example_log Z.of_nat map_to_list example_log_lines
    (long_request long_message_length) example_server _ _
    (mkVariant "ack" "<x/>" [] {[ "heartbeat_state" := JStr "healthy" ]} 200 ∅ 0)
    (edit_request "") (handleWire Z.of_nat map_to_list (long_request long_message_length) example_server).2
    (long_message long_message_length)) as H.
  rewrite long_message_host, long_message_session, letters_length in H.
  apply H; [reflexivity|reflexivity| |by exists []; rewrite app_nil_r]. unfold long_message_length, max_line. lia.
Defined.

Example handleControlLogs_frozen_witness :
  let l := map example_event (seq 0 200) in
  (handleControlLogs (λ _, "") example_log (example_request "")
     (with_events (l ++ map example_event (seq 200 50)))).1
  = mkResponse 200 (BEvents l).
Proof.
  apply (handleControlLogs_frozen (λ _, "") example_log (example_request "") (example_request "")
    (with_events (map example_event (seq 0 200)))); try reflexivity.
  by eexists.
Defined.
