(* ===== verification/Storage.v ===== *)
(** * The event index (src/storage/) and the opening of the log (src/runtime/logger.go)

    The two implementations of [storage.Index] behind one interface. The SQL
    engine is a driver whose answers may depend on everything executed on the
    connection so far; the statements and their arguments are the program's. *)

From S2P Require Import Prelude GoStrings Json Config Pack Render Envelope State Control Messages Logger.

(** ** Data: index.go *)

Record EventRecord := mkRecord {
  er_Time : Z;
  er_InstanceID : string;
  er_Level : string;
  er_Category : string;
  er_Message : string;
  er_MessageType : string;
  er_HostID : string;
  er_SessionID : string;
  er_PayloadPath : string;
}.

Record Query := mkQuery {
  q_Category : string;
  q_Level : string;
  q_MessageType : string;
  q_HostID : string;
  q_SessionID : string;
  q_Contains : string;
  q_Since : option Z;
  q_Until : option Z;
  q_Limit : Z;
}.

(** The interface, over the state of an index. *)
Class Index (S : Type) := {
  Initialize : S → result S;
  WriteEvent : S → EventRecord → result S;
  RunQuery : S → Query → result (list EventRecord);
  Close : S → result S;
}.

(** [eventToRecord] of logger.go *)
Definition eventToRecord (number : num → string) (evt : Event) (payloadPath : string) : EventRecord := {|
  er_Time := evt.(ev_Time);
  er_InstanceID := evt.(ev_InstanceID);
  er_Level := evt.(ev_Level);
  er_Category := evt.(ev_Category);
  er_Message := evt.(ev_Message);
  er_MessageType := firstField number evt.(ev_Fields) ["message_type"; "messageType"];
  er_HostID := firstField number evt.(ev_Fields) ["host_id"; "hostId"];
  er_SessionID := firstField number evt.(ev_Fields) ["session_id"; "sessionId"];
  er_PayloadPath := payloadPath;
|}.

(** ** noop.go *)

Inductive NoopIndex := Noop.

#[export] Instance noop_index : Index NoopIndex := {|
  Initialize := λ s, Ok s;
  WriteEvent := λ s _, Ok s;
  RunQuery := λ _ _, Ok [];
  Close := λ s, Ok s;
|}.

(** ** sqlite.go *)

(** What has been executed on the database, oldest first. *)
Abbreviation history := (list (string * list string)).

(** A row as it is scanned: the error of the scan or of the time, or the record. *)
Record driver := mkDriver {
  dr_Open : string → option string;
  dr_Exec : history → string → list string → option string;
  dr_Query : history → string → list string → result (list (result EventRecord));
  dr_Close : history → option string;
}.

(** The handle is open, with what was executed on it, once [Initialize] was
    done. *)
Record SQLiteIndex := mkSQLite { sq_path : string; sq_db : option history }.

Definition NewSQLiteIndex (path : string) : SQLiteIndex := mkSQLite path None.

Definition pragma_statement : string := "PRAGMA journal_mode=WAL;".
Definition schema_statement : string := join newline [""; "CREATE TABLE IF NOT EXISTS event_index (";
  "  id INTEGER PRIMARY KEY AUTOINCREMENT,"; "  time_utc TEXT NOT NULL,"; "  instance_id TEXT NOT NULL,";
  "  level TEXT,"; "  category TEXT,"; "  message TEXT,"; "  message_type TEXT,"; "  host_id TEXT,";
  "  session_id TEXT,"; "  payload_path TEXT"; ");";
  "CREATE INDEX IF NOT EXISTS idx_event_index_time ON event_index(time_utc);";
  "CREATE INDEX IF NOT EXISTS idx_event_index_message_type ON event_index(message_type);";
  "CREATE INDEX IF NOT EXISTS idx_event_index_host_id ON event_index(host_id);";
  "CREATE INDEX IF NOT EXISTS idx_event_index_session_id ON event_index(session_id);";
  "CREATE INDEX IF NOT EXISTS idx_event_index_category ON event_index(category);"; ""].
Definition insert_statement : string := join newline [""; "INSERT INTO event_index (";
  "  time_utc, instance_id, level, category, message, message_type, host_id, session_id, payload_path";
  ") VALUES (?, ?, ?, ?, ?, ?, ?, ?, ?)"; ""].

Definition insert_args (rec : EventRecord) : list string :=
  [RFC3339Nano rec.(er_Time); rec.(er_InstanceID); rec.(er_Level); rec.(er_Category); rec.(er_Message);
   rec.(er_MessageType); rec.(er_HostID); rec.(er_SessionID); rec.(er_PayloadPath)].

(** [if v != "" { where = append(where, clause); args = append(args, arg) }] *)
Definition given_clause (v clause arg : string) : list (string * string) :=
  if given v then [(clause, arg)] else [].
Definition time_clause (t : option Z) (clause : string) : list (string * string) :=
  match t with Some t => [(clause, RFC3339Nano t)] | None => [] end.

(** The clauses after [1=1], each with its argument. *)
Definition clauses (q : Query) : list (string * string) :=
  given_clause q.(q_Category) "category = ?" q.(q_Category)
  ++ given_clause q.(q_Level) "level = ?" q.(q_Level)
  ++ given_clause q.(q_MessageType) "message_type = ?" q.(q_MessageType)
  ++ given_clause q.(q_HostID) "host_id = ?" q.(q_HostID)
  ++ given_clause q.(q_SessionID) "session_id = ?" q.(q_SessionID)
  ++ given_clause q.(q_Contains) "LOWER(message) LIKE ?" ("%" +:+ ToLower q.(q_Contains) +:+ "%")
  ++ time_clause q.(q_Since) "time_utc >= ?"
  ++ time_clause q.(q_Until) "time_utc <= ?".

Definition query_statement (q : Query) : string :=
  "SELECT time_utc, instance_id, level, category, message, message_type, host_id, session_id, payload_path FROM event_index WHERE "
  +:+ join " AND " ("1=1" :: map fst (clauses q)) +:+ " ORDER BY time_utc DESC, id DESC"
  +:+ (if (0 <? q.(q_Limit))%Z then " LIMIT " +:+ itoa q.(q_Limit) else "").

Definition query_args (q : Query) : list string := map snd (clauses q).

Section sqlite.
Context (dr : driver).

Definition sqlite_Initialize (s : SQLiteIndex) : result SQLiteIndex :=
  if bool_decide (s.(sq_path) = "") then Err "sqlite path is required"
  else match dr.(dr_Open) s.(sq_path) with
  | Some e => Err e
  | None =>
      match dr.(dr_Exec) [] pragma_statement [] with
      | Some e => Err e
      | None =>
          let h := [(pragma_statement, [])] in
          match dr.(dr_Exec) h schema_statement [] with
          | Some e => Err e
          | None => Ok (mkSQLite s.(sq_path) (Some (h ++ [(schema_statement, [])])))
          end
      end
  end.

Definition sqlite_WriteEvent (s : SQLiteIndex) (rec : EventRecord) : result SQLiteIndex :=
  match s.(sq_db) with
  | None => Err "sqlite index is not initialized"
  | Some h =>
      match dr.(dr_Exec) h insert_statement (insert_args rec) with
      | Some e => Err e
      | None => Ok (mkSQLite s.(sq_path) (Some (h ++ [(insert_statement, insert_args rec)])))
      end
  end.

(** The loop over the rows: the first that cannot be read ends it. *)
Fixpoint scan_rows (rows : list (result EventRecord)) : result (list EventRecord) :=
  match rows with
  | [] => Ok []
  | row :: rest => rec ← row; out ← scan_rows rest; Ok (rec :: out)
  end.

Definition sqlite_Query (s : SQLiteIndex) (q : Query) : result (list EventRecord) :=
  match s.(sq_db) with
  | None => Err "sqlite index is not initialized"
  | Some h => rows ← dr.(dr_Query) h (query_statement q) (query_args q); scan_rows rows
  end.

Definition sqlite_Close (s : SQLiteIndex) : result SQLiteIndex :=
  match s.(sq_db) with
  | None => Ok s
  | Some h => match dr.(dr_Close) h with Some e => Err e | None => Ok s end
  end.

#[export] Instance sqlite_index : Index SQLiteIndex := {|
  Initialize := sqlite_Initialize;
  WriteEvent := sqlite_WriteEvent;
  RunQuery := sqlite_Query;
  Close := sqlite_Close;
|}.

(** ** factory.go *)

(** The dynamic value behind the interface. *)
Inductive index := INoop (s : NoopIndex) | ISQLite (s : SQLiteIndex).

#[export] Instance index_index : Index index := {|
  Initialize := λ i, match i with INoop s => INoop <$> Initialize s | ISQLite s => ISQLite <$> Initialize s end;
  WriteEvent := λ i r,
    match i with INoop s => INoop <$> WriteEvent s r | ISQLite s => ISQLite <$> WriteEvent s r end;
  RunQuery := λ i q, match i with INoop s => RunQuery s q | ISQLite s => RunQuery s q end;
  Close := λ i, match i with INoop s => INoop <$> Close s | ISQLite s => ISQLite <$> Close s end;
|}.

Definition NewIndex (backend sqlitePath : string) : result index :=
  if bool_decide (backend ∈ [""; "noop"]) then Ok (INoop Noop)
  else if bool_decide (backend = "sqlite") then Ok (ISQLite (NewSQLiteIndex sqlitePath))
  else Err ("unsupported storage backend " +:+ quote backend).

(** ** Opening the log: logger.go *)

(** Which calls on the file system fail, and how. *)
Record log_files := mkLogFiles {
  lf_Mkdir : string → option string;
  lf_Append : string → option string;
}.

Record Logger := mkLogger {
  lg_eventPath : string;
  lg_payloadDir : string;
  lg_logDir : string;
  lg_instanceID : string;
  lg_index : index;
}.

Definition failing (ctx : string) (e : option string) : result unit :=
  match e with Some e => Err (ctx +:+ ": " +:+ e) | None => Ok () end.

(** The index is given; a nil one is replaced by [NoopIndex]. *)
Definition NewLoggerWithIndex (lf : log_files) (dir instanceID : string) (idx : option index)
    : result Logger :=
  _ ← failing "mkdir log dir" (lf.(lf_Mkdir) dir);
  let payloadDir := JoinPath [dir; "payloads"] in
  _ ← failing "mkdir payload dir" (lf.(lf_Mkdir) payloadDir);
  let eventPath := JoinPath [dir; "events.jsonl"] in
  _ ← failing "open event log" (lf.(lf_Append) eventPath);
  let idx := default (INoop Noop) idx in
  idx ← wrap_err "initialize storage index" (Initialize idx);
  Ok (mkLogger eventPath payloadDir dir instanceID idx).

Definition NewLogger (lf : log_files) (dir instanceID : string) : result Logger :=
  NewLoggerWithIndex lf dir instanceID (Some (INoop Noop)).

(** The part of [NewServer] that opens the index and the log. *)
Definition open_storage (lf : log_files) (instanceID backend sqlitePath dir : string) : result unit :=
  idx ← NewIndex backend sqlitePath;
  _ ← NewLoggerWithIndex lf dir instanceID (Some idx);
  Ok ().

(** What [Logger.Log] writes to the index: one record per event; errors are
    dropped, and the index is then what it was. *)
Definition log_to_index (number : num → string) (i : index) (evt : Event) : index :=
  match WriteEvent i (eventToRecord number evt "") with Ok i' => i' | Err _ => i end.

(** [Logger.Close], whose file is then closed too. *)
Definition close_logger (closeFile : option string) (l : Logger) : option string :=
  let _ := Close l.(lg_index) in closeFile.
End sqlite.

(** ** Lemmas *)

(** What the database makes of a statement: the placeholders stand for the
    arguments in their order, each written as the literal [lit] of its value. A
    placeholder without an argument or an argument without a placeholder is
    refused. *)
Fixpoint bind (lit : string → string) (stmt : string) (args : list string) : option string :=
  match stmt with
  | EmptyString => match args with [] => Some "" | _ => None end
  | String c stmt' =>
      if bool_decide (c = "?"%char) then
        match args with [] => None | a :: args' => (λ t, lit a +:+ t) <$> bind lit stmt' args' end
      else String c <$> bind lit stmt' args
  end.

(** A part of a statement that takes [args] and comes out as [out]. *)
Definition binds (lit : string → string) (stmt : string) (args : list string) (out : string) : Prop :=
  ∀ stmt' args', bind lit (stmt +:+ stmt') (args ++ args') = (λ t, out +:+ t) <$> bind lit stmt' args'.

Lemma binds_all lit stmt args out : binds lit stmt args out → bind lit stmt args = Some out.
Proof.
  intros H. specialize (H "" []). rewrite string_app_nil_r, app_nil_r in H.
  rewrite H. cbn. by rewrite string_app_nil_r.
Qed.

Lemma binds_app lit s1 a1 o1 s2 a2 o2 :
  binds lit s1 a1 o1 → binds lit s2 a2 o2 → binds lit (s1 +:+ s2) (a1 ++ a2) (o1 +:+ o2).
Proof.
  intros H1 H2 s a. rewrite <-string_app_assoc, <-app_assoc, H1, H2, <-option_fmap_compose.
  apply option_fmap_ext. intros t. cbn. by rewrite string_app_assoc.
Qed.

Lemma binds_free lit s : free_of "?" s = true → binds lit s [] s.
Proof.
  intros H s' a'. induction s as [|c s IH].
  { change ("" +:+ s') with s'. cbn [app]. by destruct (bind lit s' a'). }
  change (negb (bool_decide (c = "?"%char)) && free_of "?" s = true) in H.
  change (String c s +:+ s') with (String c (s +:+ s')). cbn [bind app].
  destruct (bool_decide (c = "?"%char)); [done|]. cbn [app] in IH. rewrite (IH H). by destruct (bind lit s' a').
Qed.

Lemma binds_value lit a : binds lit "?" [a] (lit a).
Proof. intros s' a'. reflexivity. Qed.

(** A clause and the list of clauses, joined by text without placeholders. *)
Lemma binds_clause lit c a : free_of "?" c = true → binds lit (c +:+ "?") [a] (c +:+ lit a).
Proof. intros H. apply (binds_app lit c [] c); [by apply binds_free|apply binds_value]. Qed.

Lemma binds_join lit sep (l : list (string * list string * string)) :
  free_of "?" sep = true →
  Forall (λ x, binds lit x.1.1 x.1.2 x.2) l →
  binds lit (join sep (map (λ x, x.1.1) l)) (concat (map (λ x, x.1.2) l)) (join sep (map snd l)).
Proof.
  intros Hs. unfold join. induction l as [|x [|y l] IH]; intros H.
  - apply (binds_free lit ""). done.
  - cbn. rewrite app_nil_r. by inversion H.
  - inversion H as [|?? Hx Hl]; subst.
    change (binds lit (x.1.1 +:+ sep +:+ String.concat sep (map (λ x, x.1.1) (y :: l)))
      (x.1.2 ++ [] ++ concat (map (λ x, x.1.2) (y :: l))) (x.2 +:+ sep +:+ String.concat sep (map snd (y :: l)))).
    apply binds_app; [done|]. apply binds_app; [by apply binds_free|]. by apply IH.
Qed.

(** What a search asks, column by column: the comparison, and the value when
    one is given. *)
Definition filled (v : string) : option string := if given v then Some v else None.
Definition criteria (q : Query) : list (string * option string) := [
  ("category = ", filled q.(q_Category)); ("level = ", filled q.(q_Level));
  ("message_type = ", filled q.(q_MessageType)); ("host_id = ", filled q.(q_HostID));
  ("session_id = ", filled q.(q_SessionID));
  ("LOWER(message) LIKE ", (λ v, "%" +:+ ToLower v +:+ "%") <$> filled q.(q_Contains));
  ("time_utc >= ", RFC3339Nano <$> q.(q_Since)); ("time_utc <= ", RFC3339Nano <$> q.(q_Until))].

(** The conditions with their values written out. *)
Definition conditions (lit : string → string) (q : Query) : list string :=
  omap (λ '(c, v), (λ v, c +:+ lit v) <$> v) (criteria q).

Lemma clauses_criteria q :
  clauses q = omap (λ '(c, v), (λ v, (c +:+ "?", v)) <$> v) (criteria q).
Proof.
  unfold clauses, criteria, given_clause, time_clause, filled.
  destruct (given (q_Category q)), (given (q_Level q)), (given (q_MessageType q)), (given (q_HostID q)),
    (given (q_SessionID q)), (given (q_Contains q)), (q_Since q), (q_Until q); reflexivity.
Qed.

(** A record, column by column. *)
Definition columns (r : EventRecord) : list (string * string) := [
  ("time_utc", RFC3339Nano r.(er_Time)); ("instance_id", r.(er_InstanceID)); ("level", r.(er_Level));
  ("category", r.(er_Category)); ("message", r.(er_Message)); ("message_type", r.(er_MessageType));
  ("host_id", r.(er_HostID)); ("session_id", r.(er_SessionID)); ("payload_path", r.(er_PayloadPath))].

(** What the text of a query may depend on: which fields are given, not what
    they say. *)
Definition shape (q : Query) : list bool * Z :=
  ([given q.(q_Category); given q.(q_Level); given q.(q_MessageType); given q.(q_HostID);
    given q.(q_SessionID); given q.(q_Contains); bool_decide (is_Some q.(q_Since));
    bool_decide (is_Some q.(q_Until))], q.(q_Limit)).

Lemma given_clause_shape v v' clause arg arg' :
  given v = given v' → map fst (given_clause v clause arg) = map fst (given_clause v' clause arg').
Proof. unfold given_clause. intros ->. by destruct (given v'). Qed.

Lemma time_clause_shape t t' clause :
  bool_decide (is_Some t) = bool_decide (is_Some t') →
  map fst (time_clause t clause) = map fst (time_clause t' clause).
Proof. by destruct t, t'. Qed.

Lemma statement_shape q q' : shape q = shape q' → query_statement q = query_statement q'.
Proof.
  intros H. unfold shape in H. injection H as H1 H2 H3 H4 H5 H6 H7 H8 H9.
  unfold query_statement. rewrite H9. do 3 f_equal. unfold clauses. rewrite !map_app.
  f_equal. repeat (f_equal; [by apply given_clause_shape|]).
  f_equal; by apply time_clause_shape.
Qed.

Lemma limit_free q : free_of "?" (if (0 <? q.(q_Limit))%Z then " LIMIT " +:+ itoa q.(q_Limit) else "") = true.
Proof. destruct (0 <? _)%Z; [|done]. by rewrite free_of_app, itoa_free. Qed.

(** The clauses of a search as parts of a statement. *)
Lemma criteria_free q : Forall (λ c, free_of "?" c.1 = true) (criteria q).
Proof. by repeat constructor. Qed.

Lemma conditions_binds lit (l : list (string * option string)) :
  Forall (λ c, free_of "?" c.1 = true) l →
  ∃ parts : list (string * list string * string),
    Forall (λ x, binds lit x.1.1 x.1.2 x.2) parts ∧
    map (λ x, x.1.1) parts = map fst (omap (λ '(c, v), (λ v, (c +:+ "?", v)) <$> v) l) ∧
    concat (map (λ x, x.1.2) parts) = map snd (omap (λ '(c, v), (λ v, (c +:+ "?", v)) <$> v) l) ∧
    map snd parts = omap (λ '(c, v), (λ v, c +:+ lit v) <$> v) l.
Proof.
  induction 1 as [|[c [v|]] l Hc _ (parts & H1 & H2 & H3 & H4)]; [by exists []| |by exists parts].
  exists ((c +:+ "?", [v], c +:+ lit v) :: parts). cbn. rewrite H2, H3, H4. split_and!; [|done..].
  constructor; [by apply binds_clause|done].
Qed.

Lemma statement_binds lit q :
  binds lit (query_statement q) (query_args q)
    ("SELECT time_utc, instance_id, level, category, message, message_type, host_id, session_id, payload_path FROM event_index WHERE "
     +:+ join " AND " ("1=1" :: conditions lit q) +:+ " ORDER BY time_utc DESC, id DESC"
     +:+ (if (0 <? q.(q_Limit))%Z then " LIMIT " +:+ itoa q.(q_Limit) else "")).
Proof.
  destruct (conditions_binds lit (criteria q) (criteria_free q)) as (parts & H1 & H2 & H3 & H4).
  unfold query_statement, query_args, conditions. rewrite clauses_criteria, <-H2, <-H3, <-H4.
  pose proof (binds_join lit " AND " (("1=1", [], "1=1") :: parts) eq_refl) as Hj.
  rewrite <-(app_nil_r (concat _)).
  apply (binds_app lit _ [] _); [by apply binds_free|]. apply binds_app.
  - apply Hj. constructor; [by apply binds_free|done].
  - apply (binds_free lit (" ORDER BY time_utc DESC, id DESC" +:+ _)). rewrite free_of_app. apply limit_free.
Qed.

Lemma insert_binds lit r :
  binds lit insert_statement (insert_args r) (join newline ["";
    "INSERT INTO event_index ("; "  " +:+ join ", " (map fst (columns r));
    ") VALUES (" +:+ join ", " (map (λ c, lit c.2) (columns r)) +:+ ")"; ""]).
Proof.
  pose proof (binds_join lit ", " (map (λ c, ("?", [c.2], lit c.2)) (columns r)) eq_refl) as Hj.
  set (pre := join newline [""; "INSERT INTO event_index ("; "  " +:+ join ", " (map fst (columns r)); ") VALUES ("]).
  assert (Ho : ∀ x, join newline [""; "INSERT INTO event_index ("; "  " +:+ join ", " (map fst (columns r));
      ") VALUES (" +:+ x +:+ ")"; ""] = pre +:+ x +:+ (")" +:+ newline)).
  { intros x. unfold pre, join. cbn [String.concat]. rewrite <-!string_app_assoc. reflexivity. }
  rewrite Ho.
  change (binds lit (pre +:+ join ", " (map (λ x, x.1.1) (map (λ c, ("?", [c.2], lit c.2)) (columns r))) +:+ (")" +:+ newline))
    ([] ++ concat (map (λ x, x.1.2) (map (λ c, ("?", [c.2], lit c.2)) (columns r))) ++ [])
    (pre +:+ join ", " (map snd (map (λ c, ("?", [c.2], lit c.2)) (columns r))) +:+ (")" +:+ newline))).
  apply binds_app; [by apply binds_free|]. apply binds_app; [|by apply binds_free].
  apply Hj. repeat (constructor; [apply binds_value|]). constructor.
Qed.

(** ** Properties *)

(** C40. A statement of the index says what it is meant to say and holds no value.
    However the database writes values down, a search with its arguments bound
    reads: every condition that is given on the column it is about, with its own
    value, and nothing else, newest first, up to the limit; an insertion gives
    every column the value of its own field. The text of a search is fixed by
    which conditions are given and by the number of the limit. *)
Theorem query_statement_safe lit :
  (∀ q, bind lit (query_statement q) (query_args q) = Some (
      "SELECT time_utc, instance_id, level, category, message, message_type, host_id, session_id, payload_path FROM event_index WHERE "
      +:+ join " AND " ("1=1" :: conditions lit q) +:+ " ORDER BY time_utc DESC, id DESC"
      +:+ (if (0 <? q.(q_Limit))%Z then " LIMIT " +:+ itoa q.(q_Limit) else ""))) ∧
  (∀ q q', shape q = shape q' → query_statement q = query_statement q') ∧
  (∀ r, bind lit insert_statement (insert_args r) = Some (join newline ["";
      "INSERT INTO event_index ("; "  " +:+ join ", " (map fst (columns r));
      ") VALUES (" +:+ join ", " (map (λ c, lit c.2) (columns r)) +:+ ")"; ""])).
Proof.
  split_and!.
  - intros q. apply binds_all, statement_binds.
  - apply statement_shape.
  - intros r. apply binds_all, insert_binds.
Qed.

(** A failed call against the calls that must not fail. *)
Ltac refused := cbn [mbind result_bind wrap_err]; split; [intros [? ?]; congruence | intros ?; destruct_and!; congruence].

(** The statements that the index executes on opening. *)
Definition opened : history := [(pragma_statement, []); (schema_statement, [])].

(** No call fails that the opening of a log makes. *)
Record opens (dr : driver) (lf : log_files) (s : StorageConfig) (dir : string) : Prop := {
  opens_dir : lf.(lf_Mkdir) dir = None;
  opens_payloads : lf.(lf_Mkdir) (JoinPath [dir; "payloads"]) = None;
  opens_events : lf.(lf_Append) (JoinPath [dir; "events.jsonl"]) = None;
  opens_database : s.(st_Backend) = "sqlite" →
    dr.(dr_Open) s.(st_SQLitePath) = None ∧ dr.(dr_Exec) [] pragma_statement [] = None ∧
    dr.(dr_Exec) [(pragma_statement, [])] schema_statement [] = None;
}.

Lemma failing_ok ctx e : failing ctx e = Ok () ↔ e = None.
Proof. by destruct e. Qed.

Lemma result_ok_tt {A} (r : result A) : (_ ← r; Ok ()) = Ok () ↔ ∃ a, r = Ok a.
Proof.
  destruct r as [a|e]; cbn; split; try done; [by exists a|by intros [? [=]]].
Qed.

Lemma sqlite_Initialize_ok dr path :
  path ≠ "" →
  (∃ i, sqlite_Initialize dr (NewSQLiteIndex path) = Ok i) ↔
  dr.(dr_Open) path = None ∧ dr.(dr_Exec) [] pragma_statement [] = None ∧
  dr.(dr_Exec) [(pragma_statement, [])] schema_statement [] = None.
Proof.
  intros Hp. unfold sqlite_Initialize. cbn [NewSQLiteIndex sq_path].
  rewrite bool_decide_eq_false_2 by done.
  destruct (dr_Open dr path); [refused|]. destruct (dr_Exec dr [] _ _); [refused|].
  destruct (dr_Exec dr _ schema_statement _); [refused|]. split; [done|eauto].
Qed.

Lemma NewLogger_ok dr lf dir id idx :
  (∃ l, NewLoggerWithIndex dr lf dir id (Some idx) = Ok l) ↔
  lf.(lf_Mkdir) dir = None ∧ lf.(lf_Mkdir) (JoinPath [dir; "payloads"]) = None ∧
  lf.(lf_Append) (JoinPath [dir; "events.jsonl"]) = None ∧ ∃ i, Initialize (Index := index_index dr) idx = Ok i.
Proof.
  unfold NewLoggerWithIndex, failing.
  destruct (lf_Mkdir lf dir); [refused|]. cbn [mbind result_bind].
  destruct (lf_Mkdir lf _); [refused|]. cbn [mbind result_bind].
  destruct (lf_Append lf _); [refused|]. cbn [mbind result_bind].
  change (default (INoop Noop) (Some idx)) with idx. change (Datatypes.id idx) with idx.
  destruct (Initialize idx) as [i|e]; cbn [wrap_err mbind result_bind].
  - split; intros _; [by split_and!; eauto|by eexists].
  - split; [by intros [? ?]|by intros (_ & _ & _ & i & ?)].
Qed.

(** The storage of an accepted configuration can be opened: with the checks
    of the configuration passed, the log of a new server opens exactly when the
    file system and the database let it, and never for want of a backend or a
    path. *)
Theorem open_storage_correct dr lf id s dir :
  storage_ok s →
  open_storage dr lf id (or_default s.(st_Backend) "noop") s.(st_SQLitePath) dir = Ok () ↔ opens dr lf s dir.
Proof.
  intros Hs. unfold open_storage.
  assert (Hi : ∃ i, NewIndex (or_default s.(st_Backend) "noop") s.(st_SQLitePath) = Ok i ∧
    ((∃ i', Initialize (Index := index_index dr) i = Ok i') ↔
     (s.(st_Backend) = "sqlite" →
      dr.(dr_Open) s.(st_SQLitePath) = None ∧ dr.(dr_Exec) [] pragma_statement [] = None ∧
      dr.(dr_Exec) [(pragma_statement, [])] schema_statement [] = None))).
  { destruct Hs as [Hb|[Hb Hp]].
    - exists (INoop Noop). rewrite !elem_of_cons in Hb.
      destruct Hb as [->|[->|[]%not_elem_of_nil]]; (split; [reflexivity|]);
        (split; [by intros _ ?|intros _; by eexists]).
    - rewrite Hb. exists (ISQLite (NewSQLiteIndex s.(st_SQLitePath))). split; [reflexivity|].
      rewrite <-(sqlite_Initialize_ok dr) by done. cbn [Initialize index_index sqlite_index].
      destruct (sqlite_Initialize _ _) as [i|e]; cbn; [split; eauto|].
      split; [by intros [? ?]|intros H; by destruct (H eq_refl)]. }
  destruct Hi as (i & -> & Hi). cbn [mbind result_bind].
  rewrite result_ok_tt, NewLogger_ok, Hi. split; [by intros (?&?&?&?)|by intros []].
Qed.

(** The index mirrors the log: while the database takes the records, logging
    events executes one insertion per event, in order, with the event's own
    fields; the columns of a search come from the first spelling that an event
    uses. *)
Theorem index_mirrors_log dr number p h evs :
  (∀ h' args, dr.(dr_Exec) h' insert_statement args = None) →
  foldl (log_to_index dr number) (ISQLite (mkSQLite p (Some h))) evs
  = ISQLite (mkSQLite p (Some (h ++
      map (λ e, (insert_statement, insert_args (eventToRecord number e ""))) evs))).
Proof.
  intros Hd. revert h. induction evs as [|e evs IH]; intros h; cbn [foldl map].
  { by rewrite app_nil_r. }
  assert (Hw : log_to_index dr number (ISQLite (mkSQLite p (Some h))) e
    = ISQLite (mkSQLite p (Some (h ++ [(insert_statement, insert_args (eventToRecord number e ""))])))).
  { unfold log_to_index. cbn [WriteEvent index_index sqlite_index]. unfold sqlite_WriteEvent.
    cbn [sq_db]. by rewrite Hd. }
  by rewrite Hw, IH, <-app_assoc.
Qed.

(** Times are compared as texts, and the texts of times are not ordered as the
    times are: half a second after the full second comes before it. *)
Lemma time_text_order :
  let full := 1700000000000000000%Z in
  String.ltb (RFC3339Nano (full + 500000000)) (RFC3339Nano full) = true.
Proof. vm_compute. reflexivity. Qed.

(** ** Witnesses *)

Definition example_driver : driver := mkDriver (λ _, None) (λ _ _ _, None) (λ _ _ _, Ok []) (λ _, None).
Definition example_files : log_files := mkLogFiles (λ _, None) (λ _, None).

Example open_storage_correct_witness :
  open_storage example_driver example_files "vegm-1" "sqlite" "./index.db" "./logs" = Ok ().
Proof.
  apply (open_storage_correct example_driver example_files "vegm-1" (mkStorage "sqlite" "./index.db") "./logs").
  - by right.
  - by split.
Defined.

Example index_mirrors_log_witness :
  foldl (log_to_index example_driver (λ _, "")) (ISQLite (mkSQLite "./index.db" (Some opened)))
    [example_event 1; example_event 2]
  = ISQLite (mkSQLite "./index.db" (Some (opened ++
      [(insert_statement, insert_args (mkRecord 1 "vegm-1" "info" "state" "state updated" "" "" "" ""));
       (insert_statement, insert_args (mkRecord 2 "vegm-1" "info" "state" "state updated" "" "" "" ""))]))).
Proof. rewrite index_mirrors_log by done. reflexivity. Defined.
