(* ===== verification/Evidence.v ===== *)
(** * The latest exchange as evidence (src/runtime/evidence_latest.go)

    The payload files that the process writes are found again by their names and
    paired, the newest request with a response of its kind. What the directory
    holds is given by the environment of the log; sorting is a parameter, since
    [sort.Slice] leaves the order of equally new files open. *)

From S2P Require Import Prelude GoStrings Json Config Pack Render Envelope State Control Messages Outbound Scheduler Logger.

(** ** Data *)

Record latestEvidencePayload := mkLatest {
  lp_Path : string;
  lp_Name : string;
  lp_Direction : string;
  lp_MessageType : string;
  lp_ModifiedAt : option Z;
  lp_SizeBytes : Z;
  lp_Content : string;
  lp_ParsedRoot : string;
  lp_ParsedClass : string;
  lp_ParsedOp : string;
  lp_NestedAck : string;
  lp_ParseError : string;
}.

Definition no_payload : latestEvidencePayload := mkLatest "" "" "" "" None 0 "" "" "" "" "" "".

Record evidencePairing := mkPairing {
  ep_Strategy : string;
  ep_RequestMessageType : string;
  ep_ResponseMessageType : string;
  ep_MatchedMessageType : bool;
  ep_ResponseOlderThanRequest : bool;
  ep_ResponseAgeDeltaMS : Z;
  ep_Warning : string;
}.

Record latestEvidenceResponse := mkLatestResponse {
  lr_InstanceID : string;
  lr_XMLMode : string;
  lr_XMLNamespace : string;
  lr_XMLEGMLocation : string;
  lr_ExpectedAck : string;
  lr_ActualAck : string;
  lr_ParsedRootKind : string;
  lr_ParsedClass : string;
  lr_ParsedOperation : string;
  lr_RawRoot : string;
  lr_Pairing : evidencePairing;
  lr_Transcript : string;
  lr_Request : latestEvidencePayload;
  lr_Response : latestEvidencePayload;
  lr_State : gmap string string;
}.

(** ** Names of payload files *)

(** [t.UTC().Format("20060102T150405.000000000Z")] *)
Definition payload_time (nanos : Z) : string :=
  let secs := (nanos / 1000000000)%Z in
  let '(y, m, d) := civil_from_days (secs / 86400) in
  let s := (secs mod 86400)%Z in
  pad 4 y +:+ pad 2 m +:+ pad 2 d +:+ "T" +:+
  pad 2 (s / 3600)%Z +:+ pad 2 (s / 60 mod 60)%Z +:+ pad 2 (s mod 60)%Z +:+ "." +:+
  pad 9 (nanos mod 1000000000)%Z +:+ "Z".

(** The name that [WritePayload] gives a file. *)
Definition payload_name (p : Payload) : string :=
  payload_time p.(pl_Time) +:+ "_" +:+ p.(pl_Direction) +:+ "_" +:+ p.(pl_Operation) +:+ ".xml".

Example payload_name_1 : payload_name (mkPayload 1700000000000000042 "outbound_request" "keepAlive" "")
  = "20231114T221320.000000042Z_outbound_request_keepAlive.xml".
Proof. reflexivity. Qed.

Definition marker (direction : string) : string := "_" +:+ direction +:+ "_".

Definition messageTypeFromPayloadName (name direction : string) : string :=
  match index (marker direction) name with
  | None => ""
  | Some idx => trim_suffix ".xml" (drop_bytes (idx + String.length (marker direction)) name)
  end.

(** ** The latest payload *)

(** The test of the loop over the entries. *)
Definition payload_candidate (direction messageType : string) (entry : dir_entry) : bool :=
  if entry.(de_IsDir) then false
  else if negb (contains (marker direction) entry.(de_Name)) || negb (has_suffix ".xml" entry.(de_Name))
  then false
  else if given messageType && differs (messageTypeFromPayloadName entry.(de_Name) direction) messageType
  then false
  else true.

(** What is read from a file. *)
Definition read_payload (payloadDir direction : string) (entry : dir_entry) : latestEvidencePayload :=
  let path := JoinPath [payloadDir; entry.(de_Name)] in
  let messageType := messageTypeFromPayloadName entry.(de_Name) direction in
  let out := mkLatest path entry.(de_Name) direction messageType (Some entry.(de_ModTime))
               entry.(de_Size) in
  match entry.(de_Data) with
  | Err e => out "" "" "" "" "" e
  | Ok data =>
      let ack := firstNestedAckName data.(xb_stream) in
      match ParseG2SEnvelope data.(xb_stream) with
      | Ok parsed =>
          out data.(xb_raw) (firstNonEmpty [parsed.(pe_OperationName); parsed.(pe_RawRoot)])
            parsed.(pe_ClassName) parsed.(pe_OperationName) ack ""
      | Err e => out data.(xb_raw) (ParseMessage data).(parsed_RootLocalName) "" "" ack e
      end
  end.

Section sorting.
(** [sort.Slice] by modification time, the newest first. *)
Context (newest_first : list dir_entry → list dir_entry).
(** What [os.ReadDir] returns for a directory. *)
Context (ReadDir : string → result (list dir_entry)).

Definition latestPayloadForMessageType (payloadDir direction messageType : string) : latestEvidencePayload :=
  if bool_decide (payloadDir = "") then no_payload
  else match ReadDir payloadDir with
  | Err e => mkLatest "" "" "" "" None 0 "" "" "" "" "" e
  | Ok entries =>
      match newest_first (List.filter (payload_candidate direction messageType) entries) with
      | [] => no_payload
      | entry :: _ => read_payload payloadDir direction entry
      end
  end.

Definition latestPayload (payloadDir direction : string) : latestEvidencePayload :=
  latestPayloadForMessageType payloadDir direction "".

(** ** Pairing *)

Definition joinEvidenceWarnings (existing next : string) : string :=
  if bool_decide (existing = "") then next
  else if bool_decide (next = "") then existing
  else existing +:+ "; " +:+ next.

Definition present (p : latestEvidencePayload) : bool := given p.(lp_Path).

Definition annotatePairingAge (pairing : evidencePairing) (request response : latestEvidencePayload)
    : evidencePairing :=
  if negb (present request) || negb (present response) then pairing
  else match request.(lp_ModifiedAt), response.(lp_ModifiedAt) with
  | Some asked, Some answered =>
      let delta := time_sub answered asked in
      let ms := (delta ÷ 1000000)%Z in
      let '(mkPairing strategy req res matched older _ warning) := pairing in
      if (delta <? 0)%Z
      then mkPairing strategy req res matched true ms
             (joinEvidenceWarnings warning "matched response is older than latest request")
      else mkPairing strategy req res matched older ms warning
  | _, _ => pairing
  end.

Definition matched_pairing (strategy : string) (request response : latestEvidencePayload)
    : latestEvidencePayload * evidencePairing :=
  (response, annotatePairingAge
    (mkPairing strategy request.(lp_MessageType) response.(lp_MessageType) true false 0 "") request response).

(** [pairing.Warning = joinEvidenceWarnings(pairing.Warning, ...)] *)
Definition warn_mismatch (request response : latestEvidencePayload) (pairing : evidencePairing)
    : evidencePairing :=
  if present request && present response && negb pairing.(ep_MatchedMessageType)
  then
    let '(mkPairing strategy req res matched older ms warning) := pairing in
    mkPairing strategy req res matched older ms
      (joinEvidenceWarnings warning "latest response does not match latest request message_type")
  else pairing.

Definition fallback_pairing (payloadDir : string) (request : latestEvidencePayload)
    : latestEvidencePayload * evidencePairing :=
  let response := latestPayload payloadDir "outbound_response" in
  let response := if present response then response else latestPayload payloadDir "inbound_response" in
  let matched := given request.(lp_MessageType)
                 && bool_decide (request.(lp_MessageType) = response.(lp_MessageType)) in
  let pairing := mkPairing "fallback_latest_response" request.(lp_MessageType) response.(lp_MessageType)
                   matched false 0 "" in
  (response, warn_mismatch request response (annotatePairingAge pairing request response)).

Definition pairedLatestResponse (payloadDir : string) (request : latestEvidencePayload)
    : latestEvidencePayload * evidencePairing :=
  if given request.(lp_MessageType) then
    let response := latestPayloadForMessageType payloadDir "outbound_response" request.(lp_MessageType) in
    if present response then matched_pairing "matched_outbound_response" request response
    else
      let response := latestPayloadForMessageType payloadDir "inbound_response" request.(lp_MessageType) in
      if present response then matched_pairing "matched_inbound_response" request response
      else fallback_pairing payloadDir request
  else fallback_pairing payloadDir request.

(** ** The answer *)

Definition evidenceTranscript (out : latestEvidenceResponse) : string :=
  let req := out.(lr_Request) in let res := out.(lr_Response) in let p := out.(lr_Pairing) in
  let st := get_str out.(lr_State) in
  "instance=" +:+ out.(lr_InstanceID) +:+ " xml_mode=" +:+ out.(lr_XMLMode) +:+ newline
  +:+ "request=" +:+ req.(lp_MessageType)
  +:+ " parsed=" +:+ firstNonEmpty [req.(lp_ParsedOp); req.(lp_ParsedRoot)]
  +:+ " file=" +:+ req.(lp_Name) +:+ newline
  +:+ "response=" +:+ res.(lp_MessageType)
  +:+ " parsed=" +:+ firstNonEmpty [res.(lp_ParsedOp); res.(lp_ParsedRoot)]
  +:+ " nested_ack=" +:+ res.(lp_NestedAck) +:+ " file=" +:+ res.(lp_Name) +:+ newline
  +:+ "pairing=" +:+ p.(ep_Strategy) +:+ " matched=" +:+ btoa p.(ep_MatchedMessageType)
  +:+ " delta_ms=" +:+ itoa p.(ep_ResponseAgeDeltaMS) +:+ " stale=" +:+ btoa p.(ep_ResponseOlderThanRequest)
  +:+ (if bool_decide (p.(ep_Warning) = "") then "" else " warning=" +:+ p.(ep_Warning)) +:+ newline
  +:+ "expected_ack=" +:+ out.(lr_ExpectedAck) +:+ " actual_ack=" +:+ out.(lr_ActualAck) +:+ newline
  +:+ "state session=" +:+ st "session_state" +:+ " connection=" +:+ st "connection_state"
  +:+ " heartbeat=" +:+ st "heartbeat_state" +:+ " error=" +:+ st "last_error" +:+ newline.

Definition evidence_state (s : RuntimeState) : gmap string string := list_to_map [
  ("session_state", s.(rs_SessionState));
  ("heartbeat_state", s.(rs_HeartbeatState));
  ("connection_state", s.(rs_ConnectionState));
  ("last_error", s.(rs_LastError));
  ("last_message_type", s.(rs_LastMessageType));
  ("last_command_type", s.(rs_LastCommandType));
  ("last_ack_status", s.(rs_LastAckStatus))].

(** [logger.payloadDir] *)
Definition payload_dir (w : Server) : string := JoinPath [w.(sv_cfg).(cfg_Logging).(lo_Dir); "payloads"].

Definition set_le_Transcript (v : string) (out : latestEvidenceResponse) : latestEvidenceResponse :=
  mkLatestResponse out.(lr_InstanceID) out.(lr_XMLMode) out.(lr_XMLNamespace) out.(lr_XMLEGMLocation)
    out.(lr_ExpectedAck) out.(lr_ActualAck) out.(lr_ParsedRootKind) out.(lr_ParsedClass)
    out.(lr_ParsedOperation) out.(lr_RawRoot) out.(lr_Pairing) v out.(lr_Request) out.(lr_Response)
    out.(lr_State).

(** What is answered, from what the handler has read. *)
Definition evidence_of (cfg : Config) (evidence : sessionParseEvidenceSet) (xmlInfo : G2SXMLConfig) (s : RuntimeState)
    (dir : string) : latestEvidenceResponse :=
  let request := latestPayload dir "outbound_request" in
  let '(response, pairing) := pairedLatestResponse dir request in
  let out := {|
    lr_InstanceID := cfg.(cfg_InstanceID);
    lr_XMLMode :=
      firstNonEmpty [evidence.(pv_G2SXMLMode); xmlInfo.(gx_Mode); cfg.(cfg_G2SXML).(gx_Mode)];
    lr_XMLNamespace :=
      firstNonEmpty [evidence.(pv_G2SXMLNamespace); xmlInfo.(gx_Namespace); cfg.(cfg_G2SXML).(gx_Namespace)];
    lr_XMLEGMLocation := firstNonEmpty [evidence.(pv_G2SXMLEGMLocation); xmlInfo.(gx_EGMLocation);
      cfg.(cfg_G2SXML).(gx_EGMLocation)];
    lr_ExpectedAck := evidence.(pv_LastExpectedAck);
    lr_ActualAck := evidence.(pv_LastActualAck);
    lr_ParsedRootKind := evidence.(pv_LastParsedRootKind);
    lr_ParsedClass := evidence.(pv_LastParsedClass);
    lr_ParsedOperation := evidence.(pv_LastParsedOperation);
    lr_RawRoot := evidence.(pv_LastRawRoot);
    lr_Pairing := pairing;
    lr_Transcript := "";
    lr_Request := request;
    lr_Response := response;
    lr_State := evidence_state s;
  |} in
  set_le_Transcript (evidenceTranscript out) out.

(** A refusal, or the evidence with status 200. *)
Definition handleControlEvidenceLatest (r : Request) : M (Response + latestEvidenceResponse) :=
  if negb (bool_decide (r.(rq_Method) = "GET")) then x ← method_not_allowed; mret (inl x)
  else
    cfg ← gets sv_cfg;
    evidence ← gets (λ w, parseEvidenceForInstance w cfg.(cfg_InstanceID));
    xmlInfo ← gets (λ w, xmlModeInfoForInstance cfg.(cfg_InstanceID) w.(sv_xmlModes));
    s ← get_state;
    dir ← gets payload_dir;
    mret (inr (evidence_of cfg evidence xmlInfo s dir)).
End sorting.

(** ** Lemmas: names *)

Lemma drop_bytes_app a s : drop_bytes (String.length a) (a +:+ s) = s.
Proof. induction a as [|c a IH]; [done|]. by rewrite string_app_cons. Qed.

Lemma take_bytes_app a s : take_bytes (String.length a) (a +:+ s) = a.
Proof.
  induction a as [|c a IH]; [by destruct s|]. rewrite string_app_cons. cbn. by rewrite IH.
Qed.

Lemma has_suffix_end p s : has_suffix p (s +:+ p) = true.
Proof.
  induction s as [|c s IH].
  - change ("" +:+ p) with p. destruct p; cbn [has_suffix]; by rewrite bool_decide_eq_true_2.
  - rewrite string_app_cons. cbn [has_suffix]. by rewrite IH, orb_true_r.
Qed.

Lemma trim_suffix_app p s : trim_suffix p (s +:+ p) = s.
Proof.
  unfold trim_suffix. rewrite has_suffix_end, string_length_app, Nat.add_sub. apply take_bytes_app.
Qed.

(** A marker is looked for from its first byte on. *)
Lemma index_skip c a p s :
  free_of c a = true → index (String c p) (a +:+ s) = Nat.add (String.length a) <$> index (String c p) s.
Proof.
  induction a as [|d a IH].
  - intros _. change ("" +:+ s) with s. by destruct (index (String c p) s).
  - cbn [free_of]. intros H. bool_props. rewrite string_app_cons. cbn [index has_prefix].
    rewrite (bool_decide_eq_false_2 (c = d)) by congruence. cbn [andb]. rewrite IH by done.
    by destruct (index (String c p) s).
Qed.

Lemma index_head p s : index p (p +:+ s) = Some 0.
Proof. assert (H := has_prefix_app p s). destruct (p +:+ s); cbn [index]; by rewrite H. Qed.

Lemma pad_free c n z : numeral_byte c = false → free_of c (pad n z) = true.
Proof.
  intros Hc. unfold pad. rewrite free_of_app, itoa_free by done. rewrite andb_true_r.
  assert (H0 : negb (bool_decide ("0"%char = c)) = true).
  { unfold numeral_byte in Hc. apply negb_false_iff in Hc. cbn [free_of] in Hc. bool_props.
    by apply negb_true_iff, bool_decide_eq_false_2. }
  induction (n - String.length (itoa z)) as [|k IH]; [done|].
  destruct k as [|k]; cbn [replicate String.concat]; [cbn; by rewrite H0|].
  cbn [replicate String.concat] in IH. rewrite !free_of_app, IH. cbn. by rewrite H0.
Qed.

Lemma payload_time_free c :
  numeral_byte c = false → c ≠ "T"%char → c ≠ "."%char → c ≠ "Z"%char →
  ∀ t, free_of c (payload_time t) = true.
Proof.
  intros Hc H1 H2 H3 t. unfold payload_time. destruct (civil_from_days _) as [[y m] d].
  rewrite !free_of_app, !pad_free by done. cbn [free_of andb].
  by rewrite !bool_decide_eq_false_2 by congruence.
Qed.

Lemma payload_name_found p :
  index (marker p.(pl_Direction)) (payload_name p) = Some (String.length (payload_time p.(pl_Time))).
Proof.
  unfold payload_name, marker.
  change ("_" +:+ pl_Direction p +:+ "_") with (String "_" (pl_Direction p +:+ "_")).
  change ("_" +:+ pl_Direction p +:+ "_" +:+ pl_Operation p +:+ ".xml")
    with (String "_" (pl_Direction p +:+ "_" +:+ (pl_Operation p +:+ ".xml"))).
  assert (E : String "_" (pl_Direction p +:+ "_" +:+ (pl_Operation p +:+ ".xml"))
    = String "_" (pl_Direction p +:+ "_") +:+ (pl_Operation p +:+ ".xml")).
  { etrans; [|symmetry; apply string_app_cons]. f_equal. apply string_app_assoc. }
  rewrite E, index_skip by (by apply payload_time_free). rewrite index_head. cbn. by rewrite Nat.add_0_r.
Qed.

Lemma payload_name_type p : messageTypeFromPayloadName (payload_name p) p.(pl_Direction) = p.(pl_Operation).
Proof.
  unfold messageTypeFromPayloadName. rewrite payload_name_found. unfold payload_name, marker.
  rewrite <-string_length_app.
  assert (E : payload_time (pl_Time p) +:+ "_" +:+ pl_Direction p +:+ "_" +:+ pl_Operation p +:+ ".xml"
    = (payload_time (pl_Time p) +:+ ("_" +:+ pl_Direction p +:+ "_")) +:+ (pl_Operation p +:+ ".xml"))
    by (by rewrite <-!string_app_assoc).
  rewrite E, drop_bytes_app. apply trim_suffix_app.
Qed.

Lemma payload_name_suffix p : has_suffix ".xml" (payload_name p) = true.
Proof. unfold payload_name. rewrite !string_app_assoc. apply has_suffix_end. Qed.

(** ** Lemmas: the latest payload *)

(** What is relied on of [sort.Slice] with the comparison of the code. *)
Class NewestFirst (sort : list dir_entry → list dir_entry) : Prop := {
  newest_perm : ∀ l, sort l ≡ₚ l;
  newest_head : ∀ l e rest, sort l = e :: rest → Forall (λ e', (e'.(de_ModTime) ≤ e.(de_ModTime))%Z) rest;
}.

Lemma JoinPath_given dir name : dir ≠ "" → given (JoinPath [dir; name]) = true.
Proof.
  intros Hd. unfold given, JoinPath. rewrite filter_cons_True by done.
  apply negb_true_iff, bool_decide_eq_false_2. unfold Clean.
  set (p := join "/" _). set (body := join "/" (reverse _)).
  destruct (has_prefix "/" p); [done|]. by case_bool_decide.
Qed.

Section latest.
Context (newest_first : list dir_entry → list dir_entry) `{HN : NewestFirst newest_first}.
Context (ReadDir : string → result (list dir_entry)).

Let latest := latestPayloadForMessageType newest_first ReadDir.

Lemma latest_cases dir direction mt :
  present (latest dir direction mt) = false ∧ (latest dir direction mt).(lp_MessageType) = "" ∧
    (latest dir direction mt).(lp_ModifiedAt) = None ∨
  ∃ entries e, ReadDir dir = Ok entries ∧ dir ≠ "" ∧ e ∈ entries ∧ payload_candidate direction mt e = true ∧
    latest dir direction mt = read_payload dir direction e ∧
    ∀ e', e' ∈ entries → payload_candidate direction mt e' = true → (e'.(de_ModTime) ≤ e.(de_ModTime))%Z.
Proof.
  unfold latest, latestPayloadForMessageType. case_bool_decide as Hd; [by left|].
  destruct (ReadDir dir) as [entries|err] eqn:Hr; [|by left].
  destruct (newest_first _) as [|e rest] eqn:Hs; [by left|]. right. exists entries, e.
  pose proof (newest_perm (List.filter (payload_candidate direction mt) entries)) as Hp. rewrite Hs in Hp.
  assert (Hin : ∀ x, x ∈ e :: rest ↔ x ∈ entries ∧ payload_candidate direction mt x = true).
  { intros x. rewrite Hp, !list_elem_of_In. apply filter_In. }
  destruct (proj1 (Hin e)) as [He Hc]; [by left|]. split_and!; try done.
  intros e' He' Hc'. destruct (proj1 (elem_of_cons _ _ _) (proj2 (Hin e') (conj He' Hc'))) as [->|Hrest]; [done|].
  pose proof (newest_head _ _ _ Hs) as Hn. rewrite Forall_forall in Hn. by apply Hn.
Qed.

Lemma read_payload_facts dir direction e :
  (read_payload dir direction e).(lp_Path) = JoinPath [dir; e.(de_Name)] ∧
  (read_payload dir direction e).(lp_MessageType) = messageTypeFromPayloadName e.(de_Name) direction ∧
  (read_payload dir direction e).(lp_ModifiedAt) = Some e.(de_ModTime).
Proof. unfold read_payload. destruct (de_Data e); [|done]. by destruct (ParseG2SEnvelope _). Qed.

Lemma candidate_type direction mt e :
  payload_candidate direction mt e = true → mt = "" ∨ messageTypeFromPayloadName e.(de_Name) direction = mt.
Proof.
  unfold payload_candidate. destruct (de_IsDir e); [done|]. destruct (_ || _); [done|].
  destruct (given mt && _) eqn:H; [done|]. intros _. by apply given_differs in H.
Qed.

(** A payload that was found has the wanted type and a modification time. *)
Lemma latest_present dir direction mt :
  present (latest dir direction mt) = true →
  (mt = "" ∨ (latest dir direction mt).(lp_MessageType) = mt) ∧
  is_Some (latest dir direction mt).(lp_ModifiedAt).
Proof.
  destruct (latest_cases dir direction mt) as [[-> _]|(entries & e & _ & _ & _ & Hc & -> & _)]; [done|].
  intros _. destruct (read_payload_facts dir direction e) as (_ & -> & ->). eauto using candidate_type.
Qed.

(** ** Lemmas: pairing *)

Definition older (request response : latestEvidencePayload) : Prop :=
  present request = true ∧ present response = true ∧
  ∃ asked answered, request.(lp_ModifiedAt) = Some asked ∧ response.(lp_ModifiedAt) = Some answered ∧
    (answered < asked)%Z.

Lemma time_sub_neg t u : (time_sub t u <? 0)%Z = (t <? u)%Z.
Proof. unfold time_sub, int64_min, int64_max. destruct (Z.ltb_spec t u); lia. Qed.

(** The age of a response relative to its request: their difference, kept within
    64 bits, in whole milliseconds towards zero; none without two payloads. *)
Definition age_ms (request response : latestEvidencePayload) (ms : Z) : Prop :=
  match request.(lp_ModifiedAt), response.(lp_ModifiedAt) with
  | Some asked, Some answered =>
      if present request && present response
      then ms = (Z.max (- 2 ^ 63) (Z.min (2 ^ 63 - 1) (answered - asked)) ÷ 1000000)%Z
      else ms = 0%Z
  | _, _ => ms = 0%Z
  end.

Definition warn_if (b : bool) (warning : string) : list string := if b then [warning] else [].

(** A pair without two modification times. *)
Ltac unrelated :=
  do 4 (split; [done|]);
  match goal with |- (_ ↔ ?P) ∧ _ =>
    assert (Hn : ¬ P) by (intros (? & ? & ? & ? & ? & ? & _); congruence)
  end;
  split; [split; [done|let H := fresh in intros H; contradiction]|];
  split; [repeat case_match; done|done].

Lemma annotate_spec s a b m request response :
  let p := annotatePairingAge (mkPairing s a b m false 0 "") request response in
  p.(ep_Strategy) = s ∧ p.(ep_RequestMessageType) = a ∧ p.(ep_ResponseMessageType) = b ∧
  p.(ep_MatchedMessageType) = m ∧
  (p.(ep_ResponseOlderThanRequest) = true ↔ older request response) ∧
  age_ms request response p.(ep_ResponseAgeDeltaMS) ∧
  p.(ep_Warning) = join "; " (warn_if p.(ep_ResponseOlderThanRequest) "matched response is older than latest request").
Proof.
  cbv zeta. unfold annotatePairingAge, older, age_ms.
  destruct (present request); cbn [negb orb andb]; [|unrelated].
  destruct (present response); cbn [negb orb andb]; [|unrelated].
  destruct (lp_ModifiedAt request) as [t|]; [|unrelated].
  destruct (lp_ModifiedAt response) as [u|]; [|unrelated].
  rewrite time_sub_neg. destruct (Z.ltb_spec u t); cbn -[time_sub Z.pow]; split_and!; try done.
  - split; [intros _; split_and!; eauto|done].
  - split; [done|]. intros (_ & _ & t' & u' & [= <-] & [= <-] & ?). lia.
Qed.

(** What holds of every pair that is shown. *)
Definition pairing_true (request : latestEvidencePayload) (out : latestEvidencePayload * evidencePairing) : Prop :=
  let '(response, p) := out in
  p.(ep_RequestMessageType) = request.(lp_MessageType) ∧
  p.(ep_ResponseMessageType) = response.(lp_MessageType) ∧
  (p.(ep_MatchedMessageType) = true ↔
     request.(lp_MessageType) ≠ "" ∧ request.(lp_MessageType) = response.(lp_MessageType)) ∧
  (p.(ep_ResponseOlderThanRequest) = true ↔ older request response) ∧
  age_ms request response p.(ep_ResponseAgeDeltaMS) ∧
  p.(ep_Warning) = join "; " (
    warn_if p.(ep_ResponseOlderThanRequest) "matched response is older than latest request"
    ++ warn_if (present request && present response && negb p.(ep_MatchedMessageType))
         "latest response does not match latest request message_type").

Lemma matched_true s request response :
  request.(lp_MessageType) ≠ "" → response.(lp_MessageType) = request.(lp_MessageType) →
  pairing_true request (matched_pairing s request response) ∧
  (matched_pairing s request response).2.(ep_Strategy) = s.
Proof.
  intros Hn Ht. unfold matched_pairing, pairing_true. cbn [snd].
  destruct (annotate_spec s request.(lp_MessageType) response.(lp_MessageType) true request response)
    as (Hs & Ha & Hb & Hm & Ho & Hd & Hw).
  split; [|exact Hs]. rewrite Hm. split; [exact Ha|]. split; [exact Hb|].
  split; [by rewrite Ht|]. split; [exact Ho|]. split; [exact Hd|]. cbn [negb]. by rewrite andb_false_r, app_nil_r.
Qed.

Lemma join_ne a b : joinEvidenceWarnings a b = "" ↔ a = "" ∧ b = "".
Proof.
  unfold joinEvidenceWarnings. repeat case_bool_decide; subst; try naive_solver.
  split; [|naive_solver]. by destruct a.
Qed.

Lemma fallback_true dir request : pairing_true request (fallback_pairing newest_first ReadDir dir request).
Proof.
  unfold fallback_pairing, pairing_true. cbv zeta.
  set (response := if present _ then _ else _). set (m := given _ && _).
  destruct (annotate_spec "fallback_latest_response" request.(lp_MessageType) response.(lp_MessageType) m
    request response) as (Hs & Ha & Hb & Hm & Ho & Hd & Hw).
  set (p := annotatePairingAge _ _ _) in *.
  assert (Hm' : m = true ↔ request.(lp_MessageType) ≠ "" ∧ request.(lp_MessageType) = response.(lp_MessageType)).
  { unfold m, given. rewrite andb_true_iff, negb_true_iff, bool_decide_eq_false, bool_decide_eq_true. done. }
  unfold warn_mismatch. rewrite Hm.
  destruct (present request && present response && negb m) eqn:Hc.
  - apply andb_true_iff in Hc as [[Hp1 Hp2]%andb_true_iff Hc]. apply negb_true_iff in Hc.
    destruct p as [s a b m' o ms w]. cbn in Ha, Hb, Hm, Ho, Hd, Hw |- *. rewrite Hp1, Hp2. subst m'. rewrite Hc.
    rewrite Hc in Hm'. split_and!; try done. subst w. by destruct o.
  - rewrite Ha, Hb, Hm, Hw, Hc. split_and!; try done. by rewrite app_nil_r.
Qed.

Lemma matched_shown s request response :
  (matched_pairing s request response).1 = response ∧ (matched_pairing s request response).2.(ep_Strategy) = s.
Proof.
  split; [done|]. unfold matched_pairing. cbn [snd]. by destruct (annotate_spec s request.(lp_MessageType) response.(lp_MessageType) true request response).
Qed.

Lemma fallback_shown dir request :
  let out := fallback_pairing newest_first ReadDir dir request in
  let shown response := out.1 = response ∧ out.2.(ep_Strategy) = "fallback_latest_response" in
  if present (latest dir "outbound_response" "") then shown (latest dir "outbound_response" "")
  else shown (latest dir "inbound_response" "").
Proof.
  assert (H : ∀ response,
    let m := given request.(lp_MessageType) && bool_decide (request.(lp_MessageType) = response.(lp_MessageType)) in
    (warn_mismatch request response (annotatePairingAge (mkPairing "fallback_latest_response"
      request.(lp_MessageType) response.(lp_MessageType) m false 0 "") request response)).(ep_Strategy)
    = "fallback_latest_response").
  { intros response m. destruct (annotate_spec "fallback_latest_response" request.(lp_MessageType)
      response.(lp_MessageType) m request response) as (Hs & _).
    set (p := annotatePairingAge _ _ _) in *. clearbody p. unfold warn_mismatch. destruct (_ && _ && _); by destruct p. }
  cbv zeta. unfold fallback_pairing, latestPayload. fold latest. cbv zeta.
  destruct (present (latest dir "outbound_response" "")); (split; [done|apply H]).
Qed.
End latest.

(** ** Properties *)

Section properties.
Context (newest_first : list dir_entry → list dir_entry) `{HN : NewestFirst newest_first}.
Context (ReadDir : string → result (list dir_entry)).

Let latest := latestPayloadForMessageType newest_first ReadDir.
Let paired := pairedLatestResponse newest_first ReadDir.

(** A payload that is shown is the file of its direction and type in the directory
    than which none such is newer; without such a file there is none. *)
Definition newest_payload (dir direction mt : string) (entries : list dir_entry) (p : latestEvidencePayload) : Prop :=
  (p = no_payload ∧ ∀ e, e ∈ entries → payload_candidate direction mt e = false) ∨
  ∃ e, e ∈ entries ∧ payload_candidate direction mt e = true ∧ p = read_payload dir direction e ∧
    ∀ e', e' ∈ entries → payload_candidate direction mt e' = true → (e'.(de_ModTime) ≤ e.(de_ModTime))%Z.

Lemma latest_payload_newest dir direction mt entries :
  ReadDir dir = Ok entries → dir ≠ "" → newest_payload dir direction mt entries (latest dir direction mt).
Proof.
  intros Hr Hd. destruct (latest_cases newest_first ReadDir dir direction mt)
    as [[Hp _]|(entries' & e & Hr' & _ & He)];
    [|right; exists e; rewrite Hr in Hr'; by simplify_eq].
  left. unfold latest. unfold latestPayloadForMessageType in *. rewrite bool_decide_eq_false_2, Hr in * by done.
  pose proof (newest_perm (List.filter (payload_candidate direction mt) entries)) as Hs.
  destruct (newest_first _) as [|e rest] eqn:He.
  - split; [done|]. intros e Hin. apply not_true_iff_false. intros Hc.
    apply Permutation_nil in Hs.
    assert (Hf : In e (List.filter (payload_candidate direction mt) entries))
      by (apply filter_In; by rewrite <-list_elem_of_In).
    by rewrite Hs in Hf.
  - unfold present in Hp. rewrite (proj1 (read_payload_facts dir direction e)), JoinPath_given in Hp by done.
    done.
Qed.

(** C38. What the evidence says of its pair is true of it: the types are those of
    the two payloads and match exactly when they are equal and not empty; the
    response is called older exactly when it is, its age is the difference of the
    two times, and the warnings are one for each of the two defects. Which
    response is shown: the newest that was received with the request's type, else
    the newest that was sent with it, else the newest that was received, else the
    newest that was sent. *)
Theorem pairedLatestResponse_correct dir request :
  let mt := request.(lp_MessageType) in
  let received := latest dir "outbound_response" in
  let sent := latest dir "inbound_response" in
  let shown out response strategy := out.1 = response ∧ out.2.(ep_Strategy) = strategy in
  let out := paired dir request in
  pairing_true request out ∧
  (if negb (bool_decide (mt = "")) && present (received mt) then shown out (received mt) "matched_outbound_response"
   else if negb (bool_decide (mt = "")) && present (sent mt) then shown out (sent mt) "matched_inbound_response"
   else if present (received "") then shown out (received "") "fallback_latest_response"
   else shown out (sent "") "fallback_latest_response") ∧
  (∀ entries direction t, ReadDir dir = Ok entries → dir ≠ "" →
   newest_payload dir direction t entries (latest dir direction t)).
Proof.
  cbv zeta. split; [|split].
  - unfold paired, pairedLatestResponse. fold latest. cbv zeta.
    destruct (given (lp_MessageType request)) eqn:Hg; unfold given in Hg; bool_props; [|apply fallback_true].
    destruct (present (latest dir "outbound_response" _)) eqn:Ho;
      [|destruct (present (latest dir "inbound_response" _)) eqn:Hi; [|apply fallback_true]].
    + destruct (latest_present newest_first ReadDir _ _ _ Ho) as [[?|Ht] _]; [done|].
      by destruct (matched_true "matched_outbound_response" request _ Hg Ht).
    + destruct (latest_present newest_first ReadDir _ _ _ Hi) as [[?|Ht] _]; [done|].
      by destruct (matched_true "matched_inbound_response" request _ Hg Ht).
  - unfold paired, pairedLatestResponse. fold latest. change (negb (bool_decide (?x = ""))) with (given x).
    destruct (given (lp_MessageType request)) eqn:Hg; cbn [andb].
    + destruct (present (latest dir "outbound_response" _)); [by apply matched_shown|].
      destruct (present (latest dir "inbound_response" _)); [by apply matched_shown|]. apply fallback_shown.
    + apply fallback_shown.
  - intros entries direction t. apply latest_payload_newest.
Qed.
End properties.

(** ** Who can write evidence *)

Section forged.
Context (clock : nat → Z) (range : gmap string string → list (string * string)).

Lemma wire_locked_quiet op host session egm w : quiet w (wire_locked clock range op host session egm w).2.
Proof.
  destruct (hostAllowedLocked w host) eqn:Ha.
  - destruct (variant_for w op) as [v|] eqn:Hv.
    + by destruct (wire_locked_handled clock range op host session egm w v Ha Hv) as (w' & -> & Hq & _).
    + rewrite wire_locked_undefined by done. apply quiet_on_state.
  - rewrite wire_locked_forbidden by done. apply quiet_on_state.
Qed.

Lemma wire_respond_quiet op host session d w : quiet w (wire_respond clock op host session d w).2.
Proof.
  destruct d; [done|done|]. unfold wire_respond. run. rewrite when_eq. cbn [fst snd].
  etrans; [|apply Log_quiet]. destruct (lo_CaptureRenderedXML _); [apply WritePayload_quiet|done].
Qed.

Lemma byte_in_low lo hi c : nat_of_ascii c < lo → byte_in lo hi c = false.
Proof. intros H. unfold byte_in. destruct (Nat.leb_spec lo (nat_of_ascii c)); [lia|done]. Qed.

Lemma part_byte_low c : part_byte c = true → nat_of_ascii c < 128.
Proof.
  unfold part_byte. case_bool_decide as Hc; [intros _; subst c; by apply Nat.ltb_lt|].
  rewrite orb_false_r, !orb_true_iff, !byte_in_spec. lia.
Qed.

Lemma part_sanitized s : part s = true → sanitize_runes 0 s = s.
Proof.
  induction s as [|c s IH]; [done|]. cbn [part]. intros H. bool_props.
  assert (Hr : rune_len (String c s) = 1).
  { pose proof (part_byte_low c ltac:(done)) as Hc. unfold rune_len. destruct s as [|b s]; [done|].
    rewrite !(byte_in_low _ _ c) by lia. cbn [andb orb]. by destruct s as [|d [|e s]]. }
  cbn [sanitize_runes]. rewrite Hr. change (1 - 1) with 0. rewrite IH by done. f_equal.
  unfold part_byte in H.
  destruct (_ || byte_in 48 57 c); [done|]. bool_props. cbn in H. by apply bool_decide_eq_true in H.
Qed.

(** What a captured message leaves behind before it is judged. *)
Lemma handleWire_captures r w data m :
  wire_message r = Ok (data, m) → w.(sv_cfg).(cfg_Logging).(lo_CaptureRawXML) = true →
  ∃ session w1, quiet w w1 ∧ w1.(sv_state) = w.(sv_state) ∧
    mkPayload (clock w.(sv_clock)) "inbound_request" (sanitizeFilePart m.(pm_RootLocalName)) data.(xb_raw)
      ∈ w1.(sv_payloads) ∧
    handleWire clock range r w
    = (wire_locked clock range m.(pm_RootLocalName) (wire_host m) session (wire_egm m w.(sv_cfg))
        ≫= wire_respond clock m.(pm_RootLocalName) (wire_host m) session) w1.
Proof.
  unfold wire_message. case_bool_decide as Hm; [|done]. cbn [negb].
  destruct (isXMLContentType (rq_ContentType r)) eqn:Hx; [|done]. cbn [negb]. intros H Hc.
  result_binds. simplify_eq. unfold handleWire, require_method.
  rewrite bool_decide_eq_true_2, Hx, E by done. cbn [negb]. rewrite E0.
  set (w0 := (WritePayload clock "inbound_request" (pm_RootLocalName m) (xb_raw data) w).2).
  eexists _, (set_sv_clock (S w0.(sv_clock)) w0). split; [|split; [done|split]].
  - transitivity w0; [apply WritePayload_quiet|]. split; try done. apply Nat.le_succ_diag_r.
  - cbn. apply elem_of_app. right. by apply list_elem_of_singleton.
  - run. rewrite when_eq. cbn [fst snd]. rewrite Hc. reflexivity.
Qed.

(** The operation of a message that poses as a response of type [t]. *)
Definition forged_operation (t : string) : string := "x_outbound_response_" +:+ t.

Lemma forged_candidate time t data mod_ size d :
  part t = true →
  payload_candidate "outbound_response" t
    (mkEntry (payload_name (mkPayload time "inbound_request" (sanitizeFilePart (forged_operation t)) data))
      false mod_ size d) = true.
Proof.
  intros Ht. unfold sanitizeFilePart. rewrite bool_decide_eq_false_2 by done.
  rewrite part_sanitized by done. unfold payload_candidate. cbn [de_IsDir de_Name].
  rewrite payload_name_suffix, orb_false_r.
  set (rest := "_inbound_request_x" +:+ (marker "outbound_response" +:+ (t +:+ ".xml"))).
  assert (E : payload_name (mkPayload time "inbound_request" (forged_operation t) data)
    = payload_time time +:+ rest) by reflexivity.
  assert (Hi : index (marker "outbound_response") (payload_name
      (mkPayload time "inbound_request" (forged_operation t) data))
    = Some (String.length (payload_time time) + 18)).
  { rewrite E. change (marker "outbound_response") with (String "_" "outbound_response_").
    rewrite index_skip by (by apply payload_time_free). reflexivity. }
  unfold contains. rewrite Hi. rewrite bool_decide_eq_true_2 by eauto. cbn [negb].
  unfold messageTypeFromPayloadName. rewrite Hi, E.
  assert (Hd : drop_bytes (String.length (payload_time time) + 18 + String.length (marker "outbound_response"))
    (payload_time time +:+ rest) = t +:+ ".xml").
  { unfold rest. rewrite !string_app_assoc, <-(string_app_assoc _ t).
    change 18 with (String.length "_inbound_request_x").
    rewrite <-!string_length_app. apply drop_bytes_app. }
  rewrite Hd, trim_suffix_app. unfold differs. rewrite bool_decide_eq_true_2 by done.
  by rewrite andb_false_r.
Qed.

(** C39. The evidence of what a host answered can be forged by anyone who reaches
    the wire: where raw messages are captured, one message with a made-up
    operation leaves a payload file that is taken for a received response of any
    type [t], even when its sender is refused. *)
Theorem refused_message_forges_evidence r w data m t :
  wire_message r = Ok (data, m) → m.(pm_RootLocalName) = forged_operation t → part t = true →
  w.(sv_cfg).(cfg_Logging).(lo_CaptureRawXML) = true →
  hostAllowedLocked w (wire_host m) = false →
  let w' := (handleWire clock range r w).2 in
  (handleWire clock range r w).1.(rp_Status) = 403%Z ∧
  ∃ p, p ∈ w'.(sv_payloads) ∧ p.(pl_Data) = data.(xb_raw) ∧
    ∀ mod_ size d, payload_candidate "outbound_response" t (mkEntry (payload_name p) false mod_ size d) = true.
Proof.
  intros Hm Ho Ht Hc Ha. cbv zeta.
  destruct (handleWire_captures r w data m Hm Hc) as (session & w1 & Hq & Hs & Hp & He).
  rewrite He, M_bind_eq. rewrite <-(host_admitted_quiet w w1) in Ha by done.
  rewrite (wire_locked_forbidden clock range _ _ _ _ _ Ha). cbn [fst snd]. split; [reflexivity|].
  eexists. split; [exact Hp|]. split; [reflexivity|]. intros. rewrite Ho. by apply forged_candidate.
Qed.
End forged.

(** ** Witnesses *)

Definition newer (a b : dir_entry) : Prop := (b.(de_ModTime) ≤ a.(de_ModTime))%Z.
#[export] Instance newer_dec : RelDecision newer.
Proof. intros a b. unfold newer. apply _. Defined.
#[export] Instance newer_total : Total newer.
Proof. intros a b. unfold newer. lia. Qed.
#[export] Instance newer_trans : Transitive newer.
Proof. intros a b c. unfold newer. lia. Qed.

(** Merge sort keeps what the development relies on. *)
#[export] Instance merge_newest_first : NewestFirst (merge_sort newer).
Proof.
  split; [apply merge_sort_Permutation|]. intros l e rest H.
  pose proof (StronglySorted_merge_sort newer l) as Hs. rewrite H in Hs. by inversion Hs.
Qed.

Definition example_file (direction op : string) (at_ : Z) : dir_entry :=
  mkEntry (payload_name (mkPayload at_ direction op "")) false at_ 0 (Err "no such file").
Definition example_dir (dir : string) : result (list dir_entry) :=
  Ok [example_file "outbound_request" "commsOnLine" 10000000; example_file "outbound_request" "keepAlive" 30000000;
      example_file "outbound_response" "keepAlive" 20000000; example_file "outbound_response" "commsOnLine" 40000000].

Example latest_payload_newest_witness :
  (latestPayload (merge_sort newer) example_dir "logs/payloads" "outbound_request").(lp_MessageType) = "keepAlive".
Proof.
  destruct (latest_payload_newest (merge_sort newer) example_dir "logs/payloads" "outbound_request" "" _
    eq_refl ltac:(done)) as [[_ H]|(e & He & Hc & Hl & Hn)].
  - specialize (H (example_file "outbound_request" "keepAlive" 30000000) ltac:(by do 2 constructor)). done.
  - unfold latestPayload. rewrite Hl.
    assert (H30 := Hn (example_file "outbound_request" "keepAlive" 30000000) ltac:(by do 2 constructor) eq_refl).
    rewrite !elem_of_cons in He.
    destruct He as [->|[->|[->|[->|[]%not_elem_of_nil]]]];
      [by exfalso; apply H30|vm_compute; reflexivity|vm_compute in Hc; discriminate..].
Defined.

(** The response of the type asked for is ten milliseconds older than the request,
    and the evidence says so. *)
Example pairedLatestResponse_correct_witness :
  let request := latestPayload (merge_sort newer) example_dir "logs/payloads" "outbound_request" in
  let '(_, p) := pairedLatestResponse (merge_sort newer) example_dir "logs/payloads" request in
  p.(ep_ResponseOlderThanRequest) = true ∧ p.(ep_ResponseAgeDeltaMS) = (-10)%Z ∧
  p.(ep_Warning) = "matched response is older than latest request".
Proof.
  cbv zeta. set (request := latestPayload _ _ _ _).
  destruct (pairedLatestResponse_correct (merge_sort newer) example_dir "logs/payloads" request)
    as (Ht & Hm & _). cbv zeta in Hm.
  match type of Hm with (if ?b then _ else _) =>
    assert (Hb : b = true) by (vm_compute; reflexivity); rewrite Hb in Hm; clear Hb end.
  destruct Hm as [Hr _]. unfold pairing_true in Ht. revert Ht Hr.
  destruct (pairedLatestResponse _ _ _ request) as [response p]. cbn [fst snd]. intros Ht Hr.
  subst response. destruct Ht as (_ & _ & Hm & Ho & Hd & Hw).
  assert (Ho' : p.(ep_ResponseOlderThanRequest) = true).
  { apply Ho. split; [vm_compute; reflexivity|]. split; [vm_compute; reflexivity|].
    exists 30000000%Z, 20000000%Z. split_and!; vm_compute; reflexivity. }
  assert (Hm' : p.(ep_MatchedMessageType) = true)
    by (apply Hm; split; [vm_compute; discriminate|vm_compute; reflexivity]).
  split; [exact Ho'|]. split.
  - etrans; [exact Hd|]. vm_compute. reflexivity.
  - rewrite Hw, Ho', Hm'. cbn [negb]. rewrite andb_false_r. reflexivity.
Defined.

(** Raw messages are captured and no host is admitted. *)
Definition captured_config : Config :=
  mkConfig "vegm-1" "HOST-1" "EGM-1" example_config.(cfg_EGMEndpoint) example_config.(cfg_HostEndpoint)
    example_config.(cfg_G2SXML) example_config.(cfg_SessionEngine) example_config.(cfg_Listen)
    example_config.(cfg_Security) (mkLogging "./logs" true false) example_config.(cfg_Storage)
    example_config.(cfg_Control) example_config.(cfg_Outbound) "./pack.json" [] ∅.
Definition captured_server : Server :=
  set_sv_cfg captured_config
    (set_sv_state (set_rs_AllowedHostIDs (mkSlice 0 0) example_server.(sv_state)) example_server).

Example refused_message_forges_evidence_witness :
  (handleWire Z.of_nat map_to_list (example_request (forged_operation "keepAlive")) captured_server).1.(rp_Status)
  = 403%Z.
Proof.
  destruct (wire_message (example_request (forged_operation "keepAlive"))) as [[data m]|] eqn:Hm;
    [|vm_compute in Hm; discriminate].
  apply (refused_message_forges_evidence Z.of_nat map_to_list _ captured_server data m "keepAlive" Hm);
    vm_compute in Hm; injection Hm as _ <-; vm_compute; reflexivity.
Defined.

(** The session engine stores a response under the acknowledgement it expects and
    as a response of the wire, so that its own exchanges are never matched. *)
Lemma session_exchange_unmatched :
  let dir := λ _, Ok [example_file "outbound_request" "keepAlive" 10;
                      example_file "inbound_response" "keepAliveAck" 20] in
  let request := latestPayload (merge_sort newer) dir "logs/payloads" "outbound_request" in
  (pairedLatestResponse (merge_sort newer) dir "logs/payloads" request).2.(ep_Warning)
  = "latest response does not match latest request message_type".
Proof. vm_compute. reflexivity. Qed.
