(* ===== verification/Threads.v ===== *)
(** * Requests and goroutines as sequences of atomic sections
    (src/runtime/wire_restore.go, control_restore.go, control_ui.go, outbound.go,
    scheduler.go, session_engine.go and its files)

    The handlers of the other files run to their end. Here each is cut where the
    code releases a lock or waits for its peer, so that others can run in between;
    run alone, a task is the handler. *)

From S2P Require Import Prelude GoStrings Json Config Pack Render Envelope State Control Messages Outbound Scheduler Session.

(** ** Tasks *)

(** A section takes the server to [after], and what is left of the task is what
    it read there. A section that takes the mutex runs when it has it: the waits
    are not part of the task. *)
Inductive task (A : Type) :=
  | Return (a : A)
  | Section_ (after : Server → Server) (next : Server → task A).
Arguments Return {A} _.
Arguments Section_ {A} _ _.

(** One section. *)
Definition lift {A} (x : M A) : task A := Section_ (λ w, (x w).2) (λ w, Return (x w).1).

#[export] Instance task_ret : MRet task := λ A a, Return a.
#[export] Instance task_bind : MBind task := λ A B f,
  fix go t := match t with
  | Return a => f a
  | Section_ after next => Section_ after (λ w, go (next w))
  end.

(** A task that nothing interrupts. *)
Fixpoint alone {A} (t : task A) : M A :=
  match t with
  | Return a => mret a
  | Section_ after next => λ w, alone (next w) (after w)
  end.

Lemma alone_lift {A} (x : M A) w : alone (lift x) w = x w.
Proof. cbn. by destruct (x w). Qed.

Lemma alone_bind {A B} (t : task A) (f : A → task B) w :
  alone (t ≫= f) w = (alone t ≫= λ a, alone (f a)) w.
Proof.
  revert w. induction t as [a|after next IH]; intros w; [done|].
  change (alone (Section_ after next ≫= f) w) with (alone (next w ≫= f) (after w)).
  rewrite IH. done.
Qed.

(** A task whose sections find the states [ws n], [ws (S n)], and so on, whatever
    happens in between: the states they leave, and the result. *)
Fixpoint through {A} (n : nat) (ws : nat → Server) (t : task A) : list Server * A :=
  match t with
  | Return a => ([], a)
  | Section_ after next => let '(l, a) := through (S n) ws (next (ws n)) in (after (ws n) :: l, a)
  end.

Lemma through_lift {A B} n ws (x : M A) (f : A → task B) :
  through n ws (lift x ≫= f)
  = ((x (ws n)).2 :: (through (S n) ws (f (x (ws n)).1)).1, (through (S n) ws (f (x (ws n)).1)).2).
Proof. cbn. by destruct (through _ _ _). Qed.

Lemma through_one {A} n ws (x : M A) : through n ws (lift x) = ([(x (ws n)).2], (x (ws n)).1).
Proof. done. Qed.

(** ** The handlers cut into sections

    [require_method] and the reading of a body touch nothing that is shared. *)

Section tasks.
Context (clock : nat → Z) (spare : nat → nat).
Context (range : gmap string string → list (string * string)).
Context (env : environment).

Definition refuse (msg : string) (status : Z) : task Response := Return (mkResponse status (BText msg)).

Definition task_method (method : string) (r : Request) (k : task Response) : task Response :=
  if bool_decide (r.(rq_Method) = method) then k else refuse "method not allowed" 405.

(** *** wire_restore.go *)

(** What [handleWire] does before it takes the lock: an answer, or the
    identifiers of the message. *)
Definition wire_received (r : Request) : M (Response + (string * string * string * string)) :=
  if negb (isXMLContentType r.(rq_ContentType)) then x ← http_error "unsupported content type" 415; mret (inl x)
  else match r.(rq_Bytes) with
  | Err e => x ← http_error e 400; mret (inl x)
  | Ok data =>
      match ParseG2SMessage data.(xb_stream) with
      | Err e =>
          Log clock "warn" "wire" "failed to parse inbound G2S message" {[ "error" := JStr e ]};;
          x ← http_error e 400; mret (inl x)
      | Ok parsed =>
          let opName := parsed.(pm_RootLocalName) in
          capture ← gets (λ w, w.(sv_cfg).(cfg_Logging).(lo_CaptureRawXML));
          when capture (WritePayload clock "inbound_request" opName data.(xb_raw));;
          t ← Now clock;
          cfg ← gets sv_cfg;
          fallback ← gets (λ w, default_session w t);
          let f := get_str parsed.(pm_Fields) in
          mret (inr (opName, firstNonEmpty [f "hostId"; f "hostID"; f "host_id"; "HOST-001"],
            firstNonEmpty [f "sessionId"; f "session_id"; fallback],
            firstNonEmpty [f "egmId"; f "egmID"; f "egm_id"; cfg.(cfg_EGMID)]))
      end
  end.

Definition wire_task (r : Request) : task Response :=
  task_method "POST" r (
  received ← lift (wire_received r);
  match received with
  | inl x => Return x
  | inr (opName, hostID, sessionID, egmID) =>
      d ← lift (wire_locked clock range opName hostID sessionID egmID);
      lift (wire_respond clock opName hostID sessionID d)
  end).

(** *** control_restore.go, control_ui.go *)

(** The locked part of [handleControlOverlay]. *)
Definition overlay_locked (overlay : MessageOverlay) : M (result (MessagePack * RuntimeState)) :=
  pk ← gets sv_pack;
  match ApplyOverlay (Some pk) (Some overlay) with
  | Err e => mret (Err e)
  | Ok updated =>
      modify (set_sv_pack updated);;
      on_state (set_rs_RegistrationState (registration_of updated));;
      s ← get_state;
      mret (Ok (updated, s))
  end.

Definition overlay_task (r : Request) : task Response :=
  task_method "POST" r (
  match decode_body (A := MessageOverlay) r with
  | None => refuse r.(rq_JsonError) 400
  | Some overlay =>
      res ← lift (overlay_locked overlay);
      match res with
      | Err e => refuse e 400
      | Ok (updated, s) =>
          lift (Log clock "info" "control" "overlay applied"
            {[ "overlay_name" := JStr overlay.(ov_OverlayName);
               "target_pack" := JStr overlay.(ov_TargetPack) ]});;
          Return (mkResponse 200 (BJson [("ok", JBool true); ("pack_name", JStr updated.(mp_PackName));
            ("registration_state", JStr s.(rs_RegistrationState))]))
      end
  end).

(** The configuration is assigned before the lock is taken. *)
Definition security_mode_task (r : Request) : task Response :=
  task_method "POST" r (
  match r.(rq_Json) ≫= λ j, dec_securityMode j (mkSecurityMode "") with
  | Some req =>
      if bool_decide (req.(sm_TrustMode) = "") then refuse "trust_mode is required" 400
      else
        lift (modify (set_trust_mode req.(sm_TrustMode)));;
        s ← lift (on_state (set_rs_TrustMode req.(sm_TrustMode));; get_state);
        Return (mkResponse 200 (BState s))
  | None => refuse "trust_mode is required" 400
  end).

(** The state is read again for the answer, without the lock. *)
Definition inject_task (r : Request) : task Response :=
  task_method "POST" r (
  match r.(rq_Json) ≫= λ j, dec_logical j (mkLogical "" "" "") with
  | None => refuse r.(rq_JsonError) 400
  | Some req =>
      match logicalCommandToOperation req.(lc_LogicalCommand) with
      | Err e => refuse e 400
      | Ok opName =>
          let hostID := firstNonEmpty [req.(lc_HostID); "HOST-001"] in
          let sessionID := firstNonEmpty [req.(lc_SessionID); "SCENARIO"] in
          res ← lift (processSimulatedInbound clock range opName hostID sessionID);
          match res with
          | Err e => refuse e 400
          | Ok (responseXML, status) =>
              s ← lift get_state;
              Return (mkResponse 200 (BJsonState [("ok", JBool true); ("operation", JStr opName);
                ("response_xml", JStr responseXML); ("status", enc_int status)] s))
          end
      end
  end).

(** *** outbound.go *)

(** The snapshot that [SendOutbound] takes under the lock. *)
Definition send_snapshot : M (MessagePack * gmap string string * Config) :=
  pk ← gets sv_pack;
  state ← gets (λ w, templateStateLocked w.(sv_state));
  cfg ← gets sv_cfg;
  mret (pk, state, cfg).

(** Up to the call: the message is rendered and captured. *)
Definition send_prepare (req : outboundRequest) (pk : MessagePack) (state : gmap string string)
    (cfg : Config) : M (result call) :=
  let out := cfg.(cfg_Outbound) in
  if bool_decide (req.(or_MessageType) = "") then mret (Err "message_type is required")
  else if bool_decide (target_url req cfg = "") then mret (Err "target url is required")
  else
    let targetURL := target_url req cfg in
    t ← Now clock;
    fallback ← gets (λ w, default_session w t);
    let sessionID := firstNonEmpty [req.(or_SessionID); fallback] in
    body ← outbound_body clock range pk state req sessionID;
    match body with
    | Err e => mret (Err e)
    | Ok body =>
        when cfg.(cfg_Logging).(lo_CaptureRenderedXML)
          (WritePayload clock "outbound_request" req.(or_MessageType) body);;
        match env.(env_bad_url) targetURL with
        | Some e => mret (Err e)
        | None =>
            mret (transport ← outboundTransport env cfg.(cfg_Security) cfg.(cfg_Security).(sec_TrustMode) out;
                  Ok (outbound_call req targetURL body out transport))
        end
    end.

(** What follows the reply. *)
Definition send_answered (req : outboundRequest) (c : call) (reply : result (Z * xml_bytes))
    : M (result outboundResult) :=
  match reply with
  | Err e =>
      Log clock "warn" "outbound" "outbound request failed"
        {[ "message_type" := JStr req.(or_MessageType); "target_url" := JStr c.(cl_URL); "error" := JStr e ]};;
      mret (Err e)
  | Ok (status, respBody) =>
      cfg ← gets sv_cfg;
      let parsedRoot := rootLocalNameFromResponse respBody in
      when cfg.(cfg_Logging).(lo_CaptureRawXML)
        (WritePayload clock "outbound_response" req.(or_MessageType) respBody.(xb_raw));;
      let res := outbound_result req status parsedRoot in
      Log clock "info" "outbound" "outbound request complete"
        {[ "message_type" := JStr req.(or_MessageType); "target_url" := JStr c.(cl_URL);
           "http_status" := enc_int status; "response_root" := JStr parsedRoot;
           "ok" := JBool res.(ob_OK); "allow_generic_ack" := JBool req.(or_AllowGenericAck);
           "xml_mode" := JStr cfg.(cfg_G2SXML).(gx_Mode) ]};;
      mret (Ok res)
  end.

Definition send_task (req : outboundRequest) : task (result outboundResult) :=
  '(pk, state, cfg) ← lift send_snapshot;
  c ← lift (send_prepare req pk state cfg);
  match c with
  | Err e => Return (Err e)
  | Ok c =>
      reply ← lift (Do env c);
      lift (send_answered req c reply)
  end.

Definition send_and_note_task (req : outboundRequest) : task Response :=
  res ← send_task req;
  match res with
  | Err e => refuse e 400
  | Ok res =>
      (if res.(ob_OK) then lift (note_success req.(or_MessageType)) else Return ());;
      Return (mkResponse 200 (BJson (result_fields res)))
  end.

Definition outbound_send_task (r : Request) : task Response :=
  task_method "POST" r (
  match r.(rq_Json) ≫= (λ j, dec_outboundRequest j (mkOutboundRequest "" "" "" "" false)) with
  | None => refuse r.(rq_JsonError) 400
  | Some req => send_and_note_task req
  end).

Definition send_like_task (msgType : string) (r : Request) : task Response :=
  task_method "POST" r (
  let req := dec_outboundRequest_lenient r in
  send_and_note_task (mkOutboundRequest msgType req.(or_HostID) req.(or_SessionID) req.(or_TargetURL)
    (if bool_decide (msgType = "keepAlive") then true else req.(or_AllowGenericAck)))).

(** *** scheduler.go *)

Definition scheduler_start_task (r : Request) : task Response :=
  task_method "POST" r (
  res ← lift (StartOutboundScheduler clock);
  match res with
  | Err e => refuse e 400
  | Ok _ => s ← lift get_state; Return (mkResponse 200 (BScheduler s.(rs_OutboundScheduler)))
  end).

Definition scheduler_stop_task (r : Request) : task Response :=
  task_method "POST" r (
  _ ← lift (StopOutboundScheduler clock);
  s ← lift get_state; Return (mkResponse 200 (BScheduler s.(rs_OutboundScheduler)))).

Definition tick_task (cfg : OutboundSchedulerConfig) : task unit :=
  operation ← lift (tick_begin clock cfg);
  match operation with
  | None => Return ()
  | Some operation =>
      res ← send_task (tick_request operation);
      lift (updateSchedulerAfterResult clock operation res cfg)
  end.

(** *** session_engine.go and its files *)

Definition exchange_prepare (operation body : string) : M (result (Config * call)) :=
  cfg ← gets sv_cfg;
  when cfg.(cfg_Logging).(lo_CaptureRenderedXML) (WritePayload clock "outbound_request" operation body);;
  match env.(env_bad_url) cfg.(cfg_HostEndpoint).(he_URL) with
  | Some e => mret (Err e)
  | None => mret (Ok (cfg, session_call cfg operation body))
  end.

Definition exchange_answered (cfg : Config) (operation expected : string) (reply : result (Z * xml_bytes))
    : M (result (Z * ParsedG2SEnvelope * string)) :=
  match reply with
  | Err e => mret (Err e)
  | Ok (status, buf) =>
      when cfg.(cfg_Logging).(lo_CaptureRawXML) (WritePayload clock "inbound_response" expected buf.(xb_raw));;
      if (status <? 200)%Z || (300 <=? status)%Z
      then mret (Err (operation +:+ " status " +:+ itoa status))
      else match ParseG2SEnvelope buf.(xb_stream) with
      | Err e => mret (Err ("parse " +:+ expected +:+ ": " +:+ e))
      | Ok parsed =>
          recordParsedResponseEvidence expected parsed;;
          let actual := resolveAck expected (firstNonEmpty [parsed.(pe_OperationName); parsed.(pe_RawRoot)])
            buf.(xb_stream) cfg.(cfg_SessionEngine).(se_AcceptWrappedG2SResponseAck) in
          if bool_decide (actual = expected) then mret (Ok (status, parsed, actual))
          else mret (Err ("expected " +:+ expected +:+ ", got " +:+ actual))
      end
  end.

Definition exchange_task (operation expected body : string) : task (result (Z * ParsedG2SEnvelope * string)) :=
  prepared ← lift (exchange_prepare operation body);
  match prepared with
  | Err e => Return (Err e)
  | Ok (cfg, c) =>
      reply ← lift (Do env c);
      lift (exchange_answered cfg operation expected reply)
  end.

(** The fields under the lock, then the time stamp, then the log. *)
Definition acknowledge_task (operation expected message sessionID : string) (stamp : bool)
    (f : RuntimeState → RuntimeState) (x : Z * ParsedG2SEnvelope * string) : task unit :=
  let '(status, parsed, actual) := x in
  now ← lift (now ← Now clock;
    cfg ← gets sv_cfg;
    on_state (λ s, note_ack cfg operation expected sessionID status now (f s));;
    mret now);
  lift (when stamp (recordSessionTimestamp operation now));;
  lift (log_ack clock message expected sessionID status parsed actual).

(** An exchange whose body is [body], and what follows it. *)
Definition acknowledged_task {A} (operation expected message sessionID : string) (stamp : bool)
    (f : RuntimeState → RuntimeState) (body : M string) (a : A) : task (result A) :=
  body ← lift body;
  res ← exchange_task operation expected body;
  match res with
  | Err e => Return (Err e)
  | Ok x => acknowledge_task operation expected message sessionID stamp f x;; Return (Ok a)
  end.

Definition comms_online_task : task (result string) :=
  opened ← lift (cfg ← gets sv_cfg;
    if bool_decide (cfg.(cfg_HostEndpoint).(he_URL) = "") then mret (Err "host endpoint url is empty")
    else t ← Now clock; mret (Ok (cfg.(cfg_InstanceID) +:+ "-" +:+ itoa t)));
  match opened with
  | Err e => Return (Err e)
  | Ok sessionID =>
      acknowledged_task "commsOnLine" "commsOnLineAck" "commsOnLine acknowledged" sessionID true
        (λ s, set_rs_HeartbeatState "idle" (set_rs_ConnectionState "host_connected"
                (set_rs_SessionState "online" s))) (renderCommsOnline clock sessionID) sessionID
  end.

Definition get_descriptor_task (sessionID : string) : task (result unit) :=
  acknowledged_task "getDescriptor" "descriptorList" "descriptorList received" sessionID false (λ s, s)
    (renderGetDescriptor clock sessionID) ().

Definition set_keep_alive_task (sessionID : string) : task (result unit) :=
  acknowledged_task "setKeepAlive" "setKeepAliveAck" "setKeepAlive acknowledged" sessionID false (λ s, s)
    (renderSetKeepAlive clock sessionID) ().

Definition keep_alive_task (sessionID : string) : task (result unit) :=
  acknowledged_task "keepAlive" "keepAliveAck" "keepAlive acknowledged" sessionID true
    (λ s, set_rs_ConnectionState "host_connected" (set_rs_HeartbeatState "healthy" s))
    (renderKeepAlive clock sessionID) ().

Definition startup_task (sessionID : string) : task (result unit) :=
  res ← get_descriptor_task sessionID;
  match res with
  | Err e => Return (Err e)
  | Ok _ => set_keep_alive_task sessionID
  end.

Definition heartbeat_task (sessionID : string) : task phase :=
  res ← keep_alive_task sessionID;
  match res with
  | Ok _ => Return (Waiting sessionID)
  | Err e => lift (recordKeepAliveFailure clock sessionID e);; Return Sleeping
  end.

Definition engine_task (done : bool) (p : phase) : task phase :=
  match p with
  | Connecting =>
      if done then Return Stopped
      else
        res ← comms_online_task;
        match res with
        | Ok sessionID => Return (Starting sessionID)
        | Err e => lift (record_comms_failure clock e);; Return Stopped
        end
  | Starting sessionID =>
      res ← startup_task sessionID;
      match res with
      | Ok _ => Return (FirstKeepAlive sessionID)
      | Err e => lift (record_startup_failure clock sessionID e);; Return Stopped
      end
  | FirstKeepAlive sessionID => heartbeat_task sessionID
  | Waiting sessionID => if done then Return Stopped else heartbeat_task sessionID
  | Sleeping => Return (if done then Stopped else Connecting)
  | Stopped => Return Stopped
  end.

(** ** A task run alone is the handler *)

(** Two computations that agree everywhere. *)
Definition same {A} (x y : M A) : Prop := ∀ w, x w = y w.

Lemma same_bind {A B} (x y : M A) (f g : A → M B) :
  same x y → (∀ a, same (f a) (g a)) → same (x ≫= f) (y ≫= g).
Proof. intros Hx Hf w. rewrite !M_bind_eq, (Hx w). apply Hf. Qed.

Lemma same_assoc {A B C} (x : M A) (f : A → M B) (g : B → M C) :
  same ((x ≫= f) ≫= g) (x ≫= λ a, f a ≫= g).
Proof. intros w. rewrite !M_bind_eq. done. Qed.

Lemma alone_section {A B} (x : M A) (f : A → task B) (g : A → M B) :
  (∀ a, same (alone (f a)) (g a)) → same (alone (lift x ≫= f)) (x ≫= g).
Proof. intros H w. rewrite alone_bind, M_bind_eq, alone_lift, M_bind_eq. apply H. Qed.

Lemma alone_then {A B} (t : task A) (x : M A) (f : A → task B) (g : A → M B) :
  same (alone t) x → (∀ a, same (alone (f a)) (g a)) → same (alone (t ≫= f)) (x ≫= g).
Proof. intros Ht H w. rewrite alone_bind, !M_bind_eq, (Ht w). apply H. Qed.

Lemma alone_method method r (k : task Response) (k' : M Response) :
  same (alone k) k' → same (alone (task_method method r k)) (require_method method r k').
Proof. intros H w. unfold task_method, require_method. case_bool_decide; [apply H|done]. Qed.

Lemma wire_alone r : same (alone (wire_task r)) (handleWire clock range r).
Proof.
  apply alone_method. intros w. rewrite alone_bind, M_bind_eq, alone_lift.
  unfold wire_received. destruct (isXMLContentType _); [|done]. cbn [negb].
  destruct (rq_Bytes r) as [data|e]; [|done].
  destruct (ParseG2SMessage _) as [m|e]; [|done]. run. rewrite when_eq. cbn [fst snd].
  set (w0 := if lo_CaptureRawXML _ then _ else w). clearbody w0.
  by rewrite alone_bind, M_bind_eq, !alone_lift.
Qed.

(** The three sections of a message on the wire. *)
Lemma wire_message_post r x : wire_message r = Ok x → r.(rq_Method) = "POST".
Proof. unfold wire_message. by case_bool_decide. Qed.

Lemma wire_received_message r w data m :
  wire_message r = Ok (data, m) →
  ∃ w0 t, still w w0 ∧
    wire_received r w = (inr (m.(pm_RootLocalName), wire_host m, wire_session m w t, wire_egm m w.(sv_cfg)), w0).
Proof.
  unfold wire_message. case_bool_decide as Hm; [|done]. cbn [negb].
  destruct (isXMLContentType (rq_ContentType r)) eqn:Hx; [|done]. cbn [negb]. intros H.
  result_binds. unfold wire_received. rewrite Hx, E. cbn [negb]. simplify_eq. rewrite E0.
  pose proof (capture_still clock (lo_CaptureRawXML (cfg_Logging (sv_cfg w))) "inbound_request"
    (pm_RootLocalName m) (xb_raw data) w) as Hs.
  set (w0 := if lo_CaptureRawXML _ then _ else w) in *.
  exists (set_sv_clock (S w0.(sv_clock)) w0), (clock w0.(sv_clock)). split; [etrans; [exact Hs|apply Now_still]|].
  run. rewrite when_eq. fold w0. cbn [fst snd]. unfold w0 in *. clear w0. destruct (lo_CaptureRawXML _); reflexivity.
Qed.

Lemma wire_received_refused r ws e :
  wire_message r = Err e →
  let '(after, resp) := through 0 ws (wire_task r) in
  resp = mkResponse (if bool_decide (r.(rq_Method) = "POST")
                     then if isXMLContentType r.(rq_ContentType) then 400 else 415 else 405) (BText e) ∧
  (after = [] ∨ ∃ w0, after = [w0] ∧ still (ws 0) w0).
Proof.
  unfold wire_message, wire_task, task_method. case_bool_decide as Hm; cbn [negb]; [|intros [= <-]; by split; [|left]].
  unfold wire_received. destruct (isXMLContentType _); cbn [negb]; [|intros [= <-]; split; [done|right]; by exists (ws 0)].
  destruct (rq_Bytes r) as [data|e']; [|intros [= <-]; split; [done|right]; by exists (ws 0)].
  cbn [mbind result_bind]. destruct (ParseG2SMessage _) as [m|e']; [done|]. intros [= <-]. split; [done|right].
  eexists. split; [reflexivity|]. split; [apply (Log_quiet clock)|done].
Qed.

Lemma wire_respond_still op host session d w : still w (wire_respond clock op host session d w).2.
Proof.
  destruct d; [done|done|]. unfold wire_respond. run. rewrite when_eq. cbn [fst snd].
  etrans; [apply (capture_still clock (lo_CaptureRenderedXML (cfg_Logging (sv_cfg w))) "inbound_response")|].
  split; [apply Log_quiet|done].
Qed.

Lemma wire_respond_handled op host session xml status w :
  (wire_respond clock op host session (Handled xml status) w).1 = mkResponse status (BXml xml).
Proof. unfold wire_respond. by run. Qed.

Lemma overlay_alone r : same (alone (overlay_task r)) (handleControlOverlay clock r).
Proof.
  apply alone_method. destruct (decode_body r) as [overlay|]; [|done].
  intros w. rewrite alone_bind, M_bind_eq, alone_lift. unfold overlay_locked. run.
  by destruct (ApplyOverlay _ _).
Qed.

Lemma security_mode_alone r : same (alone (security_mode_task r)) (handleControlSecurityMode r).
Proof.
  apply alone_method. destruct (_ ≫= _) as [req|]; [|done]. case_bool_decide; done.
Qed.

Lemma inject_alone r : same (alone (inject_task r)) (handleControlInjectLogicalCommand clock range r).
Proof.
  apply alone_method. destruct (_ ≫= _) as [req|]; [|done].
  destruct (logicalCommandToOperation _) as [op|]; [|done].
  apply alone_section. intros [[xml status]|e]; [|done]. by apply alone_section.
Qed.

Lemma send_alone req : same (alone (send_task req)) (SendOutbound clock range env req).
Proof.
  intros w. unfold send_task, SendOutbound. rewrite alone_bind, M_bind_eq, alone_lift.
  unfold send_snapshot. run. cbv zeta. rewrite alone_bind, M_bind_eq, alone_lift.
  unfold send_prepare. case_bool_decide; [done|]. case_bool_decide; [done|]. run.
  destruct (outbound_body _ _ _ _ _ _ _) as [[body|e] w1]; cbn [fst snd]; [|done].
  run. rewrite !when_eq. cbn [fst snd]. destruct (env_bad_url env _) as [e|]; [done|].
  destruct (outboundTransport _ _ _ _) as [transport|e]; [|done]. cbn [mbind result_bind mret M_ret fst snd].
  apply alone_section. intros reply w'. apply alone_lift.
Qed.

Lemma send_and_note_alone req : same (alone (send_and_note_task req)) (send_and_note clock range env req).
Proof.
  apply alone_then; [apply send_alone|]. intros [res|e]; [|done].
  intros w. rewrite alone_bind, M_bind_eq. unfold when. destruct (ob_OK res); [|done].
  by rewrite alone_lift, M_bind_eq.
Qed.

Lemma outbound_send_alone r : same (alone (outbound_send_task r)) (handleControlOutboundSend clock range env r).
Proof. apply alone_method. destruct (_ ≫= _) as [req|]; [|done]. apply send_and_note_alone. Qed.

Lemma send_like_alone msgType r :
  same (alone (send_like_task msgType r)) (handleOutboundSendLike clock range env r msgType).
Proof. apply alone_method, send_and_note_alone. Qed.

Lemma scheduler_start_alone r :
  same (alone (scheduler_start_task r)) (handleControlOutboundSchedulerStart clock r).
Proof. apply alone_method, alone_section. intros [b|e]; [|done]. by apply alone_section. Qed.

Lemma scheduler_stop_alone r :
  same (alone (scheduler_stop_task r)) (handleControlOutboundSchedulerStop clock r).
Proof. apply alone_method, alone_section. intros b. by apply alone_section. Qed.

Lemma tick_alone cfg : same (alone (tick_task cfg)) (runOutboundSchedulerTick clock range env cfg).
Proof.
  apply alone_section. intros [operation|]; [|done].
  apply alone_then; [apply send_alone|]. intros res w. apply alone_lift.
Qed.

Lemma exchange_alone operation expected body :
  same (alone (exchange_task operation expected body)) (exchange clock env operation expected body).
Proof.
  intros w. unfold exchange_task, exchange. rewrite alone_bind, M_bind_eq, alone_lift.
  unfold exchange_prepare. run. rewrite !when_eq. cbn [fst snd].
  destruct (env_bad_url env _) as [e|]; [done|].
  apply alone_section. intros reply w'. rewrite alone_lift. by destruct reply as [[status buf]|].
Qed.

Lemma acknowledge_alone operation expected message sessionID stamp f x :
  same (alone (acknowledge_task operation expected message sessionID stamp f x))
    (acknowledge clock operation expected message sessionID stamp f x).
Proof.
  destruct x as [[status parsed] actual]. intros w. unfold acknowledge_task, acknowledge.
  rewrite alone_bind, M_bind_eq, alone_lift. run. by rewrite alone_bind, M_bind_eq, !alone_lift.
Qed.

Lemma acknowledged_alone {A} operation expected message sessionID stamp f body (a : A) :
  same (alone (acknowledged_task operation expected message sessionID stamp f body a))
    (body ← body; res ← exchange clock env operation expected body;
     match res with
     | Err e => mret (Err e)
     | Ok x => acknowledge clock operation expected message sessionID stamp f x;; mret (Ok a)
     end).
Proof.
  apply alone_section. intros b. apply alone_then; [apply exchange_alone|]. intros [x|e]; [|done].
  apply alone_then; [apply acknowledge_alone|done].
Qed.

Lemma comms_online_alone : same (alone comms_online_task) (runCommsOnlineOnce clock env).
Proof.
  intros w. unfold comms_online_task, runCommsOnlineOnce. rewrite alone_bind, M_bind_eq, alone_lift. run.
  case_bool_decide; [done|]. run. etrans; [apply acknowledged_alone|]. by run.
Qed.

Lemma heartbeat_alone sessionID : same (alone (heartbeat_task sessionID)) (heartbeat clock env sessionID).
Proof.
  apply alone_then; [apply acknowledged_alone|]. intros [x|e]; [done|]. by apply alone_section.
Qed.

Lemma startup_alone sessionID : same (alone (startup_task sessionID)) (runStartupExchange clock env sessionID).
Proof.
  apply alone_then; [apply acknowledged_alone|]. intros [x|e]; [|done]. apply acknowledged_alone.
Qed.

Lemma engine_alone done p : same (alone (engine_task done p)) (engine_step clock env done p).
Proof.
  destruct p as [|sessionID|sessionID|sessionID| |]; cbn [engine_task engine_step].
  - destruct done; [done|]. apply alone_then; [apply comms_online_alone|].
    intros [x|e]; [done|]. by apply alone_section.
  - apply alone_then; [apply startup_alone|]. intros [x|e]; [done|]. by apply alone_section.
  - apply heartbeat_alone.
  - destruct done; [done|]. apply heartbeat_alone.
  - done.
  - done.
Qed.
End tasks.
