(* ===== verification/Process.v ===== *)
(** * A running process (src/runtime/server.go, src/cmd/vegm/main.go)

    The control plane's routes, the start of a process, and its runs: requests,
    turns of the scheduler and the session engine as tasks that share one server
    and whose sections interleave freely. *)

From S2P Require Import Prelude GoStrings Url Json Config Pack Render Envelope State Control Messages Outbound Scheduler Session Certificate Mux Patterns Logger Evidence Threads.

(** ** Answers *)

(** What a control handler answers: a response, one of the two bodies that have
    a type of their own, an export with the file it wrote, or a redirection. *)
Inductive control_answer :=
  | AResponse (r : Response)
  | AEvidence (e : latestEvidenceResponse)
  | ACertificate (c : CertificateStatus)
  | AExport (r : Response) (written : option (string * ExportBundle))
  | ARedirect (status : Z) (path : string).

(** Everything outside the process. *)
Record world := mkWorld {
  wo_clock : nat → Z;
  wo_spare : nat → nat;
  wo_range : gmap string string → list (string * string);
  wo_peer : environment;
  wo_number : num → string;
  wo_log : log_environment;
  wo_newest_first : list dir_entry → list dir_entry;
  wo_ReadDir : string → result (list dir_entry);
  wo_certificates : certificate_environment;
  wo_ui : string → Request → Response;
  wo_name_rune : bool → string → bool;
}.

Section process.
Context (o : world).

Let clock := o.(wo_clock).
Let spare := o.(wo_spare).
Let range := o.(wo_range).
Let env := o.(wo_peer).

(** ** The control plane: startControl *)

Definition locked (h : Request → M Response) (r : Request) : task control_answer :=
  x ← lift (h r); Return (AResponse x).
Definition locked_task (h : Request → task Response) (r : Request) : task control_answer :=
  x ← h r; Return (AResponse x).

Definition handleScenarioUIRoot (r : Request) : task control_answer :=
  Return (ARedirect 307 "/ui/scenario-runner.html").

Definition handleControlSecurityReload (r : Request) : task control_answer :=
  cfg ← lift (gets sv_cfg);
  Return (ACertificate (BuildCertificateStatus o.(wo_certificates) cfg)).

(** The parse evidence, the registry and the state have locks of their own. *)
Definition evidence_task (r : Request) : task control_answer :=
  if negb (bool_decide (r.(rq_Method) = "GET")) then Return (AResponse (mkResponse 405 (BText "method not allowed")))
  else
    cfg ← lift (gets sv_cfg);
    evidence ← lift (gets (λ w, parseEvidenceForInstance w cfg.(cfg_InstanceID)));
    xmlInfo ← lift (gets (λ w, xmlModeInfoForInstance cfg.(cfg_InstanceID) w.(sv_xmlModes)));
    s ← lift get_state;
    dir ← lift (gets payload_dir);
    Return (AEvidence (evidence_of o.(wo_newest_first) o.(wo_ReadDir) cfg evidence xmlInfo s dir)).

(** The snapshot of the state is older than the events; the configuration is
    shared, and read when the bundle is written. *)
Definition export_locked (s : RuntimeState) : M (Response * option (string * ExportBundle)) :=
  cfg ← gets sv_cfg;
  res ← ExportBundle_to o.(wo_number) o.(wo_log) clock
    (mkExportOptions "" "" None None true (Some s) (Some cfg) None "");
  match res with
  | Err e => mret (mkResponse 500 (BText e), None)
  | Ok (path, bundle) =>
      mret (mkResponse 200 (BJson [("ok", JBool true); ("path", JStr path)]), Some (path, bundle))
  end.
Definition export_task (r : Request) : task control_answer :=
  s ← lift get_state;
  x ← lift (export_locked s);
  Return (AExport x.1 x.2).

(** The pack is read three times without a lock. *)
Definition pack_summary_task (r : Request) : task control_answer :=
  name ← lift (gets (λ w, w.(sv_pack).(mp_PackName)));
  version ← lift (gets (λ w, w.(sv_pack).(mp_PackVersion)));
  operations ← lift (gets (λ w, size w.(sv_pack).(mp_Operations)));
  Return (AResponse (mkResponse 200 (BJson [("operations", enc_int (Z.of_nat operations));
    ("pack_name", JStr name); ("pack_version", JStr version)]))).

(** [http.StripPrefix] around the server of the files that are embedded in the
    binary. *)
Definition ui_response (path : string) (r : Request) : Response :=
  if has_prefix "/ui/" path then o.(wo_ui) (trim_prefix "/ui/" path) r
  else mkResponse 404 (BText "404 page not found").
Definition scenarioUIHandler (path : string) (r : Request) : task control_answer :=
  Return (AResponse (ui_response path r)).

(** A path and its handler. *)
Definition control_routes (path : string) : list (string * (Request → task control_answer)) := [
  ("/healthz", locked handleHealthz);
  ("/ui", handleScenarioUIRoot);
  ("/ui/", scenarioUIHandler path);
  ("/control/state", locked handleControlState);
  ("/control/state/history", locked (handleControlStateHistory o.(wo_number) o.(wo_log)));
  ("/control/audio", locked (handleControlAudio clock));
  ("/control/machine-status", locked handleControlMachineStatus);
  ("/control/logs", locked (handleControlLogs o.(wo_number) o.(wo_log)));
  ("/control/evidence/latest", evidence_task);
  ("/control/export", export_task);
  ("/control/overlay", locked_task (overlay_task clock));
  ("/control/hosts/add", locked (handleControlHostsAdd spare));
  ("/control/hosts/remove", locked handleControlHostsRemove);
  ("/control/security/mode", locked_task security_mode_task);
  ("/control/security/reload", handleControlSecurityReload);
  ("/control/pack/summary", pack_summary_task);
  ("/control/pack/operations", locked handleControlPackOperations);
  ("/control/inject-logical-command", locked_task (inject_task clock range));
  ("/control/outbound/session/open", locked_task (send_like_task clock range env "commsOnLine"));
  ("/control/outbound/heartbeat", locked_task (send_like_task clock range env "keepAlive"));
  ("/control/outbound/send", locked_task (outbound_send_task clock range env));
  ("/control/outbound/scheduler/start", locked_task (scheduler_start_task clock));
  ("/control/outbound/scheduler/stop", locked_task (scheduler_stop_task clock))].

(** [withControlCORS] around the mux *)
Definition control_task (path : string) (r : Request) : task control_answer :=
  if bool_decide (r.(rq_Method) = "OPTIONS") then Return (AResponse (mkResponse 204 (BText "")))
  else match route (control_routes path) path with
  | Handled_by h => h r
  | Redirected p => Return (ARedirect 301 p)
  | Unrouted => Return (AResponse (mkResponse 404 (BText "404 page not found")))
  end.

(** ** The wire: startWire, makeWireTLSConfig *)

(** The paths on which [handleWire] is registered. *)
Definition wire_patterns (cfg : Config) (pk : MessagePack) : list string :=
  let paths := pk.(mp_Wire).(wire_Paths) in
  let path := or_default cfg.(cfg_EGMEndpoint).(ee_Path) paths.(paths_DefaultListenerPath) in
  path :: filter (λ p, p ≠ path) paths.(paths_AlternateListenerPaths).

(** [mux.HandleFunc] panics at a pattern that it cannot parse and at one that
    conflicts with one it has. *)
Definition wire_mux (patterns : list string) : option (list pattern) :=
  register_patterns o.(wo_name_rune) patterns [].

Record wireTLS := mkWireTLS {
  wt_MinVersion : Z;
  wt_Certificate : string * string;
  wt_ClientCAs : option string;
  wt_RequireClientCert : bool;
}.

Definition makeWireTLSConfig (cfg : Config) : result wireTLS :=
  let s := cfg.(cfg_Security) in
  _ ← env.(env_load_keypair) s.(sec_CertFile) s.(sec_KeyFile);
  let tls := mkWireTLS VersionTLS12 (s.(sec_CertFile), s.(sec_KeyFile)) in
  if bool_decide (s.(sec_TrustMode) ∈ ["tls_server_only"; "accept_all_lab"])
  then Ok (tls None false)
  else if bool_decide (s.(sec_TrustMode) ∈ ["strict_mtls"; "mtls_no_revocation"])
  then caPEM ← env.(env_read_file) s.(sec_CAFile); Ok (tls (Some caPEM) true)
  else Err ("unsupported trust mode " +:+ quote s.(sec_TrustMode)).

(** ** Start and Shutdown *)

(** The network: why an address cannot be listened on, and the address that the
    listener reports. *)
Record network := mkNetwork {
  nw_Listen : string → option string;
  nw_Addr : string → string;
}.

(** The listeners that are open, by the addresses they were opened for. *)
Inductive start_outcome :=
  | Started (listeners : list string) (tls : option wireTLS)
  | StartFailed (error : string) (listeners : list string)
  | StartPanicked (listeners : list string).

Definition wire_address (cfg : Config) : string :=
  JoinHostPort cfg.(cfg_Listen).(li_Host) (itoa cfg.(cfg_Listen).(li_Port)).

(** The address that a listener reports, or else the configured one. *)
Definition WireAddr (nw : network) (wireLn : option string) (cfg : Config) : string :=
  match wireLn with Some addr => nw.(nw_Addr) addr | None => wire_address cfg end.
Definition ControlAddr (nw : network) (controlLn : option string) (cfg : Config) : string :=
  match controlLn with Some addr => nw.(nw_Addr) addr | None => cfg.(cfg_Control).(ct_Bind) end.

Definition startControl (nw : network) (cfg : Config) : result (list string) :=
  match nw.(nw_Listen) cfg.(cfg_Control).(ct_Bind) with
  | Some e => Err e
  | None => Ok [cfg.(cfg_Control).(ct_Bind)]
  end.

(** The control listener is open already; a failure leaves open what is open. *)
Definition startWire (nw : network) (cfg : Config) (pk : MessagePack) (open : list string) : start_outcome :=
  match wire_mux (wire_patterns cfg pk) with
  | None => StartPanicked open
  | Some _ =>
      let addr := wire_address cfg in
      match nw.(nw_Listen) addr with
      | Some e => StartFailed e open
      | None =>
          let open := open ++ [addr] in
          if bool_decide (cfg.(cfg_Security).(sec_TrustMode) = "plaintext_lab") then Started open None
          else match makeWireTLSConfig cfg with
          | Err e => StartFailed e open
          | Ok tls => Started open (Some tls)
          end
      end
  end.

Definition Start (nw : network) : M start_outcome :=
  cfg ← gets sv_cfg;
  pk ← gets sv_pack;
  match startControl nw cfg with
  | Err e => mret (StartFailed e [])
  | Ok open =>
      match startWire nw cfg pk open with
      | Started open tls =>
          let sch := cfg.(cfg_Outbound).(out_Scheduler) in
          when (sch.(sch_Enabled) && sch.(sch_AutoStart)) (_ ← StartOutboundScheduler clock; mret ());;
          s ← get_state;
          Log clock "info" "server" "VEGM started" {[
            "wire_addr" := JStr (WireAddr nw (Some (wire_address cfg)) cfg);
            "control_addr" := JStr (ControlAddr nw (Some cfg.(cfg_Control).(ct_Bind)) cfg);
            "trust_mode" := JStr cfg.(cfg_Security).(sec_TrustMode);
            "storage_backend" := JStr s.(rs_StorageBackend) ]};;
          mret (Started open tls)
      | failed => mret failed
      end
  end.

(** Closing the listeners and the log is up to the libraries. *)
Definition Shutdown : M unit := _ ← StopOutboundScheduler clock; mret ().

(** ** main.go *)

(** What [main] has when it waits: the server, what is listened on, and the
    phase in which the session engine starts, if it does. *)
Definition vegm_main (open_log : string → string → string → result unit) (nw : network)
    (fs : gmap string file) (configPath : string)
    : result (Server * start_outcome * option phase) :=
  if bool_decide (configPath = "") then Err "-config is required"
  else
    let '(registry, loaded) := LoadConfig fs ∅ configPath in
    cfg ← loaded;
    w ← NewServer clock open_log fs cfg registry;
    let '(outcome, w) := Start nw w in
    match outcome with
    | Started _ _ => let '(engine, w) := StartSessionEngine w in Ok (w, outcome, engine)
    | StartFailed e _ => Err e
    | StartPanicked _ => Err "panic"
    end.

(** ** Runs *)

Record vegm := mkVegm {
  pr_server : Server;
  pr_wire : list (task Response);
  pr_control : list (task control_answer);
  pr_ticks : list (task unit);
  pr_engine : task phase;
}.

(** What comes from outside: a request; a turn of the ticker, for which the model
    asks no running goroutine; the engine going on from where its loops look at
    the context, which is [done] once the process is asked to stop. *)
Inductive arrival : vegm → vegm → Prop :=
  | wire_arrives w ws cs ts e r :
      arrival (mkVegm w ws cs ts e) (mkVegm w (ws ++ [wire_task clock range r]) cs ts e)
  | control_arrives w ws cs ts e path r :
      arrival (mkVegm w ws cs ts e) (mkVegm w ws (cs ++ [control_task path r]) ts e)
  | tick_begins w ws cs ts e :
      arrival (mkVegm w ws cs ts e)
        (mkVegm w ws cs (ts ++ [tick_task clock range env
          (schedulerConfig w.(sv_cfg).(cfg_Outbound).(out_Scheduler))]) e)
  | engine_turns w ws cs ts p done :
      arrival (mkVegm w ws cs ts (Return p)) (mkVegm w ws cs ts (engine_task clock env done p)).

(** A section of a task runs. *)
Inductive section_step : vegm → vegm → Prop :=
  | step_wire w ws cs ts e i after next :
      ws !! i = Some (Section_ after next) →
      section_step (mkVegm w ws cs ts e) (mkVegm (after w) (<[i := next w]> ws) cs ts e)
  | step_control w ws cs ts e i after next :
      cs !! i = Some (Section_ after next) →
      section_step (mkVegm w ws cs ts e) (mkVegm (after w) ws (<[i := next w]> cs) ts e)
  | step_tick w ws cs ts e i after next :
      ts !! i = Some (Section_ after next) →
      section_step (mkVegm w ws cs ts e) (mkVegm (after w) ws cs (<[i := next w]> ts) e)
  | step_engine w ws cs ts after next :
      section_step (mkVegm w ws cs ts (Section_ after next)) (mkVegm (after w) ws cs ts (next w)).

Definition vegm_step (p p' : vegm) : Prop := arrival p p' ∨ section_step p p'.

(** A process that has started. *)
Definition started (w : Server) (engine : option phase) : vegm :=
  mkVegm w [] [] [] (Return (default Stopped engine)).
End process.

(** ** Runs that can be computed *)

(** What the step relation leaves open: what arrives, or which task goes on. *)
Inductive action :=
  | Arrive_wire (r : Request)
  | Arrive_control (path : string) (r : Request)
  | Begin_tick
  | Turn_engine (done : bool)
  | Run_wire (i : nat)
  | Run_control (i : nat)
  | Run_tick (i : nat)
  | Run_engine.

(** A section of the task at a position of a list. *)
Definition run_at {A} (i : nat) (w : Server) (ts : list (task A)) : option (Server * list (task A)) :=
  match ts !! i with
  | Some (Section_ after next) => Some (after w, <[i := next w]> ts)
  | _ => None
  end.

Definition exec (o : world) (a : action) (p : vegm) : option vegm :=
  let '(mkVegm w ws cs ts e) := p in
  match a with
  | Arrive_wire r => Some (mkVegm w (ws ++ [wire_task o.(wo_clock) o.(wo_range) r]) cs ts e)
  | Arrive_control path r => Some (mkVegm w ws (cs ++ [control_task o path r]) ts e)
  | Begin_tick => Some (mkVegm w ws cs (ts ++ [tick_task o.(wo_clock) o.(wo_range) o.(wo_peer)
      (schedulerConfig w.(sv_cfg).(cfg_Outbound).(out_Scheduler))]) e)
  | Turn_engine done =>
      match e with
      | Return ph => Some (mkVegm w ws cs ts (engine_task o.(wo_clock) o.(wo_peer) done ph))
      | Section_ _ _ => None
      end
  | Run_wire i => '(w, ws) ← run_at i w ws; Some (mkVegm w ws cs ts e)
  | Run_control i => '(w, cs) ← run_at i w cs; Some (mkVegm w ws cs ts e)
  | Run_tick i => '(w, ts) ← run_at i w ts; Some (mkVegm w ws cs ts e)
  | Run_engine =>
      match e with
      | Section_ after next => Some (mkVegm (after w) ws cs ts (next w))
      | Return _ => None
      end
  end.

Fixpoint exec_all (o : world) (actions : list action) (p : vegm) : option vegm :=
  match actions with
  | [] => Some p
  | a :: rest => p ← exec o a p; exec_all o rest p
  end.
