(* ===== verification/ProcessRuns.v ===== *)
(** * What holds in every run of a process

    Most sections leave alone what the parts of the server have to agree on; the
    others keep the agreement. Both properties are closed under composition, so
    that a handler has them by its shape. *)

From S2P Require Import Prelude GoStrings Json Config Pack Render Envelope State Control Messages Outbound Scheduler Session Certificate Mux Logger Evidence Threads Process.

(** ** The agreement *)

(** What has to agree. *)
Definition core (w : Server) :=
  (w.(sv_pack), w.(sv_cfg), w.(sv_schedulerCancel), w.(sv_arrays),
   (w.(sv_state).(rs_InstanceID), w.(sv_state).(rs_EGMID), w.(sv_state).(rs_RegistrationState),
    w.(sv_state).(rs_AllowedHostIDs), w.(sv_state).(rs_OutboundScheduler).(os_Running))).

(** The configuration is the one the process was started with, but for its trust
    mode; the pack is valid and decides the registration; the list of hosts lies
    in its array; the state has the identity of the configuration; it says that
    the scheduler runs exactly when there is one to cancel. *)
Record consistent (cfg : Config) (w : Server) : Prop := {
  con_cfg : ∃ mode, w.(sv_cfg) = set_cfg_Security (set_TrustMode mode cfg.(cfg_Security)) cfg;
  con_pack : pack_ok w.(sv_pack);
  con_registration : w.(sv_state).(rs_RegistrationState) = registration_of w.(sv_pack);
  con_hosts : slice_ok w.(sv_arrays) w.(sv_state).(rs_AllowedHostIDs);
  con_instance : w.(sv_state).(rs_InstanceID) = cfg.(cfg_InstanceID);
  con_egm : w.(sv_state).(rs_EGMID) = cfg.(cfg_EGMID);
  con_scheduler : w.(sv_state).(rs_OutboundScheduler).(os_Running) = w.(sv_schedulerCancel);
}.

Lemma consistent_core cfg w w' : core w' = core w → consistent cfg w → consistent cfg w'.
Proof. intros [= H1 H2 H3 H4 H5 H6 H7 H8 H9] []. by split; rewrite ?H1, ?H2, ?H3, ?H4, ?H5, ?H6, ?H7, ?H8, ?H9. Qed.

(** ** Computations that leave the core alone *)

Definition inert {A} (x : M A) : Prop := ∀ w, core (x w).2 = core w.

Lemma inert_ret {A} (a : A) : inert (mret a).
Proof. done. Qed.
Lemma inert_gets {A} (f : Server → A) : inert (gets f).
Proof. done. Qed.
Lemma inert_get_state : inert get_state.
Proof. done. Qed.
Lemma inert_bind {A B} (x : M A) (f : A → M B) : inert x → (∀ a, inert (f a)) → inert (x ≫= f).
Proof. intros Hx Hf w. rewrite M_bind_eq, (Hf _ _). apply Hx. Qed.
Lemma inert_when b x : inert x → inert (when b x).
Proof. by destruct b. Qed.

(** The part of a state that the core holds. *)
Definition state_core (s : RuntimeState) :=
  (s.(rs_InstanceID), s.(rs_EGMID), s.(rs_RegistrationState), s.(rs_AllowedHostIDs),
   s.(rs_OutboundScheduler).(os_Running)).
Lemma inert_on_state f : (∀ s, state_core (f s) = state_core s) → inert (on_state f).
Proof. intros H w. specialize (H w.(sv_state)). unfold core, state_core in *. cbn. by simplify_eq/=; congruence. Qed.

Lemma inert_Now clock : inert (Now clock).
Proof. done. Qed.
Lemma inert_Log clock level cat msg fields : inert (Log clock level cat msg fields).
Proof. done. Qed.
Lemma inert_WritePayload clock dir op data : inert (WritePayload clock dir op data).
Proof. done. Qed.
Lemma inert_Do env c : inert (Do env c).
Proof. done. Qed.

Create HintDb inert.
#[export] Hint Resolve inert_ret inert_gets inert_get_state inert_Now inert_Log inert_WritePayload inert_Do : inert.

(** By the shape of the computation; what is left are assignments to the state. *)
Ltac inert :=
  repeat first
  [ progress intros
  | solve [auto with inert]
  | match goal with
    | |- inert (_ ≫= _) => apply inert_bind
    | |- inert (when _ _) => apply inert_when
    | |- inert (on_state _) => apply inert_on_state
    | |- inert (match ?x with _ => _ end) => destruct x
    | |- inert (let '_ := ?x in _) => destruct x
    end
  | reflexivity ].

Section inert.
Context (clock : nat → Z) (range : gmap string string → list (string * string)) (env : environment).

Lemma state_core_update u k set s :
  (∀ v s, state_core (set v s) = state_core s) → state_core (update_string u k set s) = state_core s.
Proof. intros H. unfold update_string. by destruct (u !! k) as [[]|]. Qed.

Lemma inert_apply u reason : inert (applyStateUpdatesLocked clock u reason).
Proof.
  unfold applyStateUpdatesLocked. destruct (bool_decide _); inert.
  unfold update_strings. by rewrite !state_core_update.
Qed.
Hint Resolve inert_apply : inert.

Lemma inert_record_timestamp kind at_ : inert (recordSessionTimestamp kind at_).
Proof. unfold recordSessionTimestamp. inert. Qed.
Lemma inert_record_evidence expected parsed : inert (recordParsedResponseEvidence expected parsed).
Proof. unfold recordParsedResponseEvidence. inert. Qed.
Hint Resolve inert_record_timestamp inert_record_evidence : inert.

Lemma inert_builtin op : inert (applyBuiltInOperationStateLocked clock op).
Proof. unfold applyBuiltInOperationStateLocked. inert. Qed.
Lemma inert_render_variant v fields : inert (render_variant range v fields).
Proof. unfold render_variant. inert. Qed.
Hint Resolve inert_builtin inert_render_variant : inert.

Lemma inert_wire_received r : inert (wire_received clock r).
Proof. unfold wire_received, http_error. inert. Qed.
Lemma inert_wire_locked op host session egm : inert (wire_locked clock range op host session egm).
Proof. unfold wire_locked. inert. Qed.
Lemma inert_wire_respond op host session d : inert (wire_respond clock op host session d).
Proof. unfold wire_respond, http_error. inert. Qed.
Lemma inert_simulated op host session : inert (processSimulatedInbound clock range op host session).
Proof. unfold processSimulatedInbound. inert. Qed.
Hint Resolve inert_wire_received inert_wire_locked inert_wire_respond inert_simulated : inert.

Lemma inert_audio r : inert (handleControlAudio clock r).
Proof. unfold handleControlAudio, require_method, method_not_allowed, http_error. inert. Qed.

Lemma inert_render_configured mt session : inert (renderConfiguredOutboundBody clock mt session).
Proof.
  unfold renderConfiguredOutboundBody, renderCommsOnline, renderGetDescriptor, renderSetKeepAlive,
    renderKeepAlive, render_message, renderXSDCommunicationsMessage. inert.
Qed.
Hint Resolve inert_render_configured : inert.
Lemma inert_outbound_body pk state req session : inert (outbound_body clock range pk state req session).
Proof. unfold outbound_body. inert. Qed.
Hint Resolve inert_outbound_body : inert.

Lemma inert_send_snapshot : inert send_snapshot.
Proof. unfold send_snapshot. inert. Qed.
Lemma inert_send_prepare req pk state cfg : inert (send_prepare clock range env req pk state cfg).
Proof. unfold send_prepare. inert. Qed.
Lemma inert_send_answered req c reply : inert (send_answered clock req c reply).
Proof. unfold send_answered. inert. Qed.
Lemma inert_note_success mt : inert (note_success mt).
Proof. unfold note_success. inert. Qed.
Hint Resolve inert_send_snapshot inert_send_prepare inert_send_answered inert_note_success : inert.

Lemma inert_tick_begin cfg : inert (tick_begin clock cfg).
Proof. unfold tick_begin. inert. Qed.
Lemma inert_update_scheduler op res cfg : inert (updateSchedulerAfterResult clock op res cfg).
Proof.
  unfold updateSchedulerAfterResult, tick_succeeded, tick_failed, degrade, attempt, count_attempt.
  inert; repeat case_bool_decide; done.
Qed.
Hint Resolve inert_tick_begin inert_update_scheduler : inert.

Lemma inert_exchange_prepare op body : inert (exchange_prepare clock env op body).
Proof. unfold exchange_prepare. inert. Qed.
Lemma inert_exchange_answered cfg op expected reply : inert (exchange_answered clock cfg op expected reply).
Proof. unfold exchange_answered. inert. Qed.
Lemma inert_log_ack message expected session status parsed actual :
  inert (log_ack clock message expected session status parsed actual).
Proof. unfold log_ack. inert. Qed.
Lemma inert_keepalive_failure session e : inert (recordKeepAliveFailure clock session e).
Proof. unfold recordKeepAliveFailure. inert. Qed.
Lemma inert_comms_failure e : inert (record_comms_failure clock e).
Proof. unfold record_comms_failure. inert. Qed.
Lemma inert_startup_failure session e : inert (record_startup_failure clock session e).
Proof. unfold record_startup_failure. inert. Qed.
Hint Resolve inert_exchange_prepare inert_exchange_answered inert_log_ack inert_keepalive_failure
  inert_comms_failure inert_startup_failure : inert.

End inert.

(** ** Computations that keep the agreement *)

Definition safe {A} (cfg : Config) (x : M A) : Prop := ∀ w, consistent cfg w → consistent cfg (x w).2.

Section safe.
Context (cfg : Config).

Lemma safe_inert {A} (x : M A) : inert x → safe cfg x.
Proof. intros H w. apply consistent_core, H. Qed.

Lemma safe_bind {A B} (x : M A) (f : A → M B) : safe cfg x → (∀ a, safe cfg (f a)) → safe cfg (x ≫= f).
Proof. intros Hx Hf w Hw. rewrite M_bind_eq. by apply Hf, Hx. Qed.

Lemma safe_modify f : (∀ w, consistent cfg w → consistent cfg (f w)) → safe cfg (modify f).
Proof. done. Qed.

Lemma safe_add_host spare id : safe cfg (modify (add_host spare id)).
Proof.
  apply safe_modify. intros w []. unfold add_host.
  pose proof (slice_append_ok spare _ _ id con_hosts0) as [Hs _].
  destruct (slice_append _ _ _ _) as [h s]. by split.
Qed.

Lemma safe_remove_host id : safe cfg (modify (remove_host id)).
Proof.
  apply safe_modify. intros w []. unfold remove_host.
  pose proof (slice_remove_ok _ _ id con_hosts0) as [Hs _].
  destruct (slice_remove _ _ _) as [h s]. by split.
Qed.

Lemma safe_set_trust_mode mode : safe cfg (modify (set_trust_mode mode)).
Proof.
  apply safe_modify. intros w [[old Hc]]. split; try done. exists mode.
  unfold set_trust_mode. cbn. by rewrite Hc.
Qed.

Lemma safe_overlay overlay : safe cfg (overlay_locked overlay).
Proof.
  intros w Hw. unfold overlay_locked. run.
  destruct (ApplyOverlay _ _) as [pk|e] eqn:Ho; [|done].
  apply ApplyOverlay_valid in Ho. destruct Hw. by split.
Qed.

Lemma safe_scheduler_start clock : safe cfg (StartOutboundScheduler clock).
Proof.
  intros w Hw. unfold StartOutboundScheduler. run.
  destruct (negb _); [done|]. case_bool_decide; [done|].
  destruct (sv_schedulerCancel w); [done|]. destruct Hw. by split.
Qed.

Lemma safe_scheduler_stop clock : safe cfg (StopOutboundScheduler clock).
Proof.
  intros w Hw. unfold StopOutboundScheduler. run.
  destruct (sv_schedulerCancel w) eqn:Hr; [|done]. destruct Hw. by split.
Qed.

(** ** Tasks *)

Fixpoint task_safe {A} (t : task A) : Prop :=
  match t with
  | Return _ => True
  | Section_ after next => ∀ w, consistent cfg w → consistent cfg (after w) ∧ task_safe (next w)
  end.

Lemma task_safe_return {A} (a : A) : task_safe (Return a).
Proof. done. Qed.

Lemma task_safe_bind {A B} (t : task A) (f : A → task B) :
  task_safe t → (∀ a, task_safe (f a)) → task_safe (t ≫= f).
Proof.
  intros Ht Hf. induction t as [a|after next IH]; [apply Hf|].
  intros w Hw. specialize (Ht w Hw) as [? ?]. split; [done|]. by apply IH.
Qed.

Lemma task_safe_lift {A} (x : M A) : safe cfg x → task_safe (lift x).
Proof. intros H w Hw. split; [by apply H|done]. Qed.

Lemma task_safe_inert {A} (x : M A) : inert x → task_safe (lift x).
Proof. intros H. by apply task_safe_lift, safe_inert. Qed.
End safe.

(** ** Every task is safe *)

#[export] Hint Resolve inert_wire_received inert_wire_locked inert_wire_respond inert_simulated inert_audio
  inert_send_snapshot inert_send_prepare inert_send_answered inert_note_success
  inert_tick_begin inert_update_scheduler inert_exchange_prepare inert_exchange_answered inert_log_ack
  inert_keepalive_failure inert_comms_failure inert_startup_failure inert_render_configured
  inert_record_timestamp : inert.

Create HintDb safe.
#[export] Hint Resolve task_safe_return safe_add_host safe_remove_host safe_set_trust_mode safe_overlay
  safe_scheduler_start safe_scheduler_stop : safe.

(** By the shape of the task. *)
Ltac safe :=
  repeat first
  [ progress intros
  | solve [auto with safe]
  | match goal with
    | |- task_safe _ (_ ≫= _) => apply task_safe_bind
    | |- task_safe _ (lift _) => first [ apply task_safe_inert; solve [inert] | apply task_safe_lift ]
    | |- task_safe _ (match ?x with _ => _ end) => destruct x
    | |- task_safe _ (let '_ := ?x in _) => destruct x
    end ].

Section safe_tasks.
Context (cfg : Config) (clock : nat → Z) (spare : nat → nat).
Context (range : gmap string string → list (string * string)) (env : environment).

Lemma wire_safe r : task_safe cfg (wire_task clock range r).
Proof. unfold wire_task, task_method, refuse. safe. Qed.
Lemma overlay_safe r : task_safe cfg (overlay_task clock r).
Proof. unfold overlay_task, task_method, refuse. safe. Qed.
Lemma security_mode_safe r : task_safe cfg (security_mode_task r).
Proof. unfold security_mode_task, task_method, refuse. safe. Qed.
Lemma inject_safe r : task_safe cfg (inject_task clock range r).
Proof. unfold inject_task, task_method, refuse. safe. Qed.
Lemma send_safe req : task_safe cfg (send_task clock range env req).
Proof. unfold send_task. safe. Qed.
Hint Resolve send_safe : safe.
Lemma send_and_note_safe req : task_safe cfg (send_and_note_task clock range env req).
Proof. unfold send_and_note_task, refuse. safe. Qed.
Hint Resolve send_and_note_safe : safe.
Lemma outbound_send_safe r : task_safe cfg (outbound_send_task clock range env r).
Proof. unfold outbound_send_task, task_method, refuse. safe. Qed.
Lemma send_like_safe mt r : task_safe cfg (send_like_task clock range env mt r).
Proof. unfold send_like_task, task_method, refuse. safe. Qed.
Lemma scheduler_start_safe r : task_safe cfg (scheduler_start_task clock r).
Proof. unfold scheduler_start_task, task_method, refuse. safe. Qed.
Lemma scheduler_stop_safe r : task_safe cfg (scheduler_stop_task clock r).
Proof. unfold scheduler_stop_task, task_method, refuse. safe. Qed.
Lemma tick_safe c : task_safe cfg (tick_task clock range env c).
Proof. unfold tick_task. safe. Qed.

Lemma exchange_safe op expected body : task_safe cfg (exchange_task clock env op expected body).
Proof. unfold exchange_task. safe. Qed.
Hint Resolve exchange_safe : safe.
Lemma acknowledge_safe op expected message session stamp f x :
  (∀ s, state_core (f s) = state_core s) →
  task_safe cfg (acknowledge_task clock op expected message session stamp f x).
Proof.
  intros Hf. unfold acknowledge_task. safe.
  apply safe_inert, inert_bind; [auto with inert|intros now]. apply inert_bind; [auto with inert|intros c].
  apply inert_bind; [|auto with inert]. apply inert_on_state. intros s'. rewrite <-(Hf s'). by destruct (f s').
Qed.
Lemma acknowledged_safe {A} op expected message session stamp f body (a : A) :
  (∀ s, state_core (f s) = state_core s) → inert body →
  task_safe cfg (acknowledged_task clock env op expected message session stamp f body a).
Proof. intros Hf Hb. unfold acknowledged_task. safe. by apply acknowledge_safe. Qed.

Lemma inert_comms_online session : inert (renderCommsOnline clock session).
Proof. unfold renderCommsOnline, render_message, renderXSDCommunicationsMessage. inert. Qed.
Lemma inert_get_descriptor session : inert (renderGetDescriptor clock session).
Proof. unfold renderGetDescriptor, render_message, renderXSDCommunicationsMessage. inert. Qed.
Lemma inert_set_keep_alive session : inert (renderSetKeepAlive clock session).
Proof. unfold renderSetKeepAlive, render_message, renderXSDCommunicationsMessage. inert. Qed.
Lemma inert_keep_alive session : inert (renderKeepAlive clock session).
Proof. unfold renderKeepAlive, render_message, renderXSDCommunicationsMessage. inert. Qed.

Lemma keep_alive_safe session : task_safe cfg (keep_alive_task clock env session).
Proof. unfold keep_alive_task. apply acknowledged_safe; [done|apply inert_keep_alive]. Qed.
Hint Resolve keep_alive_safe : safe.
Lemma heartbeat_safe session : task_safe cfg (heartbeat_task clock env session).
Proof. unfold heartbeat_task. safe. Qed.
Lemma startup_safe session : task_safe cfg (startup_task clock env session).
Proof.
  unfold startup_task, get_descriptor_task, set_keep_alive_task.
  apply task_safe_bind; [|intros []; [|done]]; (apply acknowledged_safe; [done|]).
  - apply inert_get_descriptor.
  - apply inert_set_keep_alive.
Qed.
Lemma comms_online_safe : task_safe cfg (comms_online_task clock env).
Proof.
  unfold comms_online_task. safe. apply acknowledged_safe; [done|apply inert_comms_online].
Qed.
Hint Resolve heartbeat_safe startup_safe comms_online_safe : safe.
Lemma engine_safe done p : task_safe cfg (engine_task clock env done p).
Proof. destruct p; cbn [engine_task]; safe. Qed.
End safe_tasks.

#[export] Hint Resolve wire_safe overlay_safe security_mode_safe inject_safe outbound_send_safe send_like_safe
  scheduler_start_safe scheduler_stop_safe tick_safe engine_safe : safe.

(** ** Every process *)

Section runs.
Context (o : world).

Let env := o.(wo_peer).

Lemma locked_safe cfg h r : safe cfg (h r) → task_safe cfg (locked h r).
Proof. intros H. apply task_safe_bind; [by apply task_safe_lift|done]. Qed.
Lemma locked_task_safe cfg h r : task_safe cfg (h r) → task_safe cfg (locked_task h r).
Proof. intros H. apply task_safe_bind; [done|by intros]. Qed.

Lemma read_only_handlers r :
  inert (handleHealthz r) ∧ inert (handleControlState r) ∧
  inert (handleControlStateHistory o.(wo_number) o.(wo_log) r) ∧ inert (handleControlLogs o.(wo_number) o.(wo_log) r) ∧
  inert (handleControlPackOperations r).
Proof.
  unfold handleHealthz, handleControlState, handleControlStateHistory, handleControlLogs,
    handleControlPackOperations, QueryEvents, queryEventsLocked, event_reply,
    require_method, method_not_allowed, http_error.
  split_and!; inert.
Qed.

Lemma safe_require_method cfg method r k : safe cfg k → safe cfg (require_method method r k).
Proof. intros H. unfold require_method. case_bool_decide; [done|by apply safe_inert]. Qed.

Lemma host_handlers_safe cfg spare r :
  safe cfg (handleControlHostsAdd spare r) ∧ safe cfg (handleControlHostsRemove r).
Proof.
  unfold handleControlHostsAdd, handleControlHostsRemove, http_error.
  split; apply safe_require_method; destruct (decode_host r); try by apply safe_inert.
  all: apply safe_bind; [auto with safe|by intros; apply safe_inert].
Qed.

Lemma evidence_safe cfg r : task_safe cfg (evidence_task o r).
Proof. unfold evidence_task. safe. Qed.
Lemma pack_summary_safe cfg r : task_safe cfg (pack_summary_task r).
Proof. unfold pack_summary_task. safe. Qed.
Lemma export_safe cfg r : task_safe cfg (export_task o r).
Proof.
  unfold export_task. safe. apply safe_inert.
  unfold export_locked, ExportBundle_to, queryEventsLocked. inert.
Qed.

Lemma routes_safe cfg path r :
  Forall (λ p, task_safe cfg (p.2 r)) (control_routes o path).
Proof.
  pose proof (read_only_handlers r) as (? & ? & ? & ? & ?).
  pose proof (host_handlers_safe cfg o.(wo_spare) r) as [? ?].
  unfold control_routes. repeat apply Forall_cons_2; cbn [snd]; [..|by apply Forall_nil_2].
  all: try first [ apply locked_task_safe; solve [auto with safe]
             | by apply locked_safe, safe_inert
             | by apply locked_safe ].
  all: try (apply locked_safe, safe_inert, inert_audio).
  all: auto using evidence_safe, pack_summary_safe, export_safe.
  all: unfold handleScenarioUIRoot, handleControlSecurityReload; safe; done.
Qed.

Lemma control_safe cfg path r : task_safe cfg (control_task o path r).
Proof.
  unfold control_task. case_bool_decide; [done|].
  destruct (route _ path) as [h|p|] eqn:Hr; try done.
  apply route_in in Hr as [q Hq]. pose proof (routes_safe cfg path r) as Hs.
  rewrite Forall_forall in Hs. apply (Hs _ Hq).
Qed.

(** ** Reachable processes *)

(** The server is consistent and every task keeps it so. *)
Record process_ok (cfg : Config) (p : vegm) : Prop := {
  ok_server : consistent cfg p.(pr_server);
  ok_wire : Forall (task_safe cfg) p.(pr_wire);
  ok_control : Forall (task_safe cfg) p.(pr_control);
  ok_ticks : Forall (task_safe cfg) p.(pr_ticks);
  ok_engine : task_safe cfg p.(pr_engine);
}.

Lemma Forall_task cfg {A} (ts : list (task A)) i after next w :
  Forall (task_safe cfg) ts → ts !! i = Some (Section_ after next) → consistent cfg w →
  consistent cfg (after w) ∧ Forall (task_safe cfg) (<[i := next w]> ts).
Proof.
  intros H Hi Hw. pose proof (Forall_lookup_1 _ _ _ _ H Hi w Hw) as [? ?].
  split; [done|]. by apply Forall_insert.
Qed.

Lemma step_ok cfg p p' : vegm_step o p p' → process_ok cfg p → process_ok cfg p'.
Proof.
  intros [Ha|Hs] [Hw Hws Hcs Hts He].
  - destruct Ha; split; cbn [pr_server pr_wire pr_control pr_ticks pr_engine] in *; try done; try (apply Forall_app_2; [done|]; apply Forall_singleton);
      auto using control_safe with safe.
  - destruct Hs as [w ws cs ts e i ? ? Hi|w ws cs ts e i ? ? Hi|w ws cs ts e i ? ? Hi|w ws cs ts ? ?]; cbn in *.
    + destruct (Forall_task cfg _ _ _ _ w Hws Hi Hw). by split.
    + destruct (Forall_task cfg _ _ _ _ w Hcs Hi Hw). by split.
    + destruct (Forall_task cfg _ _ _ _ w Hts Hi Hw). by split.
    + destruct (He w Hw). by split.
Qed.

Lemma runs_ok cfg p p' : rtc (vegm_step o) p p' → process_ok cfg p → process_ok cfg p'.
Proof. induction 1; eauto using step_ok. Qed.
End runs.
