(* ===== verification/ProcessSpec.v ===== *)
(** * What a running process guarantees

    What a process does when it is computed, that a request which nothing
    interrupts is its handler, which requests leave the server alone, and the
    answers of the control plane. *)

From S2P Require Import Prelude GoStrings Json Config Pack Render Envelope State Control Messages Outbound Scheduler Session Certificate Mux Logger Evidence Threads Process ProcessRuns.

(** ** Processes that have finished *)

Definition returned {A} (t : task A) : bool := match t with Return _ => true | Section_ _ _ => false end.

Definition finished (p : vegm) : Prop :=
  Forall (λ t, returned t = true) p.(pr_wire) ∧ Forall (λ t, returned t = true) p.(pr_control) ∧
  Forall (λ t, returned t = true) p.(pr_ticks) ∧ returned p.(pr_engine) = true.

(** ** Computed runs *)

Lemma run_at_spec {A} i w (ts : list (task A)) w' ts' :
  run_at i w ts = Some (w', ts') ↔
  ∃ after next, ts !! i = Some (Section_ after next) ∧ w' = after w ∧ ts' = <[i := next w]> ts.
Proof.
  unfold run_at. destruct (ts !! i) as [[a|after next]|]; split.
  all: try done.
  all: try by intros (? & ? & ? & ?).
  - intros [= <- <-]. by exists after, next.
  - by intros (? & ? & [= <- <-] & -> & ->).
Qed.

(** The steps are the actions. *)
Lemma exec_step o p p' : vegm_step o p p' ↔ ∃ a, exec o a p = Some p'.
Proof.
  split.
  - intros [[w ws cs ts e r|w ws cs ts e path r|w ws cs ts e|w ws cs ts ph done]
      |[w ws cs ts e i after next Hi|w ws cs ts e i after next Hi|w ws cs ts e i after next Hi|w ws cs ts after next]].
    + by exists (Arrive_wire r).
    + by exists (Arrive_control path r).
    + by exists Begin_tick.
    + by exists (Turn_engine done).
    + exists (Run_wire i). unfold exec, run_at. by rewrite Hi.
    + exists (Run_control i). unfold exec, run_at. by rewrite Hi.
    + exists (Run_tick i). unfold exec, run_at. by rewrite Hi.
    + by exists Run_engine.
  - intros [a Ha]. destruct p as [w ws cs ts e], a as [r|path r| |done|i|i|i|]; cbn [exec] in Ha.
    1-3: injection Ha as <-; left; constructor.
    1, 5: destruct e; try discriminate; injection Ha as <-; first [left; constructor|right; constructor].
    all: destruct (run_at i _ _) as [[w' l]|] eqn:Hr; [|discriminate]; injection Ha as <-;
      apply run_at_spec in Hr as (after & next & Hi & -> & ->); right; by econstructor.
Qed.

Lemma exec_all_run o actions p p' : exec_all o actions p = Some p' → rtc (vegm_step o) p p'.
Proof.
  revert p. induction actions as [|a rest IH]; intros p H; simpl in H; [by simplify_eq|].
  destruct (exec o a p) as [q|] eqn:Hq; [|done]. apply (rtc_l _ _ q); [|by apply IH].
  apply exec_step. by exists a.
Qed.

(** ** A request that nothing interrupts *)

Section alone.
Context (o : world).

Let clock := o.(wo_clock).
Let range := o.(wo_range).
Let env := o.(wo_peer).

Definition whole (h : Request → M Response) (r : Request) : M control_answer :=
  x ← h r; mret (AResponse x).

(** The handlers as the other files define them, each run to its end. *)
Definition control_handlers (path : string) : list (string * (Request → M control_answer)) := [
  ("/healthz", whole handleHealthz);
  ("/ui", λ _, mret (ARedirect 307 "/ui/scenario-runner.html"));
  ("/ui/", λ r, mret (AResponse (ui_response o path r)));
  ("/control/state", whole handleControlState);
  ("/control/state/history", whole (handleControlStateHistory o.(wo_number) o.(wo_log)));
  ("/control/audio", whole (handleControlAudio clock));
  ("/control/machine-status", whole handleControlMachineStatus);
  ("/control/logs", whole (handleControlLogs o.(wo_number) o.(wo_log)));
  ("/control/evidence/latest", λ r,
    x ← handleControlEvidenceLatest o.(wo_newest_first) o.(wo_ReadDir) r;
    mret (match x with inl x => AResponse x | inr e => AEvidence e end));
  ("/control/export", λ r, x ← handleControlExport o.(wo_number) o.(wo_log) clock r; mret (AExport x.1 x.2));
  ("/control/overlay", whole (handleControlOverlay clock));
  ("/control/hosts/add", whole (handleControlHostsAdd o.(wo_spare)));
  ("/control/hosts/remove", whole handleControlHostsRemove);
  ("/control/security/mode", whole handleControlSecurityMode);
  ("/control/security/reload", λ _, cfg ← gets sv_cfg;
    mret (ACertificate (BuildCertificateStatus o.(wo_certificates) cfg)));
  ("/control/pack/summary", whole handleControlPackSummary);
  ("/control/pack/operations", whole handleControlPackOperations);
  ("/control/inject-logical-command", whole (handleControlInjectLogicalCommand clock range));
  ("/control/outbound/session/open", whole (handleControlOutboundSessionOpen clock range env));
  ("/control/outbound/heartbeat", whole (handleControlOutboundHeartbeat clock range env));
  ("/control/outbound/send", whole (handleControlOutboundSend clock range env));
  ("/control/outbound/scheduler/start", whole (handleControlOutboundSchedulerStart clock));
  ("/control/outbound/scheduler/stop", whole (handleControlOutboundSchedulerStop clock))].

Definition control_handler (path : string) (r : Request) : M control_answer :=
  if bool_decide (r.(rq_Method) = "OPTIONS") then mret (AResponse (mkResponse 204 (BText "")))
  else match route (control_handlers path) path with
  | Handled_by h => h r
  | Redirected p => mret (ARedirect 301 p)
  | Unrouted => mret (AResponse (mkResponse 404 (BText "404 page not found")))
  end.

Lemma locked_alone h r : same (alone (locked h r)) (whole h r).
Proof. by apply alone_section. Qed.

Lemma locked_task_alone (h : Request → task Response) h' r :
  same (alone (h r)) (h' r) → same (alone (locked_task h r)) (whole h' r).
Proof. intros H. by apply alone_then. Qed.

Lemma evidence_alone r :
  same (alone (evidence_task o r))
    (x ← handleControlEvidenceLatest o.(wo_newest_first) o.(wo_ReadDir) r;
     mret (match x with inl x => AResponse x | inr e => AEvidence e end)).
Proof. unfold evidence_task, handleControlEvidenceLatest. by destruct (negb _). Qed.

Lemma export_alone r :
  same (alone (export_task o r))
    (x ← handleControlExport o.(wo_number) o.(wo_log) clock r; mret (AExport x.1 x.2)).
Proof.
  unfold export_task, handleControlExport, export_locked. intros w.
  rewrite alone_bind, M_bind_eq, alone_lift. run. rewrite alone_bind, M_bind_eq, alone_lift. run.
  by destruct (ExportBundle_to _ _ _ _ _) as [[[? ?]|e] w'].
Qed.

Lemma routes_alone path :
  Forall2 (λ h k, h.1 = k.1 ∧ ∀ r, same (alone (h.2 r)) (k.2 r)) (control_routes o path) (control_handlers path).
Proof.
  unfold control_routes, control_handlers. repeat apply Forall2_cons_2; [..|by apply Forall2_nil_2].
  all: split; [done|intros r; cbn [snd]].
  all: try match goal with
       | |- same (alone (locked _ _)) _ => apply locked_alone
       | |- same (alone (locked_task _ _)) _ => apply locked_task_alone
       end.
  all: auto using overlay_alone, security_mode_alone, inject_alone, send_like_alone, outbound_send_alone,
    scheduler_start_alone, scheduler_stop_alone.
  all: try done.
  - apply evidence_alone.
  - by apply export_alone.
Qed.

Lemma control_alone path r : same (alone (control_task o path r)) (control_handler path r).
Proof.
  unfold control_task, control_handler. case_bool_decide; [done|].
  pose proof (route_related (λ h k, ∀ r, same (alone (h r)) (k r)) _ _ path (routes_alone path)) as Hr.
  destruct (route (control_routes o path) path) as [h|p|], (route (control_handlers path) path) as [k|q|];
    cbn in Hr; try done; by subst.
Qed.
End alone.

(** ** What a request that is not a POST leaves alone *)

(** Every section leaves everything but the clock. *)
Fixpoint reads {A} (t : task A) : Prop :=
  match t with
  | Return _ => True
  | Section_ after next => ∀ w, (∃ n, after w = set_sv_clock n w) ∧ reads (next w)
  end.

(** The same of a computation. *)
Definition reader {A} (x : M A) : Prop := ∀ w, ∃ n, (x w).2 = set_sv_clock n w.

Lemma reader_ret {A} (a : A) : reader (mret a).
Proof. intros w. exists w.(sv_clock). by destruct w. Qed.
Lemma reader_gets {A} (f : Server → A) : reader (gets f).
Proof. intros w. exists w.(sv_clock). by destruct w. Qed.
Lemma reader_Now clock : reader (Now clock).
Proof. intros w. by eexists. Qed.
Lemma reader_bind {A B} (x : M A) (f : A → M B) : reader x → (∀ a, reader (f a)) → reader (x ≫= f).
Proof.
  intros Hx Hf w. rewrite M_bind_eq. destruct (Hx w) as [n Hn], (Hf (x w).1 (x w).2) as [m Hm].
  exists m. rewrite Hm, Hn. done.
Qed.

Lemma reads_bind {A B} (t : task A) (f : A → task B) : reads t → (∀ a, reads (f a)) → reads (t ≫= f).
Proof.
  intros Ht Hf. induction t as [a|after next IH]; [apply Hf|].
  intros w. destruct (Ht w). split; [done|]. by apply IH.
Qed.
Lemma reads_lift {A} (x : M A) : reader x → reads (lift x).
Proof. intros H w. split; [apply H|done]. Qed.

Ltac reader :=
  repeat first
  [ progress intros
  | match goal with
    | |- reader (_ ≫= _) => apply reader_bind
    | |- reader (mret _) => apply reader_ret
    | |- reader (gets _) => apply reader_gets
    | |- reader get_state => apply reader_gets
    | |- reader (Now _) => apply reader_Now
    | |- reader (match ?x with _ => _ end) => destruct x
    | |- reader (let '_ := ?x in _) => destruct x
    end ].

Ltac reading :=
  repeat first
  [ progress intros
  | match goal with
    | |- reads (Return _) => exact I
    | |- reads (_ ≫= _) => apply reads_bind
    | |- reads (lift _) => apply reads_lift
    | |- reads (if ?x then _ else _) => destruct x
    end ].

(** ** The answers of the control plane *)

Section returns.
Context {A : Type} (P : A → Prop).

(** Whatever else happens between the sections, the answer satisfies [P]. *)
Fixpoint returns (t : task A) : Prop :=
  match t with
  | Return a => P a
  | Section_ _ next => ∀ w, returns (next w)
  end.

Lemma returns_bind {B} (t : task B) (f : B → task A) : (∀ b, returns (f b)) → returns (t ≫= f).
Proof. intros Hf. induction t as [b|after next IH]; [apply Hf|]. intros w. apply IH. Qed.

(** The same of a computation. *)
Definition results (x : M A) : Prop := ∀ w, P (x w).1.

Lemma results_bind {B} (x : M B) (f : B → M A) : (∀ b, results (f b)) → results (x ≫= f).
Proof. intros H w. rewrite M_bind_eq. apply H. Qed.
Lemma results_ret_bind {B} (b : B) (f : B → M A) : results (f b) → results (mret b ≫= f).
Proof. intros H w. apply H. Qed.
Lemma results_ret a : P a → results (mret a).
Proof. by intros H w. Qed.

Lemma returns_lift {B} (Q : B → Prop) (x : M B) (f : B → task A) :
  (∀ w, Q (x w).1) → (∀ b, Q b → returns (f b)) → returns (lift x ≫= f).
Proof. intros Hx Hf w. by apply Hf. Qed.
End returns.

Definition is_text (b : body) : bool := match b with BText _ => true | _ => false end.

(** The paths by what they answer a good request with. *)
Definition state_paths : list string :=
  ["/control/state"; "/control/machine-status"; "/control/audio"; "/control/hosts/add";
   "/control/hosts/remove"; "/control/security/mode"].
Definition object_paths : list string :=
  ["/healthz"; "/control/export"; "/control/overlay"; "/control/pack/summary";
   "/control/outbound/session/open"; "/control/outbound/heartbeat"; "/control/outbound/send"].

(** A good answer has the type of its path and status 200. *)
Definition body_fits (path : string) (b : body) : bool :=
  match b with
  | BText _ | BXml _ => false
  | BState _ => bool_decide (path ∈ state_paths)
  | BJson _ => bool_decide (path ∈ object_paths)
  | BJsonState _ _ => bool_decide (path = "/control/inject-logical-command")
  | BScheduler _ => bool_decide (path ∈ ["/control/outbound/scheduler/start"; "/control/outbound/scheduler/stop"])
  | BEvents _ => bool_decide (path ∈ ["/control/logs"; "/control/state/history"])
  | BOperations _ => bool_decide (path = "/control/pack/operations")
  end.

Definition response_fits (path : string) (x : Response) : bool :=
  if is_text x.(rp_Body) then bool_decide (x.(rp_Status) ∈ [204; 400; 404; 405; 500]%Z)
  else bool_decide (x.(rp_Status) = 200%Z) && body_fits path x.(rp_Body).

Definition answer_fits (path : string) (a : control_answer) : bool :=
  match a with
  | AResponse x => has_prefix "/ui/" path || response_fits path x
  | AEvidence _ => bool_decide (path = "/control/evidence/latest")
  | ACertificate _ => bool_decide (path = "/control/security/reload")
  | AExport x written =>
      bool_decide (path = "/control/export") && response_fits path x &&
      bool_decide (is_Some written ↔ x.(rp_Status) = 200%Z)
  | ARedirect status _ => bool_decide (status ∈ [301; 307]%Z)
  end.

Section control_properties.
Context (o : world).

Lemma routes_read path r :
  r.(rq_Method) ≠ "POST" → Forall (λ p, reads (p.2 r)) (control_routes o path).
Proof.
  intros Hm.
  assert (Hp : ∀ h, reader (h r) → reads (locked h r)).
  { intros h H. apply reads_bind; [by apply reads_lift|done]. }
  unfold control_routes. repeat apply Forall_cons_2; cbn [snd]; [..|by apply Forall_nil_2].
  all: match goal with |- reads (locked _ _) => apply Hp | _ => idtac end.
  all: unfold handleHealthz, handleControlMachineStatus, handleControlState, handleControlStateHistory, handleControlLogs,
      handleControlPackOperations, QueryEvents, queryEventsLocked, event_reply,
      handleControlAudio, handleControlHostsAdd, handleControlHostsRemove,
      require_method, method_not_allowed, http_error; try (rewrite bool_decide_eq_false_2 by done); reader.
  all: unfold handleScenarioUIRoot, scenarioUIHandler, evidence_task, pack_summary_task, export_task, handleControlSecurityReload, locked_task,
      overlay_task, security_mode_task, inject_task, send_like_task, outbound_send_task, scheduler_start_task,
      scheduler_stop_task, task_method, refuse; try (rewrite bool_decide_eq_false_2 by done); try done.
  all: reading; unfold export_locked, ExportBundle_to, queryEventsLocked; reader.
Qed.

Lemma control_reads path r : r.(rq_Method) ≠ "POST" → reads (control_task o path r).
Proof.
  intros Hm. unfold control_task. case_bool_decide; [done|].
  destruct (route _ path) as [h|p|] eqn:Hr; try done.
  apply route_in in Hr as [q Hq]. pose proof (routes_read path r Hm) as Hs.
  rewrite Forall_forall in Hs. apply (Hs _ Hq).
Qed.

(** By the shape of a task or a computation. *)
Ltac answers :=
  repeat first
  [ progress intros
  | match goal with
    | |- returns _ (_ ≫= _) => apply returns_bind
    | |- returns _ (match ?x with _ => _ end) => destruct x
    | |- returns _ (let '_ := ?x in _) => destruct x
    | |- returns _ (Return _) => cbn [returns]
    | |- results _ (mret _ ≫= _) => apply results_ret_bind
    | |- results _ (_ ≫= _) => apply results_bind
    | |- results _ (match ?x with _ => _ end) => destruct x
    | |- results _ (let '_ := ?x in _) => destruct x
    | |- results _ (mret _) => apply results_ret
    end ].

Lemma locked_returns path h r :
  results (λ x, response_fits path x = true) (h r) → returns (λ a, answer_fits path a = true) (locked h r).
Proof. intros H w. cbn. rewrite (H w). apply orb_true_r. Qed.

Lemma locked_task_returns path (h : Request → task Response) r :
  returns (λ x, response_fits path x = true) (h r) → returns (λ a, answer_fits path a = true) (locked_task h r).
Proof.
  unfold locked_task. generalize (h r). intros t Ht. induction t as [a|after next IH].
  - cbn in *. rewrite Ht. apply orb_true_r.
  - intros w. by apply IH.
Qed.

Lemma routes_answer path r :
  Forall (λ p, p.1 = path ∨ subtree_of path p.1 = true → returns (λ a, answer_fits path a = true) (p.2 r))
    (control_routes o path).
Proof.
  unfold control_routes. repeat apply Forall_cons_2; cbn [fst snd]; [..|by apply Forall_nil_2];
    (intros [<-|Hsub]; [|first [discriminate Hsub|idtac]]).
  all: match goal with
       | |- returns _ (locked _ _) => apply locked_returns
       | |- returns _ (locked_task _ _) => apply locked_task_returns
       | |- _ => idtac
       end.
  all: unfold handleHealthz, handleControlMachineStatus, handleControlState, handleControlStateHistory, handleControlLogs,
      handleControlPackOperations, event_reply,
      handleControlAudio, handleControlHostsAdd, handleControlHostsRemove, require_method, method_not_allowed, http_error,
      handleScenarioUIRoot, handleControlSecurityReload, pack_summary_task,
      overlay_task, security_mode_task, inject_task, send_like_task, outbound_send_task, send_and_note_task,
      scheduler_start_task, scheduler_stop_task, task_method, refuse; answers; try reflexivity.
  - apply andb_prop in Hsub as [_ Hsub]. unfold answer_fits. by rewrite Hsub.
  - by unfold evidence_task; destruct (negb _).
  - apply returns_bind. intros st.
    apply (returns_lift _ (λ x, answer_fits "/control/export" (AExport x.1 x.2) = true)); [|by intros x].
    change (results (λ x, answer_fits "/control/export" (AExport x.1 x.2) = true) (export_locked o st)).
    unfold export_locked. answers; reflexivity.
Qed.

Lemma control_returns path r : returns (λ a, answer_fits path a = true) (control_task o path r).
Proof.
  unfold control_task. case_bool_decide; [apply orb_true_r|].
  destruct (route _ path) as [h|p|] eqn:Hr; [|done|apply orb_true_r].
  apply route_matches in Hr as (q & Hq & Hp). pose proof (routes_answer path r) as Hs.
  rewrite Forall_forall in Hs. by apply (Hs _ Hq).
Qed.
End control_properties.
