(* ===== verification/ProcessProps.v ===== *)
(** * What a running process guarantees: the theorems

    How a process starts, what holds in all of its runs, what its requests do and
    answer, and what the interleavings that the code leaves open can lead to. *)

From S2P Require Import Prelude GoStrings Json Config Pack Render Envelope State Control Messages Outbound Scheduler Session Certificate Mux Patterns Logger Evidence Threads Process ProcessRuns ProcessSpec.

(** ** How a process starts *)

Section start.
Context (o : world) (nw : network).

Let env := o.(wo_peer).

(** What the wire's listener asks of its clients in a trust mode. *)
Definition wire_protection (cfg : Config) (tls : option wireTLS) : Prop :=
  let s := cfg.(cfg_Security) in
  match tls with
  | None => s.(sec_TrustMode) = "plaintext_lab"
  | Some t =>
      t.(wt_MinVersion) = VersionTLS12 ∧
      t.(wt_Certificate) = (s.(sec_CertFile), s.(sec_KeyFile)) ∧
      env.(env_load_keypair) s.(sec_CertFile) s.(sec_KeyFile) = Ok () ∧
      if t.(wt_RequireClientCert)
      then s.(sec_TrustMode) ∈ ["strict_mtls"; "mtls_no_revocation"] ∧
           ∃ pem, env.(env_read_file) s.(sec_CAFile) = Ok pem ∧ t.(wt_ClientCAs) = Some pem
      else s.(sec_TrustMode) ∈ ["tls_server_only"; "accept_all_lab"] ∧ t.(wt_ClientCAs) = None
  end.

(** The paths can be registered: each is a pattern of the mux, and no two of
    them conflict. *)
Definition patterns_ok (patterns : list string) : Prop := patterns_fit o.(wo_name_rune) patterns.

Lemma wire_mux_ok patterns : is_Some (wire_mux o patterns) ↔ patterns_ok patterns.
Proof. apply register_patterns_spec. Qed.

Lemma makeWireTLSConfig_ok cfg t : makeWireTLSConfig o cfg = Ok t → wire_protection cfg (Some t).
Proof.
  unfold makeWireTLSConfig, wire_protection. fold env.
  destruct (env_load_keypair env _ _) as [[]|e] eqn:Hk; [|done]. cbn [mbind result_bind].
  case_bool_decide; [by intros [= <-]|]. case_bool_decide; [|done].
  destruct (env_read_file env _) as [pem|e] eqn:He; [|done]. intros [= <-]. cbn. split_and!; try done. by exists pem.
Qed.
End start.

(** The scheduler is started with the process. *)
Definition auto_starts (cfg : Config) : bool :=
  let out := cfg.(cfg_Outbound) in
  out.(out_Scheduler).(sch_Enabled) && out.(out_Scheduler).(sch_AutoStart) &&
  negb (bool_decide (out.(out_DefaultTargetURL) = "")).

Section start_lemmas.
Context (o : world) (nw : network).

Let env := o.(wo_peer).

Lemma startWire_spec cfg pk open :
  match startWire o nw cfg pk open with
  | Started open' tls =>
      open' = open ++ [wire_address cfg] ∧ nw.(nw_Listen) (wire_address cfg) = None ∧
      patterns_ok o (wire_patterns cfg pk) ∧ wire_protection o cfg tls
  | StartPanicked open' => open' = open ∧ ¬ patterns_ok o (wire_patterns cfg pk)
  | StartFailed e open' =>
      patterns_ok o (wire_patterns cfg pk) ∧
      (open' = open ∧ nw.(nw_Listen) (wire_address cfg) = Some e ∨
       open' = open ++ [wire_address cfg] ∧ cfg.(cfg_Security).(sec_TrustMode) ≠ "plaintext_lab" ∧
         makeWireTLSConfig o cfg = Err e)
  end.
Proof.
  unfold startWire. pose proof (wire_mux_ok o (wire_patterns cfg pk)) as Hm.
  destruct (wire_mux _ _) as [l|].
  2: { split; [done|]. intros Hp. apply Hm in Hp as [? ?]. done. }
  assert (Hp : patterns_ok o (wire_patterns cfg pk)) by (apply Hm; eauto).
  destruct (nw_Listen nw (wire_address cfg)) as [e|] eqn:Hw; [by eauto|].
  case_bool_decide as Hmode; [done|].
  destruct (makeWireTLSConfig o cfg) as [tls|e] eqn:Ht; [|by eauto 10].
  split_and!; try done. by apply makeWireTLSConfig_ok.
Qed.

Lemma auto_start_spec cfg w :
  cfg = w.(sv_cfg) →
  ((when (cfg.(cfg_Outbound).(out_Scheduler).(sch_Enabled) && cfg.(cfg_Outbound).(out_Scheduler).(sch_AutoStart))
    (_ ← StartOutboundScheduler o.(wo_clock); mret ())) w).2.(sv_schedulerCancel)
  = w.(sv_schedulerCancel) || auto_starts cfg.
Proof.
  intros ->. rewrite when_eq. unfold auto_starts, StartOutboundScheduler.
  destruct (sch_Enabled _) eqn:He, (sch_AutoStart _) eqn:Ha; cbn [andb]; rewrite ?orb_false_r; try done.
  rewrite M_bind_eq. rewrite M_bind_eq. cbn [gets fst snd]. rewrite M_bind_eq. cbn [gets fst snd]. rewrite He. cbn [negb].
  case_bool_decide; cbn [negb]; [by rewrite orb_false_r|].
  by destruct (sv_schedulerCancel w) eqn:Hs; cbn; rewrite ?Hs.
Qed.
End start_lemmas.

(** ** The server that is started *)

Section fresh.
Context (clock : nat → Z).

Lemma LoadPack_ok fs path pk : LoadPack fs path = Ok pk → pack_ok pk.
Proof.
  unfold LoadPack, ParsePack. intros H. destruct (fs !! path) as [[j|]|]; try done.
  destruct (dec j zero) as [p|]; [|done]. result_binds. simplify_eq. destruct v.
  by apply (ValidatePack_in_ok (map_to_list pk.(mp_Operations)) pk).
Qed.

Lemma apply_overlays_ok fs overlays pk pk' :
  apply_overlays fs pk overlays = Ok pk' → pack_ok pk → pack_ok pk'.
Proof.
  revert pk. induction overlays as [|path overlays IH]; intros pk H Hp; cbn [apply_overlays] in H; [by simplify_eq|].
  result_binds. eapply IH; [eassumption|]. eapply ApplyOverlay_valid. eassumption.
Qed.

Lemma NewServer_consistent open_log fs cfg modes w :
  NewServer clock open_log fs cfg modes = Ok w → consistent cfg w.
Proof.
  unfold NewServer. intros H. result_binds. simplify_eq. split; cbn; try done.
  - exists cfg.(cfg_Security).(sec_TrustMode). destruct cfg as [c1 c2 c3 c4 c5 c6 c7 c8 [] c10]. reflexivity.
  - eauto using apply_overlays_ok, LoadPack_ok.
  - unfold slice_ok. cbn. by rewrite lookup_singleton_eq.
Qed.
End fresh.

Lemma Start_safe o nw cfg : safe cfg (Start o nw).
Proof.
  unfold Start. apply safe_bind; [by apply safe_inert|intros c].
  apply safe_bind; [by apply safe_inert|intros pk].
  destruct (startControl nw c) as [open|e]; [|by apply safe_inert].
  destruct (startWire _ _ _ _ _) as [open' tls|e open'|open']; [|by apply safe_inert..].
  apply safe_bind; [|intros _; by apply safe_inert].
  destruct (_ && _); [|by apply safe_inert].
  apply safe_bind; [apply safe_scheduler_start|intros _; by apply safe_inert].
Qed.

Lemma vegm_main_consistent o open_log nw fs path w outcome engine :
  vegm_main o open_log nw fs path = Ok (w, outcome, engine) →
  ∃ cfg, (LoadConfig fs ∅ path).2 = Ok cfg ∧ consistent cfg w.
Proof.
  unfold vegm_main. case_bool_decide; [done|].
  destruct (LoadConfig fs ∅ path) as [registry loaded]. intros Hm. result_binds.
  destruct (Start o nw v0) as [out w1] eqn:Hs. destruct out as [open tls|e open|open]; try done.
  assert (w = w1) as -> by (unfold StartSessionEngine in K0; rewrite M_bind_eq in K0; cbn in K0; congruence).
  exists v. split; [done|]. replace w1 with (Start o nw v0).2 by by rewrite Hs.
  apply Start_safe. by eapply NewServer_consistent.
Qed.

(** ** The routes of the control plane *)

Section routes.
Context (o : world) (path : string).

Definition control_paths : list string := (control_handlers o path).*1.

Lemma control_paths_NoDup : NoDup control_paths.
Proof. apply (bool_decide_unpack _). vm_compute. exact I. Qed.

Lemma control_paths_clean p : p ∈ control_paths → cleanPath p = p ∧ (has_suffix "/" p = true → p = "/ui/").
Proof.
  assert (H : Forall (λ p, cleanPath p = p ∧ (has_suffix "/" p = true → p = "/ui/")) control_paths).
  { unfold control_paths, control_handlers. cbn [fmap list_fmap fst].
    repeat apply Forall_cons_2; [..|by apply Forall_nil_2]; (split; [reflexivity|]; first [discriminate|done]). }
  rewrite Forall_forall in H. apply H.
Qed.

Lemma control_paths_routes : (control_routes o path).*1 = control_paths.
Proof. reflexivity. Qed.
End routes.

Definition mode_request (mode : string) : Request :=
  mkRequest "POST" "application/json" (Ok (mkBytes "" (mkStream [] None)))
    (Some (JObj [("trust_mode", JStr mode)])) "".

Section properties.
Context (o : world).

(** C10. [Start] opens the control listener, then the wire's, protects the wire as
    the trust mode says (TLS 1.2 at least, with the key pair of the configuration,
    and client certificates in the mutual modes only), and starts the scheduler
    when it is to start by itself. It panics exactly when the mux refuses the
    paths of the wire: one is no pattern of the mux, or two of them match some
    request in common and neither is strictly more specific. When it fails or
    panics, nothing of the server has changed, and the listeners opened
    before stay open. *)
Theorem Start_correct (nw : network) (w : Server) :
  let cfg := w.(sv_cfg) in
  let control := cfg.(cfg_Control).(ct_Bind) in
  let wire := wire_address cfg in
  let patterns := wire_patterns cfg w.(sv_pack) in
  let w' := (Start o nw w).2 in
  match (Start o nw w).1 with
  | Started open tls =>
      open = [control; wire] ∧ nw.(nw_Listen) control = None ∧ nw.(nw_Listen) wire = None ∧
      patterns_ok o patterns ∧ wire_protection o cfg tls ∧
      w'.(sv_schedulerCancel) = w.(sv_schedulerCancel) || auto_starts cfg
  | StartPanicked open => w' = w ∧ open = [control] ∧ nw.(nw_Listen) control = None ∧ ¬ patterns_ok o patterns
  | StartFailed e open =>
      w' = w ∧
      (open = [] ∧ nw.(nw_Listen) control = Some e ∨
       open = [control] ∧ nw.(nw_Listen) wire = Some e ∧ patterns_ok o patterns ∨
       open = [control; wire] ∧ cfg.(cfg_Security).(sec_TrustMode) ≠ "plaintext_lab" ∧
         makeWireTLSConfig o cfg = Err e)
  end.
Proof.
  cbv zeta. unfold Start. rewrite M_bind_eq. cbn [gets fst snd]. rewrite M_bind_eq. cbn [gets fst snd].
  unfold startControl. destruct (nw_Listen nw (ct_Bind _)) as [e|] eqn:Hc; [split; [done|by left]|].
  pose proof (startWire_spec o nw (sv_cfg w) (sv_pack w) [ct_Bind (cfg_Control (sv_cfg w))]) as Hs.
  destruct (startWire _ _ _ _ _) as [open tls|e open|open].
  2: { destruct Hs as [Hp [[-> He]|(-> & Hm & He)]]; (split; [done|right]); [by left|by right]. }
  2: { by destruct Hs as [-> Hp]. }
  rewrite M_bind_eq, M_bind_eq. cbn [get_state gets fst snd]. rewrite M_bind_eq. cbn [fst snd mret M_ret].
  destruct Hs as (-> & Hw & Hp & Ht). split_and!; try done.
  by rewrite <-(auto_start_spec o (sv_cfg w) w eq_refl).
Qed.

(** C3. In every run of a process that [main] has started, whatever arrives and
    however requests, ticks and the session engine interleave, the parts of the
    server agree: the configuration is the loaded one but for its trust mode, the
    pack is valid and decides the registration, the list of hosts lies in its
    array, the state has the configuration's identity and says truly whether the
    scheduler runs. *)
Theorem process_invariant open_log nw fs path w outcome engine p :
  vegm_main o open_log nw fs path = Ok (w, outcome, engine) →
  rtc (vegm_step o) (started w engine) p →
  ∃ cfg, (LoadConfig fs ∅ path).2 = Ok cfg ∧ consistent cfg p.(pr_server).
Proof.
  intros Hm Hr. destruct (vegm_main_consistent _ _ _ _ _ _ _ _ Hm) as (cfg & Hc & Hw).
  exists cfg. split; [done|]. apply (runs_ok o cfg _ _ Hr). by split.
Qed.

(** C4. A message on the wire, whatever happens between its three sections,
    takes effect in one of them. Reading it and answering it leave the state; in
    between, the host is judged, the operation is looked up and the state is
    changed as for a message that nothing interrupts, all in one state, even when
    hosts, the pack and the policies are changed meanwhile. The text of a refusal
    alone is that of the last error when it is written, which can be another
    message's. A request that holds no message changes nothing. *)
Theorem wire_takes_effect_at_once r ws :
  let '(after, resp) := through 0 ws (wire_task o.(wo_clock) o.(wo_range) r) in
  match wire_message r with
  | Err e =>
      resp = mkResponse (if bool_decide (r.(rq_Method) = "POST")
                         then if isXMLContentType r.(rq_ContentType) then 400 else 415 else 405) (BText e) ∧
      (after = [] ∨ ∃ w0, after = [w0] ∧ still (ws 0) w0)
  | Ok (_, m) =>
      ∃ w0 w1 w2 t, after = [w0; w1; w2] ∧ still (ws 0) w0 ∧ quiet (ws 1) w1 ∧ still (ws 2) w2 ∧
      let op := m.(pm_RootLocalName) in
      let host := wire_host m in
      let session := wire_session m (ws 0) t in
      let told status := resp = mkResponse status (BText (ws 2).(sv_state).(rs_LastError)) in
      let fails error := w1.(sv_state) = set_rs_LastError error (ws 1).(sv_state) in
      (¬ host_admitted (ws 1) host ∧ told 403%Z ∧
        fails ("host " +:+ quote host +:+ " is not registered or enabled")) ∨
      (host_admitted (ws 1) host ∧ variant_for (ws 1) op = None ∧ told 400%Z ∧
        fails ("operation " +:+ quote op +:+ " is not defined")) ∨
      (host_admitted (ws 1) host ∧ ∃ v, variant_for (ws 1) op = Some v ∧
        command_done "controller_connected" op host session v (ws 1).(sv_state) w1.(sv_state) ∧
        resp = mkResponse (response_status v)
          (BXml (answer o.(wo_range) v (ws 1)
                   (request_fields host session (wire_egm m (ws 0).(sv_cfg))) w1.(sv_state))))
  end.
Proof.
  unfold wire_task, task_method. destruct (wire_message r) as [[data m]|e] eqn:Hm.
  - destruct (wire_received_message o.(wo_clock) r (ws 0) data m Hm) as (w0 & t & Hq0 & He0).
    rewrite bool_decide_eq_true_2 by (by eapply wire_message_post).
    rewrite through_lift, He0. cbn [fst snd]. rewrite through_lift.
    set (op := pm_RootLocalName m). set (host := wire_host m). set (session := wire_session m (ws 0) t).
    set (egm := wire_egm m (sv_cfg (ws 0))).
    pose proof (wire_locked_cases o.(wo_clock) o.(wo_range) op host session egm (ws 1)) as Hc.
    destruct (wire_locked _ _ op host session egm (ws 1)) as [d w1]. cbn [fst snd] in *. destruct Hc as [Hq1 Hc].
    rewrite through_one. exists w0, w1, (wire_respond o.(wo_clock) op host session d (ws 2)).2, t.
    split_and!; try done; [apply wire_respond_still|].
    destruct Hc as [(H & -> & Hs)|[(H & Hv & -> & Hs)|(H & v & Hv & -> & Hs)]];
      [by left|by right; left|right; right]. split; [done|]. exists v. split_and!; try done.
    apply wire_respond_handled.
  - by apply wire_received_refused.
Qed.

(** The control plane sends each path to its handler, and answers 404 to any
    other path that is clean and not below [/ui/]. *)
Theorem control_dispatch path r :
  r.(rq_Method) ≠ "OPTIONS" →
  (∀ h, (path, h) ∈ control_handlers o path → control_handler o path r = h r) ∧
  (cleanPath path = path → path ∉ control_paths o path → has_prefix "/ui/" path = false →
   control_handler o path r = mret (AResponse (mkResponse 404 (BText "404 page not found")))).
Proof.
  intros Hm. unfold control_handler. rewrite bool_decide_eq_false_2 by done. split.
  - intros h Hh. rewrite (route_exact _ _ h); [done| |apply control_paths_NoDup|done].
    apply (control_paths_clean o path path). apply list_elem_of_fmap. by exists (path, h).
  - intros Hc Hp Hu.
    assert (route (control_handlers o path) path = Unrouted) as ->; [|done].
    assert (Hsub : ∀ q, q ∈ control_paths o path → subtree_of path q = false).
    { intros q Hq. unfold subtree_of. destruct (has_suffix "/" q) eqn:Hs; [|done].
      apply (control_paths_clean o path) in Hq as [_ Hq]. by rewrite (Hq Hs). }
    apply route_nothing; [done..| |done]. intros Hq.
    destruct (control_paths_clean o path _ Hq) as [_ Hui].
    rewrite has_suffix_end in Hui. specialize (Hui eq_refl).
    change "/ui/" with ("/ui" +:+ "/") in Hui. apply string_app_inj_r in Hui as ->.
    apply Hp. by do 1 right; left.
Qed.

(** C12. Only a POST can change the server: every other request to the control
    plane leaves everything but the clock as it is, in each of its sections. *)
Theorem only_posts_change path r :
  r.(rq_Method) ≠ "POST" → reads (control_task o path r).
Proof. apply control_reads. Qed.

(** C11. The answers of the control plane have the types of its interface: a good
    answer has status 200 and the body that its path promises, a refusal is a text
    with one of five statuses, an export tells of a file exactly when it has
    written one, whatever runs between the sections of the request. *)
Theorem control_answers path r : returns (λ a, answer_fits path a = true) (control_task o path r).
Proof. apply control_returns. Qed.

(** Two requests for a trust mode that overlap can leave the process with one
    mode in its configuration, which outbound calls use, and the other in the
    state that it reports, for as long as no other request sets the mode. *)
Theorem trust_mode_race w m1 m2 :
  m1 ≠ "" → m2 ≠ "" →
  ∃ p, rtc (vegm_step o) (started w None) p ∧ finished p ∧
    p.(pr_server).(sv_cfg).(cfg_Security).(sec_TrustMode) = m2 ∧
    p.(pr_server).(sv_state).(rs_TrustMode) = m1.
Proof.
  intros H1 H2.
  assert (Hr : ∀ m, m ≠ "" → control_task o "/control/security/mode" (mode_request m)
    = Section_ (set_trust_mode m) (λ w, Section_ (λ w, set_sv_state (set_rs_TrustMode m w.(sv_state)) w)
        (λ w, Return (AResponse (mkResponse 200 (BState (set_rs_TrustMode m w.(sv_state)))))))).
  { intros m Hm. unfold control_task.
    rewrite (route_exact _ _ (locked_task security_mode_task));
      [|reflexivity|apply (control_paths_NoDup o "")|do 13 right; left].
    unfold locked_task, security_mode_task.
    assert (Hd : rq_Json (mode_request m) ≫= (λ j, dec_securityMode j (mkSecurityMode "")) = Some (mkSecurityMode m)) by reflexivity.
    rewrite Hd. cbn [sm_TrustMode].
    rewrite (bool_decide_eq_false_2 (m = "")) by done. reflexivity. }
  eexists. split.
  { apply (exec_all_run o [Arrive_control "/control/security/mode" (mode_request m1);
      Arrive_control "/control/security/mode" (mode_request m2);
      Run_control 0; Run_control 1; Run_control 1; Run_control 0]).
    cbn [exec_all exec started app mbind option_bind]. rewrite !Hr by done. reflexivity. }
  split; [|done]. by repeat constructor.
Qed.
End properties.

(** ** Witnesses *)

Definition example_world : world := {|
  wo_clock := Z.of_nat; wo_spare := λ n, n; wo_range := map_to_list;
  wo_peer := example_environment "keepAliveAck"; wo_number := λ _, "0"; wo_log := example_log;
  wo_newest_first := merge_sort newer; wo_ReadDir := example_dir;
  wo_certificates := mkCertEnv (λ _ _, Ok []) (λ _, Err "no certificate") (λ _, Ok "pem") (λ _, true);
  wo_ui := λ _ _, mkResponse 404 (BText "404 page not found"); wo_name_rune := λ _ _, false;
|}.
Definition example_network : network := mkNetwork (λ _, None) (λ addr, addr).

Definition run_files : gmap string file := {[
  "egm.json" := JsonFile (enc example_config); "packs/starter.json" := JsonFile (enc (example_pack 3000)) ]}.

(** [main] with these files, and what follows in a process that it starts. *)
Definition example_vegm (actions : list action) : option (Server * option phase * vegm) :=
  match vegm_main example_world (λ _ _ _, Ok ()) example_network run_files "egm.json" with
  | Ok (w, _, engine) => p ← exec_all example_world actions (started w engine); Some (w, engine, p)
  | Err _ => None
  end.

Lemma example_run_spec actions w engine p :
  example_vegm actions = Some (w, engine, p) →
  ∃ outcome, vegm_main example_world (λ _ _ _, Ok ()) example_network run_files "egm.json"
    = Ok (w, outcome, engine) ∧ rtc (vegm_step example_world) (started w engine) p.
Proof.
  unfold example_vegm. destruct (vegm_main _ _ _ _ _) as [[[w' outcome] engine']|e]; [|done].
  destruct (exec_all _ _ _) as [q|] eqn:Hq; [|done]. intros [= <- <- <-].
  exists outcome. split; [done|]. by apply exec_all_run in Hq.
Qed.

(** A message on the wire, the mode of the wire, and the engine's first turn. *)
Definition example_actions : list action := [
  Arrive_wire (example_request "keepAlive"); Arrive_control "/control/security/mode" (mode_request "plaintext_lab");
  Turn_engine false; Run_wire 0; Run_control 0; Run_engine; Run_wire 0; Run_engine; Run_control 0].

Lemma process_invariant_witness :
  ∃ w engine p, example_vegm example_actions = Some (w, engine, p) ∧
    ∃ cfg, (LoadConfig run_files ∅ "egm.json").2 = Ok cfg ∧ consistent cfg p.(pr_server).
Proof.
  destruct (example_vegm example_actions) as [[[w engine] p]|] eqn:Hr.
  - exists w, engine, p. split; [done|]. apply example_run_spec in Hr as (outcome & Hm & Hr).
    by eapply (process_invariant example_world).
  - assert (Hs : bool_decide (is_Some (example_vegm example_actions)) = true) by (vm_compute; reflexivity).
    rewrite Hr in Hs. discriminate.
Defined.

Lemma control_dispatch_witness :
  control_handler example_world "/control/hosts/add" (edit_request "HOST-009")
  = whole (handleControlHostsAdd (wo_spare example_world)) (edit_request "HOST-009") ∧
  control_handler example_world "/nowhere" (edit_request "HOST-009")
  = mret (AResponse (mkResponse 404 (BText "404 page not found"))).
Proof.
  split.
  - apply (control_dispatch example_world "/control/hosts/add"); [done|]. do 11 right. left.
  - apply (control_dispatch example_world "/nowhere"); [done|reflexivity| |reflexivity].
    intros H. cut (bool_decide ("/nowhere" ∈ control_paths example_world "/nowhere") = true);
      [vm_compute; discriminate|by apply bool_decide_eq_true_2].
Defined.

Lemma only_posts_change_witness :
  reads (control_task example_world "/control/state"
    (mkRequest "GET" "" (Err "EOF") None "EOF")).
Proof. by apply (only_posts_change example_world). Defined.

Lemma trust_mode_race_witness :
  ∃ p, rtc (vegm_step example_world) (started example_server None) p ∧ finished p ∧
    p.(pr_server).(sv_cfg).(cfg_Security).(sec_TrustMode) = "plaintext_lab" ∧
    p.(pr_server).(sv_state).(rs_TrustMode) = "strict_mtls".
Proof. by apply (trust_mode_race example_world). Defined.

(** ** Examples *)

(** A tick that waits for its reply when the scheduler is stopped records it all
    the same: the stopped scheduler brings the session online. *)
Definition scheduler_request : Request := mkRequest "POST" "" (Err "EOF") None "EOF".
Definition scheduled_server : Server :=
  set_sv_cfg (set_cfg_Outbound (mkOutbound "http://127.0.0.1:9000/host" "" "" 0 false
      (mkSchedulerConfig true false true 5000 0 0 false))
    (set_cfg_Security (set_TrustMode "plaintext_lab" example_config.(cfg_Security)) example_config)) example_server.
Definition answering_world : world :=
  let o := example_world in
  mkWorld o.(wo_clock) o.(wo_spare) o.(wo_range) (example_environment "commsOnLineAck") o.(wo_number) o.(wo_log)
    o.(wo_newest_first) o.(wo_ReadDir) o.(wo_certificates) o.(wo_ui) o.(wo_name_rune).

Definition late_tick : list action := [
  Arrive_control "/control/outbound/scheduler/start" scheduler_request; Run_control 0; Run_control 0;
  Begin_tick; Run_tick 0; Run_tick 0; Run_tick 0; Run_tick 0;
  Arrive_control "/control/outbound/scheduler/stop" scheduler_request; Run_control 1; Run_control 1;
  Run_tick 0; Run_tick 0].

Example stopped_scheduler_writes :
  (λ p, (p.(pr_server).(sv_schedulerCancel), p.(pr_server).(sv_state).(rs_SessionState)))
    <$> exec_all answering_world (take 11 late_tick) (started scheduled_server None) = Some (false, "idle") ∧
  (λ p, (p.(pr_server).(sv_schedulerCancel), p.(pr_server).(sv_state).(rs_SessionState)))
    <$> exec_all answering_world late_tick (started scheduled_server None) = Some (false, "online").
Proof. split; vm_compute; reflexivity. Qed.

(** A pack that [ValidatePack] accepts and with which [Start] panics: its
    alternate paths hold one path twice. *)
Definition clashing_pack : MessagePack :=
  let p := example_pack 3000 in
  let w := p.(mp_Wire) in
  mkPack p.(mp_SchemaVersion) p.(mp_PackName) p.(mp_PackVersion) p.(mp_Description) p.(mp_Extends) p.(mp_Tags)
    (mkWire w.(wire_ProtocolFamily) w.(wire_Transport) w.(wire_Envelope) (mkPaths "/g2s" ["/alt"; "/alt"])
       w.(wire_Namespaces))
    p.(mp_ControlPlane) p.(mp_Timers) p.(mp_StateDefaults) p.(mp_LoggingHints) p.(mp_Operations).

(** So does one whose path has an open brace or a blank. *)
Definition listening_at (path : string) : Server :=
  set_sv_pack (example_pack 3000) (set_sv_cfg (set_cfg_EGMEndpoint (mkEGMEndpoint "http" "127.0.0.1" "" 0 path) example_config) example_server).

Definition is_started (s : start_outcome) : bool := match s with Started _ _ => true | _ => false end.

Example valid_pack_panics :
  ValidatePack (Some clashing_pack) = Ok () ∧
  (Start example_world example_network (set_sv_pack clashing_pack example_server)).1 = StartPanicked [""] ∧
  Forall (λ path, (Start example_world example_network (listening_at path)).1 = StartPanicked [""])
    ["/g2s/{id"; "/g2s lab"; "/g2s/{id}{session}"; "/{a}/{a}"; "/{rest...}/g2s"] ∧
  Forall (λ path, is_started (Start example_world example_network (listening_at path)).1 = true)
    ["/g2s/{id}"; "/g2s/"; "/g2s/{$}"; "/{rest...}"].
Proof. split_and!; [vm_compute; reflexivity..| |]; repeat constructor; vm_compute; reflexivity. Qed.

(** What [LoadConfig] returns has passed validation. *)
Lemma LoadConfig_ok fs reg path cfg : (LoadConfig fs reg path).2 = Ok cfg → config_ok cfg.
Proof.
  unfold LoadConfig. destruct (fs !! path) as [[j|]|]; [|done..]. destruct (dec j zero) as [c|]; [|done].
  destruct (ValidateConfig reg c) as [[reg' c'] [[]|e]] eqn:Hv; [|done]. cbn. intros [= <-].
  by apply ValidateConfig_ok in Hv as (? & -> & _).
Qed.

(** Every configuration then has a path, so that the default path of the pack is
    not used. *)
Lemma default_listener_path_unused fs reg path cfg pk :
  (LoadConfig fs reg path).2 = Ok cfg → head (wire_patterns cfg pk) = Some cfg.(cfg_EGMEndpoint).(ee_Path).
Proof.
  intros H. apply LoadConfig_ok, ok_endpoint, endpoint_path in H. unfold wire_patterns. cbn [head].
  rewrite or_default_id; [done|]. by apply (has_prefix_ne "/").
Qed.
