(* ===== verification/FleetStart.v ===== *)
(** * From the manifest to running processes
    (src/fleet, src/cmd/vegm-supervisor, src/cmd/vegm)

    What the supervisor writes for an instance, the process of the instance can
    be started with, and then answers the supervisor's question for its health. *)

From S2P Require Import Prelude GoStrings Url Json Config FleetTypes Fleet Generate Pack Render Envelope State Supervisor Panel Control Messages Outbound Scheduler Session Certificate Mux Patterns Logger Evidence Threads Process ProcessRuns ProcessSpec ProcessProps.

Section fleet.
Context (o : world) (nw : network) (open_log : string → string → string → result unit).

(** What the process of a configuration needs from outside: its pack and overlays,
    the log, free addresses, paths that can be registered, and, unless the wire is
    plain, its key pair and the CA file if clients are authenticated. *)
Record can_start (fs : gmap string file) (cfg : Config) (pk : MessagePack) : Prop := {
  start_pack : ∃ base, LoadPack fs cfg.(cfg_PackFile) = Ok base ∧ apply_overlays fs base cfg.(cfg_Overlay) = Ok pk;
  start_log : ∀ backend path dir, open_log backend path dir = Ok ();
  start_control : nw.(nw_Listen) cfg.(cfg_Control).(ct_Bind) = None;
  start_wire : nw.(nw_Listen) (wire_address cfg) = None;
  start_paths : patterns_ok o (wire_patterns cfg pk);
  start_keys : cfg.(cfg_Security).(sec_TrustMode) ≠ "plaintext_lab" →
    o.(wo_peer).(env_load_keypair) cfg.(cfg_Security).(sec_CertFile) cfg.(cfg_Security).(sec_KeyFile) = Ok ();
  start_ca : mutual_tls cfg.(cfg_Security).(sec_TrustMode) = true →
    is_ok (o.(wo_peer).(env_read_file) cfg.(cfg_Security).(sec_CAFile)) = true;
}.

Lemma NewServer_starts fs cfg pk modes :
  can_start fs cfg pk → ∃ w, NewServer o.(wo_clock) open_log fs cfg modes = Ok w ∧
    w.(sv_cfg) = cfg ∧ w.(sv_pack) = pk.
Proof.
  intros [(base & Hb & Ho) Hl _ _ _ _ _]. unfold NewServer. rewrite Hb. cbn [mbind result_bind]. rewrite Ho.
  cbn [mbind result_bind]. rewrite Hl. cbn [mbind result_bind]. by eexists.
Qed.

(** A mode that validation accepts is plain, one-sided or mutual. *)
Lemma accepted_mode cfg :
  config_ok cfg →
  let mode := cfg.(cfg_Security).(sec_TrustMode) in
  mode = "plaintext_lab" ∨ mode ∈ ["tls_server_only"; "accept_all_lab"] ∨
  mode ∈ ["strict_mtls"; "mtls_no_revocation"] ∧ mutual_tls mode = true.
Proof.
  intros Hc. destruct (ok_security _ Hc) as [?|(Hm & _)]; [by left|]. right.
  rewrite !elem_of_cons in Hm. destruct Hm as [->|[->|[->|[->|[]%not_elem_of_nil]]]];
    [left; set_solver..|right; split; [set_solver|done]|right; split; [set_solver|done]].
Qed.

Lemma makeWireTLSConfig_total fs cfg pk :
  can_start fs cfg pk → config_ok cfg → cfg.(cfg_Security).(sec_TrustMode) ≠ "plaintext_lab" →
  ∃ t, makeWireTLSConfig o cfg = Ok t.
Proof.
  intros Hs Hc Hp. unfold makeWireTLSConfig. rewrite (start_keys _ _ _ Hs Hp). cbn [mbind result_bind].
  destruct (accepted_mode cfg Hc) as [?|[Hm|[Hm Hmut]]]; [done|..].
  - rewrite (bool_decide_eq_true_2 _ Hm). by eexists.
  - destruct (bool_decide _); [by eexists|]. rewrite (bool_decide_eq_true_2 _ Hm).
    pose proof (start_ca _ _ _ Hs Hmut) as Hca. destruct (env_read_file _ _); [by eexists|done].
Qed.

Lemma Start_starts fs cfg pk w :
  can_start fs cfg pk → config_ok cfg → w.(sv_cfg) = cfg → w.(sv_pack) = pk →
  ∃ tls, (Start o nw w).1 = Started [cfg.(cfg_Control).(ct_Bind); wire_address cfg] tls ∧ wire_protection o cfg tls.
Proof.
  intros Hs Hc <- <-. unfold Start. rewrite M_bind_eq, M_bind_eq. cbn [gets fst snd].
  unfold startControl. rewrite (start_control _ _ _ Hs).
  pose proof (startWire_spec o nw (sv_cfg w) (sv_pack w) [ct_Bind (cfg_Control (sv_cfg w))]) as Hw.
  assert (Hst : ∃ open tls, startWire o nw (sv_cfg w) (sv_pack w) [ct_Bind (cfg_Control (sv_cfg w))] = Started open tls).
  { destruct (startWire _ _ _ _ _) as [open tls|e open|open]; [by eexists _, _|exfalso..].
    - destruct Hw as (_ & [[_ He]|(_ & Hp & He)]); [by rewrite (start_wire _ _ _ Hs) in He|].
      destruct (makeWireTLSConfig_total _ _ _ Hs Hc Hp) as [t Ht]. by rewrite Ht in He.
    - destruct Hw as [_ Hp]. by apply Hp, (start_paths _ _ _ Hs). }
  destruct Hst as (open & tls & Hst). rewrite Hst in *. destruct Hw as (-> & _ & _ & Hp).
  exists tls. split; [|done]. rewrite M_bind_eq, M_bind_eq. cbn [get_state gets fst snd]. by rewrite M_bind_eq.
Qed.

(** A process that starts has its health asked for. *)
Definition health_request : Request := mkRequest "GET" "" (Err "EOF") None "EOF".

Lemma healthy_answer w :
  (control_handler o "/healthz" health_request w).1
  = AResponse (mkResponse 200 (BJson [("instance_id", JStr w.(sv_cfg).(cfg_InstanceID)); ("ok", JBool true)])).
Proof.
  unfold control_handler. rewrite (route_exact _ _ (whole handleHealthz));
    [done|reflexivity|apply (control_paths_NoDup o "/healthz")|left].
Qed.

Lemma vegm_main_starts fs path cfg pk :
  (LoadConfig fs ∅ path).2 = Ok cfg → path ≠ "" → can_start fs cfg pk →
  ∃ w tls, vegm_main o open_log nw fs path
    = Ok (w, Started [cfg.(cfg_Control).(ct_Bind); wire_address cfg] tls, (StartSessionEngine w).1) ∧
    wire_protection o cfg tls ∧ consistent cfg w.
Proof.
  intros Hl Hp Hs. unfold vegm_main. rewrite bool_decide_eq_false_2 by done.
  pose proof (LoadConfig_ok _ _ _ _ Hl) as Hc.
  destruct (LoadConfig fs ∅ path) as [registry loaded]. cbn in Hl. subst loaded. cbn [mbind result_bind].
  destruct (NewServer_starts fs cfg pk registry Hs) as (w & Hw & Hcfg & Hpk). rewrite Hw. cbn [mbind result_bind].
  destruct (Start_starts fs cfg pk w Hs Hc Hcfg Hpk) as (tls & Ho & Ht).
  pose proof (Start_safe o nw cfg w (NewServer_consistent _ _ _ _ _ _ Hw)) as Hcon.
  destruct (Start o nw w) as [outcome w']. cbn in Ho, Hcon. subst outcome.
  by exists w', tls.
Qed.

Lemma normalised_bind e : (normalised (generated_config e)).(cfg_Control).(ct_Bind) = control_bind e.
Proof.
  assert (H : (fill_defaults (generated_config e)).(cfg_Control) = mkControl (control_bind e)).
  { unfold fill_defaults. by rewrite default_HostID_eq, applyEndpointDefaults_eq. }
  unfold normalised, default_Control. cbn -[fill_defaults control_bind]. rewrite H. cbn [ct_Bind].
  apply or_default_id. unfold control_bind. apply host_port_ne.
Qed.

Lemma asked_address e fallback :
  controlURLForConfig (control_bind e) fallback = "http://" +:+ control_bind e.
Proof.
  unfold control_bind. rewrite control_url by done. rewrite bool_decide_eq_false_2; [|set_solver].
  unfold host_port. reflexivity.
Qed.

Lemma consistent_identity cfg w : consistent cfg w → w.(sv_cfg).(cfg_InstanceID) = cfg.(cfg_InstanceID).
Proof. by intros [[mode ->]]. Qed.

Lemma config_starts fs path e cfg pk :
  cfg.(cfg_Control).(ct_Bind) = control_bind e → cfg.(cfg_InstanceID) = e.(ef_InstanceID) →
  (LoadConfig fs ∅ path).2 = Ok cfg → path ≠ "" → can_start fs cfg pk →
  ∃ w tls, vegm_main o open_log nw fs path
    = Ok (w, Started [control_bind e; wire_address cfg] tls, (StartSessionEngine w).1) ∧
    wire_protection o cfg tls ∧ w.(sv_state).(rs_InstanceID) = e.(ef_InstanceID) ∧
    (∀ fallback, controlURLForConfig (control_bind e) fallback = "http://" +:+ control_bind e) ∧
    (control_handler o "/healthz" health_request w).1
    = AResponse (mkResponse 200 (BJson [("instance_id", JStr e.(ef_InstanceID)); ("ok", JBool true)])).
Proof.
  intros Hb Hid Hl Hp Hs. destruct (vegm_main_starts fs path cfg pk Hl Hp Hs) as (w & tls & Hm & Ht & Hc).
  exists w, tls. split; [by rewrite Hm, Hb|]. split; [done|].
  split; [by rewrite (con_instance _ _ Hc), Hid|]. split; [apply asked_address|].
  by rewrite healthy_answer, (consistent_identity _ _ Hc), Hid.
Qed.

(** C24. The supervisor's configurations start: for every launchable instance of a
    generated fleet, [vegm -config] with the instance's file starts, if its pack,
    its log, its addresses, its paths and its keys are there. It listens on the
    instance's control address, where the supervisor asks for its health, and on
    the wire with the protection of its trust mode; it carries the instance's
    identifier and answers that question with it. *)
Theorem fleet_instance_starts denied m outDir fs fs' gens gen pk :
  GenerateConfigs denied (Some m) outDir fs = (fs', Ok gens) →
  Forall plain_instance m.(mf_Instances) → gen ∈ gens → launchable gen.(gc_Instance) →
  let inst := gen.(gc_Instance) in
  let cfg := normalised gen.(gc_Config) in
  can_start fs' cfg pk →
  ∃ w tls, vegm_main o open_log nw fs' gen.(gc_Path)
    = Ok (w, Started [control_bind inst; wire_address cfg] tls, (StartSessionEngine w).1) ∧
    wire_protection o cfg tls ∧ w.(sv_state).(rs_InstanceID) = inst.(ef_InstanceID) ∧
    (∀ fallback, controlURLForConfig (control_bind inst) fallback = "http://" +:+ control_bind inst) ∧
    (control_handler o "/healthz" health_request w).1
    = AResponse (mkResponse 200 (BJson [("instance_id", JStr inst.(ef_InstanceID)); ("ok", JBool true)])).
Proof.
  intros Hg Hplain Hgen Hlaunch inst cfg Hs.
  pose proof (proj2 (generated_loads denied m outDir fs fs' gens gen ∅ cfg Hg Hplain Hgen) (conj Hlaunch eq_refl)) as Hl.
  destruct (GenerateConfigs_inv _ _ _ _ _ _ Hg) as (effs & Hr & Hw).
  rewrite (write_configs_ok _ _ _ _ _ _ Hw) in Hgen.
  apply list_elem_of_In, in_map_iff in Hgen as (e & <- & He).
  apply config_starts with pk; try done.
  - apply normalised_bind.
  - apply normalised_InstanceID.
  - by apply JoinPath_ne, or_default_ne.
Qed.
End fleet.


(** ** Witness *)

Definition starting_fleet : gmap string file * result (list GeneratedConfig) :=
  GenerateConfigs (λ _, false) (Some (example_manifest two_instances)) "" {[
    "packs/g2s.json" := JsonFile (enc (example_pack 3000));
    "overlays/slow.json" := JsonFile (enc (example_overlay example_changes)) ]}.

(** What an instance needs, looked up. *)
Definition starting_pack (fs : gmap string file) (cfg : Config) : result MessagePack :=
  base ← LoadPack fs cfg.(cfg_PackFile); apply_overlays fs base cfg.(cfg_Overlay).
Definition starting_check (fs : gmap string file) (gen : GeneratedConfig) : bool :=
  let cfg := normalised gen.(gc_Config) in
  match starting_pack fs cfg with Ok pk => bool_decide (wire_patterns cfg pk = ["/floor"]) | Err _ => false end &&
  bool_decide (cfg.(cfg_Security).(sec_TrustMode) = "plaintext_lab").

Lemma starting_check_ok o fs gen :
  starting_check fs gen = true →
  ∃ pk, can_start o example_network (λ _ _ _, Ok ()) fs (normalised gen.(gc_Config)) pk.
Proof.
  unfold starting_check, starting_pack. set (cfg := normalised _). intros [H Ht%bool_decide_eq_true]%andb_prop.
  destruct (LoadPack _ _) as [base|] eqn:Hb; [|done]. cbn [mbind result_bind] in H.
  destruct (apply_overlays _ _ _) as [pk|] eqn:Ho; [|done]. apply bool_decide_eq_true in H.
  exists pk. split; try done; [by exists base| |by rewrite Ht].
  rewrite H. apply register_patterns_spec. vm_compute. by eexists.
Qed.

Lemma fleet_instance_starts_witness :
  ∃ gens gen w tls, starting_fleet.2 = Ok gens ∧ gen ∈ gens ∧
    vegm_main example_world (λ _ _ _, Ok ()) example_network starting_fleet.1 gen.(gc_Path)
    = Ok (w, Started [control_bind gen.(gc_Instance); wire_address (normalised gen.(gc_Config))] tls,
        (StartSessionEngine w).1).
Proof.
  assert (Hv : (λ gens, (map launch_view gens, map (starting_check starting_fleet.1) gens)) <$> starting_fleet.2
    = Ok ([(19000%Z, "lab_legacy_xml", "noop", "plaintext_lab");
           (8090%Z, "lab_legacy_xml", "noop", "plaintext_lab")], [true; true])) by (vm_compute; reflexivity).
  unfold starting_fleet in *. destruct (GenerateConfigs _ _ _ _) as [fs [gens|err]] eqn:Hg; [|discriminate].
  cbn [fst snd fmap result_fmap] in Hv. destruct gens as [|gen rest]; [discriminate|].
  cbn [map] in Hv. injection Hv as Hp Hm Hb Ht _ Hc _.
  assert (Hl : launchable gen.(gc_Instance)).
  { split; [rewrite Hp; lia|rewrite Hm; left|rewrite Hb; left|left; exact Ht]. }
  destruct (starting_check_ok example_world fs gen Hc) as [pk Hs].
  destruct (fleet_instance_starts example_world example_network (λ _ _ _, Ok ()) (λ _, false)
    (example_manifest two_instances) "" _ fs (gen :: rest) gen pk Hg
    ltac:(by repeat constructor) (list_elem_of_here gen rest) Hl Hs) as (w & tls & Hw & _).
  exists (gen :: rest), gen, w, tls. split; [done|]. split; [left|exact Hw].
Defined.
